(* ===== verification/_CoqProject ===== *)
-Q . S2P
Prelude.v
Float32.v
FloatSymmetry.v
RingBuffer.v
Filter.v
Controller.v
Avr.v
Timing.v
Encoder.v
LedServo.v
MotorPWM.v
Proximity.v
Battery.v
UsbEndpoint.v
Descriptors.v
ConfigDescriptors.v
UsbStream.v
EndpointWords.v
SerialIO.v
UsbDevice.v
SerialLink.v
Firmware.v
MessageHandling.v
MessageSpec.v
Protocol.v
Drive.v
ObstacleAvoidance.v
MainLoop.v
MainSpec.v
System.v
Blocks.v
Passes.v
Dialogue.v
DriveMachine.v
CommandStream.v
HostOrders.v
