(* ===== verification/Prelude.v ===== *)
(** * Zumo-Delivery firmware: verification library

    The firmware of a small delivery robot (an ATmega32U4 with two tracks, a gripper,
    an infrared sensor and a USB serial link), modelled in Rocq from its C
    sources.  This comment says what is modelled and where, what the theorems
    show, which bounds are chosen, and what is left out.

    ** The program and how its parts interact

    [main] (Application/Main.c) calls [InitializeSystem] and then runs seventeen
    blocks in order, forever: the serial upkeep, the command interpreter, and one block
    per message flag (restart, battery, reports, timed duty cycle, distance
    and velocity control, stop, infrared report, obstacle avoidance).  The host's
    commands arrive byte by byte through USB; the interpreter acts on a complete
    message at once or sets a flag with a period, and the flag's block acts
    when the period has passed.  Interrupts run in between: the millisecond timer,
    the two wheel encoders, and the two of the USB library.

    ** Files, sources, state and operations

    - Prelude: wrap-around integers ([u8], [s16], ...), the state and option monad
      [M] with its rules ([wp_bind], [wp_gets], ...), little-endian bytes, [lastn].
    - Float32: the C types float and double, both binary32, over the executable
      IEEE specification of the Standard Library; FloatSymmetry: negation, absolute
      values and the sign symmetry of products and quotients.
    - Avr: the registers as one enumerated type and a register file [regs]; a
      write truncates to the register's width.
    - RingBuffer (Driver/Ring_Buffer.c): [Ring], generic in element and size, with
      the class of bounded queues its clients rely on; state: slots, two indices.
    - Filter, Controller (Driver/Filter.c, Controller.c): the digital filter over four
      rings, and the controllers' targets.
    - Timing, Encoder, LedServo, MotorPWM, Proximity, Battery (Driver/Timing.c,
      Encoder.c, LED_switch.c with ServoPWM.c, MotorPWM.c, Proximity.c,
      Battery_Monitor.c): each driver's static variables as a record and its
      functions on that record and the registers.  Encoder carries the physical
      contract of the wheels, Battery the converter, Proximity the port samples.
    - UsbEndpoint, EndpointWords (lufa/.../AVR8/Endpoint_AVR8.h and .c): the endpoint
      hardware [usb_hw] and the library's functions on it.
    - Descriptors (Driver/USB_Config/Descriptors.c): the descriptors with their
      packed bytes, and a host that parses them.
    - ConfigDescriptors (lufa/.../Core/ConfigDescriptors.c): the searches through a
      configuration descriptor.
    - UsbStream (lufa/.../EndpointStream_AVR8.c and its templates): the functions
      that wait for the host, over a schedule of the host's moves.
    - SerialIO (Driver/SerialIO.c): the two rings, the message format and the
      handlers of the library's events; UsbDevice (lufa/.../DeviceStandardReq.c,
      USBTask.c, USBController_AVR8.c, USBInterrupt_AVR8.c): the standard requests,
      the start of the controller and the two interrupt handlers; SerialLink: the two
      functions of SerialIO.c that call the library, the link as two byte streams,
      and enumeration.
    - Firmware (Application/application_defines.h): the whole state [fw] and the
      drivers' functions as calls on it (module [Call]), with a rule for each.
    - MessageHandling, MessageSpec, Protocol, Drive
      (Application/MEGN540_MessageHandeling.c): every case of the switch, what each does,
      and the protocol's and the drive commands' properties.
    - ObstacleAvoidance (Application/Obstacle_Avoidance.c): the task, and its abstract
      decision machine [Decision].
    - MainLoop, MainSpec (Application/Main.c): the blocks, and the invariant [sys_ok]
      every block keeps.
    - System: the running machine [step] (blocks and environment interleaved);
      Blocks: properties of single blocks; Passes and Dialogue: the machine
      together with a host; DriveMachine: the machine as its wheels see it, an
      abstract machine of twelve motions ([move], [possible]) over outputs, goals and
      controls ([drive_of]).
    - CommandStream: a reader of the host's packets ([understand]: messages, and
      bytes that start none and take the rest of their packet along), the
      machine as that reader with part of the packets still to come ([outlook]), and the
      histories of machine, host and environment ([history]); HostOrders: what the
      inputs of a history make of the driving machine.

    A C function is a Rocq function with the same name; a loop is a recursion on
    its bound, on fuel, or on the schedule; a [switch] is a chain of tests with a
    definition per case; [None] is behaviour the C standard gives no meaning (a
    signed overflow, a float out of the range of the integer it is converted to,
    a read outside an array) or a loop that does not end.

    ** What the theorems show

    - The machine (System): from power-on, under any interleaving of blocks, interrupts, wheels,
      bus and host, at most one motor control is active, the obstacle avoidance keeps
      its course, the motor timer's values stay within its period, and the rings hold at
      most 63 bytes; and the next block is always defined and ends.
    - End to end (Dialogue): a host's questions, each sent as one packet, are
      answered by the whole loop with exactly the frames of a table, in order, also
      from power-on through plugging in and enumeration; and any complete command
      reaches the interpreter whole.
    - Commands (CommandStream, HostOrders): for packets of any bytes but a '~' command,
      split as the host likes, the interpreter sees exactly the inputs the reader finds, in
      order, each once; every packet gets through in as many passes as it has bytes;
      the input ring never holds more than 13 bytes; and the host can tell from its
      packets alone whether the robot stands still.
    - Driving (DriveMachine): a block of the machine makes a motion exactly when it has an
      order or its flag fires, and then the right one; without an accepted order, and with
      a weak battery, the motors stay off from power-on; a stop holds until the next
      order; a new distance is measured from the old baseline, which is a flaw of the
      program.
    - Motion (Drive, Blocks, ObstacleAvoidance, MotorPWM): the stop command stops whatever
      the robot did; the drive commands set the targets of a table by absolute
      values, which differs from the comments for spins and for right turns of 'v', and
      leave one control active; a weak battery refuses them; the controls drive toward
      their targets and stop there; the obstacle avoidance refines its decision
      machine and drives straight again once the way is free.
    - Protocol (Protocol, MessageSpec, SerialIO): complete messages are taken whole and
      answered by at most one well-formed frame, incomplete ones wait, unknown bytes
      empty the input; frames round-trip; flags fire when their period has passed, also
      across the wrap-around of the clock.
    - The link (SerialLink): nothing is lost or reordered in either direction under any interleaving,
      and both directions make progress.
    - The USB device (UsbDevice, UsbStream, Descriptors): every request is answered or
      refused, most leave the data path alone, descriptors are served whole, an
      enumeration sets the link up, bus events change the state as they should; a
      control transfer sends a prefix of its data whatever happens, its code says why
      it ended, and it sends all of it when the host goes along.
    - Data structures and numbers (RingBuffer, Filter, Battery, Encoder, Timing,
      ConfigDescriptors, EndpointWords): rings refine queues; the filter computes its difference
      equation; the counts follow the wheels; elapsed time and its wrap-around; the
      searches are searches in a list.

    ** Bounds, fuel and schedules

    - Waiting for the converter gets its latency as fuel, which is enough for every
      latency ([battery_sample]); [DelayMicroseconds] has fuel for its 16-bit count.
    - Endpoint sizes are at most 512, so seven turns find the size mask.  The searches of
      ConfigDescriptors need as much fuel as there are sub-descriptors; with a
      sub-descriptor of size zero no fuel is enough, which is a theorem.
    - A function that waits for the host takes one move of its schedule per turn; it has no
      result when the schedule ends first.  The safety theorems hold for every
      schedule; the liveness theorems name a schedule (a host that collects and
      acknowledges) and show that the function ends with it.
    - [dialogue] waits, per question, at least one pass for each byte of question
      and answer; that is enough because one byte moves each way per pass.  It runs
      between two ticks of the clock: a robot on which a flag falls due in between
      is covered by the invariants but not by the table.
    - Durations and elapsed times compare exactly up to 2^24 ms and as rounded floats up
      to 2^32 ms, the bounds [flag_fires] states.

    ** The environment

    The hardware's side is data or steps of the environment: the converter's latencies and
    results, the port samples of an infrared read, the pins and counters that
    change between blocks, the flags the bus raises, the host's packets, and the
    chip's signature row.  What is asked of it is stated: converter results of ten
    bits ([env_ok]), two compare registers at their reset value ([fresh_regs]).
    In a [history] the environment does between two blocks what it likes but changing the
    data path of the link: no reset, no other address or configuration, no halted
    data endpoint ([same_path]); and the packets must not make '~' a command, which
    keeps its place in the input for ever ([no_restart]).
    Where a block's conversions must be in range, [control_defined],
    [message_defined] and [pwm_args_ok] say so.

    ** Not modelled

    - The two compile-time switches of Main.c are off as in the source; their
      branches are modelled, but nothing is proved about the closed loop.
    - An interrupt that falls inside a block acts as if it came between two blocks;
      inside the library's waits it is a move of the schedule ([BusState] stands for a bus
      interrupt nested there).  The encoder counts are read with interrupts off, which
      Encoder shows; the clock is not, and Timing shows what a tick inside its read
      does ([GetTime_torn]) while the machine of System reads it whole.  The global
      interrupt flag is not part of the USB state.
    - The watchdog and clock writes of [USB_SetupHardware], the data toggles, CRC errors
      and timing of the bus; isochronous endpoints and double banks, which the
      firmware does not configure.
    - The size limit of an endpoint's bank, which the program does not reach, and
      the chip's check of an endpoint's memory (CFGOK stands for the ALLOC bit written).
    - The encoder counts wrap after 2^31 counts, where C leaves the overflow undefined; a
      NaN has one payload, so frames with a NaN result are exact but for its bits.
    - The printf debug functions of Ring_Buffer.c and Filter.c, which change no state.
    - Everything of the LUFA distribution the firmware does not link: host mode and the
      pipes, the class drivers, the ports to other controllers (XMEGA, AVR32), the demos,
      projects and bootloaders.  The host programs under User are in Python. *)
From Stdlib Require Export ZArith Lia Ascii String.
From stdpp Require Export base tactics option numbers sets list.

#[global] Open Scope Z_scope.

(** ** Machine integers

    AVR integers are kept as [Z] in range; every C conversion to a narrower
    type is one of these wraps. *)

Definition uwrap (w z : Z) : Z := z mod 2 ^ w.
Definition swrap (w z : Z) : Z := (z + 2 ^ (w - 1)) mod 2 ^ w - 2 ^ (w - 1).

Definition u8 : Z -> Z := uwrap 8.
Definition u16 : Z -> Z := uwrap 16.
Definition u32 : Z -> Z := uwrap 32.
Definition s8 : Z -> Z := swrap 8.
Definition s16 : Z -> Z := swrap 16.
Definition s32 : Z -> Z := swrap 32.

Definition is_u (w z : Z) : Prop := 0 <= z < 2 ^ w.
Definition is_s (w z : Z) : Prop := - 2 ^ (w - 1) <= z < 2 ^ (w - 1).

(** The code of a character literal, as the [char] value C gives it. *)
Definition ch (a : ascii) : Z := Z.of_N (N_of_ascii a).

(** [X |= m], [X &= ~m]; avr-libc's [bit_is_set(X, n)], which is the masked
    value [X & (1 << n)], not a truth value; and C's conversion to [bool]. *)
Definition set_bits (x m : Z) : Z := Z.lor x m.
Definition clear_bits (x m : Z) : Z := Z.land x (Z.lnot m).
Definition bit_is_set (x n : Z) : Z := Z.land x (2 ^ n).
Definition to_bool (z : Z) : bool := negb (z =? 0).

Lemma uwrap_range w z : 0 <= w -> is_u w (uwrap w z).
Proof. intros Hw. apply Z.mod_pos_bound. lia. Qed.

Lemma uwrap_id w z : is_u w z -> uwrap w z = z.
Proof. apply Z.mod_small. Qed.

Lemma swrap_range w z : 1 <= w -> is_s w (swrap w z).
Proof.
  intros Hw. unfold swrap, is_s.
  pose proof (Z.mod_pos_bound (z + 2 ^ (w - 1)) (2 ^ w)).
  assert (2 ^ w = 2 * 2 ^ (w - 1)) by
    (rewrite <- Z.pow_succ_r by lia; f_equal; lia).
  assert (0 < 2 ^ (w - 1)) by lia. lia.
Qed.

Lemma swrap_id w z : 1 <= w -> is_s w z -> swrap w z = z.
Proof.
  intros Hw [H1 H2]. unfold swrap.
  assert (2 ^ w = 2 * 2 ^ (w - 1)) by
    (rewrite <- Z.pow_succ_r by lia; f_equal; lia).
  rewrite Z.mod_small; lia.
Qed.

Lemma u8_range z : 0 <= u8 z < 256.
Proof. apply (uwrap_range 8). lia. Qed.
Lemma u16_range z : 0 <= u16 z < 65536.
Proof. apply (uwrap_range 16). lia. Qed.
Lemma u32_range z : 0 <= u32 z < 4294967296.
Proof. apply (uwrap_range 32). lia. Qed.
Lemma s8_range z : -128 <= s8 z < 128.
Proof. apply (swrap_range 8). lia. Qed.
Lemma s16_range z : -32768 <= s16 z < 32768.
Proof. apply (swrap_range 16). lia. Qed.

Lemma u8_id z : 0 <= z < 256 -> u8 z = z.
Proof. apply (uwrap_id 8). Qed.
Lemma u16_id z : 0 <= z < 65536 -> u16 z = z.
Proof. apply (uwrap_id 16). Qed.
Lemma s8_id z : -128 <= z < 128 -> s8 z = z.
Proof. apply (swrap_id 8). lia. Qed.
Lemma s16_id z : -32768 <= z < 32768 -> s16 z = z.
Proof. apply (swrap_id 16). lia. Qed.

(** The byte survives the trip through a signed [char]. *)
Lemma u8_s8 z : u8 (s8 z) = u8 z.
Proof.
  unfold u8, s8, uwrap, swrap.
  rewrite Zminus_mod_idemp_l. f_equal. lia.
Qed.

Lemma s8_u8 z : s8 (u8 z) = s8 z.
Proof.
  unfold u8, s8, uwrap, swrap. rewrite Zplus_mod_idemp_l. done.
Qed.

Lemma s8_idemp z : s8 (s8 z) = s8 z.
Proof. apply s8_id, s8_range. Qed.

Lemma u8_idemp z : u8 (u8 z) = u8 z.
Proof. apply u8_id, u8_range. Qed.

Create Rewrite HintDb ints.
#[export] Hint Rewrite u8_s8 s8_u8 s8_idemp u8_idemp : ints.

Lemma land_ones_mod z n : 0 <= n -> Z.land z (2 ^ n - 1) = z mod 2 ^ n.
Proof.
  intros. rewrite <- Z.land_ones by lia. f_equal.
  rewrite Z.ones_equiv. lia.
Qed.

(** Setting or clearing bits outside position [n] leaves bit [n] alone. *)
Lemma testbit_set_bits x m n :
  Z.testbit (set_bits x m) n = Z.testbit x n || Z.testbit m n.
Proof. apply Z.lor_spec. Qed.

Lemma testbit_clear_bits x m n :
  0 <= n -> Z.testbit (clear_bits x m) n = Z.testbit x n && negb (Z.testbit m n).
Proof. intros. unfold clear_bits. by rewrite Z.land_spec, Z.lnot_spec. Qed.

Lemma bit_is_set_testbit x n : 0 <= n -> bit_is_set x n = if Z.testbit x n then 2 ^ n else 0.
Proof.
  intros Hn. unfold bit_is_set. apply Z.bits_inj'. intros i Hi.
  rewrite Z.land_spec. destruct (decide (i = n)) as [->|Hne].
  - rewrite Z.pow2_bits_true by lia. rewrite andb_true_r.
    destruct (Z.testbit x n); [by rewrite Z.pow2_bits_true | by rewrite Z.bits_0].
  - rewrite Z.pow2_bits_false by lia. rewrite andb_false_r.
    destruct (Z.testbit x n); [by rewrite Z.pow2_bits_false by lia | by rewrite Z.bits_0].
Qed.

Lemma to_bool_bit_is_set x n : 0 <= n -> to_bool (bit_is_set x n) = Z.testbit x n.
Proof.
  intros Hn. rewrite bit_is_set_testbit by done. unfold to_bool.
  destruct (Z.testbit x n); [|done]. pose proof (Z.pow_pos_nonneg 2 n).
  destruct (Z.eqb_spec (2 ^ n) 0); [lia|done].
Qed.

Lemma to_bool_mask x m n : m = 2 ^ n -> 0 <= n -> to_bool (Z.land x m) = Z.testbit x n.
Proof. intros ->. apply to_bool_bit_is_set. Qed.

(** ** State and undefined behaviour

    A C function over a state [S] that returns an [A]: [None] is undefined
    behaviour (the C standard gives the execution no meaning). *)

Definition M (S A : Type) : Type := S -> option (A * S).

#[export] Instance M_ret S : MRet (M S) := fun A a s => Some (a, s).
#[export] Instance M_bind S : MBind (M S) := fun A B k m s =>
  match m s with
  | Some (a, s') => k a s'
  | None => None
  end.

Definition undefined {S A} : M S A := fun _ => None.
Definition gets {S A} (f : S -> A) : M S A := fun s => Some (f s, s).
Definition modify {S} (f : S -> S) : M S unit := fun s => Some (tt, f s).
Definition of_option {S A} (o : option A) : M S A := fun s =>
  match o with Some a => Some (a, s) | None => None end.
Definition when {S} (b : bool) (m : M S unit) : M S unit :=
  if b then m else mret tt.

(** A total pure function that returns a value and a new state. *)
Definition state_fn {S A} (f : S -> A * S) : M S A := fun s => Some (f s).

(** [wp m Q s]: from [s] the code has a defined behaviour and ends in [Q]. *)
Definition wp {S A} (m : M S A) (Q : A -> S -> Prop) (s : S) : Prop :=
  match m s with
  | Some (a, s') => Q a s'
  | None => False
  end.

Section wp.
Context {S : Type}.

Lemma wp_ret {A} (a : A) Q (s : S) : wp (mret a) Q s <-> Q a s.
Proof. done. Qed.

Lemma wp_bind {A B} (m : M S A) (k : A -> M S B) Q s :
  wp (mbind k m) Q s <-> wp m (fun a => wp (k a) Q) s.
Proof. unfold wp, mbind, M_bind. by destruct (m s) as [[??]|]. Qed.

Lemma wp_gets {A} (f : S -> A) Q s : wp (gets f) Q s <-> Q (f s) s.
Proof. done. Qed.

Lemma wp_modify (f : S -> S) Q s : wp (modify f) Q s <-> Q tt (f s).
Proof. done. Qed.

Lemma wp_state_fn {A} (f : S -> A * S) Q s :
  wp (state_fn f) Q s <-> Q (f s).1 (f s).2.
Proof. unfold wp, state_fn. by destruct (f s). Qed.

Lemma wp_mono {A} (m : M S A) (Q Q' : A -> S -> Prop) s :
  wp m Q s -> (forall a s', Q a s' -> Q' a s') -> wp m Q' s.
Proof. unfold wp. destruct (m s) as [[??]|]; auto. Qed.

Lemma wp_and {A} (m : M S A) (Q Q' : A -> S -> Prop) s :
  wp m Q s -> wp m Q' s -> wp m (fun a s' => Q a s' /\ Q' a s') s.
Proof. unfold wp. by destruct (m s) as [[??]|]. Qed.

Lemma wp_result {A} (m : M S A) (Q : A -> S -> Prop) s a s' : wp m Q s -> m s = Some (a, s') -> Q a s'.
Proof. unfold wp. intros H E. by rewrite E in H. Qed.

Lemma wp_run {A} (m : M S A) Q s :
  wp m Q s <-> exists a s', m s = Some (a, s') /\ Q a s'.
Proof.
  unfold wp. destruct (m s) as [[a s']|]; split; try done.
  - eauto.
  - by intros (?&?&[= <- <-]&?).
  - by intros (?&?&?&?).
Qed.
End wp.

Lemma option_bind_run {A B} (o : option A) (k : A -> option B) a : o = Some a -> (o ≫= k) = k a.
Proof. by intros ->. Qed.

(** ** Lists *)

(** The last [n] elements. *)
Definition lastn {A} (n : nat) (l : list A) : list A :=
  drop (List.length l - n) l.

Section lastn.
Context {A : Type}.
Implicit Types l : list A.

Lemma lastn_all n l : (List.length l <= n)%nat -> lastn n l = l.
Proof. intros. unfold lastn. by replace (List.length l - n)%nat with 0%nat by lia. Qed.

Lemma length_lastn n l : List.length (lastn n l) = Nat.min n (List.length l).
Proof. unfold lastn. rewrite length_drop. lia. Qed.

(** Keeping the last [n] after every push is keeping the last [n] at the end. *)
Lemma lastn_app_lastn n l k : lastn n (lastn n l ++ k) = lastn n (l ++ k).
Proof.
  unfold lastn.
  rewrite length_app, length_drop, length_app.
  destruct (decide (List.length l <= n)%nat).
  - replace (List.length l - n)%nat with 0%nat by lia. by rewrite drop_0, Nat.sub_0_r.
  - rewrite !drop_app, drop_drop, length_drop. f_equal; f_equal; lia.
Qed.
End lastn.

Fixpoint le_split (n : nat) (z : Z) : list Z :=
  match n with
  | O => []
  | Datatypes.S n => (z mod 256) :: le_split n (z / 256)
  end.

Fixpoint le_combine (l : list Z) : Z :=
  match l with
  | [] => 0
  | b :: l => b + 256 * le_combine l
  end.

(** A 16-bit integer in its two bytes. *)
Definition bytes_of_s16 (z : Z) : list Z := le_split 2 (u16 z).

Lemma length_le_split n z : List.length (le_split n z) = n.
Proof. revert z; induction n; intros; simpl; auto. Qed.

Lemma le_split_bytes n z : Forall (is_u 8) (le_split n z).
Proof.
  revert z; induction n; intros z; simpl; constructor; auto.
  apply (uwrap_range 8). lia.
Qed.

Lemma le_combine_split n z : le_combine (le_split n z) = z mod 2 ^ (8 * Z.of_nat n).
Proof.
  revert z; induction n as [|n IH]; intros z; simpl.
  - by rewrite Z.mod_1_r.
  - rewrite IH. replace (8 * Z.of_nat (Datatypes.S n)) with (8 + 8 * Z.of_nat n) by lia.
    rewrite Z.pow_add_r by lia. change (2 ^ 8) with 256.
    rewrite Z.rem_mul_r by lia. lia.
Qed.

Lemma le_split_combine l : Forall (is_u 8) l -> le_split (List.length l) (le_combine l) = l.
Proof.
  induction 1 as [|b l Hb _ IH]; simpl; [done|].
  unfold is_u in Hb. change (2 ^ 8) with 256 in Hb.
  f_equal.
  - rewrite Z.mul_comm, Z.mod_add, Z.mod_small; lia.
  - by rewrite Z.mul_comm, Z.div_add, Z.div_small, Z.add_0_l by lia.
Qed.

(** Lists of bytes. *)
Definition is_byte : Z -> Prop := is_u 8.

Lemma u8_bytes l : Forall is_byte l -> u8 <$> l = l.
Proof.
  induction 1 as [|b l Hb _ IH]; [done|].
  rewrite fmap_cons, IH. f_equal. by apply u8_id.
Qed.
