(* ===== verification/Float32.v ===== *)
(** * Float32: the [float] type of the firmware

    avr-gcc gives [float] and [double] the same 32-bit representation, so every
    floating-point expression of the sources is binary32 arithmetic, rounded
    to nearest-even.  The operations are the executable IEEE-754 specification
    of the Standard Library ([SpecFloat]) at precision 24 and maximal exponent
    128.  [bytes_of_f32]/[f32_of_bytes] are the little-endian image a [float]
    has in a packed struct, and [f32_scaled] is the exact value, in units of
    2^-149, which turns comparisons into integer comparisons. *)
From Stdlib Require Import SpecFloat.
From S2P Require Import Prelude.

Abbreviation f32 := spec_float.
Abbreviation fprec := 24.
Abbreviation femax := 128.

Definition f32_add : f32 -> f32 -> f32 := SFadd fprec femax.
Definition f32_sub : f32 -> f32 -> f32 := SFsub fprec femax.
Definition f32_mul : f32 -> f32 -> f32 := SFmul fprec femax.
Definition f32_div : f32 -> f32 -> f32 := SFdiv fprec femax.
Definition f32_opp : f32 -> f32 := SFopp.
Definition f32_lt (x y : f32) : bool := SFltb x y.
Definition f32_le (x y : f32) : bool := SFleb x y.
Definition f32_eq (x y : f32) : bool := SFeqb x y.

Declare Scope f32_scope.
Delimit Scope f32_scope with f32.
Infix "+" := f32_add : f32_scope.
Infix "-" := f32_sub : f32_scope.
Infix "*" := f32_mul : f32_scope.
Infix "/" := f32_div : f32_scope.
Infix "<" := f32_lt : f32_scope.
Notation "x > y" := (f32_lt y x) (only parsing) : f32_scope.
Infix "<=" := f32_le : f32_scope.
Notation "x >= y" := (f32_le y x) (only parsing) : f32_scope.

(** [(float)z] for an integer [z]. *)
Definition f32_of_Z (z : Z) : f32 := binary_normalize fprec femax z 0 false.

(** The literal [n/d] (a decimal literal with [d] a power of ten), correctly
    rounded as the compiler rounds it. *)
Definition f32_lit (n d : Z) : f32 :=
  match n, d with
  | Zpos n, Zpos d => SFdiv fprec femax (S754_finite false n 0) (S754_finite false d 0)
  | Zneg n, Zpos d => SFdiv fprec femax (S754_finite true n 0) (S754_finite false d 0)
  | _, _ => S754_zero false
  end.

Definition f32_zero : f32 := S754_zero false.

(** Truncation toward zero of a finite value; [None] for NaN and infinities. *)
Definition f32_trunc (x : f32) : option Z :=
  match x with
  | S754_zero _ => Some 0
  | S754_finite s m e =>
      let a := match e with
               | Z0 => Zpos m
               | Zpos _ => Z.shiftl (Zpos m) e
               | Zneg p => Z.shiftr (Zpos m) (Zpos p)
               end in
      Some (cond_Zopp s a)
  | _ => None
  end.

(** Conversion to a 16-bit [int]: undefined when the truncated value is not
    representable (C11 6.3.1.4). *)
Definition f32_to_s16 (x : f32) : option Z :=
  match f32_trunc x with
  | Some z => if (-32768 <=? z) && (z <=? 32767) then Some z else None
  | None => None
  end.

(** Conversion to [uint16_t]. *)
Definition f32_to_u16 (x : f32) : option Z :=
  match f32_trunc x with
  | Some z => if (0 <=? z) && (z <=? 65535) then Some z else None
  | None => None
  end.

(** ** Representation *)

Definition f32_sign (x : f32) : bool :=
  match x with
  | S754_zero s | S754_infinity s | S754_finite s _ _ => s
  | S754_nan => false
  end.

Definition sign_bit (s : bool) : Z := if s then 2 ^ 31 else 0.

Definition f32_bits (x : f32) : Z :=
  match x with
  | S754_zero s => sign_bit s
  | S754_infinity s => sign_bit s + 255 * 2 ^ 23
  | S754_nan => 255 * 2 ^ 23 + 2 ^ 22
  | S754_finite s m e =>
      if 2 ^ 23 <=? Zpos m
      then sign_bit s + (e + 150) * 2 ^ 23 + (Zpos m - 2 ^ 23)
      else sign_bit s + Zpos m
  end.

Definition f32_of_bits (b : Z) : f32 :=
  let s := 2 ^ 31 <=? b mod 2 ^ 32 in
  let ex := (b / 2 ^ 23) mod 256 in
  let m := b mod 2 ^ 23 in
  if ex =? 255 then (if m =? 0 then S754_infinity s else S754_nan)
  else if ex =? 0 then
    match m with Zpos p => S754_finite s p (-149) | _ => S754_zero s end
  else
    match m + 2 ^ 23 with Zpos p => S754_finite s p (ex - 150) | _ => S754_nan end.

Definition bytes_of_f32 (x : f32) : list Z := le_split 4 (f32_bits x).
Definition f32_of_bytes (l : list Z) : f32 := f32_of_bits (le_combine l).

(** A canonical binary32 value. *)
Definition f32_valid (x : f32) : Prop := valid_binary fprec femax x = true.

(** The exact value of a finite number in units of 2^-149. *)
Definition f32_scaled (x : f32) : Z :=
  match x with
  | S754_finite s m e => cond_Zopp s (Zpos m * 2 ^ (e + 149))
  | _ => 0
  end.

Definition f32_finite (x : f32) : bool :=
  match x with S754_zero _ | S754_finite _ _ _ => true | _ => false end.

(** ** Canonical mantissas *)

Lemma digits2_pos_bounds m :
  2 ^ (Zpos (digits2_pos m) - 1) <= Zpos m < 2 ^ Zpos (digits2_pos m).
Proof.
  induction m as [m IH|m IH|]; [..|by vm_compute].
  all: cbn [digits2_pos]; rewrite Pos2Z.inj_succ.
  all: replace (Z.succ (Zpos (digits2_pos m)) - 1) with (Zpos (digits2_pos m) - 1 + 1) by lia.
  all: rewrite Z.pow_add_r, Z.pow_succ_r by lia; lia.
Qed.

Lemma digits2_pos_le m n : Zpos m < 2 ^ n -> 0 <= n -> Zpos (digits2_pos m) <= n.
Proof.
  intros Hm Hn. pose proof (digits2_pos_bounds m) as [H _].
  assert (Zpos (digits2_pos m) - 1 < n); [|lia].
  apply (Z.pow_lt_mono_r_iff 2); lia.
Qed.

Lemma digits2_pos_ge m n : 2 ^ n <= Zpos m -> 0 <= n -> n < Zpos (digits2_pos m).
Proof.
  intros Hm Hn. pose proof (digits2_pos_bounds m) as [_ H].
  apply (Z.pow_lt_mono_r_iff 2); lia.
Qed.

(** A valid finite value is either normal or subnormal. *)
Lemma valid_finite_cases s m e :
  f32_valid (S754_finite s m e) ->
  (2 ^ 23 <= Zpos m < 2 ^ 24 /\ -149 <= e <= 104) \/ (Zpos m < 2 ^ 23 /\ e = -149).
Proof.
  unfold f32_valid, valid_binary, bounded, canonical_mantissa, fexp, emin.
  intros [H1%Z.eqb_eq H2%Z.leb_le]%andb_prop.
  pose proof (digits2_pos_bounds m) as Hb.
  destruct (decide (Zpos (digits2_pos m) = 24)) as [H|H].
  - rewrite H in *. cbn in Hb. lia.
  - right. split; [|lia].
    eapply Z.lt_le_trans; [apply Hb|]. apply Z.pow_le_mono_r; lia.
Qed.

Lemma finite_valid s m e :
  (2 ^ 23 <= Zpos m < 2 ^ 24 /\ -149 <= e <= 104) \/ (Zpos m < 2 ^ 23 /\ e = -149) ->
  f32_valid (S754_finite s m e).
Proof.
  unfold f32_valid, valid_binary, bounded, canonical_mantissa, fexp, emin.
  intros [[Hm He]|[Hm ->]].
  - pose proof (digits2_pos_le m 24); pose proof (digits2_pos_ge m 23).
    replace (Zpos (digits2_pos m)) with 24 by lia.
    apply andb_true_intro; split; [apply Z.eqb_eq | apply Z.leb_le]; lia.
  - pose proof (digits2_pos_le m 23).
    apply andb_true_intro; split; [apply Z.eqb_eq | apply Z.leb_le]; lia.
Qed.

(** ** The byte image is faithful *)

Section bits.
Local Lemma bits_fields s ex m :
  0 <= ex < 256 -> 0 <= m < 2 ^ 23 ->
  let b := sign_bit s + ex * 2 ^ 23 + m in
  (2 ^ 31 <=? b mod 2 ^ 32) = s /\ (b / 2 ^ 23) mod 256 = ex /\ b mod 2 ^ 23 = m.
Proof.
  intros He Hm b.
  assert (Hb : 0 <= ex * 2 ^ 23 + m < 2 ^ 31) by lia.
  assert (Hq : b / 2 ^ 23 = (if s then 256 else 0) + ex).
  { replace b with (m + ((if s then 256 else 0) + ex) * 2 ^ 23).
    - rewrite Z.div_add, Z.div_small by lia. lia.
    - unfold b, sign_bit. destruct s; lia. }
  split_and!.
  - unfold b, sign_bit. rewrite Z.mod_small by (destruct s; lia).
    destruct s; [apply Z.leb_le | apply Z.leb_gt]; lia.
  - rewrite Hq. destruct s.
    + replace (256 + ex) with (ex + 1 * 256) by lia. rewrite Z.mod_add, Z.mod_small; lia.
    + rewrite Z.mod_small; lia.
  - unfold b, sign_bit.
    replace ((if s then 2 ^ 31 else 0) + ex * 2 ^ 23 + m)
      with (m + ((if s then 256 else 0) + ex) * 2 ^ 23) by (destruct s; lia).
    rewrite Z.mod_add, Z.mod_small; lia.
Qed.

Local Lemma of_bits_fields s ex m :
  0 <= ex < 256 -> 0 <= m < 2 ^ 23 ->
  f32_of_bits (sign_bit s + ex * 2 ^ 23 + m) =
    if ex =? 255 then (if m =? 0 then S754_infinity s else S754_nan)
    else if ex =? 0 then
      match m with Zpos p => S754_finite s p (-149) | _ => S754_zero s end
    else
      match m + 2 ^ 23 with Zpos p => S754_finite s p (ex - 150) | _ => S754_nan end.
Proof.
  intros He Hm. destruct (bits_fields s ex m He Hm) as (H1&H2&H3).
  unfold f32_of_bits. by rewrite H1, H2, H3.
Qed.

Lemma f32_of_bits_bits x : f32_valid x -> f32_of_bits (f32_bits x) = x.
Proof.
  intros Hv. destruct x as [s|s| |s m e]; simpl f32_bits.
  - replace (sign_bit s) with (sign_bit s + 0 * 2 ^ 23 + 0) by lia.
    by rewrite of_bits_fields by lia.
  - replace (sign_bit s + _) with (sign_bit s + 255 * 2 ^ 23 + 0) by lia.
    by rewrite of_bits_fields by lia.
  - by vm_compute.
  - apply valid_finite_cases in Hv as [[Hm He]|[Hm ->]].
    + rewrite (proj2 (Z.leb_le _ _)) by lia. rewrite of_bits_fields by lia.
      rewrite !(proj2 (Z.eqb_neq _ _)) by lia.
      replace (Zpos m - 2 ^ 23 + 2 ^ 23) with (Zpos m) by lia.
      f_equal. lia.
    + rewrite (proj2 (Z.leb_gt _ _)) by lia.
      replace (sign_bit s + Zpos m) with (sign_bit s + 0 * 2 ^ 23 + Zpos m) by lia.
      by rewrite of_bits_fields by lia.
Qed.

Lemma f32_bits_range x : f32_valid x -> 0 <= f32_bits x < 2 ^ 32.
Proof.
  intros Hv. destruct x as [s|s| |s m e]; simpl f32_bits; unfold sign_bit.
  1-3: destruct s || idtac; lia.
  apply valid_finite_cases in Hv as [[Hm He]|[Hm ->]]; destruct s;
    case_match eqn:E; lia.
Qed.

Lemma f32_of_bits_valid b : f32_valid (f32_of_bits b).
Proof.
  unfold f32_of_bits.
  pose proof (Z.mod_pos_bound b (2 ^ 23) ltac:(lia)).
  pose proof (Z.mod_pos_bound (b / 2 ^ 23) 256 ltac:(lia)).
  repeat case_match; try done; apply finite_valid; lia.
Qed.
End bits.

Lemma f32_of_bytes_valid l : f32_valid (f32_of_bytes l).
Proof. apply f32_of_bits_valid. Qed.

Lemma f32_of_bytes_of_f32 x : f32_valid x -> f32_of_bytes (bytes_of_f32 x) = x.
Proof.
  intros Hv. unfold f32_of_bytes, bytes_of_f32. rewrite le_combine_split.
  rewrite Z.mod_small; [by apply f32_of_bits_bits | by apply f32_bits_range].
Qed.

Lemma length_bytes_of_f32 x : List.length (bytes_of_f32 x) = 4%nat.
Proof. apply length_le_split. Qed.

Lemma bytes_of_f32_bytes x : Forall (is_u 8) (bytes_of_f32 x).
Proof. apply le_split_bytes. Qed.

(** ** Comparisons are comparisons of the exact values *)

Local Lemma mant_lt m1 e1 m2 e2 :
  (2 ^ 23 <= Zpos m1 < 2 ^ 24 /\ -149 <= e1 <= 104) \/ (Zpos m1 < 2 ^ 23 /\ e1 = -149) ->
  (2 ^ 23 <= Zpos m2 < 2 ^ 24 /\ -149 <= e2 <= 104) \/ (Zpos m2 < 2 ^ 23 /\ e2 = -149) ->
  e1 < e2 -> Zpos m1 * 2 ^ (e1 + 149) < Zpos m2 * 2 ^ (e2 + 149).
Proof.
  intros H1 H2 He.
  replace (e2 + 149) with ((e1 + 149) + (e2 - e1)) by lia.
  rewrite (Z.pow_add_r 2 (e1 + 149) (e2 - e1)) by lia.
  assert (2 ^ 1 <= 2 ^ (e2 - e1)) by (apply Z.pow_le_mono_r; lia).
  assert (0 < 2 ^ (e1 + 149)) by (apply Z.pow_pos_nonneg; lia).
  rewrite Z.mul_assoc, Z.mul_shuffle0. apply Z.mul_lt_mono_pos_r; [done|].
  apply Z.lt_le_trans with (2 ^ 23 * 2 ^ 1); [lia|].
  apply Z.mul_le_mono_nonneg; lia.
Qed.

Local Lemma mant_compare m1 e1 m2 e2 :
  (2 ^ 23 <= Zpos m1 < 2 ^ 24 /\ -149 <= e1 <= 104) \/ (Zpos m1 < 2 ^ 23 /\ e1 = -149) ->
  (2 ^ 23 <= Zpos m2 < 2 ^ 24 /\ -149 <= e2 <= 104) \/ (Zpos m2 < 2 ^ 23 /\ e2 = -149) ->
  match Z.compare e1 e2 with
  | Lt => Lt | Gt => Gt | Eq => Pos.compare_cont Eq m1 m2
  end = (Zpos m1 * 2 ^ (e1 + 149) ?= Zpos m2 * 2 ^ (e2 + 149)).
Proof.
  intros H1 H2. symmetry. destruct (Z.compare_spec e1 e2) as [->|He|He].
  - assert (0 < 2 ^ (e2 + 149)) by (apply Z.pow_pos_nonneg; lia).
    change (Pos.compare_cont Eq m1 m2) with (Zpos m1 ?= Zpos m2).
    destruct (Z.compare_spec (Zpos m1) (Zpos m2));
      [apply Z.compare_eq_iff | apply Z.compare_lt_iff | apply Z.compare_gt_iff]; nia.
  - apply Z.compare_lt_iff. by apply mant_lt.
  - apply Z.compare_gt_iff. by apply mant_lt.
Qed.

Lemma f32_scaled_pos m e :
  -149 <= e -> 0 < Zpos m * 2 ^ (e + 149).
Proof. intros. apply Z.mul_pos_pos; [lia|]. apply Z.pow_pos_nonneg; lia. Qed.

Lemma SFcompare_scaled x y :
  f32_valid x -> f32_valid y -> f32_finite x = true -> f32_finite y = true ->
  SFcompare x y = Some (Z.compare (f32_scaled x) (f32_scaled y)).
Proof.
  intros Hx Hy Fx Fy.
  destruct x as [sx| | |sx mx ex]; try done; destruct y as [sy| | |sy my ey]; try done;
    try apply valid_finite_cases in Hx; try apply valid_finite_cases in Hy;
    cbn [SFcompare f32_scaled cond_Zopp].
  - pose proof (f32_scaled_pos my ey ltac:(lia)).
    f_equal. symmetry. destruct sy; cbn [cond_Zopp];
      [apply Z.compare_gt_iff | apply Z.compare_lt_iff]; lia.
  - pose proof (f32_scaled_pos mx ex ltac:(lia)).
    f_equal. symmetry. destruct sx; cbn [cond_Zopp];
      [apply Z.compare_lt_iff | apply Z.compare_gt_iff]; lia.
  - pose proof (f32_scaled_pos mx ex ltac:(lia)).
    pose proof (f32_scaled_pos my ey ltac:(lia)).
    f_equal. destruct sx, sy; cbn [cond_Zopp].
    + rewrite Z.compare_opp, (Z.compare_antisym (Zpos mx * _)).
      rewrite <- (mant_compare mx ex my ey) by done.
      by destruct (Z.compare ex ey).
    + symmetry. apply Z.compare_lt_iff. lia.
    + symmetry. apply Z.compare_gt_iff. lia.
    + by apply mant_compare.
Qed.

Lemma f32_lt_scaled x y :
  f32_valid x -> f32_valid y -> f32_finite x = true -> f32_finite y = true ->
  f32_lt x y = (f32_scaled x <? f32_scaled y).
Proof. intros. unfold f32_lt, SFltb. by rewrite SFcompare_scaled, Z.ltb_compare. Qed.

Lemma f32_le_scaled x y :
  f32_valid x -> f32_valid y -> f32_finite x = true -> f32_finite y = true ->
  f32_le x y = (f32_scaled x <=? f32_scaled y).
Proof.
  intros. unfold f32_le, SFleb. rewrite SFcompare_scaled, Z.leb_compare by done.
  by destruct (_ ?= _).
Qed.

Lemma f32_opp_spec x :
  f32_valid x -> f32_finite x = true ->
  f32_valid (f32_opp x) /\ f32_finite (f32_opp x) = true /\
  f32_scaled (f32_opp x) = - f32_scaled x.
Proof.
  intros Hv Hf. destruct x as [s| | |s m e]; try done. split_and!; [done..|].
  unfold f32_opp, SFopp, f32_scaled, cond_Zopp. destruct s; cbn [negb]; lia.
Qed.

(** ** Integers below 2^24 convert exactly *)

Lemma iter_xO m d : Zpos (Pos.iter xO m d) = Zpos m * 2 ^ Zpos d.
Proof.
  induction d as [|d IH] using Pos.peano_ind; [by rewrite Z.mul_comm|].
  rewrite Pos.iter_succ, Pos2Z.inj_succ, Z.pow_succ_r by lia. lia.
Qed.

Lemma digits2_pos_unique m n : 0 <= n -> 2 ^ n <= Zpos m < 2 ^ (n + 1) -> Zpos (digits2_pos m) = n + 1.
Proof.
  intros Hn [H1 H2]. pose proof (digits2_pos_le m (n + 1)). pose proof (digits2_pos_ge m n). lia.
Qed.

(** A mantissa that already fits needs no rounding. *)
Lemma binary_round_aux_exact s m e :
  f32_valid (S754_finite s m e) ->
  binary_round_aux fprec femax s (Zpos m) e loc_Exact = S754_finite s m e.
Proof.
  intros Hv. unfold f32_valid, valid_binary, bounded, canonical_mantissa in Hv.
  apply andb_prop in Hv as [H1%Z.eqb_eq H2].
  unfold binary_round_aux, shr_fexp. cbn [Zdigits2 shr_record_of_loc].
  rewrite H1, Z.sub_diag. cbn [shr shr_m loc_of_shr_record round_nearest_even Zdigits2 shr_record_of_loc].
  rewrite H1, Z.sub_diag. cbn [shr shr_m]. by rewrite H2.
Qed.

(** A 24-bit integer mantissa at exponent 0, as the canonical float. *)
Lemma binary_round_int s m :
  Zpos m < 2 ^ 24 ->
  exists m' e', binary_round fprec femax s m 0 = S754_finite s m' e' /\
    f32_valid (S754_finite s m' e') /\ Zpos m' * 2 ^ (e' + 149) = Zpos m * 2 ^ 149.
Proof.
  intros Hm. pose proof (digits2_pos_bounds m) as Hb.
  pose proof (digits2_pos_le m 24 Hm ltac:(lia)) as Hd.
  unfold binary_round. rewrite Z.add_0_r.
  assert (Hf : fexp fprec femax (Zpos (digits2_pos m)) = Zpos (digits2_pos m) - 24)
    by (unfold fexp, emin; lia).
  rewrite Hf. unfold shl_align. rewrite Z.sub_0_r.
  remember (Zpos (digits2_pos m)) as d eqn:Ed.
  destruct (d - 24) as [|p|p] eqn:E; [|lia|].
  - exists m, 0.
    assert (Hv : f32_valid (S754_finite s m 0)).
    { apply finite_valid. left. replace (d - 1) with 23 in Hb by lia. lia. }
    split_and!; [by apply binary_round_aux_exact | done | done].
  - pose proof (iter_xO m p) as Hi.
    exists (Pos.iter xO m p), (Zneg p).
    assert (Hv : f32_valid (S754_finite s (Pos.iter xO m p) (Zneg p))).
    { apply finite_valid. left. rewrite Hi.
      replace (2 ^ 23) with (2 ^ (d - 1) * 2 ^ Zpos p)
        by (rewrite <- Z.pow_add_r by lia; f_equal; lia).
      replace (2 ^ 24) with (2 ^ d * 2 ^ Zpos p)
        by (rewrite <- Z.pow_add_r by lia; f_equal; lia).
      split; [split; [apply Z.mul_le_mono_nonneg_r | apply Z.mul_lt_mono_pos_r] |]; lia. }
    split_and!; [by apply binary_round_aux_exact | done |].
    rewrite Hi, <- Z.mul_assoc, <- Z.pow_add_r by lia. do 2 f_equal. lia.
Qed.

Lemma f32_of_Z_exact z :
  Z.abs z < 2 ^ 24 ->
  f32_valid (f32_of_Z z) /\ f32_finite (f32_of_Z z) = true /\
  f32_scaled (f32_of_Z z) = z * 2 ^ 149.
Proof.
  intros Hz. unfold f32_of_Z, binary_normalize. destruct z as [|m|m]; [done| |].
  - destruct (binary_round_int false m) as (m'&e'&->&Hv&Hs); [lia|].
    split_and!; [done..|]. by cbn [f32_scaled cond_Zopp].
  - destruct (binary_round_int true m) as (m'&e'&->&Hv&Hs); [lia|].
    split_and!; [done..|]. cbn [f32_scaled cond_Zopp]. lia.
Qed.

(** ** Signs of products and quotients *)

Section signs.
Local Lemma iter_pos_inv {A} (P : A -> Prop) (f : A -> A) n :
  (forall x, P x -> P (f x)) -> forall x, P x -> P (SpecFloat.iter_pos f n x).
Proof. intros Hf. induction n; simpl; intros; auto. Qed.

Local Lemma shr_1_nonneg mrs : 0 <= shr_m mrs -> 0 <= shr_m (shr_1 mrs).
Proof. destruct mrs as [m r s]; simpl. destruct m as [|[]|]; simpl; lia. Qed.

Local Lemma shr_fexp_nonneg m e l :
  0 <= m -> 0 <= shr_m (fst (shr_fexp fprec femax m e l)).
Proof.
  intros Hm. unfold shr_fexp, shr.
  assert (0 <= shr_m (shr_record_of_loc m l)) by (destruct l as [|[]]; done).
  case_match; simpl; [done| |done].
  by apply (iter_pos_inv (fun r => 0 <= shr_m r)); [apply shr_1_nonneg|].
Qed.

Local Lemma round_nonneg m l : 0 <= m -> 0 <= round_nearest_even m l.
Proof. intros. unfold round_nearest_even. repeat case_match; lia. Qed.

Lemma binary_round_aux_sign s m e l :
  0 <= m ->
  let x := binary_round_aux fprec femax s m e l in x <> S754_nan /\ f32_sign x = s.
Proof.
  intros Hm. unfold binary_round_aux.
  pose proof (shr_fexp_nonneg m e l Hm) as H1.
  destruct (shr_fexp fprec femax m e l) as [r e1]. cbn [fst] in H1.
  pose proof (shr_fexp_nonneg _ e1 loc_Exact (round_nonneg _ (loc_of_shr_record r) H1)) as H2.
  destruct (shr_fexp _ _ _ e1 loc_Exact) as [r2 e2]. cbn [fst] in H2.
  destruct (shr_m r2); [done| |lia]. by case_match.
Qed.

Lemma f32_mul_sign x y :
  f32_finite x = true -> f32_finite y = true ->
  (x * y)%f32 <> S754_nan /\ f32_sign (x * y)%f32 = xorb (f32_sign x) (f32_sign y).
Proof.
  intros Hx Hy. destruct x, y; try done. by apply binary_round_aux_sign.
Qed.

Lemma f32_div_sign x y :
  x <> S754_nan -> f32_finite y = true -> f32_scaled y <> 0 ->
  (x / y)%f32 <> S754_nan /\ f32_sign (x / y)%f32 = xorb (f32_sign x) (f32_sign y).
Proof.
  intros Hx Hy Hy0. destruct x, y; try done.
  unfold f32_div, SFdiv. unfold SFdiv_core_binary.
  match goal with |- context [Z.div_eucl ?a ?b] =>
    assert (Ha : 0 <= a) by (repeat case_match; try lia; apply Z.shiftl_nonneg; lia);
    pose proof (Z.div_pos a b Ha ltac:(lia)) as Hq; unfold Z.div in Hq;
    destruct (Z.div_eucl a b) end.
  by apply binary_round_aux_sign.
Qed.
(** A count converted is no NaN and not negative; a negative one-shot duration is
    below it. *)
Lemma f32_of_Z_sign n : 0 <= n -> f32_of_Z n <> S754_nan /\ f32_sign (f32_of_Z n) = false.
Proof.
  intros Hn. unfold f32_of_Z, binary_normalize. destruct n as [|p|p]; [done| |lia].
  unfold binary_round. case_match. by apply binary_round_aux_sign.
Qed.

Lemma minus_one_le_count n : 0 <= n -> f32_le (f32_of_Z (-1)) (f32_of_Z n) = true.
Proof.
  intros Hn. destruct (f32_of_Z_sign n Hn) as [H1 H2].
  destruct (f32_of_Z n) as [s|s| |s m e]; [| |done|]; cbn in H2; subst s; reflexivity.
Qed.
End signs.
