(* ===== verification/FloatSymmetry.v ===== *)
(** * FloatSymmetry: negation and absolute value in binary32

    Products and quotients do not depend on the signs but for the sign of the
    result, multiplying a number of the format by -1 is negation, and a quotient is
    a number of the format.  The drive commands turn left and right by the
    same formulas up to these facts. *)
From Stdlib Require Import SpecFloat.
From S2P Require Import Prelude.
From S2P Require Import Float32.

Definition f32_abs : f32 -> f32 := SFabs.

(** ** Signs pass through *)

Lemma binary_round_aux_opp s m e l :
  binary_round_aux fprec femax (negb s) m e l = f32_opp (binary_round_aux fprec femax s m e l).
Proof.
  unfold binary_round_aux. destruct (shr_fexp _ _ m e l) as [r1 e1]. destruct (shr_fexp _ _ _ e1 _) as [r2 e2].
  destruct (shr_m r2); [done| |done]. by case_match.
Qed.

Lemma f32_mul_opp_r x y : (x * f32_opp y)%f32 = f32_opp (x * y)%f32.
Proof.
  destruct x as [s|s| |s m e], y as [t|t| |t m' e']; try done; try (by destruct s, t).
  cbn [f32_opp SFopp f32_mul SFmul]. rewrite <- binary_round_aux_opp. by destruct s, t.
Qed.

Lemma f32_div_opp_l x y : (f32_opp x / y)%f32 = f32_opp (x / y)%f32.
Proof.
  destruct x as [s|s| |s m e], y as [t|t| |t m' e']; try done; try (by destruct s, t).
  cbn [f32_opp SFopp f32_div SFdiv]. destruct (SFdiv_core_binary _ _ _ _ _ _) as [[q k] l].
  rewrite <- binary_round_aux_opp. by destruct s, t.
Qed.

Lemma f32_opp_opp x : f32_opp (f32_opp x) = x.
Proof. by destruct x as [[]|[]| |[]]. Qed.

Lemma f32_lt_opp x y : f32_lt (f32_opp x) (f32_opp y) = f32_lt y x.
Proof.
  destruct x as [s|s| |s m e], y as [t|t| |t m' e']; try (by destruct s); try (by destruct t);
    try (by destruct s, t); try done.
  unfold f32_lt, SFltb. cbn [f32_opp SFopp SFcompare].
  rewrite (Z.compare_antisym e e'). destruct s, t; cbn [negb]; try done; destruct (Z.compare e e'); cbn [CompOpp];
    try done; change (Pos.compare_cont Eq) with Pos.compare; rewrite (Pos.compare_antisym m m');
    by destruct (Pos.compare m m').
Qed.

(** The absolute value is the number or its opposite. *)
Lemma f32_abs_cases y :
  (f32_sign y = false /\ f32_abs y = y) \/ (f32_sign y = true /\ f32_abs y = f32_opp y).
Proof. destruct y as [[]|[]| |[]]; by (left + right). Qed.

Lemma f32_abs_opp y : f32_abs (f32_opp y) = f32_abs y.
Proof. by destruct y. Qed.

(** ** Multiplying by -1 *)

Lemma digits2_pos_shift m : digits2_pos (8388608 * m) = (digits2_pos m + 23)%positive.
Proof. change (8388608 * m)%positive with (m~0~0~0~0~0~0~0~0~0~0~0~0~0~0~0~0~0~0~0~0~0~0~0)%positive. cbn [digits2_pos]. lia. Qed.

Lemma binary_round_aux_shift s m e :
  f32_valid (S754_finite s m e) ->
  binary_round_aux fprec femax s (Zpos (8388608 * m)) (e - 23) loc_Exact = S754_finite s m e.
Proof.
  intros Hv. unfold f32_valid, valid_binary, bounded, canonical_mantissa in Hv. apply andb_prop in Hv as [H1%Z.eqb_eq H2].
  assert (E : shr_fexp fprec femax (Zpos (8388608 * m)) (e - 23) loc_Exact =
    ({| shr_m := Zpos m; shr_r := false; shr_s := false |}, e)).
  { unfold shr_fexp. cbn [Zdigits2]. rewrite digits2_pos_shift.
    replace (Zpos (digits2_pos m + 23) + (e - 23)) with (Zpos (digits2_pos m) + e) by lia.
    rewrite H1. replace (e - (e - 23)) with 23 by lia. unfold shr. by replace (e - 23 + 23) with e by lia. }
  unfold binary_round_aux. rewrite E. cbn [shr_m loc_of_shr_record round_nearest_even].
  unfold shr_fexp. cbn [Zdigits2 shr_record_of_loc]. rewrite H1, Z.sub_diag. cbn [shr shr_m]. by rewrite H2.
Qed.

Lemma f32_mul_minus_one x : f32_valid x -> (x * f32_of_Z (-1))%f32 = f32_opp x.
Proof.
  change (f32_of_Z (-1)) with (S754_finite true 8388608 (-23)). destruct x as [s|s| |s m e]; intros Hv; try done; try (by destruct s).
  cbn [f32_mul SFmul f32_opp SFopp]. rewrite Pos.mul_comm. change (e + -23) with (e - 23).
  rewrite xorb_true_r. by apply binary_round_aux_shift.
Qed.

Lemma f32_minus_one_mul x : f32_valid x -> (f32_of_Z (-1) * x)%f32 = f32_opp x.
Proof.
  intros Hv. rewrite <- (f32_mul_minus_one x Hv). unfold f32_mul, SFmul.
  change (f32_of_Z (-1)) with (S754_finite true 8388608 (-23)). destruct x as [s|s| |s m e]; try done; try (by destruct s).
  rewrite Pos.mul_comm, Z.add_comm. by rewrite xorb_comm.
Qed.

(** ** Rounding gives a number of the format *)

Lemma shr_1_half mrs : 0 <= shr_m mrs -> shr_m (shr_1 mrs) = shr_m mrs / 2.
Proof.
  destruct mrs as [m r s]. cbn [shr_m]. destruct m as [|[p|p|]|p]; cbn [shr_1 shr_m]; intros; try done; try lia.
  - apply (Z.div_unique_pos _ _ _ 1); lia.
  - apply (Z.div_unique_pos _ _ _ 0); lia.
Qed.

Lemma shr_iter_div n mrs :
  0 <= shr_m mrs -> shr_m (SpecFloat.iter_pos shr_1 n mrs) = shr_m mrs / 2 ^ Zpos n.
Proof.
  revert mrs. induction n as [n IH|n IH|]; intros mrs Hm; cbn [SpecFloat.iter_pos]; [| |by apply shr_1_half].
  all: assert (H0 : forall k x, 0 <= x -> 0 <= x / 2 ^ Zpos k) by (intros; apply Z.div_pos; lia).
  - pose proof (shr_1_half mrs Hm) as E1. assert (0 <= shr_m (shr_1 mrs)) by (rewrite E1; apply Z.div_pos; lia).
    rewrite !IH by (rewrite ?IH by done; auto). rewrite E1, !Z.div_div by lia. f_equal.
    replace (Zpos n~1) with (1 + Zpos n + Zpos n) by lia. rewrite !Z.pow_add_r by lia. lia.
  - rewrite !IH by (rewrite ?IH by done; auto). rewrite Z.div_div by lia. f_equal.
    rewrite <- Z.pow_add_r by lia. f_equal. lia.
Qed.

Lemma shr_fexp_spec m e l :
  0 <= m ->
  let n := Z.max 0 (fexp fprec femax (Zdigits2 m + e) - e) in
  let '(r, e') := shr_fexp fprec femax m e l in
  shr_m r = m / 2 ^ n /\ e' = e + n.
Proof.
  intros Hm n. unfold shr_fexp, shr. assert (E : shr_m (shr_record_of_loc m l) = m) by (by destruct l as [|[]]).
  subst n. destruct (fexp fprec femax (Zdigits2 m + e) - e) as [|p|p]; cbn [Z.max Z.compare];
    rewrite ?E, ?Z.div_1_r, ?Z.add_0_r; [done| |done].
  rewrite shr_iter_div, E by (by rewrite E). done.
Qed.

Lemma Zdigits2_bounds m : 0 <= m -> 0 <= Zdigits2 m /\ m < 2 ^ Zdigits2 m /\ (0 < m -> 2 ^ (Zdigits2 m - 1) <= m).
Proof.
  intros Hm. destruct m as [|p|]; [by split_and!|cbn [Zdigits2]|done].
  pose proof (digits2_pos_bounds p). lia.
Qed.

(** A mantissa of at most 24 bits, and one more: the second normalization. *)
Lemma round_end_valid s m e :
  0 <= m <= 2 ^ 24 -> -149 <= e -> (2 ^ 23 <= m \/ e = -149) ->
  let '(r, e') := shr_fexp fprec femax m e loc_Exact in
  f32_valid match shr_m r with
    | Z0 => S754_zero s
    | Zpos m => if Z.leb e' (femax - fprec) then S754_finite s m e' else S754_infinity s
    | _ => S754_nan
    end.
Proof.
  intros Hm He Hd. pose proof (shr_fexp_spec m e loc_Exact (proj1 Hm)) as H. cbv zeta in H.
  destruct (shr_fexp _ _ m e loc_Exact) as [r e']. destruct H as [Er Ee].
  destruct (Zdigits2_bounds m (proj1 Hm)) as (D0&D1&D2).
  assert (Hn : (m < 2 ^ 24 /\ shr_m r = m /\ e' = e) \/ (m = 2 ^ 24 /\ shr_m r = 8388608 /\ e' = e + 1)).
  { destruct (decide (m = 2 ^ 24)) as [->|Hne].
    - right. change (Zdigits2 (2 ^ 24)) with 25 in *. unfold fexp, emin in *.
      replace (Z.max 0 _) with 1 in * by lia. split_and!; [done|by rewrite Er|done].
    - left. assert (Zdigits2 m <= 24).
      { destruct (decide (m = 0)) as [->|]; [done|]. assert (Zdigits2 m - 1 < 24); [|lia].
        apply (Z.pow_lt_mono_r_iff 2); lia. }
      unfold fexp, emin in *. replace (Z.max 0 _) with 0 in * by lia.
      rewrite Z.div_1_r in Er. split_and!; lia. }
  destruct Hn as [(H1&->&->)|(_&->&->)]; [destruct m as [|p|p]; [done| |lia]|];
    (case_match eqn:Hle; [|done]); apply Z.leb_le in Hle; apply finite_valid; lia.
Qed.

Lemma binary_round_aux_valid s m e l :
  0 <= m -> e <= fexp fprec femax (Zdigits2 m + e) -> f32_valid (binary_round_aux fprec femax s m e l).
Proof.
  intros Hm He. unfold binary_round_aux. pose proof (shr_fexp_spec m e l Hm) as H. cbv zeta in H.
  destruct (shr_fexp _ _ m e l) as [r e1]. destruct H as [Er Ee]. rewrite Z.max_r in Er, Ee by lia.
  destruct (Zdigits2_bounds m Hm) as (D0&D1&D2). set (d := Zdigits2 m) in *.
  set (n := fexp fprec femax (d + e) - e) in *.
  assert (Hn : e1 = fexp fprec femax (d + e)) by lia. unfold fexp, emin in Hn.
  assert (P : 0 < 2 ^ n) by (apply Z.pow_pos_nonneg; lia).
  assert (M1 : shr_m r < 2 ^ 24).
  { rewrite Er. apply Z.div_lt_upper_bound; [done|]. rewrite <- Z.pow_add_r by lia.
    eapply Z.lt_le_trans; [exact D1|]. apply Z.pow_le_mono_r; lia. }
  assert (M0 : 0 <= shr_m r) by (rewrite Er; apply Z.div_pos; lia).
  assert (M2 : 2 ^ 23 <= shr_m r \/ e1 = -149).
  { destruct (decide (e1 = -149)); [by right|left]. destruct (decide (m = 0)) as [->|]; [unfold d in *; cbn in *; lia|].
    rewrite Er. apply Z.div_le_lower_bound; [done|]. rewrite <- Z.pow_add_r by lia.
    etransitivity; [|apply D2; lia]. apply Z.pow_le_mono_r; lia. }
  set (k := round_nearest_even (shr_m r) (loc_of_shr_record r)).
  assert (Hk : shr_m r <= k <= shr_m r + 1) by (unfold k, round_nearest_even; repeat case_match; lia).
  pose proof (round_end_valid s k e1 ltac:(lia) ltac:(lia) ltac:(lia)) as G.
  destruct (shr_fexp _ _ k e1 loc_Exact) as [r2 e2]. exact G.
Qed.

Lemma fexp_mono x y : x <= y -> fexp fprec femax x <= fexp fprec femax y.
Proof. unfold fexp. lia. Qed.

(** The quotient of two mantissas is precise enough for one rounding. *)
Lemma div_core_precise m1 e1 m2 e2 :
  let '(q, e, l) := SFdiv_core_binary fprec femax (Zpos m1) e1 (Zpos m2) e2 in
  0 <= q /\ e <= fexp fprec femax (Zdigits2 q + e).
Proof.
  unfold SFdiv_core_binary. cbv zeta. set (d1 := Zdigits2 (Zpos m1)). set (d2 := Zdigits2 (Zpos m2)).
  set (e := Z.min _ (e1 - e2)). set (k := e1 - e2 - e). assert (Hk : 0 <= k) by lia.
  set (m' := match k with Zpos _ => Z.shiftl (Zpos m1) k | Z0 => Zpos m1 | Zneg _ => 0 end).
  assert (Em : m' = Zpos m1 * 2 ^ k).
  { unfold m'. destruct k as [|p|p] eqn:E; [lia| |lia]. by rewrite Z.shiftl_mul_pow2 by lia. }
  assert (P : 0 < 2 ^ k) by (apply Z.pow_pos_nonneg; lia).
  pose proof (Z.div_pos m' (Zpos m2) ltac:(lia) ltac:(lia)) as Hq.
  assert (Hd : d1 + k - d2 <= Zdigits2 (m' / Zpos m2)).
  { destruct (Zdigits2_bounds (m' / Zpos m2) Hq) as (Q0&Q1&_). set (dq := Zdigits2 (m' / Zpos m2)) in *.
    destruct (Zdigits2_bounds (Zpos m1)) as (_&_&A); [done|]. specialize (A ltac:(lia)). fold d1 in A.
    destruct (Zdigits2_bounds (Zpos m2)) as (B0&B&_); [done|]. fold d2 in B, B0.
    assert (D0 : 1 <= d1) by (unfold d1; cbn; lia).
    assert (H : m' < 2 ^ d2 * 2 ^ dq).
    { eapply Z.lt_le_trans; [apply (Z.mul_succ_div_gt m' (Zpos m2)); lia|]. apply Z.mul_le_mono_nonneg; lia. }
    assert (L : 2 ^ (d1 - 1 + k) < 2 ^ (d2 + dq)).
    { rewrite !Z.pow_add_r by lia. eapply Z.le_lt_trans; [|exact H]. rewrite Em. apply Z.mul_le_mono_nonneg_r; [lia|done]. }
    apply Z.pow_lt_mono_r_iff in L; lia. }
  unfold Z.div in Hq, Hd. destruct (Z.div_eucl m' (Zpos m2)) as [q r]. split; [done|].
  etransitivity; [|apply (fexp_mono (d1 + e1 - (d2 + e2))); lia]. lia.
Qed.

Lemma f32_div_valid x y : f32_valid (x / y)%f32.
Proof.
  destruct x as [s|s| |s m e], y as [t|t| |t m' e']; try done.
  unfold f32_div, SFdiv. pose proof (div_core_precise m e m' e') as H.
  destruct (SFdiv_core_binary _ _ _ _ _ _) as [[q k] l]. destruct H. by apply binary_round_aux_valid.
Qed.
