(* ===== verification/RingBuffer.v ===== *)
(** * RingBuffer: Driver/Ring_Buffer.c

    The power-of-two ring buffer, once for a generic element type (the C file
    repeats each function for [float] and for [char]), then the two instances
    the firmware uses.  A ring of [RB_LENGTH] slots holds at most
    [RB_LENGTH - 1] elements: pushing onto a full ring overwrites the element
    at the other end.  [Ring.contents] is the abstract deque; every operation
    refines the deque operation of the same name. *)
From S2P Require Import Prelude.
From S2P Require Import Float32.

(** ** The interface other components rely on

    A bounded queue keeps the last [q_cap] elements pushed; popping takes the
    oldest one. *)
Class Queue (Q A : Type) := {
  q_contents : Q -> list A;
  q_ok : Q -> Prop;
  q_cap : nat;
  q_push : Q -> A -> Q;
  q_pop : Q -> A * Q;
  q_length : Q -> Z;
}.
#[global] Hint Mode Queue ! - : typeclass_instances.

Class QueueLaws (Q A : Type) `{Queue Q A} := {
  q_push_ok (q : Q) (a : A) : q_ok q -> q_ok (q_push q a);
  q_push_contents (q : Q) (a : A) :
    q_ok q -> q_contents (q_push q a) = lastn (q_cap (Q := Q)) (q_contents q ++ [a]);
  q_pop_ok (q : Q) : q_ok q -> q_ok (q_pop q).2;
  q_pop_contents (q : Q) (a : A) (l : list A) :
    q_ok q -> q_contents q = a :: l -> (q_pop q).1 = a /\ q_contents (q_pop q).2 = l;
  q_length_contents (q : Q) :
    q_ok q -> q_length q = Z.of_nat (List.length (q_contents q));
  q_contents_bound (q : Q) :
    q_ok q -> (List.length (q_contents q) <= q_cap (Q := Q))%nat;
}.

Section queue_clients.
Context {Q A : Type} `{QueueLaws Q A}.
Implicit Types (q : Q) (l : list A).

(** Pushing a whole byte string, first element first. *)
Definition q_push_all (q : Q) (l : list A) : Q := fold_left q_push l q.

Lemma q_push_all_ok q l : q_ok q -> q_ok (q_push_all q l).
Proof.
  revert q; induction l as [|a l IH]; intros q Hq; simpl; [done|].
  apply IH. by apply q_push_ok.
Qed.

Lemma q_push_all_contents q l :
  q_ok q -> q_contents (q_push_all q l) = lastn (q_cap (Q := Q)) (q_contents q ++ l).
Proof.
  revert q; induction l as [|a l IH]; intros q Hq; simpl.
  - rewrite app_nil_r, lastn_all; [done|]. by apply q_contents_bound.
  - rewrite (IH (q_push q a)) by (by apply q_push_ok).
    rewrite q_push_contents by done.
    by rewrite lastn_app_lastn, <- app_assoc.
Qed.

Lemma q_push_all_app q l l' : q_push_all q (l ++ l') = q_push_all (q_push_all q l) l'.
Proof. apply fold_left_app. Qed.

(** Nothing is lost while the total stays within the capacity. *)
Lemma q_push_all_fits q l :
  q_ok q -> (List.length (q_contents q) + List.length l <= q_cap (Q := Q))%nat ->
  q_contents (q_push_all q l) = q_contents q ++ l.
Proof.
  intros Hq Hl. rewrite q_push_all_contents by done.
  apply lastn_all. rewrite length_app. lia.
Qed.

(** Popping [n] elements, oldest first. *)
Fixpoint q_pop_n (n : nat) (q : Q) : list A * Q :=
  match n with
  | O => ([], q)
  | Datatypes.S n =>
      let '(a, q) := q_pop q in
      let '(l, q) := q_pop_n n q in (a :: l, q)
  end.

Lemma q_pop_n_spec n q :
  q_ok q -> (n <= List.length (q_contents q))%nat ->
  (q_pop_n n q).1 = take n (q_contents q) /\
  q_ok (q_pop_n n q).2 /\
  q_contents (q_pop_n n q).2 = drop n (q_contents q).
Proof.
  revert q; induction n as [|n IH]; intros q Hq Hn; simpl; [by rewrite take_0, drop_0|].
  destruct (q_contents q) as [|a l] eqn:E; simpl in Hn; [lia|].
  destruct (q_pop_contents q a l Hq E) as [H1 H2].
  pose proof (q_pop_ok q Hq) as H3.
  destruct (q_pop q) as [b q']. cbn [fst snd] in *. subst b.
  rewrite <- H2 in Hn. destruct (IH q' H3 ltac:(lia)) as (I1&I2&I3).
  destruct (q_pop_n n q') as [l' q'']. cbn [fst snd] in *. rewrite H2 in I1, I3.
  subst. by simpl.
Qed.
End queue_clients.

Module Ring.
Section Ring.
Context {A : Type} (zero : A).
(** [RB_LENGTH] is a power of two of at most 256 slots. *)
Context (k : Z).
Definition RB_LENGTH : Z := 2 ^ k.
Definition RB_MASK : Z := RB_LENGTH - 1.

Record Ring_Buffer := {
  buffer : list A;
  start_index : Z;
  end_index : Z;
}.

Implicit Types (b : Ring_Buffer) (v : A) (i : Z).

(** [p_buf->buffer[i]], read and written. *)
Definition slot b i : A := default zero (buffer b !! Z.to_nat i).
Definition set_slot b i v : Ring_Buffer :=
  {| buffer := <[Z.to_nat i := v]> (buffer b);
     start_index := start_index b; end_index := end_index b |}.
Definition set_start b i : Ring_Buffer :=
  {| buffer := buffer b; start_index := i; end_index := end_index b |}.
Definition set_end b i : Ring_Buffer :=
  {| buffer := buffer b; start_index := start_index b; end_index := i |}.

Definition rb_initialize b : Ring_Buffer :=
  set_end (set_start b 0) 0.

Definition rb_length b : Z :=
  u8 (Z.land (end_index b - start_index b) RB_MASK).

Definition rb_push_back b v : Ring_Buffer :=
  let b := set_slot b (end_index b) v in
  let b := set_end b (u8 (Z.land (end_index b + 1) RB_MASK)) in
  if end_index b =? start_index b
  then set_start b (u8 (Z.land (start_index b + 1) RB_MASK))
  else b.

Definition rb_push_front b v : Ring_Buffer :=
  let b := set_start b (u8 (Z.land (start_index b - 1) RB_MASK)) in
  let b := set_slot b (start_index b) v in
  if start_index b =? end_index b
  then set_end b (u8 (Z.land (end_index b - 1) RB_MASK))
  else b.

Definition rb_pop_back b : A * Ring_Buffer :=
  if negb (start_index b =? end_index b)
  then let b := set_end b (u8 (Z.land (end_index b - 1) RB_MASK)) in
       (slot b (end_index b), b)
  else (zero, b).

Definition rb_pop_front b : A * Ring_Buffer :=
  if negb (end_index b =? start_index b)
  then let b := set_start b (u8 (Z.land (start_index b + 1) RB_MASK)) in
       (slot b (Z.land (start_index b - 1) RB_MASK), b)
  else (zero, b).

Definition rb_get b i : A := slot b (Z.land (start_index b + i) RB_MASK).

(** [while(index >= rb_length(p_buf)) rb_push_back(p_buf, value);], with
    fuel; [None] when the fuel runs out. *)
Fixpoint rb_set_fill (fuel : nat) b i v : option Ring_Buffer :=
  if rb_length b <=? i then
    match fuel with
    | O => None
    | Datatypes.S fuel => rb_set_fill fuel (rb_push_back b v) i v
    end
  else Some b.

Definition rb_set (fuel : nat) b i v : option Ring_Buffer :=
  if rb_length b <=? i then
    if negb (RB_LENGTH <=? i) then rb_set_fill fuel b i v else Some b
  else Some (set_slot b (Z.land (start_index b + i) RB_MASK) v).

(** ** The abstract deque *)

Definition contents b : list A :=
  (fun j => rb_get b (Z.of_nat j)) <$> seq 0 (Z.to_nat (rb_length b)).

Definition wf b : Prop :=
  Z.of_nat (List.length (buffer b)) = RB_LENGTH /\
  0 <= start_index b < RB_LENGTH /\ 0 <= end_index b < RB_LENGTH.

(** ** Index arithmetic *)

Context (Hk : 1 <= k <= 8).

Lemma RB_LENGTH_bound : 2 <= RB_LENGTH <= 256.
Proof using Hk.
  unfold RB_LENGTH. split.
  - change 2 with (2 ^ 1) at 1. apply Z.pow_le_mono_r; lia.
  - change 256 with (2 ^ 8). apply Z.pow_le_mono_r; lia.
Qed.

Lemma land_mask x : Z.land x RB_MASK = x mod RB_LENGTH.
Proof using Hk. apply land_ones_mod. lia. Qed.

Lemma u8_mask x : u8 (Z.land x RB_MASK) = x mod RB_LENGTH.
Proof using Hk.
  rewrite land_mask. pose proof RB_LENGTH_bound.
  apply u8_id. pose proof (Z.mod_pos_bound x RB_LENGTH). lia.
Qed.

Lemma mod_cases x :
  - RB_LENGTH <= x < 2 * RB_LENGTH ->
  x mod RB_LENGTH =
    if x <? 0 then x + RB_LENGTH else if x <? RB_LENGTH then x else x - RB_LENGTH.
Proof using Hk.
  intros Hx. pose proof RB_LENGTH_bound. symmetry.
  destruct (Z.ltb_spec x 0); [|destruct (Z.ltb_spec x RB_LENGTH)].
  - apply (Z.mod_unique_pos x _ (-1)); lia.
  - apply (Z.mod_unique_pos x _ 0); lia.
  - apply (Z.mod_unique_pos x _ 1); lia.
Qed.

Lemma rb_length_mod b : rb_length b = (end_index b - start_index b) mod RB_LENGTH.
Proof using Hk. apply u8_mask. Qed.

Lemma rb_length_range b : 0 <= rb_length b < RB_LENGTH.
Proof using Hk.
  rewrite rb_length_mod. apply Z.mod_pos_bound. pose proof RB_LENGTH_bound. lia.
Qed.

Lemma length_contents b : Z.of_nat (List.length (contents b)) = rb_length b.
Proof using Hk.
  unfold contents. rewrite length_fmap, length_seq.
  pose proof (rb_length_range b). lia.
Qed.

Lemma lookup_contents b j :
  Z.of_nat j < rb_length b ->
  contents b !! j = Some (slot b ((start_index b + Z.of_nat j) mod RB_LENGTH)).
Proof using Hk.
  intros Hj. unfold contents, rb_get. rewrite list_lookup_fmap, lookup_seq_lt by lia.
  simpl. by rewrite land_mask.
Qed.

Lemma slot_set_slot b i j v :
  wf b -> 0 <= i < RB_LENGTH -> 0 <= j < RB_LENGTH ->
  slot (set_slot b i v) j = if i =? j then v else slot b j.
Proof using Hk.
  intros (Hb&_&_) Hi Hj. unfold slot, set_slot; simpl.
  destruct (Z.eqb_spec i j) as [->|Hne].
  - rewrite list_lookup_insert_eq by lia. done.
  - rewrite list_lookup_insert_ne by lia. done.
Qed.

Lemma wf_set_slot b i v : wf b -> wf (set_slot b i v).
Proof. unfold wf, set_slot; simpl. by rewrite length_insert. Qed.

(** Two rings of the same length whose slots agree have the same contents. *)
Lemma contents_ext b (l : list A) :
  rb_length b = Z.of_nat (List.length l) ->
  (forall j, Z.of_nat j < rb_length b ->
     l !! j = Some (slot b ((start_index b + Z.of_nat j) mod RB_LENGTH))) ->
  contents b = l.
Proof using Hk.
  intros Hlen Hl. pose proof (length_contents b) as Hc.
  apply list_eq_same_length with (List.length l); [done|lia|].
  intros j x y Hj Hx Hy. rewrite lookup_contents in Hx by lia.
  rewrite Hl in Hy by lia. congruence.
Qed.

Lemma wf_initialize b : wf b -> wf (rb_initialize b).
Proof using Hk. intros (?&?&?). pose proof RB_LENGTH_bound. unfold wf; simpl. lia. Qed.

Lemma contents_initialize b : contents (rb_initialize b) = [].
Proof. done. Qed.

(** ** Each operation keeps the ring well formed and refines the deque *)

(** Case analysis on a wrapped index: every [mod] in sight is of a value
    within one turn of the ring. *)
Local Ltac ring_arith :=
  repeat match goal with
    | |- context [?x mod RB_LENGTH] => rewrite (mod_cases x) by lia
    | H : context [?x mod RB_LENGTH] |- _ => rewrite (mod_cases x) in H by lia
    | |- context [if ?x <? ?y then _ else _] => destruct (Z.ltb_spec x y)
    | H : context [if ?x <? ?y then _ else _] |- _ => destruct (Z.ltb_spec x y)
    | |- context [if ?x =? ?y then _ else _] => destruct (Z.eqb_spec x y)
    | H : context [if ?x =? ?y then _ else _] |- _ => destruct (Z.eqb_spec x y)
    end; try lia.

Lemma end_start_length b : wf b -> end_index b = (start_index b + rb_length b) mod RB_LENGTH.
Proof using Hk.
  intros (Hb&Hs&He). pose proof RB_LENGTH_bound. rewrite rb_length_mod. ring_arith.
Qed.

Lemma slot_index_inj x i j :
  0 <= i < RB_LENGTH -> 0 <= j < RB_LENGTH -> 0 <= x < RB_LENGTH ->
  ((x + i) mod RB_LENGTH =? (x + j) mod RB_LENGTH) = (i =? j).
Proof using Hk.
  intros. pose proof RB_LENGTH_bound.
  destruct (Z.eqb_spec i j) as [->|]; [apply Z.eqb_refl|].
  apply Z.eqb_neq. ring_arith.
Qed.

Lemma wf_push_back b v : wf b -> wf (rb_push_back b v).
Proof using Hk.
  intros (Hb&Hs&He). pose proof RB_LENGTH_bound.
  unfold rb_push_back. cbn zeta. rewrite !u8_mask.
  unfold wf; case_match; simpl; rewrite length_insert; ring_arith.
Qed.

Definition is_full b : bool := rb_length b =? RB_LENGTH - 1.

Lemma push_back_fields b v :
  wf b ->
  start_index (rb_push_back b v) =
    (start_index b + (if is_full b then 1 else 0)) mod RB_LENGTH /\
  rb_length (rb_push_back b v) = Z.min (RB_LENGTH - 1) (rb_length b + 1) /\
  forall i, 0 <= i < RB_LENGTH ->
    slot (rb_push_back b v) i = if end_index b =? i then v else slot b i.
Proof using Hk.
  intros Hwf. pose proof Hwf as (Hb&Hs&He). pose proof RB_LENGTH_bound as HL.
  assert (Hf : ((end_index b + 1) mod RB_LENGTH =? start_index b) = is_full b).
  { unfold is_full. rewrite rb_length_mod. apply eq_true_iff_eq.
    rewrite !Z.eqb_eq. ring_arith. }
  unfold rb_push_back. cbn zeta. rewrite !u8_mask. cbn [set_end set_slot end_index start_index].
  rewrite Hf. split_and!.
  - destruct (is_full b); simpl; [done|]. rewrite Z.add_0_r, Z.mod_small; lia.
  - rewrite !rb_length_mod. unfold is_full in *. rewrite rb_length_mod in Hf |- *.
    revert Hf. destruct (_ =? RB_LENGTH - 1) eqn:E; simpl; intros Hf;
      rewrite ?Z.eqb_eq, ?Z.eqb_neq in *; ring_arith.
  - intros i Hi. rewrite <- (slot_set_slot b) by done. by destruct (is_full b).
Qed.

Lemma push_back_contents b v :
  wf b ->
  contents (rb_push_back b v) = lastn (Z.to_nat (RB_LENGTH - 1)) (contents b ++ [v]).
Proof using Hk.
  intros Hwf. pose proof Hwf as (Hb&Hs&He). pose proof RB_LENGTH_bound as HL.
  pose proof (length_contents b) as Hc. pose proof (rb_length_range b) as Hr.
  destruct (push_back_fields b v Hwf) as (Hst&Hlen&Hslot).
  apply contents_ext; [rewrite length_lastn, length_app; simpl; lia|].
  intros j Hj. rewrite Hst, Zplus_mod_idemp_l, Hslot by (apply Z.mod_pos_bound; lia).
  rewrite (end_start_length b Hwf), <- Z.add_assoc.
  unfold lastn. rewrite lookup_drop, length_app; cbn [Datatypes.length].
  set (d := if is_full b then 1 else 0).
  assert (Hd : Z.of_nat (List.length (contents b) + 1 - Z.to_nat (RB_LENGTH - 1)) = d)
    by (unfold d, is_full; destruct (Z.eqb_spec (rb_length b) (RB_LENGTH - 1)); lia).
  assert (0 <= d <= 1) by (unfold d; destruct (is_full b); lia).
  rewrite slot_index_inj by lia.
  destruct (Z.eqb_spec (rb_length b) (d + Z.of_nat j)) as [E|E].
  - rewrite lookup_app_r by lia.
    replace (_ - _)%nat with 0%nat by lia. done.
  - rewrite lookup_app_l by lia. rewrite lookup_contents by lia. do 4 f_equal. lia.
Qed.

Lemma wf_push_front b v : wf b -> wf (rb_push_front b v).
Proof using Hk.
  intros (Hb&Hs&He). pose proof RB_LENGTH_bound.
  unfold rb_push_front. cbn zeta. rewrite !u8_mask.
  unfold wf; case_match; simpl; rewrite length_insert; ring_arith.
Qed.

Lemma push_front_fields b v :
  wf b ->
  start_index (rb_push_front b v) = (start_index b - 1) mod RB_LENGTH /\
  rb_length (rb_push_front b v) = Z.min (RB_LENGTH - 1) (rb_length b + 1) /\
  forall i, 0 <= i < RB_LENGTH ->
    slot (rb_push_front b v) i =
      if (start_index b - 1) mod RB_LENGTH =? i then v else slot b i.
Proof using Hk.
  intros Hwf. pose proof Hwf as (Hb&Hs&He). pose proof RB_LENGTH_bound as HL.
  unfold rb_push_front. cbn zeta. rewrite !u8_mask.
  cbn [set_end set_start set_slot end_index start_index].
  split_and!.
  - by case_match.
  - rewrite !rb_length_mod. case_match eqn:E; simpl;
      rewrite ?Z.eqb_eq, ?Z.eqb_neq in E; ring_arith.
  - intros i Hi. pose proof (Z.mod_pos_bound (start_index b - 1) RB_LENGTH ltac:(lia)).
    rewrite <- (slot_set_slot b) by done. by case_match.
Qed.

Lemma push_front_contents b v :
  wf b ->
  contents (rb_push_front b v) = take (Z.to_nat (RB_LENGTH - 1)) (v :: contents b).
Proof using Hk.
  intros Hwf. pose proof Hwf as (Hb&Hs&He). pose proof RB_LENGTH_bound as HL.
  pose proof (length_contents b) as Hc. pose proof (rb_length_range b) as Hr.
  destruct (push_front_fields b v Hwf) as (Hst&Hlen&Hslot).
  apply contents_ext; [rewrite length_take; cbn [Datatypes.length]; lia|].
  intros j Hj. rewrite Hst, Zplus_mod_idemp_l, Hslot by (apply Z.mod_pos_bound; lia).
  rewrite lookup_take_lt by lia.
  replace (start_index b - 1 + Z.of_nat j) with (start_index b - 1 + Z.of_nat j) by lia.
  assert (Heq : ((start_index b - 1) mod RB_LENGTH =?
    (start_index b - 1 + Z.of_nat j) mod RB_LENGTH) = (Z.of_nat j =? 0)).
  { apply eq_true_iff_eq. rewrite !Z.eqb_eq. ring_arith. }
  rewrite Heq. destruct j as [|j]; [done|].
  rewrite (proj2 (Z.eqb_neq _ _)) by lia. cbn [lookup list_lookup].
  rewrite lookup_contents by lia. do 3 f_equal. lia.
Qed.

Lemma wf_pop_front b : wf b -> wf (rb_pop_front b).2.
Proof using Hk.
  intros (Hb&Hs&He). pose proof RB_LENGTH_bound.
  unfold rb_pop_front, wf; case_match; simpl; rewrite ?u8_mask; ring_arith.
Qed.

Lemma pop_front_contents b v l :
  wf b -> contents b = v :: l ->
  (rb_pop_front b).1 = v /\ contents (rb_pop_front b).2 = l.
Proof using Hk.
  intros Hwf Hl. pose proof Hwf as (Hb&Hs&He). pose proof RB_LENGTH_bound as HL.
  pose proof (length_contents b) as Hc. rewrite Hl in Hc. cbn [Datatypes.length] in Hc.
  pose proof (rb_length_mod b) as Hm.
  assert (Hne : end_index b <> start_index b).
  { intros E. rewrite E, Z.sub_diag, Z.mod_0_l in Hm by lia. lia. }
  unfold rb_pop_front. rewrite (proj2 (Z.eqb_neq _ _) Hne). cbn [negb fst snd].
  rewrite !u8_mask, land_mask. cbn [set_start start_index].
  assert (Hsl : forall i, slot (set_start b i) = slot b) by done.
  split.
  - pose proof (lookup_contents b 0 ltac:(lia)) as H0. rewrite Hl in H0.
    injection H0 as ->. rewrite Hsl. f_equal. rewrite Zminus_mod_idemp_l. f_equal. lia.
  - apply contents_ext.
    + rewrite rb_length_mod. cbn [end_index start_index set_start]. revert Hm. ring_arith.
    + intros j Hj. rewrite Hsl. cbn [start_index set_start].
      assert (Z.of_nat j + 1 < rb_length b).
      { rewrite rb_length_mod in Hj. cbn [end_index start_index set_start] in Hj.
        revert Hm Hj. ring_arith. }
      transitivity (contents b !! Datatypes.S j); [by rewrite Hl|].
      rewrite lookup_contents, Zplus_mod_idemp_l by lia. do 3 f_equal. lia.
Qed.

Lemma pop_front_empty b : wf b -> contents b = [] -> rb_pop_front b = (zero, b).
Proof using Hk.
  intros (Hb&Hs&He) Hl. pose proof RB_LENGTH_bound as HL.
  pose proof (length_contents b) as Hc. rewrite Hl in Hc. cbn [Datatypes.length] in Hc.
  pose proof (rb_length_mod b) as Hm.
  unfold rb_pop_front. assert (end_index b = start_index b) as ->; [|by rewrite Z.eqb_refl].
  revert Hm. ring_arith.
Qed.

Lemma wf_pop_back b : wf b -> wf (rb_pop_back b).2.
Proof using Hk.
  intros (Hb&Hs&He). pose proof RB_LENGTH_bound.
  unfold rb_pop_back, wf; case_match; simpl; rewrite ?u8_mask; ring_arith.
Qed.

Lemma pop_back_contents b v l :
  wf b -> contents b = l ++ [v] ->
  (rb_pop_back b).1 = v /\ contents (rb_pop_back b).2 = l.
Proof using Hk.
  intros Hwf Hl. pose proof Hwf as (Hb&Hs&He). pose proof RB_LENGTH_bound as HL.
  pose proof (length_contents b) as Hc. rewrite Hl, length_app in Hc.
  cbn [Datatypes.length] in Hc. pose proof (rb_length_mod b) as Hm.
  assert (Hne : start_index b <> end_index b).
  { intros E. rewrite E, Z.sub_diag, Z.mod_0_l in Hm by lia. lia. }
  unfold rb_pop_back. rewrite (proj2 (Z.eqb_neq _ _) Hne). cbn [negb fst snd].
  rewrite !u8_mask. cbn [set_end end_index].
  assert (Hsl : forall i, slot (set_end b i) = slot b) by done.
  assert (Hnl : rb_length (set_end b ((end_index b - 1) mod RB_LENGTH)) = rb_length b - 1).
  { rewrite !rb_length_mod. cbn [end_index start_index set_end].
    revert Hm. ring_arith. }
  split.
  - pose proof (lookup_contents b (List.length l) ltac:(lia)) as H0.
    rewrite Hl, lookup_app_r, Nat.sub_diag in H0 by lia. injection H0 as ->.
    rewrite Hsl. f_equal. rewrite (end_start_length b Hwf) at 1.
    rewrite Zminus_mod_idemp_l. f_equal. lia.
  - apply contents_ext; [lia|].
    intros j Hj. rewrite Hsl. cbn [start_index set_end].
    rewrite <- lookup_contents, Hl, lookup_app_l by lia. done.
Qed.

Lemma pop_back_empty b : wf b -> contents b = [] -> rb_pop_back b = (zero, b).
Proof using Hk.
  intros (Hb&Hs&He) Hl. pose proof RB_LENGTH_bound as HL.
  pose proof (length_contents b) as Hc. rewrite Hl in Hc. cbn [Datatypes.length] in Hc.
  pose proof (rb_length_mod b) as Hm.
  unfold rb_pop_back. assert (start_index b = end_index b) as ->; [|by rewrite Z.eqb_refl].
  revert Hm. ring_arith.
Qed.

Lemma rb_get_contents b (i : nat) :
  Z.of_nat i < rb_length b -> contents b !! i = Some (rb_get b (Z.of_nat i)).
Proof using Hk. intros. rewrite lookup_contents by done. unfold rb_get. by rewrite land_mask. Qed.

(** *** rb_set: assignment, extension, and the index it never reaches *)

Lemma rb_set_in_range fuel b (i : nat) v :
  wf b -> Z.of_nat i < rb_length b ->
  exists b', rb_set fuel b (Z.of_nat i) v = Some b' /\ wf b' /\
    contents b' = <[i := v]> (contents b).
Proof using Hk.
  intros Hwf Hi. pose proof Hwf as (Hb&Hs&He). pose proof RB_LENGTH_bound as HL.
  pose proof (rb_length_range b) as Hr. pose proof (length_contents b) as Hc.
  unfold rb_set. rewrite (proj2 (Z.leb_gt _ _)) by done.
  eexists; split_and!; [done|by apply wf_set_slot|].
  apply contents_ext; [by rewrite length_insert|].
  intros j Hj. change (Z.of_nat j < rb_length b) in Hj. cbn [set_slot start_index].
  rewrite land_mask, slot_set_slot, slot_index_inj
    by (done || lia || (apply Z.mod_pos_bound; lia)).
  destruct (Z.eqb_spec (Z.of_nat i) (Z.of_nat j)) as [E|E].
  - apply Nat2Z.inj in E as ->. rewrite list_lookup_insert_eq by lia. done.
  - rewrite list_lookup_insert_ne by lia. by apply lookup_contents.
Qed.

Lemma rb_set_fill_extends fuel b i v :
  wf b -> rb_length b <= i + 1 -> i < RB_LENGTH - 1 -> i + 1 - rb_length b <= Z.of_nat fuel ->
  exists b', rb_set_fill fuel b i v = Some b' /\ wf b' /\
    contents b' = contents b ++ replicate (Z.to_nat (i + 1 - rb_length b)) v.
Proof using Hk.
  revert b. induction fuel as [|fuel IH]; intros b Hwf Hlo Hhi Hf; simpl.
  all: destruct (Z.leb_spec (rb_length b) i); [|exists b; split_and!; [done..|];
    replace (Z.to_nat _) with 0%nat by lia; by rewrite app_nil_r].
  { lia. }
  pose proof (length_contents b) as Hc. pose proof (rb_length_range b) as Hr.
  destruct (push_back_fields b v Hwf) as (_&Hlen&_).
  destruct (IH (rb_push_back b v)) as (b'&E1&E2&E3); [by apply wf_push_back|lia..|].
  exists b'. split_and!; [done..|].
  rewrite E3, push_back_contents, lastn_all by (done || (rewrite length_app; simpl; lia)).
  rewrite <- app_assoc, Hlen. f_equal.
  replace (Z.to_nat (i + 1 - rb_length b))
    with (Datatypes.S (Z.to_nat (i + 1 - Z.min (RB_LENGTH - 1) (rb_length b + 1)))) by lia.
  done.
Qed.

Lemma rb_set_extends b i v :
  wf b -> rb_length b <= i < RB_LENGTH - 1 ->
  exists b', rb_set (Z.to_nat RB_LENGTH) b i v = Some b' /\ wf b' /\
    contents b' = contents b ++ replicate (Z.to_nat (i + 1 - rb_length b)) v.
Proof using Hk.
  intros Hwf Hi. pose proof (rb_length_range b). unfold rb_set.
  rewrite (proj2 (Z.leb_le _ _)), (proj2 (Z.leb_gt _ _)) by lia. simpl.
  apply rb_set_fill_extends; (done || lia).
Qed.

(** At [RB_LENGTH - 1] the loop condition can never become false: the ring
    never holds [RB_LENGTH] elements. *)
Lemma rb_set_fill_diverges fuel b v :
  rb_set_fill fuel b (RB_LENGTH - 1) v = None.
Proof using Hk.
  revert b. induction fuel as [|fuel IH]; intros b; simpl; pose proof (rb_length_range b);
    rewrite (proj2 (Z.leb_le _ _)) by lia; auto.
Qed.

Lemma rb_set_diverges fuel b v : rb_set fuel b (RB_LENGTH - 1) v = None.
Proof using Hk.
  unfold rb_set. pose proof (rb_length_range b).
  rewrite (proj2 (Z.leb_le _ _)), (proj2 (Z.leb_gt _ _)) by lia. apply rb_set_fill_diverges.
Qed.
End Ring.

Arguments Ring_Buffer A : clear implicits.
End Ring.

(** ** The two instances of the firmware *)

Definition Ring_Buffer_F : Type := Ring.Ring_Buffer f32.
Definition Ring_Buffer_C : Type := Ring.Ring_Buffer Z.

Definition RB_LENGTH_F : Z := Ring.RB_LENGTH 3.
Definition RB_LENGTH_C : Z := Ring.RB_LENGTH 6.

Definition rb_initialize_F (b : Ring_Buffer_F) : Ring_Buffer_F := Ring.rb_initialize b.
Definition rb_initialize_C (b : Ring_Buffer_C) : Ring_Buffer_C := Ring.rb_initialize b.
Definition rb_length_F (b : Ring_Buffer_F) : Z := Ring.rb_length 3 b.
Definition rb_length_C (b : Ring_Buffer_C) : Z := Ring.rb_length 6 b.
Definition rb_push_back_F (b : Ring_Buffer_F) (v : f32) : Ring_Buffer_F := Ring.rb_push_back 3 b v.
Definition rb_push_back_C (b : Ring_Buffer_C) (v : Z) : Ring_Buffer_C := Ring.rb_push_back 6 b v.
Definition rb_push_front_F (b : Ring_Buffer_F) (v : f32) : Ring_Buffer_F := Ring.rb_push_front 3 b v.
Definition rb_push_front_C (b : Ring_Buffer_C) (v : Z) : Ring_Buffer_C := Ring.rb_push_front 6 b v.
Definition rb_pop_back_F (b : Ring_Buffer_F) : f32 * Ring_Buffer_F := Ring.rb_pop_back f32_zero 3 b.
Definition rb_pop_back_C (b : Ring_Buffer_C) : Z * Ring_Buffer_C := Ring.rb_pop_back 0 6 b.
Definition rb_pop_front_F (b : Ring_Buffer_F) : f32 * Ring_Buffer_F := Ring.rb_pop_front f32_zero 3 b.
Definition rb_pop_front_C (b : Ring_Buffer_C) : Z * Ring_Buffer_C := Ring.rb_pop_front 0 6 b.
Definition rb_get_F (b : Ring_Buffer_F) (i : Z) : f32 := Ring.rb_get f32_zero 3 b i.
Definition rb_get_C (b : Ring_Buffer_C) (i : Z) : Z := Ring.rb_get 0 6 b i.
(** The [while] of [rb_set] adds one element per turn, so [RB_LENGTH] turns are
    enough whenever it ends at all. *)
Definition rb_set_F (b : Ring_Buffer_F) (i : Z) (v : f32) : option Ring_Buffer_F :=
  Ring.rb_set 3 8 b i v.
Definition rb_set_C (b : Ring_Buffer_C) (i : Z) (v : Z) : option Ring_Buffer_C :=
  Ring.rb_set 6 64 b i v.

(** The abstract contents. *)
Definition contents_F (b : Ring_Buffer_F) : list f32 := Ring.contents f32_zero 3 b.
Definition contents_C (b : Ring_Buffer_C) : list Z := Ring.contents 0 6 b.
Definition wf_F (b : Ring_Buffer_F) : Prop := Ring.wf 3 b.
Definition wf_C (b : Ring_Buffer_C) : Prop := Ring.wf 6 b.

(** The static storage before initialization: all bytes zero. *)
Definition ring_zero_F : Ring_Buffer_F :=
  {| Ring.buffer := replicate 8 f32_zero; Ring.start_index := 0; Ring.end_index := 0 |}.
Definition ring_zero_C : Ring_Buffer_C :=
  {| Ring.buffer := replicate 64 0; Ring.start_index := 0; Ring.end_index := 0 |}.

Lemma wf_ring_zero_F : wf_F ring_zero_F.
Proof. by vm_compute. Qed.
Lemma wf_ring_zero_C : wf_C ring_zero_C.
Proof. by vm_compute. Qed.

#[export] Instance Ring_C_queue : Queue Ring_Buffer_C Z := {
  q_contents := contents_C;
  q_ok := wf_C;
  q_cap := 63;
  q_push := rb_push_back_C;
  q_pop := rb_pop_front_C;
  q_length := rb_length_C;
}.

#[export] Instance Ring_C_laws : QueueLaws Ring_Buffer_C Z.
Proof.
  split; unfold q_contents, q_ok, q_cap, q_push, q_pop, q_length; cbn.
  - intros. by apply Ring.wf_push_back.
  - intros. by apply (Ring.push_back_contents 0 6).
  - intros. by apply Ring.wf_pop_front.
  - intros. by apply Ring.pop_front_contents.
  - intros. symmetry. by apply Ring.length_contents.
  - intros q _. pose proof (Ring.length_contents 0 6 ltac:(lia) q).
    pose proof (Ring.rb_length_range 6 ltac:(lia) q).
    unfold contents_C. change (Ring.RB_LENGTH 6) with 64 in *. lia.
Qed.

(** ** The abstract deque as a machine

    The operations a client can perform, the abstract deque of capacity [cap]
    that runs them, and the ring that runs them.  [None] as an abstract answer
    means the deque promises nothing (reading outside the active elements). *)
Inductive deque_op (A : Type) :=
  | OpInit
  | OpPushBack (v : A)
  | OpPushFront (v : A)
  | OpPopBack
  | OpPopFront
  | OpGet (i : nat)
  | OpLength.
Arguments OpInit {A}.
Arguments OpPushBack {A}.
Arguments OpPushFront {A}.
Arguments OpPopBack {A}.
Arguments OpPopFront {A}.
Arguments OpGet {A}.
Arguments OpLength {A}.

Inductive deque_answer (A : Type) := AnsUnit | AnsElem (v : A) | AnsLen (n : Z).
Arguments AnsUnit {A}.
Arguments AnsElem {A}.
Arguments AnsLen {A}.

Section deque.
Context {A : Type} (zero : A) (k : Z).

Definition deque_run1 (op : deque_op A) (l : list A) : option (deque_answer A) * list A :=
  let cap := Z.to_nat (2 ^ k - 1) in
  match op with
  | OpInit => (Some AnsUnit, [])
  | OpPushBack v => (Some AnsUnit, lastn cap (l ++ [v]))
  | OpPushFront v => (Some AnsUnit, take cap (v :: l))
  | OpPopBack => (Some (AnsElem (default zero (last l))), take (List.length l - 1) l)
  | OpPopFront => (Some (AnsElem (default zero (head l))), tail l)
  | OpGet i => (AnsElem <$> l !! i, l)
  | OpLength => (Some (AnsLen (Z.of_nat (List.length l))), l)
  end.

Definition ring_run1 (op : deque_op A) (b : Ring.Ring_Buffer A)
    : deque_answer A * Ring.Ring_Buffer A :=
  match op with
  | OpInit => (AnsUnit, Ring.rb_initialize b)
  | OpPushBack v => (AnsUnit, Ring.rb_push_back k b v)
  | OpPushFront v => (AnsUnit, Ring.rb_push_front k b v)
  | OpPopBack => let '(v, b) := Ring.rb_pop_back zero k b in (AnsElem v, b)
  | OpPopFront => let '(v, b) := Ring.rb_pop_front zero k b in (AnsElem v, b)
  | OpGet i => (AnsElem (Ring.rb_get zero k b (Z.of_nat i)), b)
  | OpLength => (AnsLen (Ring.rb_length k b), b)
  end.

Fixpoint deque_run (ops : list (deque_op A)) (l : list A) :=
  match ops with
  | [] => ([], l)
  | op :: ops =>
      let '(r, l) := deque_run1 op l in
      let '(rs, l) := deque_run ops l in (r :: rs, l)
  end.

Fixpoint ring_run (ops : list (deque_op A)) (b : Ring.Ring_Buffer A) :=
  match ops with
  | [] => ([], b)
  | op :: ops =>
      let '(r, b) := ring_run1 op b in
      let '(rs, b) := ring_run ops b in (r :: rs, b)
  end.

(** The ring's answer is the one the deque promises, where it promises one. *)
Definition answer_ok (spec : option (deque_answer A)) (impl : deque_answer A) : Prop :=
  match spec with Some a => impl = a | None => True end.

Context (Hk : 1 <= k <= 8).

Lemma ring_run1_refines op b :
  Ring.wf k b ->
  let '(r, b') := ring_run1 op b in
  let '(s, l') := deque_run1 op (Ring.contents zero k b) in
  answer_ok s r /\ Ring.wf k b' /\ Ring.contents zero k b' = l'.
Proof using Hk.
  intros Hwf. destruct op as [|v|v| | |i|]; cbn [ring_run1 deque_run1].
  - split_and!; [done|by apply Ring.wf_initialize|done].
  - split_and!; [done|by apply Ring.wf_push_back|by apply Ring.push_back_contents].
  - split_and!; [done|by apply Ring.wf_push_front|by apply Ring.push_front_contents].
  - pose proof (Ring.wf_pop_back zero k Hk b Hwf) as Hwf'.
    pose proof (Ring.pop_back_contents zero k Hk b) as Hp.
    pose proof (Ring.pop_back_empty zero k Hk b Hwf) as He.
    destruct (Ring.contents zero k b) as [|v l _] eqn:E using rev_ind.
    + rewrite He in * by done. done.
    + destruct (Hp v l Hwf eq_refl) as [H1 H2].
      destruct (Ring.rb_pop_back zero k b) as [u b']. cbn [fst snd] in *. subst.
      rewrite last_snoc, length_app, Nat.add_sub, take_app_length. done.
  - pose proof (Ring.wf_pop_front zero k Hk b Hwf) as Hwf'.
    pose proof (Ring.pop_front_contents zero k Hk b) as Hp.
    pose proof (Ring.pop_front_empty zero k Hk b Hwf) as He.
    destruct (Ring.contents zero k b) as [|v l] eqn:E.
    + rewrite He in * by done. done.
    + destruct (Hp v l Hwf eq_refl) as [H1 H2].
      destruct (Ring.rb_pop_front zero k b) as [u b']. cbn [fst snd] in *. by subst.
  - split_and!; [|done..].
    destruct (decide (Z.of_nat i < Ring.rb_length k b)) as [Hi|Hi].
    + by rewrite Ring.rb_get_contents.
    + pose proof (Ring.length_contents zero k Hk b).
      rewrite lookup_ge_None_2 by lia. done.
  - split_and!; [|done..]. simpl. by rewrite Ring.length_contents.
Qed.

Lemma ring_run_refines ops b :
  Ring.wf k b ->
  let '(rs, b') := ring_run ops b in
  let '(ss, l') := deque_run ops (Ring.contents zero k b) in
  Forall2 answer_ok ss rs /\ Ring.wf k b' /\ Ring.contents zero k b' = l'.
Proof using Hk.
  revert b. induction ops as [|op ops IH]; intros b Hwf; simpl; [done|].
  pose proof (ring_run1_refines op b Hwf) as H1.
  destruct (ring_run1 op b) as [r b1], (deque_run1 op _) as [s l1].
  destruct H1 as (Ha&Hwf1&<-). specialize (IH b1 Hwf1).
  destruct (ring_run ops b1) as [rs b2], (deque_run ops _) as [ss l2].
  destruct IH as (Hf&Hwf2&Hc). split_and!; [by constructor|done..].
Qed.
End deque.

(** ** Properties *)

(** C35: the ring buffer refines the bounded deque.  Whatever sequence of
    pushes, pops, reads, length queries and initializations a client performs
    on a well-formed ring of 2^k slots, every answer is the answer of a deque
    that holds at most 2^k - 1 elements and drops the element at the far end
    when it is full; the ring stays well formed and its active elements are the
    deque's. *)
Theorem ring_refines_deque {A} (zero : A) k ops b :
  1 <= k <= 8 -> Ring.wf k b ->
  let '(rs, b') := ring_run zero k ops b in
  let '(ss, l') := deque_run zero k ops (Ring.contents zero k b) in
  Forall2 answer_ok ss rs /\ Ring.wf k b' /\ Ring.contents zero k b' = l'.
Proof. intros. by apply ring_run_refines. Qed.

Definition ring_witness_ops : list (deque_op Z) :=
  OpPopBack :: ((fun i => OpPushBack (Z.of_nat i)) <$> seq 0 70) ++
  [OpPopFront; OpPushFront 99; OpPopBack; OpLength; OpGet 2].

Lemma ring_refines_deque_witness :
  (deque_run 0 6 ring_witness_ops []).1 !! 71%nat = Some (Some (AnsElem 7)) /\
  Ring.contents 0 6 (ring_run 0 6 ring_witness_ops ring_zero_C).2 =
    99 :: (Z.of_nat <$> seq 8 61).
Proof.
  split; [by vm_compute|].
  pose proof (ring_refines_deque 0 6 ring_witness_ops ring_zero_C
    ltac:(lia) ltac:(vm_compute; done)) as H.
  destruct (ring_run 0 6 ring_witness_ops ring_zero_C) as [rs b'].
  destruct (deque_run 0 6 ring_witness_ops (Ring.contents 0 6 ring_zero_C)) as [ss l'] eqn:E.
  destruct H as (_&_&H). simpl. rewrite H. clear H.
  vm_compute in E. by injection E as _ <-.
Defined.

(** [rb_set] on every index.  Inside the active length it assigns that
    element; from the length up to [RB_LENGTH - 2] it extends the ring with the
    value up to that index; at [RB_LENGTH] and beyond it does nothing; and at
    [RB_LENGTH - 1] the [while] loop never ends, however long it runs. *)
Theorem rb_set_behaviour {A} (zero : A) k b i v :
  1 <= k <= 8 -> Ring.wf k b -> 0 <= i ->
  let len := Ring.rb_length k b in
  let L := Ring.RB_LENGTH k in
  (i < len -> exists b', Ring.rb_set k (Z.to_nat L) b i v = Some b' /\ Ring.wf k b' /\
     Ring.contents zero k b' = <[Z.to_nat i := v]> (Ring.contents zero k b)) /\
  (len <= i < L - 1 -> exists b', Ring.rb_set k (Z.to_nat L) b i v = Some b' /\ Ring.wf k b' /\
     Ring.contents zero k b' =
       Ring.contents zero k b ++ replicate (Z.to_nat (i + 1 - len)) v) /\
  (L <= i -> Ring.rb_set k (Z.to_nat L) b i v = Some b) /\
  (i = L - 1 -> forall fuel, Ring.rb_set k fuel b i v = None).
Proof.
  intros Hk Hwf Hi len L. pose proof (Ring.rb_length_range k Hk b) as Hr. split_and!.
  - intros Hlt. destruct (Ring.rb_set_in_range zero k Hk (Z.to_nat L) b (Z.to_nat i) v) as (b'&?&?&?);
      [done|lia|]. rewrite Z2Nat.id in * by lia. eauto.
  - intros Hlt. by apply Ring.rb_set_extends.
  - intros Hge. unfold Ring.rb_set. by rewrite !(proj2 (Z.leb_le _ _)) by lia.
  - intros -> fuel. by apply Ring.rb_set_diverges.
Qed.

Lemma rb_set_behaviour_witness :
  (exists b', Ring.rb_set 6 64 ring_zero_C 2 7 = Some b' /\ Ring.contents 0 6 b' = [7; 7; 7]) /\
  (forall fuel, Ring.rb_set 6 fuel ring_zero_C 63 7 = None).
Proof.
  split.
  - destruct (rb_set_behaviour 0 6 ring_zero_C 2 7 ltac:(lia) ltac:(vm_compute; done) ltac:(lia))
      as (_&H&_).
    destruct H as (b'&H1&_&H3); [vm_compute; done|]. exists b'. by split.
  - destruct (rb_set_behaviour 0 6 ring_zero_C 63 7 ltac:(lia) ltac:(vm_compute; done) ltac:(lia))
      as (_&_&_&H).
    by apply H.
Defined.
