(* ===== verification/Filter.v ===== *)
(** * Filter: Driver/Filter.c

    The digital filter: four float rings (coefficients and histories) and the
    operations on them.  [None] is an execution the C code does not survive:
    an array read out of bounds or a loop that does not end.  [filter_step] is
    the difference equation of the header comment, on plain lists. *)
From S2P Require Import Prelude.
From S2P Require Import Float32.
From S2P Require Import RingBuffer.

Record Filter_Data_t := {
  numerator : Ring_Buffer_F;
  denominator : Ring_Buffer_F;
  out_list : Ring_Buffer_F;
  in_list : Ring_Buffer_F;
}.

Definition filter_zero : Filter_Data_t :=
  {| numerator := ring_zero_F; denominator := ring_zero_F;
     out_list := ring_zero_F; in_list := ring_zero_F |}.

Definition with_in (f : Filter_Data_t) (r : Ring_Buffer_F) : Filter_Data_t :=
  {| numerator := numerator f; denominator := denominator f;
     out_list := out_list f; in_list := r |}.
Definition with_out (f : Filter_Data_t) (r : Ring_Buffer_F) : Filter_Data_t :=
  {| numerator := numerator f; denominator := denominator f;
     out_list := r; in_list := in_list f |}.

(** One turn of the loop of [Filter_Init]. *)
Definition Filter_Init_step (numerator_coeffs denominator_coeffs : list f32)
    (f : Filter_Data_t) (i : nat) : option Filter_Data_t :=
  b ← numerator_coeffs !! i;
  a ← denominator_coeffs !! i;
  Some {| numerator := rb_push_back_F (numerator f) b;
          denominator := rb_push_back_F (denominator f) a;
          in_list := rb_push_back_F (in_list f) f32_zero;
          out_list := rb_push_back_F (out_list f) f32_zero |}.

Fixpoint foldM {S A} (step : S -> A -> option S) (s : S) (l : list A) : option S :=
  match l with
  | [] => Some s
  | a :: l => s' ← step s a; foldM step s' l
  end.

Definition Filter_Init (f : Filter_Data_t) (numerator_coeffs denominator_coeffs : list f32)
    (order : Z) : option Filter_Data_t :=
  let f := {| numerator := rb_initialize_F (numerator f);
              denominator := rb_initialize_F (denominator f);
              in_list := rb_initialize_F (in_list f);
              out_list := rb_initialize_F (out_list f) |} in
  foldM (Filter_Init_step numerator_coeffs denominator_coeffs) f
    (seq 0 (Z.to_nat (u8 order + 1))).

Definition Filter_ShiftBy (f : Filter_Data_t) (shift_amount : f32) : option Filter_Data_t :=
  let n := Z.to_nat (rb_length_F (in_list f)) in
  foldM (fun f (i : nat) =>
    let i := Z.of_nat i in
    r ← rb_set_F (in_list f) i (rb_get_F (in_list f) i + shift_amount)%f32;
    let f := with_in f r in
    r ← rb_set_F (out_list f) i (rb_get_F (out_list f) i + shift_amount)%f32;
    Some (with_out f r)) f (seq 0 n).

Definition Filter_SetTo (f : Filter_Data_t) (amount : f32) : option Filter_Data_t :=
  let n := Z.to_nat (rb_length_F (in_list f)) in
  foldM (fun f (i : nat) =>
    let i := Z.of_nat i in
    r ← rb_set_F (in_list f) i amount;
    let f := with_in f r in
    r ← rb_set_F (out_list f) i amount;
    Some (with_out f r)) f (seq 0 n).

(** The loop of [Filter_Value]: [(top_sum, bottum_sum)] after [i = 0 .. n-1]. *)
Definition Filter_Value_sums (f : Filter_Data_t) (n : nat) : f32 * f32 :=
  fold_left (fun '(top_sum, bottum_sum) (i : nat) =>
    let top_sum :=
      (top_sum + rb_get_F (numerator f) (Z.of_nat i) * rb_get_F (in_list f) (Z.of_nat i))%f32 in
    let bottum_sum :=
      if Z.of_nat i <? Z.of_nat n - 1
      then (bottum_sum + rb_get_F (denominator f) (Z.of_nat i + 1) *
                         rb_get_F (out_list f) (Z.of_nat i))%f32
      else bottum_sum in
    (top_sum, bottum_sum)) (seq 0 n) (f32_zero, f32_zero).

Definition Filter_Value (f : Filter_Data_t) (value : f32) : f32 * Filter_Data_t :=
  let n := Z.to_nat (rb_length_F (in_list f)) in
  (* Pop oldest input/output value *)
  let f := with_in f (rb_pop_back_F (in_list f)).2 in
  let f := with_out f (rb_pop_back_F (out_list f)).2 in
  (* Push newest reading *)
  let f := with_in f (rb_push_front_F (in_list f) value) in
  let '(top_sum, bottum_sum) := Filter_Value_sums f n in
  (* Push new output onto buffer *)
  let f := with_out f (rb_push_front_F (out_list f)
             ((top_sum - bottum_sum) / rb_get_F (denominator f) 0)%f32) in
  (rb_get_F (out_list f) 0, f).

Definition Filter_Last_Output (f : Filter_Data_t) : f32 := rb_get_F (out_list f) 0.

(** ** Specification *)

(** The sum of products, accumulated left to right from +0. *)
Definition dot (xs ys : list f32) : f32 :=
  fold_left (fun acc p => acc + p.1 * p.2)%f32 (zip xs ys) f32_zero.

(** 1/A_0 * ( SUM_(i=0..N) B_i * input_i - SUM_(i=1..N) A_i * output_(i-1) ),
    histories newest first; the output list does not yet hold the new value. *)
Definition filter_step (bs a_s ins outs : list f32) : f32 :=
  ((dot bs ins - dot (tail a_s) outs) / default f32_zero (head a_s))%f32.

(** A filter of [n] coefficients: four well-formed rings of [n] elements. *)
Definition filter_ok (n : nat) (f : Filter_Data_t) : Prop :=
  (1 <= n <= 7)%nat /\
  wf_F (numerator f) /\ wf_F (denominator f) /\ wf_F (in_list f) /\ wf_F (out_list f) /\
  length (contents_F (numerator f)) = n /\ length (contents_F (denominator f)) = n /\
  length (contents_F (in_list f)) = n /\ length (contents_F (out_list f)) = n.

Lemma rb_length_F_contents b : rb_length_F b = Z.of_nat (length (contents_F b)).
Proof. symmetry. by apply (Ring.length_contents f32_zero 3). Qed.

Lemma rb_get_F_contents b (i : nat) :
  (i < length (contents_F b))%nat -> contents_F b !! i = Some (rb_get_F b (Z.of_nat i)).
Proof.
  intros Hi. apply Ring.rb_get_contents; [lia|].
  pose proof (rb_length_F_contents b) as H. unfold rb_length_F in H. lia.
Qed.

Lemma rb_set_F_spec b (i : nat) v :
  wf_F b -> (i < length (contents_F b))%nat ->
  exists b', rb_set_F b (Z.of_nat i) v = Some b' /\ wf_F b' /\
    contents_F b' = <[i := v]> (contents_F b).
Proof.
  intros Hwf Hi. apply (Ring.rb_set_in_range f32_zero 3); [lia|done|].
  pose proof (rb_length_F_contents b) as H. unfold rb_length_F in H. lia.
Qed.

(** ** Correctness of the operations *)

Lemma dot_take_S xs ys i x y :
  xs !! i = Some x -> ys !! i = Some y ->
  dot (take (S i) xs) (take (S i) ys) = (dot (take i xs) (take i ys) + x * y)%f32.
Proof.
  intros Hx Hy. rewrite (take_S_r xs i x Hx), (take_S_r ys i y Hy).
  pose proof (lookup_lt_Some _ _ _ Hx). pose proof (lookup_lt_Some _ _ _ Hy).
  unfold dot. rewrite zip_with_app by (rewrite !length_take; lia).
  by rewrite fold_left_app.
Qed.

Lemma Filter_Value_sums_spec f n bs a0 a_s ins outs :
  contents_F (numerator f) = bs -> contents_F (denominator f) = a0 :: a_s ->
  contents_F (in_list f) = ins -> contents_F (out_list f) = outs ->
  length bs = n -> length ins = n -> S (length a_s) = n -> S (length outs) = n ->
  Filter_Value_sums f n = (dot bs ins, dot a_s outs).
Proof.
  intros Hb Ha Hi Ho Lb Li La Lo. unfold Filter_Value_sums.
  match goal with |- fold_left ?F _ _ = _ => set (step := F) end.
  assert (Hinv : forall m, (m <= n)%nat ->
    fold_left step (seq 0 m) (f32_zero, f32_zero) =
      (dot (take m bs) (take m ins), dot (take m a_s) (take m outs))).
  { induction m as [|m IH]; intros Hm; [by rewrite !take_0|].
    rewrite seq_S, fold_left_app, IH by lia. cbn [fold_left]. unfold step. simpl plus.
    destruct (lookup_lt_is_Some_2 bs m) as [x Hx]; [lia|].
    destruct (lookup_lt_is_Some_2 ins m) as [y Hy]; [lia|].
    rewrite (dot_take_S bs ins m x y) by done.
    pose proof (rb_get_F_contents (numerator f) m) as G1. rewrite Hb, Hx in G1.
    pose proof (rb_get_F_contents (in_list f) m) as G2. rewrite Hi, Hy in G2.
    injection G1 as <-; [|lia]. injection G2 as <-; [|lia]. f_equal.
    destruct (Z.ltb_spec (Z.of_nat m) (Z.of_nat n - 1)).
    - destruct (lookup_lt_is_Some_2 a_s m) as [u Hu]; [lia|].
      destruct (lookup_lt_is_Some_2 outs m) as [w Hw]; [lia|].
      rewrite (dot_take_S a_s outs m u w) by done.
      pose proof (rb_get_F_contents (denominator f) (S m)) as G3.
      rewrite Ha in G3. change ((a0 :: a_s) !! S m) with (a_s !! m) in G3. rewrite Hu in G3.
      pose proof (rb_get_F_contents (out_list f) m) as G4. rewrite Ho, Hw in G4.
      replace (Z.of_nat m + 1) with (Z.of_nat (S m)) by lia.
      injection G3 as <-; [|simpl; lia]. by injection G4 as <-; [|lia].
    - by rewrite !take_ge by lia. }
  rewrite (Hinv n) by lia. by rewrite !take_ge by lia.
Qed.

(** The oldest sample is dropped, the newest is put in front. *)
Lemma pop_back_F_spec b :
  wf_F b -> (0 < length (contents_F b))%nat ->
  wf_F (rb_pop_back_F b).2 /\
  contents_F (rb_pop_back_F b).2 = take (length (contents_F b) - 1) (contents_F b).
Proof.
  intros Hwf Hl. split; [by apply Ring.wf_pop_back|].
  destruct (contents_F b) as [|v l _] eqn:E using rev_ind; [simpl in Hl; lia|].
  destruct (Ring.pop_back_contents f32_zero 3 ltac:(lia) b v l Hwf E) as [_ H].
  etransitivity; [exact H|]. by rewrite length_app, Nat.add_sub, take_app_length.
Qed.

Lemma push_front_F_spec b v :
  wf_F b -> (length (contents_F b) < 7)%nat ->
  wf_F (rb_push_front_F b v) /\ contents_F (rb_push_front_F b v) = v :: contents_F b.
Proof.
  intros Hwf Hl. split; [by apply Ring.wf_push_front|].
  etransitivity; [by apply (Ring.push_front_contents f32_zero 3)|].
  rewrite take_ge; [done|]. change (Z.to_nat _) with 7%nat. unfold contents_F in *. simpl. lia.
Qed.

Lemma push_back_F_spec b v :
  wf_F b -> (length (contents_F b) < 7)%nat ->
  wf_F (rb_push_back_F b v) /\ contents_F (rb_push_back_F b v) = contents_F b ++ [v].
Proof.
  intros Hwf Hl. split; [by apply Ring.wf_push_back|].
  etransitivity; [by apply (Ring.push_back_contents f32_zero 3)|].
  apply lastn_all. change (Z.to_nat _) with 7%nat. rewrite length_app.
  unfold contents_F in *. simpl. lia.
Qed.

Lemma rb_get_F_head b v l : contents_F b = v :: l -> rb_get_F b 0 = v.
Proof.
  intros E. pose proof (rb_get_F_contents b 0) as H. rewrite E in H.
  specialize (H ltac:(simpl; lia)). by injection H as ->.
Qed.

Lemma Filter_Value_spec n f v :
  filter_ok n f ->
  let ins := v :: take (n - 1) (contents_F (in_list f)) in
  let outs := take (n - 1) (contents_F (out_list f)) in
  let y := filter_step (contents_F (numerator f)) (contents_F (denominator f)) ins outs in
  (Filter_Value f v).1 = y /\
  let f' := (Filter_Value f v).2 in
  filter_ok n f' /\ contents_F (in_list f') = ins /\ contents_F (out_list f') = y :: outs /\
  numerator f' = numerator f /\ denominator f' = denominator f.
Proof.
  intros (Hn&Wb&Wa&Wi&Wo&Lb&La&Li&Lo) ins outs y.
  destruct (pop_back_F_spec (in_list f) Wi ltac:(lia)) as [Wi1 Ci1].
  destruct (pop_back_F_spec (out_list f) Wo ltac:(lia)) as [Wo1 Co1].
  rewrite Li in Ci1. rewrite Lo in Co1.
  destruct (push_front_F_spec _ v Wi1) as [Wi2 Ci2]; [rewrite Ci1, length_take; lia|].
  rewrite Ci1 in Ci2. fold ins in Ci2.
  destruct (contents_F (denominator f)) as [|a0 a_s] eqn:Ea; [simpl in La; lia|].
  assert (Lins : length ins = n) by (unfold ins; simpl; rewrite length_take; lia).
  assert (Louts : S (length outs) = n) by (unfold outs; rewrite length_take; lia).
  unfold Filter_Value. rewrite rb_length_F_contents, Li, Nat2Z.id. cbn zeta.
  erewrite (Filter_Value_sums_spec _ n _ a0 a_s);
    [|reflexivity|exact Ea|exact Ci2|exact Co1|done..].
  simpl with_out. cbn [out_list with_out with_in denominator fst snd in_list numerator].
  rewrite (rb_get_F_head (denominator f) a0 a_s Ea).
  change (_ / a0)%f32 with y.
  destruct (push_front_F_spec (rb_pop_back_F (out_list f)).2 y Wo1) as [Wo2 Co2];
    [rewrite Co1, length_take; lia|].
  rewrite Co1 in Co2. fold outs in Co2.
  split; [by apply (rb_get_F_head _ y outs)|].
  unfold filter_ok. cbn [out_list with_out with_in denominator in_list numerator].
  rewrite Ci2, Co2, Ea. split_and!; try done; simpl in *; lia.
Qed.

(** Updating positions [0 .. m-1] one at a time. *)
Lemma foldM_app {S A} (step : S -> A -> option S) s l l' :
  foldM step s (l ++ l') = (s' ← foldM step s l; foldM step s' l').
Proof.
  revert s; induction l as [|a l IH]; intros s; simpl; [done|].
  destruct (step s a); simpl; auto.
Qed.

(** Both histories rewritten pointwise by [g], the coefficients untouched. *)
Definition hist_map (g : f32 -> f32) (n : nat) (f f' : Filter_Data_t) : Prop :=
  filter_ok n f' /\ numerator f' = numerator f /\ denominator f' = denominator f /\
  contents_F (in_list f') = g <$> contents_F (in_list f) /\
  contents_F (out_list f') = g <$> contents_F (out_list f).

Section history_update.
Context (g : f32 -> f32).
Let step (f : Filter_Data_t) (i : nat) : option Filter_Data_t :=
  let i := Z.of_nat i in
  r ← rb_set_F (in_list f) i (g (rb_get_F (in_list f) i));
  let f := with_in f r in
  r ← rb_set_F (out_list f) i (g (rb_get_F (out_list f) i));
  Some (with_out f r).

Local Lemma insert_map_step (l l0 : list f32) m x :
  l = (g <$> take m l0) ++ drop m l0 -> l0 !! m = Some x ->
  l !! m = Some x /\ <[m := g x]> l = (g <$> take (S m) l0) ++ drop (S m) l0.
Proof.
  intros -> Hx. pose proof (lookup_lt_Some _ _ _ Hx) as Hlt.
  assert (Hlen : length (g <$> take m l0) = m) by (rewrite length_fmap, length_take; lia).
  rewrite (drop_S l0 x m Hx). split.
  - by rewrite lookup_app_r, Hlen, Nat.sub_diag by lia.
  - rewrite (take_S_r l0 m x Hx), fmap_app, <- app_assoc.
    pose proof (insert_app_r (g <$> take m l0) (x :: drop (S m) l0) 0 (g x)) as HH.
    rewrite Hlen, Nat.add_0_r in HH. exact HH.
Qed.

Local Lemma history_update_prefix n f m :
  filter_ok n f -> (m <= n)%nat ->
  exists f', foldM step f (seq 0 m) = Some f' /\ filter_ok n f' /\
    numerator f' = numerator f /\ denominator f' = denominator f /\
    contents_F (in_list f') =
      (g <$> take m (contents_F (in_list f))) ++ drop m (contents_F (in_list f)) /\
    contents_F (out_list f') =
      (g <$> take m (contents_F (out_list f))) ++ drop m (contents_F (out_list f)).
Proof.
  intros Hok. pose proof Hok as (_&_&_&_&_&_&_&Li0&Lo0).
  induction m as [|m IH]; intros Hm.
  { exists f. by rewrite !take_0, !drop_0. }
  destruct IH as (f1&E1&Hok1&Hn1&Hd1&Hi1&Ho1); [lia|].
  destruct (lookup_lt_is_Some_2 (contents_F (in_list f)) m) as [x Hx]; [lia|].
  destruct (lookup_lt_is_Some_2 (contents_F (out_list f)) m) as [y Hy]; [lia|].
  destruct (insert_map_step _ _ m x Hi1 Hx) as [Gx Ex].
  destruct (insert_map_step _ _ m y Ho1 Hy) as [Gy Ey].
  pose proof Hok1 as (Hn&Wb&Wa&Wi&Wo&Lb&La&Li&Lo).
  rewrite seq_S, foldM_app, E1. cbn [mbind option_bind foldM plus].
  assert (rb_get_F (in_list f1) (Z.of_nat m) = x) as Rx.
  { pose proof (rb_get_F_contents (in_list f1) m ltac:(lia)). congruence. }
  assert (rb_get_F (out_list f1) (Z.of_nat m) = y) as Ry.
  { pose proof (rb_get_F_contents (out_list f1) m ltac:(lia)). congruence. }
  destruct (rb_set_F_spec (in_list f1) m (g x) Wi) as (ri&Si&Wri&Cri); [lia|].
  destruct (rb_set_F_spec (out_list f1) m (g y) Wo) as (ro&So&Wro&Cro); [lia|].
  exists (with_out (with_in f1 ri) ro). unfold step at 1. cbn zeta.
  rewrite Rx, Si. cbn [mbind option_bind with_in out_list]. rewrite Ry, So.
  cbn [mbind option_bind]. rewrite Ex in Cri. rewrite Ey in Cro.
  unfold filter_ok. cbn [with_in with_out in_list out_list numerator denominator].
  assert (length (contents_F ri) = n) by
    (rewrite Cri; rewrite length_app, length_fmap, length_take, length_drop; lia).
  assert (length (contents_F ro) = n) by
    (rewrite Cro; rewrite length_app, length_fmap, length_take, length_drop; lia).
  split_and!; done || lia.
Qed.

Lemma history_update n f :
  filter_ok n f ->
  exists f', foldM step f (seq 0 (Z.to_nat (rb_length_F (in_list f)))) = Some f' /\
    hist_map g n f f'.
Proof.
  intros Hok. pose proof Hok as (_&_&_&_&_&_&_&Li&Lo).
  rewrite rb_length_F_contents, Li, Nat2Z.id.
  destruct (history_update_prefix n f n Hok ltac:(lia)) as (f'&E&?&?&?&Hi&Ho).
  exists f'. rewrite take_ge, drop_ge, app_nil_r in Hi by lia.
  rewrite take_ge, drop_ge, app_nil_r in Ho by lia.
  split; [exact E|]. unfold hist_map. done.
Qed.
End history_update.

Lemma Filter_ShiftBy_spec n f a :
  filter_ok n f ->
  exists f', Filter_ShiftBy f a = Some f' /\ hist_map (fun x => x + a)%f32 n f f'.
Proof. apply (history_update (fun x => x + a)%f32). Qed.

Lemma Filter_SetTo_spec n f a :
  filter_ok n f -> exists f', Filter_SetTo f a = Some f' /\ hist_map (fun _ => a) n f f'.
Proof. apply (history_update (fun _ => a)). Qed.

Lemma Filter_Init_prefix f bs a_s m :
  wf_F (numerator f) -> wf_F (denominator f) -> wf_F (in_list f) -> wf_F (out_list f) ->
  contents_F (numerator f) = [] -> contents_F (denominator f) = [] ->
  contents_F (in_list f) = [] -> contents_F (out_list f) = [] ->
  (m <= length bs)%nat -> (m <= length a_s)%nat -> (m <= 7)%nat ->
  exists f', foldM (Filter_Init_step bs a_s) f (seq 0 m) = Some f' /\
    wf_F (numerator f') /\ wf_F (denominator f') /\ wf_F (in_list f') /\ wf_F (out_list f') /\
    contents_F (numerator f') = take m bs /\ contents_F (denominator f') = take m a_s /\
    contents_F (in_list f') = replicate m f32_zero /\
    contents_F (out_list f') = replicate m f32_zero.
Proof.
  intros. induction m as [|m IH]; [by exists f|].
  destruct IH as (f1&E1&W1&W2&W3&W4&C1&C2&C3&C4); [lia..|].
  destruct (lookup_lt_is_Some_2 bs m) as [x Hx]; [lia|].
  destruct (lookup_lt_is_Some_2 a_s m) as [y Hy]; [lia|].
  rewrite seq_S, foldM_app, E1. cbn [mbind option_bind foldM plus].
  unfold Filter_Init_step at 1. rewrite Hx, Hy. cbn [mbind option_bind].
  destruct (push_back_F_spec (numerator f1) x W1) as [V1 D1]; [rewrite C1, length_take; lia|].
  destruct (push_back_F_spec (denominator f1) y W2) as [V2 D2]; [rewrite C2, length_take; lia|].
  destruct (push_back_F_spec (in_list f1) f32_zero W3) as [V3 D3];
    [rewrite C3, length_replicate; lia|].
  destruct (push_back_F_spec (out_list f1) f32_zero W4) as [V4 D4];
    [rewrite C4, length_replicate; lia|].
  eexists; split; [done|]. cbn [numerator denominator in_list out_list].
  rewrite (take_S_r bs m x Hx), (take_S_r a_s m y Hy), replicate_S_end.
  rewrite C1 in D1. rewrite C2 in D2. rewrite C3 in D3. rewrite C4 in D4. done.
Qed.

(** The coefficient arrays are read up to [order]; a shorter array is read
    out of bounds. *)
Lemma Filter_Init_spec f bs a_s order :
  wf_F (numerator f) -> wf_F (denominator f) -> wf_F (in_list f) -> wf_F (out_list f) ->
  0 <= order <= 6 -> order < Z.of_nat (length bs) -> order < Z.of_nat (length a_s) ->
  exists f', Filter_Init f bs a_s order = Some f' /\
    let n := Z.to_nat (order + 1) in
    filter_ok n f' /\
    contents_F (numerator f') = take n bs /\ contents_F (denominator f') = take n a_s /\
    contents_F (in_list f') = replicate n f32_zero /\
    contents_F (out_list f') = replicate n f32_zero.
Proof.
  intros W1 W2 W3 W4 Ho Hb Ha. unfold Filter_Init. rewrite u8_id by lia.
  match goal with |- context [foldM _ ?f _] =>
    destruct (Filter_Init_prefix f bs a_s (Z.to_nat (order + 1)))
      as (f'&E&V1&V2&V3&V4&C1&C2&C3&C4) end;
    try (by apply Ring.wf_initialize); try done; try lia.
  exists f'. split; [done|]. unfold filter_ok.
  rewrite C1, C2, C3, C4, !length_take, !length_replicate. split_and!; done || lia.
Qed.

(** ** Runs *)

Fixpoint Filter_run (f : Filter_Data_t) (vs : list f32) : list f32 * Filter_Data_t :=
  match vs with
  | [] => ([], f)
  | v :: vs =>
      let '(y, f) := Filter_Value f v in
      let '(ys, f) := Filter_run f vs in (y :: ys, f)
  end.

(** The recurrence itself, on the histories (newest first). *)
Fixpoint recurrence (bs a_s ins outs vs : list f32) : list f32 :=
  match vs with
  | [] => []
  | v :: vs =>
      let n := length bs in
      let ins := v :: take (n - 1) ins in
      let outs := take (n - 1) outs in
      let y := filter_step bs a_s ins outs in
      y :: recurrence bs a_s ins (y :: outs) vs
  end.

Lemma Filter_run_spec n f vs :
  filter_ok n f ->
  (Filter_run f vs).1 =
    recurrence (contents_F (numerator f)) (contents_F (denominator f))
      (contents_F (in_list f)) (contents_F (out_list f)) vs /\
  filter_ok n (Filter_run f vs).2.
Proof.
  revert f. induction vs as [|v vs IH]; intros f Hok; simpl; [done|].
  destruct (Filter_Value_spec n f v Hok) as (Hy&Hok'&Hi&Ho&Hn&Hd).
  destruct (Filter_Value f v) as [y f']. cbn [fst snd] in *.
  destruct (IH f' Hok') as [H1 H2]. destruct (Filter_run f' vs) as [ys f'']. cbn [fst snd] in *.
  split; [|done].
  pose proof Hok as (_&_&_&_&_&Lb&_). rewrite Lb, H1, Hi, Ho, Hn, Hd. by subst y.
Qed.

(** ** Properties *)

(** C37: a filter initialized with [order + 1] coefficients per array and fed any
    sequence of samples outputs exactly the difference equation of Filter.h,
    1/A_0 (sum B_i in_i - sum A_i out_(i-1)), from zero histories, with binary32
    rounding at each operation in the order of the C loop; the four rings keep
    [order + 1] elements.  Holds for every order up to 6, the most the 8-slot
    rings can hold. *)
Theorem Filter_computes_difference_equation f bs a_s order vs :
  wf_F (numerator f) -> wf_F (denominator f) -> wf_F (in_list f) -> wf_F (out_list f) ->
  0 <= order <= 6 ->
  Z.of_nat (length bs) = order + 1 -> Z.of_nat (length a_s) = order + 1 ->
  exists f', Filter_Init f bs a_s order = Some f' /\
    let z := replicate (length bs) f32_zero in
    (Filter_run f' vs).1 = recurrence bs a_s z z vs /\
    filter_ok (length bs) (Filter_run f' vs).2.
Proof.
  intros W1 W2 W3 W4 Ho Hb Ha.
  destruct (Filter_Init_spec f bs a_s order) as (f'&E&Hok&C1&C2&C3&C4); [done..|lia|lia|].
  exists f'. split; [done|]. cbn zeta.
  replace (Z.to_nat (order + 1)) with (length bs) in * by lia.
  destruct (Filter_run_spec _ f' vs Hok) as [H1 H2].
  rewrite C1, C2, C3, C4, !take_ge in H1 by lia. done.
Qed.

(** A two-tap moving average fed 1, 3, 3 answers 0.5, 2, 3. *)
Lemma Filter_computes_difference_equation_witness :
  exists f', Filter_Init filter_zero [f32_of_Z 1; f32_of_Z 1] [f32_of_Z 2; f32_of_Z 0] 1 = Some f' /\
    (Filter_run f' [f32_of_Z 1; f32_of_Z 3; f32_of_Z 3]).1 =
      [f32_lit 1 2; f32_of_Z 2; f32_of_Z 3].
Proof.
  destruct (Filter_computes_difference_equation filter_zero
    [f32_of_Z 1; f32_of_Z 1] [f32_of_Z 2; f32_of_Z 0] 1 [f32_of_Z 1; f32_of_Z 3; f32_of_Z 3])
    as (f'&E&H&_); [apply wf_ring_zero_F..|lia|done|done|].
  exists f'. split; [done|]. rewrite H. by vm_compute.
Defined.

(** re-initializing or shifting the histories always ends and is pointwise:
    [Filter_SetTo] makes every input and output equal to the amount (so the next
    [Filter_Last_Output] is the amount), [Filter_ShiftBy] adds the shift to each;
    neither touches the coefficients. *)
Theorem Filter_history_updates n f a :
  filter_ok n f ->
  (exists f', Filter_SetTo f a = Some f' /\ hist_map (fun _ => a) n f f' /\
     Filter_Last_Output f' = a) /\
  (exists f', Filter_ShiftBy f a = Some f' /\ hist_map (fun x => x + a)%f32 n f f').
Proof.
  intros Hok. split; [|by apply Filter_ShiftBy_spec].
  destruct (Filter_SetTo_spec n f a Hok) as (f'&E&H). exists f'. split_and!; [done..|].
  destruct H as (_&_&_&_&Ho). pose proof Hok as (Hn&_&_&_&_&_&_&_&Lo).
  destruct (contents_F (out_list f)) as [|x l]; [simpl in Lo; lia|].
  by apply (rb_get_F_head _ a ((fun _ => a) <$> l)).
Qed.

Lemma Filter_history_updates_witness :
  exists f0 f', Filter_Init filter_zero [f32_of_Z 1] [f32_of_Z 1] 0 = Some f0 /\
    Filter_SetTo f0 (f32_of_Z 5) = Some f' /\ Filter_Last_Output f' = f32_of_Z 5.
Proof.
  destruct (Filter_Init filter_zero [f32_of_Z 1] [f32_of_Z 1] 0) as [f0|] eqn:E; [|done].
  assert (filter_ok 1 f0) as Hok.
  { destruct (Filter_Init_spec filter_zero [f32_of_Z 1] [f32_of_Z 1] 0) as (f'&E'&H&_);
      [apply wf_ring_zero_F..|lia|done|done|].
    rewrite E in E'. injection E' as ->. exact H. }
  destruct (Filter_history_updates 1 f0 (f32_of_Z 5) Hok) as [(f'&H1&_&H2) _].
  by exists f0, f'.
Defined.
