(* ===== verification/Controller.v ===== *)
(** * Controller: Driver/Controller.c and Driver/Controller.h

    The motor controllers: a filter plus the target position, target velocity
    and update period.  Only the targets and the period are used while the
    closed loop is compiled out ([CNTRL_SYS] is 0 in Main.c). *)
From S2P Require Import Prelude.
From S2P Require Import Float32.
From S2P Require Import RingBuffer.
From S2P Require Import Filter.

Record Controller_t := {
  controller : Filter_Data_t;
  kp : f32;
  target_pos : f32;
  target_vel : f32;
  update_period : f32;
}.

Definition controller_zero : Controller_t :=
  {| controller := filter_zero; kp := f32_zero; target_pos := f32_zero;
     target_vel := f32_zero; update_period := f32_zero |}.

Definition with_filter (c : Controller_t) (f : Filter_Data_t) : Controller_t :=
  {| controller := f; kp := kp c; target_pos := target_pos c;
     target_vel := target_vel c; update_period := update_period c |}.

(** [(value > ABS_MAX) ? ABS_MAX : (value < -ABS_MAX) ? -ABS_MAX : value] *)
Definition Saturate (value ABS_MAX : f32) : f32 :=
  if (value > ABS_MAX)%f32 then ABS_MAX
  else if (value < f32_opp ABS_MAX)%f32 then f32_opp ABS_MAX
  else value.

Definition Controller_Init (c : Controller_t) (kp : f32) (num den : list f32)
    (order : Z) (update_period : f32) : option Controller_t :=
  f ← Filter_Init (controller c) num den order;
  Some {| controller := f; kp := kp; update_period := update_period;
          target_pos := f32_zero; target_vel := f32_zero |}.

Definition Controller_Set_Target_Velocity (c : Controller_t) (vel : f32) : Controller_t :=
  {| controller := controller c; kp := kp c; target_pos := target_pos c;
     target_vel := vel; update_period := update_period c |}.

Definition Controller_Set_Target_Position (c : Controller_t) (pos : f32) : Controller_t :=
  {| controller := controller c; kp := kp c; target_pos := pos;
     target_vel := target_vel c; update_period := update_period c |}.

Definition Controller_Update (c : Controller_t) (measurement dt : f32) : f32 * Controller_t :=
  (* Determine filter input *)
  let input := (target_vel c - measurement / dt)%f32 in
  let '(filt_val, f) := Filter_Value (controller c) input in
  (filt_val, with_filter c f).

Definition Controller_Last (c : Controller_t) : f32 := Filter_Last_Output (controller c).

Definition Controller_SetTo (c : Controller_t) (measurement : f32) : option Controller_t :=
  f ← Filter_SetTo (controller c) measurement; Some (with_filter c f).

Definition Controller_ShiftBy (c : Controller_t) (measurement : f32) : option Controller_t :=
  f ← Filter_ShiftBy (controller c) measurement; Some (with_filter c f).

(** ** Properties *)

(** [Saturate] clamps: for finite operands and a non-negative bound the
    result lies between the two bounds, and a value already inside them is
    returned unchanged. *)
Theorem Saturate_clamps v m :
  f32_valid v -> f32_valid m -> f32_finite v = true -> f32_finite m = true ->
  0 <= f32_scaled m ->
  - f32_scaled m <= f32_scaled (Saturate v m) <= f32_scaled m /\
  (- f32_scaled m <= f32_scaled v <= f32_scaled m -> Saturate v m = v).
Proof.
  intros Vv Vm Fv Fm Hm.
  destruct (f32_opp_spec m Vm Fm) as (Vo&Fo&So).
  unfold Saturate. rewrite !f32_lt_scaled, So by done.
  destruct (Z.ltb_spec (f32_scaled m) (f32_scaled v)).
  { split; [lia|]. intros. exfalso. lia. }
  destruct (Z.ltb_spec (f32_scaled v) (- f32_scaled m)); [|done].
  rewrite So. split; [lia|]. intros. exfalso. lia.
Qed.

Lemma Saturate_clamps_witness :
  Saturate (f32_lit 1 2) (f32_of_Z 1) = f32_lit 1 2 /\ Saturate (f32_of_Z (-7)) (f32_of_Z 1) = f32_of_Z (-1).
Proof.
  split; [|by vm_compute].
  destruct (Saturate_clamps (f32_lit 1 2) (f32_of_Z 1)) as [_ H];
    [vm_compute; done..|apply H; vm_compute; split; discriminate].
Defined.

(** a controller update feeds [target_vel - measurement/dt] to its filter:
    the command is one step of the difference equation on the error, it is what
    [Controller_Last] returns afterwards, and the targets, gain and period are
    unchanged. *)
Theorem Controller_Update_spec n c measurement dt :
  filter_ok n (controller c) ->
  let err := (target_vel c - measurement / dt)%f32 in
  let f := controller c in
  let '(u, c') := Controller_Update c measurement dt in
  u = filter_step (contents_F (numerator f)) (contents_F (denominator f))
        (err :: take (n - 1) (contents_F (in_list f))) (take (n - 1) (contents_F (out_list f))) /\
  Controller_Last c' = u /\ filter_ok n (controller c') /\
  target_pos c' = target_pos c /\ target_vel c' = target_vel c /\
  kp c' = kp c /\ update_period c' = update_period c.
Proof.
  intros Hok err f. unfold Controller_Update.
  destruct (Filter_Value_spec n f err Hok) as (Hy&Hok'&_&Ho&_).
  fold f err. destruct (Filter_Value f err) as [y f']. cbn [fst snd] in *.
  split_and!; try done. unfold Controller_Last. simpl. rewrite Hy.
  by eapply rb_get_F_head.
Qed.

Lemma Controller_Update_spec_witness :
  exists c, Controller_Init controller_zero (f32_of_Z 1) [f32_of_Z 2] [f32_of_Z 1] 0 (f32_of_Z 10) = Some c /\
    (Controller_Update (Controller_Set_Target_Velocity c (f32_of_Z 3)) (f32_of_Z 1) (f32_of_Z 1)).1
      = f32_of_Z 4.
Proof.
  destruct (Filter_Init_spec filter_zero [f32_of_Z 2] [f32_of_Z 1] 0) as (f&E&H&H1&H2&H3&H4);
    [apply wf_ring_zero_F..|lia|done|done|].
  unfold Controller_Init. cbn [controller controller_zero]. rewrite E.
  eexists; split; [done|].
  match goal with |- context [Controller_Update ?c _ _] =>
    pose proof (Controller_Update_spec 1 c (f32_of_Z 1) (f32_of_Z 1) H) as P;
    destruct (Controller_Update c (f32_of_Z 1) (f32_of_Z 1)) as [u c'] end.
  destruct P as [P _]. cbn [fst controller Controller_Set_Target_Velocity target_vel] in *.
  rewrite P, H1, H2, H3, H4. by vm_compute.
Defined.
