(* ===== verification/Avr.v ===== *)
(** * Avr: the ATmega32U4 registers the drivers touch

    One enumerated type names every I/O register the sources read or write and
    a register file maps each to its value.  Writing truncates to the width of
    the register, as the hardware does; [SREG] bit 7 is the global interrupt
    flag that [cli]/[sei] change.  Input pins and conversion results are
    register values the environment sets between steps. *)
From S2P Require Import Prelude.

Inductive reg :=
  | SREG
  | TCCR0B | TIMSK0 | OCR0B | TCNT0
  | PCICR | PCMSK0 | EIMSK | EICRB
  | PINB | PINE | PINF
  | ADMUX | ADCSRA | ADC
  | TCCR1A | TCCR1B | ICR1 | OCR1A | OCR1B
  | TCCR3A | TCCR3B | TCCR3C | TIMSK3 | ICR3 | TCNT3 | OCR3A
  | TCCR4A | TCCR4B | TCCR4D | OCR4A | OCR4C | TCNT4 | TC4H
  | PORTB | DDRB | PORTC | DDRC | PORTD | DDRD | PORTF | DDRF.

Definition reg_id (r : reg) : positive :=
  (match r with
  | SREG => 1 | TCCR0B => 2 | TIMSK0 => 3 | OCR0B => 4 | TCNT0 => 5
  | PCICR => 6 | PCMSK0 => 7 | EIMSK => 8 | EICRB => 9
  | PINB => 10 | PINE => 11 | PINF => 12
  | ADMUX => 13 | ADCSRA => 14 | ADC => 15
  | TCCR1A => 16 | TCCR1B => 17 | ICR1 => 18 | OCR1A => 19 | OCR1B => 20
  | TCCR3A => 21 | TCCR3B => 22 | TCCR3C => 23 | TIMSK3 => 24 | ICR3 => 25
  | TCNT3 => 26 | OCR3A => 27
  | TCCR4A => 28 | TCCR4B => 29 | TCCR4D => 30 | OCR4A => 31 | OCR4C => 32
  | TCNT4 => 33 | TC4H => 34
  | PORTB => 35 | DDRB => 36 | PORTC => 37 | DDRC => 38
  | PORTD => 39 | DDRD => 40 | PORTF => 41 | DDRF => 42
  end)%positive.

Definition reg_eqb (x y : reg) : bool := Pos.eqb (reg_id x) (reg_id y).

Lemma reg_eqb_spec x y : reflect (x = y) (reg_eqb x y).
Proof.
  unfold reg_eqb. destruct (Pos.eqb_spec (reg_id x) (reg_id y)) as [E|E]; constructor.
  - by destruct x, y.
  - by intros ->.
Qed.

#[export] Instance reg_eq_dec : EqDecision reg.
Proof. intros x y. destruct (reg_eqb_spec x y); [by left|by right]. Defined.

Definition width (r : reg) : Z :=
  match r with
  | ADC | ICR1 | OCR1A | OCR1B | ICR3 | TCNT3 | OCR3A => 16
  | _ => 8
  end.

Definition regs : Type := reg -> Z.

(** [X = v], [X |= m] and [X &= m]. *)
Definition rset (x : reg) (v : Z) (r : regs) : regs := fun y =>
  if reg_eqb x y then uwrap (width x) v else r y.
Definition r_or (x : reg) (m : Z) (r : regs) : regs := rset x (Z.lor (r x) m) r.
Definition r_and (x : reg) (m : Z) (r : regs) : regs := rset x (Z.land (r x) m) r.

(** The global interrupt flag. *)
Definition SREG_I : Z := 7.
Definition cli (r : regs) : regs := r_and SREG (Z.lnot (2 ^ SREG_I)) r.
Definition sei (r : regs) : regs := r_or SREG (2 ^ SREG_I) r.
Definition interrupts_on (r : regs) : bool := Z.testbit (r SREG) SREG_I.

(** Every register holds a value of its width. *)
Definition regs_ok (r : regs) : Prop := forall x, is_u (width x) (r x).

(** Membership in a list of registers: the registers are constructors, so the
    elements are compared one by one. *)
Ltac reg_list :=
  match goal with
  | |- ?l ⊆ ?l' => intros ?; rewrite ?elem_of_cons, ?elem_of_nil; tauto
  | |- ?x ∈ ?l => rewrite ?elem_of_cons, ?elem_of_nil; tauto
  | |- ?x ∉ ?l => rewrite ?not_elem_of_cons; repeat split; (congruence || apply not_elem_of_nil)
  | |- ?x <> ?y =>
      congruence || (repeat match goal with H : _ ∉ _ :: _ |- _ =>
                              apply not_elem_of_cons in H as [? H] end; congruence)
  end.

(** [r'] differs from [r] in the listed registers at most. *)
Definition only_changes (l : list reg) (r r' : regs) : Prop := forall x, x ∉ l -> r' x = r x.

(** After reset every register reads zero. *)
Definition regs_zero : regs := fun _ => 0.

Lemma width_pos x : 8 <= width x.
Proof. destruct x; simpl; lia. Qed.

Lemma regs_zero_ok : regs_ok regs_zero.
Proof. intros x. unfold is_u, regs_zero. pose proof (width_pos x). split; [lia|]. apply Z.pow_pos_nonneg; lia. Qed.

Lemma rset_ok x v r : regs_ok r -> regs_ok (rset x v r).
Proof.
  intros Hr y. unfold rset. destruct (reg_eqb_spec x y) as [<-|]; [|apply Hr].
  apply uwrap_range. pose proof (width_pos x). lia.
Qed.

Lemma r_or_ok x m r : regs_ok r -> regs_ok (r_or x m r).
Proof. apply rset_ok. Qed.
Lemma r_and_ok x m r : regs_ok r -> regs_ok (r_and x m r).
Proof. apply rset_ok. Qed.
Lemma cli_ok r : regs_ok r -> regs_ok (cli r).
Proof. apply rset_ok. Qed.
Lemma sei_ok r : regs_ok r -> regs_ok (sei r).
Proof. apply rset_ok. Qed.

Create HintDb regs discriminated.
#[export] Hint Resolve rset_ok r_or_ok r_and_ok cli_ok sei_ok regs_zero_ok : regs.

Lemma rset_eq x v r : rset x v r x = uwrap (width x) v.
Proof. unfold rset. by destruct (reg_eqb_spec x x). Qed.

Lemma rset_ne x y v r : x <> y -> rset x v r y = r y.
Proof. intros. unfold rset. by destruct (reg_eqb_spec x y). Qed.

Lemma only_changes_refl l r : only_changes l r r.
Proof. done. Qed.

Lemma only_changes_trans l r1 r2 r3 :
  only_changes l r1 r2 -> only_changes l r2 r3 -> only_changes l r1 r3.
Proof. intros H1 H2 x Hx. by rewrite H2, H1. Qed.

Lemma only_changes_weaken l l' r r' : l ⊆ l' -> only_changes l r r' -> only_changes l' r r'.
Proof. intros Hl H x Hx. apply H. set_solver. Qed.

Lemma only_changes_rset l x v r : x ∈ l -> only_changes l r (rset x v r).
Proof. intros Hx y Hy. apply rset_ne. set_solver. Qed.

#[export] Instance only_changes_preorder l : PreOrder (only_changes l).
Proof. split; [intros r; apply only_changes_refl | intros r1 r2 r3; apply only_changes_trans]. Qed.

(** Reading back a register of a chain of writes: the register names are
    constructors, so the lookups compute. *)
Ltac reg_simpl :=
  cbn [r_or r_and cli sei rset reg_eqb reg_id Pos.eqb width SREG_I fst snd].

(** The registers outside the list are untouched: by cases on the register. *)
Ltac solve_only_changes :=
  let x := fresh "x" in let H := fresh "H" in
  intros x H; destruct x; try reflexivity; exfalso; apply H; reg_list.

Lemma land_lnot_pow2 a n : 0 <= n -> Z.land a (Z.lnot (2 ^ n)) = Z.clearbit a n.
Proof. intros. by rewrite <- Z.ldiff_land, Z.clearbit_spec'. Qed.

(** Bit [n] of a register after [X |= m] and [X &= ~m]. *)
Lemma testbit_uwrap w v n : 0 <= n < w -> Z.testbit (uwrap w v) n = Z.testbit v n.
Proof. intros. unfold uwrap. apply Z.mod_pow2_bits_low. lia. Qed.

Lemma uwrap_testbit_high w v n : 0 <= w <= n -> Z.testbit (uwrap w v) n = false.
Proof. intros. unfold uwrap. apply Z.mod_pow2_bits_high. lia. Qed.
