(* ===== verification/Timing.v ===== *)
(** * Timing: Driver/Timing.c

    The millisecond clock: the counters the timer interrupt advances, the
    current time as milliseconds and microseconds, elapsed time, and the busy
    wait.  The hardware timer itself is the environment: it changes [TCNT0] and
    raises the interrupt between steps of the program; [GetTime_during_tick] is the
    one case where it strikes inside, between the bytes of the count. *)
From S2P Require Import Prelude.
From S2P Require Import Float32.
From S2P Require Import Avr.

Record Time_t := { millisec : Z; microsec : Z }.

Record timing := {
  count_ms : Z;
  ms_counter_1 : Z;
  ms_counter_2 : Z;
  ms_counter_3 : Z;
  ms_counter_4 : Z;
}.

Definition timing_zero : timing :=
  {| count_ms := 0; ms_counter_1 := 0; ms_counter_2 := 0; ms_counter_3 := 0; ms_counter_4 := 0 |}.

Definition CS00 : Z := 0.
Definition CS01 : Z := 1.
Definition OCIE0B : Z := 2.

Definition SetupTimer0 (t : timing) (r : regs) : timing * regs :=
  (* Set prescalor to 64 *)
  let r := r_or TCCR0B (2 ^ CS00) r in
  let r := r_or TCCR0B (2 ^ CS01) r in
  (* Set interrupt option, compare B *)
  let r := r_or TIMSK0 (2 ^ OCIE0B) r in
  (* Set B compare value *)
  let r := rset OCR0B 249 r in
  (* Enable ISR *)
  let r := sei r in
  (* Init timer0 counter *)
  let r := rset TCNT0 0 r in
  (timing_zero, r).

(** [TCNT0 * 64 * 0.0625], converted to [uint16_t]: [GetTime_micro] shows the
    conversion is in range for every value of the 8-bit counter, so the default
    is never taken. *)
Definition tcnt_micro (tcnt : Z) : option Z :=
  f32_to_u16 (f32_of_Z (tcnt * 64) * f32_lit 625 10000)%f32.

Definition GetTime (t : timing) (r : regs) : Time_t :=
  {| millisec := count_ms t; microsec := default 0 (tcnt_micro (r TCNT0)) |}.

Definition GetTimeSec (t : timing) (r : regs) : f32 :=
  let time := GetTime t r in
  let time_seconds := f32_zero in
  let time_seconds := (time_seconds + f32_of_Z (millisec time) / f32_of_Z 1000)%f32 in
  (time_seconds + f32_of_Z (microsec time) / f32_of_Z 1000000)%f32.

Definition GetMilli (t : timing) (r : regs) : Z := millisec (GetTime t r).
Definition GetMicro (t : timing) (r : regs) : Z := microsec (GetTime t r).

Definition SecondsSince (t : timing) (r : regs) (time_start : Time_t) : Time_t :=
  let current_time := GetTime t r in
  {| millisec := u32 (millisec current_time - millisec time_start);
     microsec := u16 (microsec current_time - microsec time_start) |}.

(** The assembly loop [1: sbiw %0,1; brne 1b]: decrement, repeat until zero.
    [delay_loop] returns the number of turns, [None] when the fuel runs out. *)
Fixpoint delay_loop (fuel : nat) (us : Z) : option Z :=
  match fuel with
  | O => None
  | S fuel =>
      let us := u16 (us - 1) in
      if us =? 0 then Some 1 else n ← delay_loop fuel us; Some (n + 1)
  end.

Definition DelayMicroseconds (fuel : nat) (us : Z) : option Z :=
  if us <=? 1 then Some 0 else
  let us := u16 (Z.shiftl us 2) in
  let us := u16 (us - 5) in
  delay_loop fuel us.

(** ISR(TIMER0_COMPB_vect) *)
Definition TIMER0_COMPB (t : timing) (r : regs) : timing * regs :=
  let t := {| count_ms := u32 (count_ms t + 1);
              ms_counter_1 := u8 (ms_counter_1 t + 1);
              ms_counter_2 := u8 (ms_counter_2 t + 1);
              ms_counter_3 := u8 (ms_counter_3 t + 1);
              ms_counter_4 := u8 (ms_counter_4 t + 1) |} in
  (t, rset TCNT0 0 r).

(** [n] timer interrupts. *)
Fixpoint timer_ticks (n : nat) (tr : timing * regs) : timing * regs :=
  match n with
  | O => tr
  | S n => timer_ticks n (TIMER0_COMPB tr.1 tr.2)
  end.

(** [GetTime] when the timer interrupt strikes inside it, which nothing prevents:
    the four bytes of [_count_ms] are read one by one, lowest first, and [k] of them
    before the interrupt; the counter of the microseconds is read after it. *)
Definition GetTime_during_tick (k : nat) (t : timing) (r : regs) : Time_t :=
  let '(t', r') := TIMER0_COMPB t r in
  {| millisec := le_combine (take k (le_split 4 (count_ms t)) ++ drop k (le_split 4 (count_ms t')));
     microsec := default 0 (tcnt_micro (r' TCNT0)) |}.

Definition timing_ok (t : timing) : Prop :=
  is_u 32 (count_ms t) /\ is_u 8 (ms_counter_1 t) /\ is_u 8 (ms_counter_2 t) /\
  is_u 8 (ms_counter_3 t) /\ is_u 8 (ms_counter_4 t).

Definition time_ok (t : Time_t) : Prop := is_u 32 (millisec t) /\ 0 <= microsec t <= 1020.

(** ** Lemmas *)

Lemma tcnt_micro_all :
  forallb (fun n => match tcnt_micro (Z.of_nat n) with
                    | Some u => u =? 4 * Z.of_nat n | None => false end) (seq 0 256) = true.
Proof. by vm_compute. Qed.

Lemma tcnt_micro_spec n : is_u 8 n -> tcnt_micro n = Some (4 * n).
Proof.
  intros Hn. pose proof tcnt_micro_all as H. rewrite forallb_forall in H.
  specialize (H (Z.to_nat n)). rewrite Z2Nat.id in H by (unfold is_u in Hn; lia).
  destruct (tcnt_micro n) as [u|].
  - rewrite Z.eqb_eq in H. f_equal. apply H. apply in_seq. unfold is_u in Hn. lia.
  - discriminate H. apply in_seq. unfold is_u in Hn. lia.
Qed.

Lemma GetTime_ok t r : timing_ok t -> regs_ok r -> time_ok (GetTime t r).
Proof.
  intros (Ht&_) Hr. split; [done|]. simpl. rewrite tcnt_micro_spec by apply (Hr TCNT0).
  pose proof (Hr TCNT0) as H. unfold is_u in H. simpl in *. lia.
Qed.

Lemma TIMER0_COMPB_ok t r :
  timing_ok t -> regs_ok r ->
  timing_ok (TIMER0_COMPB t r).1 /\ regs_ok (TIMER0_COMPB t r).2.
Proof.
  intros _ Hr. split; [|by apply rset_ok].
  unfold timing_ok; simpl; split_and!; apply uwrap_range; lia.
Qed.

Lemma SetupTimer0_ok t r :
  regs_ok r -> timing_ok (SetupTimer0 t r).1 /\ regs_ok (SetupTimer0 t r).2.
Proof. intros. split; [by repeat split|]. unfold SetupTimer0; simpl. eauto 10 with regs. Qed.

Lemma timer_ticks_count n t r :
  timing_ok t ->
  count_ms (timer_ticks n (t, r)).1 = u32 (count_ms t + Z.of_nat n).
Proof.
  revert t r. induction n as [|n IH]; intros t r Ht.
  - simpl. rewrite Z.add_0_r. symmetry. apply uwrap_id, Ht.
  - cbn [timer_ticks fst snd]. unfold TIMER0_COMPB.
    rewrite IH by (unfold timing_ok; simpl; split_and!; apply uwrap_range; lia).
    cbn [count_ms]. unfold u32, uwrap. rewrite Zplus_mod_idemp_l. f_equal. lia.
Qed.

Lemma delay_loop_spec fuel us :
  0 < us < 65536 -> us <= Z.of_nat fuel -> delay_loop fuel us = Some us.
Proof.
  revert us. induction fuel as [|fuel IH]; intros us Hus Hf; [lia|]. cbn [delay_loop].
  rewrite u16_id by lia. destruct (Z.eqb_spec (us - 1) 0) as [E|E]; [f_equal; lia|].
  rewrite IH by lia. simpl. f_equal. lia.
Qed.

(** *** Reading bytes of two values *)

Lemma le_combine_app l m : le_combine (l ++ m) = le_combine l + 256 ^ Z.of_nat (List.length l) * le_combine m.
Proof.
  induction l as [|b l IH]; [cbn [app le_combine List.length]; rewrite Z.pow_0_r; lia|].
  cbn [app le_combine List.length]. rewrite IH, Nat2Z.inj_succ, Z.pow_succ_r by lia. lia.
Qed.

Lemma take_le_split k n z : (k <= n)%nat -> take k (le_split n z) = le_split k z.
Proof.
  revert n z. induction k as [|k IH]; intros n z Hk; [done|]. destruct n as [|n]; [lia|].
  cbn [le_split take firstn]. f_equal. apply IH. lia.
Qed.

Lemma drop_le_split k n z : drop k (le_split n z) = le_split (n - k) (z / 256 ^ Z.of_nat k).
Proof.
  revert n z. induction k as [|k IH]; intros n z.
  - rewrite Nat.sub_0_r. change (256 ^ Z.of_nat 0) with 1. by rewrite Z.div_1_r.
  - destruct n as [|n]; [done|]. cbn [le_split drop skipn]. rewrite IH. f_equal.
    rewrite Nat2Z.inj_succ, Z.pow_succ_r, Z.div_div by lia. done.
Qed.

(** The low [k] bytes of one value, the others of another. *)
Lemma mixed_bytes k c n :
  (k <= 4)%nat -> 0 <= n < 2 ^ 32 ->
  let p := 256 ^ Z.of_nat k in
  le_combine (take k (le_split 4 c) ++ drop k (le_split 4 n)) = c mod p + (n - n mod p).
Proof.
  intros Hk Hn p. assert (Hp : 0 < p) by (unfold p; lia).
  rewrite le_combine_app, take_le_split, drop_le_split, length_le_split, !le_combine_split by done.
  assert (E : forall m, (m <= 4)%nat -> 2 ^ (8 * Z.of_nat m) = 256 ^ Z.of_nat m).
  { intros m _. rewrite Z.pow_mul_r by lia. done. }
  rewrite !E by lia. fold p. rewrite (Z.mod_small (n / p)).
  - pose proof (Z.div_mod n p). lia.
  - split; [apply Z.div_pos; lia|]. apply Z.div_lt_upper_bound; [done|].
    unfold p. rewrite <- Z.pow_add_r by lia. replace (Z.of_nat k + Z.of_nat (4 - k)) with 4 by lia. exact (proj2 Hn).
Qed.

Lemma mod_succ_zero c p : 0 < p -> (c + 1) mod p = 0 -> c mod p = p - 1.
Proof.
  intros Hp H. apply Z.mod_divide in H as [q Hq]; [|lia].
  replace c with ((p - 1) + (q - 1) * p) by lia. rewrite Z.mod_add by lia. apply Z.mod_small. lia.
Qed.

Lemma mod_succ_nonzero c p : 0 < p -> (c + 1) mod p <> 0 -> (c + 1) mod p = c mod p + 1.
Proof.
  intros Hp H. pose proof (Z.mod_pos_bound c p Hp). rewrite <- Zplus_mod_idemp_l in *.
  destruct (decide (c mod p + 1 = p)) as [E|]; [rewrite E, Z.mod_same in H by lia; done|].
  rewrite (Z.mod_small (c mod p + 1)) by lia. done.
Qed.

(** ** Properties *)

(** the microsecond part is four times the timer counter, exactly: the
    floating-point product in [GetTime] is in range and loses nothing for every
    value of the 8-bit counter, and the millisecond part is the interrupt count. *)
Theorem GetTime_micro t r :
  regs_ok r ->
  tcnt_micro (r TCNT0) = Some (4 * r TCNT0) /\
  GetTime t r = {| millisec := count_ms t; microsec := 4 * r TCNT0 |}.
Proof.
  intros Hr. pose proof (tcnt_micro_spec (r TCNT0) (Hr TCNT0)) as H. split; [done|].
  unfold GetTime. by rewrite H.
Qed.

Lemma GetTime_micro_witness :
  GetTime timing_zero (rset TCNT0 249 regs_zero) = {| millisec := 0; microsec := 996 |}.
Proof.
  destruct (GetTime_micro timing_zero (rset TCNT0 249 regs_zero)) as [_ H].
  - auto with regs.
  - exact H.
Defined.

(** the clock counts interrupts and elapsed milliseconds survive its
    wrap-around: if [n] < 2^32 timer interrupts happen after a start time was
    taken, [SecondsSince] reports exactly [n] milliseconds, even when the 32-bit
    counter overflowed in between. *)
Theorem SecondsSince_milliseconds t r n :
  timing_ok t -> Z.of_nat n < 2 ^ 32 ->
  let start := GetTime t r in
  let '(t', r') := timer_ticks n (t, r) in
  millisec (SecondsSince t' r' start) = Z.of_nat n.
Proof.
  intros Ht Hn start. pose proof (timer_ticks_count n t r Ht) as Hc.
  destruct (timer_ticks n (t, r)) as [t' r']. cbn [fst] in Hc. simpl. rewrite Hc.
  unfold u32, uwrap. rewrite Zminus_mod_idemp_l.
  replace (count_ms t + Z.of_nat n - count_ms t) with (Z.of_nat n) by lia.
  apply Z.mod_small. lia.
Qed.

Lemma SecondsSince_milliseconds_witness :
  let t := {| count_ms := 2 ^ 32 - 3; ms_counter_1 := 0; ms_counter_2 := 0;
              ms_counter_3 := 0; ms_counter_4 := 0 |} in
  let '(t', r') := timer_ticks 10 (t, regs_zero) in
  count_ms t' = 7 /\ millisec (SecondsSince t' r' (GetTime t regs_zero)) = 10.
Proof.
  intros t. pose proof (SecondsSince_milliseconds t regs_zero 10) as H.
  pose proof (timer_ticks_count 10 t regs_zero) as Hc.
  destruct (timer_ticks 10 (t, regs_zero)) as [t' r']. split.
  - cbn [fst] in Hc. rewrite Hc; [by vm_compute|]. by vm_compute.
  - apply H; by vm_compute.
Defined.

(** the microsecond part of [SecondsSince] does not borrow.  It is the true
    difference of the two sub-millisecond parts when the later one is not
    smaller; otherwise it is that difference plus 65536, so a short interval
    that crosses a millisecond boundary is reported with about 65 extra
    milliseconds of microseconds, and the total the main loop sends is wrong. *)
Theorem SecondsSince_no_borrow t r start :
  regs_ok r -> time_ok start ->
  let now := GetTime t r in
  let d := SecondsSince t r start in
  (microsec start <= microsec now -> microsec d = microsec now - microsec start) /\
  (microsec now < microsec start -> microsec d = microsec now - microsec start + 65536 /\
     64516 <= microsec d).
Proof.
  intros Hr [_ Hs] now d. subst d. unfold SecondsSince. fold now. cbn [microsec].
  assert (0 <= microsec now <= 1020).
  { pose proof (Hr TCNT0) as H. unfold is_u in H. simpl in H.
    unfold now, GetTime. rewrite tcnt_micro_spec by apply (Hr TCNT0). simpl. lia. }
  split; intros Hlt; [apply u16_id; lia|].
  assert (u16 (microsec now - microsec start) = microsec now - microsec start + 65536) as ->; [|lia].
  unfold u16, uwrap. symmetry. apply (Z.mod_unique_pos _ _ (-1)); lia.
Qed.

(** From 5 ms 900 us to 6 ms 100 us is 0.2 ms; the code answers 1 ms 64736 us. *)
Lemma SecondsSince_no_borrow_witness :
  let t := {| count_ms := 6; ms_counter_1 := 0; ms_counter_2 := 0; ms_counter_3 := 0;
              ms_counter_4 := 0 |} in
  let start := {| millisec := 5; microsec := 900 |} in
  microsec (SecondsSince t (rset TCNT0 25 regs_zero) start) = 64736.
Proof.
  intros t start.
  destruct (SecondsSince_no_borrow t (rset TCNT0 25 regs_zero) start) as [_ [H _]];
    [auto with regs|by repeat split|by vm_compute|].
  rewrite H. by vm_compute.
Defined.

(** the busy wait ends, and after [4 us - 5] turns of the loop (a quarter
    of a microsecond each), for every argument from 2 to 16383; 0 and 1 return
    at once.  From 16384 on the 16-bit shift overflows. *)
Theorem DelayMicroseconds_turns us :
  0 <= us < 16384 ->
  DelayMicroseconds (Z.to_nat 65536) us = Some (if us <=? 1 then 0 else 4 * us - 5).
Proof.
  intros Hus. unfold DelayMicroseconds. destruct (Z.leb_spec us 1); [done|].
  rewrite Z.shiftl_mul_pow2 by lia. rewrite (u16_id (us * 2 ^ 2)) by lia.
  rewrite u16_id by lia. rewrite delay_loop_spec; [f_equal|..]; lia.
Qed.

Lemma DelayMicroseconds_turns_witness :
  DelayMicroseconds (Z.to_nat 65536) 421 = Some 1679 /\ DelayMicroseconds (Z.to_nat 65536) 578 = Some 2307.
Proof.
  split.
  - rewrite (DelayMicroseconds_turns 421) by lia. done.
  - rewrite (DelayMicroseconds_turns 578) by lia. done.
Defined.

(** a tick inside [GetTime].  If the timer interrupt strikes when [k] of the
    four bytes of the millisecond count have been read, the answer is the old count
    as long as the tick carries into none of the bytes still to be read; if it does,
    the answer is the new count plus 256^k - 1: 255, 65535 or 16777215
    milliseconds too late.  The microseconds are those after the tick in any case. *)
Theorem GetTime_torn t r k :
  timing_ok t -> (k <= 4)%nat ->
  let p := 256 ^ Z.of_nat k in
  let new := u32 (count_ms t + 1) in
  microsec (GetTime_during_tick k t r) = 0 /\
  millisec (GetTime_during_tick k t r) = (if (count_ms t + 1) mod p =? 0 then new + (p - 1) else count_ms t).
Proof.
  intros (Hc&_) Hk p new. split; [reflexivity|]. unfold GetTime_during_tick. cbn [TIMER0_COMPB millisec count_ms].
  fold new. assert (Hp : 0 < p) by (unfold p; lia).
  rewrite mixed_bytes by (done || apply u32_range). fold p.
  assert (Em : new mod p = (count_ms t + 1) mod p).
  { unfold new, u32, uwrap. apply Z.mod_mod_divide. unfold p.
    exists (256 ^ Z.of_nat (4 - k)). rewrite <- Z.pow_add_r by lia. by replace (Z.of_nat (4 - k) + Z.of_nat k) with 4 by lia. }
  rewrite Em. destruct (Z.eqb_spec ((count_ms t + 1) mod p) 0) as [H0|H0].
  - rewrite (mod_succ_zero _ _ Hp H0), H0. lia.
  - rewrite (mod_succ_nonzero _ _ Hp H0). unfold new.
    assert (u32 (count_ms t + 1) = count_ms t + 1) as ->; [|lia].
    apply uwrap_id. unfold is_u in *. destruct (decide (count_ms t + 1 = 2 ^ 32)) as [E|]; [|lia].
    exfalso. apply H0. rewrite E. unfold p. replace (2 ^ 32) with (256 ^ Z.of_nat (4 - k) * 256 ^ Z.of_nat k).
    + apply Z.mod_mul. lia.
    + rewrite <- Z.pow_add_r by lia. by replace (Z.of_nat (4 - k) + Z.of_nat k) with 4 by lia.
Qed.

(** At the tick from 255 to 256 ms the clock can show 511 ms. *)
Lemma GetTime_torn_witness :
  let t := {| count_ms := 255; ms_counter_1 := 0; ms_counter_2 := 0; ms_counter_3 := 0; ms_counter_4 := 0 |} in
  millisec (GetTime_during_tick 1 t regs_zero) = 511.
Proof.
  intros t. destruct (GetTime_torn t regs_zero 1) as [_ H]; [by vm_compute|lia|]. exact H.
Defined.
