(* ===== verification/Encoder.v ===== *)
(** * Encoder: Driver/Encoder.c

    Quadrature decoding.  Each wheel has two square waves in quadrature; the
    board wires their exclusive-or and one of them to pins, the interrupt on an
    edge of the exclusive-or updates a signed 32-bit count.  [wheel_A] and
    [wheel_B] are the two waves as functions of the wheel position in edges,
    the physical side of the contract; the pins are stable while an interrupt
    routine runs.

    [bit_is_set] is a mask, so the helpers [Right_A] and [Left_A] combine two
    different bits: their exclusive-or is nonzero when both pins are high, and
    the conversion to [bool] makes it true.  They compute "XOR or B", not
    channel A, and the counts advance two per quadrature period, not four. *)
From S2P Require Import Prelude.
From S2P Require Import Float32.
From S2P Require Import Avr.

(** The static variables of one channel. *)
Record channel := {
  last_A : bool;
  last_B : bool;
  last_XOR : bool;
  counts : Z;
}.

Record encoders := { left : channel; right : channel }.

Definition channel_zero : channel :=
  {| last_A := false; last_B := false; last_XOR := false; counts := 0 |}.
Definition encoders_zero : encoders := {| left := channel_zero; right := channel_zero |}.

Definition Right_XOR (r : regs) : bool := to_bool (bit_is_set (r PINE) 6).
Definition Right_B (r : regs) : bool := to_bool (bit_is_set (r PINF) 0).
Definition Right_A (r : regs) : bool :=
  to_bool (Z.lxor (bit_is_set (r PINE) 6) (bit_is_set (r PINF) 0)).
Definition Left_XOR (r : regs) : bool := to_bool (bit_is_set (r PINB) 4).
Definition Left_B (r : regs) : bool := to_bool (bit_is_set (r PINE) 2).
Definition Left_A (r : regs) : bool :=
  to_bool (Z.lxor (bit_is_set (r PINB) 4) (bit_is_set (r PINE) 2)).

Definition Encoders_Init (e : encoders) (r : regs) : encoders * regs :=
  (* Enable interrupt for PCINT4 on PB4 pin change *)
  let r := r_or PCICR 0x01 r in
  let r := r_or PCMSK0 0x10 r in
  (* Enable interrupt for PCINT6 on PE6 pin change *)
  let r := r_or EIMSK 0x40 r in
  let r := r_or EICRB 0x10 r in
  let last_left_B := to_bool (bit_is_set (r PINE) 2) in
  let last_left_XOR := to_bool (bit_is_set (r PINB) 4) in
  let last_left_A := xorb last_left_B last_left_XOR in
  let last_right_B := to_bool (bit_is_set (r PINF) 0) in
  let last_right_XOR := to_bool (bit_is_set (r PINE) 6) in
  let last_right_A := xorb last_right_B last_right_XOR in
  ({| left := {| last_A := last_left_A; last_B := last_left_B;
                 last_XOR := last_left_XOR; counts := 0 |};
      right := {| last_A := last_right_A; last_B := last_right_B;
                  last_XOR := last_right_XOR; counts := 0 |} |}, r).

(** The read is bracketed by saving [SREG], [cli], and restoring [SREG]. *)
Definition Counts_Left (e : encoders) (r : regs) : Z * regs :=
  let sreg_value := r SREG in
  let r := cli r in
  let counts_left := counts (left e) in
  (counts_left, rset SREG sreg_value r).

Definition Counts_Right (e : encoders) (r : regs) : Z * regs :=
  let sreg_value := r SREG in
  let r := cli r in
  let counts_right := counts (right e) in
  (counts_right, rset SREG sreg_value r).

Definition zero_channel (c : channel) : channel :=
  {| last_A := last_A c; last_B := last_B c; last_XOR := last_XOR c; counts := 0 |}.

Definition Zero_Encoders (e : encoders) (r : regs) : encoders * regs :=
  let sreg_value := r SREG in
  let r := cli r in
  ({| left := zero_channel (left e); right := zero_channel (right e) |},
   rset SREG sreg_value r).

Definition PI : f32 := f32_lit 314159 100000.
Definition countsPerRevMotorShaft : f32 := f32_of_Z 12.
Definition gearRatio : f32 := f32_lit 7581 100.

Definition Rad_Left (e : encoders) (r : regs) : f32 * regs :=
  let countsPerRevSprocketL := (countsPerRevMotorShaft * gearRatio)%f32 in
  let radSprocketPerCountL := (f32_of_Z 2 * PI / countsPerRevSprocketL)%f32 in
  let '(n, r) := Counts_Left e r in
  ((f32_of_Z n * radSprocketPerCountL)%f32, r).

Definition Rad_Right (e : encoders) (r : regs) : f32 * regs :=
  let countsPerRevSprocketR := (countsPerRevMotorShaft * gearRatio)%f32 in
  let radSprocketPerCountR := (f32_of_Z 2 * PI / countsPerRevSprocketR)%f32 in
  let '(n, r) := Counts_Right e r in
  ((f32_of_Z n * radSprocketPerCountR)%f32, r).

(** The body shared by the two interrupt routines, on the pin values [A], [B]
    and [XOR].  The 32-bit count wraps as the AVR's addition does; C leaves the
    signed overflow after 2^31 counts undefined. *)
Definition channel_isr (A B XOR : bool) (c : channel) : channel :=
  if negb (Bool.eqb (last_XOR c) XOR) then
    {| counts := s32 (counts c + (Z.b2z (xorb (last_B c) A) - Z.b2z (xorb (last_A c) B)));
       last_A := A; last_B := B; last_XOR := XOR |}
  else c.

(** ISR(PCINT0_vect) *)
Definition PCINT0 (e : encoders) (r : regs) : encoders :=
  {| left := channel_isr (Left_A r) (Left_B r) (Left_XOR r) (left e); right := right e |}.

(** ISR(INT6_vect) *)
Definition INT6 (e : encoders) (r : regs) : encoders :=
  {| left := left e; right := channel_isr (Right_A r) (Right_B r) (Right_XOR r) (right e) |}.

(** ** The wheel *)

(** Channel levels at wheel position [p], in edges: one period is four. *)
Definition wheel_A (p : Z) : bool := let q := p mod 4 in (q =? 1) || (q =? 2).
Definition wheel_B (p : Z) : bool := let q := p mod 4 in (q =? 2) || (q =? 3).
Definition wheel_XOR (p : Z) : bool := xorb (wheel_A p) (wheel_B p).

(** What the helpers [Left_A] and [Right_A] answer at position [p]. *)
Definition seen_A (p : Z) : bool := wheel_XOR p || wheel_B p.

(** The count the code keeps at position [p]: two per period of four edges,
    flat over the second half of the period. *)
Definition half (p : Z) : Z := 2 * (p / 4) + Z.min (p mod 4) 2.

(** The interrupt with the wheel at position [p]. *)
Definition wheel_isr (p : Z) (c : channel) : channel :=
  channel_isr (seen_A p) (wheel_B p) (wheel_XOR p) c.

(** The channel as [Encoders_Init] leaves it with the wheel at [p]. *)
Definition init_channel (p : Z) : channel :=
  {| last_A := wheel_A p; last_B := wheel_B p; last_XOR := wheel_XOR p; counts := 0 |}.

(** The channel after an interrupt routine ran with the wheel at [p]. *)
Definition seen_channel (p n : Z) : channel :=
  {| last_A := seen_A p; last_B := wheel_B p; last_XOR := wheel_XOR p; counts := n |}.

(** The error the first edge leaves: none unless the wheel started in the last
    quarter of a period, where [Encoders_Init] and the helpers disagree. *)
Definition start_error (p0 err : Z) : Prop := -1 <= err <= 1 /\ (p0 mod 4 <> 3 -> err = 0).

(** The channel of a wheel that started at [p0] and is at [p]. *)
Definition tracks (p0 p : Z) (c : channel) : Prop :=
  (p = p0 /\ c = init_channel p0) \/
  exists err, start_error p0 err /\ c = seen_channel p (s32 (half p - half p0 + err)).

Lemma mod4_cases p :
  exists k q, p = 4 * k + q /\ p mod 4 = q /\ p / 4 = k /\ (q = 0 \/ q = 1 \/ q = 2 \/ q = 3).
Proof.
  exists (p / 4), (p mod 4). pose proof (Z.div_mod p 4). pose proof (Z.mod_pos_bound p 4). lia.
Qed.

Lemma half_period p k : half (p + 4 * k) = half p + 2 * k.
Proof.
  unfold half. rewrite (Z.mul_comm 4 k), Z.div_add, Z.mod_add by lia. lia.
Qed.

Lemma half_error p : 0 <= 2 * half p - p <= 2.
Proof.
  unfold half. destruct (mod4_cases p) as (k&q&->&->&->&H). lia.
Qed.

Lemma s32_add_s32 x y : s32 (s32 x + y) = s32 (x + y).
Proof.
  unfold s32, swrap. f_equal.
  replace ((x + 2 ^ (32 - 1)) mod 2 ^ 32 - 2 ^ (32 - 1) + y + 2 ^ (32 - 1))
    with ((x + 2 ^ (32 - 1)) mod 2 ^ 32 + y) by lia.
  rewrite Zplus_mod_idemp_l. f_equal. lia.
Qed.

Lemma wheel_shift p k :
  wheel_A (4 * k + p) = wheel_A p /\ wheel_B (4 * k + p) = wheel_B p.
Proof.
  unfold wheel_A, wheel_B. replace (4 * k + p) with (p + k * 4) by lia.
  by rewrite Z.mod_add by lia.
Qed.

Lemma half_shift p k : half (4 * k + p) = 2 * k + half p.
Proof. rewrite Z.add_comm, half_period. lia. Qed.

(** One edge forward or backward. *)
Lemma wheel_step p d n :
  d = 1 \/ d = -1 ->
  wheel_isr (p + d) (seen_channel p n) =
    seen_channel (p + d) (if half (p + d) =? half p then s32 n else s32 (n + (half (p + d) - half p))).
Proof.
  intros Hd. destruct (mod4_cases p) as (k&q&->&_&_&Hq).
  unfold wheel_isr, seen_channel, channel_isr, seen_A, wheel_XOR. cbn [last_A last_B last_XOR counts].
  rewrite <- Z.add_assoc. rewrite !half_shift.
  destruct (wheel_shift q k) as [-> ->], (wheel_shift (q + d) k) as [-> ->].
  replace (2 * k + half (q + d) =? 2 * k + half q) with (half (q + d) =? half q)
    by (apply Bool.eq_iff_eq_true; rewrite !Z.eqb_eq; lia).
  replace (2 * k + half (q + d) - (2 * k + half q)) with (half (q + d) - half q) by lia.
  destruct Hq as [->|[->|[->| ->]]], Hd as [-> | ->];
    cbn -[s32 Z.add]; rewrite ?Z.add_0_r; reflexivity.
Qed.

Lemma wheel_isr_seen p n : wheel_isr p (seen_channel p n) = seen_channel p n.
Proof. unfold wheel_isr, channel_isr. cbn [last_XOR seen_channel]. by rewrite Bool.eqb_reflx. Qed.

Lemma wheel_isr_init p : wheel_isr p (init_channel p) = init_channel p.
Proof. unfold wheel_isr, channel_isr. cbn [last_XOR init_channel]. by rewrite Bool.eqb_reflx. Qed.

Lemma init_seen p : p mod 4 <> 3 -> init_channel p = seen_channel p 0.
Proof.
  intros H. unfold init_channel, seen_channel, seen_A, wheel_XOR, wheel_A, wheel_B.
  destruct (mod4_cases p) as (k&q&_&Hp&_&Hq). rewrite Hp in *.
  destruct Hq as [->|[->|[->| ->]]]; done.
Qed.

(** From the last quarter of a period the first edge counts one off. *)
Lemma wheel_step_init p d :
  d = 1 \/ d = -1 -> p mod 4 = 3 -> half (p + d) = half p /\
  wheel_isr (p + d) (init_channel p) = seen_channel (p + d) d.
Proof.
  intros Hd H. destruct (mod4_cases p) as (k&q&->&Hp&_&Hq). rewrite Hp in H. subst q.
  unfold wheel_isr, init_channel, seen_channel, channel_isr, seen_A, wheel_XOR.
  cbn [last_A last_B last_XOR counts]. rewrite <- Z.add_assoc, !half_shift.
  destruct (wheel_shift 3 k) as [-> ->], (wheel_shift (3 + d) k) as [-> ->].
  destruct Hd as [-> | ->]; split; reflexivity.
Qed.

Lemma tracks_step p0 p d c :
  d = 1 \/ d = -1 -> tracks p0 p c -> tracks p0 (p + d) (wheel_isr (p + d) c).
Proof.
  intros Hd Ht.
  assert (Hseen : forall err, start_error p0 err ->
    tracks p0 (p + d) (wheel_isr (p + d) (seen_channel p (s32 (half p - half p0 + err))))).
  { intros err He. right. exists err. split; [done|]. rewrite wheel_step by done. f_equal.
    destruct (Z.eqb_spec (half (p + d)) (half p)) as [E|E].
    - rewrite E. unfold s32. apply swrap_id; [lia|]. apply swrap_range. lia.
    - rewrite s32_add_s32. f_equal. lia. }
  destruct Ht as [[-> ->]|(err&He&->)]; [|by apply Hseen].
  destruct (decide (p0 mod 4 = 3)) as [H3|H3].
  - right. exists d. split; [split; [lia|done]|].
    destruct (wheel_step_init p0 d Hd H3) as [E ->]. rewrite E. f_equal.
    replace (half p0 - half p0 + d) with d by lia. destruct Hd as [-> | ->]; reflexivity.
  - rewrite init_seen by done. replace 0 with (s32 (half p0 - half p0 + 0)) at 1.
    + apply Hseen. split; [lia|done].
    + by replace (half p0 - half p0 + 0) with 0 by lia.
Qed.

Lemma tracks_still p0 p c : tracks p0 p c -> wheel_isr p c = c.
Proof. intros [[-> ->]|(?&_&->)]; [apply wheel_isr_init|apply wheel_isr_seen]. Qed.

Lemma tracks_counts p0 p c :
  tracks p0 p c -> exists err, start_error p0 err /\ counts c = s32 (half p - half p0 + err).
Proof.
  intros [[-> ->]|(err&He&->)]; [exists 0|by exists err].
  split; [split; [lia|done]|]. by replace (half p0 - half p0 + 0) with 0 by lia.
Qed.

(** *** Both channels, as interrupts arrive *)

(** The pins show the left wheel at [pl] and the right wheel at [pr]. *)
Definition pins_show (pl pr : Z) (r : regs) : Prop :=
  Left_B r = wheel_B pl /\ Left_XOR r = wheel_XOR pl /\
  Right_B r = wheel_B pr /\ Right_XOR r = wheel_XOR pr.

(** A step of a wheel: one edge forward ([true]) or backward. *)
Definition dir (b : bool) : Z := if b then 1 else -1.

(** Interrupt histories: a wheel moves one edge and its interrupt runs, or an
    interrupt runs although its wheel did not move (another pin of the port). *)
Inductive edges : Z -> Z -> encoders -> Z -> Z -> encoders -> Prop :=
  | edges_nil pl pr e : edges pl pr e pl pr e
  | edges_left pl pr e d r pl' pr' e' :
      pins_show (pl + dir d) pr r ->
      edges (pl + dir d) pr (PCINT0 e r) pl' pr' e' -> edges pl pr e pl' pr' e'
  | edges_right pl pr e d r pl' pr' e' :
      pins_show pl (pr + dir d) r ->
      edges pl (pr + dir d) (INT6 e r) pl' pr' e' -> edges pl pr e pl' pr' e'
  | edges_spurious_left pl pr e r pl' pr' e' :
      pins_show pl pr r -> edges pl pr (PCINT0 e r) pl' pr' e' -> edges pl pr e pl' pr' e'
  | edges_spurious_right pl pr e r pl' pr' e' :
      pins_show pl pr r -> edges pl pr (INT6 e r) pl' pr' e' -> edges pl pr e pl' pr' e'.

(** The mask of one bit and the mask of another, exclusive-ored, are nonzero
    exactly when one of the bits is set. *)
Lemma to_bool_lxor_masks x y m n :
  0 <= m -> 0 <= n -> m <> n ->
  to_bool (Z.lxor (bit_is_set x m) (bit_is_set y n)) =
    to_bool (bit_is_set x m) || to_bool (bit_is_set y n).
Proof.
  intros Hm Hn Hne. rewrite !bit_is_set_testbit by done.
  pose proof (Z.pow_pos_nonneg 2 m). pose proof (Z.pow_pos_nonneg 2 n).
  assert (Hnz : forall z, z <> 0 -> to_bool z = true) by
    (intros z Hz; unfold to_bool; by destruct (Z.eqb_spec z 0)).
  destruct (Z.testbit x m), (Z.testbit y n); rewrite ?Z.lxor_0_r, ?Z.lxor_0_l, ?(Hnz (2 ^ _)) by lia;
    try done.
  apply Hnz. intros E%Z.lxor_eq. apply Hne, (Z.pow_inj_r 2); lia.
Qed.

Lemma pins_show_A pl pr r :
  pins_show pl pr r -> Left_A r = seen_A pl /\ Right_A r = seen_A pr.
Proof.
  unfold pins_show, Left_XOR, Left_B, Right_XOR, Right_B, Left_A, Right_A, seen_A.
  intros (H1&H2&H3&H4). rewrite !to_bool_lxor_masks by lia. by rewrite H1, H2, H3, H4.
Qed.

Lemma PCINT0_wheel pl pr e r :
  pins_show pl pr r ->
  PCINT0 e r = {| left := wheel_isr pl (left e); right := right e |}.
Proof.
  intros H. destruct (pins_show_A _ _ _ H) as [E _]. destruct H as (H1&H2&_).
  unfold PCINT0. by rewrite E, H1, H2.
Qed.

Lemma INT6_wheel pl pr e r :
  pins_show pl pr r ->
  INT6 e r = {| left := left e; right := wheel_isr pr (right e) |}.
Proof.
  intros H. destruct (pins_show_A _ _ _ H) as [_ E]. destruct H as (_&_&H1&H2).
  unfold INT6. by rewrite E, H1, H2.
Qed.

Lemma edges_tracks pl0 pr0 pl pr e pl' pr' e' :
  edges pl pr e pl' pr' e' ->
  tracks pl0 pl (left e) -> tracks pr0 pr (right e) ->
  tracks pl0 pl' (left e') /\ tracks pr0 pr' (right e').
Proof.
  assert (Hdir : forall d, dir d = 1 \/ dir d = -1) by (intros []; simpl; auto).
  induction 1 as [pl pr e|pl pr e d r pl' pr' e' Hp _ IH|pl pr e d r pl' pr' e' Hp _ IH
                 |pl pr e r pl' pr' e' Hp _ IH|pl pr e r pl' pr' e' Hp _ IH]; intros Hl Hr.
  - done.
  - rewrite (PCINT0_wheel _ _ _ _ Hp) in IH. by apply IH; [apply tracks_step|].
  - rewrite (INT6_wheel _ _ _ _ Hp) in IH. by apply IH; [|apply tracks_step].
  - rewrite (PCINT0_wheel _ _ _ _ Hp), (tracks_still _ _ _ Hl) in IH. by apply IH.
  - rewrite (INT6_wheel _ _ _ _ Hp), (tracks_still _ _ _ Hr) in IH. by apply IH.
Qed.

Lemma Encoders_Init_spec pl pr e r :
  pins_show pl pr r ->
  let '(e', r') := Encoders_Init e r in
  left e' = init_channel pl /\ right e' = init_channel pr /\
  only_changes [PCICR; PCMSK0; EIMSK; EICRB] r r'.
Proof.
  intros (H1&H2&H3&H4). unfold Encoders_Init. cbn zeta.
  unfold Left_B, Left_XOR, Right_B, Right_XOR in *. reg_simpl. rewrite H1, H2, H3, H4.
  cbn [left right]. unfold init_channel, wheel_XOR.
  split_and!; [by destruct (wheel_A pl), (wheel_B pl)|
    by destruct (wheel_A pr), (wheel_B pr)|solve_only_changes].
Qed.

Lemma Counts_Left_regs e r : regs_ok r -> only_changes [] r (Counts_Left e r).2.
Proof.
  intros Hr x _. unfold Counts_Left, cli, r_and, rset. simpl.
  destruct (reg_eqb_spec SREG x) as [<-|]; [|done]. by apply uwrap_id, (Hr SREG).
Qed.

Lemma Counts_Right_regs e r : regs_ok r -> only_changes [] r (Counts_Right e r).2.
Proof. exact (Counts_Left_regs e r). Qed.

Lemma cli_off r : interrupts_on (cli r) = false.
Proof.
  unfold interrupts_on, cli, r_and. rewrite rset_eq. cbn [width].
  rewrite testbit_uwrap, Z.land_spec, Z.lnot_spec by (unfold SREG_I; lia).
  rewrite Z.pow2_bits_true by (unfold SREG_I; lia). by rewrite andb_false_r.
Qed.

(** ** Properties *)

(** C38: what the encoder counts are.  Start with the wheels anywhere and run
    [Encoders_Init]; then let edges arrive in any order and interleaving on the
    two channels, forward and backward, with spurious interrupts in between.
    Each count follows its own wheel only, although the channels share port E,
    and depends only on where the wheel is, not on how it got there: it is
    [half p' - half p] as a signed 32-bit integer, up to an error of one that
    occurs only when the wheel started in the last quarter of a period.  [half]
    advances two per quadrature period of four edges (the helpers answer "XOR
    or B" for channel A), so the count is half the number of edges, up to one. *)
Theorem encoders_track_wheels pl pr e r pl' pr' e' :
  pins_show pl pr r ->
  edges pl pr (Encoders_Init e r).1 pl' pr' e' ->
  (exists err, start_error pl err /\ counts (left e') = s32 (half pl' - half pl + err)) /\
  (exists err, start_error pr err /\ counts (right e') = s32 (half pr' - half pr + err)) /\
  (forall p k, half (p + 4 * k) = half p + 2 * k) /\
  (forall p, 0 <= 2 * half p - p <= 2).
Proof.
  intros Hp He. pose proof (Encoders_Init_spec pl pr e r Hp) as H.
  destruct (Encoders_Init e r) as [e0 r0]. destruct H as (El&Er&_). cbn [fst] in He.
  destruct (edges_tracks pl pr _ _ _ _ _ _ He) as [Tl Tr]; [by left..|].
  split_and!; [by apply tracks_counts..|apply half_period|apply half_error].
Qed.

(** Pins for given wheel positions, used to build concrete histories. *)
Definition pins_of (pl pr : Z) : regs := fun x =>
  match x with
  | PINB => if wheel_XOR pl then 0x10 else 0
  | PINE => (if wheel_B pl then 0x04 else 0) + (if wheel_XOR pr then 0x40 else 0)
  | PINF => if wheel_B pr then 1 else 0
  | _ => 0
  end.

Lemma pins_of_show pl pr : pins_show pl pr (pins_of pl pr).
Proof.
  unfold pins_show, Left_B, Left_XOR, Right_B, Right_XOR, pins_of, wheel_XOR.
  destruct (wheel_A pl), (wheel_B pl), (wheel_A pr), (wheel_B pr); done.
Qed.

(** The left wheel turns one whole period forward, the right one edge back in
    between: four edges, two counts. *)
Lemma encoders_track_wheels_witness :
  exists e', edges 0 0 (Encoders_Init encoders_zero (pins_of 0 0)).1 4 (-1) e' /\
    counts (left e') = 2.
Proof.
  assert (H : edges 0 0 (Encoders_Init encoders_zero (pins_of 0 0)).1 4 (-1)
    (PCINT0 (PCINT0 (INT6 (PCINT0 (PCINT0 (Encoders_Init encoders_zero (pins_of 0 0)).1
      (pins_of 1 0)) (pins_of 2 0)) (pins_of 2 (-1))) (pins_of 3 (-1))) (pins_of 4 (-1)))).
  { apply (edges_left 0 0 _ true (pins_of 1 0)); [apply (pins_of_show 1 0)|].
    apply (edges_left 1 0 _ true (pins_of 2 0)); [apply (pins_of_show 2 0)|].
    apply (edges_right 2 0 _ false (pins_of 2 (-1))); [apply (pins_of_show 2 (-1))|].
    apply (edges_left 2 (-1) _ true (pins_of 3 (-1))); [apply (pins_of_show 3 (-1))|].
    apply (edges_left 3 (-1) _ true (pins_of 4 (-1))); [apply (pins_of_show 4 (-1))|].
    apply edges_nil. }
  eexists. split; [exact H|].
  destruct (encoders_track_wheels 0 0 encoders_zero (pins_of 0 0) 4 (-1) _ (pins_of_show 0 0) H)
    as [(err&[_ He]&->) _].
  by rewrite He.
Defined.

(** reading or zeroing the counts is an atomic section that leaves the
    machine as it found it: the value is the count of that side, interrupts are
    off while it is read, and afterwards every register, [SREG] included, is
    what it was, whether or not interrupts were enabled; zeroing keeps the
    remembered channel levels, so the next edge is still decoded. *)
Theorem encoder_reads_atomic e r :
  regs_ok r ->
  (Counts_Left e r).1 = counts (left e) /\ (Counts_Right e r).1 = counts (right e) /\
  interrupts_on (cli r) = false /\
  (forall x, (Counts_Left e r).2 x = r x) /\ (forall x, (Counts_Right e r).2 x = r x) /\
  (forall x, (Zero_Encoders e r).2 x = r x) /\
  (forall p c, wheel_isr p (zero_channel (wheel_isr p c)) = zero_channel (wheel_isr p c)) /\
  counts (left (Zero_Encoders e r).1) = 0 /\ counts (right (Zero_Encoders e r).1) = 0.
Proof.
  intros Hr. split_and!; try done.
  - apply cli_off.
  - intros x. apply (Counts_Left_regs e r Hr); reg_list.
  - intros x. apply (Counts_Right_regs e r Hr); reg_list.
  - intros x. apply (Counts_Left_regs e r Hr). reg_list.
  - intros p c. unfold wheel_isr, channel_isr.
    destruct (Bool.eqb (last_XOR c) (wheel_XOR p)) eqn:E; cbn [negb zero_channel last_XOR].
    + by rewrite E.
    + by rewrite Bool.eqb_reflx.
Qed.

Lemma encoder_reads_atomic_witness :
  let e := {| left := channel_zero; right := {| last_A := false; last_B := false;
              last_XOR := false; counts := 5 |} |} in
  (Counts_Right e (sei regs_zero)).1 = 5 /\
  interrupts_on (Counts_Right e (sei regs_zero)).2 = true.
Proof.
  intros e. destruct (encoder_reads_atomic e (sei regs_zero)) as (_&H&_&_&H2&_);
    [auto with regs|]. split; [exact H|].
  unfold interrupts_on. by rewrite H2.
Defined.
