(* ===== verification/LedServo.v ===== *)
(** * LedServo: Driver/LED_switch.c, Driver/ServoPWM.c, Driver/driver_defines.h

    The three LEDs on port D (red PD5, green PD0, blue PD3) and the gripper
    servo on timer 4, whose position two of the LEDs show. *)
From S2P Require Import Prelude.
From S2P Require Import Avr.

Inductive eLEDLights := RED | GREEN | BLUE.
Inductive eGripperState := OPEN | CLOSE.

#[export] Instance eLEDLights_eq_dec : EqDecision eLEDLights.
Proof. solve_decision. Defined.
#[export] Instance eGripperState_eq_dec : EqDecision eGripperState.
Proof. solve_decision. Defined.

(** ** LED_switch.c *)

Definition DDD5 : Z := 5.
Definition DDD0 : Z := 0.
Definition DDD3 : Z := 3.

Definition LED_Init (r : regs) : regs :=
  (* Init PD5: set pin to write, set output low *)
  let r := r_or DDRD (2 ^ DDD5) r in
  let r := r_and PORTD (Z.lnot (2 ^ 5)) r in
  (* Init PD0 *)
  let r := r_or DDRD (2 ^ DDD0) r in
  let r := r_and PORTD (Z.lnot (2 ^ 0)) r in
  (* Init PD3 *)
  let r := r_or DDRD (2 ^ DDD3) r in
  r_and PORTD (Z.lnot (2 ^ 3)) r.

Definition Set_LED (led : eLEDLights) (on : bool) (r : regs) : regs :=
  match led with
  | RED =>
      if on then r_or PORTD (2 ^ 5) r else r_and PORTD (Z.lnot (2 ^ 5)) r
  | GREEN =>
      if on then r_or PORTD (2 ^ 0) r else r_and PORTD (Z.lnot (2 ^ 0)) r
  | BLUE =>
      if on then r_or PORTD (2 ^ 3) r else r_and PORTD (Z.lnot (2 ^ 3)) r
  end.

(** ** ServoPWM.c *)

Definition DUTY_CYCLE_MIN : Z := 8.
Definition DUTY_CYCLE_MAX : Z := 16.
Definition DUTY_CYCLE_OPEN : Z := 10.
Definition DUTY_CYCLE_CLOSED : Z := 13.
Definition MAX_PWM : Z := 156.

(** The last branch of [Set_LEDs] needs a value that is neither [OPEN] nor
    [CLOSE]; [eGripperState] has none. *)
Definition Set_LEDs (state : eGripperState) (r : regs) : regs :=
  match state with
  | OPEN =>
      (* Turn on green, turn off blue *)
      let r := Set_LED GREEN true r in
      Set_LED BLUE false r
  | CLOSE =>
      (* Turn on blue, turn off green *)
      let r := Set_LED BLUE true r in
      Set_LED GREEN false r
  end.

Definition Servo_PWM_Init (state : eGripperState) (r : regs) : regs :=
  (* Set fast-PWM, set at timer reset, clear on compare *)
  let r := r_or TCCR4A 0x82 r in
  let r := r_and TCCR4A (Z.lnot 0x40) r in
  (* Enable clock with prescaler of 2048 *)
  let r := r_and TCCR4B (Z.lnot 0x0F) r in
  let r := r_or TCCR4B 0x0C r in
  (* Set PWM fast-mode *)
  let r := r_and TCCR4D (Z.lnot 0x03) r in
  (* Set DDR pin to write for OC4A -> PC7 *)
  let r := r_or DDRC (2 ^ 7) r in
  let r :=
    match state with
    | OPEN => Set_LEDs OPEN (rset OCR4A DUTY_CYCLE_OPEN r)
    | CLOSE => Set_LEDs CLOSE (rset OCR4A DUTY_CYCLE_CLOSED r)
    end in
  (* Configure timer *)
  let oldSREG := r SREG in
  let r := cli r in
  (* Set TOP value *)
  let r := rset OCR4C MAX_PWM r in
  (* Clear timer *)
  let r := rset TCNT4 0 r in
  let r := r_and TC4H (Z.lnot 0x07) r in
  rset SREG oldSREG r.

Definition Close_Servo (r : regs) : regs :=
  (* Configure timer *)
  let oldSREG := r SREG in
  let r := cli r in
  (* Set compare value *)
  let r := rset OCR4A DUTY_CYCLE_MAX r in
  let r := rset SREG oldSREG r in
  (* Set LEDs *)
  Set_LEDs CLOSE r.

Definition Open_Servo (r : regs) : regs :=
  (* Configure timer *)
  let oldSREG := r SREG in
  let r := cli r in
  (* Set compare value *)
  let r := rset OCR4A DUTY_CYCLE_MIN r in
  let r := rset SREG oldSREG r in
  (* Set LEDs *)
  Set_LEDs OPEN r.

Definition Servo_Is_Closed (r : regs) : bool := r OCR4A <? DUTY_CYCLE_MIN + 10.

(** ** Specification *)

(** The port bit of each LED, and whether it is lit. *)
Definition led_bit (led : eLEDLights) : Z :=
  match led with RED => 5 | GREEN => 0 | BLUE => 3 end.
Definition led_on (led : eLEDLights) (r : regs) : bool := Z.testbit (r PORTD) (led_bit led).

Lemma led_bit_range led : 0 <= led_bit led < 8.
Proof. destruct led; simpl; lia. Qed.

Lemma led_bit_inj led led' : led_bit led = led_bit led' -> led = led'.
Proof. by destruct led, led'. Qed.

Lemma Set_LED_or_and led on r :
  Set_LED led on r =
    if on then r_or PORTD (2 ^ led_bit led) r else r_and PORTD (Z.lnot (2 ^ led_bit led)) r.
Proof. by destruct led, on. Qed.

(** Every bit of port D after [Set_LED]: the LED's own bit is [on], all others
    keep their value. *)
Lemma Set_LED_bit led on r n :
  0 <= n < 8 ->
  Z.testbit (Set_LED led on r PORTD) n = if n =? led_bit led then on else Z.testbit (r PORTD) n.
Proof.
  intros Hn. pose proof (led_bit_range led). rewrite Set_LED_or_and.
  destruct on; unfold r_or, r_and; rewrite rset_eq, testbit_uwrap by (simpl; lia).
  - rewrite Z.lor_spec, Z.pow2_bits_eqb by lia.
    destruct (Z.eqb_spec n (led_bit led)) as [->|];
      [by rewrite Z.eqb_refl, orb_true_r|].
    destruct (Z.eqb_spec (led_bit led) n); [congruence|]. by rewrite orb_false_r.
  - rewrite Z.land_spec, Z.lnot_spec, Z.pow2_bits_eqb by lia.
    destruct (Z.eqb_spec n (led_bit led)) as [->|];
      [by rewrite Z.eqb_refl, andb_false_r|].
    destruct (Z.eqb_spec (led_bit led) n); [congruence|]. by rewrite andb_true_r.
Qed.

Lemma Set_LED_only led on r : only_changes [PORTD] r (Set_LED led on r).
Proof. destruct led, on; apply only_changes_rset; reg_list. Qed.

Lemma Set_LED_ok led on r : regs_ok r -> regs_ok (Set_LED led on r).
Proof. destruct led, on; simpl; auto with regs. Qed.
#[export] Hint Resolve Set_LED_ok : regs.

Lemma Set_LED_led_on led on r led' :
  led_on led' (Set_LED led on r) = if decide (led' = led) then on else led_on led' r.
Proof.
  unfold led_on. rewrite Set_LED_bit by apply led_bit_range.
  destruct (Z.eqb_spec (led_bit led') (led_bit led)) as [E|E].
  - apply led_bit_inj in E. by rewrite decide_True.
  - rewrite decide_False; [done|]. by intros ->.
Qed.

Lemma Set_LEDs_ok st r : regs_ok r -> regs_ok (Set_LEDs st r).
Proof. destruct st; simpl; auto with regs. Qed.

Lemma Set_LEDs_only st r : only_changes [PORTD] r (Set_LEDs st r).
Proof. destruct st; unfold Set_LEDs; etransitivity; apply Set_LED_only. Qed.

Lemma Set_LEDs_leds st r :
  led_on GREEN (Set_LEDs st r) = bool_decide (st = OPEN) /\
  led_on BLUE (Set_LEDs st r) = bool_decide (st = CLOSE) /\
  led_on RED (Set_LEDs st r) = led_on RED r.
Proof. destruct st; unfold Set_LEDs; rewrite !Set_LED_led_on; split_and!; done. Qed.

(** A write between [cli] and the restore of [SREG] leaves [SREG] as it was. *)
Lemma atomic_write_only x v r :
  regs_ok r -> x <> SREG ->
  only_changes [x] r (rset SREG (r SREG) (rset x v (cli r))).
Proof.
  intros Hr Hx y Hy. unfold cli, r_and.
  destruct (decide (y = SREG)) as [->|Hne].
  - rewrite rset_eq. by apply uwrap_id, (Hr SREG).
  - rewrite !rset_ne by reg_list. done.
Qed.

Lemma Close_Servo_ok r : regs_ok r -> regs_ok (Close_Servo r).
Proof. intros. apply Set_LEDs_ok. auto with regs. Qed.
Lemma Open_Servo_ok r : regs_ok r -> regs_ok (Open_Servo r).
Proof. intros. apply Set_LEDs_ok. auto with regs. Qed.
Lemma Servo_PWM_Init_ok st r : regs_ok r -> regs_ok (Servo_PWM_Init st r).
Proof. intros. destruct st; unfold Servo_PWM_Init; cbn zeta iota; auto 20 using Set_LEDs_ok with regs. Qed.
Lemma LED_Init_ok r : regs_ok r -> regs_ok (LED_Init r).
Proof. intros. unfold LED_Init. auto 20 with regs. Qed.
#[export] Hint Resolve Set_LEDs_ok Close_Servo_ok Open_Servo_ok Servo_PWM_Init_ok LED_Init_ok : regs.

Lemma Close_Servo_only r : regs_ok r -> only_changes [OCR4A; PORTD] r (Close_Servo r).
Proof.
  intros Hr. unfold Close_Servo.
  etransitivity; [|eapply only_changes_weaken, Set_LEDs_only; reg_list].
  eapply only_changes_weaken, atomic_write_only; [reg_list|done..].
Qed.

Lemma Open_Servo_only r : regs_ok r -> only_changes [OCR4A; PORTD] r (Open_Servo r).
Proof.
  intros Hr. unfold Open_Servo.
  etransitivity; [|eapply only_changes_weaken, Set_LEDs_only; reg_list].
  eapply only_changes_weaken, atomic_write_only; [reg_list|done..].
Qed.

Lemma Close_Servo_OCR4A r : Close_Servo r OCR4A = DUTY_CYCLE_MAX.
Proof. reflexivity. Qed.
Lemma Open_Servo_OCR4A r : Open_Servo r OCR4A = DUTY_CYCLE_MIN.
Proof. reflexivity. Qed.

(** The position a servo command asks for. *)
Definition servo_command (st : eGripperState) : regs -> regs :=
  match st with OPEN => Open_Servo | CLOSE => Close_Servo end.

Lemma servo_command_leds st r : forall led, led <> RED ->
  led_on led (servo_command st r) = bool_decide (led = match st with OPEN => GREEN | CLOSE => BLUE end).
Proof.
  intros led Hled. destruct st; simpl.
  - unfold Open_Servo. destruct (Set_LEDs_leds OPEN
      (rset SREG (r SREG) (rset OCR4A DUTY_CYCLE_MIN (cli r)))) as (H1&H2&_).
    by destruct led; rewrite ?H1, ?H2.
  - unfold Close_Servo. destruct (Set_LEDs_leds CLOSE
      (rset SREG (r SREG) (rset OCR4A DUTY_CYCLE_MAX (cli r)))) as (H1&H2&_).
    by destruct led; rewrite ?H1, ?H2.
Qed.

(** ** Properties *)

(** [Set_LED] and the port.  Any sequence of [Set_LED] calls leaves each
    LED in the state of the last call that named it (its old state if none
    did), every other bit of port D unchanged, and no other register touched. *)
Theorem Set_LED_sequence (calls : list (eLEDLights * bool)) r :
  let r' := foldl (fun r '(led, on) => Set_LED led on r) r calls in
  only_changes [PORTD] r r' /\
  (forall led, led_on led r' =
     default (led_on led r) (snd <$> last (filter (fun c => c.1 = led) calls))) /\
  (forall n, 0 <= n < 8 -> n <> 0 -> n <> 3 -> n <> 5 -> Z.testbit (r' PORTD) n = Z.testbit (r PORTD) n).
Proof.
  revert r. induction calls as [|[led on] calls IH]; intros r; cbn [foldl]; [done|].
  destruct (IH (Set_LED led on r)) as (H1&H2&H3). split_and!.
  - etransitivity; [apply Set_LED_only|exact H1].
  - intros led'. rewrite H2, Set_LED_led_on.
    rewrite filter_cons. cbn [fst]. destruct (decide (led = led')) as [->|Hne].
    + rewrite decide_True by done. rewrite last_cons.
      by destruct (last (filter _ calls)).
    + by rewrite decide_False by congruence.
  - intros n Hn ???. rewrite H3, Set_LED_bit by done.
    by destruct led; simpl; rewrite (proj2 (Z.eqb_neq _ _)).
Qed.

(** gripper commands.  [Open_Servo] and [Close_Servo] set the pulse to the
    short and the long end of the range, inside the timer period; exactly the
    LED of the commanded position is lit (green open, blue closed); and they
    write nothing but the compare register and port D, so the interrupt flag is
    as before.  [Servo_Is_Closed] answers true after either of them, so it does
    not tell the positions apart. *)
Theorem servo_commands_spec st r :
  regs_ok r ->
  let r' := servo_command st r in
  r' OCR4A = (match st with OPEN => DUTY_CYCLE_MIN | CLOSE => DUTY_CYCLE_MAX end) /\
  0 < r' OCR4A < MAX_PWM /\
  led_on GREEN r' = bool_decide (st = OPEN) /\ led_on BLUE r' = bool_decide (st = CLOSE) /\
  led_on RED r' = led_on RED r /\
  only_changes [OCR4A; PORTD] r r' /\ interrupts_on r' = interrupts_on r /\
  Servo_Is_Closed r' = true.
Proof.
  intros Hr r'.
  assert (Honly : only_changes [OCR4A; PORTD] r r')
    by (destruct st; [by apply Open_Servo_only|by apply Close_Servo_only]).
  split_and!; try done; try (by destruct st).
  - unfold r'. by rewrite servo_command_leds by done; destruct st.
  - unfold r'. by rewrite servo_command_leds by done; destruct st.
  - by destruct st; unfold r', servo_command, Open_Servo, Close_Servo;
      destruct (Set_LEDs_leds OPEN (rset SREG (r SREG) (rset OCR4A DUTY_CYCLE_MIN (cli r)))) as (_&_&H1);
      destruct (Set_LEDs_leds CLOSE (rset SREG (r SREG) (rset OCR4A DUTY_CYCLE_MAX (cli r)))) as (_&_&H2);
      rewrite ?H1, ?H2.
  - unfold interrupts_on. rewrite Honly by reg_list. done.
Qed.

Lemma servo_commands_spec_witness :
  led_on BLUE (Close_Servo (Open_Servo regs_zero)) = true /\
  Servo_Is_Closed (Open_Servo regs_zero) = true.
Proof.
  destruct (servo_commands_spec CLOSE (Open_Servo regs_zero)) as (_&_&_&H&_); [auto with regs|].
  destruct (servo_commands_spec OPEN regs_zero) as (_&_&_&_&_&_&_&H'); [auto with regs|].
  split; [exact H|exact H'].
Defined.
