(* ===== verification/MotorPWM.v ===== *)
(** * MotorPWM: Driver/MotorPWM.c

    The two motors on timer 1: the compare registers [OCR1B] (left) and [OCR1A]
    (right) hold the inverted duty cycle, [PORTB] bits 2 and 1 the directions,
    [TCCR1A] bits 7..4 connect the outputs.  [None] is undefined behaviour: a
    signed overflow of the 16-bit [int], or a float outside the range of the
    integer type it is converted to. *)
From S2P Require Import Prelude.
From S2P Require Import Float32.
From S2P Require Import Avr.

Definition COM1A1 : Z := 7.
Definition COM1A0 : Z := 6.

Definition Motor_PWM_Init (MAX_PWM : Z) (r : regs) : regs :=
  let r := rset TCCR1B 0x11 r in
  let r := r_and TCCR1A 0xFE r in
  let r := r_or TCCR1A 0x02 r in
  (* Disable the output, set register TCCR1A, fields COM1A1 and COM1A0 to 0 *)
  let r := r_and TCCR1A 0x0F r in
  (* Set motor output pins to write *)
  let r := r_or DDRB (Z.lor (Z.lor (Z.lor (2 ^ 1) (2 ^ 2)) (2 ^ 5)) (2 ^ 6)) r in
  (* Disable interrupts *)
  let r := cli r in
  (* Set the TOP value (ICR1) equal to MAX_PWM *)
  let r := rset ICR1 MAX_PWM r in
  (* Enable interrupts *)
  sei r.

Definition Motor_PWM_Enable (enable : bool) (r : regs) : regs :=
  if enable then r_or TCCR1A 0xF0 r else r_and TCCR1A 0x0F r.

Definition Is_Motor_PWM_Enabled (r : regs) : bool :=
  to_bool (Z.land (r TCCR1A) (2 ^ COM1A1)) && to_bool (Z.land (r TCCR1A) (2 ^ COM1A0)).

(** [pwm * -1] in a 16-bit [int]. *)
Definition negate_int (pwm : Z) : option Z :=
  if pwm =? -32768 then None else Some (pwm * -1).

(** [(int16_t)((((float)pwm * -0.01) + 1) * ICR1)] *)
Definition duty_to_compare (pwm icr1 : Z) : option Z :=
  f32_to_s16 ((f32_of_Z pwm * f32_lit (-1) 100 + f32_of_Z 1) * f32_of_Z icr1)%f32.

Definition Motor_PWM_Left (pwm : Z) (r : regs) : option regs :=
  (* Set motor direction pins *)
  '(pwm, r) ← (if pwm <? 0 then
                 let r := r_or PORTB 0x04 r in
                 pwm ← negate_int pwm; Some (pwm, r)
               else Some (pwm, r_and PORTB 0xFB r));
  let pwm := if 100 <? pwm then 100 else pwm in
  (* Disable interrupts *)
  let r := cli r in
  v ← duty_to_compare pwm (r ICR1);
  let r := rset OCR1B v r in
  (* Enable interrupts *)
  Some (sei r).

Definition Motor_PWM_Right (pwm : Z) (r : regs) : option regs :=
  (* Set motor direction pins *)
  '(pwm, r) ← (if pwm <? 0 then
                 let r := r_or PORTB 0x02 r in
                 pwm ← negate_int pwm; Some (pwm, r)
               else Some (pwm, r_and PORTB 0xFD r));
  let pwm := if 100 <? pwm then 100 else pwm in
  (* Disable interrupts *)
  let r := cli r in
  v ← duty_to_compare pwm (r ICR1);
  let r := rset OCR1A v r in
  (* Enable interrupts *)
  Some (sei r).

Definition Get_MAX_Motor_PWM (r : regs) : Z := r ICR1.

(** [-100*(OCR1x / (float)Get_MAX_Motor_PWM()) + 100] *)
Definition compare_to_duty (ocr icr1 : Z) : option Z :=
  f32_to_s16 (f32_of_Z (-100) * (f32_of_Z ocr / f32_of_Z icr1) + f32_of_Z 100)%f32.

Definition Get_Motor_PWM_Left (r : regs) : option Z :=
  compare_to_duty (r OCR1B) (Get_MAX_Motor_PWM r).

Definition Get_Motor_PWM_Right (r : regs) : option Z :=
  compare_to_duty (r OCR1A) (Get_MAX_Motor_PWM r).

Definition Set_MAX_Motor_PWM (MAX_PWM : Z) (r : regs) : regs :=
  (* Disable interrupts *)
  let r := cli r in
  (* Set the TOP value (ICR1) equal to MAX_PWM *)
  let r := rset ICR1 MAX_PWM r in
  (* Enable interrupts *)
  sei r.

Definition DutyCycle_to_Velocity_Left (duty_cycle : Z) : f32 :=
  (f32_of_Z duty_cycle * f32_lit 33 10000 + f32_lit 133 10000)%f32.

Definition DutyCycle_to_Velocity_Right (duty_cycle : Z) : f32 :=
  (f32_of_Z duty_cycle * f32_lit 34 10000 + f32_lit 133 10000)%f32.

Definition Velocity_to_DutyCycle_Left (velocity : f32) : option Z :=
  f32_to_s16 ((velocity - f32_lit 133 10000) / f32_lit 33 10000)%f32.

Definition Velocity_to_DutyCycle_Right (velocity : f32) : option Z :=
  f32_to_s16 ((velocity - f32_lit 133 10000) / f32_lit 34 10000)%f32.

Definition PI : f32 := f32_lit 314159 100000.

Definition ECount_to_Distance (encoder_count : Z) : f32 :=
  (f32_of_Z encoder_count * f32_of_Z 2 * PI * f32_lit 195 10000
     / (f32_of_Z 12 * f32_lit 7581 100))%f32.

(** ** Tables *)

(** The compare value for TOP 400, the value [InitializeSystem] sets, for every
    duty cycle: [4 * (100 - p)], one less at 47 and 93 where the product rounds
    below the integer. *)
Definition compare_400 (p : Z) : Z := 400 - 4 * p - (if (p =? 47) || (p =? 93) then 1 else 0).

(** What [Get_Motor_PWM] answers after a set: one less at 40 and 46. *)
Definition read_back (p : Z) : Z := p - (if (p =? 40) || (p =? 46) then 1 else 0).

(** All integers from [lo], [n] of them. *)
Definition range (lo : Z) (n : nat) : list Z := (fun i => lo + Z.of_nat i) <$> seq 0 n.

Lemma forallb_range (f : Z -> bool) lo n z :
  forallb f (range lo n) = true -> lo <= z < lo + Z.of_nat n -> f z = true.
Proof.
  intros H Hz. rewrite forallb_forall in H. apply H.
  apply list_elem_of_In. unfold range. apply list_elem_of_fmap.
  exists (Z.to_nat (z - lo)). split; [lia|]. apply elem_of_seq. lia.
Qed.

Definition opt_eqb (o : option Z) (z : Z) : bool :=
  match o with Some x => x =? z | None => false end.

Lemma opt_eqb_true o z : opt_eqb o z = true -> o = Some z.
Proof. destruct o; simpl; [|done]. intros ->%Z.eqb_eq. done. Qed.

Lemma duty_to_compare_400 p : 0 <= p <= 100 -> duty_to_compare p 400 = Some (compare_400 p).
Proof.
  intros Hp. apply opt_eqb_true.
  apply (forallb_range (fun p => opt_eqb (duty_to_compare p 400) (compare_400 p)) 0 101);
    [by vm_compute|lia].
Qed.

Lemma compare_to_duty_400 p : 0 <= p <= 100 -> compare_to_duty (compare_400 p) 400 = Some (read_back p).
Proof.
  intros Hp. apply opt_eqb_true.
  apply (forallb_range (fun p => opt_eqb (compare_to_duty (compare_400 p) 400) (read_back p)) 0 101);
    [by vm_compute|lia].
Qed.

(** ** Both motors at once *)

(** The body the two setters share: compare register, direction mask to set and
    mask to keep. *)
Definition motor_set (ocr : reg) (on keep : Z) (pwm : Z) (r : regs) : option regs :=
  '(pwm, r) ← (if pwm <? 0 then
                 let r := r_or PORTB on r in
                 pwm ← negate_int pwm; Some (pwm, r)
               else Some (pwm, r_and PORTB keep r));
  let pwm := if 100 <? pwm then 100 else pwm in
  let r := cli r in
  v ← duty_to_compare pwm (r ICR1);
  let r := rset ocr v r in
  Some (sei r).

Lemma Motor_PWM_Left_set : Motor_PWM_Left = motor_set OCR1B 0x04 0xFB.
Proof. reflexivity. Qed.
Lemma Motor_PWM_Right_set : Motor_PWM_Right = motor_set OCR1A 0x02 0xFD.
Proof. reflexivity. Qed.

(** What a setter leaves behind, direction bit [b]. *)
Definition motor_state (ocr : reg) (b pwm : Z) (r r' : regs) : Prop :=
  r' ocr = compare_400 (Z.min (Z.abs pwm) 100) /\
  (forall n, 0 <= n < 8 ->
     Z.testbit (r' PORTB) n = if n =? b then pwm <? 0 else Z.testbit (r PORTB) n) /\
  only_changes [PORTB; ocr; SREG] r r' /\ interrupts_on r' = true /\ regs_ok r'.

Lemma compare_400_range p : 0 <= p <= 100 -> 0 <= compare_400 p <= 400.
Proof.
  intros. unfold compare_400. destruct (_ || _) eqn:E; [|lia].
  rewrite orb_true_iff, !Z.eqb_eq in E. lia.
Qed.

Lemma interrupts_on_sei r : interrupts_on (sei r) = true.
Proof.
  unfold interrupts_on, sei, r_or. rewrite rset_eq. cbn [width].
  rewrite testbit_uwrap, Z.lor_spec by (unfold SREG_I; lia).
  rewrite Z.pow2_bits_true by (unfold SREG_I; lia). by rewrite orb_true_r.
Qed.

Definition motor_side (ocr : reg) (b on keep : Z) : Prop :=
  (ocr = OCR1B /\ b = 2 /\ on = 0x04 /\ keep = 0xFB) \/
  (ocr = OCR1A /\ b = 1 /\ on = 0x02 /\ keep = 0xFD).

Lemma direction_bits ocr b on keep n :
  motor_side ocr b on keep -> 0 <= n < 8 ->
  Z.testbit on n = (n =? b) /\ Z.testbit keep n = negb (n =? b).
Proof.
  intros Hs Hn.
  assert (n = 0 \/ n = 1 \/ n = 2 \/ n = 3 \/ n = 4 \/ n = 5 \/ n = 6 \/ n = 7) as Hc by lia.
  destruct Hs as [(->&->&->&->)|(->&->&->&->)];
    destruct Hc as [->|[->|[->|[->|[->|[->|[->| ->]]]]]]]; done.
Qed.

Lemma motor_set_spec ocr b on keep pwm r :
  motor_side ocr b on keep -> regs_ok r -> r ICR1 = 400 -> -32768 < pwm <= 32767 ->
  exists r', motor_set ocr on keep pwm r = Some r' /\ motor_state ocr b pwm r r'.
Proof.
  intros Hs Hr Htop Hp. unfold motor_set.
  pose (rd := if pwm <? 0 then r_or PORTB on r else r_and PORTB keep r).
  assert (E : (if pwm <? 0 then
                 pwm ← negate_int pwm; Some (pwm, r_or PORTB on r)
               else Some (pwm, r_and PORTB keep r)) = Some (Z.abs pwm, rd)).
  { unfold rd, negate_int. destruct (Z.ltb_spec pwm 0); [|do 2 f_equal; lia].
    rewrite (proj2 (Z.eqb_neq _ _)) by lia. simpl. do 2 f_equal. lia. }
  rewrite E. clear E. cbn [mbind option_bind].
  replace (if 100 <? Z.abs pwm then 100 else Z.abs pwm) with (Z.min (Z.abs pwm) 100)
    by (destruct (Z.ltb_spec 100 (Z.abs pwm)); lia).
  assert (cli rd ICR1 = 400) as -> by (unfold rd; destruct (pwm <? 0); exact Htop).
  rewrite duty_to_compare_400 by lia. cbn [mbind option_bind].
  eexists. split; [done|].
  assert (Hocr : ocr <> SREG /\ ocr <> PORTB /\ width ocr = 16)
    by (destruct Hs as [(->&_)|(->&_)]; done).
  destruct Hocr as (HoS&HoP&How).
  pose proof (compare_400_range (Z.min (Z.abs pwm) 100)).
  split_and!.
  - unfold sei, r_or. rewrite rset_ne by done. rewrite rset_eq, How.
    apply uwrap_id. unfold is_u. lia.
  - intros n Hn. destruct (direction_bits ocr b on keep n Hs Hn) as [H1 H2].
    unfold sei, r_or, cli, r_and. rewrite !rset_ne by done.
    unfold rd, r_or, r_and. destruct (pwm <? 0); rewrite rset_eq, testbit_uwrap by (simpl; lia).
    + rewrite Z.lor_spec, H1. by destruct (n =? b), (Z.testbit (r PORTB) n).
    + rewrite Z.land_spec, H2. by destruct (n =? b), (Z.testbit (r PORTB) n).
  - intros x Hx. apply not_elem_of_cons in Hx as [Hx1 Hx]. apply not_elem_of_cons in Hx as [Hx2 Hx].
    apply not_elem_of_cons in Hx as [Hx3 _]. unfold sei, r_or, cli, r_and. rewrite !rset_ne by done.
    unfold rd, r_or, r_and. by destruct (pwm <? 0); rewrite rset_ne by done.
  - apply interrupts_on_sei.
  - unfold rd. destruct (pwm <? 0); auto with regs.
Qed.

Lemma motor_set_overflow ocr on keep r : motor_set ocr on keep (-32768) r = None.
Proof. reflexivity. Qed.

Lemma side_left : motor_side OCR1B 2 0x04 0xFB.
Proof. by left. Qed.
Lemma side_right : motor_side OCR1A 1 0x02 0xFD.
Proof. by right. Qed.

Lemma Motor_PWM_Left_spec pwm r :
  regs_ok r -> r ICR1 = 400 -> -32768 < pwm <= 32767 ->
  exists r', Motor_PWM_Left pwm r = Some r' /\ motor_state OCR1B 2 pwm r r'.
Proof. rewrite Motor_PWM_Left_set. apply motor_set_spec, side_left. Qed.

Lemma Motor_PWM_Right_spec pwm r :
  regs_ok r -> r ICR1 = 400 -> -32768 < pwm <= 32767 ->
  exists r', Motor_PWM_Right pwm r = Some r' /\ motor_state OCR1A 1 pwm r r'.
Proof. rewrite Motor_PWM_Right_set. apply motor_set_spec, side_right. Qed.

Lemma Motor_PWM_Init_ok n r : regs_ok r -> regs_ok (Motor_PWM_Init n r).
Proof. intros. unfold Motor_PWM_Init. auto 20 with regs. Qed.
Lemma Motor_PWM_Enable_ok b r : regs_ok r -> regs_ok (Motor_PWM_Enable b r).
Proof. intros. destruct b; simpl; auto with regs. Qed.
#[export] Hint Resolve Motor_PWM_Init_ok Motor_PWM_Enable_ok : regs.

Lemma Motor_PWM_Enable_only b r : only_changes [TCCR1A] r (Motor_PWM_Enable b r).
Proof. destruct b; intros x Hx; apply rset_ne; reg_list. Qed.

Lemma Is_Enabled_same r r' : r' TCCR1A = r TCCR1A -> Is_Motor_PWM_Enabled r' = Is_Motor_PWM_Enabled r.
Proof. intros E. unfold Is_Motor_PWM_Enabled. by rewrite E. Qed.

(** The outputs of both motors are as before: enable bits, compare values and
    direction pins. *)
Definition motor_kept (r r' : regs) : Prop :=
  r' TCCR1A = r TCCR1A /\ r' OCR1A = r OCR1A /\ r' OCR1B = r OCR1B /\
  Z.testbit (r' PORTB) 1 = Z.testbit (r PORTB) 1 /\ Z.testbit (r' PORTB) 2 = Z.testbit (r PORTB) 2.

#[export] Instance motor_kept_preorder : PreOrder motor_kept.
Proof.
  split; [done|]. intros r1 r2 r3 (A1&A2&A3&A4&A5) (B1&B2&B3&B4&B5). split_and!; congruence.
Qed.

Lemma motor_kept_same r r' : (forall x, r' x = r x) -> motor_kept r r'.
Proof. intros E. unfold motor_kept. by rewrite !E. Qed.

Lemma motor_kept_only l r r' :
  only_changes l r r' -> TCCR1A ∉ l -> OCR1A ∉ l -> OCR1B ∉ l -> PORTB ∉ l -> motor_kept r r'.
Proof. intros Hl H1 H2 H3 H4. unfold motor_kept. by rewrite !Hl. Qed.

Lemma Is_Enabled_bits r :
  Is_Motor_PWM_Enabled r = Z.testbit (r TCCR1A) 7 && Z.testbit (r TCCR1A) 6.
Proof.
  unfold Is_Motor_PWM_Enabled.
  pose proof (to_bool_bit_is_set (r TCCR1A) 7) as E7. pose proof (to_bool_bit_is_set (r TCCR1A) 6) as E6.
  unfold bit_is_set in *. unfold COM1A1, COM1A0. by rewrite E7, E6 by lia.
Qed.

Lemma Is_Enabled_Enable b r : Is_Motor_PWM_Enabled (Motor_PWM_Enable b r) = b.
Proof.
  rewrite Is_Enabled_bits.
  destruct b; unfold Motor_PWM_Enable, r_or, r_and; rewrite rset_eq, !testbit_uwrap by (simpl; lia).
  - rewrite !Z.lor_spec. by rewrite !orb_true_r.
  - rewrite !Z.land_spec. by rewrite !andb_false_r.
Qed.

Lemma Motor_PWM_Init_spec n r :
  0 <= n < 65536 ->
  let r' := Motor_PWM_Init n r in
  r' ICR1 = n /\ Is_Motor_PWM_Enabled r' = false /\ interrupts_on r' = true /\
  only_changes [TCCR1A; TCCR1B; DDRB; ICR1; SREG] r r'.
Proof.
  intros Hn r'. split_and!.
  - unfold r', Motor_PWM_Init. reg_simpl. apply uwrap_id. exact Hn.
  - rewrite Is_Enabled_bits.
    assert (r' TCCR1A = uwrap 8 (Z.land (uwrap 8 (Z.lor (uwrap 8 (Z.land (r TCCR1A) 254)) 2)) 15))
      as -> by reflexivity.
    rewrite !testbit_uwrap, !Z.land_spec by lia. by rewrite !andb_false_r.
  - apply interrupts_on_sei.
  - solve_only_changes.
Qed.

(** ** Properties *)

(** C29: setting a motor.  With the TOP value 400 and every 16-bit argument but
    -32768, each setter has a defined result: the compare register of that
    motor is [4 * (100 - min(|pwm|,100))] (one less at 47 and 93), so between 0
    and TOP; its direction pin is set exactly for a negative argument; the rest
    of port B, the other motor's compare register and every other register are
    untouched; interrupts are enabled afterwards, whatever they were before.
    At -32768 the negation overflows: the call is undefined. *)
Theorem motor_setters pwm r :
  regs_ok r -> r ICR1 = 400 -> -32768 <= pwm <= 32767 ->
  (pwm = -32768 -> Motor_PWM_Left pwm r = None /\ Motor_PWM_Right pwm r = None) /\
  (pwm <> -32768 ->
     (exists r', Motor_PWM_Left pwm r = Some r' /\ motor_state OCR1B 2 pwm r r' /\
        0 <= r' OCR1B <= 400 /\ r' OCR1A = r OCR1A) /\
     (exists r', Motor_PWM_Right pwm r = Some r' /\ motor_state OCR1A 1 pwm r r' /\
        0 <= r' OCR1A <= 400 /\ r' OCR1B = r OCR1B)).
Proof.
  intros Hr Htop Hp. pose proof (compare_400_range (Z.min (Z.abs pwm) 100)). split.
  - intros ->. by rewrite Motor_PWM_Left_set, Motor_PWM_Right_set, !motor_set_overflow.
  - intros Hne. split.
    + destruct (Motor_PWM_Left_spec pwm r Hr Htop) as (r'&E&Hs); [lia|].
      exists r'. split_and!; [done..| | |]; destruct Hs as (Ho&_&Hc&_); rewrite ?Ho; try lia.
      apply Hc. reg_list.
    + destruct (Motor_PWM_Right_spec pwm r Hr Htop) as (r'&E&Hs); [lia|].
      exists r'. split_and!; [done..| | |]; destruct Hs as (Ho&_&Hc&_); rewrite ?Ho; try lia.
      apply Hc. reg_list.
Qed.

Lemma motor_setters_witness :
  exists r', Motor_PWM_Left (-250) (rset ICR1 400 regs_zero) = Some r' /\ r' OCR1B = 0.
Proof.
  destruct (motor_setters (-250) (rset ICR1 400 regs_zero)) as [_ H];
    [auto with regs|done|lia|].
  destruct H as [(r'&E&(Ho&_)&_) _]; [done|]. exists r'. split; [exact E|exact Ho].
Defined.

(** reading a duty cycle back.  After setting a motor to [pwm] with
    [|pwm| <= 100], the getter of that motor answers [|pwm|] (one less at 40 and
    46, where the division rounds below): the sign is lost, because the
    direction pin is not consulted. *)
Theorem motor_read_back pwm r :
  regs_ok r -> r ICR1 = 400 -> -100 <= pwm <= 100 ->
  (exists r', Motor_PWM_Left pwm r = Some r' /\ Get_Motor_PWM_Left r' = Some (read_back (Z.abs pwm))) /\
  (exists r', Motor_PWM_Right pwm r = Some r' /\ Get_Motor_PWM_Right r' = Some (read_back (Z.abs pwm))).
Proof.
  intros Hr Htop Hp.
  destruct (Motor_PWM_Left_spec pwm r Hr Htop) as (r1&E1&(O1&_&C1&_)); [lia|].
  destruct (Motor_PWM_Right_spec pwm r Hr Htop) as (r2&E2&(O2&_&C2&_)); [lia|].
  assert (Z.min (Z.abs pwm) 100 = Z.abs pwm) as Hm by lia. rewrite Hm in *.
  split; [exists r1|exists r2]; (split; [done|]).
  - unfold Get_Motor_PWM_Left, Get_MAX_Motor_PWM. rewrite O1, C1, Htop by reg_list.
    apply compare_to_duty_400. lia.
  - unfold Get_Motor_PWM_Right, Get_MAX_Motor_PWM. rewrite O2, C2, Htop by reg_list.
    apply compare_to_duty_400. lia.
Qed.

Lemma motor_read_back_witness :
  exists r', Motor_PWM_Right (-75) (rset ICR1 400 regs_zero) = Some r' /\ Get_Motor_PWM_Right r' = Some 75.
Proof.
  destruct (motor_read_back (-75) (rset ICR1 400 regs_zero)) as [_ (r'&E&H)];
    [auto with regs|done|lia|]. exists r'. split; [exact E|exact H].
Defined.

(** enabling and disabling.  [Is_Motor_PWM_Enabled] answers the last
    [Motor_PWM_Enable]; only the timer's control register changes; and
    [Motor_PWM_Init] leaves the outputs disabled, with the requested TOP and
    interrupts on. *)
Theorem motor_enable_disable b n r :
  0 <= n < 65536 ->
  Is_Motor_PWM_Enabled (Motor_PWM_Enable b r) = b /\
  only_changes [TCCR1A] r (Motor_PWM_Enable b r) /\
  Is_Motor_PWM_Enabled (Motor_PWM_Init n r) = false /\
  Get_MAX_Motor_PWM (Motor_PWM_Init n r) = n /\
  interrupts_on (Motor_PWM_Init n r) = true.
Proof.
  intros Hn. destruct (Motor_PWM_Init_spec n r Hn) as (H1&H2&H3&_). split_and!; try done.
  - apply Is_Enabled_Enable.
  - apply Motor_PWM_Enable_only.
Qed.

Lemma motor_enable_disable_witness :
  Is_Motor_PWM_Enabled (Motor_PWM_Init 400 (Motor_PWM_Enable true regs_zero)) = false.
Proof.
  destruct (motor_enable_disable true 400 (Motor_PWM_Enable true regs_zero)) as (_&_&H&_);
    [lia|exact H].
Defined.

(** The conversions lose at most one unit, toward zero. *)
Definition near_toward_zero (d v : Z) : bool :=
  (Z.abs d - 1 <=? Z.abs v) && (Z.abs v <=? Z.abs d) && (0 <=? v * d).

Definition round_trip_ok (conv : f32 -> option Z) (inv : Z -> f32) (d : Z) : bool :=
  match conv (inv d) with Some v => near_toward_zero d v | None => false end.

(** converting a duty cycle to a velocity and back gives the duty cycle or
    the next value toward zero, for both motors and every duty cycle from -100
    to 100; the truncation loses one unit at 25 and 100 on the left. *)
Theorem duty_velocity_round_trip d :
  -100 <= d <= 100 ->
  (exists v, Velocity_to_DutyCycle_Left (DutyCycle_to_Velocity_Left d) = Some v /\
     near_toward_zero d v = true) /\
  (exists v, Velocity_to_DutyCycle_Right (DutyCycle_to_Velocity_Right d) = Some v /\
     near_toward_zero d v = true) /\
  Velocity_to_DutyCycle_Left (DutyCycle_to_Velocity_Left 25) = Some 24 /\
  Velocity_to_DutyCycle_Left (DutyCycle_to_Velocity_Left 100) = Some 99.
Proof.
  intros Hd.
  assert (Hl : forallb (round_trip_ok Velocity_to_DutyCycle_Left DutyCycle_to_Velocity_Left)
                 (range (-100) 201) = true) by (by vm_compute).
  assert (Hr : forallb (round_trip_ok Velocity_to_DutyCycle_Right DutyCycle_to_Velocity_Right)
                 (range (-100) 201) = true) by (by vm_compute).
  apply forallb_range with (z := d) in Hl, Hr; [|lia..].
  unfold round_trip_ok in Hl, Hr. split_and!; [..|by vm_compute|by vm_compute].
  - destruct (Velocity_to_DutyCycle_Left _) as [v|]; [by exists v|done].
  - destruct (Velocity_to_DutyCycle_Right _) as [v|]; [by exists v|done].
Qed.

Lemma duty_velocity_round_trip_witness :
  exists v, Velocity_to_DutyCycle_Right (DutyCycle_to_Velocity_Right 75) = Some v /\
    near_toward_zero 75 v = true.
Proof. destruct (duty_velocity_round_trip 75) as (_&H&_); [lia|exact H]. Defined.
