(* ===== verification/Proximity.v ===== *)
(** * Proximity: Driver/Proximity.c

    The front infrared sensor: for each brightness level the emitter of one
    side is strobed by timer 3, the receiver on [PINF] bit 1 is sampled, and the
    levels that reflect are counted.  The sampled port value comes from the
    environment: [pinf i] is what [PINF] shows at the [i]-th sample of a read.
    The busy waits between the steps change no state; their lengths are
    [DelayMicroseconds] of the two constants. *)
From S2P Require Import Prelude.
From S2P Require Import Avr.
From S2P Require Import Timing.

Inductive eProximitySize := LEFT | RIGHT.

#[export] Instance eProximitySize_eq_dec : EqDecision eProximitySize.
Proof. solve_decision. Defined.

Record t_ProximityReturn := { m_nCount : Z; m_eSide : eProximitySize }.

(** The two static counters. *)
Record proximity := { m_nLEDProxyCountLeft : Z; m_nLEDProxyCountRight : Z }.

Definition stobe_period : Z := 420.
Definition pulseOnTimeUs : Z := 421.
Definition pulseOffTimeUs : Z := 578.
Definition levelsArray : list Z := [4; 15].
Definition numLevels : nat := 2.

Definition COM3A1 : Z := 7.
Definition WGM31 : Z := 1.
Definition WGM32 : Z := 3.
Definition WGM33 : Z := 4.
Definition CS30 : Z := 0.
Definition FOC3A : Z := 7.

Definition proximity_zero : proximity :=
  {| m_nLEDProxyCountLeft := 0; m_nLEDProxyCountRight := 0 |}.

Definition Proxy_Init (p : proximity) : proximity :=
  {| m_nLEDProxyCountLeft := 0; m_nLEDProxyCountRight := 0 |}.

Definition start_strobe (side : eProximitySize) (brightness : Z) (r : regs) : regs :=
  (* Disable Timer 3's interrupts. *)
  let r := rset TIMSK3 0 r in
  (* Set the PWM pin to be an input temporarily. *)
  let r := r_and PORTC (Z.lnot (2 ^ 6)) r in
  let r := r_and DDRC (Z.lnot (2 ^ 6)) r in
  (* COM3A<1:0> = 10 : Clear OC3A on match, set at top. *)
  let r := rset TCCR3A (2 ^ COM3A1) r in
  let r := rset TCCR3B 0 r in
  (* Drive OC3A signal low by simulating a match *)
  let r := rset TCCR3C (2 ^ FOC3A) r in
  (* Make the PWM pin be an output. *)
  let r := r_or DDRC (2 ^ 6) r in
  let r :=
    match side with
    | LEFT => r_and PORTF (Z.lnot (2 ^ 6)) r
    | RIGHT => r_or PORTF (2 ^ 6) r
    end in
  (* Set PORTF6 as an output *)
  let r := r_or DDRF (2 ^ 6) r in
  (* Set frequency for compare 3 *)
  let r := rset ICR3 stobe_period r in
  (* Set the count so that compare is triggered quickly *)
  let r := rset TCNT3 (stobe_period - 1) r in
  (* Set compare value (duty cycle). *)
  let r := rset OCR3A brightness r in
  (* Start the timer *)
  let r := rset TCCR3A (Z.lor (2 ^ COM3A1) (2 ^ WGM31)) r in
  rset TCCR3B (Z.lor (Z.lor (2 ^ WGM33) (2 ^ WGM32)) (2 ^ CS30)) r.

Definition stop_strobe (r : regs) : regs :=
  (* Drive PWM pin low. This avoids letting the pin float *)
  let r := r_and PORTC (Z.lnot (2 ^ 6)) r in
  let r := r_or DDRC (2 ^ 6) r in
  (* Disconnect PWM and drive output low *)
  let r := rset TCCR3A (2 ^ WGM31) r in
  (* Turn off timer. *)
  let r := rset TCCR3B 0 r in
  (* Restore the timer's default settings *)
  let r := rset TIMSK3 0 r in
  let r := rset TCCR3A 0 r in
  let r := rset OCR3A 0 r in
  let r := rset ICR3 0 r in
  let r := rset TCNT3 0 r in
  (* Set IR LED direction pin back *)
  let r := r_and DDRF (Z.lnot (2 ^ 6)) r in
  r_and PORTF (Z.lnot (2 ^ 6)) r.

(** [PINF |= 0x01]: writing a one to a pin register toggles the port bit (the
    compiler sets the single bit, so only bit 0 is toggled). *)
Definition toggle_PORTF0 (r : regs) : regs := rset PORTF (Z.lxor (r PORTF) 0x01) r.

(** One turn of the loop over the brightness levels: strobe, sample, count. *)
Definition IRRead_level (side : eProximitySize) (sample : Z) (brightness : Z)
    (st : proximity * regs) : proximity * regs :=
  let '(p, r) := st in
  (* Start the IR strobe and wait *)
  let r := start_strobe side brightness r in
  (* The environment drives the input pins while the program waits. *)
  let r := rset PINF sample r in
  (* Record result. If the pin is low, then we have a hit at this brightness *)
  let p :=
    if negb (to_bool (bit_is_set (r PINF) 1)) then
      match side with
      | LEFT => {| m_nLEDProxyCountLeft := u16 (m_nLEDProxyCountLeft p + 1);
                   m_nLEDProxyCountRight := m_nLEDProxyCountRight p |}
      | RIGHT => {| m_nLEDProxyCountLeft := m_nLEDProxyCountLeft p;
                    m_nLEDProxyCountRight := u16 (m_nLEDProxyCountRight p + 1) |}
      end
    else p in
  (* Shut-off strobe *)
  (p, stop_strobe r).

Definition IRRead (side : eProximitySize) (pinf : nat -> Z) (p : proximity) (r : regs) :
    proximity * regs :=
  (* Set read pin *)
  let oldSREG := r SREG in
  let r := cli r in
  (* Set input with pullup *)
  let r := r_and DDRF (Z.lnot 0x01) r in
  let r := toggle_PORTF0 r in
  let r := r_or PORTF 0x01 r in
  (* Ensure line sensor lights are off *)
  let r := r_and PORTB (Z.lnot 0x80) r in
  let r := r_and DDRB (Z.lnot 0x80) r in
  let r := rset SREG oldSREG r in
  (* Reset the IR readings *)
  let p :=
    match side with
    | LEFT => {| m_nLEDProxyCountLeft := 0; m_nLEDProxyCountRight := m_nLEDProxyCountRight p |}
    | RIGHT => {| m_nLEDProxyCountLeft := m_nLEDProxyCountLeft p; m_nLEDProxyCountRight := 0 |}
    end in
  foldl (fun st i => IRRead_level side (pinf i) (nth i levelsArray 0) st) (p, r) (seq 0 numLevels).

Definition IR_Counts (p : proximity) : t_ProximityReturn :=
  if m_nLEDProxyCountRight p <=? m_nLEDProxyCountLeft p
  then {| m_nCount := m_nLEDProxyCountLeft p; m_eSide := LEFT |}
  else {| m_nCount := m_nLEDProxyCountRight p; m_eSide := RIGHT |}.

(** ** Specification *)

Definition count_of (side : eProximitySize) (p : proximity) : Z :=
  match side with LEFT => m_nLEDProxyCountLeft p | RIGHT => m_nLEDProxyCountRight p end.
Definition other (side : eProximitySize) : eProximitySize :=
  match side with LEFT => RIGHT | RIGHT => LEFT end.

(** The receiver pulls the pin low when it sees the strobe. *)
Definition hit (sample : Z) : bool := negb (Z.testbit sample 1).

Definition proximity_ok (p : proximity) : Prop :=
  0 <= m_nLEDProxyCountLeft p <= 2 /\ 0 <= m_nLEDProxyCountRight p <= 2.

(** The emitter is off: timer 3 stopped and disconnected, the direction pin an
    input, the PWM pin driven low. *)
Definition emitter_off (r : regs) : Prop :=
  r TCCR3A = 0 /\ r TCCR3B = 0 /\ r TIMSK3 = 0 /\ r OCR3A = 0 /\
  Z.testbit (r DDRF) 6 = false /\ Z.testbit (r PORTF) 6 = false /\
  Z.testbit (r PORTC) 6 = false /\ Z.testbit (r DDRC) 6 = true.

(** The registers a read may change. *)
Definition ir_regs : list reg :=
  [TIMSK3; PORTC; DDRC; TCCR3A; TCCR3B; TCCR3C; PORTF; DDRF; ICR3; TCNT3; OCR3A;
   PORTB; DDRB; PINF].

Lemma start_strobe_ok side b r : regs_ok r -> regs_ok (start_strobe side b r).
Proof. intros. destruct side; unfold start_strobe; cbn zeta iota; auto 30 with regs. Qed.
Lemma stop_strobe_ok r : regs_ok r -> regs_ok (stop_strobe r).
Proof. intros. unfold stop_strobe. auto 30 with regs. Qed.
#[export] Hint Resolve start_strobe_ok stop_strobe_ok : regs.

Lemma start_strobe_only side b r : only_changes ir_regs r (start_strobe side b r).
Proof. destruct side; unfold ir_regs; solve_only_changes. Qed.
Lemma stop_strobe_only r : only_changes ir_regs r (stop_strobe r).
Proof. unfold ir_regs. solve_only_changes. Qed.

(** Port B keeps every bit but 7, which the read clears. *)
Lemma start_strobe_PORTB side b r : start_strobe side b r PORTB = r PORTB.
Proof. by destruct side. Qed.
Lemma stop_strobe_PORTB r : stop_strobe r PORTB = r PORTB.
Proof. reflexivity. Qed.

Lemma clear_bit_uwrap x n m :
  0 <= n < 8 -> 0 <= m < 8 ->
  Z.testbit (uwrap 8 (Z.land x (Z.lnot (2 ^ n)))) m = Z.testbit x m && negb (m =? n).
Proof.
  intros Hn Hm. rewrite testbit_uwrap, Z.land_spec, Z.lnot_spec, Z.pow2_bits_eqb by lia.
  by rewrite Z.eqb_sym.
Qed.

Lemma set_bit_uwrap x n m :
  0 <= n < 8 -> 0 <= m < 8 ->
  Z.testbit (uwrap 8 (Z.lor x (2 ^ n))) m = Z.testbit x m || (m =? n).
Proof.
  intros Hn Hm. rewrite testbit_uwrap, Z.lor_spec, Z.pow2_bits_eqb by lia.
  by rewrite Z.eqb_sym.
Qed.

Lemma stop_strobe_off r : emitter_off (stop_strobe r).
Proof.
  unfold emitter_off. split_and!; try reflexivity; unfold stop_strobe; reg_simpl.
  - rewrite clear_bit_uwrap by lia. by rewrite andb_false_r.
  - rewrite clear_bit_uwrap by lia. by rewrite andb_false_r.
  - rewrite clear_bit_uwrap by lia. by rewrite andb_false_r.
  - rewrite set_bit_uwrap by lia. by rewrite orb_true_r.
Qed.

(** While the strobe runs the pulse is shorter than its period and the
    direction pin drives the emitter of the side asked for. *)
Lemma start_strobe_runs side b r :
  0 <= b < 65536 ->
  let r' := start_strobe side b r in
  r' OCR3A = b /\ r' ICR3 = stobe_period /\
  Z.testbit (r' TCCR3B) 0 = true /\ Z.testbit (r' TCCR3A) COM3A1 = true /\
  Z.testbit (r' DDRC) 6 = true /\ Z.testbit (r' DDRF) 6 = true /\
  Z.testbit (r' PORTF) 6 = bool_decide (side = RIGHT).
Proof.
  intros Hb r'. split_and!; try (by destruct side).
  - destruct side; apply uwrap_id; exact Hb.
  - assert (r' DDRC = uwrap 8 (Z.lor (uwrap 8 (Z.land (r DDRC) (Z.lnot (2 ^ 6)))) (2 ^ 6))) as ->
      by (by destruct side).
    rewrite set_bit_uwrap by lia. by rewrite orb_true_r.
  - assert (r' DDRF = uwrap 8 (Z.lor (r DDRF) (2 ^ 6))) as -> by (by destruct side).
    rewrite set_bit_uwrap by lia. by rewrite orb_true_r.
  - destruct side.
    + assert (r' PORTF = uwrap 8 (Z.land (r PORTF) (Z.lnot (2 ^ 6)))) as -> by done.
      rewrite clear_bit_uwrap by lia. by rewrite andb_false_r.
    + assert (r' PORTF = uwrap 8 (Z.lor (r PORTF) (2 ^ 6))) as -> by done.
      rewrite set_bit_uwrap by lia. by rewrite orb_true_r.
Qed.

Lemma IRRead_level_spec side sample b p r :
  0 <= count_of side p < 65535 ->
  let '(p', r') := IRRead_level side sample b (p, r) in
  count_of side p' = count_of side p + Z.b2z (hit sample) /\
  count_of (other side) p' = count_of (other side) p /\
  emitter_off r' /\ only_changes ir_regs r r' /\ r' PORTB = r PORTB /\
  (regs_ok r -> regs_ok r').
Proof.
  intros Hc. unfold IRRead_level.
  rewrite rset_eq. cbn [width]. rewrite to_bool_bit_is_set, testbit_uwrap by lia.
  fold (hit sample).
  set (r1 := rset PINF sample (start_strobe side b r)).
  assert (Hr1 : only_changes ir_regs r (stop_strobe r1)).
  { etransitivity; [apply (start_strobe_only side b)|]. etransitivity; [|apply stop_strobe_only].
    apply only_changes_rset. unfold ir_regs. rewrite !elem_of_cons. auto 20. }
  split_and!.
  - destruct (hit sample), side; cbn in *; rewrite ?u16_id; lia.
  - by destruct (hit sample), side.
  - apply stop_strobe_off.
  - exact Hr1.
  - rewrite stop_strobe_PORTB. unfold r1. rewrite rset_ne by done. apply start_strobe_PORTB.
  - intros. unfold r1. auto with regs.
Qed.

(** The registers before the first strobe. *)
Definition IRRead_pins (r : regs) : regs :=
  rset SREG (r SREG) (r_and DDRB (Z.lnot 0x80) (r_and PORTB (Z.lnot 0x80)
    (r_or PORTF 0x01 (toggle_PORTF0 (r_and DDRF (Z.lnot 0x01) (cli r)))))).

Definition IRRead_reset (side : eProximitySize) (p : proximity) : proximity :=
  match side with
  | LEFT => {| m_nLEDProxyCountLeft := 0; m_nLEDProxyCountRight := m_nLEDProxyCountRight p |}
  | RIGHT => {| m_nLEDProxyCountLeft := m_nLEDProxyCountLeft p; m_nLEDProxyCountRight := 0 |}
  end.

Lemma IRRead_two_levels side pinf p r :
  IRRead side pinf p r =
    IRRead_level side (pinf 1%nat) 15
      (IRRead_level side (pinf 0%nat) 4 (IRRead_reset side p, IRRead_pins r)).
Proof. reflexivity. Qed.

Lemma IRRead_pins_spec r :
  regs_ok r ->
  only_changes ir_regs r (IRRead_pins r) /\ regs_ok (IRRead_pins r) /\
  forall n, 0 <= n < 8 -> Z.testbit (IRRead_pins r PORTB) n = Z.testbit (r PORTB) n && negb (n =? 7).
Proof.
  intros Hr. split_and!.
  - intros x Hx. destruct x; try reflexivity; try (exfalso; apply Hx; unfold ir_regs;
      rewrite !elem_of_cons; by auto 20).
    apply uwrap_id, (Hr SREG).
  - unfold IRRead_pins, toggle_PORTF0. auto 20 with regs.
  - intros n Hn. apply (clear_bit_uwrap (r PORTB) 7 n); lia.
Qed.

Lemma IRRead_spec side pinf p r :
  regs_ok r ->
  let '(p', r') := IRRead side pinf p r in
  count_of side p' = Z.b2z (hit (pinf 0%nat)) + Z.b2z (hit (pinf 1%nat)) /\
  count_of (other side) p' = count_of (other side) p /\
  emitter_off r' /\ only_changes ir_regs r r' /\ regs_ok r' /\
  (forall n, 0 <= n < 8 -> Z.testbit (r' PORTB) n = Z.testbit (r PORTB) n && negb (n =? 7)).
Proof.
  intros Hr. rewrite IRRead_two_levels.
  destruct (IRRead_pins_spec r Hr) as (P1&P2&P3).
  assert (H0 : count_of side (IRRead_reset side p) = 0 /\
               count_of (other side) (IRRead_reset side p) = count_of (other side) p)
    by (by destruct side).
  destruct H0 as [H0 H0'].
  pose proof (IRRead_level_spec side (pinf 0%nat) 4 (IRRead_reset side p) (IRRead_pins r)) as L1.
  rewrite H0 in L1. destruct (IRRead_level _ _ 4 _) as [p1 r1].
  destruct L1 as (A1&A2&_&A4&A5&A6); [lia|].
  pose proof (IRRead_level_spec side (pinf 1%nat) 15 p1 r1) as L2.
  destruct (IRRead_level _ _ 15 _) as [p2 r2].
  destruct L2 as (B1&B2&B3&B4&B5&B6); [destruct (hit (pinf 0%nat)); simpl in *; lia|].
  split_and!.
  - rewrite B1, A1. lia.
  - by rewrite B2, A2, H0'.
  - done.
  - by etransitivity; [|etransitivity; [exact A4|exact B4]].
  - auto.
  - intros n Hn. rewrite B5, A5. by apply P3.
Qed.

Lemma IRRead_ok side pinf p r :
  regs_ok r -> proximity_ok p ->
  proximity_ok (IRRead side pinf p r).1 /\ regs_ok (IRRead side pinf p r).2.
Proof.
  intros Hr Hp. pose proof (IRRead_spec side pinf p r Hr) as H.
  destruct (IRRead side pinf p r) as [p' r']. destruct H as (H1&H2&_&_&H5&_). split; [|done].
  destruct (hit (pinf 0%nat)), (hit (pinf 1%nat)), side, Hp; unfold proximity_ok; simpl in *; lia.
Qed.

(** ** Properties *)

(** an infrared read.  Whatever the port shows at the two samples, the
    counter of the side that was read becomes the number of brightness levels
    that reflected (the previous reading is discarded), the other side keeps
    its counter, and both stay between 0 and 2.  Afterwards the emitter is off,
    [SREG] and every register outside the list are as before, and of port B,
    which carries the motor directions, only the line sensor bit changed.  For
    both brightness levels the strobe that is sampled has a pulse shorter than
    its period and drives the emitter of the right side. *)
Theorem IRRead_counts_hits side pinf p r :
  regs_ok r -> proximity_ok p ->
  let '(p', r') := IRRead side pinf p r in
  count_of side p' = Z.b2z (hit (pinf 0%nat)) + Z.b2z (hit (pinf 1%nat)) /\
  count_of (other side) p' = count_of (other side) p /\ proximity_ok p' /\
  emitter_off r' /\ only_changes ir_regs r r' /\ r' SREG = r SREG /\
  (forall n, 0 <= n < 7 -> Z.testbit (r' PORTB) n = Z.testbit (r PORTB) n) /\
  (forall b rb, b ∈ levelsArray ->
     start_strobe side b rb OCR3A = b /\ b < start_strobe side b rb ICR3 /\
     Z.testbit (start_strobe side b rb PORTF) 6 = bool_decide (side = RIGHT)).
Proof.
  intros Hr Hp. pose proof (IRRead_spec side pinf p r Hr) as H.
  pose proof (IRRead_ok side pinf p r Hr Hp) as [Hok _].
  destruct (IRRead side pinf p r) as [p' r']. destruct H as (H1&H2&H3&H4&_&H6).
  split_and!; try done.
  - apply H4. unfold ir_regs. reg_list.
  - intros n Hn. rewrite H6 by lia. rewrite (proj2 (Z.eqb_neq n 7)) by lia. by rewrite andb_true_r.
  - intros b rb Hb. assert (b = 4 \/ b = 15) as Hb'.
    { unfold levelsArray in Hb. rewrite !elem_of_cons in Hb. rewrite elem_of_nil in Hb. tauto. }
    destruct (start_strobe_runs side b rb) as (E1&E2&_&_&_&_&E3); [lia|].
    rewrite E1, E2, E3. unfold stobe_period. split_and!; [done|lia|done].
Qed.

(** An object close enough to reflect the brighter level only. *)
Lemma IRRead_counts_hits_witness :
  let pinf := fun i => match i with O => 2 | _ => 0 end in
  m_nLEDProxyCountRight (IRRead RIGHT pinf {| m_nLEDProxyCountLeft := 2; m_nLEDProxyCountRight := 2 |}
    regs_zero).1 = 1.
Proof.
  intros pinf.
  pose proof (IRRead_counts_hits RIGHT pinf {| m_nLEDProxyCountLeft := 2; m_nLEDProxyCountRight := 2 |}
    regs_zero) as H.
  destruct (IRRead RIGHT pinf _ regs_zero) as [p' r'].
  destruct H as [H _]; [auto with regs|done|exact H].
Defined.

(** [IR_Counts] reports the larger of the two counters and the side it
    belongs to, the left one when they are equal. *)
Theorem IR_Counts_max p :
  m_nCount (IR_Counts p) = Z.max (m_nLEDProxyCountLeft p) (m_nLEDProxyCountRight p) /\
  m_nCount (IR_Counts p) = count_of (m_eSide (IR_Counts p)) p /\
  (m_eSide (IR_Counts p) = RIGHT <-> m_nLEDProxyCountLeft p < m_nLEDProxyCountRight p).
Proof.
  unfold IR_Counts. destruct (Z.leb_spec (m_nLEDProxyCountRight p) (m_nLEDProxyCountLeft p)); simpl.
  - split_and!; [lia|done|]. split; [done|lia].
  - split_and!; [lia|done|]. done.
Qed.
