(* ===== verification/Battery.v ===== *)
(** * Battery: Driver/Battery_Monitor.c

    The battery voltage: one conversion of the analog input, a busy wait for the
    converter, and a second-order low-pass filter over the samples.  A
    [conversion] is what the hardware does with one request: for [latency] polls
    the start bit still reads one, then it is cleared and the result register
    holds [sample]. *)
From S2P Require Import Prelude.
From S2P Require Import Float32.
From S2P Require Import RingBuffer.
From S2P Require Import Filter.
From S2P Require Import Avr.

Record conversion := { latency : nat; sample : Z }.

(** The static variables. *)
Record battery := { battery_filter : Filter_Data_t; order : Z }.

Definition battery_zero : battery := {| battery_filter := filter_zero; order := 0 |}.

Definition BITS_TO_BATTERY_VOLTS : f32 := f32_lit 4887585533 1000000000000.
Definition a_coeff : list f32 := [f32_of_Z 1; f32_lit (-19112) 10000; f32_lit 9150 10000].
Definition b_coeff : list f32 :=
  [f32_lit 94469 100000000; f32_lit 188938 100000000; f32_lit 94469 100000000].

(** The converter finishes: the start bit clears and the result appears. *)
Definition adc_done (c : conversion) (r : regs) : regs :=
  rset ADC (sample c) (r_and ADCSRA (Z.lnot 0x40) r).

(** [while(ADCSRA & 0x40) nop;], with fuel; before the [n]-th poll from the end
    the hardware may finish.  [None] when the fuel runs out. *)
Fixpoint adc_wait (fuel n : nat) (c : conversion) (r : regs) : option regs :=
  let r := match n with O => adc_done c r | S _ => r end in
  if to_bool (Z.land (r ADCSRA) 0x40) then
    match fuel with O => None | S fuel => adc_wait fuel (Nat.pred n) c r end
  else Some r.

Definition Battery_Voltage_Oneshot (fuel : nat) (c : conversion) (r : regs) : option (f32 * regs) :=
  (* Set channel to ADC6 *)
  let r := rset ADMUX (Z.lor (Z.land (r ADMUX) 0xE0) 0x06) r in
  (* Trigger ADC conversion *)
  let r := r_or ADCSRA 0x40 r in
  (* Wait for conversion to finish *)
  r ← adc_wait fuel (latency c) c r;
  Some ((f32_of_Z (r ADC) * BITS_TO_BATTERY_VOLTS)%f32, r).

Definition Battery_Monitor_Init (fuel : nat) (c : conversion) (b : battery) (r : regs) :
    option (battery * regs) :=
  (* Set reference voltage to internal 2.56V and set channel to ADC6 *)
  let r := rset ADMUX 0xC6 r in
  (* Enable ADC and set prescalor to 128 *)
  let r := r_or ADCSRA 0x87 r in
  (* Initialize the filter *)
  let order := Z.of_nat (length a_coeff) - 1 in
  f ← Filter_Init (battery_filter b) b_coeff a_coeff order;
  '(v, r) ← Battery_Voltage_Oneshot fuel c r;
  f ← Filter_SetTo f v;
  Some ({| battery_filter := f; order := order |}, r).

Definition Battery_Voltage_Task (fuel : nat) (c : conversion) (b : battery) (r : regs) :
    option (f32 * battery * regs) :=
  '(v, r) ← Battery_Voltage_Oneshot fuel c r;
  let '(y, f) := Filter_Value (battery_filter b) v in
  Some (y, {| battery_filter := f; order := order b |}, r).

Definition Battery_Voltage (b : battery) : f32 := Filter_Last_Output (battery_filter b).

(** ** Specification *)

(** The converter has ten bits. *)
Definition conversion_ok (c : conversion) : Prop := 0 <= sample c < 1024.

(** The voltage of a sample. *)
Definition volts (c : conversion) : f32 := (f32_of_Z (sample c) * BITS_TO_BATTERY_VOLTS)%f32.

Definition battery_ok (b : battery) : Prop :=
  filter_ok 3 (battery_filter b) /\
  contents_F (numerator (battery_filter b)) = b_coeff /\
  contents_F (denominator (battery_filter b)) = a_coeff.

(** The static filter before initialisation, and any later one. *)
Definition battery_wf (b : battery) : Prop :=
  wf_F (numerator (battery_filter b)) /\ wf_F (denominator (battery_filter b)) /\
  wf_F (in_list (battery_filter b)) /\ wf_F (out_list (battery_filter b)).

Lemma battery_zero_wf : battery_wf battery_zero.
Proof. repeat split; apply wf_ring_zero_F. Qed.

(** ** Lemmas *)

Lemma adc_start_bit r : to_bool (Z.land (r_or ADCSRA 0x40 r ADCSRA) 0x40) = true.
Proof.
  rewrite (to_bool_mask _ _ 6) by lia. unfold r_or. rewrite rset_eq, testbit_uwrap, Z.lor_spec by (simpl; lia).
  by rewrite orb_true_r.
Qed.

Lemma adc_done_bit c r : to_bool (Z.land (adc_done c r ADCSRA) 0x40) = false.
Proof.
  rewrite (to_bool_mask _ _ 6) by lia. unfold adc_done, r_and. rewrite rset_ne by done.
  rewrite rset_eq, testbit_uwrap, Z.land_spec by (simpl; lia). by rewrite andb_false_r.
Qed.

Lemma adc_wait_spec fuel n c r :
  (n <= fuel)%nat -> to_bool (Z.land (r ADCSRA) 0x40) = true ->
  adc_wait fuel n c r = Some (adc_done c r).
Proof.
  revert fuel. induction n as [|n IH]; intros fuel Hf Hbit.
  - destruct fuel; cbn [adc_wait]; by rewrite adc_done_bit.
  - destruct fuel as [|fuel]; [lia|]. cbn [adc_wait Nat.pred]. rewrite Hbit. apply IH; [lia|done].
Qed.

(** The registers after one conversion. *)
Definition adc_regs (c : conversion) (r : regs) : regs :=
  adc_done c (r_or ADCSRA 0x40 (rset ADMUX (Z.lor (Z.land (r ADMUX) 0xE0) 0x06) r)).

Lemma adc_regs_ok c r : regs_ok r -> regs_ok (adc_regs c r).
Proof. intros. unfold adc_regs, adc_done. auto with regs. Qed.
Lemma adc_regs_only c r : only_changes [ADMUX; ADCSRA; ADC] r (adc_regs c r).
Proof. solve_only_changes. Qed.
#[export] Hint Resolve adc_regs_ok : regs.

Lemma Battery_Voltage_Oneshot_spec fuel c r :
  conversion_ok c -> (latency c <= fuel)%nat ->
  Battery_Voltage_Oneshot fuel c r = Some (volts c, adc_regs c r).
Proof.
  intros Hc Hf. unfold Battery_Voltage_Oneshot. cbn zeta.
  rewrite adc_wait_spec; [|done|apply adc_start_bit]. cbn [mbind option_bind].
  unfold volts, adc_regs, adc_done. rewrite rset_eq, uwrap_id; [done|].
  unfold is_u, conversion_ok in *. simpl. lia.
Qed.

Lemma Battery_Voltage_Task_spec fuel c b r :
  battery_ok b -> conversion_ok c -> (latency c <= fuel)%nat ->
  exists y b', Battery_Voltage_Task fuel c b r = Some (y, b', adc_regs c r) /\
    battery_ok b' /\ Battery_Voltage b' = y /\
    let ins := contents_F (in_list (battery_filter b)) in
    let outs := contents_F (out_list (battery_filter b)) in
    y = filter_step b_coeff a_coeff (volts c :: take 2 ins) (take 2 outs) /\
    contents_F (in_list (battery_filter b')) = volts c :: take 2 ins /\
    contents_F (out_list (battery_filter b')) = y :: take 2 outs.
Proof.
  intros (Hok&Hn&Hd) Hc Hf. unfold Battery_Voltage_Task.
  rewrite Battery_Voltage_Oneshot_spec by done. cbn [mbind option_bind].
  destruct (Filter_Value_spec 3 (battery_filter b) (volts c) Hok) as (Hy&Hok'&Hi&Ho&En&Ed).
  destruct (Filter_Value (battery_filter b) (volts c)) as [y f]. cbn [fst snd] in *.
  eexists _, _. split; [done|]. cbn [battery_filter].
  split_and!.
  - split_and!; cbn [battery_filter]; [done|by rewrite En|by rewrite Ed].
  - rewrite Hy. by eapply rb_get_F_head.
  - by rewrite Hy, Hn, Hd.
  - done.
  - by rewrite Ho, Hy.
Qed.

Lemma Battery_Monitor_Init_spec fuel c b r :
  battery_wf b -> conversion_ok c -> (latency c <= fuel)%nat ->
  exists b' r', Battery_Monitor_Init fuel c b r = Some (b', r') /\
    battery_ok b' /\ Battery_Voltage b' = volts c /\
    contents_F (in_list (battery_filter b')) = replicate 3 (volts c) /\
    contents_F (out_list (battery_filter b')) = replicate 3 (volts c) /\
    only_changes [ADMUX; ADCSRA; ADC] r r' /\ (regs_ok r -> regs_ok r').
Proof.
  intros (W1&W2&W3&W4) Hc Hf. unfold Battery_Monitor_Init. cbn zeta.
  destruct (Filter_Init_spec (battery_filter b) b_coeff a_coeff 2) as (f&E&Hok&Hn&Hd&_);
    [done..|lia|by vm_compute|by vm_compute|].
  change (Z.of_nat (length a_coeff) - 1) with 2. rewrite E. cbn [mbind option_bind].
  rewrite Battery_Voltage_Oneshot_spec by done. cbn [mbind option_bind].
  destruct (Filter_SetTo_spec _ f (volts c) Hok) as (f'&E'&Hok'&En&Ed&Hi&Ho).
  rewrite E'. cbn [mbind option_bind]. eexists _, _. split; [done|]. cbn [battery_filter].
  pose proof Hok as (_&_&_&_&_&_&_&Li&Lo).
  assert (Hin : contents_F (in_list f') = replicate 3 (volts c)).
  { rewrite Hi. apply (f_equal Z.of_nat) in Li. destruct (contents_F (in_list f)) as [|x1 [|x2 [|x3 [|]]]]; try done; simpl in Li; lia. }
  assert (Hout : contents_F (out_list f') = replicate 3 (volts c)).
  { rewrite Ho. apply (f_equal Z.of_nat) in Lo. destruct (contents_F (out_list f)) as [|x1 [|x2 [|x3 [|]]]]; try done; simpl in Lo; lia. }
  split_and!; try done.
  - split_and!; cbn [battery_filter]; [exact Hok'|by rewrite En|by rewrite Ed].
  - by eapply rb_get_F_head.
  - etransitivity; [|apply adc_regs_only]. unfold r_or.
    intros x Hx. rewrite !not_elem_of_cons in Hx. destruct Hx as (?&?&_).
    by rewrite !rset_ne by congruence.
  - intros. auto with regs.
Qed.

(** ** Properties *)

(** one battery sample.  Whatever the latency of the converter, the wait
    ends and the value is the converted result times the scale factor; only the
    three converter registers change.  The motor commands' threshold of 4.75 V
    is reached exactly from sample 972 on (of 1023). *)
Theorem battery_sample fuel c r :
  conversion_ok c -> (latency c <= fuel)%nat ->
  Battery_Voltage_Oneshot fuel c r = Some (volts c, adc_regs c r) /\
  only_changes [ADMUX; ADCSRA; ADC] r (adc_regs c r) /\
  (f32_le (f32_lit 475 100) (volts c) = true <-> 972 <= sample c).
Proof.
  intros Hc Hf. split_and!; [by apply Battery_Voltage_Oneshot_spec|apply adc_regs_only|].
  assert (Hall : forallb (fun n => Bool.eqb
    (f32_le (f32_lit 475 100) (f32_of_Z (Z.of_nat n) * BITS_TO_BATTERY_VOLTS)%f32)
    (972 <=? Z.of_nat n)) (seq 0 1024) = true) by (by vm_compute).
  rewrite forallb_forall in Hall. specialize (Hall (Z.to_nat (sample c))).
  unfold conversion_ok in Hc. rewrite Z2Nat.id in Hall by lia.
  rewrite Bool.eqb_true_iff in Hall. unfold volts. rewrite Hall; [apply Z.leb_le|].
  apply in_seq. lia.
Qed.

Lemma battery_sample_witness :
  Battery_Voltage_Oneshot 5 {| latency := 3; sample := 1000 |} regs_zero =
    Some (volts {| latency := 3; sample := 1000 |},
          adc_regs {| latency := 3; sample := 1000 |} regs_zero).
Proof.
  destruct (battery_sample 5 {| latency := 3; sample := 1000 |} regs_zero) as [H _];
    [unfold conversion_ok; simpl; lia|simpl; lia|exact H].
Defined.

(** the monitored voltage.  [Battery_Monitor_Init] succeeds from any
    well-formed state and primes both histories with the first sample, so
    [Battery_Voltage] answers that sample; afterwards every
    [Battery_Voltage_Task] returns one step of the second-order difference
    equation on the last three samples and last two outputs, and that is what
    [Battery_Voltage] answers until the next task: it starts no conversion. *)
Theorem battery_filter_tracks fuel c0 b r c :
  battery_wf b -> conversion_ok c0 -> (latency c0 <= fuel)%nat ->
  conversion_ok c -> (latency c <= fuel)%nat ->
  exists b0 r0, Battery_Monitor_Init fuel c0 b r = Some (b0, r0) /\
    battery_ok b0 /\ Battery_Voltage b0 = volts c0 /\
    exists y b1, Battery_Voltage_Task fuel c b0 r0 = Some (y, b1, adc_regs c r0) /\
      battery_ok b1 /\ Battery_Voltage b1 = y /\
      y = filter_step b_coeff a_coeff [volts c; volts c0; volts c0] [volts c0; volts c0].
Proof.
  intros Hb Hc0 Hl0 Hc Hl.
  destruct (Battery_Monitor_Init_spec fuel c0 b r Hb Hc0 Hl0) as (b0&r0&E&Hok&Hv&Hi&Ho&_).
  destruct (Battery_Voltage_Task_spec fuel c b0 r0 Hok Hc Hl) as (y&b1&E1&Hok1&Hv1&Hy&_).
  exists b0, r0. split_and!; try done. exists y, b1. split_and!; try done.
  by rewrite Hy, Hi, Ho.
Qed.

Lemma battery_filter_tracks_witness :
  let c := {| latency := 2; sample := 1000 |} in
  exists b0 r0, Battery_Monitor_Init 4 c battery_zero regs_zero = Some (b0, r0) /\
    Battery_Voltage b0 = volts c.
Proof.
  intros c.
  destruct (battery_filter_tracks 4 c battery_zero regs_zero c) as (b0&r0&E&_&Hv&_);
    [apply battery_zero_wf|unfold conversion_ok; simpl; lia|simpl; lia
    |unfold conversion_ok; simpl; lia|simpl; lia|].
  exists b0, r0. split; [exact E|exact Hv].
Defined.
