(* ===== verification/UsbEndpoint.v ===== *)
(** * UsbEndpoint: lufa/LUFA/Drivers/USB/Core/AVR8/Endpoint_AVR8.h and .c

    The endpoint functions of the USB library, over the endpoint hardware: the
    selected endpoint number, and per endpoint its two configuration registers,
    the event flag ([RXOUTI] of an OUT endpoint, [TXINI] of an IN endpoint), the
    bytes in its single bank and, for IN endpoints, the packets handed to the
    controller so far.  Endpoint 0 is the control endpoint: its bank serves both
    directions and it has the flags [TXINI0], [RXOUTI0] and [RXSTPI].  The host's
    side is two events: [host_send] puts a packet into a free OUT bank,
    [host_take] collects the packet of an IN bank. *)
From S2P Require Import Prelude.

Record endpoint := {
  UECFG0X : Z;
  UECFG1X : Z;
  event : bool;
  bank : list Z;
  sent : list (list Z);
}.

Inductive device_state := Unattached | Powered | Default_ | Addressed | Configured | Suspended.

#[export] Instance device_state_eq_dec : EqDecision device_state.
Proof. solve_decision. Defined.

(** The registers of the controller that are not per endpoint. *)
Inductive usb_reg :=
  | USBCON | UDCON | UDIEN | UDINT | USBINT | UDADDR | UHWCON | PLLCSR | PLLFRQ | USBSTA | UDFNUM | UEINT.

#[export] Instance usb_reg_eq_dec : EqDecision usb_reg.
Proof. solve_decision. Defined.

Record USB_Request_Header_t := { bmRequestType : Z; bRequest : Z; wValue : Z; wIndex : Z; wLength : Z }.

(** The rest of the device: the controller's registers, per endpoint [UECONX] and
    [UEIENX], the two flags of the control endpoint, and the library's variables. *)
Record usb_dev := {
  ureg : usb_reg -> Z;
  UECONX : Z -> Z;
  UEIENX : Z -> Z;
  TXINI0 : bool;
  RXOUTI0 : bool;
  USB_ControlRequest : USB_Request_Header_t;
  USB_Device_ConfigurationNumber : Z;
  USB_Device_CurrentlySelfPowered : bool;
  USB_Device_RemoteWakeupEnabled : bool;
  USB_IsInitialized : bool;
}.

Record usb_hw := {
  UENUM : Z;
  ep : Z -> endpoint;
  RXSTPI : bool;
  USB_DeviceState : device_state;
  dev : usb_dev;
}.

Definition ENDPOINT_EPNUM_MASK : Z := 0x0F.
Definition ENDPOINT_DIR_OUT : Z := 0x00.
Definition ENDPOINT_DIR_IN : Z := 0x80.
Definition EP_TYPE_BULK : Z := 0x02.
Definition EP_TYPE_INTERRUPT : Z := 0x03.
Definition ENDPOINT_CONTROLEP : Z := 0.
Definition ENDPOINT_TOTAL_ENDPOINTS : Z := 7.
Definition EPDIR : Z := 0.
Definition EPTYPE0 : Z := 6.
Definition ALLOC : Z := 1.
Definition EPBK0 : Z := 2.
Definition EPSIZE0 : Z := 4.

Definition ep_is_in (e : endpoint) : bool := to_bool (Z.land (UECFG0X e) (2 ^ EPDIR)).

Definition with_uenum (n : Z) (u : usb_hw) : usb_hw :=
  {| UENUM := n; ep := ep u; RXSTPI := RXSTPI u; USB_DeviceState := USB_DeviceState u; dev := dev u |}.
Definition with_ep (n : Z) (e : endpoint) (u : usb_hw) : usb_hw :=
  {| UENUM := UENUM u; ep := fun m => if m =? n then e else ep u m;
     RXSTPI := RXSTPI u; USB_DeviceState := USB_DeviceState u; dev := dev u |}.
Definition with_setup (b : bool) (u : usb_hw) : usb_hw :=
  {| UENUM := UENUM u; ep := ep u; RXSTPI := b; USB_DeviceState := USB_DeviceState u; dev := dev u |}.
Definition with_state (x : device_state) (u : usb_hw) : usb_hw :=
  {| UENUM := UENUM u; ep := ep u; RXSTPI := RXSTPI u; USB_DeviceState := x; dev := dev u |}.
Definition with_dev (f : usb_dev -> usb_dev) (u : usb_hw) : usb_hw :=
  {| UENUM := UENUM u; ep := ep u; RXSTPI := RXSTPI u; USB_DeviceState := USB_DeviceState u;
     dev := f (dev u) |}.

(** Writing one part of the device. *)
Definition dev_reg (r : usb_reg) (v : Z) (d : usb_dev) : usb_dev :=
  {| ureg := fun x => if decide (x = r) then v else ureg d x; UECONX := UECONX d; UEIENX := UEIENX d;
     TXINI0 := TXINI0 d; RXOUTI0 := RXOUTI0 d; USB_ControlRequest := USB_ControlRequest d;
     USB_Device_ConfigurationNumber := USB_Device_ConfigurationNumber d;
     USB_Device_CurrentlySelfPowered := USB_Device_CurrentlySelfPowered d;
     USB_Device_RemoteWakeupEnabled := USB_Device_RemoteWakeupEnabled d;
     USB_IsInitialized := USB_IsInitialized d |}.
Definition dev_ep (n con ien : Z) (d : usb_dev) : usb_dev :=
  {| ureg := ureg d; UECONX := fun m => if m =? n then con else UECONX d m;
     UEIENX := fun m => if m =? n then ien else UEIENX d m;
     TXINI0 := TXINI0 d; RXOUTI0 := RXOUTI0 d; USB_ControlRequest := USB_ControlRequest d;
     USB_Device_ConfigurationNumber := USB_Device_ConfigurationNumber d;
     USB_Device_CurrentlySelfPowered := USB_Device_CurrentlySelfPowered d;
     USB_Device_RemoteWakeupEnabled := USB_Device_RemoteWakeupEnabled d;
     USB_IsInitialized := USB_IsInitialized d |}.
Definition dev_control (tx rx : bool) (d : usb_dev) : usb_dev :=
  {| ureg := ureg d; UECONX := UECONX d; UEIENX := UEIENX d;
     TXINI0 := tx; RXOUTI0 := rx; USB_ControlRequest := USB_ControlRequest d;
     USB_Device_ConfigurationNumber := USB_Device_ConfigurationNumber d;
     USB_Device_CurrentlySelfPowered := USB_Device_CurrentlySelfPowered d;
     USB_Device_RemoteWakeupEnabled := USB_Device_RemoteWakeupEnabled d;
     USB_IsInitialized := USB_IsInitialized d |}.
Definition dev_vars (req : USB_Request_Header_t) (n : Z) (self wake init : bool) (d : usb_dev) : usb_dev :=
  {| ureg := ureg d; UECONX := UECONX d; UEIENX := UEIENX d; TXINI0 := TXINI0 d; RXOUTI0 := RXOUTI0 d;
     USB_ControlRequest := req; USB_Device_ConfigurationNumber := n;
     USB_Device_CurrentlySelfPowered := self; USB_Device_RemoteWakeupEnabled := wake;
     USB_IsInitialized := init |}.
Definition with_bank (b : list Z) (e : endpoint) : endpoint :=
  {| UECFG0X := UECFG0X e; UECFG1X := UECFG1X e; event := event e; bank := b; sent := sent e |}.
Definition selected (u : usb_hw) : endpoint := ep u (UENUM u).
Definition on_selected (f : endpoint -> endpoint) (u : usb_hw) : usb_hw :=
  with_ep (UENUM u) (f (selected u)) u.

(** ** Endpoint_AVR8.h *)

Definition Endpoint_GetEndpointDirection (u : usb_hw) : Z :=
  if ep_is_in (selected u) then ENDPOINT_DIR_IN else ENDPOINT_DIR_OUT.

Definition Endpoint_GetCurrentEndpoint (u : usb_hw) : Z :=
  Z.lor (Z.land (UENUM u) ENDPOINT_EPNUM_MASK) (Endpoint_GetEndpointDirection u).

Definition Endpoint_SelectEndpoint (Address : Z) (u : usb_hw) : usb_hw :=
  with_uenum (Z.land Address ENDPOINT_EPNUM_MASK) u.

(** The byte counter of the bank. *)
Definition Endpoint_BytesInEndpoint (u : usb_hw) : Z := Z.of_nat (length (bank (selected u))).

(** [TXINI] is the event of an IN endpoint, [RXOUTI] that of an OUT endpoint;
    the control endpoint has both. *)
Definition Endpoint_IsINReady (u : usb_hw) : bool :=
  if UENUM u =? 0 then TXINI0 (dev u) else ep_is_in (selected u) && event (selected u).
Definition Endpoint_IsOUTReceived (u : usb_hw) : bool :=
  if UENUM u =? 0 then RXOUTI0 (dev u) else negb (ep_is_in (selected u)) && event (selected u).

(** Only the control endpoint receives SETUP packets.  Acknowledging one frees
    the bank for the answer. *)
Definition Endpoint_IsSETUPReceived (u : usb_hw) : bool := (UENUM u =? 0) && RXSTPI u.
Definition Endpoint_ClearSETUP (u : usb_hw) : usb_hw :=
  if UENUM u =? 0
  then with_dev (fun d => dev_control true (RXOUTI0 d) d) (with_setup false (on_selected (with_bank []) u))
  else u.

(** Hand the bank to the controller. *)
Definition give_bank (ev : bool) (e : endpoint) : endpoint :=
  {| UECFG0X := UECFG0X e; UECFG1X := UECFG1X e; event := ev; bank := []; sent := sent e ++ [bank e] |}.

(** Clearing [TXINI] and [FIFOCON] hands the bank of an IN endpoint to the
    controller; on an OUT endpoint it frees the bank. *)
Definition Endpoint_ClearIN (u : usb_hw) : usb_hw :=
  if UENUM u =? 0
  then with_dev (fun d => dev_control false (RXOUTI0 d) d) (on_selected (give_bank false) u)
  else on_selected (fun e => if ep_is_in e then give_bank false e else with_bank [] e) u.

(** Clearing [RXOUTI] and [FIFOCON] frees the bank of an OUT endpoint; on an IN
    endpoint the bank goes to the controller and the flag bit is another one. *)
Definition Endpoint_ClearOUT (u : usb_hw) : usb_hw :=
  if UENUM u =? 0
  then with_dev (fun d => dev_control (TXINI0 d) false d) (on_selected (with_bank []) u)
  else on_selected (fun e =>
    if ep_is_in e then give_bank (event e) e
    else {| UECFG0X := UECFG0X e; UECFG1X := UECFG1X e; event := false;
            bank := []; sent := sent e |}) u.

(** The data register: reading takes the first byte of the bank, writing
    appends one.  The hardware ignores a write to a full bank; the model does
    not limit the bank: the program fills the control endpoint up to its eight
    bytes ([fill]) and puts one byte into a free bank of the data endpoint. *)
Definition Endpoint_Read_8 (u : usb_hw) : Z * usb_hw :=
  (default 0 (head (bank (selected u))), on_selected (fun e => with_bank (tail (bank e)) e) u).
Definition Endpoint_Write_8 (Data : Z) : usb_hw -> usb_hw :=
  on_selected (fun e => with_bank (bank e ++ [u8 Data]) e).

(** [while (CheckBytes < Bytes) { MaskVal++; CheckBytes <<= 1; }] with fuel. *)
Fixpoint BytesToEPSizeMask_loop (fuel : nat) (MaskVal CheckBytes Bytes : Z) : option Z :=
  if CheckBytes <? Bytes then
    match fuel with
    | O => None
    | S fuel => BytesToEPSizeMask_loop fuel (u8 (MaskVal + 1)) (u16 (Z.shiftl CheckBytes 1)) Bytes
    end
  else Some MaskVal.

(** Endpoint sizes are at most 512, so seven turns are enough. *)
Definition Endpoint_BytesToEPSizeMask (Bytes : Z) : option Z :=
  MaskVal ← BytesToEPSizeMask_loop 7 0 8 Bytes;
  Some (u8 (Z.shiftl MaskVal EPSIZE0)).

(** [UECONX] of the selected endpoint. *)
Definition EPEN : Z := 0.
Definition RSTDT : Z := 3.
Definition STALLRQC : Z := 4.
Definition STALLRQ : Z := 5.
Definition set_con (f : Z -> Z) (u : usb_hw) : usb_hw :=
  with_dev (fun d => dev_ep (UENUM u) (f (UECONX d (UENUM u))) (UEIENX d (UENUM u)) d) u.
Definition set_ien (f : Z -> Z) (u : usb_hw) : usb_hw :=
  with_dev (fun d => dev_ep (UENUM u) (UECONX d (UENUM u)) (f (UEIENX d (UENUM u))) d) u.

Definition Endpoint_EnableEndpoint : usb_hw -> usb_hw := set_con (fun x => set_bits x (2 ^ EPEN)).
Definition Endpoint_DisableEndpoint : usb_hw -> usb_hw := set_con (fun x => clear_bits x (2 ^ EPEN)).
Definition Endpoint_IsEnabled (u : usb_hw) : bool :=
  to_bool (Z.land (UECONX (dev u) (UENUM u)) (2 ^ EPEN)).
Definition Endpoint_StallTransaction : usb_hw -> usb_hw := set_con (fun x => set_bits x (2 ^ STALLRQ)).
(** Writing [STALLRQC] clears [STALLRQ]; the bit itself reads as zero. *)
Definition Endpoint_ClearStall : usb_hw -> usb_hw := set_con (fun x => clear_bits x (2 ^ STALLRQ)).
Definition Endpoint_IsStalled (u : usb_hw) : bool :=
  to_bool (Z.land (UECONX (dev u) (UENUM u)) (2 ^ STALLRQ)).
(** [RSTDT] resets the data toggle and reads as zero: nothing modelled changes. *)
Definition Endpoint_ResetDataToggle (u : usb_hw) : usb_hw := u.
(** Resetting the FIFO empties the bank; an IN endpoint is free again. *)
Definition fifo_reset (e : endpoint) : endpoint :=
  {| UECFG0X := UECFG0X e; UECFG1X := UECFG1X e; event := ep_is_in e; bank := []; sent := sent e |}.
Definition Endpoint_ResetEndpoint (Address : Z) (u : usb_hw) : usb_hw :=
  let n := Z.land Address ENDPOINT_EPNUM_MASK in with_ep n (fifo_reset (ep u n)) u.

(** Bytes left in an OUT bank, room left in an IN bank of [size] bytes. *)
Definition bank_size (e : endpoint) : Z :=
  Z.shiftl 8 (Z.land (Z.shiftr (UECFG1X e) EPSIZE0) 7).
Definition Endpoint_IsReadWriteAllowed (u : usb_hw) : bool :=
  let e := selected u in
  if ep_is_in e then event e && (Z.of_nat (length (bank e)) <? bank_size e)
  else event e && negb (bool_decide (bank e = [])).

Definition Endpoint_Discard_8 (u : usb_hw) : usb_hw := (Endpoint_Read_8 u).2.
Definition Endpoint_Write_16_LE (Data : Z) (u : usb_hw) : usb_hw :=
  let u := Endpoint_Write_8 (Z.land Data 0xFF) u in
  Endpoint_Write_8 (Z.shiftr Data 8) u.

(** ** Endpoint_AVR8.c *)

(** The hardware's CFGOK bit: it accepts a configuration that allocates memory. *)
Definition Endpoint_IsConfigured (u : usb_hw) : bool :=
  to_bool (Z.land (UECFG1X (selected u)) (2 ^ ALLOC)).

(** Disabling and enabling again empties the bank; an IN endpoint starts free. *)
Definition reconfigured (cfg0 cfg1 : Z) (e : endpoint) : endpoint :=
  {| UECFG0X := cfg0; UECFG1X := cfg1; event := to_bool (Z.land cfg0 (2 ^ EPDIR));
     bank := []; sent := sent e |}.

(** The five writes of one turn: disable, free the memory, enable, and the three
    registers.  The control endpoint starts with nothing received and free. *)
Definition reconfigure (cfg0 cfg1 ien : Z) (u : usb_hw) : usb_hw :=
  let u := Endpoint_DisableEndpoint u in
  let u := Endpoint_EnableEndpoint u in
  let u := on_selected (reconfigured cfg0 cfg1) u in
  let u := set_ien (fun _ => ien) u in
  if UENUM u =? 0 then with_setup false (with_dev (dev_control true false) u) else u.

(** The loop over the endpoints from [Number] to the last; [n] turns left. *)
Fixpoint ConfigureEndpoint_loop (n : nat) (EPNum Number UECFG0XData UECFG1XData : Z) (u : usb_hw) :
    bool * usb_hw :=
  match n with
  | O => (true, Endpoint_SelectEndpoint Number u)
  | S n =>
      let u := Endpoint_SelectEndpoint EPNum u in
      let '(UECFG0XTemp, UECFG1XTemp, UEIENXTemp) :=
        if EPNum =? Number then (UECFG0XData, UECFG1XData, 0)
        else (UECFG0X (selected u), UECFG1X (selected u), UEIENX (dev u) (UENUM u)) in
      if negb (to_bool (Z.land UECFG1XTemp (2 ^ ALLOC))) then
        ConfigureEndpoint_loop n (EPNum + 1) Number UECFG0XData UECFG1XData u
      else
        let u := reconfigure UECFG0XTemp UECFG1XTemp UEIENXTemp u in
        if negb (Endpoint_IsConfigured u) then (false, u)
        else ConfigureEndpoint_loop n (EPNum + 1) Number UECFG0XData UECFG1XData u
  end.

Definition Endpoint_ConfigureEndpoint_Prv (Number UECFG0XData UECFG1XData : Z) (u : usb_hw) :
    bool * usb_hw :=
  ConfigureEndpoint_loop (Z.to_nat (ENDPOINT_TOTAL_ENDPOINTS - Number)) Number Number
    UECFG0XData UECFG1XData u.

Definition Endpoint_ConfigureEndpoint (Address Type_ Size Banks : Z) (u : usb_hw) :
    option (bool * usb_hw) :=
  let Number := Z.land Address ENDPOINT_EPNUM_MASK in
  if ENDPOINT_TOTAL_ENDPOINTS <=? Number then Some (false, u) else
  mask ← Endpoint_BytesToEPSizeMask Size;
  Some (Endpoint_ConfigureEndpoint_Prv Number
    (Z.lor (Z.shiftl Type_ EPTYPE0)
           (if to_bool (Z.land Address ENDPOINT_DIR_IN) then 2 ^ EPDIR else 0))
    (Z.lor (Z.lor (2 ^ ALLOC) (if 1 <? Banks then 2 ^ EPBK0 else 0)) mask) u).

(** ** The host *)

(** A packet arrives at OUT endpoint [n] if its bank is free. *)
Definition host_send (n : Z) (packet : list Z) (u : usb_hw) : usb_hw :=
  let e := ep u n in
  if ep_is_in e || event e then u
  else with_ep n {| UECFG0X := UECFG0X e; UECFG1X := UECFG1X e; event := true;
                    bank := packet; sent := sent e |} u.

(** The controller delivers the packet of IN endpoint [n]; its bank is free. *)
Definition host_take (n : Z) (u : usb_hw) : usb_hw :=
  let e := ep u n in
  if ep_is_in e
  then with_ep n {| UECFG0X := UECFG0X e; UECFG1X := UECFG1X e; event := true;
                    bank := bank e; sent := sent e |} u
  else u.

(** ** Lemmas *)

Lemma ep_with_ep n m e u : ep (with_ep n e u) m = if m =? n then e else ep u m.
Proof. reflexivity. Qed.

Lemma ep_with_ep_eq n e u : ep (with_ep n e u) n = e.
Proof. by rewrite ep_with_ep, Z.eqb_refl. Qed.

Lemma ep_with_ep_ne n m e u : m <> n -> ep (with_ep n e u) m = ep u m.
Proof. intros. rewrite ep_with_ep. by rewrite (proj2 (Z.eqb_neq _ _)). Qed.

Lemma selected_on_selected f u : selected (on_selected f u) = f (selected u).
Proof. unfold selected, on_selected. by rewrite ep_with_ep_eq. Qed.

(** Two states of the hardware that agree on what can be observed. *)
Definition usb_eq (u u' : usb_hw) : Prop :=
  UENUM u = UENUM u' /\ (forall n, ep u n = ep u' n) /\ RXSTPI u = RXSTPI u' /\
  USB_DeviceState u = USB_DeviceState u' /\ dev u = dev u'.

#[export] Instance usb_eq_equivalence : Equivalence usb_eq.
Proof.
  split.
  - by intros u.
  - intros u v (?&H&?&?&?). unfold usb_eq. auto.
  - intros u v w (?&H&?&?&?) (?&H'&?&?&?). unfold usb_eq. split_and!; congruence.
Qed.

#[export] Instance selected_proper : Proper (usb_eq ==> eq) selected.
Proof. intros u v (E&H&_). unfold selected. by rewrite H, E. Qed.

(** *** Configuration *)

Lemma select_number n u : 0 <= n < 16 -> Endpoint_SelectEndpoint n u = with_uenum n u.
Proof.
  intros Hn. unfold Endpoint_SelectEndpoint. f_equal.
  etransitivity; [apply (land_ones_mod n 4); lia|]. apply Z.mod_small. lia.
Qed.

Lemma reconfigured_sent d0 d1 e e' : sent e = sent e' -> reconfigured d0 d1 e = reconfigured d0 d1 e'.
Proof. unfold reconfigured. by intros ->. Qed.

Lemma ep_reconfigure d0 d1 ien u m :
  ep (reconfigure d0 d1 ien u) m = if m =? UENUM u then reconfigured d0 d1 (ep u m) else ep u m.
Proof.
  unfold reconfigure. cbv zeta.
  set (v := set_ien _ _). assert (ep v m = if m =? UENUM u then reconfigured d0 d1 (ep u m) else ep u m) as E.
  { unfold v, set_ien, on_selected, selected. cbn [ep with_dev with_ep].
    change (UENUM (Endpoint_EnableEndpoint _)) with (UENUM u).
    destruct (Z.eqb_spec m (UENUM u)) as [->|]; done. }
  by destruct (UENUM v =? 0).
Qed.

Lemma rest_reconfigure d0 d1 ien u :
  let u' := reconfigure d0 d1 ien u in
  UENUM u' = UENUM u /\ USB_DeviceState u' = USB_DeviceState u /\
  RXSTPI u' = (if UENUM u =? 0 then false else RXSTPI u) /\
  RXOUTI0 (dev u') = (if UENUM u =? 0 then false else RXOUTI0 (dev u)) /\
  ureg (dev u') = ureg (dev u) /\
  USB_Device_ConfigurationNumber (dev u') = USB_Device_ConfigurationNumber (dev u).
Proof.
  unfold reconfigure. cbv zeta. change (UENUM (set_ien _ _)) with (UENUM u). by destruct (UENUM u =? 0).
Qed.

(** What one turn and the whole loop leave alone: the history of every endpoint,
    the state of the device, and a waiting request unless the control endpoint
    is configured anew. *)
Definition same_history (u u' : usb_hw) : Prop :=
  (forall m, sent (ep u' m) = sent (ep u m)) /\ USB_DeviceState u' = USB_DeviceState u /\
  (RXSTPI u' = true -> RXSTPI u = true) /\ (RXOUTI0 (dev u') = true -> RXOUTI0 (dev u) = true) /\
  ureg (dev u') = ureg (dev u) /\
  USB_Device_ConfigurationNumber (dev u') = USB_Device_ConfigurationNumber (dev u).

#[export] Instance same_history_preorder : PreOrder same_history.
Proof.
  split; [by intros u|]. intros u v w (E1&E2&E3&E4&E5&E6) (F1&F2&F3&F4&F5&F6).
  split_and!; [|congruence|auto|auto|congruence|congruence].
  intros m. by rewrite F1, E1.
Qed.

Lemma history_reconfigure d0 d1 ien n u : same_history u (reconfigure d0 d1 ien (with_uenum n u)).
Proof.
  destruct (rest_reconfigure d0 d1 ien (with_uenum n u)) as (_&E2&E3&E4&E5&E6). split_and!; [|done| | |done|done].
  - intros m. rewrite ep_reconfigure. by destruct (m =? UENUM (with_uenum n u)).
  - rewrite E3. by destruct (UENUM (with_uenum n u) =? 0).
  - rewrite E4. by destruct (UENUM (with_uenum n u) =? 0).
Qed.

(** The loop from [EPNum] on rewrites only endpoints from [EPNum] to 6, keeps the
    configuration of all but [Number], and does not fail. *)
Lemma ConfigureEndpoint_loop_rest n EPNum Number d0 d1 u :
  Number < EPNum -> 0 < EPNum -> EPNum + Z.of_nat n <= 7 ->
  exists u', ConfigureEndpoint_loop n EPNum Number d0 d1 u = (true, u') /\
    (forall m, m < EPNum -> ep u' m = ep u m) /\ same_history u u' /\ RXSTPI u' = RXSTPI u /\
    UENUM u' = Z.land Number 15.
Proof.
  revert EPNum u. induction n as [|n IH]; intros EPNum u H1 H2 H3; cbn [ConfigureEndpoint_loop].
  { by eexists. }
  rewrite (proj2 (Z.eqb_neq EPNum Number)), select_number by lia.
  set (u1 := with_uenum EPNum u).
  destruct (to_bool (Z.land (UECFG1X (selected u1)) (2 ^ ALLOC))) eqn:Ha; cbn [negb].
  - set (u2 := reconfigure _ _ _ u1).
    destruct (rest_reconfigure (UECFG0X (selected u1)) (UECFG1X (selected u1)) (UEIENX (dev u1) (UENUM u1)) u1)
      as (E1&_&E3&_). fold u2 in E1, E3.
    change (UENUM u1) with EPNum in *. rewrite (proj2 (Z.eqb_neq EPNum 0)) in E3 by lia.
    assert (Endpoint_IsConfigured u2 = true) as ->.
    { unfold Endpoint_IsConfigured, selected. rewrite E1. unfold u2. rewrite ep_reconfigure.
      change (UENUM u1) with EPNum. by rewrite Z.eqb_refl. }
    cbn [negb]. destruct (IH (EPNum + 1) u2) as (u'&E&Hm&Hs&Hr&Hu); [lia..|].
    exists u'. split_and!; [done| | |by rewrite Hr|done].
    + intros m Hlt. rewrite Hm by lia. unfold u2. rewrite ep_reconfigure.
      change (UENUM u1) with EPNum. by rewrite (proj2 (Z.eqb_neq _ _)) by lia.
    + etransitivity; [apply history_reconfigure|exact Hs].
  - destruct (IH (EPNum + 1) u1) as (u'&E&Hm&Hs&Hr&Hu); [lia..|].
    exists u'. split_and!; [done| |done|done|done]. intros m Hlt. by rewrite Hm by lia.
Qed.

Lemma Endpoint_ConfigureEndpoint_Prv_spec Number d0 d1 u :
  0 <= Number < 7 -> to_bool (Z.land d1 (2 ^ ALLOC)) = true ->
  exists u', Endpoint_ConfigureEndpoint_Prv Number d0 d1 u = (true, u') /\
    ep u' Number = reconfigured d0 d1 (ep u Number) /\
    (forall m, m < Number -> ep u' m = ep u m) /\ same_history u u' /\
    RXSTPI u' = (if Number =? 0 then false else RXSTPI u) /\ UENUM u' = Number.
Proof.
  intros Hn Ha. unfold Endpoint_ConfigureEndpoint_Prv, ENDPOINT_TOTAL_ENDPOINTS.
  replace (Z.to_nat (7 - Number)) with (S (Z.to_nat (6 - Number))) by lia.
  cbn [ConfigureEndpoint_loop]. rewrite Z.eqb_refl, Ha. cbn [negb].
  rewrite select_number by lia. set (u2 := reconfigure d0 d1 0 (with_uenum Number u)).
  destruct (rest_reconfigure d0 d1 0 (with_uenum Number u)) as (E1&_&E3&_). fold u2 in E1, E3. cbn [UENUM with_uenum] in E1, E3.
  assert (Endpoint_IsConfigured u2 = true) as ->.
  { unfold Endpoint_IsConfigured, selected. rewrite E1. unfold u2. rewrite ep_reconfigure. cbn [UENUM with_uenum].
    by rewrite Z.eqb_refl. }
  cbn [negb]. destruct (ConfigureEndpoint_loop_rest (Z.to_nat (6 - Number)) (Number + 1) Number d0 d1 u2)
    as (u'&E&Hm&Hs&Hr&Hu); [lia..|].
  exists u'. split_and!; [done| | | | |].
  - rewrite Hm by lia. unfold u2. rewrite ep_reconfigure. cbn [UENUM with_uenum]. by rewrite Z.eqb_refl.
  - intros m Hlt. rewrite Hm by lia. unfold u2. rewrite ep_reconfigure. cbn [UENUM with_uenum].
    by rewrite (proj2 (Z.eqb_neq _ _)) by lia.
  - etransitivity; [apply history_reconfigure|exact Hs].
  - by rewrite Hr.
  - rewrite Hu. etransitivity; [apply (land_ones_mod Number 4); lia|]. apply Z.mod_small. lia.
Qed.

(** The arguments of the configuration, computed. *)
Lemma Endpoint_ConfigureEndpoint_run Address Type_ Size Banks u n d0 d1 mask :
  Z.land Address ENDPOINT_EPNUM_MASK = n -> n < ENDPOINT_TOTAL_ENDPOINTS ->
  Endpoint_BytesToEPSizeMask Size = Some mask ->
  Z.lor (Z.shiftl Type_ EPTYPE0) (if to_bool (Z.land Address ENDPOINT_DIR_IN) then 2 ^ EPDIR else 0) = d0 ->
  Z.lor (Z.lor (2 ^ ALLOC) (if 1 <? Banks then 2 ^ EPBK0 else 0)) mask = d1 ->
  Endpoint_ConfigureEndpoint Address Type_ Size Banks u = Some (Endpoint_ConfigureEndpoint_Prv n d0 d1 u).
Proof.
  intros <- Hn Hm <- <-. unfold Endpoint_ConfigureEndpoint. cbv zeta.
  rewrite (proj2 (Z.leb_gt _ _)) by done. by rewrite Hm.
Qed.
