(* ===== verification/Descriptors.v ===== *)
(** * Descriptors: Driver/USB_Config/Descriptors.c and Descriptors.h

    The descriptors the device shows to the host, as the records of the library's
    StdDescriptors.h and CDCClassCommon.h with their packed little-endian bytes,
    and the callback that selects one.  A parser for a chain of descriptors plays
    the host. *)
From Stdlib Require Import Ascii String.
From S2P Require Import Prelude.
From S2P Require Import UsbEndpoint.

(** ** Descriptors.h *)

Definition CDC_TX_EPADDR : Z := Z.lor ENDPOINT_DIR_IN 1.
Definition CDC_RX_EPADDR : Z := Z.lor ENDPOINT_DIR_OUT 2.
Definition CDC_NOTIFICATION_EPADDR : Z := Z.lor ENDPOINT_DIR_IN 3.
Definition CDC_NOTIFICATION_EPSIZE : Z := 8.
Definition CDC_TXRX_EPSIZE : Z := 16.

Definition INTERFACE_ID_CDC_CCI : Z := 0.
Definition INTERFACE_ID_CDC_DCI : Z := 1.
Definition STRING_ID_Language : Z := 0.
Definition STRING_ID_Manufacturer : Z := 1.
Definition STRING_ID_Product : Z := 2.

(** ** Constants of the library and of the Makefile *)

Definition NO_DESCRIPTOR : Z := 0.
Definition DTYPE_Device : Z := 0x01.
Definition DTYPE_Configuration : Z := 0x02.
Definition DTYPE_String : Z := 0x03.
Definition DTYPE_Interface : Z := 0x04.
Definition DTYPE_Endpoint : Z := 0x05.
Definition CDC_DTYPE_CSInterface : Z := 0x24.
Definition CDC_DSUBTYPE_CSInterface_Header : Z := 0x00.
Definition CDC_DSUBTYPE_CSInterface_ACM : Z := 0x02.
Definition CDC_DSUBTYPE_CSInterface_Union : Z := 0x06.
Definition CDC_CSCP_CDCClass : Z := 0x02.
Definition CDC_CSCP_NoSpecificSubclass : Z := 0x00.
Definition CDC_CSCP_NoSpecificProtocol : Z := 0x00.
Definition CDC_CSCP_ACMSubclass : Z := 0x02.
Definition CDC_CSCP_ATCommandProtocol : Z := 0x01.
Definition CDC_CSCP_CDCDataClass : Z := 0x0A.
Definition CDC_CSCP_NoDataSubclass : Z := 0x00.
Definition CDC_CSCP_NoDataProtocol : Z := 0x00.
Definition USB_CONFIG_ATTR_RESERVED : Z := 0x80.
Definition ENDPOINT_ATTR_NO_SYNC : Z := Z.shiftl 0 2.
Definition ENDPOINT_USAGE_DATA : Z := Z.shiftl 0 4.
Definition LANGUAGE_ID_ENG : Z := 0x0409.
Definition USE_INTERNAL_SERIAL : Z := 0xDC.
Definition FIXED_CONTROL_ENDPOINT_SIZE : Z := 8.
Definition FIXED_NUM_CONFIGURATIONS : Z := 1.
Definition DEVICE_VID : Z := 0x1ffb.
Definition DEVICE_PID : Z := 0x2300.

Definition VERSION_BCD (Major Minor Revision : Z) : Z :=
  Z.lor (Z.lor (Z.shiftl (Z.land Major 0xFF) 8) (Z.shiftl (Z.land Minor 0x0F) 4)) (Z.land Revision 0x0F).
Definition USB_CONFIG_POWER_MA (mA : Z) : Z := Z.shiftr mA 1.

(** ** The descriptor records and their bytes *)

Record USB_Descriptor_Header_t := { Size : Z; Type_ : Z }.

Record USB_Descriptor_Device_t := {
  Device_Header : USB_Descriptor_Header_t;
  USBSpecification : Z;
  Device_Class : Z;
  Device_SubClass : Z;
  Device_Protocol : Z;
  Endpoint0Size : Z;
  VendorID : Z;
  ProductID : Z;
  ReleaseNumber : Z;
  ManufacturerStrIndex : Z;
  ProductStrIndex : Z;
  SerialNumStrIndex : Z;
  NumberOfConfigurations : Z;
}.

Record USB_Descriptor_Configuration_Header_t := {
  Config_Header : USB_Descriptor_Header_t;
  TotalConfigurationSize : Z;
  TotalInterfaces : Z;
  ConfigurationNumber : Z;
  ConfigurationStrIndex : Z;
  ConfigAttributes : Z;
  MaxPowerConsumption : Z;
}.

Record USB_Descriptor_Interface_t := {
  Interface_Header : USB_Descriptor_Header_t;
  InterfaceNumber : Z;
  AlternateSetting : Z;
  TotalEndpoints : Z;
  Interface_Class : Z;
  Interface_SubClass : Z;
  Interface_Protocol : Z;
  InterfaceStrIndex : Z;
}.

Record USB_CDC_Descriptor_FunctionalHeader_t := {
  FHeader_Header : USB_Descriptor_Header_t;
  FHeader_Subtype : Z;
  CDCSpecification : Z;
}.

Record USB_CDC_Descriptor_FunctionalACM_t := {
  ACM_Header : USB_Descriptor_Header_t;
  ACM_Subtype : Z;
  Capabilities : Z;
}.

Record USB_CDC_Descriptor_FunctionalUnion_t := {
  Union_Header : USB_Descriptor_Header_t;
  Union_Subtype : Z;
  MasterInterfaceNumber : Z;
  SlaveInterfaceNumber : Z;
}.

Record USB_Descriptor_Endpoint_t := {
  Endpoint_Header : USB_Descriptor_Header_t;
  EndpointAddress : Z;
  Attributes : Z;
  EndpointSize : Z;
  PollingIntervalMS : Z;
}.

(** The flexible array of 16-bit characters of a string descriptor. *)
Record USB_Descriptor_String_t := {
  String_Header : USB_Descriptor_Header_t;
  UnicodeString : list Z;
}.

Record USB_Descriptor_Configuration_t := {
  Config : USB_Descriptor_Configuration_Header_t;
  CDC_CCI_Interface : USB_Descriptor_Interface_t;
  CDC_Functional_Header : USB_CDC_Descriptor_FunctionalHeader_t;
  CDC_Functional_ACM : USB_CDC_Descriptor_FunctionalACM_t;
  CDC_Functional_Union : USB_CDC_Descriptor_FunctionalUnion_t;
  CDC_ManagementEndpoint : USB_Descriptor_Endpoint_t;
  CDC_DCI_Interface : USB_Descriptor_Interface_t;
  CDC_DataOutEndpoint : USB_Descriptor_Endpoint_t;
  CDC_DataInEndpoint : USB_Descriptor_Endpoint_t;
}.

Definition le16 (z : Z) : list Z := le_split 2 (u16 z).

(** A record with its bytes in memory. *)
Class Packed (A : Type) := bytes : A -> list Z.

#[export] Instance header_bytes : Packed USB_Descriptor_Header_t := fun d => [Size d; Type_ d].
#[export] Instance device_bytes : Packed USB_Descriptor_Device_t := fun d =>
  bytes (Device_Header d) ++ le16 (USBSpecification d) ++
  [Device_Class d; Device_SubClass d; Device_Protocol d; Endpoint0Size d] ++
  le16 (VendorID d) ++ le16 (ProductID d) ++ le16 (ReleaseNumber d) ++
  [ManufacturerStrIndex d; ProductStrIndex d; SerialNumStrIndex d; NumberOfConfigurations d].
#[export] Instance config_header_bytes : Packed USB_Descriptor_Configuration_Header_t := fun d =>
  bytes (Config_Header d) ++ le16 (TotalConfigurationSize d) ++
  [TotalInterfaces d; ConfigurationNumber d; ConfigurationStrIndex d; ConfigAttributes d;
   MaxPowerConsumption d].
#[export] Instance interface_bytes : Packed USB_Descriptor_Interface_t := fun d =>
  bytes (Interface_Header d) ++
  [InterfaceNumber d; AlternateSetting d; TotalEndpoints d; Interface_Class d; Interface_SubClass d;
   Interface_Protocol d; InterfaceStrIndex d].
#[export] Instance fheader_bytes : Packed USB_CDC_Descriptor_FunctionalHeader_t := fun d =>
  bytes (FHeader_Header d) ++ [FHeader_Subtype d] ++ le16 (CDCSpecification d).
#[export] Instance acm_bytes : Packed USB_CDC_Descriptor_FunctionalACM_t := fun d =>
  bytes (ACM_Header d) ++ [ACM_Subtype d; Capabilities d].
#[export] Instance union_bytes : Packed USB_CDC_Descriptor_FunctionalUnion_t := fun d =>
  bytes (Union_Header d) ++ [Union_Subtype d; MasterInterfaceNumber d; SlaveInterfaceNumber d].
#[export] Instance endpoint_bytes : Packed USB_Descriptor_Endpoint_t := fun d =>
  bytes (Endpoint_Header d) ++ [EndpointAddress d; Attributes d] ++ le16 (EndpointSize d) ++
  [PollingIntervalMS d].
#[export] Instance string_bytes : Packed USB_Descriptor_String_t := fun d =>
  bytes (String_Header d) ++ concat (le16 <$> UnicodeString d).
#[export] Instance configuration_bytes : Packed USB_Descriptor_Configuration_t := fun d =>
  bytes (Config d) ++ bytes (CDC_CCI_Interface d) ++ bytes (CDC_Functional_Header d) ++
  bytes (CDC_Functional_ACM d) ++ bytes (CDC_Functional_Union d) ++ bytes (CDC_ManagementEndpoint d) ++
  bytes (CDC_DCI_Interface d) ++ bytes (CDC_DataOutEndpoint d) ++ bytes (CDC_DataInEndpoint d).

(** The [sizeof] of each packed structure. *)
Definition sizeof_Device : Z := 18.
Definition sizeof_Config_Header : Z := 9.
Definition sizeof_Interface : Z := 9.
Definition sizeof_FHeader : Z := 5.
Definition sizeof_ACM : Z := 4.
Definition sizeof_Union : Z := 5.
Definition sizeof_Endpoint : Z := 7.
Definition sizeof_Configuration : Z :=
  sizeof_Config_Header + 2 * sizeof_Interface + sizeof_FHeader + sizeof_ACM + sizeof_Union
    + 3 * sizeof_Endpoint.

(** ** Descriptors.c *)

Definition DeviceDescriptor : USB_Descriptor_Device_t := {|
  Device_Header := {| Size := sizeof_Device; Type_ := DTYPE_Device |};
  USBSpecification := VERSION_BCD 1 1 0;
  Device_Class := CDC_CSCP_CDCClass;
  Device_SubClass := CDC_CSCP_NoSpecificSubclass;
  Device_Protocol := CDC_CSCP_NoSpecificProtocol;
  Endpoint0Size := FIXED_CONTROL_ENDPOINT_SIZE;
  VendorID := DEVICE_VID;
  ProductID := DEVICE_PID;
  ReleaseNumber := VERSION_BCD 0 0 1;
  ManufacturerStrIndex := STRING_ID_Manufacturer;
  ProductStrIndex := STRING_ID_Product;
  SerialNumStrIndex := USE_INTERNAL_SERIAL;
  NumberOfConfigurations := FIXED_NUM_CONFIGURATIONS;
|}.

Definition ConfigurationDescriptor : USB_Descriptor_Configuration_t := {|
  Config := {|
    Config_Header := {| Size := sizeof_Config_Header; Type_ := DTYPE_Configuration |};
    TotalConfigurationSize := sizeof_Configuration;
    TotalInterfaces := 2;
    ConfigurationNumber := 1;
    ConfigurationStrIndex := NO_DESCRIPTOR;
    ConfigAttributes := USB_CONFIG_ATTR_RESERVED;
    MaxPowerConsumption := USB_CONFIG_POWER_MA 100;
  |};
  CDC_CCI_Interface := {|
    Interface_Header := {| Size := sizeof_Interface; Type_ := DTYPE_Interface |};
    InterfaceNumber := INTERFACE_ID_CDC_CCI;
    AlternateSetting := 0;
    TotalEndpoints := 1;
    Interface_Class := CDC_CSCP_CDCClass;
    Interface_SubClass := CDC_CSCP_ACMSubclass;
    Interface_Protocol := CDC_CSCP_ATCommandProtocol;
    InterfaceStrIndex := NO_DESCRIPTOR;
  |};
  CDC_Functional_Header := {|
    FHeader_Header := {| Size := sizeof_FHeader; Type_ := CDC_DTYPE_CSInterface |};
    FHeader_Subtype := CDC_DSUBTYPE_CSInterface_Header;
    CDCSpecification := VERSION_BCD 1 1 0;
  |};
  CDC_Functional_ACM := {|
    ACM_Header := {| Size := sizeof_ACM; Type_ := CDC_DTYPE_CSInterface |};
    ACM_Subtype := CDC_DSUBTYPE_CSInterface_ACM;
    Capabilities := 0x06;
  |};
  CDC_Functional_Union := {|
    Union_Header := {| Size := sizeof_Union; Type_ := CDC_DTYPE_CSInterface |};
    Union_Subtype := CDC_DSUBTYPE_CSInterface_Union;
    MasterInterfaceNumber := INTERFACE_ID_CDC_CCI;
    SlaveInterfaceNumber := INTERFACE_ID_CDC_DCI;
  |};
  CDC_ManagementEndpoint := {|
    Endpoint_Header := {| Size := sizeof_Endpoint; Type_ := DTYPE_Endpoint |};
    EndpointAddress := CDC_NOTIFICATION_EPADDR;
    Attributes := Z.lor (Z.lor EP_TYPE_INTERRUPT ENDPOINT_ATTR_NO_SYNC) ENDPOINT_USAGE_DATA;
    EndpointSize := CDC_NOTIFICATION_EPSIZE;
    PollingIntervalMS := 0xFF;
  |};
  CDC_DCI_Interface := {|
    Interface_Header := {| Size := sizeof_Interface; Type_ := DTYPE_Interface |};
    InterfaceNumber := INTERFACE_ID_CDC_DCI;
    AlternateSetting := 0;
    TotalEndpoints := 2;
    Interface_Class := CDC_CSCP_CDCDataClass;
    Interface_SubClass := CDC_CSCP_NoDataSubclass;
    Interface_Protocol := CDC_CSCP_NoDataProtocol;
    InterfaceStrIndex := NO_DESCRIPTOR;
  |};
  CDC_DataOutEndpoint := {|
    Endpoint_Header := {| Size := sizeof_Endpoint; Type_ := DTYPE_Endpoint |};
    EndpointAddress := CDC_RX_EPADDR;
    Attributes := Z.lor (Z.lor EP_TYPE_BULK ENDPOINT_ATTR_NO_SYNC) ENDPOINT_USAGE_DATA;
    EndpointSize := CDC_TXRX_EPSIZE;
    PollingIntervalMS := 0x05;
  |};
  CDC_DataInEndpoint := {|
    Endpoint_Header := {| Size := sizeof_Endpoint; Type_ := DTYPE_Endpoint |};
    EndpointAddress := CDC_TX_EPADDR;
    Attributes := Z.lor (Z.lor EP_TYPE_BULK ENDPOINT_ATTR_NO_SYNC) ENDPOINT_USAGE_DATA;
    EndpointSize := CDC_TXRX_EPSIZE;
    PollingIntervalMS := 0x05;
  |};
|}.

(** [USB_STRING_LEN], [USB_STRING_DESCRIPTOR_ARRAY] and [USB_STRING_DESCRIPTOR]:
    the header's two bytes and two per character. *)
Definition USB_STRING_LEN (UnicodeChars : Z) : Z := 2 + Z.shiftl UnicodeChars 1.
Definition USB_STRING_DESCRIPTOR_ARRAY (l : list Z) : USB_Descriptor_String_t :=
  {| String_Header := {| Size := 2 + 2 * Z.of_nat (length l); Type_ := DTYPE_String |};
     UnicodeString := l |}.
Definition USB_STRING_DESCRIPTOR (s : string) : USB_Descriptor_String_t :=
  USB_STRING_DESCRIPTOR_ARRAY (ch <$> list_ascii_of_string s).

Definition LanguageString : USB_Descriptor_String_t := USB_STRING_DESCRIPTOR_ARRAY [LANGUAGE_ID_ENG].
Definition ManufacturerString : USB_Descriptor_String_t := USB_STRING_DESCRIPTOR "Colorado School of Mines".
Definition ProductString : USB_Descriptor_String_t := USB_STRING_DESCRIPTOR "MEGN540 Lab Pololu Zumo Car".

(** The address (the memory from there on, or [NULL]) and the size. *)
Definition CALLBACK_USB_GetDescriptor (wValue wIndex : Z) : option (list Z) * Z :=
  let DescriptorType := Z.shiftr wValue 8 in
  let DescriptorNumber := Z.land wValue 0xFF in
  if DescriptorType =? DTYPE_Device then (Some (bytes DeviceDescriptor), sizeof_Device)
  else if DescriptorType =? DTYPE_Configuration then
    (Some (bytes ConfigurationDescriptor), sizeof_Configuration)
  else if DescriptorType =? DTYPE_String then
    if DescriptorNumber =? STRING_ID_Language then
      (Some (bytes LanguageString), Size (String_Header LanguageString))
    else if DescriptorNumber =? STRING_ID_Manufacturer then
      (Some (bytes ManufacturerString), Size (String_Header ManufacturerString))
    else if DescriptorNumber =? STRING_ID_Product then
      (Some (bytes ProductString), Size (String_Header ProductString))
    else (None, NO_DESCRIPTOR)
  else (None, NO_DESCRIPTOR).

(** ** Specification: the host's side *)

(** The host reads a record from the front of the bytes it got. *)
Class Readable (A : Type) := read : list Z -> option (A * list Z).
(** Every field fits its C type. *)
Class WellTyped (A : Type) := typed : A -> Prop.
Class RoundTrip (A : Type) `{Packed A, Readable A, WellTyped A} :=
  read_bytes : forall (d : A) rest, typed d -> read (bytes d ++ rest) = Some (d, rest).

Definition word (lo hi : Z) : Z := lo + 256 * hi.

#[export] Instance header_read : Readable USB_Descriptor_Header_t := fun l =>
  match l with a :: b :: l => Some ({| Size := a; Type_ := b |}, l) | _ => None end.
#[export] Instance device_read : Readable USB_Descriptor_Device_t := fun l =>
  '(h, l) ← read l;
  match l with
  | s0 :: s1 :: c :: sc :: p :: e :: v0 :: v1 :: p0 :: p1 :: r0 :: r1 :: m :: ps :: ss :: n :: l =>
      Some ({| Device_Header := h; USBSpecification := word s0 s1; Device_Class := c;
               Device_SubClass := sc; Device_Protocol := p; Endpoint0Size := e;
               VendorID := word v0 v1; ProductID := word p0 p1; ReleaseNumber := word r0 r1;
               ManufacturerStrIndex := m; ProductStrIndex := ps; SerialNumStrIndex := ss;
               NumberOfConfigurations := n |}, l)
  | _ => None
  end.
#[export] Instance config_header_read : Readable USB_Descriptor_Configuration_Header_t := fun l =>
  '(h, l) ← read l;
  match l with
  | t0 :: t1 :: n :: c :: s :: a :: p :: l =>
      Some ({| Config_Header := h; TotalConfigurationSize := word t0 t1; TotalInterfaces := n;
               ConfigurationNumber := c; ConfigurationStrIndex := s; ConfigAttributes := a;
               MaxPowerConsumption := p |}, l)
  | _ => None
  end.
#[export] Instance interface_read : Readable USB_Descriptor_Interface_t := fun l =>
  '(h, l) ← read l;
  match l with
  | n :: a :: t :: c :: sc :: p :: s :: l =>
      Some ({| Interface_Header := h; InterfaceNumber := n; AlternateSetting := a; TotalEndpoints := t;
               Interface_Class := c; Interface_SubClass := sc; Interface_Protocol := p;
               InterfaceStrIndex := s |}, l)
  | _ => None
  end.
#[export] Instance fheader_read : Readable USB_CDC_Descriptor_FunctionalHeader_t := fun l =>
  '(h, l) ← read l;
  match l with
  | t :: a :: b :: l => Some ({| FHeader_Header := h; FHeader_Subtype := t; CDCSpecification := word a b |}, l)
  | _ => None
  end.
#[export] Instance acm_read : Readable USB_CDC_Descriptor_FunctionalACM_t := fun l =>
  '(h, l) ← read l;
  match l with
  | t :: c :: l => Some ({| ACM_Header := h; ACM_Subtype := t; Capabilities := c |}, l)
  | _ => None
  end.
#[export] Instance union_read : Readable USB_CDC_Descriptor_FunctionalUnion_t := fun l =>
  '(h, l) ← read l;
  match l with
  | t :: m :: s :: l =>
      Some ({| Union_Header := h; Union_Subtype := t; MasterInterfaceNumber := m;
               SlaveInterfaceNumber := s |}, l)
  | _ => None
  end.
#[export] Instance endpoint_read : Readable USB_Descriptor_Endpoint_t := fun l =>
  '(h, l) ← read l;
  match l with
  | a :: t :: s0 :: s1 :: p :: l =>
      Some ({| Endpoint_Header := h; EndpointAddress := a; Attributes := t; EndpointSize := word s0 s1;
               PollingIntervalMS := p |}, l)
  | _ => None
  end.
#[export] Instance configuration_read : Readable USB_Descriptor_Configuration_t := fun l =>
  '(c, l) ← read l;
  '(i1, l) ← read l;
  '(fh, l) ← read l;
  '(fa, l) ← read l;
  '(fu, l) ← read l;
  '(em, l) ← read l;
  '(i2, l) ← read l;
  '(eo, l) ← read l;
  '(ei, l) ← read l;
  Some ({| Config := c; CDC_CCI_Interface := i1; CDC_Functional_Header := fh; CDC_Functional_ACM := fa;
           CDC_Functional_Union := fu; CDC_ManagementEndpoint := em; CDC_DCI_Interface := i2;
           CDC_DataOutEndpoint := eo; CDC_DataInEndpoint := ei |}, l).

(** Only the two-byte fields matter for the round trip. *)
#[export] Instance header_typed : WellTyped USB_Descriptor_Header_t := fun _ => True.
#[export] Instance device_typed : WellTyped USB_Descriptor_Device_t := fun d =>
  is_u 16 (USBSpecification d) /\ is_u 16 (VendorID d) /\ is_u 16 (ProductID d) /\ is_u 16 (ReleaseNumber d).
#[export] Instance config_header_typed : WellTyped USB_Descriptor_Configuration_Header_t := fun d =>
  is_u 16 (TotalConfigurationSize d).
#[export] Instance interface_typed : WellTyped USB_Descriptor_Interface_t := fun _ => True.
#[export] Instance fheader_typed : WellTyped USB_CDC_Descriptor_FunctionalHeader_t := fun d =>
  is_u 16 (CDCSpecification d).
#[export] Instance acm_typed : WellTyped USB_CDC_Descriptor_FunctionalACM_t := fun _ => True.
#[export] Instance union_typed : WellTyped USB_CDC_Descriptor_FunctionalUnion_t := fun _ => True.
#[export] Instance endpoint_typed : WellTyped USB_Descriptor_Endpoint_t := fun d => is_u 16 (EndpointSize d).
#[export] Instance configuration_typed : WellTyped USB_Descriptor_Configuration_t := fun d =>
  typed (Config d) /\ typed (CDC_Functional_Header d) /\ typed (CDC_ManagementEndpoint d) /\
  typed (CDC_DataOutEndpoint d) /\ typed (CDC_DataInEndpoint d).

Lemma le16_word z : is_u 16 z -> exists lo hi, le16 z = [lo; hi] /\ word lo hi = z.
Proof.
  intros Hz. unfold le16, u16, uwrap. rewrite Z.mod_small by exact Hz. unfold is_u in Hz.
  do 2 eexists. split; [reflexivity|]. unfold word.
  rewrite (Z.mod_small (z / 256)); [pose proof (Z.div_mod z 256); lia|].
  split; [apply Z.div_pos; lia|apply Z.div_lt_upper_bound; lia].
Qed.

(** Replace each two-byte field by its two bytes. *)
Ltac split_words :=
  repeat match goal with
  | H : is_u 16 ?z |- _ => destruct (le16_word z H) as (?&?&?&?); clear H
  end.

Create HintDb typed.
#[export] Hint Unfold typed device_typed config_header_typed fheader_typed endpoint_typed
  configuration_typed : typed.

(** Read a record whose two-byte fields have been split. *)
Ltac read_record :=
  intros [[]] rest Ht; autounfold with typed in Ht; cbn -[is_u] in Ht; destruct_and?; split_words;
  cbn -[le16 word];
  repeat match goal with H : le16 _ = _ |- _ => rewrite H; clear H end; cbn -[word]; congruence.

#[export] Instance header_round_trip : RoundTrip USB_Descriptor_Header_t.
Proof. by intros []. Qed.
#[export] Instance device_round_trip : RoundTrip USB_Descriptor_Device_t.
Proof. read_record. Qed.
#[export] Instance config_header_round_trip : RoundTrip USB_Descriptor_Configuration_Header_t.
Proof. read_record. Qed.
#[export] Instance interface_round_trip : RoundTrip USB_Descriptor_Interface_t.
Proof. read_record. Qed.
#[export] Instance fheader_round_trip : RoundTrip USB_CDC_Descriptor_FunctionalHeader_t.
Proof. read_record. Qed.
#[export] Instance acm_round_trip : RoundTrip USB_CDC_Descriptor_FunctionalACM_t.
Proof. read_record. Qed.
#[export] Instance union_round_trip : RoundTrip USB_CDC_Descriptor_FunctionalUnion_t.
Proof. read_record. Qed.
#[export] Instance endpoint_round_trip : RoundTrip USB_Descriptor_Endpoint_t.
Proof. read_record. Qed.

(** A structure of records is read record by record. *)
Ltac read_next := rewrite <- ?app_assoc, read_bytes by done; cbn [mbind option_bind].

#[export] Instance configuration_round_trip : RoundTrip USB_Descriptor_Configuration_t.
Proof.
  intros d rest (H1&H2&H3&H4&H5). unfold read, configuration_read, bytes, configuration_bytes.
  repeat read_next. by destruct d.
Qed.

(** What the callback may answer: nothing, or a non-empty descriptor of the
    requested type with its size, which is the size the descriptor itself gives. *)
Definition answer_wf (wValue : Z) (answer : option (list Z) * Z) : Prop :=
  match answer with
  | (None, n) => n = NO_DESCRIPTOR
  | (Some l, n) =>
      n = Z.of_nat (length l) /\ 2 <= n < 256 /\ Forall (is_u 8) l /\
      l !! 1%nat = Some (Z.shiftr wValue 8) /\
      (if Z.shiftr wValue 8 =? DTYPE_Configuration then le_combine (take 2 (drop 2 l)) = n
       else head l = Some n)
  end.

Definition known_descriptor (wValue : Z) : bool :=
  let t := Z.shiftr wValue 8 in
  (t =? DTYPE_Device) || (t =? DTYPE_Configuration) ||
  ((t =? DTYPE_String) && (Z.land wValue 0xFF <=? STRING_ID_Product)).

Lemma bytes_decided (l : list Z) : forallb (fun b => (0 <=? b) && (b <? 256)) l = true -> Forall (is_u 8) l.
Proof.
  intros H. apply Forall_forall. intros b Hb. rewrite forallb_forall in H.
  specialize (H b (proj1 (list_elem_of_In _ _) Hb)). unfold is_u. lia.
Qed.

Lemma answer_wf_intro wValue l n :
  (n =? Z.of_nat (length l)) && (2 <=? n) && (n <? 256) &&
    forallb (fun b => (0 <=? b) && (b <? 256)) l = true ->
  l !! 1%nat = Some (Z.shiftr wValue 8) ->
  (if Z.shiftr wValue 8 =? DTYPE_Configuration then le_combine (take 2 (drop 2 l)) = n
   else head l = Some n) ->
  answer_wf wValue (Some l, n).
Proof.
  intros H H1 H2. apply andb_prop in H as [H Hb]. apply bytes_decided in Hb.
  unfold answer_wf. split_and!; try done; lia.
Qed.

Lemma callback_wf wValue wIndex :
  is_u 16 wValue ->
  answer_wf wValue (CALLBACK_USB_GetDescriptor wValue wIndex) /\
  ((CALLBACK_USB_GetDescriptor wValue wIndex).1 <> None <-> known_descriptor wValue = true).
Proof.
  intros Hw. assert (0 <= Z.land wValue 0xFF) by (apply Z.land_nonneg; unfold is_u in Hw; lia).
  unfold CALLBACK_USB_GetDescriptor, known_descriptor.
  unfold STRING_ID_Language, STRING_ID_Manufacturer, STRING_ID_Product in *.
  destruct (Z.eqb_spec (Z.shiftr wValue 8) DTYPE_Device) as [E|N1];
    [|destruct (Z.eqb_spec (Z.shiftr wValue 8) DTYPE_Configuration) as [E|N2];
      [|destruct (Z.eqb_spec (Z.shiftr wValue 8) DTYPE_String) as [E|N3]]]; cbv zeta.
  - split; [apply answer_wf_intro; rewrite ?E; reflexivity|done].
  - split; [apply answer_wf_intro; rewrite ?E; reflexivity|done].
  - destruct (Z.eqb_spec (Z.land wValue 255) 0) as [E0|]; [|destruct (Z.eqb_spec (Z.land wValue 255) 1)
      as [E1|]; [|destruct (Z.eqb_spec (Z.land wValue 255) 2) as [E2|]]].
    1-3: split; [apply answer_wf_intro; rewrite ?E; reflexivity|].
    1-3: split; [intros _; cbn [orb andb]; lia|done].
    split; [done|]. split; [by intros []|]. cbn [orb andb]. intros ?%Z.leb_le. lia.
  - split; [done|]. split; [by intros []|done].
Qed.

(** ** Properties *)

(** C27: what the callback answers.  For every request value the answer is either
    nothing (size zero) or the bytes of a whole descriptor of the requested type,
    shorter than 256 bytes, whose own size field (the total size, for the
    configuration) is the returned size; device and configuration descriptors
    are found under every index, strings under 0, 1 and 2, nothing else. *)
Theorem get_descriptor_well_formed wValue wIndex :
  is_u 16 wValue ->
  answer_wf wValue (CALLBACK_USB_GetDescriptor wValue wIndex) /\
  ((CALLBACK_USB_GetDescriptor wValue wIndex).1 <> None <-> known_descriptor wValue = true).
Proof. apply callback_wf. Qed.

Lemma get_descriptor_well_formed_witness :
  answer_wf 0x0301 (CALLBACK_USB_GetDescriptor 0x0301 0x0409).
Proof.
  apply (get_descriptor_well_formed 0x0301 0x0409). split; [lia|reflexivity].
Defined.

(** the packed layout.  The host reads the device descriptor and the whole
    configuration back from their bytes, whatever follows them and whatever the
    fields hold within their C types; the two descriptors of the firmware are
    such values. *)
Theorem descriptors_read_back :
  (forall (d : USB_Descriptor_Device_t) rest, typed d -> read (bytes d ++ rest) = Some (d, rest)) /\
  (forall (c : USB_Descriptor_Configuration_t) rest, typed c -> read (bytes c ++ rest) = Some (c, rest)) /\
  read (bytes DeviceDescriptor) = Some (DeviceDescriptor, []) /\
  read (bytes ConfigurationDescriptor) = Some (ConfigurationDescriptor, []).
Proof.
  split_and!.
  - intros d rest. apply read_bytes.
  - intros c rest. apply read_bytes.
  - reflexivity.
  - reflexivity.
Qed.

Lemma descriptors_read_back_witness :
  typed DeviceDescriptor /\
  read (bytes DeviceDescriptor ++ bytes LanguageString) = Some (DeviceDescriptor, bytes LanguageString).
Proof.
  assert (H : typed DeviceDescriptor) by (split_and!; (split; [apply Z.leb_le|]; reflexivity)).
  split; [exact H|]. exact (proj1 descriptors_read_back DeviceDescriptor (bytes LanguageString) H).
Defined.
