(* ===== verification/ConfigDescriptors.v ===== *)
(** * ConfigDescriptors: lufa/LUFA/Drivers/USB/Core/ConfigDescriptors.c and .h

    The searches through the sub-descriptors of a configuration descriptor, over
    the bytes of the object they walk through.  They look at the type of the
    position they reach even when no byte remains, so two bytes behind the
    descriptor must be readable; and a sub-descriptor of size zero keeps them in
    place forever.  [USB_Host_GetDeviceConfigDescriptor] exists in host mode only. *)
From S2P Require Import Prelude.
From S2P Require Import UsbEndpoint.
From S2P Require Import Descriptors.

(** What a search ends with: a value, a read outside the object, or not at all
    within the fuel. *)
Inductive outcome (A : Type) :=
  | Ended (a : A)
  | OutOfBounds
  | Spinning.
Arguments Ended {A} a.
Arguments OutOfBounds {A}.
Arguments Spinning {A}.

#[export] Instance outcome_ret : MRet outcome := @Ended.
#[export] Instance outcome_bind : MBind outcome := fun A B k o =>
  match o with Ended a => k a | OutOfBounds => OutOfBounds | Spinning => Spinning end.

(** [*BytesRem] and [*CurrConfigLoc], the latter as an offset into the object. *)
Record cursor := { BytesRem : Z; CurrConfigLoc : nat }.

Definition DESCRIPTOR_SEARCH_Found : Z := 0.
Definition DESCRIPTOR_SEARCH_Fail : Z := 1.
Definition DESCRIPTOR_SEARCH_NotFound : Z := 2.
Definition DESCRIPTOR_SEARCH_COMP_Found : Z := 0.
Definition DESCRIPTOR_SEARCH_COMP_Fail : Z := 1.
Definition DESCRIPTOR_SEARCH_COMP_EndOfDescriptor : Z := 2.

Section search.
(** The object's bytes. *)
Context (mem : list Z).

Definition read_at (n : nat) : outcome Z :=
  match mem !! n with Some b => Ended b | None => OutOfBounds end.
Definition DESCRIPTOR_SIZE (loc : nat) : outcome Z := read_at loc.
Definition DESCRIPTOR_TYPE (loc : nat) : outcome Z := read_at (loc + 1).

Definition USB_GetNextDescriptor (c : cursor) : outcome cursor :=
  CurrDescriptorSize ← DESCRIPTOR_SIZE (CurrConfigLoc c);
  let CurrDescriptorSize :=
    if BytesRem c <? CurrDescriptorSize then BytesRem c else CurrDescriptorSize in
  mret {| BytesRem := u16 (BytesRem c - CurrDescriptorSize);
          CurrConfigLoc := CurrConfigLoc c + Z.to_nat CurrDescriptorSize |}.

Fixpoint USB_GetNextDescriptorOfType (fuel : nat) (Type_ : Z) (c : cursor) : outcome cursor :=
  if BytesRem c =? 0 then mret c else
  match fuel with
  | O => Spinning
  | S fuel =>
      c ← USB_GetNextDescriptor c;
      t ← DESCRIPTOR_TYPE (CurrConfigLoc c);
      if t =? Type_ then mret c
      else USB_GetNextDescriptorOfType fuel Type_ c
  end.

Fixpoint USB_GetNextDescriptorOfTypeBefore (fuel : nat) (Type_ BeforeType : Z) (c : cursor) : outcome cursor :=
  if BytesRem c =? 0 then mret c else
  match fuel with
  | O => Spinning
  | S fuel =>
      c ← USB_GetNextDescriptor c;
      t ← DESCRIPTOR_TYPE (CurrConfigLoc c);
      if t =? Type_ then mret c
      else if t =? BeforeType then mret {| BytesRem := 0; CurrConfigLoc := CurrConfigLoc c |}
      else USB_GetNextDescriptorOfTypeBefore fuel Type_ BeforeType c
  end.

Definition USB_GetNextDescriptorOfTypeAfter (fuel : nat) (Type_ AfterType : Z) (c : cursor) : outcome cursor :=
  c ← USB_GetNextDescriptorOfType fuel AfterType c;
  if BytesRem c =? 0 then mret c
  else USB_GetNextDescriptorOfType fuel Type_ c.

(** The comparator gets a pointer: the object and the offset. *)
Fixpoint USB_GetNextDescriptorComp (fuel : nat) (ComparatorRoutine : nat -> outcome Z) (c : cursor)
    : outcome (Z * cursor) :=
  if BytesRem c =? 0 then mret (DESCRIPTOR_SEARCH_COMP_EndOfDescriptor, c) else
  match fuel with
  | O => Spinning
  | S fuel =>
      let PrevDescLoc := CurrConfigLoc c in
      let PrevBytesRem := BytesRem c in
      c ← USB_GetNextDescriptor c;
      ErrorCode ← ComparatorRoutine (CurrConfigLoc c);
      if negb (ErrorCode =? DESCRIPTOR_SEARCH_NotFound) then
        if ErrorCode =? DESCRIPTOR_SEARCH_Fail
        then mret (ErrorCode, {| BytesRem := PrevBytesRem; CurrConfigLoc := PrevDescLoc |})
        else mret (ErrorCode, c)
      else USB_GetNextDescriptorComp fuel ComparatorRoutine c
  end.
End search.

(** ** Reference: the list of sub-descriptors *)

(** A sub-descriptor: its first byte is its size, its second its type. *)
Definition sub_descriptor (d : list Z) : Prop :=
  (2 <= length d)%nat /\ d !! 0%nat = Some (Z.of_nat (length d)).
Definition type_of (d : list Z) : Z := default 0 (d !! 1%nat).

(** The sub-descriptors from the first one of type [t] on. *)
Fixpoint from_type (t : Z) (ds : list (list Z)) : list (list Z) :=
  match ds with
  | [] => []
  | d :: rest => if type_of d =? t then ds else from_type t rest
  end.

(** From the first one of type [t] or [b] on. *)
Fixpoint from_type_before (t b : Z) (ds : list (list Z)) : list (list Z) :=
  match ds with
  | [] => []
  | d :: rest => if (type_of d =? t) || (type_of d =? b) then ds else from_type_before t b rest
  end.

(** The cursor at the first of the sub-descriptors [ds], the last of which ends at
    offset [n]. *)
Definition size_of (ds : list (list Z)) : nat := length (concat ds).
Definition cursor_at (n : nat) (ds : list (list Z)) : cursor :=
  {| BytesRem := Z.of_nat (size_of ds); CurrConfigLoc := n - size_of ds |}.

(** ** Lemmas *)

Lemma run_ended {A B} (o : outcome A) (k : A -> outcome B) a : o = Ended a -> (o ≫= k) = k a.
Proof. by intros ->. Qed.

Lemma size_of_cons d ds : size_of (d :: ds) = (length d + size_of ds)%nat.
Proof. unfold size_of. cbn [concat]. apply length_app. Qed.

(** [mem] holds [ds], ending at [n], with two bytes behind it; no larger than a
    16-bit size. *)
Definition holds (mem : list Z) (n : nat) (ds : list (list Z)) : Prop :=
  exists pre post, mem = pre ++ concat ds ++ post /\ n = (length pre + size_of ds)%nat /\
    (2 <= length post)%nat /\ Z.of_nat (size_of ds) < 2 ^ 16 /\ Forall sub_descriptor ds.

Lemma holds_tail mem n d ds : holds mem n (d :: ds) -> holds mem n ds.
Proof.
  intros (pre&post&->&->&Hp&Hs&Hd). apply Forall_cons in Hd as [Hd1 Hd]. rewrite size_of_cons in *.
  exists (pre ++ d), post. cbn [concat]. rewrite <- !app_assoc, length_app. split_and!; [done|lia|done|lia|done].
Qed.

(** The type at the cursor: that of the first sub-descriptor, or of what lies behind. *)
Lemma type_at mem n ds :
  holds mem n ds -> exists t, DESCRIPTOR_TYPE mem (CurrConfigLoc (cursor_at n ds)) = Ended t /\
    match ds with [] => True | d :: _ => t = type_of d end.
Proof.
  intros (pre&post&->&->&Hp&_&Hd). unfold DESCRIPTOR_TYPE, read_at, cursor_at. cbn [CurrConfigLoc].
  replace (length pre + size_of ds - size_of ds + 1)%nat with (length pre + 1)%nat by lia.
  rewrite lookup_app_r by lia. replace (length pre + 1 - length pre)%nat with 1%nat by lia.
  destruct ds as [|d ds]; cbn [concat app].
  - destruct post as [|a [|b post]]; cbn in Hp; [lia..|]. by exists b.
  - apply Forall_cons in Hd as [[Hl _] _]. rewrite <- app_assoc, lookup_app_l by lia.
    unfold type_of. destruct (lookup_lt_is_Some_2 d 1) as [b ->]; [lia|]. by exists b.
Qed.

Lemma next_at mem n d ds :
  holds mem n (d :: ds) -> USB_GetNextDescriptor mem (cursor_at n (d :: ds)) = Ended (cursor_at n ds).
Proof.
  intros (pre&post&->&->&Hp&Hs&Hd). apply Forall_cons in Hd as [[Hl Hz] _].
  unfold USB_GetNextDescriptor, DESCRIPTOR_SIZE, read_at, cursor_at. cbn [CurrConfigLoc BytesRem].
  replace (length pre + size_of (d :: ds) - size_of (d :: ds))%nat with (length pre) by lia.
  rewrite lookup_app_r, Nat.sub_diag by lia. cbn [concat]. rewrite <- app_assoc, lookup_app_l, Hz by lia.
  unfold mbind, outcome_bind, mret, outcome_ret. rewrite size_of_cons in *.
  destruct (Z.ltb_spec (Z.of_nat (length d + size_of ds)) (Z.of_nat (length d))); [lia|].
  do 2 f_equal; [|lia]. unfold u16. rewrite uwrap_id; [lia|]. unfold is_u. lia.
Qed.

Lemma cursor_end n ds : (BytesRem (cursor_at n ds) =? 0) = bool_decide (size_of ds = 0%nat).
Proof. cbn. by destruct (size_of ds). Qed.

Lemma size_pos d ds : sub_descriptor d -> size_of (d :: ds) <> 0%nat.
Proof. intros [H _]. rewrite size_of_cons. lia. Qed.

(** One turn of a search that is not at its end: it moves to the next
    sub-descriptor and reads the type there. *)
Lemma turn_at mem n d ds :
  holds mem n (d :: ds) ->
  (BytesRem (cursor_at n (d :: ds)) =? 0) = false /\
  USB_GetNextDescriptor mem (cursor_at n (d :: ds)) = Ended (cursor_at n ds) /\
  exists t, DESCRIPTOR_TYPE mem (CurrConfigLoc (cursor_at n ds)) = Ended t /\
    match ds with [] => True | d :: _ => t = type_of d end.
Proof.
  intros H. split; [|split; [by apply next_at|by eapply type_at, holds_tail]].
  rewrite cursor_end. apply bool_decide_eq_false. destruct H as (_&_&_&_&_&_&Hd).
  apply Forall_cons in Hd as [Hd _]. by apply size_pos.
Qed.

Lemma of_type_end mem n fuel t :
  USB_GetNextDescriptorOfType mem fuel t (cursor_at n []) = Ended (cursor_at n []).
Proof. by destruct fuel. Qed.

Lemma of_type_spec mem n fuel t ds :
  holds mem n ds -> (length ds <= fuel)%nat ->
  USB_GetNextDescriptorOfType mem fuel t (cursor_at n ds) = Ended (cursor_at n (from_type t (tail ds))).
Proof.
  revert fuel. induction ds as [|d ds IH]; intros fuel Hm Hf; [apply of_type_end|].
  destruct fuel as [|fuel]; [cbn in Hf; lia|]. cbn [USB_GetNextDescriptorOfType tail].
  destruct (turn_at mem n d ds Hm) as (->&En&t'&Et&Ht). rewrite (run_ended _ _ _ En), (run_ended _ _ _ Et).
  destruct ds as [|d' ds].
  - rewrite of_type_end. by destruct (t' =? t).
  - subst t'. cbn [from_type]. destruct (type_of d' =? t); [done|].
    apply IH; [by eapply holds_tail|cbn in *; lia].
Qed.

Lemma of_type_before_spec mem n fuel t b ds :
  holds mem n ds -> (length ds <= fuel)%nat ->
  USB_GetNextDescriptorOfTypeBefore mem fuel t b (cursor_at n ds) = Ended
    (let found := from_type_before t b (tail ds) in
     match found with
     | d :: _ => if type_of d =? t then cursor_at n found
                 else {| BytesRem := 0; CurrConfigLoc := CurrConfigLoc (cursor_at n found) |}
     | [] => cursor_at n []
     end).
Proof.
  revert fuel. induction ds as [|d ds IH]; intros fuel Hm Hf; [by destruct fuel|].
  destruct fuel as [|fuel]; [cbn in Hf; lia|]. cbn [USB_GetNextDescriptorOfTypeBefore tail].
  destruct (turn_at mem n d ds Hm) as (->&En&t'&Et&Ht). rewrite (run_ended _ _ _ En), (run_ended _ _ _ Et).
  destruct ds as [|d' ds].
  - cbn [from_type_before]. destruct (t' =? t); [done|]. destruct (t' =? b); [done|by destruct fuel].
  - subst t'. cbn [from_type_before]. destruct (type_of d' =? t) eqn:E1; cbn [orb]; [by rewrite E1|].
    destruct (type_of d' =? b); [by rewrite E1|].
    apply IH; [by eapply holds_tail|cbn in *; lia].
Qed.

Lemma from_type_suffix t ds : exists skipped, ds = skipped ++ from_type t ds.
Proof.
  induction ds as [|d ds [l IH]]; [by exists []|]. cbn [from_type]. destruct (type_of d =? t); [by exists []|].
  exists (d :: l). cbn [app]. by f_equal.
Qed.

Lemma holds_suffix mem n l ds : holds mem n (l ++ ds) -> holds mem n ds.
Proof. induction l as [|d l IH]; [done|]. intros H. apply IH. by eapply holds_tail. Qed.

Lemma of_type_after_spec mem n fuel t a ds :
  holds mem n ds -> (length ds <= fuel)%nat ->
  USB_GetNextDescriptorOfTypeAfter mem fuel t a (cursor_at n ds) =
    Ended (cursor_at n (from_type t (tail (from_type a (tail ds))))).
Proof.
  intros Hm Hf. unfold USB_GetNextDescriptorOfTypeAfter. rewrite (run_ended _ _ _ (of_type_spec mem n fuel a ds Hm Hf)).
  destruct (from_type_suffix a (tail ds)) as [l El]. set (found := from_type a (tail ds)) in *.
  assert (holds mem n found /\ (length found <= fuel)%nat) as [H1 H2].
  { destruct ds as [|d ds]; cbn [tail] in *; [by destruct l, found|].
    split; [apply (holds_suffix mem n (d :: l)); cbn [app]; by rewrite <- El|].
    apply (f_equal length) in El. rewrite length_app in El. cbn in Hf. lia. }
  rewrite cursor_end. case_bool_decide as Hz; [|by apply of_type_spec].
  destruct found as [|d found]; [done|]. destruct H1 as (_&_&_&_&_&_&Hd). apply Forall_cons in Hd as [Hd _].
  by apply size_pos in Hz.
Qed.

(** *** Any bytes at all *)

Lemma u16_sub x y : 0 <= y <= x -> x < 2 ^ 16 -> u16 (x - y) = x - y.
Proof. intros. apply uwrap_id. unfold is_u. lia. Qed.

(** The cursor stays inside, with two bytes behind it. *)
Definition inside (mem : list Z) (n : nat) (c : cursor) : Prop :=
  0 <= BytesRem c < 2 ^ 16 /\ (CurrConfigLoc c + Z.to_nat (BytesRem c) = n)%nat /\ (n + 2 <= length mem)%nat.

Lemma next_inside mem n c :
  Forall is_byte mem -> inside mem n c ->
  exists c', USB_GetNextDescriptor mem c = Ended c' /\ inside mem n c' /\ BytesRem c' <= BytesRem c /\
    exists t, DESCRIPTOR_TYPE mem (CurrConfigLoc c') = Ended t.
Proof.
  intros Hb (Hr&Hn&Hl). unfold USB_GetNextDescriptor, DESCRIPTOR_SIZE, DESCRIPTOR_TYPE, read_at.
  destruct (lookup_lt_is_Some_2 mem (CurrConfigLoc c)) as [z Ez]; [lia|]. rewrite Ez.
  assert (Hz : 0 <= z) by (rewrite Forall_lookup in Hb; apply (Hb _ _ Ez)).
  unfold mbind, outcome_bind, mret, outcome_ret.
  set (k := if BytesRem c <? z then BytesRem c else z).
  assert (0 <= k <= BytesRem c) by (unfold k; destruct (Z.ltb_spec (BytesRem c) z); lia).
  eexists. split; [reflexivity|]. cbn [BytesRem CurrConfigLoc]. rewrite u16_sub by lia.
  split; [unfold inside; cbn [BytesRem CurrConfigLoc]; lia|]. split; [lia|].
  destruct (lookup_lt_is_Some_2 mem (CurrConfigLoc c + Z.to_nat k + 1)) as [t ->]; [lia|]. by exists t.
Qed.

Lemma of_type_inside mem n fuel t c :
  Forall is_byte mem -> inside mem n c ->
  match USB_GetNextDescriptorOfType mem fuel t c with
  | Ended c' => inside mem n c' /\ BytesRem c' <= BytesRem c
  | OutOfBounds => False
  | Spinning => True
  end.
Proof.
  intros Hb. revert c. induction fuel as [|fuel IH]; intros c Hi; cbn [USB_GetNextDescriptorOfType];
    (destruct (BytesRem c =? 0); [by split|]); [done|].
  destruct (next_inside mem n c Hb Hi) as (c'&En&Hi'&Hle&t'&Et). rewrite (run_ended _ _ _ En), (run_ended _ _ _ Et).
  destruct (t' =? t); [by split|]. specialize (IH c' Hi').
  destruct (USB_GetNextDescriptorOfType mem fuel t c'); [|done..]. split; [apply IH|]. lia.
Qed.

(** A sub-descriptor of size zero. *)
Lemma of_type_stuck mem t t' c fuel :
  mem !! CurrConfigLoc c = Some 0 -> mem !! (CurrConfigLoc c + 1)%nat = Some t' -> t' <> t ->
  0 < BytesRem c < 2 ^ 16 -> USB_GetNextDescriptorOfType mem fuel t c = Spinning.
Proof.
  intros Hs Ht Hne Hr. assert (En : USB_GetNextDescriptor mem c = Ended c).
  { unfold USB_GetNextDescriptor, DESCRIPTOR_SIZE, read_at. rewrite Hs. unfold mbind, outcome_bind, mret, outcome_ret.
    rewrite (proj2 (Z.ltb_ge _ _)) by lia. change (Z.to_nat 0) with 0%nat.
    rewrite Z.sub_0_r, Nat.add_0_r. unfold u16. rewrite uwrap_id by (unfold is_u; lia). by destruct c. }
  assert (Et : DESCRIPTOR_TYPE mem (CurrConfigLoc c) = Ended t') by (unfold DESCRIPTOR_TYPE, read_at; by rewrite Ht).
  induction fuel as [|fuel IH]; cbn [USB_GetNextDescriptorOfType];
    rewrite (proj2 (Z.eqb_neq (BytesRem c) 0)) by lia; [done|].
  by rewrite (run_ended _ _ _ En), (run_ended _ _ _ Et), (proj2 (Z.eqb_neq _ _)).
Qed.

(** *** The search with a comparator *)

(** On the list: [f] compares sub-descriptors, and [e] is what the comparator makes
    of the bytes behind the last one, which it is shown as well. *)
Fixpoint compared (f : list Z -> Z) (e : Z) (ds : list (list Z)) : Z * list (list Z) :=
  match ds with
  | [] => (DESCRIPTOR_SEARCH_COMP_EndOfDescriptor, [])
  | _ :: rest =>
      let code := match rest with [] => e | d :: _ => f d end in
      if code =? DESCRIPTOR_SEARCH_NotFound then compared f e rest
      else (code, if code =? DESCRIPTOR_SEARCH_Fail then ds else rest)
  end.

(** The comparator sees the sub-descriptor at the offset, or what is behind. *)
Definition compares (cmp : nat -> outcome Z) (n : nat) (f : list Z -> Z) (e : Z) (ds : list (list Z)) : Prop :=
  cmp n = Ended e /\
  forall l d rest, ds = l ++ d :: rest -> cmp (CurrConfigLoc (cursor_at n (d :: rest))) = Ended (f d).

Lemma compares_tail cmp n f e d ds : compares cmp n f e (d :: ds) -> compares cmp n f e ds.
Proof. intros [H1 H2]. split; [done|]. intros l d' rest ->. by apply (H2 (d :: l)). Qed.

Lemma comp_spec mem n fuel cmp f e ds :
  holds mem n ds -> compares cmp n f e ds -> (length ds <= fuel)%nat ->
  USB_GetNextDescriptorComp mem fuel cmp (cursor_at n ds) =
    Ended ((compared f e ds).1, cursor_at n (compared f e ds).2).
Proof.
  revert fuel. induction ds as [|d ds IH]; intros fuel Hm Hc Hf; [by destruct fuel|].
  destruct fuel as [|fuel]; [cbn in Hf; lia|]. cbn [USB_GetNextDescriptorComp compared].
  destruct (turn_at mem n d ds Hm) as (->&En&_). rewrite (run_ended _ _ _ En).
  set (code := match ds with [] => e | d' :: _ => f d' end).
  assert (Ec : cmp (CurrConfigLoc (cursor_at n ds)) = Ended code).
  { destruct Hc as [Hc1 Hc2]. destruct ds as [|d' ds]; [|by apply (Hc2 [d])].
    cbn. by rewrite Nat.sub_0_r. }
  rewrite (run_ended _ _ _ Ec). destruct (code =? DESCRIPTOR_SEARCH_NotFound); cbn [negb].
  - apply IH; [by eapply holds_tail|by eapply compares_tail|cbn in Hf; lia].
  - by destruct (code =? DESCRIPTOR_SEARCH_Fail).
Qed.

(** ** Properties *)

(** C40: the searches are searches in a list.  Let the object hold a list of
    sub-descriptors, each with its length in its first byte, and two bytes more.
    From the first of them, with as much fuel as there are sub-descriptors, the
    search for a type ends at the next one of that type, or at the end with no byte
    remaining; the search for a type before another ends at the first of either,
    with no byte remaining if it was the other one; and the search for a type
    after another is the composition of two searches. *)
Theorem searches_are_list_searches mem n fuel t t' ds :
  holds mem n ds -> (length ds <= fuel)%nat ->
  USB_GetNextDescriptorOfType mem fuel t (cursor_at n ds) = Ended (cursor_at n (from_type t (tail ds))) /\
  USB_GetNextDescriptorOfTypeBefore mem fuel t t' (cursor_at n ds) = Ended
    (let found := from_type_before t t' (tail ds) in
     match found with
     | d :: _ => if type_of d =? t then cursor_at n found
                 else {| BytesRem := 0; CurrConfigLoc := CurrConfigLoc (cursor_at n found) |}
     | [] => cursor_at n []
     end) /\
  USB_GetNextDescriptorOfTypeAfter mem fuel t t' (cursor_at n ds) =
    Ended (cursor_at n (from_type t (tail (from_type t' (tail ds))))).
Proof. intros Hm Hf. split_and!; [by apply of_type_spec|by apply of_type_before_spec|by apply of_type_after_spec]. Qed.

(** The firmware's own configuration descriptor, with two bytes behind it. *)
Definition own_parts : list (list Z) :=
  let c := ConfigurationDescriptor in
  [bytes (Config c); bytes (CDC_CCI_Interface c); bytes (CDC_Functional_Header c); bytes (CDC_Functional_ACM c);
   bytes (CDC_Functional_Union c); bytes (CDC_ManagementEndpoint c); bytes (CDC_DCI_Interface c);
   bytes (CDC_DataOutEndpoint c); bytes (CDC_DataInEndpoint c)].
Definition own_memory : list Z := bytes ConfigurationDescriptor ++ [7; 5].

Lemma own_holds : holds own_memory 62 own_parts.
Proof.
  exists [], [7; 5]. split; [reflexivity|]. split; [reflexivity|]. split; [cbn; lia|]. split; [reflexivity|].
  repeat (apply Forall_cons; split; [split; [apply Nat.leb_le; reflexivity|reflexivity]|]). apply Forall_nil. exact I.
Qed.

(** The first endpoint is the one for notifications, at offset 32, and the first
    endpoint after a data interface (searching again from the first interface)
    the one for data out, at offset 48. *)
Lemma searches_are_list_searches_witness :
  USB_GetNextDescriptorOfType own_memory 9 DTYPE_Endpoint {| BytesRem := 62; CurrConfigLoc := 0 |} =
    Ended {| BytesRem := 30; CurrConfigLoc := 32 |} /\
  USB_GetNextDescriptorOfTypeBefore own_memory 9 DTYPE_Endpoint DTYPE_Interface {| BytesRem := 62; CurrConfigLoc := 0 |} =
    Ended {| BytesRem := 0; CurrConfigLoc := 9 |} /\
  USB_GetNextDescriptorOfTypeAfter own_memory 9 DTYPE_Interface DTYPE_Endpoint {| BytesRem := 62; CurrConfigLoc := 0 |} =
    Ended {| BytesRem := 23; CurrConfigLoc := 39 |}.
Proof.
  destruct (searches_are_list_searches own_memory 62 9 DTYPE_Endpoint DTYPE_Interface own_parts own_holds) as (H1&H2&_);
    [cbn; lia|].
  destruct (searches_are_list_searches own_memory 62 9 DTYPE_Interface DTYPE_Endpoint own_parts own_holds) as (_&_&H3);
    [cbn; lia|].
  split; [exact H1|]. split; [exact H2|exact H3].
Defined.

(** any bytes at all.  Whatever the bytes say, as long as two of them can be
    read behind the end the search never reads outside the object and its cursor
    neither leaves it nor gains bytes; but at a sub-descriptor of size zero whose
    type is another one than the one searched the search never ends. *)
Theorem search_stays_inside mem n fuel t c :
  Forall is_byte mem -> inside mem n c ->
  USB_GetNextDescriptorOfType mem fuel t c <> OutOfBounds /\
  (forall c', USB_GetNextDescriptorOfType mem fuel t c = Ended c' -> inside mem n c' /\ BytesRem c' <= BytesRem c) /\
  (forall t', mem !! CurrConfigLoc c = Some 0 -> mem !! (CurrConfigLoc c + 1)%nat = Some t' -> t' <> t ->
   0 < BytesRem c -> USB_GetNextDescriptorOfType mem fuel t c = Spinning).
Proof.
  intros Hb Hi. pose proof (of_type_inside mem n fuel t c Hb Hi) as H. split; [|split].
  - intros E. by rewrite E in H.
  - intros c' E. by rewrite E in H.
  - intros t' H1 H2 H3 H4. apply (of_type_stuck mem t t'); try done. destruct Hi as (?&_). lia.
Qed.

Lemma search_stays_inside_witness :
  USB_GetNextDescriptorOfType [0; 2; 0; 0] 1000 DTYPE_Endpoint {| BytesRem := 2; CurrConfigLoc := 0 |} = Spinning.
Proof.
  assert (Hb : Forall is_byte [0; 2; 0; 0]) by (repeat constructor; unfold is_u; lia).
  destruct (search_stays_inside [0; 2; 0; 0] 2 1000 DTYPE_Endpoint {| BytesRem := 2; CurrConfigLoc := 0 |} Hb)
    as (_&_&H); [unfold inside; cbn; lia|].
  apply (H 2); [reflexivity|reflexivity|discriminate|cbn; lia].
Defined.

(** The comparator is shown what lies behind the last sub-descriptor: here it
    takes the two bytes there for one more endpoint. *)
Definition endpoint_comparator (mem : list Z) (loc : nat) : outcome Z :=
  t ← DESCRIPTOR_TYPE mem loc;
  mret (if t =? DTYPE_Endpoint then DESCRIPTOR_SEARCH_Found else DESCRIPTOR_SEARCH_NotFound).

Example comparator_finds_behind_the_end :
  USB_GetNextDescriptorComp own_memory 9 (endpoint_comparator own_memory) {| BytesRem := 7; CurrConfigLoc := 55 |} =
    Ended (DESCRIPTOR_SEARCH_COMP_Found, {| BytesRem := 0; CurrConfigLoc := 62 |}).
Proof. reflexivity. Qed.
