(* ===== verification/UsbStream.v ===== *)
(** * UsbStream: EndpointStream_AVR8.c with its templates, and the waits of Endpoint_AVR8.c

    Library functions that wait for the host.  What the host and the bus do in
    the meantime is a schedule, a list of moves: every turn of a waiting loop
    takes the next move.  A function whose schedule ends while it is still
    waiting has no result ([None]).  The volatile flags are read once per turn;
    a change between two reads of one turn acts as one between turns. *)
From S2P Require Import Prelude.
From S2P Require Import UsbEndpoint.

(** ** The host and the bus *)

Inductive host_move :=
  | Idle
  | CollectIN (n : Z)                    (* the host takes the packet of an IN endpoint *)
  | SendOUT (n : Z) (packet : list Z)    (* the host sends a packet to an OUT endpoint *)
  | SendSETUP (packet : list Z)          (* the host starts a control transfer *)
  | BusState (x : device_state)          (* an interrupt reports a bus event *)
  | NextFrame                            (* a start of frame *)
  | PllLocked.                           (* the clock generator has locked *)

Definition on_control (f : endpoint -> endpoint) (u : usb_hw) : usb_hw := with_ep 0 (f (ep u 0)) u.

Definition PLOCK : Z := 0.

Definition host_act (m : host_move) (u : usb_hw) : usb_hw :=
  match m with
  | Idle => u
  | CollectIN n =>
      if n =? 0 then with_dev (fun d => dev_control true (RXOUTI0 d) d) u else host_take n u
  | SendOUT n packet =>
      if n =? 0 then
        if RXOUTI0 (dev u) then u
        else with_dev (fun d => dev_control (TXINI0 d) true d) (on_control (with_bank packet) u)
      else host_send n packet u
  | SendSETUP packet =>
      (* A SETUP packet is always accepted and ends a stall of the endpoint. *)
      with_setup true (on_control (with_bank packet)
        (with_dev (fun d => dev_control (TXINI0 d) false
           (dev_ep 0 (clear_bits (UECONX d 0) (2 ^ STALLRQ)) (UEIENX d 0) d)) u))
  | BusState x => with_state x u
  | NextFrame => with_dev (fun d => dev_reg UDFNUM ((ureg d UDFNUM + 1) mod 2 ^ 11) d) u
  | PllLocked => with_dev (fun d => dev_reg PLLCSR (set_bits (ureg d PLLCSR) (2 ^ PLOCK)) d) u
  end.

(** The state of a function that waits: the moves to come and the hardware. *)
Definition io (A : Type) : Type := M (list host_move * usb_hw) A.

Definition hw_get {A} (f : usb_hw -> A) : io A := gets (fun st => f st.2).
Definition hw_do (f : usb_hw -> usb_hw) : io unit := modify (fun st => (st.1, f st.2)).

(** A loop without effects: leave it when [test] answers. *)
Fixpoint wait_for {A} (test : usb_hw -> option A) (ms : list host_move) (u : usb_hw) :
    option (A * (list host_move * usb_hw)) :=
  match test u with
  | Some a => Some (a, (ms, u))
  | None => match ms with [] => None | m :: ms => wait_for test ms (host_act m u) end
  end.
Definition wait {A} (test : usb_hw -> option A) : io A := fun '(ms, u) => wait_for test ms u.

(** ** Endpoint_AVR8.c *)

Definition REQDIR_HOSTTODEVICE : Z := Z.shiftl 0 7.
Definition REQDIR_DEVICETOHOST : Z := Z.shiftl 1 7.

(** [while (!flag) { if (USB_DeviceState == DEVICE_STATE_Unattached) return; }]:
    whether the flag came. *)
Definition flag_or_gone (flag : usb_hw -> bool) (u : usb_hw) : option bool :=
  if flag u then Some true
  else if decide (USB_DeviceState u = Unattached) then Some false else None.

Definition Endpoint_ClearStatusStage : io unit :=
  req ← hw_get (fun u => USB_ControlRequest (dev u));
  if to_bool (Z.land (bmRequestType req) REQDIR_DEVICETOHOST) then
    ok ← wait (flag_or_gone Endpoint_IsOUTReceived);
    if ok : bool then hw_do Endpoint_ClearOUT else mret tt
  else
    ok ← wait (flag_or_gone Endpoint_IsINReady);
    if ok : bool then hw_do Endpoint_ClearIN else mret tt.

Inductive readywait :=
  | READYWAIT_NoError | READYWAIT_EndpointStalled | READYWAIT_DeviceDisconnected
  | READYWAIT_BusSuspended | READYWAIT_Timeout.

Definition USB_STREAM_TIMEOUT_MS : Z := 100.
Definition USB_Device_GetFrameNumber (u : usb_hw) : Z := ureg (dev u) UDFNUM.

(** One turn of the loop: the result, or the new values of the two locals. *)
Definition ready_turn (TimeoutMSRem PreviousFrameNumber : Z) (u : usb_hw) : readywait + Z * Z :=
  if (if Endpoint_GetEndpointDirection u =? ENDPOINT_DIR_IN then Endpoint_IsINReady u
      else Endpoint_IsOUTReceived u) then inl READYWAIT_NoError
  else if decide (USB_DeviceState u = Unattached) then inl READYWAIT_DeviceDisconnected
  else if decide (USB_DeviceState u = Suspended) then inl READYWAIT_BusSuspended
  else if Endpoint_IsStalled u then inl READYWAIT_EndpointStalled
  else
    let CurrentFrameNumber := USB_Device_GetFrameNumber u in
    if CurrentFrameNumber =? PreviousFrameNumber then inr (TimeoutMSRem, PreviousFrameNumber)
    else if TimeoutMSRem =? 0 then inl READYWAIT_Timeout
    else inr (u8 (TimeoutMSRem - 1), CurrentFrameNumber).

Fixpoint ready_loop (TimeoutMSRem PreviousFrameNumber : Z) (ms : list host_move) (u : usb_hw) :
    option (readywait * (list host_move * usb_hw)) :=
  match ready_turn TimeoutMSRem PreviousFrameNumber u with
  | inl code => Some (code, (ms, u))
  | inr (t, f) => match ms with [] => None | m :: ms => ready_loop t f ms (host_act m u) end
  end.

Definition Endpoint_WaitUntilReady : io readywait := fun '(ms, u) =>
  ready_loop USB_STREAM_TIMEOUT_MS (USB_Device_GetFrameNumber u) ms u.

(** ** Template_Endpoint_Control_W.c *)

Inductive rwcstream :=
  | RWCSTREAM_NoError | RWCSTREAM_HostAborted | RWCSTREAM_DeviceDisconnected | RWCSTREAM_BusSuspended.

(** [FIXED_CONTROL_ENDPOINT_SIZE] *)
Definition USB_Device_ControlEndpointSize : Z := 8.

(** Gone or asleep. *)
Definition bus_lost (u : usb_hw) : option rwcstream :=
  if decide (USB_DeviceState u = Unattached) then Some RWCSTREAM_DeviceDisconnected
  else if decide (USB_DeviceState u = Suspended) then Some RWCSTREAM_BusSuspended
  else None.
(** Gone, asleep, or the host has started another request. *)
Definition aborted (u : usb_hw) : option rwcstream :=
  match bus_lost u with
  | Some code => Some code
  | None => if Endpoint_IsSETUPReceived u then Some RWCSTREAM_HostAborted else None
  end.

(** [while (Length && (BytesInEndpoint < USB_Device_ControlEndpointSize))] *)
Fixpoint fill (DataStream : list Z) (BytesInEndpoint : Z) (u : usb_hw) : list Z * Z * usb_hw :=
  match DataStream with
  | [] => ([], BytesInEndpoint, u)
  | b :: rest =>
      if BytesInEndpoint <? USB_Device_ControlEndpointSize
      then fill rest (BytesInEndpoint + 1) (Endpoint_Write_8 b u)
      else (DataStream, BytesInEndpoint, u)
  end.

(** [if (Endpoint_IsINReady()) { ... }]: the rest of the data, [LastPacketFull]
    and the hardware. *)
Definition send_packet (DataStream : list Z) (LastPacketFull : bool) (u : usb_hw) : list Z * bool * usb_hw :=
  if Endpoint_IsINReady u then
    let '(DataStream, BytesInEndpoint, u) := fill DataStream (Endpoint_BytesInEndpoint u) u in
    (DataStream, BytesInEndpoint =? USB_Device_ControlEndpointSize, Endpoint_ClearIN u)
  else (DataStream, LastPacketFull, u).

(** The data loop: a code when it returns, [None] when it is left. *)
Fixpoint write_loop (DataStream : list Z) (LastPacketFull : bool) (ms : list host_move) (u : usb_hw) :
    option (option rwcstream * (list host_move * usb_hw)) :=
  if bool_decide (DataStream = []) && negb LastPacketFull then Some (None, (ms, u))
  else match aborted u with
  | Some code => Some (Some code, (ms, u))
  | None =>
      if Endpoint_IsOUTReceived u then Some (None, (ms, u))
      else match ms with
      | [] => None
      | m :: ms =>
          let '(DataStream, LastPacketFull, u) := send_packet DataStream LastPacketFull u in
          write_loop DataStream LastPacketFull ms (host_act m u)
      end
  end.

(** [DataStream] lists the bytes from [TEMPLATE_BUFFER_OFFSET] on in the order of
    [TEMPLATE_BUFFER_MOVE]. *)
Definition Template_Endpoint_Control_W (DataStream : list Z) : io rwcstream := fun '(ms, u) =>
  let n := wLength (USB_ControlRequest (dev u)) in
  let Length := Z.of_nat (length DataStream) in
  let '(DataStream, u) :=
    if n <? Length then (take (Z.to_nat n) DataStream, u)
    else if Length =? 0 then (DataStream, Endpoint_ClearIN u)
    else (DataStream, u) in
  match write_loop DataStream false ms u with
  | None => None
  | Some (Some code, st) => Some (code, st)
  | Some (None, (ms, u)) =>
      wait_for (fun u => if Endpoint_IsOUTReceived u then Some RWCSTREAM_NoError else aborted u) ms u
  end.

(** From RAM, from flash and from EEPROM, upwards and downwards. *)
Definition Endpoint_Write_Control_Stream_LE (Buffer : list Z) := Template_Endpoint_Control_W Buffer.
Definition Endpoint_Write_Control_Stream_BE (Buffer : list Z) := Template_Endpoint_Control_W (rev Buffer).
Definition Endpoint_Write_Control_PStream_LE (Buffer : list Z) := Template_Endpoint_Control_W Buffer.
Definition Endpoint_Write_Control_PStream_BE (Buffer : list Z) := Template_Endpoint_Control_W (rev Buffer).
Definition Endpoint_Write_Control_EStream_LE (Buffer : list Z) := Template_Endpoint_Control_W Buffer.
Definition Endpoint_Write_Control_EStream_BE (Buffer : list Z) := Template_Endpoint_Control_W (rev Buffer).

(** ** Template_Endpoint_Control_R.c *)

(** [while (Length && Endpoint_BytesInEndpoint())]: the bytes read. *)
Fixpoint take_bytes (Length : nat) (u : usb_hw) : list Z * usb_hw :=
  match Length with
  | O => ([], u)
  | S n =>
      if to_bool (Endpoint_BytesInEndpoint u) then
        let '(b, u) := Endpoint_Read_8 u in
        let '(l, u) := take_bytes n u in (b :: l, u)
      else ([], u)
  end.

Fixpoint read_loop (Length : nat) (got : list Z) (ms : list host_move) (u : usb_hw) :
    option (option rwcstream * list Z * (list host_move * usb_hw)) :=
  match Length with
  | O => Some (None, got, (ms, u))
  | S _ =>
      match aborted u with
      | Some code => Some (Some code, got, (ms, u))
      | None =>
          match ms with
          | [] => None
          | m :: ms =>
              if Endpoint_IsOUTReceived u then
                let '(l, u) := take_bytes Length u in
                read_loop (Length - length l) (got ++ l) ms (host_act m (Endpoint_ClearOUT u))
              else read_loop Length got ms (host_act m u)
          end
      end
  end.

(** The code and the bytes stored, in the order of the transfer. *)
Definition Template_Endpoint_Control_R (Length : nat) : io (rwcstream * list Z) := fun '(ms, u) =>
  let u := if decide (Length = O) then Endpoint_ClearOUT u else u in
  match read_loop Length [] ms u with
  | None => None
  | Some (Some code, got, st) => Some ((code, got), st)
  | Some (None, got, (ms, u)) =>
      '(code, st) ← wait_for (fun u => if Endpoint_IsINReady u then Some RWCSTREAM_NoError else bus_lost u) ms u;
      Some ((code, got), st)
  end.

(** Upwards the bytes fill the buffer from its start, downwards from its end. *)
Definition Endpoint_Read_Control_Stream_LE (Length : nat) : io (rwcstream * list Z) :=
  Template_Endpoint_Control_R Length.
Definition Endpoint_Read_Control_Stream_BE (Length : nat) : io (rwcstream * list Z) :=
  '(code, got) ← Template_Endpoint_Control_R Length; mret (code, rev got).
(** Into EEPROM: [eeprom_update_byte] stores the same bytes. *)
Definition Endpoint_Read_Control_EStream_LE (Length : nat) : io (rwcstream * list Z) :=
  Template_Endpoint_Control_R Length.
Definition Endpoint_Read_Control_EStream_BE (Length : nat) : io (rwcstream * list Z) :=
  '(code, got) ← Template_Endpoint_Control_R Length; mret (code, rev got).

(** ** Template_Endpoint_RW.c *)

Inductive rwstream :=
  | RWSTREAM_NoError | RWSTREAM_EndpointStalled | RWSTREAM_DeviceDisconnected
  | RWSTREAM_BusSuspended | RWSTREAM_Timeout | RWSTREAM_IncompleteTransfer.

#[export] Instance rwstream_eq_dec : EqDecision rwstream.
Proof. solve_decision. Defined.

(** The two enumerations agree on their common codes. *)
Definition ready_code (c : readywait) : rwstream :=
  match c with
  | READYWAIT_NoError => RWSTREAM_NoError
  | READYWAIT_EndpointStalled => RWSTREAM_EndpointStalled
  | READYWAIT_DeviceDisconnected => RWSTREAM_DeviceDisconnected
  | READYWAIT_BusSuspended => RWSTREAM_BusSuspended
  | READYWAIT_Timeout => RWSTREAM_Timeout
  end.

Section streams.
(** What is left of a transfer; how much of it the current bank takes or gives;
    [TEMPLATE_CLEAR_ENDPOINT]. *)
Context {D : Type} (finished : D -> bool) (transfer : D -> usb_hw -> D * usb_hw).
Context (clear : usb_hw -> usb_hw).

(** The wait for the endpoint and, when it is ready, the transfer.  With a
    [BytesProcessed] pointer the function returns at every end of a bank. *)
Fixpoint stream_loop (has_pointer : bool) (TimeoutMSRem PreviousFrameNumber : Z) (d : D)
    (ms : list host_move) (u : usb_hw) : option (rwstream * D * (list host_move * usb_hw)) :=
  match ready_turn TimeoutMSRem PreviousFrameNumber u with
  | inl READYWAIT_NoError =>
      let '(d, u) := transfer d u in
      if finished d then Some (RWSTREAM_NoError, d, (ms, u))
      else
        let u := clear u in
        if has_pointer then Some (RWSTREAM_IncompleteTransfer, d, (ms, u))
        else match ms with
        | [] => None
        | m :: ms =>
            let u := host_act m u in
            stream_loop has_pointer USB_STREAM_TIMEOUT_MS (USB_Device_GetFrameNumber u) d ms u
        end
  | inl code => Some (ready_code code, d, (ms, u))
  | inr (t, f) =>
      match ms with [] => None | m :: ms => stream_loop has_pointer t f d ms (host_act m u) end
  end.

Definition stream (has_pointer : bool) (d : D) : io (rwstream * D) := fun '(ms, u) =>
  '(code, d, st) ← stream_loop has_pointer USB_STREAM_TIMEOUT_MS (USB_Device_GetFrameNumber u) d ms u;
  Some ((code, d), st).
End streams.

(** While the bank allows it, write the next byte. *)
Fixpoint put_bytes (DataStream : list Z) (u : usb_hw) : list Z * usb_hw :=
  match DataStream with
  | [] => ([], u)
  | b :: rest =>
      if Endpoint_IsReadWriteAllowed u then put_bytes rest (Endpoint_Write_8 b u) else (DataStream, u)
  end.
(** While the bank allows it, read the next byte: the bytes still to read and
    those read so far. *)
Fixpoint get_bytes (Length : nat) (got : list Z) (u : usb_hw) : nat * list Z * usb_hw :=
  match Length with
  | O => (O, got, u)
  | S n =>
      if Endpoint_IsReadWriteAllowed u then
        let '(b, u) := Endpoint_Read_8 u in get_bytes n (got ++ [b]) u
      else (Length, got, u)
  end.

(** [BytesProcessed]: [None] for a null pointer. The new value comes last. *)
Definition is_pointer (BytesProcessed : option nat) : bool := bool_decide (is_Some BytesProcessed).
Definition Template_Endpoint_Write (DataStream : list Z) (BytesProcessed : option nat) :
    io (rwstream * option nat) :=
  '(code, rest) ← stream (fun d => bool_decide (d = [])) put_bytes Endpoint_ClearIN
    (is_pointer BytesProcessed) (drop (default 0%nat BytesProcessed) DataStream);
  mret (code, if decide (code = RWSTREAM_IncompleteTransfer)
              then Some (length DataStream - length rest)%nat else BytesProcessed).
Definition Template_Endpoint_Read (Length : nat) (BytesProcessed : option nat) :
    io (rwstream * list Z * option nat) :=
  '(code, (rest, got)) ← stream (fun d => bool_decide (d.1 = O)) (fun d => get_bytes d.1 d.2)
    Endpoint_ClearOUT (is_pointer BytesProcessed) (Length - default 0 BytesProcessed, [])%nat;
  mret (code, got, if decide (code = RWSTREAM_IncompleteTransfer)
                   then Some (Length - rest)%nat else BytesProcessed).

Definition Endpoint_Write_Stream_LE (Buffer : list Z) := Template_Endpoint_Write Buffer.
Definition Endpoint_Write_Stream_BE (Buffer : list Z) := Template_Endpoint_Write (rev Buffer).
Definition Endpoint_Read_Stream_LE (Length : nat) := Template_Endpoint_Read Length.
Definition Endpoint_Read_Stream_BE (Length : nat) (BytesProcessed : option nat) :
    io (rwstream * list Z * option nat) :=
  '(code, got, n) ← Template_Endpoint_Read Length BytesProcessed; mret (code, rev got, n).
Definition Endpoint_Write_PStream_LE (Buffer : list Z) := Template_Endpoint_Write Buffer.
Definition Endpoint_Write_PStream_BE (Buffer : list Z) := Template_Endpoint_Write (rev Buffer).
Definition Endpoint_Write_EStream_LE (Buffer : list Z) := Template_Endpoint_Write Buffer.
Definition Endpoint_Write_EStream_BE (Buffer : list Z) := Template_Endpoint_Write (rev Buffer).
Definition Endpoint_Read_EStream_LE (Length : nat) := Template_Endpoint_Read Length.
Definition Endpoint_Read_EStream_BE (Length : nat) (BytesProcessed : option nat) :
    io (rwstream * list Z * option nat) :=
  '(code, got, n) ← Template_Endpoint_Read Length BytesProcessed; mret (code, rev got, n).

(** EndpointStream_AVR8.c proper: bytes thrown away, and zeros sent. *)
Definition Endpoint_Discard_Stream (Length : nat) (BytesProcessed : option nat) : io (rwstream * option nat) :=
  '(code, _, n) ← Template_Endpoint_Read Length BytesProcessed; mret (code, n).
Definition Endpoint_Null_Stream (Length : nat) (BytesProcessed : option nat) : io (rwstream * option nat) :=
  Template_Endpoint_Write (replicate Length 0) BytesProcessed.

(** ** Specification *)

(** On the control endpoint the operations act on its bank and flags. *)
Lemma control_write_8 b u :
  UENUM u = 0 -> Endpoint_Write_8 b u = on_control (fun e => with_bank (bank e ++ [u8 b]) e) u.
Proof. intros E. unfold Endpoint_Write_8, on_selected, selected. by rewrite E. Qed.

Lemma ep_on_control f u : ep (on_control f u) 0 = f (ep u 0).
Proof. reflexivity. Qed.

(** *** What the waiting functions leave alone

    Outside the control endpoint only the host acts: [off_data] compares the other
    endpoints and the state of the device, [off_control] the registers, the request
    it serves and the number of its configuration as well. *)

Definition host_acts : list host_move -> usb_hw -> usb_hw := fold_left (fun u m => host_act m u).

Definition off_data (u u' : usb_hw) : Prop :=
  USB_DeviceState u' = USB_DeviceState u /\ forall n, n <> 0 -> ep u' n = ep u n.
Definition same_vars (u u' : usb_hw) : Prop :=
  USB_ControlRequest (dev u') = USB_ControlRequest (dev u) /\ ureg (dev u') = ureg (dev u) /\
  USB_Device_ConfigurationNumber (dev u') = USB_Device_ConfigurationNumber (dev u).
Definition off_control (u u' : usb_hw) : Prop := off_data u u' /\ same_vars u u'.

#[export] Instance off_data_equivalence : Equivalence off_data.
Proof.
  split.
  - by intros u.
  - intros u v [E H]. split; [done|]. intros n Hn. by rewrite H.
  - intros u v w [E H] [E' H']. split; [congruence|]. intros n Hn. by rewrite H', H.
Qed.
#[export] Instance off_control_equivalence : Equivalence off_control.
Proof.
  split.
  - by intros u.
  - intros u v [H (R1&R2&R3)]. by split; [symmetry|].
  - intros u v w [H (R1&R2&R3)] [H' (S1&S2&S3)]. split; [by etransitivity|split_and!; congruence].
Qed.

Lemma ep_host_act m n u : n <> 0 -> ep (host_act m u) n =
  match m with
  | CollectIN k => if k =? 0 then ep u n else ep (host_take k u) n
  | SendOUT k packet => if k =? 0 then ep u n else ep (host_send k packet u) n
  | _ => ep u n
  end.
Proof.
  intros Hn. destruct m as [|k|k p|p|x| |]; try done; cbn [host_act].
  - by destruct (k =? 0).
  - destruct (k =? 0); [|done]. destruct (RXOUTI0 (dev u)); [done|].
    cbn [ep with_dev]. unfold on_control. by rewrite ep_with_ep_ne.
  - cbn [ep with_setup]. unfold on_control. by rewrite ep_with_ep_ne.
Qed.

Lemma state_host_act m u :
  USB_DeviceState (host_act m u) = match m with BusState x => x | _ => USB_DeviceState u end.
Proof.
  destruct m as [|k|k p|p|x| |]; try done; cbn [host_act].
  - destruct (k =? 0); [done|]. unfold host_take. by destruct (ep_is_in _).
  - destruct (k =? 0); [by destruct (RXOUTI0 _)|]. unfold host_send. by destruct (_ || _).
Qed.

Lemma request_host_act m u : USB_ControlRequest (dev (host_act m u)) = USB_ControlRequest (dev u).
Proof.
  destruct m as [|k|k p|p|x| |]; try done; cbn [host_act].
  - destruct (k =? 0); [done|]. unfold host_take. by destruct (ep_is_in _).
  - destruct (k =? 0); [by destruct (RXOUTI0 _)|]. unfold host_send. by destruct (_ || _).
Qed.

Lemma vars_host_act m u v : same_vars u v -> same_vars (host_act m u) (host_act m v).
Proof.
  intros (R1&R2&R3). split; [by rewrite !request_host_act|].
  assert (K : forall x, USB_Device_ConfigurationNumber (dev (host_act m x)) = USB_Device_ConfigurationNumber (dev x)).
  { intros x. destruct m as [|k|k p|p|y| |]; try done; cbn [host_act].
    - destruct (k =? 0); [done|]. unfold host_take. by destruct (ep_is_in _).
    - destruct (k =? 0); [by destruct (RXOUTI0 _)|]. unfold host_send. by destruct (_ || _). }
  split; [|by rewrite !K].
  assert (G : forall x, ureg (dev (host_act m x)) = match m with
    | NextFrame => ureg (dev_reg UDFNUM ((ureg (dev x) UDFNUM + 1) mod 2 ^ 11) (dev x))
    | PllLocked => ureg (dev_reg PLLCSR (set_bits (ureg (dev x) PLLCSR) (2 ^ PLOCK)) (dev x))
    | _ => ureg (dev x) end).
  { intros x. destruct m as [|k|k p|p|y| |]; try done; cbn [host_act].
    - destruct (k =? 0); [done|]. unfold host_take. by destruct (ep_is_in _).
    - destruct (k =? 0); [by destruct (RXOUTI0 _)|]. unfold host_send. by destruct (_ || _). }
  rewrite !G. destruct m; cbn [dev_reg ureg]; by rewrite R2.
Qed.

#[export] Instance host_act_data m : Proper (off_data ==> off_data) (host_act m).
Proof.
  intros u v [E H]. split; [by rewrite !state_host_act, E|].
  intros n Hn. rewrite !ep_host_act by done. destruct m as [|k|k p|p|x| |]; auto.
  - destruct (Z.eqb_spec k 0); [auto|]. unfold host_take. rewrite (H k) by done.
    destruct (ep_is_in _); [|auto]. rewrite !ep_with_ep. by rewrite H.
  - destruct (Z.eqb_spec k 0); [auto|]. unfold host_send. rewrite (H k) by done.
    destruct (_ || _); [auto|]. rewrite !ep_with_ep. by rewrite H.
Qed.
#[export] Instance host_act_proper m : Proper (off_control ==> off_control) (host_act m).
Proof. intros u v [H R]. split; [by apply host_act_data|by apply vars_host_act]. Qed.

#[export] Instance host_acts_data ms : Proper (off_data ==> off_data) (host_acts ms).
Proof. induction ms as [|m ms IH]; intros u v H; [done|]. cbn. apply IH. by apply host_act_data. Qed.
#[export] Instance host_acts_proper ms : Proper (off_control ==> off_control) (host_acts ms).
Proof. induction ms as [|m ms IH]; intros u v H; [done|]. cbn. apply IH. by apply host_act_proper. Qed.

Lemma request_host_acts ms u : USB_ControlRequest (dev (host_acts ms u)) = USB_ControlRequest (dev u).
Proof. revert u. induction ms as [|m ms IH]; intros u; [done|]. cbn. by rewrite IH, request_host_act. Qed.

(** Moves on the control endpoint only. *)
Definition control_move (m : host_move) : bool :=
  match m with CollectIN n | SendOUT n _ => n =? 0 | BusState _ => false | _ => true end.

Lemma control_moves ms u : Forall control_move ms -> off_data u (host_acts ms u).
Proof.
  intros H. revert u. induction H as [|m ms Hm _ IH]; intros u; [done|]. cbn.
  etransitivity; [|apply IH]. split.
  - rewrite state_host_act. by destruct m.
  - intros n Hn. rewrite ep_host_act by done. destruct m as [|k|k p|p|x| |]; try done; cbn in Hm;
      by destruct (k =? 0).
Qed.

(** The packets of one control transfer. *)
Definition handshake (m : host_move) : bool :=
  match m with Idle => true | CollectIN n | SendOUT n _ => n =? 0 | _ => false end.

Lemma handshakes ms u : Forall handshake ms -> off_control u (host_acts ms u).
Proof.
  intros H. revert u. induction H as [|m ms Hm _ IH]; intros u; [done|]. cbn.
  etransitivity; [|apply IH]. split; [apply (control_moves [m])|].
  - repeat constructor. by destruct m.
  - destruct m as [|k|k p|p|x| |]; try done; cbn [host_act]; cbn in Hm;
      destruct (k =? 0); try done. by destruct (RXOUTI0 _).
Qed.

(** The endpoint stays selected through the host's moves. *)
Lemma selected_host_act m u : UENUM (host_act m u) = UENUM u.
Proof.
  destruct m as [|k|k p|p|x| |]; try done; cbn [host_act].
  - destruct (k =? 0); [done|]. unfold host_take. by destruct (ep_is_in _).
  - destruct (k =? 0); [by destruct (RXOUTI0 _)|]. unfold host_send. by destruct (_ || _).
Qed.

(** A request is waiting only if it was, or if the host made one. *)
Definition is_setup (m : host_move) : bool := match m with SendSETUP _ => true | _ => false end.
Definition setup_from (used : list host_move) (u u' : usb_hw) : Prop :=
  RXSTPI u' = true -> RXSTPI u = true \/ Exists is_setup used.

Lemma setup_from_trans l1 l2 u v w : setup_from l1 u v -> setup_from l2 v w -> setup_from (l1 ++ l2) u w.
Proof.
  unfold setup_from. intros H1 H2 H. rewrite Exists_app. destruct (H2 H) as [H3|]; [|auto].
  destruct (H1 H3); auto.
Qed.

Lemma setup_host_act m u : setup_from [m] u (host_act m u).
Proof.
  unfold setup_from. intros H. destruct m as [|k|k p|p|x| |]; try by left.
  - left. cbn [host_act] in H. destruct (k =? 0); [done|]. unfold host_take in H. by destruct (ep_is_in _).
  - left. cbn [host_act] in H. destruct (k =? 0); [by destruct (RXOUTI0 _)|]. unfold host_send in H.
    by destruct (_ || _).
  - right. by left.
Qed.

(** From [ms] and [u] to [ms'] and [u'] the host made its moves, and outside the
    control endpoint nothing else happened. *)
Definition host_only (st st' : list host_move * usb_hw) : Prop :=
  UENUM st'.2 = UENUM st.2 /\
  exists used, st.1 = used ++ st'.1 /\ off_control (host_acts used st.2) st'.2 /\
    setup_from used st.2 st'.2.

#[export] Instance host_only_preorder : PreOrder host_only.
Proof.
  split.
  - intros [ms u]. split; [done|]. exists []. split_and!; try done. by left.
  - intros [ms u] [ms1 u1] [ms2 u2] (E1&l1&F1&H1&S1) (E2&l2&F2&H2&S2). cbn [fst snd] in *.
    split; [cbn [snd]; congruence|]. exists (l1 ++ l2). cbn [fst snd].
    split; [by rewrite F1, F2, <- app_assoc|]. split; [|by eapply setup_from_trans].
    unfold host_acts in *. rewrite fold_left_app. etransitivity; [|exact H2].
    by apply (host_acts_proper l2).
Qed.

Lemma host_only_move m ms u : host_only (m :: ms, u) (ms, host_act m u).
Proof.
  split; [apply selected_host_act|]. exists [m]. split; [done|]. split; [done|]. apply setup_host_act.
Qed.

(** A step of the device on the control endpoint. *)
Definition on_control_only (u u' : usb_hw) : Prop :=
  UENUM u' = UENUM u /\ off_control u u' /\ (RXSTPI u' = true -> RXSTPI u = true).
Lemma host_only_device ms u u' : on_control_only u u' -> host_only (ms, u) (ms, u').
Proof. intros (E&H&S). split; [done|]. exists []. split_and!; try done. intros Hs. left. by apply S. Qed.

#[export] Instance on_control_only_preorder : PreOrder on_control_only.
Proof.
  split; [by intros u|]. intros u v w (E1&H1&S1) (E2&H2&S2).
  split; [congruence|]. split; [by etransitivity|auto].
Qed.

(** A computation on the control endpoint that leaves everything else to the host. *)
Class Quiet {A} (m : io A) : Prop := quiet : forall st a st',
  UENUM st.2 = 0 -> m st = Some (a, st') -> host_only st st'.
Class QuietStep (f : usb_hw -> usb_hw) : Prop := quiet_step : forall u,
  UENUM u = 0 -> on_control_only u (f u).

#[export] Instance quiet_ret {A} (a : A) : Quiet (mret a).
Proof. by intros st a' st' _ [= _ <-]. Qed.
#[export] Instance quiet_bind {A B} (m : io A) (k : A -> io B) :
  Quiet m -> (forall a, Quiet (k a)) -> Quiet (mbind k m).
Proof.
  intros Hm Hk st b st'' Hu E. unfold mbind, M_bind in E.
  destruct (m st) as [[a st']|] eqn:E1; [|done].
  pose proof (Hm _ _ _ Hu E1) as H1. etransitivity; [exact H1|].
  apply (Hk a st' b st''); [|done]. destruct H1 as [-> _]. done.
Qed.
#[export] Instance quiet_get {A} (f : usb_hw -> A) : Quiet (hw_get f).
Proof. by intros st a st' _ [= _ <-]. Qed.
#[export] Instance quiet_do f : QuietStep f -> Quiet (hw_do f).
Proof. intros Hf [ms u] a st' Hu [= _ <-]. apply host_only_device, Hf, Hu. Qed.
#[export] Instance quiet_if {A} (b : bool) (m m' : io A) : Quiet m -> Quiet m' -> Quiet (if b then m else m').
Proof. by destruct b. Qed.

Lemma wait_for_host {A} (test : usb_hw -> option A) ms u a st :
  wait_for test ms u = Some (a, st) -> host_only (ms, u) st /\ test st.2 = Some a.
Proof.
  revert u. induction ms as [|m ms IH]; intros u; cbn [wait_for]; destruct (test u) eqn:Et; try done.
  1-2: by intros [= <- <-].
  intros E. destruct (IH _ E) as [H1 H2]. split; [|done].
  etransitivity; [apply host_only_move|exact H1].
Qed.

#[export] Instance quiet_wait {A} (test : usb_hw -> option A) : Quiet (wait test).
Proof. intros [ms u] a st' Hu E. by apply wait_for_host in E as [H _]. Qed.

Lemma control_step f u : on_control_only u (on_control f u).
Proof.
  split; [done|]. split; [|done]. split; [|done]. split; [done|].
  intros n Hn. unfold on_control. by rewrite ep_with_ep_ne.
Qed.

(** The operations on a selected control endpoint. *)
Lemma on_selected_control f u : UENUM u = 0 -> on_selected f u = on_control f u.
Proof. intros E. unfold on_selected, on_control, selected. by rewrite E. Qed.

#[export] Instance quiet_clear_setup : QuietStep Endpoint_ClearSETUP.
Proof.
  intros u E. unfold Endpoint_ClearSETUP. rewrite E, on_selected_control by done.
  destruct (control_step (with_bank []) u) as (H1&H2&_). by split; [|split].
Qed.
#[export] Instance quiet_clear_in : QuietStep Endpoint_ClearIN.
Proof.
  intros u E. unfold Endpoint_ClearIN. rewrite E, on_selected_control by done. apply (control_step (give_bank false)).
Qed.
#[export] Instance quiet_clear_out : QuietStep Endpoint_ClearOUT.
Proof.
  intros u E. unfold Endpoint_ClearOUT. rewrite E, on_selected_control by done. apply (control_step (with_bank [])).
Qed.
#[export] Instance quiet_write_8 b : QuietStep (Endpoint_Write_8 b).
Proof. intros u E. unfold Endpoint_Write_8. rewrite on_selected_control by done. apply control_step. Qed.
#[export] Instance quiet_stall : QuietStep Endpoint_StallTransaction.
Proof. by intros u E. Qed.
Lemma quiet_read_8 u : UENUM u = 0 -> on_control_only u (Endpoint_Read_8 u).2.
Proof. intros E. unfold Endpoint_Read_8. cbn [snd]. rewrite on_selected_control by done. apply control_step. Qed.

#[export] Instance quiet_status_stage : Quiet Endpoint_ClearStatusStage.
Proof. unfold Endpoint_ClearStatusStage. apply _. Qed.

(** *** The packets of a control transfer *)

Lemma quiet_fill data n u : UENUM u = 0 -> on_control_only u (fill data n u).2.
Proof.
  revert n u. induction data as [|b data IH]; intros n u Hu; cbn [fill]; [done|].
  destruct (n <? _); [|done]. pose proof (quiet_write_8 b u Hu) as H1.
  etransitivity; [exact H1|]. apply IH. destruct H1 as [-> _]. done.
Qed.

Lemma quiet_send_packet data full u : UENUM u = 0 -> on_control_only u (send_packet data full u).2.
Proof.
  intros Hu. unfold send_packet. destruct (Endpoint_IsINReady u); [|done].
  pose proof (quiet_fill data (Endpoint_BytesInEndpoint u) u Hu) as H.
  destruct (fill data _ u) as [[rest n] u1]. cbn [snd] in *.
  etransitivity; [exact H|]. apply quiet_clear_in. destruct H as [-> _]. done.
Qed.

Lemma write_loop_host data full ms u r st :
  UENUM u = 0 -> write_loop data full ms u = Some (r, st) -> host_only (ms, u) st.
Proof.
  revert data full u. induction ms as [|m ms IH]; intros data full u Hu; cbn [write_loop];
    (destruct (bool_decide _ && _); [by intros [= _ <-]|]);
    (destruct (aborted u); [by intros [= _ <-]|]);
    (destruct (Endpoint_IsOUTReceived u); [by intros [= _ <-]|]); [done|].
  pose proof (quiet_send_packet data full u Hu) as H.
  destruct (send_packet data full u) as [[data' full'] u1]. cbn [snd] in H. intros E.
  pose proof H as [E1 _].
  etransitivity; [apply host_only_device, H|]. etransitivity; [apply host_only_move|].
  eapply IH; [|exact E]. rewrite selected_host_act. congruence.
Qed.

#[export] Instance quiet_control_write data : Quiet (Template_Endpoint_Control_W data).
Proof.
  intros [ms u] code st' Hu E. cbn [fst snd] in *. unfold Template_Endpoint_Control_W in E. cbv zeta in E.
  assert (exists data' u', on_control_only u u' /\
    match write_loop data' false ms u' with
    | None => None
    | Some (Some code, st) => Some (code, st)
    | Some (None, (ms, u)) =>
        wait_for (fun u => if Endpoint_IsOUTReceived u then Some RWCSTREAM_NoError else aborted u) ms u
    end = Some (code, st')) as (data'&u'&H1&E').
  { destruct (_ <? _); [by exists (take (Z.to_nat (wLength (USB_ControlRequest (dev u)))) data), u|].
    destruct (_ =? 0); [|by exists data, u].
    exists data, (Endpoint_ClearIN u). split; [by apply quiet_clear_in|done]. }
  etransitivity; [apply host_only_device, H1|]. destruct H1 as [E1 _].
  destruct (write_loop data' false ms u') as [[[c|] [ms1 u1]]|] eqn:El; [| |done];
    apply write_loop_host in El; try congruence.
  etransitivity; [exact El|]. by apply wait_for_host in E' as [H _].
Qed.

(** Everything but the flags and the bank of the control endpoint. *)
Definition same_rest (u u' : usb_hw) : Prop :=
  on_control_only u u' /\ RXSTPI u' = RXSTPI u /\ exists tx rx, dev u' = dev_control tx rx (dev u).

#[export] Instance same_rest_preorder : PreOrder same_rest.
Proof.
  split.
  - intros u. split; [done|]. split; [done|].
    exists (TXINI0 (dev u)), (RXOUTI0 (dev u)). by destruct u as [? ? ? ? []].
  - intros u v w (E1&E2&t&r&E3) (F1&F2&t'&r'&F3). split; [by etransitivity|]. split; [congruence|].
    exists t', r'. by rewrite F3, E3.
Qed.

Lemma same_rest_on_control f u : same_rest u (on_control f u).
Proof.
  split; [apply control_step|]. split; [done|].
  exists (TXINI0 (dev u)), (RXOUTI0 (dev u)). by destruct u as [? ? ? ? []].
Qed.

Lemma fill_spec data n u :
  UENUM u = 0 ->
  let k := Z.to_nat (8 - n) in
  let '(rest, n', u') := fill data n u in
  rest = drop k data /\ n' = n + Z.of_nat (length (take k data)) /\
  bank (ep u' 0) = bank (ep u 0) ++ (u8 <$> take k data) /\ sent (ep u' 0) = sent (ep u 0) /\
  same_rest u u' /\ dev u' = dev u.
Proof.
  revert n u. induction data as [|b data IH]; intros n u Hu; cbn [fill].
  { rewrite take_nil, drop_nil. cbn. rewrite app_nil_r. split_and!; try done; lia. }
  unfold USB_Device_ControlEndpointSize. destruct (Z.ltb_spec n 8) as [Hn|Hn].
  - unfold Endpoint_Write_8. rewrite on_selected_control by done.
    specialize (IH (n + 1) (on_control (fun e => with_bank (bank e ++ [u8 b]) e) u) Hu).
    cbv zeta in IH. destruct (fill data (n + 1) _) as [[rest n'] u'].
    destruct IH as (H1&H2&H3&H4&H5&H6).
    replace (Z.to_nat (8 - n)) with (S (Z.to_nat (8 - (n + 1)))) by lia. cbn [take drop length fmap list_fmap].
    rewrite H1, H2, H3, H4. unfold on_control at 1 2. rewrite ep_with_ep_eq. cbn [bank with_bank sent].
    split_and!; try done; [cbn [length]; lia|by rewrite <- app_assoc|].
    etransitivity; [apply same_rest_on_control|exact H5].
  - replace (Z.to_nat (8 - n)) with O by lia. cbn. rewrite app_nil_r. split_and!; try done; lia.
Qed.

Lemma control_clear_in u :
  UENUM u = 0 ->
  let u' := Endpoint_ClearIN u in
  same_rest u u' /\ bank (ep u' 0) = [] /\ sent (ep u' 0) = sent (ep u 0) ++ [bank (ep u 0)] /\
  TXINI0 (dev u') = false /\ RXOUTI0 (dev u') = RXOUTI0 (dev u).
Proof.
  intros E. pose proof (quiet_clear_in u E) as Hq. unfold Endpoint_ClearIN in *. rewrite E in *. cbn [Z.eqb] in *.
  rewrite on_selected_control in * by done. cbn zeta. split; [|by split_and!].
  split; [done|]. split; [done|]. by eexists _, _.
Qed.

(** One packet: the next eight bytes, or what is left. *)
Lemma send_packet_spec data full u :
  UENUM u = 0 -> bank (ep u 0) = [] ->
  let '(data', full', u') := send_packet data full u in
  if TXINI0 (dev u) then
    data' = drop 8 data /\ full' = (8 <=? length data)%nat /\
    sent (ep u' 0) = sent (ep u 0) ++ [u8 <$> take 8 data] /\ bank (ep u' 0) = [] /\
    same_rest u u' /\ TXINI0 (dev u') = false /\ RXOUTI0 (dev u') = RXOUTI0 (dev u)
  else data' = data /\ full' = full /\ u' = u.
Proof.
  intros Hu Hb. unfold send_packet, Endpoint_IsINReady. rewrite Hu. cbn [Z.eqb].
  destruct (TXINI0 (dev u)); [|done].
  unfold Endpoint_BytesInEndpoint, selected. rewrite Hu, Hb.
  pose proof (fill_spec data 0 u Hu) as H. change (Z.of_nat (length [])) with 0. cbv zeta in H.
  destruct (fill data 0 u) as [[rest n] u1]. destruct H as (H1&H2&H3&H4&H5&H6).
  change (Z.to_nat (8 - 0)) with 8%nat in *. rewrite Hb in H3. cbn [app] in H3.
  assert (E1 : UENUM u1 = 0) by (destruct H5 as [[-> _] _]; exact Hu).
  destruct (control_clear_in u1 E1) as (K1&K2&K3&K4&K5). cbv zeta in *.
  split; [done|]. split; [|split; [by rewrite K3, H3, H4|]].
  - rewrite H2, length_take. unfold USB_Device_ControlEndpointSize.
    apply eq_bool_prop_intro. rewrite !Is_true_true, Z.eqb_eq, Nat.leb_le. lia.
  - split; [done|]. split; [by etransitivity|]. split; [done|]. by rewrite K5, H6.
Qed.

(** The reference: packets of eight bytes and a last one that is shorter, maybe
    empty.  [n] is fuel; one more than the number of bytes is enough. *)
Fixpoint packets_of (n : nat) (data : list Z) : list (list Z) :=
  match n with
  | O => []
  | S n => take 8 data :: (if (8 <=? length data)%nat then packets_of n (drop 8 data) else [])
  end.
Definition packets (data : list Z) : list (list Z) := packets_of (S (length data)) data.

(** What is still to be sent. *)
Definition todo (data : list Z) (LastPacketFull : bool) : list (list Z) :=
  if bool_decide (data = []) && negb LastPacketFull then [] else packets data.

Lemma packets_of_enough n m data :
  (length data < n)%nat -> (length data < m)%nat -> packets_of n data = packets_of m data.
Proof.
  revert m data. induction n as [|n IH]; intros [|m] data Hn Hm; [lia..|]. cbn [packets_of].
  destruct (Nat.leb_spec 8 (length data)); [|done]. f_equal.
  apply IH; rewrite length_drop; lia.
Qed.

Lemma packets_unfold data :
  packets data = take 8 data :: todo (drop 8 data) (8 <=? length data)%nat.
Proof.
  unfold packets at 1. cbn [packets_of]. f_equal. unfold todo.
  destruct (Nat.leb_spec 8 (length data)).
  - rewrite andb_false_r. apply packets_of_enough; rewrite !length_drop; lia.
  - by rewrite bool_decide_true by (apply drop_ge; lia).
Qed.

Lemma concat_packets data : concat (packets data) = data.
Proof.
  remember (length data) as n eqn:En. revert data En.
  induction (lt_wf n) as [n _ IH]; intros data ->. rewrite packets_unfold. cbn [concat]. unfold todo.
  destruct (Nat.leb_spec 8 (length data)) as [Hl|Hl].
  - rewrite andb_false_r. rewrite (IH (length (drop 8 data))); [apply take_drop|rewrite length_drop; lia|done].
  - rewrite bool_decide_true by (apply drop_ge; lia). cbn. rewrite app_nil_r. apply take_ge. lia.
Qed.

Lemma length_packets data : (length (packets data) <= length data / 8 + 1)%nat.
Proof.
  remember (length data) as n eqn:En. revert data En.
  induction (lt_wf n) as [n _ IH]; intros data ->. rewrite packets_unfold. unfold todo. cbn [length].
  destruct (Nat.leb_spec 8 (length data)) as [Hl|Hl].
  - rewrite andb_false_r. specialize (IH (length (drop 8 data)) ltac:(rewrite length_drop; lia) (drop 8 data) eq_refl).
    rewrite length_drop in IH. assert (E : (length data / 8 = (length data - 8) / 8 + 1)%nat).
    { rewrite <- Nat.div_add by lia. f_equal. lia. }
    lia.
  - rewrite bool_decide_true by (apply drop_ge; lia). cbn. lia.
Qed.

(** All packets but the last are full. *)
Lemma packets_shape data i p :
  packets data !! i = Some p -> (length p <= 8)%nat /\ (S i < length (packets data) -> length p = 8)%nat.
Proof.
  remember (length data) as n eqn:En. revert data En i.
  induction (lt_wf n) as [n _ IH]; intros data -> i. rewrite packets_unfold. unfold todo.
  destruct (Nat.leb_spec 8 (length data)) as [Hl|Hl].
  - rewrite andb_false_r. destruct i as [|i]; cbn [lookup list_lookup].
    + intros [= <-]. rewrite length_take. lia.
    + intros Hp. destruct (IH (length (drop 8 data))) with (data := drop 8 data) (i := i) as [H1 H2];
        [rewrite length_drop; lia|done..|].
      split; [done|]. cbn [length]. intros Hi. apply H2. lia.
  - rewrite bool_decide_true by (apply drop_ge; lia). cbn. destruct i as [|i]; [|done].
    intros [= <-]. rewrite length_take. lia.
Qed.

(** The bank of the control endpoint is empty unless it holds something of the
    host's. *)
Definition bank_free (u : usb_hw) : Prop :=
  bank (ep u 0) = [] \/ RXOUTI0 (dev u) = true \/ RXSTPI u = true.

Lemma sent_host_act m u : sent (ep (host_act m u) 0) = sent (ep u 0).
Proof.
  destruct m as [|k|k p|p|x| |]; try done; cbn [host_act].
  - destruct (Z.eqb_spec k 0); [done|]. unfold host_take. destruct (ep_is_in _); [|done].
    by rewrite ep_with_ep_ne.
  - destruct (Z.eqb_spec k 0); [by destruct (RXOUTI0 _)|]. unfold host_send. destruct (_ || _); [done|].
    by rewrite ep_with_ep_ne.
Qed.

Lemma bank_free_host_act m u : bank (ep u 0) = [] -> bank_free (host_act m u).
Proof.
  unfold bank_free. destruct m as [|k|k p|p|x| |]; try by left.
  - intros Hb. left. cbn [host_act]. destruct (Z.eqb_spec k 0); [done|]. unfold host_take.
    destruct (ep_is_in _); [|done]. by rewrite ep_with_ep_ne.
  - intros Hb. cbn [host_act]. destruct (Z.eqb_spec k 0).
    + destruct (RXOUTI0 (dev u)) eqn:E; [by left|]. by right; left.
    + left. unfold host_send. destruct (_ || _); [done|]. by rewrite ep_with_ep_ne.
  - intros _. by right; right.
Qed.

Lemma bank_free_idle u :
  UENUM u = 0 -> bank_free u -> aborted u = None -> Endpoint_IsOUTReceived u = false -> bank (ep u 0) = [].
Proof.
  unfold bank_free, aborted, Endpoint_IsOUTReceived, Endpoint_IsSETUPReceived. intros -> H.
  destruct (bus_lost u); [done|]. destruct (RXSTPI u); [done|]. cbn. intros _ E. rewrite E in H.
  by destruct H as [?|[?|?]].
Qed.

Lemma write_loop_safe data full ms u r ms' u' :
  UENUM u = 0 -> bank_free u -> Forall is_byte data ->
  write_loop data full ms u = Some (r, (ms', u')) ->
  exists P, sent (ep u' 0) = sent (ep u 0) ++ P /\ P `prefix_of` todo data full.
Proof.
  revert data full u. induction ms as [|m ms IH]; intros data full u Hu Hf Hd; cbn [write_loop];
    unfold todo; (destruct (bool_decide (data = []) && negb full);
      [intros [= _ _ <-]; exists []; by rewrite app_nil_r|]);
    (destruct (aborted u) eqn:Ha; [intros [= _ _ <-]; exists []; rewrite app_nil_r; split; [done|apply prefix_nil]|]);
    (destruct (Endpoint_IsOUTReceived u) eqn:Ho;
      [intros [= _ _ <-]; exists []; rewrite app_nil_r; split; [done|apply prefix_nil]|]); [done|].
  pose proof (bank_free_idle u Hu Hf Ha Ho) as Hb.
  pose proof (send_packet_spec data full u Hu Hb) as H.
  destruct (send_packet data full u) as [[data' full'] u1]. intros E.
  destruct (TXINI0 (dev u)).
  - destruct H as (->&->&H3&H4&H5&_).
    apply IH in E as (P&E1&E2); [| |by apply bank_free_host_act|by apply Forall_drop].
    + exists (take 8 data :: P). rewrite sent_host_act, H3, (u8_bytes (take 8 data)) in E1 by by apply Forall_take.
      split; [by rewrite E1, <- app_assoc|]. rewrite packets_unfold. by apply prefix_cons.
    + rewrite selected_host_act. destruct H5 as [[-> _] _]. done.
  - destruct H as (->&->&->).
    apply IH in E as (P&E1&E2); [|by rewrite selected_host_act|by apply bank_free_host_act|done].
    exists P. rewrite sent_host_act in E1. split; [done|].
    etransitivity; [exact E2|]. unfold todo. by destruct (bool_decide _ && _); [apply prefix_nil|].
Qed.

(** *** A host that completes the transfer *)

(** Moves that do not end a transfer early; of those, the ones that do not send
    to the control endpoint; and how often the host collects from it. *)
Definition calm (m : host_move) : bool :=
  match m with SendSETUP _ | BusState _ => false | _ => true end.
Definition only_in (m : host_move) : bool :=
  calm m && match m with SendOUT n _ => negb (n =? 0) | _ => true end.
Definition collect (m : host_move) : nat := match m with CollectIN n => if n =? 0 then 1 else 0 | _ => 0 end.
Definition collects (ms : list host_move) : nat := sum_list_with collect ms.
Definition out (m : host_move) : list Z := match m with SendOUT n p => if n =? 0 then p else [] | _ => [] end.
(** The bytes the host sends to the control endpoint. *)
Definition outs (ms : list host_move) : list Z := concat (out <$> ms).

(** The device is on the bus and no other request is waiting. *)
Definition on_bus (u : usb_hw) : Prop := UENUM u = 0 /\ aborted u = None.

Lemma on_bus_calm m u : calm m -> on_bus u -> on_bus (host_act m u).
Proof.
  unfold on_bus, aborted, bus_lost, Endpoint_IsSETUPReceived. intros Hc [E H].
  rewrite selected_host_act, state_host_act. split; [done|].
  destruct m as [|k|k p|p|x| |]; try done; cbn [host_act].
  - destruct (k =? 0); [done|]. unfold host_take. by destruct (ep_is_in _).
  - destruct (k =? 0); [by destruct (RXOUTI0 _)|]. unfold host_send. by destruct (_ || _).
Qed.

Lemma on_bus_same u u' : same_rest u u' -> on_bus u -> on_bus u'.
Proof.
  unfold on_bus, aborted, bus_lost, Endpoint_IsSETUPReceived.
  intros ((E1&((E2&_)&_)&_)&E3&_). by rewrite E1, E2, E3.
Qed.

Lemma flags_only_in m u :
  only_in m ->
  RXOUTI0 (dev (host_act m u)) = RXOUTI0 (dev u) /\ bank (ep (host_act m u) 0) = bank (ep u 0) /\
  (TXINI0 (dev u) || (collect m =? 1)%nat) = TXINI0 (dev (host_act m u)).
Proof.
  unfold only_in, collect. destruct m as [|k|k p|p|x| |]; try done; cbn [host_act calm]; intros H;
    try by rewrite orb_false_r.
  - destruct (Z.eqb_spec k 0); [by rewrite orb_true_r|]. rewrite orb_false_r.
    unfold host_take. destruct (ep_is_in _); [|done]. by rewrite ep_with_ep_ne.
  - rewrite orb_false_r. destruct (Z.eqb_spec k 0); [done|]. unfold host_send.
    destruct (_ || _); [done|]. by rewrite ep_with_ep_ne.
Qed.

Lemma todo_drop data full :
  todo data full <> [] ->
  todo data full = take 8 data :: todo (drop 8 data) (8 <=? length data)%nat.
Proof. unfold todo at 1 2. destruct (_ && _); [done|]. intros _. apply packets_unfold. Qed.

(** One turn of the data loop, as long as there is something to send. *)
Lemma write_turn m ms data full u :
  on_bus u -> RXOUTI0 (dev u) = false -> bank (ep u 0) = [] -> Forall is_byte data -> todo data full <> [] ->
  exists data' full' u', write_loop data full (m :: ms) u = write_loop data' full' ms (host_act m u') /\
    on_bus u' /\ RXOUTI0 (dev u') = false /\ bank (ep u' 0) = [] /\ Forall is_byte data' /\
    TXINI0 (dev u') = false /\
    exists P, sent (ep u' 0) = sent (ep u 0) ++ P /\ todo data full = P ++ todo data' full' /\
      length P = (if TXINI0 (dev u) then 1 else 0)%nat.
Proof.
  intros Hb Ho Hk Hd Ht. cbn [write_loop].
  assert (bool_decide (data = []) && negb full = false) as ->
    by (unfold todo in Ht; by destruct (_ && _)).
  pose proof Hb as [Hu Ha]. rewrite Ha. unfold Endpoint_IsOUTReceived. rewrite Hu, Ho. cbn [Z.eqb].
  pose proof (send_packet_spec data full u Hu Hk) as Hs.
  destruct (send_packet data full u) as [[data' full'] u1]. exists data', full', u1. split; [done|].
  destruct (TXINI0 (dev u)) eqn:Etx.
  - destruct Hs as (->&->&H3&H4&H5&H6&H7). rewrite u8_bytes in H3 by by apply Forall_take.
    split; [by apply (on_bus_same u)|]. split; [congruence|]. split; [done|].
    split; [by apply Forall_drop|]. split; [done|].
    exists [take 8 data]. split; [done|]. split; [by apply todo_drop|done].
  - destruct Hs as (->&->&->). do 5 (split; [done|]). exists []. by rewrite app_nil_r.
Qed.

Lemma write_done data full ms u :
  todo data full = [] -> write_loop data full ms u = Some (None, (ms, u)).
Proof.
  unfold todo. intros H. destruct ms; cbn [write_loop];
    (destruct (_ && _); [done|by rewrite packets_unfold in H]).
Qed.

Lemma collect_flag m : only_in m -> calm m /\ (collect m <= if collect m =? 1 then 1 else 0)%nat.
Proof.
  unfold only_in. intros H. split; [by destruct (calm m)|]. unfold collect.
  destruct m as [|k| | | | |]; try done. by destruct (k =? 0).
Qed.

(** The packets go out as long as there are enough collections. *)
Lemma write_loop_complete post pre data full u :
  Forall only_in pre -> on_bus u -> RXOUTI0 (dev u) = false -> bank (ep u 0) = [] -> Forall is_byte data ->
  (length (todo data full) <= collects pre + (if TXINI0 (dev u) then 1 else 0))%nat ->
  exists ms' u', write_loop data full (pre ++ SendOUT 0 [] :: post) u = Some (None, (ms', u')) /\
    sent (ep u' 0) = sent (ep u 0) ++ todo data full /\ on_bus u' /\
    (RXOUTI0 (dev u') = true /\ ms' = post \/
     RXOUTI0 (dev u') = false /\ exists pre', ms' = pre' ++ SendOUT 0 [] :: post /\ Forall only_in pre').
Proof.
  revert data full u. induction pre as [|m pre IH]; intros data full u Hp Hb Ho Hk Hd Hn;
    (destruct (decide (todo data full = [])) as [Ht|Ht];
      [rewrite write_done, Ht, app_nil_r by done; eexists _, _; split_and!; [done..|right]; eauto|]); cbn [app].
  - destruct (write_turn (SendOUT 0 []) post data full u Hb Ho Hk Hd Ht)
      as (data'&full'&u1&->&H1&H2&H3&H4&H5&P&H6&H7&H8).
    rewrite H7, length_app, H8 in Hn. cbn in Hn. apply Nat.le_add_le_sub_l in Hn.
    rewrite Nat.sub_diag in Hn. apply Nat.le_0_r, nil_length_inv in Hn.
    rewrite write_done by done. eexists _, _. split; [done|].
    rewrite sent_host_act, H6, H7, Hn, app_nil_r. split; [done|]. split; [by apply on_bus_calm|].
    left. cbn [host_act Z.eqb]. by rewrite H2.
  - apply Forall_cons in Hp as [Hm Hp].
    destruct (write_turn m (pre ++ SendOUT 0 [] :: post) data full u Hb Ho Hk Hd Ht)
      as (data'&full'&u1&->&H1&H2&H3&H4&H5&P&H6&H7&H8).
    destruct (flags_only_in m u1 Hm) as (F1&F2&F3). destruct (collect_flag m Hm) as [Hc Hcol].
    rewrite H5 in F3. cbn [orb] in F3.
    destruct (IH data' full' (host_act m u1)) as (ms'&u'&K1&K2&K3&K4);
      [done|by apply on_bus_calm|congruence|congruence|done| |].
    { rewrite <- F3. rewrite H7, length_app, H8 in Hn. cbn [collects sum_list_with] in Hn.
      fold (collects pre) in Hn. lia. }
    exists ms', u'. rewrite sent_host_act, H6, <- app_assoc in K2. rewrite H7. by split_and!.
Qed.

(** Reading: what is still to come of the packet in the bank. *)
Definition pending (u : usb_hw) : list Z := if RXOUTI0 (dev u) then bank (ep u 0) else [].

Lemma take_bytes_spec n u :
  UENUM u = 0 ->
  let '(l, u') := take_bytes n u in
  l = take n (bank (ep u 0)) /\ on_control_only u u' /\ RXSTPI u' = RXSTPI u /\ dev u' = dev u.
Proof.
  revert u. induction n as [|n IH]; intros u Hu; cbn [take_bytes]; [done|].
  unfold Endpoint_BytesInEndpoint, selected. rewrite Hu.
  destruct (bank (ep u 0)) as [|b l] eqn:Eb; cbn [length]; [done|].
  assert (to_bool (Z.of_nat (S (length l))) = true) as -> by (unfold to_bool; by rewrite (proj2 (Z.eqb_neq _ _)) by lia).
  pose proof (quiet_read_8 u Hu) as Hq. unfold Endpoint_Read_8, selected in *. rewrite Hu, Eb in *. cbn [snd] in Hq.
  pose proof Hq as [Hq1 _]. specialize (IH _ (eq_trans Hq1 Hu)).
  destruct (take_bytes n _) as [l' u']. destruct IH as (->&H2&H3&H4).
  split; [|by split; [etransitivity|]].
  cbn [default head take]. f_equal. f_equal. rewrite on_selected_control by done.
  unfold on_control. rewrite ep_with_ep_eq. cbn [bank with_bank]. by rewrite Eb.
Qed.

(** One turn of the data loop: the pending packet is read, the next move comes. *)
Lemma read_turn m ms n got u :
  on_bus u ->
  exists u', read_loop (S n) got (m :: ms) u =
      read_loop (S n - length (pending u)) (got ++ take (S n) (pending u)) ms (host_act m u') /\
    on_control_only u u' /\ on_bus u' /\ RXOUTI0 (dev u') = false.
Proof.
  intros [Hu Ha]. cbn [read_loop]. rewrite Ha. unfold pending, Endpoint_IsOUTReceived. rewrite Hu. cbn [Z.eqb].
  destruct (RXOUTI0 (dev u)) eqn:Eo.
  - pose proof (take_bytes_spec (S n) u Hu) as H. destruct (take_bytes (S n) u) as [l u1].
    destruct H as (->&H2&H3&H4). exists (Endpoint_ClearOUT u1).
    assert (Hu1 : UENUM u1 = 0) by (destruct H2 as [-> _]; done).
    assert (Hq : on_control_only u (Endpoint_ClearOUT u1)) by (etransitivity; [exact H2|by apply quiet_clear_out]).
    split; [|split; [done|]].
    + destruct (Nat.le_gt_cases (length (bank (ep u 0))) (S n)).
      * by rewrite take_ge by lia.
      * rewrite length_take, Nat.min_l by lia. rewrite Nat.sub_diag.
        by replace (S n - length (bank (ep u 0)))%nat with 0%nat by lia.
    + destruct Hq as (E1&((E2&_)&_)&_). unfold Endpoint_ClearOUT. rewrite Hu1. cbn [Z.eqb dev with_dev dev_control RXOUTI0].
      split; [|done]. unfold on_bus, aborted, bus_lost, Endpoint_IsSETUPReceived in *.
      unfold Endpoint_ClearOUT in E1, E2. rewrite Hu1 in E1, E2. cbn [Z.eqb] in E1, E2. rewrite E1, E2.
      cbn [RXSTPI with_dev on_selected with_ep]. by rewrite H3.
  - exists u. cbn [length]. rewrite take_nil, app_nil_r, Nat.sub_0_r. by split_and!.
Qed.

Lemma pending_host_act m u : RXOUTI0 (dev u) = false -> on_bus u ->
  pending (host_act m u) = out m /\ (RXOUTI0 (dev (host_act m u)) = true -> on_bus (host_act m u)).
Proof.
  intros E Hb. unfold pending. destruct m as [|k|k p|p|x| |]; cbn [host_act out].
  1, 4-7: cbn; by rewrite ?E.
  - destruct (k =? 0); [cbn; by rewrite E|]. unfold host_take. destruct (ep_is_in _); cbn; by rewrite E.
  - destruct (k =? 0) eqn:Ek.
    + rewrite E. split; [done|]. intros _.
      pose proof (on_bus_calm (SendOUT k p) u I Hb) as H. cbn [host_act] in H. by rewrite Ek, E in H.
    + unfold host_send. destruct (_ || _); cbn; by rewrite E.
Qed.

Lemma aborted_code u : aborted u <> Some RWCSTREAM_NoError.
Proof.
  unfold aborted, bus_lost. do 2 (case_decide; [done|]). by destruct (Endpoint_IsSETUPReceived u).
Qed.

Lemma read_loop_host n got ms u r st :
  UENUM u = 0 -> read_loop n got ms u = Some (r, st) -> host_only (ms, u) st.
Proof.
  revert n got u. induction ms as [|m ms IH]; intros [|n] got u Hu; try by intros [= _ <-].
  - cbn [read_loop]. destruct (aborted u); [by intros [= _ <-]|done].
  - destruct (aborted u) eqn:Ha; [cbn [read_loop]; rewrite Ha; by intros [= _ <-]|].
    destruct (read_turn m ms n got u (conj Hu Ha)) as (u1&->&H1&H2&_). intros E.
    etransitivity; [apply host_only_device, H1|]. etransitivity; [apply host_only_move|].
    eapply IH; [|exact E]. rewrite selected_host_act. apply H2.
Qed.

(** For every schedule the loop stores the bytes in order, and stops when it has
    all or the transfer is broken off. *)
Lemma read_loop_spec n got ms u r got' ms' u' :
  UENUM u = 0 -> (RXOUTI0 (dev u) = true -> on_bus u) ->
  read_loop n got ms u = Some (r, got', (ms', u')) ->
  exists used, ms = used ++ ms' /\ got' = got ++ take n (pending u ++ outs used) /\
    (r = None -> (n <= length (pending u ++ outs used))%nat) /\ r <> Some RWCSTREAM_NoError.
Proof.
  revert n got u. induction ms as [|m ms IH]; intros n got u Hu Hp.
  all: destruct n as [|n]; [intros [= <- <- <- <-]; exists []; split; [done|]; rewrite take_0;
    split; [by rewrite app_nil_r|split; [cbn; lia|done]]|].
  all: destruct (aborted u) eqn:Ha.
  1, 3: cbn [read_loop]; rewrite Ha; intros [= <- <- <- <-]; exists [];
    unfold pending; (destruct (RXOUTI0 (dev u)); [destruct (Hp eq_refl) as [_ ?]; congruence|]);
    split; [done|]; cbn [app outs concat fmap list_fmap]; rewrite take_nil; split; [by rewrite app_nil_r|];
    split; [done|]; intros [= ->]; by apply aborted_code in Ha.
  - cbn [read_loop]. by rewrite Ha.
  - destruct (read_turn m ms n got u (conj Hu Ha)) as (u1&->&H1&H2&H3). intros E.
    destruct (pending_host_act m u1 H3 H2) as [E1 E2].
    apply IH in E as (used&K2&K3&K4&K5); [|rewrite selected_host_act; apply H2|done].
    exists (m :: used). split; [by rewrite K2|]. rewrite E1 in K3, K4.
    change (outs (m :: used)) with (out m ++ outs used). split.
    + rewrite K3, <- app_assoc. f_equal. by rewrite <- take_app.
    + split; [|done]. intros ->. specialize (K4 eq_refl). rewrite length_app. lia.
Qed.

#[export] Instance quiet_control_read n : Quiet (Template_Endpoint_Control_R n).
Proof.
  intros [ms u] [code got] st Hu E. cbn [fst snd] in *. unfold Template_Endpoint_Control_R in E. cbv zeta in E.
  set (u0 := if decide (n = 0%nat) then Endpoint_ClearOUT u else u) in E.
  assert (H0 : on_control_only u u0) by (unfold u0; case_decide; [by apply quiet_clear_out|done]).
  etransitivity; [apply host_only_device, H0|]. destruct H0 as [E0 _].
  destruct (read_loop n [] ms u0) as [[[r got'] [ms1 u1]]|] eqn:El; [|done].
  apply read_loop_host in El; [|congruence]. etransitivity; [exact El|].
  destruct r; [by injection E as _ _ <-|].
  destruct (wait_for _ ms1 u1) as [[c st1]|] eqn:Ew; [|done]. injection E as _ _ <-.
  by apply wait_for_host in Ew as [Hw _].
Qed.

Lemma read_loop_complete rest pre n got u :
  Forall calm pre -> on_bus u -> (n <= length (pending u ++ outs pre))%nat ->
  exists ms' u', read_loop n got (pre ++ CollectIN 0 :: rest) u =
      Some (None, got ++ take n (pending u ++ outs pre), (ms', u')) /\ on_bus u' /\
    (TXINI0 (dev u') = true /\ ms' = rest \/ exists pre', ms' = pre' ++ CollectIN 0 :: rest /\ Forall calm pre').
Proof.
  revert n got u. induction pre as [|m pre IH]; intros n got u Hp Hb Hn;
    (destruct n as [|n];
      [cbn [app read_loop]; rewrite take_0, app_nil_r; eexists _, u; (do 2 (split; [done|])); right|]).
  - by exists [].
  - cbn [app]. destruct (read_turn (CollectIN 0) rest n got u Hb) as (u1&->&H1&H2&H3).
    cbn [outs concat fmap list_fmap] in *. rewrite app_nil_r in *.
    replace (S n - length (pending u))%nat with 0%nat by lia.
    exists rest, (host_act (CollectIN 0) u1). split; [by destruct rest|]. split; [by apply on_bus_calm|by left].
  - by exists (m :: pre).
  - cbn [app]. apply Forall_cons in Hp as [Hm Hp].
    destruct (read_turn m (pre ++ CollectIN 0 :: rest) n got u Hb) as (u1&->&H1&H2&H3).
    destruct (pending_host_act m u1 H3 H2) as [E1 _]. change (outs (m :: pre)) with (out m ++ outs pre) in *.
    destruct (IH (S n - length (pending u))%nat (got ++ take (S n) (pending u)) (host_act m u1))
      as (ms'&u'&K1&K2&K3); [done|by apply on_bus_calm| |].
    { rewrite E1. rewrite length_app in Hn. lia. }
    exists ms', u'. split; [|done]. rewrite K1, E1, <- app_assoc. do 3 f_equal. by rewrite <- take_app.
Qed.

Lemma wait_for_skip {A} (test : usb_hw -> option A) a m pre rest u :
  (forall u, on_bus u -> test u = None \/ test u = Some a) ->
  (forall u, on_bus u -> test (host_act m u) = Some a) -> calm m ->
  Forall calm pre -> on_bus u ->
  exists ms' u', wait_for test (pre ++ m :: rest) u = Some (a, (ms', u')) /\ on_bus u' /\
    exists left, ms' = left ++ rest.
Proof.
  intros Ht Hm Hcm. revert u. induction pre as [|m0 pre IH]; intros u Hp Hb; cbn [app wait_for];
    (destruct (Ht u Hb) as [->| ->]; [|eexists _, _; split; [done|]; split; [done|]]).
  - pose proof (Hm u Hb) as E. destruct rest; cbn [wait_for]; rewrite E; eexists _, _;
      (split; [done|]; split; [by apply on_bus_calm|by exists []]).
  - by exists [m].
  - apply Forall_cons in Hp as [H1 H2]. apply (IH (host_act m0 u)); [done|by apply on_bus_calm].
  - exists (m0 :: pre ++ [m]). cbn. by rewrite <- app_assoc.
Qed.

(** The device answers a request: the control endpoint is selected, its bank is
    empty and nothing was received. *)
Definition answering (u : usb_hw) : Prop :=
  UENUM u = 0 /\ bank (ep u 0) = [] /\ RXOUTI0 (dev u) = false /\ 0 <= wLength (USB_ControlRequest (dev u)).

(** A request has arrived; acknowledging it starts the answer. *)
Definition requested (u : usb_hw) : Prop :=
  UENUM u = 0 /\ RXSTPI u = true /\ RXOUTI0 (dev u) = false /\ bus_lost u = None /\
  0 <= wLength (USB_ControlRequest (dev u)).

Lemma acknowledged u :
  requested u ->
  let u' := Endpoint_ClearSETUP u in
  answering u' /\ on_bus u' /\ TXINI0 (dev u') = true /\ sent (ep u' 0) = sent (ep u 0) /\
  USB_ControlRequest (dev u') = USB_ControlRequest (dev u).
Proof.
  intros (Hu&Hs&Ho&Hb&Hn). unfold Endpoint_ClearSETUP. rewrite Hu. cbn [Z.eqb]. cbv zeta.
  rewrite on_selected_control by done. split; [by split_and!|]. split; [|done].
  unfold on_bus, aborted, Endpoint_IsSETUPReceived. split; [done|].
  change (bus_lost _) with (bus_lost u). rewrite Hb. cbn. by rewrite andb_false_r.
Qed.

Lemma wait_for_sent {A} (test : usb_hw -> option A) ms u a ms' u' :
  wait_for test ms u = Some (a, (ms', u')) -> sent (ep u' 0) = sent (ep u 0).
Proof.
  revert u. induction ms as [|m ms IH]; intros u; cbn [wait_for]; (destruct (test u); [by intros [= _ _ <-]|]);
    [done|]. intros E. by rewrite (IH _ E), sent_host_act.
Qed.

(** The loop and the wait after it. *)
Definition write_out (data : list Z) : io rwcstream := fun '(ms, u) =>
  match write_loop data false ms u with
  | None => None
  | Some (Some code, st) => Some (code, st)
  | Some (None, (ms, u)) =>
      wait_for (fun u => if Endpoint_IsOUTReceived u then Some RWCSTREAM_NoError else aborted u) ms u
  end.

Lemma Control_W_unfold data ms u :
  let n := wLength (USB_ControlRequest (dev u)) in
  Template_Endpoint_Control_W data (ms, u) =
    if n <? Z.of_nat (length data) then write_out (take (Z.to_nat n) data) (ms, u)
    else if bool_decide (data = []) then write_out [] (ms, Endpoint_ClearIN u)
    else write_out data (ms, u).
Proof.
  cbv zeta. unfold Template_Endpoint_Control_W. cbv zeta. destruct (_ <? _); [done|].
  destruct data; [done|]. by rewrite (proj2 (Z.eqb_neq _ _)) by (cbn [length]; lia).
Qed.

Lemma write_out_safe data ms u code ms' u' :
  UENUM u = 0 -> bank (ep u 0) = [] -> Forall is_byte data ->
  write_out data (ms, u) = Some (code, (ms', u')) ->
  exists P, sent (ep u' 0) = sent (ep u 0) ++ P /\ P `prefix_of` packets data /\ (data = [] -> P = []).
Proof.
  unfold write_out. intros Hu Hk Hd E.
  destruct (write_loop data false ms u) as [[r [ms1 u1]]|] eqn:El; [|done].
  apply write_loop_safe in El as (P&E1&E2); [|done|by left|done]. exists P.
  assert (sent (ep u' 0) = sent (ep u1 0)) as ->
    by (destruct r; [by injection E as _ _ <-|by eapply wait_for_sent]).
  split; [done|]. unfold todo in E2. rewrite andb_true_r in E2. case_bool_decide as Hn.
  - apply prefix_nil_inv in E2 as ->. split; [apply prefix_nil|done].
  - by split.
Qed.

(** The whole answer, when the host collects often enough and acknowledges. *)
Lemma Control_W_completes data pre post u :
  let n := Z.to_nat (wLength (USB_ControlRequest (dev u))) in
  answering u -> on_bus u -> Forall is_byte data -> take n data <> [] ->
  Forall only_in pre -> (length (packets (take n data)) <= collects pre)%nat ->
  exists ms' u', Template_Endpoint_Control_W data (pre ++ SendOUT 0 [] :: post, u) =
      Some (RWCSTREAM_NoError, (ms', u')) /\ (exists left, ms' = left ++ post) /\
    sent (ep u' 0) = sent (ep u 0) ++ packets (take n data) /\ on_bus u'.
Proof.
  cbv zeta. intros (Hu&Hk&Ho&Hn) Hb Hd Hne Hp Hc. rewrite Control_W_unfold.
  set (n := wLength (USB_ControlRequest (dev u))) in *. set (data' := take (Z.to_nat n) data) in *.
  enough (exists ms' u', write_out data' (pre ++ SendOUT 0 [] :: post, u) = Some (RWCSTREAM_NoError, (ms', u')) /\
    (exists left, ms' = left ++ post) /\ sent (ep u' 0) = sent (ep u 0) ++ packets data' /\ on_bus u') as Hw.
  { destruct (Z.ltb_spec n (Z.of_nat (length data))); [done|].
    assert (Ed : data' = data) by (apply take_ge; lia). rewrite Ed in *. by rewrite bool_decide_false. }
  unfold write_out.
  assert (Et : todo data' false = packets data') by (unfold todo; by rewrite bool_decide_false).
  destruct (write_loop_complete post pre data' false u Hp Hb Ho Hk) as (ms1&u1&->&E2&Hb1&H);
    [by apply Forall_take|rewrite Et; lia|]. rewrite Et in E2.
  destruct H as [[Hr ->]|(Hr&pre'&->&Hp')].
  - exists post, u1. split; [|by split; [exists []|]]. destruct post; cbn [wait_for];
      unfold Endpoint_IsOUTReceived; destruct Hb1 as [-> _]; by rewrite Hr.
  - destruct (wait_for_skip (fun u => if Endpoint_IsOUTReceived u then Some RWCSTREAM_NoError else aborted u)
      RWCSTREAM_NoError (SendOUT 0 []) pre' post u1) as (ms'&u'&E&Hb'&Hl); try done.
    + intros v [_ Hv]. destruct (Endpoint_IsOUTReceived v); [by right|by left].
    + intros v [Hv _]. unfold Endpoint_IsOUTReceived. rewrite selected_host_act, Hv. cbn [host_act Z.eqb].
      by destruct (RXOUTI0 (dev v)) eqn:Er; [rewrite Er|].
    + eapply Forall_impl; [exact Hp'|]. intros m Hm. by destruct (collect_flag m Hm).
    + exists ms', u'. split; [exact E|]. split; [done|]. by rewrite (wait_for_sent _ _ _ _ _ _ E).
Qed.

#[export] Instance quiet_write_LE buf : Quiet (Endpoint_Write_Control_Stream_LE buf).
Proof. apply quiet_control_write. Qed.
#[export] Instance quiet_write_P_LE buf : Quiet (Endpoint_Write_Control_PStream_LE buf).
Proof. apply quiet_control_write. Qed.
#[export] Instance quiet_read_LE n : Quiet (Endpoint_Read_Control_Stream_LE n).
Proof. apply quiet_control_read. Qed.

Lemma sent_clear_out u : UENUM u = 0 -> sent (ep (Endpoint_ClearOUT u) 0) = sent (ep u 0).
Proof. intros E. unfold Endpoint_ClearOUT. rewrite E. cbn [Z.eqb]. by rewrite on_selected_control. Qed.

(** A control read ends when the host sends enough and collects the status. *)
Lemma control_read_completes n pre post u :
  answering u -> on_bus u -> Forall calm pre -> (0 < n <= length (outs pre))%nat ->
  exists ms' u', Template_Endpoint_Control_R n (pre ++ CollectIN 0 :: post, u) =
      Some ((RWCSTREAM_NoError, take n (outs pre)), (ms', u')) /\ (exists left, ms' = left ++ post) /\ on_bus u'.
Proof.
  intros (Hu&Hk&Ho&_) Hb Hp Hn. unfold Template_Endpoint_Control_R. rewrite decide_False by lia. cbv zeta.
  destruct (read_loop_complete post pre n [] u Hp Hb) as (ms1&u1&->&Hb1&H); unfold pending; rewrite Ho.
  { cbn [app]. lia. }
  cbn [app]. set (test := fun u => if Endpoint_IsINReady u then _ else bus_lost u).
  assert (exists ms' u', wait_for test ms1 u1 = Some (RWCSTREAM_NoError, (ms', u')) /\ on_bus u' /\
    exists left, ms' = left ++ post) as (ms'&u'&->&Hb'&Hl); [|by exists ms', u'].
  assert (Hin : forall v, UENUM v = 0 -> TXINI0 (dev v) = true -> test v = Some RWCSTREAM_NoError).
  { intros v Hv Ht. unfold test, Endpoint_IsINReady. by rewrite Hv, Ht. }
  destruct H as [[Ht ->]|(pre'&->&Hp')].
  - exists post, u1. split; [|by split; [|exists []]]. destruct post; cbn [wait_for]; rewrite Hin; by destruct Hb1.
  - apply wait_for_skip; [| |done..].
    + intros v [_ Hv]. unfold test. destruct (Endpoint_IsINReady v); [by right|left].
      unfold aborted in Hv. by destruct (bus_lost v).
    + intros v [Hv _]. apply Hin; [by rewrite selected_host_act|done].
Qed.

(** ** Properties *)

(** What each code says of the moment the function returns. *)
Definition stopped_by (code : rwcstream) (u : usb_hw) : Prop :=
  match code with
  | RWCSTREAM_NoError => RXOUTI0 (dev u) = true
  | RWCSTREAM_HostAborted => RXSTPI u = true /\ USB_DeviceState u <> Unattached /\ USB_DeviceState u <> Suspended
  | RWCSTREAM_DeviceDisconnected => USB_DeviceState u = Unattached
  | RWCSTREAM_BusSuspended => USB_DeviceState u = Suspended
  end.

Lemma aborted_stopped u code :
  aborted u = Some code -> stopped_by code u.
Proof.
  unfold aborted, bus_lost, Endpoint_IsSETUPReceived. case_decide as H1; [by intros [= <-]|].
  case_decide as H2; [by intros [= <-]|]. destruct (_ && _) eqn:E; [|done]. apply andb_true_iff in E as [_ E].
  by intros [= <-].
Qed.

Lemma write_loop_stopped data full ms u code ms' u' :
  write_loop data full ms u = Some (Some code, (ms', u')) -> aborted u' = Some code.
Proof.
  revert data full u. induction ms as [|m ms IH]; intros data full u; cbn [write_loop];
    (destruct (bool_decide (data = []) && negb full); [done|]);
    (destruct (aborted u) eqn:Ha; [by intros [= <- _ <-]|]); (destruct (Endpoint_IsOUTReceived u); [done|]); [done|].
  destruct (send_packet data full u) as [[data' full'] u1]. apply IH.
Qed.

Lemma write_out_stopped data ms u code ms' u' :
  write_out data (ms, u) = Some (code, (ms', u')) -> UENUM u' = 0 -> stopped_by code u'.
Proof.
  unfold write_out. intros E Hu.
  destruct (write_loop data false ms u) as [[[c|] [ms1 u1]]|] eqn:El; [| |done].
  - injection E as -> -> ->. by apply aborted_stopped, (write_loop_stopped data false ms u code ms').
  - apply wait_for_host in E as [_ E]. cbn [snd] in E. destruct (Endpoint_IsOUTReceived u') eqn:Eo; [|by apply aborted_stopped].
    injection E as <-. unfold Endpoint_IsOUTReceived in Eo. by rewrite Hu in Eo.
Qed.

(** C36: a control write never sends anything wrong, and says why it ends.  Whatever
    the host and the bus do meanwhile and however the transfer ends, the packets
    the control endpoint sent are a prefix of the reference packets of the data
    cut to the requested length, so their bytes are a prefix of the data;
    outside the control endpoint only the host acted; and the code is the
    reason: no error when the host has acknowledged (the status packet is
    there), aborted when the host's next request is there and the device is on
    the bus, disconnected or suspended when the device is in that state. *)
Theorem control_write_safe data ms u code ms' u' :
  answering u -> Forall is_byte data ->
  Template_Endpoint_Control_W data (ms, u) = Some (code, (ms', u')) ->
  exists P, sent (ep u' 0) = sent (ep u 0) ++ P /\
    P `prefix_of` packets (take (Z.to_nat (wLength (USB_ControlRequest (dev u)))) data) /\
    concat P `prefix_of` data /\ host_only (ms, u) (ms', u') /\ stopped_by code u'.
Proof.
  intros (Hu&Hk&Ho&Hn) Hd E.
  pose proof (quiet_control_write data (ms, u) code (ms', u') Hu E) as Hq.
  rewrite Control_W_unfold in E. set (n := wLength (USB_ControlRequest (dev u))) in *.
  enough (exists P, (sent (ep u' 0) = sent (ep u 0) ++ P /\ P `prefix_of` packets (take (Z.to_nat n) data)) /\
    stopped_by code u') as (P&[H1 H2]&H3).
  { exists P. do 2 (split; [done|]). split; [|done]. destruct H2 as [Q EQ].
    apply (f_equal (@concat Z)) in EQ. rewrite concat_packets, concat_app in EQ.
    exists (concat Q ++ drop (Z.to_nat n) data). rewrite app_assoc, <- EQ. by rewrite take_drop. }
  assert (Hu' : UENUM u' = 0) by (destruct Hq as [Eq _]; cbn [snd] in Eq; congruence).
  assert (Hst : forall d v, write_out d (ms, v) = Some (code, (ms', u')) -> stopped_by code u')
    by (intros d v Ew; by apply (write_out_stopped d ms v code ms')).
  clear Hq. destruct (Z.ltb_spec n (Z.of_nat (length data))) as [Hl|Hl].
  - pose proof (Hst _ _ E). apply write_out_safe in E as (P&H1&H2&_); [|done..|by apply Forall_take]. by exists P.
  - rewrite take_ge by lia. case_bool_decide as H0; pose proof (Hst _ _ E).
    + destruct (control_clear_in u Hu) as (K1&K2&K3&_).
      apply write_out_safe in E as (P&H1&_&H2); [|by destruct K1 as [[-> _] _]|done..].
      exists [[]]. split; [|done]. rewrite H1, K3, Hk, H2, app_nil_r, H0 by done. by split.
    + apply write_out_safe in E as (P&H1&H2&_); [|done..]. by exists P.
Qed.

(** A control endpoint in the middle of a request for [n] bytes. *)
Definition request (bm n : Z) : USB_Request_Header_t :=
  {| bmRequestType := bm; bRequest := 0; wValue := 0; wIndex := 0; wLength := n |}.
Definition endpoint_zero : endpoint := {| UECFG0X := 0; UECFG1X := 0; event := false; bank := []; sent := [] |}.
Definition dev_zero : usb_dev :=
  {| ureg := fun _ => 0; UECONX := fun _ => 0; UEIENX := fun _ => 0; TXINI0 := false; RXOUTI0 := false;
     USB_ControlRequest := request 0 0; USB_Device_ConfigurationNumber := 0;
     USB_Device_CurrentlySelfPowered := false; USB_Device_RemoteWakeupEnabled := false;
     USB_IsInitialized := false |}.
Definition hw_zero : usb_hw :=
  {| UENUM := 0; ep := fun _ => endpoint_zero; RXSTPI := false; USB_DeviceState := Unattached; dev := dev_zero |}.
Definition asked (bm n : Z) : usb_hw :=
  with_state Default_ (with_dev (fun d => dev_control true false (dev_vars (request bm n) 0 false false true d)) hw_zero).

Definition ten : list Z := [1; 2; 3; 4; 5; 6; 7; 8; 9; 10].
Lemma ten_bytes : Forall is_byte ten.
Proof. repeat constructor; unfold is_u; cbn; lia. Qed.

(** Nine of ten bytes were asked for; a new request breaks the answer off after
    the first packet. *)
Lemma control_write_safe_witness : exists u',
  Template_Endpoint_Control_W ten ([Idle; SendSETUP [0x80; 6]], asked 0x80 9) =
    Some (RWCSTREAM_HostAborted, ([], u')) /\ RXSTPI u' = true /\
  exists P, sent (ep u' 0) = P /\ concat P `prefix_of` ten.
Proof.
  set (u' := host_act (SendSETUP [0x80; 6]) (host_act Idle (send_packet (take 9 ten) false (asked 0x80 9)).2)).
  assert (E : Template_Endpoint_Control_W ten ([Idle; SendSETUP [0x80; 6]], asked 0x80 9) =
    Some (RWCSTREAM_HostAborted, ([], u'))) by (vm_compute; reflexivity).
  exists u'. split; [exact E|].
  destruct (control_write_safe ten _ (asked 0x80 9) _ _ _ ltac:(by split_and!) ten_bytes E) as (P&H1&_&H2&_&[H3 _]).
  split; [exact H3|]. exists P. split; [exact H1|exact H2].
Defined.

(** C24: a control write ends.  If the host collects as often as there are packets,
    whatever else it does in between on other endpoints, and then acknowledges,
    the transfer succeeds with exactly the reference packets of the data cut to
    the requested length: all of eight bytes but the last, which is shorter. *)
Theorem control_write_completes data pre post u :
  let n := Z.to_nat (wLength (USB_ControlRequest (dev u))) in
  answering u -> on_bus u -> Forall is_byte data -> take n data <> [] ->
  Forall only_in pre -> (length (packets (take n data)) <= collects pre)%nat ->
  exists ms' u', Template_Endpoint_Control_W data (pre ++ SendOUT 0 [] :: post, u) =
      Some (RWCSTREAM_NoError, (ms', u')) /\ (exists left, ms' = left ++ post) /\
    sent (ep u' 0) = sent (ep u 0) ++ packets (take n data) /\
    concat (packets (take n data)) = take n data /\
    forall i p, packets (take n data) !! i = Some p ->
      (length p <= 8)%nat /\ (S i < length (packets (take n data)) -> length p = 8)%nat.
Proof.
  cbv zeta. intros Ha Hb Hd Hne Hp Hc.
  destruct (Control_W_completes data pre post u Ha Hb Hd Hne Hp Hc) as (ms'&u'&E&H1&H2&_).
  exists ms', u'. do 3 (split; [done|]). split; [apply concat_packets|apply packets_shape].
Qed.

Lemma control_write_completes_witness : exists ms' u',
  Template_Endpoint_Control_W ten ([Idle; CollectIN 0; CollectIN 1; CollectIN 0] ++ [SendOUT 0 []], asked 0x80 9) =
    Some (RWCSTREAM_NoError, (ms', u')) /\ sent (ep u' 0) = [[1; 2; 3; 4; 5; 6; 7; 8]; [9]].
Proof.
  destruct (control_write_completes ten [Idle; CollectIN 0; CollectIN 1; CollectIN 0] [] (asked 0x80 9))
    as (ms'&u'&E&_&H&_);
    [by split_and!|done|apply ten_bytes|done|repeat (apply Forall_cons; split; [done|]); by apply Forall_nil|vm_compute; lia|].
  exists ms', u'. split; [exact E|exact H].
Defined.

(** a control read stores what the host sends.  For every schedule and every
    way it ends, the bytes stored are, in order, those of the packets the host
    sent to the control endpoint, cut to the length asked for; without an error
    there are that many; and outside the control endpoint only the host acted. *)
Theorem control_read_exact n ms u code got ms' u' :
  answering u -> Template_Endpoint_Control_R n (ms, u) = Some ((code, got), (ms', u')) ->
  host_only (ms, u) (ms', u') /\
  exists used, ms = used ++ ms' /\ got `prefix_of` take n (outs used) /\
    (code = RWCSTREAM_NoError -> got = take n (outs used) /\ length got = n).
Proof.
  intros (Hu&Hk&Ho&_) E. split; [exact (quiet_control_read n (ms, u) (code, got) (ms', u') Hu E)|].
  unfold Template_Endpoint_Control_R in E. cbv zeta in E.
  set (u0 := if decide (n = 0%nat) then Endpoint_ClearOUT u else u) in E.
  assert (UENUM u0 = 0 /\ RXOUTI0 (dev u0) = false) as [Hu0 Ho0].
  { unfold u0. case_decide; [|done]. unfold Endpoint_ClearOUT. by rewrite Hu. }
  destruct (read_loop n [] ms u0) as [[[r got'] [ms1 u1]]|] eqn:El; [|done].
  apply read_loop_spec in El as (used&E1&E2&E3&E4); [|done|congruence].
  unfold pending in E2, E3. rewrite Ho0 in E2, E3. cbn [app] in E2, E3. destruct r as [c|].
  - injection E as <- <- <- <-. exists used. split; [done|]. split; [by rewrite E2|].
    by intros ->.
  - specialize (E3 eq_refl).
    destruct (wait_for _ ms1 u1) as [[c st]|] eqn:Ew; [|done]. injection E as <- <- ->.
    apply wait_for_host in Ew as [(_&used'&F1&_) _]. cbn [fst] in F1. exists (used ++ used').
    split; [by rewrite E1, F1, <- app_assoc|]. unfold outs in *. rewrite fmap_app, concat_app.
    rewrite take_app_le by done. split; [by rewrite E2|]. intros _. split; [done|].
    rewrite E2, length_take. lia.
Qed.

Lemma control_read_exact_witness : exists u' used,
  Template_Endpoint_Control_R 7 ([SendOUT 0 [0; 194; 1]; Idle; SendOUT 0 [0; 0; 0; 8]; CollectIN 0], asked 0x21 7) =
    Some ((RWCSTREAM_NoError, [0; 194; 1; 0; 0; 0; 8]), ([], u')) /\
  [0; 194; 1; 0; 0; 0; 8] = take 7 (outs used).
Proof.
  eexists. assert (E : Template_Endpoint_Control_R 7
    ([SendOUT 0 [0; 194; 1]; Idle; SendOUT 0 [0; 0; 0; 8]; CollectIN 0], asked 0x21 7) =
    Some ((RWCSTREAM_NoError, [0; 194; 1; 0; 0; 0; 8]), ([], _))) by (vm_compute; reflexivity).
  destruct (control_read_exact 7 _ (asked 0x21 7) _ _ _ _ ltac:(by split_and!) E) as (_&used&_&_&H).
  exists used. split; [exact E|]. apply (H eq_refl).
Defined.
