(* ===== verification/EndpointWords.v ===== *)
(** * EndpointWords: the rest of lufa/LUFA/Drivers/USB/Core/AVR8/Endpoint_AVR8.h and .c

    Multi-byte access to the selected endpoint's bank in both byte orders, the
    direction bit, the interrupt mask, the busy banks with the abort of what is
    queued, and the two functions over all endpoints: configuring a table and
    clearing everything.  Reading an empty bank gives
    zeros here as [Endpoint_Read_8] does. *)
From Stdlib Require Import Sorted.
From S2P Require Import Prelude.
From S2P Require Import UsbEndpoint.
From S2P Require Import UsbStream.

(** ** Endpoint_AVR8.h: words *)

(** [n] reads of the data register. *)
Fixpoint read_bytes (n : nat) (u : usb_hw) : list Z * usb_hw :=
  match n with
  | O => ([], u)
  | S n => let '(b, u) := Endpoint_Read_8 u in let '(l, u) := read_bytes n u in (b :: l, u)
  end.
Definition write_bytes (l : list Z) (u : usb_hw) : usb_hw := fold_left (fun u b => Endpoint_Write_8 b u) l u.

(** The union of the source: its bytes from the lowest address up, on a
    little-endian processor. *)
Definition Endpoint_Read_16_LE (u : usb_hw) : Z * usb_hw :=
  let '(l, u) := read_bytes 2 u in (le_combine l, u).
Definition Endpoint_Read_16_BE (u : usb_hw) : Z * usb_hw :=
  let '(l, u) := read_bytes 2 u in (le_combine (rev l), u).
Definition Endpoint_Write_16_BE (Data : Z) (u : usb_hw) : usb_hw :=
  let u := Endpoint_Write_8 (Z.shiftr Data 8) u in
  Endpoint_Write_8 (Z.land Data 0xFF) u.
Definition Endpoint_Discard_16 (u : usb_hw) : usb_hw := Endpoint_Discard_8 (Endpoint_Discard_8 u).
Definition Endpoint_Read_32_LE (u : usb_hw) : Z * usb_hw :=
  let '(l, u) := read_bytes 4 u in (le_combine l, u).
Definition Endpoint_Read_32_BE (u : usb_hw) : Z * usb_hw :=
  let '(l, u) := read_bytes 4 u in (le_combine (rev l), u).
Definition Endpoint_Write_32_LE (Data : Z) (u : usb_hw) : usb_hw :=
  let u := Endpoint_Write_8 (Z.land Data 0xFF) u in
  let u := Endpoint_Write_8 (Z.shiftr Data 8) u in
  let u := Endpoint_Write_8 (Z.shiftr Data 16) u in
  Endpoint_Write_8 (Z.shiftr Data 24) u.
Definition Endpoint_Write_32_BE (Data : Z) (u : usb_hw) : usb_hw :=
  let u := Endpoint_Write_8 (Z.shiftr Data 24) u in
  let u := Endpoint_Write_8 (Z.shiftr Data 16) u in
  let u := Endpoint_Write_8 (Z.shiftr Data 8) u in
  Endpoint_Write_8 (Z.land Data 0xFF) u.
Definition Endpoint_Discard_32 (u : usb_hw) : usb_hw := Endpoint_Discard_16 (Endpoint_Discard_16 u).

(** ** Endpoint_AVR8.h: direction and interrupts *)

Definition with_cfg0 (f : Z -> Z) (e : endpoint) : endpoint :=
  {| UECFG0X := f (UECFG0X e); UECFG1X := UECFG1X e; event := event e; bank := bank e; sent := sent e |}.
Definition Endpoint_SetEndpointDirection (DirectionMask : Z) : usb_hw -> usb_hw :=
  on_selected (with_cfg0 (fun x => Z.lor (clear_bits x (2 ^ EPDIR)) (if to_bool DirectionMask then 2 ^ EPDIR else 0))).
Definition Endpoint_GetEndpointInterrupts (u : usb_hw) : Z := ureg (dev u) UEINT.
Definition Endpoint_HasEndpointInterrupted (Address : Z) (u : usb_hw) : bool :=
  to_bool (Z.land (Endpoint_GetEndpointInterrupts u) (Z.shiftl 1 (Z.land Address ENDPOINT_EPNUM_MASK))).

(** *** Busy banks

    [NBUSYBK] counts the banks an IN endpoint has queued and the host has not yet
    collected, or those of an OUT endpoint that hold a packet: none or one. *)
Definition Endpoint_GetBusyBanks (u : usb_hw) : Z :=
  let e := selected u in
  if UENUM u =? 0 then Z.b2z (RXOUTI0 (dev u))
  else Z.b2z (if ep_is_in e then negb (event e) else event e).

(** Writing one to [RXOUTI] is [KILLBK] on an IN endpoint: the packet queued last
    is withdrawn.  Elsewhere a flag is not changed by writing one to it. *)
Definition kill_bank (e : endpoint) : endpoint :=
  {| UECFG0X := UECFG0X e; UECFG1X := UECFG1X e; event := true; bank := bank e; sent := removelast (sent e) |}.
Definition write_RXOUTI (u : usb_hw) : usb_hw :=
  if UENUM u =? 0 then u else on_selected (fun e => if ep_is_in e then kill_bank e else e) u.
Definition RXOUTI_reads (u : usb_hw) : bool :=
  if UENUM u =? 0 then RXOUTI0 (dev u) else negb (ep_is_in (selected u)) && event (selected u).

(** [None]: one of the two loops does not end. *)
Fixpoint Endpoint_AbortPendingIN (fuel : nat) (u : usb_hw) : option usb_hw :=
  if negb (Endpoint_GetBusyBanks u =? 0) then
    match fuel with
    | O => None
    | S fuel =>
        let u := write_RXOUTI u in
        if RXOUTI_reads u then None else Endpoint_AbortPendingIN fuel u
    end
  else Some u.

(** ** Endpoint_AVR8.c *)

Record USB_Endpoint_Table_t := { Address : Z; Size : Z; Type_ : Z; Banks : Z }.

Fixpoint Endpoint_ConfigureEndpointTable (Table : list USB_Endpoint_Table_t) (u : usb_hw) : option (bool * usb_hw) :=
  match Table with
  | [] => Some (true, u)
  | t :: Table =>
      if negb (to_bool (Address t)) then Endpoint_ConfigureEndpointTable Table u
      else
        '(ok, u) ← Endpoint_ConfigureEndpoint (Address t) (Type_ t) (Size t) (Banks t) u;
        if negb ok then Some (false, u) else Endpoint_ConfigureEndpointTable Table u
  end.

(** [UEINTX = 0] takes every flag down; freeing the memory empties the bank. *)
Definition cleared (e : endpoint) : endpoint :=
  {| UECFG0X := UECFG0X e; UECFG1X := 0; event := false; bank := []; sent := sent e |}.
Definition clear_endpoint (EPNum : Z) (u : usb_hw) : usb_hw :=
  let u := Endpoint_SelectEndpoint EPNum u in
  let u := set_ien (fun _ => 0) u in
  let u := if EPNum =? 0 then with_setup false (with_dev (dev_control false false) u) else u in
  let u := on_selected cleared u in
  Endpoint_DisableEndpoint u.
Definition Endpoint_ClearEndpoints (u : usb_hw) : usb_hw :=
  let u := with_dev (dev_reg UEINT 0) u in
  fold_left (fun u n => clear_endpoint (Z.of_nat n) u) (seq 0 (Z.to_nat ENDPOINT_TOTAL_ENDPOINTS)) u.

(** ** Words through the bank *)

(** The same hardware, with another bank at the selected endpoint. *)
Definition bank_is (l : list Z) (u u' : usb_hw) : Prop :=
  bank (selected u') = l /\ UENUM u' = UENUM u /\ (forall n, n <> UENUM u -> ep u' n = ep u n) /\
  with_bank [] (selected u') = with_bank [] (selected u) /\
  RXSTPI u' = RXSTPI u /\ USB_DeviceState u' = USB_DeviceState u /\ dev u' = dev u.

Lemma bank_is_trans l1 l2 u v w : bank_is l1 u v -> bank_is l2 v w -> bank_is l2 u w.
Proof.
  intros (_&U1&E1&B1&R1&S1&D1) (L2&U2&E2&B2&R2&S2&D2).
  split_and!; [done|congruence| |congruence..]. intros n Hn. rewrite E2 by congruence. by apply E1.
Qed.

Lemma bank_is_on_selected g u : bank_is (g (bank (selected u))) u (on_selected (fun e => with_bank (g (bank e)) e) u).
Proof.
  split_and!; try done.
  - by rewrite selected_on_selected.
  - intros n Hn. unfold on_selected. by apply ep_with_ep_ne.
  - by rewrite selected_on_selected.
Qed.

Lemma Write_8_bank b u : bank_is (bank (selected u) ++ [u8 b]) u (Endpoint_Write_8 b u).
Proof. apply (bank_is_on_selected (fun l => l ++ [u8 b])). Qed.

Lemma write_bytes_bank l u : bank_is (bank (selected u) ++ (u8 <$> l)) u (write_bytes l u).
Proof.
  revert u. induction l as [|b l IH]; intros u; [by rewrite app_nil_r; split_and!|].
  unfold write_bytes. cbn [fold_left]. eapply bank_is_trans; [apply Write_8_bank|].
  specialize (IH (Endpoint_Write_8 b u)). destruct (Write_8_bank b u) as (E&_). rewrite E in IH.
  by rewrite <- app_assoc in IH.
Qed.

Lemma read_bytes_bank l rest u :
  bank (selected u) = l ++ rest ->
  exists u', read_bytes (length l) u = (l, u') /\ bank_is rest u u'.
Proof.
  revert u. induction l as [|b l IH]; intros u E; cbn [length read_bytes].
  { exists u. split; [done|]. by split_and!. }
  unfold Endpoint_Read_8. rewrite E. cbn [head app default].
  pose proof (bank_is_on_selected tail u) as Hb. rewrite E in Hb. cbn [tail app] in Hb.
  destruct (IH _ (proj1 Hb)) as (u'&E'&Hu). rewrite E'. exists u'. split; [done|].
  eapply bank_is_trans; [exact Hb|exact Hu].
Qed.

(** The bytes each function writes. *)
Lemma shift_bytes Data n k : 0 <= n -> Z.shiftr Data (8 * n) = k -> u8 k = Data / 256 ^ n mod 256.
Proof.
  intros Hn <-. unfold u8, uwrap. rewrite Z.shiftr_div_pow2 by lia.
  rewrite Z.pow_mul_r by lia. done.
Qed.

Lemma low_byte Data : u8 (Z.land Data 0xFF) = Data mod 256.
Proof.
  assert (Z.land Data 0xFF = Data mod 256) as -> by (apply (land_ones_mod Data 8); lia).
  apply u8_id, Z.mod_pos_bound. lia.
Qed.

Lemma bytes_16 Data : u8 <$> [Z.land Data 0xFF; Z.shiftr Data 8] = le_split 2 Data.
Proof.
  cbn [fmap list_fmap le_split]. rewrite low_byte. repeat f_equal.
  by rewrite (shift_bytes Data 1) by done.
Qed.

Lemma bytes_32 Data :
  u8 <$> [Z.land Data 0xFF; Z.shiftr Data 8; Z.shiftr Data 16; Z.shiftr Data 24] = le_split 4 Data.
Proof.
  cbn [fmap list_fmap le_split]. rewrite low_byte.
  rewrite (shift_bytes Data 1 (Z.shiftr Data 8)), (shift_bytes Data 2 (Z.shiftr Data 16)),
    (shift_bytes Data 3 (Z.shiftr Data 24)) by done.
  rewrite !Zdiv.Zdiv_Zdiv by lia. done.
Qed.

(** [read] gets back from the front of a bank what [write] appended to one: [n]
    bytes, and nothing else of the hardware changes. *)
Definition word_codec (n : nat) (write : Z -> usb_hw -> usb_hw) (read : usb_hw -> Z * usb_hw) : Prop :=
  forall Data u, is_u (8 * Z.of_nat n) Data -> exists l, length l = n /\
    bank_is (bank (selected u) ++ l) u (write Data u) /\
    forall v rest, bank (selected v) = l ++ rest -> exists v', read v = (Data, v') /\ bank_is rest v v'.

Lemma LE_codec n write (read : usb_hw -> Z * usb_hw) :
  (forall Data u, exists l, u8 <$> l = le_split n Data /\ write Data u = write_bytes l u) ->
  (forall v, read v = let '(l, v') := read_bytes n v in (le_combine l, v')) -> word_codec n write read.
Proof.
  intros Hw Hr Data u Hd. exists (le_split n Data). split; [apply length_le_split|]. split.
  - destruct (Hw Data u) as (l&E&->). rewrite <- E. apply write_bytes_bank.
  - intros v rest E. destruct (read_bytes_bank _ _ v E) as (v'&E'&H). rewrite length_le_split in E'.
    exists v'. rewrite Hr, E', le_combine_split, Z.mod_small by exact Hd. done.
Qed.

Lemma BE_codec n write (read : usb_hw -> Z * usb_hw) :
  (forall Data u, exists l, u8 <$> l = rev (le_split n Data) /\ write Data u = write_bytes l u) ->
  (forall v, read v = let '(l, v') := read_bytes n v in (le_combine (rev l), v')) -> word_codec n write read.
Proof.
  intros Hw Hr Data u Hd. exists (rev (le_split n Data)).
  assert (Hl : length (rev (le_split n Data)) = n) by (by rewrite length_rev, length_le_split).
  split; [exact Hl|]. split.
  - destruct (Hw Data u) as (l&E&->). rewrite <- E. apply write_bytes_bank.
  - intros v rest E. destruct (read_bytes_bank _ _ v E) as (v'&E'&H). rewrite Hl in E'.
    exists v'. rewrite Hr, E', rev_involutive, le_combine_split, Z.mod_small by exact Hd. done.
Qed.

(** ** Tables *)

Definition entry_number (t : USB_Endpoint_Table_t) : Z := Z.land (Address t) ENDPOINT_EPNUM_MASK.
Definition entry_cfg0 (t : USB_Endpoint_Table_t) : Z :=
  Z.lor (Z.shiftl (Type_ t) EPTYPE0) (if to_bool (Z.land (Address t) ENDPOINT_DIR_IN) then 2 ^ EPDIR else 0).
Definition entry_cfg1 (mask : Z) (t : USB_Endpoint_Table_t) : Z :=
  Z.lor (Z.lor (2 ^ ALLOC) (if 1 <? Banks t then 2 ^ EPBK0 else 0)) mask.

(** An entry the hardware has an endpoint and a bank for. *)
Definition entry_ok (t : USB_Endpoint_Table_t) : Prop :=
  Address t <> 0 /\ 0 < entry_number t < ENDPOINT_TOTAL_ENDPOINTS /\ 0 <= Size t <= 512.

Lemma EPSizeMask_defined Bytes : 0 <= Bytes <= 512 -> exists mask, Endpoint_BytesToEPSizeMask Bytes = Some mask.
Proof.
  intros Hb. assert (H : forallb (fun b => match Endpoint_BytesToEPSizeMask (Z.of_nat b) with Some _ => true | None => false end)
    (seq 0 513) = true) by (by vm_compute).
  rewrite forallb_forall in H. specialize (H (Z.to_nat Bytes)). rewrite Z2Nat.id in H by lia.
  destruct (Endpoint_BytesToEPSizeMask Bytes) as [mask|]; [by exists mask|].
  discriminate H. apply in_seq. lia.
Qed.

(** One entry. *)
Definition entry_done (t : USB_Endpoint_Table_t) (u u' : usb_hw) : Prop :=
  exists mask, Endpoint_BytesToEPSizeMask (Size t) = Some mask /\
    ep u' (entry_number t) = reconfigured (entry_cfg0 t) (entry_cfg1 mask t) (ep u (entry_number t)).

Lemma configure_entry t u :
  entry_ok t ->
  exists u', Endpoint_ConfigureEndpoint (Address t) (Type_ t) (Size t) (Banks t) u = Some (true, u') /\
    entry_done t u u' /\ (forall m, m < entry_number t -> ep u' m = ep u m) /\ same_history u u'.
Proof.
  intros (_&Hn&Hs). destruct (EPSizeMask_defined _ Hs) as [mask Em].
  assert (Ha : to_bool (Z.land (entry_cfg1 mask t) (2 ^ ALLOC)) = true).
  { rewrite (to_bool_mask _ _ ALLOC eq_refl) by done. unfold entry_cfg1.
    rewrite !Z.lor_spec, Z.pow2_bits_true by done. done. }
  destruct (Endpoint_ConfigureEndpoint_Prv_spec (entry_number t) (entry_cfg0 t) (entry_cfg1 mask t) u) as
    (u'&E&E1&E2&E3&_); [unfold ENDPOINT_TOTAL_ENDPOINTS in Hn; lia|exact Ha|].
  exists u'. split; [|split; [by exists mask|done]].
  rewrite (Endpoint_ConfigureEndpoint_run _ _ _ _ u (entry_number t) (entry_cfg0 t) (entry_cfg1 mask t) mask);
    [by rewrite E|done|apply Hn|exact Em|done|done].
Qed.

Definition entry_before (t t' : USB_Endpoint_Table_t) : Prop := entry_number t < entry_number t'.

Lemma configure_table Table u :
  Forall entry_ok Table -> StronglySorted entry_before Table ->
  exists u', Endpoint_ConfigureEndpointTable Table u = Some (true, u') /\
    Forall (fun t => entry_done t u u') Table /\ same_history u u' /\
    (forall m, Forall (fun t => m < entry_number t) Table -> ep u' m = ep u m).
Proof.
  intros Hok Hs. revert u. induction Hs as [|t Table Hs IH Hlt]; intros u; cbn [Endpoint_ConfigureEndpointTable].
  { by exists u. }
  apply Forall_cons in Hok as [Ht Hok]. destruct (configure_entry t u Ht) as (u1&E1&(mask&Em&D1)&L1&S1).
  assert (to_bool (Address t) = true) as ->.
  { unfold to_bool. by rewrite (proj2 (Z.eqb_neq _ _)) by apply Ht. }
  cbn [negb]. rewrite (option_bind_run _ _ _ E1). cbv beta iota. cbn [negb].
  destruct (IH Hok u1) as (u2&E2&D2&S2&L2). exists u2. split; [exact E2|]. split; [|split].
  - apply Forall_cons. split.
    + exists mask. split; [exact Em|]. rewrite L2; [exact D1|exact Hlt].
    + rewrite Forall_forall in D2, Hlt |- *. intros t' Hin. destruct (D2 t' Hin) as (mask'&Em'&D').
      exists mask'. split; [exact Em'|]. rewrite D'. apply reconfigured_sent, S1.
  - by etransitivity.
  - intros m Hm. apply Forall_cons in Hm as [Hm1 Hm2]. by rewrite L2, L1.
Qed.

(** ** Clearing everything *)

(** The flags of the control endpoint and the interrupt mask are down, and every
    endpoint is disabled, without memory and without interrupts. *)
Lemma Endpoint_ClearEndpoints_spec u :
  let u' := Endpoint_ClearEndpoints u in
  RXSTPI u' = false /\ TXINI0 (dev u') = false /\ RXOUTI0 (dev u') = false /\ Endpoint_GetEndpointInterrupts u' = 0 /\
  forall n, 0 <= n < ENDPOINT_TOTAL_ENDPOINTS -> ep u' n = cleared (ep u n) /\ UEIENX (dev u') n = 0 /\
    Z.testbit (UECONX (dev u') n) EPEN = false.
Proof.
  cbv zeta. do 4 (split; [reflexivity|]). intros n Hn. unfold ENDPOINT_TOTAL_ENDPOINTS in Hn.
  assert (n = 0 \/ n = 1 \/ n = 2 \/ n = 3 \/ n = 4 \/ n = 5 \/ n = 6) as H by lia.
  destruct H as [->|[->|[->|[->|[->|[->| ->]]]]]]; (split; [reflexivity|]; split; [reflexivity|]);
    (etransitivity; [apply testbit_clear_bits; done|apply andb_false_r]).
Qed.

(** Aborting takes back the packet just queued, and ends; on an OUT endpoint that
    holds a packet it never ends. *)
Lemma abort_takes_back u :
  UENUM u <> 0 -> ep_is_in (selected u) = true -> event (selected u) = true ->
  exists u', Endpoint_AbortPendingIN 1 (Endpoint_ClearIN u) = Some u' /\
    sent (selected u') = sent (selected u) /\ event (selected u') = true /\ bank (selected u') = [].
Proof.
  intros Hn Hi He. apply Z.eqb_neq in Hn.
  assert (Es : selected (Endpoint_ClearIN u) = give_bank false (selected u)).
  { unfold Endpoint_ClearIN, on_selected, selected in *. rewrite Hn. cbn [with_ep ep UENUM]. by rewrite Z.eqb_refl, Hi. }
  set (u1 := Endpoint_ClearIN u) in *.
  assert (En : UENUM u1 = UENUM u) by (unfold u1, Endpoint_ClearIN; by rewrite Hn).
  assert (Ew : selected (write_RXOUTI u1) = kill_bank (give_bank false (selected u))).
  { unfold write_RXOUTI, on_selected. rewrite Es, En, Hn. unfold selected at 1. cbn [with_ep ep UENUM]. rewrite En, Z.eqb_refl.
    unfold ep_is_in in *. cbn [give_bank UECFG0X]. by rewrite Hi. }
  assert (Ewn : UENUM (write_RXOUTI u1) = UENUM u) by (unfold write_RXOUTI; by rewrite En, Hn).
  exists (write_RXOUTI u1). cbn [Endpoint_AbortPendingIN]. unfold Endpoint_GetBusyBanks, RXOUTI_reads.
  rewrite Ewn, En, Hn, Es, Ew. unfold ep_is_in in *. cbn [kill_bank give_bank UECFG0X event bank sent]. rewrite Hi. cbn.
  by rewrite removelast_last.
Qed.

Lemma abort_stuck u fuel :
  UENUM u <> 0 -> ep_is_in (selected u) = false -> event (selected u) = true ->
  Endpoint_AbortPendingIN fuel u = None.
Proof.
  intros Hn Hi He. apply Z.eqb_neq in Hn.
  assert (Ew : selected (write_RXOUTI u) = selected u).
  { unfold write_RXOUTI, on_selected. rewrite Hn. unfold selected in *. cbn [with_ep ep UENUM].
    by rewrite Z.eqb_refl, Hi. }
  assert (Ewn : UENUM (write_RXOUTI u) = UENUM u) by (unfold write_RXOUTI; by rewrite Hn).
  destruct fuel; cbn [Endpoint_AbortPendingIN]; unfold Endpoint_GetBusyBanks, RXOUTI_reads;
    rewrite ?Ewn, ?Ew, Hn, Hi, He; done.
Qed.

(** ** Properties *)

(** words through an endpoint.  A 16-bit or 32-bit value written in either byte
    order appends that many bytes to the selected bank and changes nothing else;
    whoever has these bytes at the front of a bank reads the value back in the
    same byte order, and is left with what follows.  Discarding drops as many. *)
Theorem endpoint_words_round_trip :
  word_codec 2 Endpoint_Write_16_LE Endpoint_Read_16_LE /\
  word_codec 2 Endpoint_Write_16_BE Endpoint_Read_16_BE /\
  word_codec 4 Endpoint_Write_32_LE Endpoint_Read_32_LE /\
  word_codec 4 Endpoint_Write_32_BE Endpoint_Read_32_BE /\
  (forall u, bank_is (drop 2 (bank (selected u))) u (Endpoint_Discard_16 u)) /\
  (forall u, bank_is (drop 4 (bank (selected u))) u (Endpoint_Discard_32 u)).
Proof.
  assert (D1 : forall u, bank_is (tail (bank (selected u))) u (Endpoint_Discard_8 u)) by (intros u; apply bank_is_on_selected).
  assert (D2 : forall u, bank_is (drop 2 (bank (selected u))) u (Endpoint_Discard_16 u)).
  { intros u. eapply bank_is_trans; [apply D1|].
    assert (drop 2 (bank (selected u)) = tail (bank (selected (Endpoint_Discard_8 u)))) as ->; [|apply D1].
    destruct (D1 u) as [-> _]. by destruct (bank (selected u)) as [|a [|b l]]. }
  split; [|split; [|split; [|split; [|split; [exact D2|]]]]].
  - apply LE_codec; [|done]. intros Data u. eexists. split; [apply bytes_16|done].
  - apply BE_codec; [|done]. intros Data u. exists [Z.shiftr Data 8; Z.land Data 0xFF].
    split; [by rewrite <- bytes_16|done].
  - apply LE_codec; [|done]. intros Data u. eexists. split; [apply bytes_32|done].
  - apply BE_codec; [|done]. intros Data u.
    exists [Z.shiftr Data 24; Z.shiftr Data 16; Z.shiftr Data 8; Z.land Data 0xFF].
    split; [by rewrite <- bytes_32|done].
  - intros u. eapply bank_is_trans; [apply D2|].
    assert (drop 4 (bank (selected u)) = drop 2 (bank (selected (Endpoint_Discard_16 u)))) as ->; [|apply D2].
    destruct (D2 u) as [-> _]. by rewrite drop_drop.
Qed.

(** endpoint tables.  A table whose entries name existing data endpoints in
    ascending order, with bank sizes up to 512, is configured completely: the
    call succeeds, every endpoint of the table has the registers its entry asks
    for and an empty bank (free, for an IN endpoint), endpoints below the first
    entry keep everything, and no packet the host has got is forgotten. *)
Theorem endpoint_table_configured Table u :
  Forall entry_ok Table -> StronglySorted entry_before Table ->
  exists u', Endpoint_ConfigureEndpointTable Table u = Some (true, u') /\
    Forall (fun t => entry_done t u u') Table /\ same_history u u' /\
    (forall m, Forall (fun t => m < entry_number t) Table -> ep u' m = ep u m).
Proof. apply configure_table. Qed.

(** The two data endpoints of the firmware. *)
Definition cdc_table : list USB_Endpoint_Table_t :=
  [{| Address := 0x81; Size := 16; Type_ := EP_TYPE_BULK; Banks := 1 |};
   {| Address := 0x02; Size := 16; Type_ := EP_TYPE_BULK; Banks := 1 |}].

Lemma endpoint_table_configured_witness :
  exists u', Endpoint_ConfigureEndpointTable cdc_table hw_zero = Some (true, u') /\ ep u' 0 = ep hw_zero 0.
Proof.
  destruct (endpoint_table_configured cdc_table hw_zero) as (u'&E&_&_&H).
  - repeat constructor; cbn; lia.
  - repeat constructor.
  - exists u'. split; [exact E|]. apply H. repeat constructor.
Defined.
