(* ===== verification/SerialIO.v ===== *)
(** * SerialIO: Driver/SerialIO.c

    The serial link over USB: two character rings between the program and the
    data endpoints, one byte moved each way per upkeep, the message format and
    the handlers of the library's events.  [rx_bytes] and [tx_bytes] are the
    rings' contents as bytes; [frame] is the message format of the comment of
    [usb_send_msg] and [decode_frame] reads it back as the host does.  The two
    functions that call into the library's task are in SerialLink.v. *)
From S2P Require Import Prelude.
From S2P Require Import Float32.
From S2P Require Import RingBuffer.
From S2P Require Import UsbEndpoint.
From S2P Require Import Descriptors.
From S2P Require Import UsbStream.

Record CDC_LineEncoding_t := {
  BaudRateBPS : Z;
  CharFormat : Z;
  ParityType : Z;
  DataBits : Z;
}.

(** The file's static variables, the two function statics [reading] and
    [sending], and the endpoint hardware. *)
Record serial := {
  usb_receive_buffer : Ring_Buffer_C;
  usb_send_buffer : Ring_Buffer_C;
  clear_buffer : bool;
  reading : bool;
  sending : bool;
  LineEncoding1 : CDC_LineEncoding_t;
  hw : usb_hw;
}.

Definition with_rx (b : Ring_Buffer_C) (s : serial) : serial :=
  {| usb_receive_buffer := b; usb_send_buffer := usb_send_buffer s;
     clear_buffer := clear_buffer s; reading := reading s; sending := sending s;
     LineEncoding1 := LineEncoding1 s; hw := hw s |}.
Definition with_tx (b : Ring_Buffer_C) (s : serial) : serial :=
  {| usb_receive_buffer := usb_receive_buffer s; usb_send_buffer := b;
     clear_buffer := clear_buffer s; reading := reading s; sending := sending s;
     LineEncoding1 := LineEncoding1 s; hw := hw s |}.
Definition with_clear (b : bool) (s : serial) : serial :=
  {| usb_receive_buffer := usb_receive_buffer s; usb_send_buffer := usb_send_buffer s;
     clear_buffer := b; reading := reading s; sending := sending s;
     LineEncoding1 := LineEncoding1 s; hw := hw s |}.
Definition with_reading (b : bool) (s : serial) : serial :=
  {| usb_receive_buffer := usb_receive_buffer s; usb_send_buffer := usb_send_buffer s;
     clear_buffer := clear_buffer s; reading := b; sending := sending s;
     LineEncoding1 := LineEncoding1 s; hw := hw s |}.
Definition with_sending (b : bool) (s : serial) : serial :=
  {| usb_receive_buffer := usb_receive_buffer s; usb_send_buffer := usb_send_buffer s;
     clear_buffer := clear_buffer s; reading := reading s; sending := b;
     LineEncoding1 := LineEncoding1 s; hw := hw s |}.
Definition with_line (l : CDC_LineEncoding_t) (s : serial) : serial :=
  {| usb_receive_buffer := usb_receive_buffer s; usb_send_buffer := usb_send_buffer s;
     clear_buffer := clear_buffer s; reading := reading s; sending := sending s;
     LineEncoding1 := l; hw := hw s |}.
Definition with_hw (u : usb_hw) (s : serial) : serial :=
  {| usb_receive_buffer := usb_receive_buffer s; usb_send_buffer := usb_send_buffer s;
     clear_buffer := clear_buffer s; reading := reading s; sending := sending s;
     LineEncoding1 := LineEncoding1 s; hw := u |}.
Definition on_hw (f : usb_hw -> usb_hw) (s : serial) : serial := with_hw (f (hw s)) s.

(** ** Moving bytes *)

Definition usb_read_next_byte (s : serial) : serial :=
  (* Select serial Rx *)
  let s := on_hw (Endpoint_SelectEndpoint CDC_RX_EPADDR) s in
  (* Check if any data has been received *)
  if Endpoint_IsOUTReceived (hw s) then
    if to_bool (Endpoint_BytesInEndpoint (hw s)) then
      let s := with_reading true s in
      (* Grab next byte *)
      let '(data, u) := Endpoint_Read_8 (hw s) in
      let s := with_hw u s in
      if negb (clear_buffer s) then
        (* Store byte in receive buffer *)
        with_rx (rb_push_back_C (usb_receive_buffer s) (s8 data)) s
      else s
    else if reading s then
      (* Acknowledge host and clear for next packet *)
      let s := on_hw Endpoint_ClearOUT s in
      (* USB is cleared, default flag *)
      let s := with_clear false s in
      (* Reset reading flag *)
      with_reading true s
    else s
  else s.

Definition usb_write_next_byte (s : serial) : serial :=
  if to_bool (rb_length_C (usb_send_buffer s)) then
    let s := with_sending true s in
    (* Set serial Tx *)
    let s := on_hw (Endpoint_SelectEndpoint CDC_TX_EPADDR) s in
    if Endpoint_IsINReady (hw s) then
      (* Grab next byte to send and send it out *)
      let '(data, b) := rb_pop_front_C (usb_send_buffer s) in
      let s := with_tx b s in
      let s := on_hw (Endpoint_Write_8 (u8 data)) s in
      (* Free endpoint for next packet *)
      on_hw Endpoint_ClearIN s
    else s
  else
    if sending s then
      if Endpoint_IsINReady (hw s) then
        (* Free endpoint for next packet *)
        let s := on_hw Endpoint_ClearIN s in
        with_sending false s
      else s
    else s.

(** ** The output ring *)

Definition usb_send_byte (byte : Z) (s : serial) : serial :=
  with_tx (rb_push_back_C (usb_send_buffer s) (s8 byte)) s.

(** The [data_len] bytes at [p_data]. *)
Definition usb_send_data (p_data : list Z) (s : serial) : serial :=
  with_tx (fold_left (fun b c => rb_push_back_C b (s8 c)) p_data (usb_send_buffer s)) s.

(** The characters of a C string, without the terminator. *)
Definition codes (p_str : string) : list Z := ch <$> list_ascii_of_string p_str.

Definition usb_send_str (p_str : string) (s : serial) : serial :=
  let s := with_tx (fold_left (fun b c => rb_push_back_C b (s8 c)) (codes p_str)
                      (usb_send_buffer s)) s in
  with_tx (rb_push_back_C (usb_send_buffer s) 0) s.

Definition usb_send_msg (format : string) (cmd : Z) (p_data : list Z) (s : serial) : serial :=
  let len := u8 (2 + Z.of_nat (String.length format) + Z.of_nat (length p_data)) in
  let s := usb_send_byte len s in
  let s := usb_send_str format s in
  let s := usb_send_byte (u8 cmd) s in
  usb_send_data p_data s.

(** ** The input ring *)

Definition usb_msg_length (s : serial) : Z := rb_length_C (usb_receive_buffer s).
Definition usb_out_msg_length (s : serial) : Z := rb_length_C (usb_send_buffer s).

Definition usb_msg_peek (s : serial) : Z :=
  if to_bool (rb_length_C (usb_receive_buffer s))
  then u8 (rb_get_C (usb_receive_buffer s) 0) else 0.

Definition usb_msg_get (s : serial) : Z * serial :=
  if to_bool (rb_length_C (usb_receive_buffer s)) then
    let '(c, b) := rb_pop_front_C (usb_receive_buffer s) in (u8 c, with_rx b s)
  else (0, s).

(** The loop of [usb_msg_read_into]: [n] bytes popped into the object. *)
Fixpoint read_into_loop (n : nat) (s : serial) : list Z * serial :=
  match n with
  | O => ([], s)
  | S n =>
      let '(data, b) := rb_pop_front_C (usb_receive_buffer s) in
      let '(l, s) := read_into_loop n (with_rx b s) in
      (u8 data :: l, s)
  end.

(** The bytes stored in the object, or [None] when the call returns false and
    the object keeps what it had. *)
Definition usb_msg_read_into (data_len : Z) (s : serial) : option (list Z) * serial :=
  if rb_length_C (usb_receive_buffer s) <? data_len then (None, s)
  else let '(l, s) := read_into_loop (Z.to_nat data_len) s in (Some l, s).

Definition usb_flush_input_buffer (s : serial) : serial :=
  with_clear true (with_rx (rb_initialize_C (usb_receive_buffer s)) s).

Definition usb_init_buffers (s : serial) : serial :=
  let s := with_rx (rb_initialize_C (usb_receive_buffer s)) s in
  with_tx (rb_initialize_C (usb_send_buffer s)) s.

(** ** The library's event handlers

    [sio]: a computation on the host's moves to come and the serial state. *)

Definition sio (A : Type) : Type := M (list host_move * serial) A.

Definition ser_get {A} (f : serial -> A) : sio A := gets (fun st => f st.2).
Definition ser_do (f : serial -> serial) : sio unit := modify (fun st => (st.1, f st.2)).
Definition ser_hw (f : usb_hw -> usb_hw) : sio unit := ser_do (on_hw f).
(** A library function on the hardware. *)
Definition on_io {A} (m : io A) : sio A := fun '(ms, s) =>
  match m (ms, hw s) with
  | Some (a, (ms', u)) => Some (a, (ms', with_hw u s))
  | None => None
  end.

Definition EVENT_USB_Device_Connect (s : serial) : serial := s.
Definition EVENT_USB_Device_Disconnect (s : serial) : serial := s.

(** The local [ConfigSuccess] is computed and not used. *)
Definition EVENT_USB_Device_ConfigurationChanged (s : serial) : option serial :=
  '(ok1, u) ← Endpoint_ConfigureEndpoint CDC_TX_EPADDR EP_TYPE_BULK CDC_TXRX_EPSIZE 1 (hw s);
  '(ok2, u) ← Endpoint_ConfigureEndpoint CDC_RX_EPADDR EP_TYPE_BULK CDC_TXRX_EPSIZE 1 u;
  '(ok3, u) ← Endpoint_ConfigureEndpoint CDC_NOTIFICATION_EPADDR EP_TYPE_INTERRUPT
                CDC_NOTIFICATION_EPSIZE 1 u;
  let s := with_hw u s in
  (* Reset line encoding baud rates so that the host knows to send new values *)
  let l := LineEncoding1 s in
  Some (with_line {| BaudRateBPS := 0; CharFormat := CharFormat l; ParityType := ParityType l;
                     DataBits := DataBits l |} s).

Definition CDC_REQ_SetLineEncoding : Z := 0x20.
Definition CDC_REQ_GetLineEncoding : Z := 0x21.
Definition CDC_REQ_SetControlLineState : Z := 0x22.
Definition REQTYPE_CLASS : Z := Z.shiftl 1 5.
Definition REQREC_INTERFACE : Z := Z.shiftl 1 0.
Definition REQ_CLASS_IN : Z := Z.lor (Z.lor REQDIR_DEVICETOHOST REQTYPE_CLASS) REQREC_INTERFACE.
Definition REQ_CLASS_OUT : Z := Z.lor (Z.lor REQDIR_HOSTTODEVICE REQTYPE_CLASS) REQREC_INTERFACE.

(** The seven bytes of the packed structure. *)
Definition line_bytes (l : CDC_LineEncoding_t) : list Z :=
  le_split 4 (BaudRateBPS l) ++ [u8 (CharFormat l); u8 (ParityType l); u8 (DataBits l)].
Definition line_of_bytes (b : list Z) : CDC_LineEncoding_t :=
  {| BaudRateBPS := le_combine (take 4 b); CharFormat := default 0 (b !! 4%nat);
     ParityType := default 0 (b !! 5%nat); DataBits := default 0 (b !! 6%nat) |}.
(** The bytes received overwrite the front of the structure. *)
Definition overwrite (got : list Z) (l : CDC_LineEncoding_t) : CDC_LineEncoding_t :=
  line_of_bytes (got ++ drop (length got) (line_bytes l)).

Definition EVENT_USB_Device_ControlRequest : sio unit :=
  req ← ser_get (fun s => USB_ControlRequest (dev (hw s)));
  (* Process CDC specific control requests *)
  if bRequest req =? CDC_REQ_GetLineEncoding then
    when (bmRequestType req =? REQ_CLASS_IN) (
      ser_hw Endpoint_ClearSETUP;;
      (* Write the line coding data to the control endpoint *)
      l ← ser_get LineEncoding1;
      on_io (Endpoint_Write_Control_Stream_LE (line_bytes l));;
      ser_hw Endpoint_ClearOUT)
  else if bRequest req =? CDC_REQ_SetLineEncoding then
    when (bmRequestType req =? REQ_CLASS_OUT) (
      ser_hw Endpoint_ClearSETUP;;
      (* Read the line coding data in from the host into the global struct *)
      '(_, got) ← on_io (Endpoint_Read_Control_Stream_LE 7);
      ser_do (fun s => with_line (overwrite got (LineEncoding1 s)) s);;
      ser_hw Endpoint_ClearIN)
  else if bRequest req =? CDC_REQ_SetControlLineState then
    when (bmRequestType req =? REQ_CLASS_OUT) (
      ser_hw Endpoint_ClearSETUP;;
      on_io Endpoint_ClearStatusStage)
  else mret tt.

(** [USB_Echo_Task] (not called by the firmware).  An empty packet gives the
    array [Buffer] the length zero, which C leaves undefined; so does reading
    bytes of it that the transfer did not store. *)
Definition USB_Echo_Task : sio unit :=
  st ← ser_get (fun s => USB_DeviceState (hw s));
  if decide (st <> Configured) then mret tt else
  (* Select the Serial Rx Endpoint *)
  ser_hw (Endpoint_SelectEndpoint CDC_RX_EPADDR);;
  (* Check to see if any data has been received *)
  received ← ser_get (fun s => Endpoint_IsOUTReceived (hw s));
  when received (
    (* Remember how large the incoming packet is *)
    DataLength ← ser_get (fun s => Z.to_nat (Endpoint_BytesInEndpoint (hw s)));
    if decide (DataLength = O) then undefined else
    (* Read in the incoming packet into the buffer *)
    '(_, Buffer, _) ← on_io (Endpoint_Read_Stream_LE DataLength None);
    if decide (length Buffer <> DataLength) then undefined else
    (* Finalize the stream transfer to send the last packet *)
    ser_hw Endpoint_ClearOUT;;
    (* Select the Serial Tx Endpoint *)
    ser_hw (Endpoint_SelectEndpoint CDC_TX_EPADDR);;
    (* Write the received data to the endpoint *)
    on_io (Endpoint_Write_Stream_LE Buffer None);;
    (* Finalize the stream transfer to send the last packet *)
    ser_hw Endpoint_ClearIN;;
    (* Wait until the endpoint is ready for the next packet *)
    on_io Endpoint_WaitUntilReady;;
    (* Send an empty packet to prevent host buffering *)
    ser_hw Endpoint_ClearIN).

(** ** Specification *)

Definition rx_bytes (s : serial) : list Z := u8 <$> contents_C (usb_receive_buffer s).
Definition tx_bytes (s : serial) : list Z := u8 <$> contents_C (usb_send_buffer s).

(** The rings are well formed (their capacity bounds both lengths by 63) and no
    control request waits: the control interrupt serves it before the program
    goes on. *)
Definition ser_ok (s : serial) : Prop :=
  wf_C (usb_receive_buffer s) /\ wf_C (usb_send_buffer s) /\ RXSTPI (hw s) = false.

(** The message format: length of what follows, format string with its
    terminator, command, data. *)
Definition frame (format : string) (cmd : Z) (data : list Z) : list Z :=
  u8 (2 + Z.of_nat (String.length format) + Z.of_nat (length data))
    :: codes format ++ [0] ++ [u8 cmd] ++ data.

(** Everything but the output ring is as before. *)
Definition same_but_tx (s s' : serial) : Prop :=
  usb_receive_buffer s' = usb_receive_buffer s /\ clear_buffer s' = clear_buffer s /\
  reading s' = reading s /\ sending s' = sending s /\ LineEncoding1 s' = LineEncoding1 s /\
  hw s' = hw s.
(** Everything but the input ring is as before. *)
Definition same_but_rx (s s' : serial) : Prop :=
  usb_send_buffer s' = usb_send_buffer s /\ clear_buffer s' = clear_buffer s /\
  reading s' = reading s /\ sending s' = sending s /\ LineEncoding1 s' = LineEncoding1 s /\
  hw s' = hw s.

#[export] Instance same_but_tx_preorder : PreOrder same_but_tx.
Proof.
  split; [by intros s|]. intros s1 s2 s3 (?&?&?&?&?&?) (?&?&?&?&?&?).
  unfold same_but_tx. split_and!; congruence.
Qed.
#[export] Instance same_but_rx_preorder : PreOrder same_but_rx.
Proof.
  split; [by intros s|]. intros s1 s2 s3 (?&?&?&?&?&?) (?&?&?&?&?&?).
  unfold same_but_rx. split_and!; congruence.
Qed.

Lemma ch_byte a : is_byte (ch a).
Proof. unfold is_byte, is_u, ch. pose proof (N_ascii_bounded a). lia. Qed.

Lemma codes_bytes p : Forall is_byte (codes p).
Proof.
  unfold codes. apply Forall_forall. intros x Hx.
  apply list_elem_of_fmap in Hx as (a&->&_). apply ch_byte.
Qed.

Lemma length_codes p : length (codes p) = String.length p.
Proof. unfold codes. rewrite length_fmap. induction p; simpl; auto. Qed.

Lemma fmap_lastn {A B} (f : A -> B) n l : f <$> lastn n l = lastn n (f <$> l).
Proof. unfold lastn. by rewrite fmap_drop, length_fmap. Qed.

(** Pushing a run of characters. *)
Lemma push_run (b : Ring_Buffer_C) l :
  wf_C b ->
  let b' := fold_left (fun b c => rb_push_back_C b (s8 c)) l b in
  wf_C b' /\ u8 <$> contents_C b' = lastn 63 ((u8 <$> contents_C b) ++ (u8 <$> l)).
Proof.
  intros Hb b'.
  assert (b' = q_push_all b (s8 <$> l)) as ->.
  { unfold b', q_push_all. clear. revert b. induction l as [|c l IH]; intros b; simpl; [done|]. apply IH. }
  split; [exact (q_push_all_ok (Q := Ring_Buffer_C) b (s8 <$> l) Hb)|].
  pose proof (q_push_all_contents (Q := Ring_Buffer_C) b (s8 <$> l) Hb) as E.
  change (contents_C (q_push_all b (s8 <$> l)) = lastn 63 (contents_C b ++ (s8 <$> l))) in E.
  rewrite E, fmap_lastn, fmap_app. f_equal. f_equal.
  rewrite <- list_fmap_compose. apply list_fmap_ext. intros i x _. simpl. apply u8_s8.
Qed.

(** Adding bytes to the output. *)
Definition tx_adds (l : list Z) (s s' : serial) : Prop :=
  ser_ok s' /\ tx_bytes s' = lastn 63 (tx_bytes s ++ l) /\ same_but_tx s s'.

Lemma tx_adds_trans l l' s1 s2 s3 :
  tx_adds l s1 s2 -> tx_adds l' s2 s3 -> tx_adds (l ++ l') s1 s3.
Proof.
  intros (_&E1&S1) (O2&E2&S2). split_and!; [done| |by etransitivity].
  by rewrite E2, E1, lastn_app_lastn, <- app_assoc.
Qed.

Lemma usb_send_byte_spec c s : ser_ok s -> tx_adds [u8 c] s (usb_send_byte c s).
Proof.
  intros (H1&H2&H3). destruct (push_run (usb_send_buffer s) [c] H2) as [W E].
  split_and!; [by split_and!|exact E|done].
Qed.

Lemma usb_send_data_spec l s :
  ser_ok s -> Forall is_byte l -> tx_adds l s (usb_send_data l s).
Proof.
  intros (H1&H2&H3) Hl. destruct (push_run (usb_send_buffer s) l H2) as [W E].
  split_and!; [by split_and!| |done]. unfold tx_bytes at 1. rewrite (u8_bytes l Hl) in E. exact E.
Qed.

Lemma usb_send_str_spec p s : ser_ok s -> tx_adds (codes p ++ [0]) s (usb_send_str p s).
Proof.
  intros Hs. change (usb_send_str p s) with (usb_send_byte 0 (usb_send_data (codes p) s)).
  pose proof (usb_send_data_spec (codes p) s Hs (codes_bytes p)) as H1.
  eapply tx_adds_trans; [exact H1|]. apply (usb_send_byte_spec 0). apply H1.
Qed.

Lemma usb_send_msg_spec format cmd data s :
  ser_ok s -> Forall is_byte data ->
  tx_adds (frame format cmd data) s (usb_send_msg format cmd data s).
Proof.
  intros Hs Hd. unfold usb_send_msg. cbn zeta.
  set (len := u8 (2 + _ + _)).
  pose proof (usb_send_byte_spec len s Hs) as H1. set (s1 := usb_send_byte len s) in *.
  pose proof (usb_send_str_spec format s1 (proj1 H1)) as H2. set (s2 := usb_send_str format s1) in *.
  pose proof (usb_send_byte_spec (u8 cmd) s2 (proj1 H2)) as H3.
  set (s3 := usb_send_byte (u8 cmd) s2) in *.
  pose proof (usb_send_data_spec data s3 (proj1 H3) Hd) as H4.
  pose proof (tx_adds_trans _ _ _ _ _ (tx_adds_trans _ _ _ _ _ (tx_adds_trans _ _ _ _ _ H1 H2) H3) H4) as H.
  replace (frame format cmd data) with ((([u8 len] ++ codes format ++ [0]) ++ [u8 (u8 cmd)]) ++ data);
    [exact H|].
  unfold frame, len. rewrite !u8_idemp. by rewrite <- !app_assoc.
Qed.

(** *** Taking bytes from the input *)

Lemma rx_length s : Z.of_nat (length (rx_bytes s)) = rb_length_C (usb_receive_buffer s).
Proof.
  unfold rx_bytes. rewrite length_fmap. unfold contents_C, rb_length_C.
  by apply (Ring.length_contents 0 6).
Qed.

Lemma tx_length s : Z.of_nat (length (tx_bytes s)) = rb_length_C (usb_send_buffer s).
Proof.
  unfold tx_bytes. rewrite length_fmap. unfold contents_C, rb_length_C.
  by apply (Ring.length_contents 0 6).
Qed.

Lemma usb_msg_length_spec s : usb_msg_length s = Z.of_nat (length (rx_bytes s)).
Proof. by rewrite rx_length. Qed.

Lemma usb_out_msg_length_spec s : usb_out_msg_length s = Z.of_nat (length (tx_bytes s)).
Proof. by rewrite tx_length. Qed.

Lemma rx_bound s : ser_ok s -> (length (rx_bytes s) <= 63)%nat.
Proof.
  intros [H _]. unfold rx_bytes. rewrite length_fmap. exact (q_contents_bound _ H).
Qed.

Lemma tx_bound s : ser_ok s -> (length (tx_bytes s) <= 63)%nat.
Proof.
  intros (_&H&_). unfold tx_bytes. rewrite length_fmap. exact (q_contents_bound _ H).
Qed.

Lemma to_bool_nonzero z : to_bool z = true <-> z <> 0.
Proof. unfold to_bool. destruct (Z.eqb_spec z 0); simpl; split; done. Qed.

Lemma usb_msg_peek_spec s b l : ser_ok s -> rx_bytes s = b :: l -> usb_msg_peek s = b.
Proof.
  intros [Hs _] E. unfold usb_msg_peek.
  pose proof (rx_length s) as Hl. rewrite E in Hl. cbn [length] in Hl.
  rewrite (proj2 (to_bool_nonzero _)) by lia.
  unfold rx_bytes in E. destruct (contents_C (usb_receive_buffer s)) as [|c l'] eqn:Ec; [done|].
  injection E as <- _. f_equal.
  pose proof (Ring.rb_get_contents 0 6 ltac:(lia) (usb_receive_buffer s) 0) as Hg.
  change (Ring.contents 0 6 (usb_receive_buffer s)) with (contents_C (usb_receive_buffer s)) in Hg.
  rewrite Ec in Hg. cbn [lookup list_lookup] in Hg. unfold rb_length_C in Hl.
  specialize (Hg ltac:(lia)). by injection Hg as ->.
Qed.

(** Popping one character of the input ring. *)
Lemma pop_rx s b l :
  ser_ok s -> rx_bytes s = b :: l ->
  let '(c, q) := rb_pop_front_C (usb_receive_buffer s) in
  u8 c = b /\ ser_ok (with_rx q s) /\ rx_bytes (with_rx q s) = l /\
  tx_bytes (with_rx q s) = tx_bytes s /\ same_but_rx s (with_rx q s).
Proof.
  intros (Hr&Ht&Hs) E. unfold rx_bytes in E.
  destruct (contents_C (usb_receive_buffer s)) as [|c l'] eqn:Ec; [done|].
  injection E as Eb El.
  pose proof (q_pop_contents (Q := Ring_Buffer_C) (usb_receive_buffer s) c l' Hr Ec) as H.
  pose proof (q_pop_ok (Q := Ring_Buffer_C) (usb_receive_buffer s) Hr) as Hok.
  change q_pop with rb_pop_front_C in *. destruct (rb_pop_front_C (usb_receive_buffer s)) as [c' q].
  cbn [fst snd] in *. destruct H as [-> Hq].
  split_and!; [done|by split_and!| |done|done].
  unfold rx_bytes. cbn [usb_receive_buffer with_rx].
  change (contents_C q) with (q_contents q). rewrite Hq. exact El.
Qed.

Lemma rx_length_cons s b l : rx_bytes s = b :: l -> to_bool (rb_length_C (usb_receive_buffer s)) = true.
Proof.
  intros E. apply to_bool_nonzero. rewrite <- rx_length, E. cbn [length]. lia.
Qed.

(** What consuming bytes of the input leaves. *)
Definition rx_takes (n : nat) (s s' : serial) : Prop :=
  ser_ok s' /\ rx_bytes s' = drop n (rx_bytes s) /\ tx_bytes s' = tx_bytes s /\ same_but_rx s s'.

Lemma rx_takes_trans n m s1 s2 s3 : rx_takes n s1 s2 -> rx_takes m s2 s3 -> rx_takes (n + m) s1 s3.
Proof.
  intros (_&E1&T1&S1) (O2&E2&T2&S2). split_and!; [done| | |by etransitivity].
  - by rewrite E2, E1, drop_drop.
  - by rewrite T2, T1.
Qed.

Lemma usb_msg_get_spec s b l :
  ser_ok s -> rx_bytes s = b :: l ->
  exists s', usb_msg_get s = (b, s') /\ rx_takes 1 s s'.
Proof.
  intros Hs E. unfold usb_msg_get. rewrite (rx_length_cons s b l E).
  pose proof (pop_rx s b l Hs E) as H.
  destruct (rb_pop_front_C (usb_receive_buffer s)) as [c q]. destruct H as (<-&H2&H3&H4&H5).
  eexists. split; [done|]. split_and!; [done| |done|done]. by rewrite H3, E.
Qed.

Lemma usb_msg_get_empty s : rx_bytes s = [] -> usb_msg_get s = (0, s).
Proof.
  intros E. unfold usb_msg_get. pose proof (rx_length s) as H. rewrite E in H. cbn [length] in H.
  by rewrite <- H.
Qed.

Lemma read_into_loop_spec n s :
  ser_ok s -> (n <= length (rx_bytes s))%nat ->
  exists s', read_into_loop n s = (take n (rx_bytes s), s') /\ rx_takes n s s'.
Proof.
  revert s. induction n as [|n IH]; intros s Hs Hn; cbn [read_into_loop].
  { exists s. rewrite take_0. split; [done|]. by split_and!. }
  destruct (rx_bytes s) as [|b l] eqn:E; [simpl in Hn; lia|].
  pose proof (pop_rx s b l Hs E) as H.
  destruct (rb_pop_front_C (usb_receive_buffer s)) as [c q]. destruct H as (<-&H2&H3&H4&H5).
  destruct (IH (with_rx q s) H2) as (s'&E'&Ht); [rewrite H3; simpl in Hn; lia|].
  rewrite E', H3. eexists. split; [done|].
  apply (rx_takes_trans 1 n s (with_rx q s)); [|done].
  split_and!; [done| |done|done]. by rewrite H3, E.
Qed.

Lemma usb_msg_read_into_spec n s :
  ser_ok s -> (n <= length (rx_bytes s))%nat ->
  exists s', usb_msg_read_into (Z.of_nat n) s = (Some (take n (rx_bytes s)), s') /\ rx_takes n s s'.
Proof.
  intros Hs Hn. unfold usb_msg_read_into. rewrite <- rx_length.
  rewrite (proj2 (Z.ltb_ge _ _)) by lia. rewrite Nat2Z.id.
  destruct (read_into_loop_spec n s Hs Hn) as (s'&E&H). rewrite E. by exists s'.
Qed.

Lemma usb_msg_read_into_short n s :
  (length (rx_bytes s) < n)%nat -> usb_msg_read_into (Z.of_nat n) s = (None, s).
Proof.
  intros Hn. unfold usb_msg_read_into. rewrite <- rx_length.
  by rewrite (proj2 (Z.ltb_lt _ _)) by lia.
Qed.

Lemma usb_flush_input_buffer_spec s :
  ser_ok s ->
  let s' := usb_flush_input_buffer s in
  ser_ok s' /\ rx_bytes s' = [] /\ tx_bytes s' = tx_bytes s /\ clear_buffer s' = true /\ hw s' = hw s.
Proof.
  intros (H1&H2&H3) s'. split_and!; try done.
  split; [by apply (Ring.wf_initialize 6)|done].
Qed.

Lemma usb_init_buffers_spec s :
  ser_ok s ->
  let s' := usb_init_buffers s in ser_ok s' /\ rx_bytes s' = [] /\ tx_bytes s' = [] /\ hw s' = hw s.
Proof.
  intros (H1&H2&H3) s'. split_and!; try done.
  split_and!; [by apply (Ring.wf_initialize 6)..|done].
Qed.

(** *** The frame format read back *)

(** The format string up to its terminator. *)
Fixpoint split_nul (l : list Z) : option (list Z * list Z) :=
  match l with
  | [] => None
  | c :: l => if c =? 0 then Some ([], l)
              else '(p, r) ← split_nul l; Some (c :: p, r)
  end.

(** One message off the front of the byte stream: format, command, data, rest. *)
Definition decode_frame (l : list Z) : option (list Z * Z * list Z * list Z) :=
  match l with
  | [] => None
  | n :: l =>
      let n := Z.to_nat n in
      if (length l <? n)%nat then None else
      '(format, body) ← split_nul (take n l);
      match body with
      | [] => None
      | cmd :: data => Some (format, cmd, data, drop n l)
      end
  end.

(** A C string holds no terminator inside. *)
Definition no_nul (format : string) : Prop := Forall (fun c => c <> 0) (codes format).

Lemma split_nul_app p r : Forall (fun c => c <> 0) p -> split_nul (p ++ 0 :: r) = Some (p, r).
Proof.
  induction 1 as [|c p Hc _ IH]; [done|]. cbn [split_nul app].
  rewrite (proj2 (Z.eqb_neq _ _)) by done. by rewrite IH.
Qed.

Lemma length_frame format cmd data :
  Z.of_nat (length (frame format cmd data)) =
    3 + Z.of_nat (String.length format) + Z.of_nat (length data).
Proof.
  unfold frame. cbn [length]. rewrite !length_app, length_codes. cbn [length]. lia.
Qed.

Lemma frame_bytes format cmd data : Forall is_byte data -> Forall is_byte (frame format cmd data).
Proof.
  intros Hd. unfold frame. rewrite !Forall_cons, !Forall_app, !Forall_singleton.
  split_and!; try done; try apply u8_range; try apply codes_bytes; try (unfold is_byte, is_u; lia).
Qed.

Lemma decode_frame_app format cmd data rest :
  no_nul format ->
  2 + Z.of_nat (String.length format) + Z.of_nat (length data) < 256 ->
  decode_frame (frame format cmd data ++ rest) = Some (codes format, u8 cmd, data, rest).
Proof.
  intros Hn Hl. unfold frame, decode_frame. cbn [app].
  rewrite (u8_id (2 + _ + _)) by lia.
  set (body := codes format ++ 0 :: u8 cmd :: data).
  assert (Hb : length body = Z.to_nat (2 + Z.of_nat (String.length format) + Z.of_nat (length data))).
  { unfold body. rewrite length_app, length_codes. cbn [length]. lia. }
  rewrite <- Hb.
  rewrite (proj2 (Nat.ltb_ge _ _)) by (rewrite length_app; lia).
  rewrite take_app_length, drop_app_length.
  unfold body. by rewrite split_nul_app.
Qed.

(** *** What the handling of a control request leaves alone *)

(** The rings and the flags of the data path. *)
Definition same_rings (s s' : serial) : Prop :=
  usb_receive_buffer s' = usb_receive_buffer s /\ usb_send_buffer s' = usb_send_buffer s /\
  clear_buffer s' = clear_buffer s /\ reading s' = reading s /\ sending s' = sending s.

#[export] Instance same_rings_preorder : PreOrder same_rings.
Proof.
  split; [by intros s|]. intros s1 s2 s3 (?&?&?&?&?) (?&?&?&?&?). unfold same_rings. split_and!; congruence.
Qed.

(** A computation that leaves them alone. *)
Class KeepsRings {A} (m : sio A) : Prop := keeps_rings : forall st a st',
  m st = Some (a, st') -> same_rings st.2 st'.2.

#[export] Instance keeps_ret {A} (a : A) : KeepsRings (mret a).
Proof. by intros st a' st' [= _ <-]. Qed.
#[export] Instance keeps_bind {A B} (m : sio A) (k : A -> sio B) :
  KeepsRings m -> (forall a, KeepsRings (k a)) -> KeepsRings (mbind k m).
Proof.
  intros Hm Hk st b st'' E. unfold mbind, M_bind in E. destruct (m st) as [[a st']|] eqn:E1; [|done].
  etransitivity; [exact (Hm _ _ _ E1)|exact (Hk a _ _ _ E)].
Qed.
#[export] Instance keeps_get {A} (f : serial -> A) : KeepsRings (ser_get f).
Proof. by intros st a st' [= _ <-]. Qed.
#[export] Instance keeps_hw f : KeepsRings (ser_hw f).
Proof. by intros st a st' [= _ <-]. Qed.
#[export] Instance keeps_line f : KeepsRings (ser_do (fun s => with_line (f s) s)).
Proof. by intros st a st' [= _ <-]. Qed.
#[export] Instance keeps_io {A} (m : io A) : KeepsRings (on_io m).
Proof.
  intros [ms s] a st' E. unfold on_io in E. destruct (m (ms, hw s)) as [[b [ms' u]]|]; [|done].
  by injection E as _ <-.
Qed.
#[export] Instance keeps_if {A} (b : bool) (m m' : sio A) :
  KeepsRings m -> KeepsRings m' -> KeepsRings (if b then m else m').
Proof. by destruct b. Qed.
#[export] Instance keeps_when b (m : sio unit) : KeepsRings m -> KeepsRings (when b m).
Proof. intros. unfold when. apply _. Qed.

#[export] Instance keeps_control_request : KeepsRings EVENT_USB_Device_ControlRequest.
Proof.
  unfold EVENT_USB_Device_ControlRequest.
  apply keeps_bind; [apply _|]. intros req. repeat (apply keeps_if || apply keeps_when); try apply _.
  - apply keeps_bind; [apply _|]. intros _. apply keeps_bind; [apply _|]. intros [c got]. apply _.
Qed.

(** A computation on the control endpoint that leaves the rest of the hardware to
    the host as well. *)
Definition neutral_step (st st' : list host_move * serial) : Prop :=
  same_rings st.2 st'.2 /\ host_only (st.1, hw st.2) (st'.1, hw st'.2).
#[export] Instance neutral_step_preorder : PreOrder neutral_step.
Proof.
  split; [by intros st|]. intros st1 st2 st3 [H1 H2] [H3 H4]. split; by etransitivity.
Qed.

Class Neutral {A} (m : sio A) : Prop := neutral : forall st a st',
  UENUM (hw st.2) = 0 -> m st = Some (a, st') -> neutral_step st st'.

#[export] Instance neutral_ret {A} (a : A) : Neutral (mret a).
Proof. by intros st a' st' _ [= _ <-]. Qed.
#[export] Instance neutral_bind {A B} (m : sio A) (k : A -> sio B) :
  Neutral m -> (forall a, Neutral (k a)) -> Neutral (mbind k m).
Proof.
  intros Hm Hk st b st'' Hu E. unfold mbind, M_bind in E. destruct (m st) as [[a st']|] eqn:E1; [|done].
  pose proof (Hm _ _ _ Hu E1) as H1. etransitivity; [exact H1|]. apply (Hk a st' b st''); [|exact E].
  destruct H1 as [_ [E2 _]]. cbn [snd] in E2. congruence.
Qed.
#[export] Instance neutral_get {A} (f : serial -> A) : Neutral (ser_get f).
Proof. by intros st a st' _ [= _ <-]. Qed.
#[export] Instance neutral_hw f : QuietStep f -> Neutral (ser_hw f).
Proof. intros Hf [ms s] a st' Hu [= _ <-]. split; [done|]. apply host_only_device, Hf, Hu. Qed.
#[export] Instance neutral_line f : Neutral (ser_do (fun s => with_line (f s) s)).
Proof. by intros st a st' _ [= _ <-]. Qed.
#[export] Instance neutral_io {A} (m : io A) : Quiet m -> Neutral (on_io m).
Proof.
  intros Hm [ms s] a st' Hu E. pose proof (keeps_io m _ _ _ E) as Hk. split; [exact Hk|].
  unfold on_io in E. cbn [fst snd] in *. destruct (m (ms, hw s)) as [[b [ms' u]]|] eqn:Em; [|done].
  injection E as _ <-. exact (Hm (ms, hw s) b (ms', u) Hu Em).
Qed.
#[export] Instance neutral_if {A} (b : bool) (m m' : sio A) :
  Neutral m -> Neutral m' -> Neutral (if b then m else m').
Proof. by destruct b. Qed.
#[export] Instance neutral_when b (m : sio unit) : Neutral m -> Neutral (when b m).
Proof. intros. unfold when. apply _. Qed.

#[export] Instance neutral_control_request : Neutral EVENT_USB_Device_ControlRequest.
Proof.
  unfold EVENT_USB_Device_ControlRequest.
  apply neutral_bind; [apply _|]. intros req. repeat (apply neutral_if || apply neutral_when); try apply _.
  - apply neutral_bind; [apply _|]. intros _. apply neutral_bind; [apply _|]. intros [c got]. apply _.
Qed.

(** The kernel unfolds the handlers before the operations they consist of. *)
Strategy expand [EVENT_USB_Device_ControlRequest EVENT_USB_Device_ConfigurationChanged].

(** *** Configuration *)

Lemma ConfigurationChanged_spec s :
  exists s', EVENT_USB_Device_ConfigurationChanged s = Some s' /\ same_rings s s' /\
    same_history (hw s) (hw s') /\ RXSTPI (hw s') = RXSTPI (hw s) /\ UENUM (hw s') = 3 /\
    ep (hw s') 0 = ep (hw s) 0 /\
    ep (hw s') 1 = reconfigured 0x81 0x12 (ep (hw s) 1) /\
    ep (hw s') 2 = reconfigured 0x80 0x12 (ep (hw s) 2) /\
    ep (hw s') 3 = reconfigured 0xC1 0x02 (ep (hw s) 3) /\ BaudRateBPS (LineEncoding1 s') = 0.
Proof.
  unfold EVENT_USB_Device_ConfigurationChanged.
  destruct (Endpoint_ConfigureEndpoint_Prv_spec 1 0x81 0x12 (hw s)) as (u1&E1&A1&B1&S1&R1&_); [lia|done|].
  assert (F1 : Endpoint_ConfigureEndpoint CDC_TX_EPADDR EP_TYPE_BULK CDC_TXRX_EPSIZE 1 (hw s)
    = Some (true, u1)) by (rewrite <- E1; by apply (Endpoint_ConfigureEndpoint_run _ _ _ _ _ _ _ _ 16)).
  rewrite (option_bind_run _ _ _ F1). cbv beta iota.
  destruct (Endpoint_ConfigureEndpoint_Prv_spec 2 0x80 0x12 u1) as (u2&E2&A2&B2&S2&R2&_); [lia|done|].
  assert (F2 : Endpoint_ConfigureEndpoint CDC_RX_EPADDR EP_TYPE_BULK CDC_TXRX_EPSIZE 1 u1
    = Some (true, u2)) by (rewrite <- E2; by apply (Endpoint_ConfigureEndpoint_run _ _ _ _ _ _ _ _ 16)).
  rewrite (option_bind_run _ _ _ F2). cbv beta iota.
  destruct (Endpoint_ConfigureEndpoint_Prv_spec 3 0xC1 0x02 u2) as (u3&E3&A3&B3&S3&R3&N3); [lia|done|].
  assert (F3 : Endpoint_ConfigureEndpoint CDC_NOTIFICATION_EPADDR EP_TYPE_INTERRUPT
    CDC_NOTIFICATION_EPSIZE 1 u2 = Some (true, u3)) by (rewrite <- E3; by apply (Endpoint_ConfigureEndpoint_run _ _ _ _ _ _ _ _ 0)).
  rewrite (option_bind_run _ _ _ F3). cbv beta iota.
  assert (S' : same_history (hw s) u2) by (etransitivity; [exact S1|exact S2]).
  assert (S : same_history (hw s) u3) by (etransitivity; [exact S'|exact S3]).
  eexists. split; [done|]. cbn [hw with_line with_hw].
  split; [done|]. split; [exact S|]. split; [by rewrite R3, R2, R1|]. split; [done|].
  split; [by rewrite B3, B2, B1 by lia|]. split; [by rewrite B3, B2, A1 by lia|].
  split; [rewrite B3, A2 by lia; apply reconfigured_sent, S1|].
  split; [rewrite A3; apply reconfigured_sent, S'|done].
Qed.

(** *** The line encoding *)

Definition line_ok (l : CDC_LineEncoding_t) : Prop :=
  is_u 32 (BaudRateBPS l) /\ is_byte (CharFormat l) /\ is_byte (ParityType l) /\ is_byte (DataBits l).

Lemma length_line_bytes l : length (line_bytes l) = 7%nat.
Proof. reflexivity. Qed.

Lemma line_bytes_bytes l : Forall is_byte (line_bytes l).
Proof.
  unfold line_bytes. apply Forall_app. split; [apply le_split_bytes|].
  repeat constructor; apply u8_range.
Qed.

Lemma line_of_line_bytes l : line_ok l -> line_of_bytes (line_bytes l) = l.
Proof.
  intros (H1&H2&H3&H4). unfold line_of_bytes, line_bytes.
  rewrite take_app_length' by by rewrite length_le_split. rewrite le_combine_split.
  rewrite Z.mod_small by exact H1. destruct l. cbn in *. by rewrite !u8_id.
Qed.

Lemma overwrite_all got l : length got = 7%nat -> overwrite got l = line_of_bytes got.
Proof. intros E. unfold overwrite. rewrite E, drop_ge by (by rewrite length_line_bytes). by rewrite app_nil_r. Qed.

(** The request in the library's variable is the class request [r]. *)
Definition class_request (bm r : Z) (s : serial) : Prop :=
  requested (hw s) /\ bmRequestType (USB_ControlRequest (dev (hw s))) = bm /\
  bRequest (USB_ControlRequest (dev (hw s))) = r.

Lemma run_bind {A B} (m : sio A) (k : A -> sio B) st a st' : m st = Some (a, st') -> (m ≫= k) st = k a st'.
Proof. intros E. unfold mbind, M_bind. by rewrite E. Qed.

Lemma bind_inv {A B} (m : sio A) (k : A -> sio B) st b st'' :
  (m ≫= k) st = Some (b, st'') -> exists a st', m st = Some (a, st') /\ k a st' = Some (b, st'').
Proof. unfold mbind, M_bind. destruct (m st) as [[a st']|]; [|done]. eauto. Qed.
Lemma run_get {A B} (f : serial -> A) (k : A -> sio B) ms s : (ser_get f ≫= k) (ms, s) = k (f s) (ms, s).
Proof. done. Qed.
Lemma run_do {B} (f : serial -> serial) (k : unit -> sio B) ms s : (ser_do f ≫= k) (ms, s) = k tt (ms, f s).
Proof. done. Qed.

Lemma on_io_run {A} (m : io A) ms s a ms' u :
  m (ms, hw s) = Some (a, (ms', u)) -> on_io m (ms, s) = Some (a, (ms', with_hw u s)).
Proof. intros E. unfold on_io. by rewrite E. Qed.

(** The host sets the line encoding. *)
Lemma set_line_encoding pre post s :
  class_request REQ_CLASS_OUT CDC_REQ_SetLineEncoding s -> Forall calm pre -> length (outs pre) = 7%nat ->
  exists ms' s', EVENT_USB_Device_ControlRequest (pre ++ CollectIN 0 :: post, s) = Some (tt, (ms', s')) /\
    LineEncoding1 s' = line_of_bytes (outs pre).
Proof.
  intros (Hr&Hm&Hb) Hp Hl. destruct (acknowledged (hw s) Hr) as (Ha&Hbus&_).
  destruct (control_read_completes 7 pre post _ Ha Hbus Hp) as (ms'&u'&E&_); [lia|].
  rewrite take_ge in E by lia.
  unfold EVENT_USB_Device_ControlRequest.
  rewrite run_get, Hb, Hm. change (CDC_REQ_SetLineEncoding =? CDC_REQ_GetLineEncoding) with false.
  rewrite !Z.eqb_refl. cbv iota. unfold when, ser_hw. rewrite run_do.
  erewrite run_bind by (apply on_io_run, E). cbv beta iota. rewrite run_do. eexists _, _. split; [done|]. by apply overwrite_all.
Qed.

(** The host asks for it. *)
Lemma get_line_encoding pre post s :
  class_request REQ_CLASS_IN CDC_REQ_GetLineEncoding s -> 7 <= wLength (USB_ControlRequest (dev (hw s))) ->
  Forall only_in pre -> (1 <= collects pre)%nat ->
  exists ms' s', EVENT_USB_Device_ControlRequest (pre ++ SendOUT 0 [] :: post, s) = Some (tt, (ms', s')) /\
    sent (ep (hw s') 0) = sent (ep (hw s) 0) ++ [line_bytes (LineEncoding1 s)] /\
    LineEncoding1 s' = LineEncoding1 s.
Proof.
  intros (Hr&Hm&Hb) Hn Hp Hc. destruct (acknowledged (hw s) Hr) as (Ha&Hbus&_&Hs&Hreq).
  set (l := LineEncoding1 s).
  assert (Et : take (Z.to_nat (wLength (USB_ControlRequest (dev (Endpoint_ClearSETUP (hw s)))))) (line_bytes l) =
    line_bytes l) by (rewrite Hreq; apply take_ge; rewrite length_line_bytes; lia).
  destruct (Control_W_completes (line_bytes l) pre post _ Ha Hbus) as (ms'&u'&E&_&Hsent&Hbus');
    [apply line_bytes_bytes|by rewrite Et|done|by rewrite Et|].
  rewrite Et in Hsent. unfold EVENT_USB_Device_ControlRequest.
  rewrite run_get, Hb, Hm, !Z.eqb_refl. cbv iota. unfold when, ser_hw. rewrite run_do, run_get.
  erewrite run_bind by (apply on_io_run, E).
  eexists _, _. split; [done|]. split; [|done].
  cbn [hw with_hw on_hw]. rewrite sent_clear_out by apply Hbus'.
  cbn [snd hw with_hw]. by rewrite Hsent, Hs.
Qed.

(** ** Properties *)

(** C12: sending a message.  [usb_send_msg] appends exactly the documented frame
    (count, format with its terminator, command, data) to the output and touches
    nothing else; if the 63-byte ring overflows it is the oldest bytes that are
    lost.  The frame's count byte is the number of bytes that follow it, and the
    host's decoder, given any byte stream that starts with a frame, recovers the
    format, the command and the data and is left at the byte after the frame. *)
Theorem usb_send_msg_round_trip format cmd data s rest :
  ser_ok s -> Forall is_byte data -> no_nul format ->
  2 + Z.of_nat (String.length format) + Z.of_nat (length data) < 256 ->
  let s' := usb_send_msg format cmd data s in
  ser_ok s' /\ tx_bytes s' = lastn 63 (tx_bytes s ++ frame format cmd data) /\ same_but_tx s s' /\
  head (frame format cmd data) = Some (Z.of_nat (length (frame format cmd data)) - 1) /\
  decode_frame (frame format cmd data ++ rest) = Some (codes format, u8 cmd, data, rest).
Proof.
  intros Hs Hd Hn Hl s'. destruct (usb_send_msg_spec format cmd data s Hs Hd) as (H1&H2&H3).
  split_and!; try done; [|by apply decode_frame_app].
  rewrite length_frame. unfold frame. cbn [head]. f_equal. rewrite u8_id; lia.
Qed.

Definition serial_zero : serial :=
  {| usb_receive_buffer := ring_zero_C; usb_send_buffer := ring_zero_C; clear_buffer := false;
     reading := false; sending := false;
     LineEncoding1 := {| BaudRateBPS := 0; CharFormat := 0; ParityType := 0; DataBits := 8 |};
     hw := hw_zero |}.

Lemma serial_zero_ok : ser_ok serial_zero.
Proof. split_and!; [apply wf_ring_zero_C..|done]. Qed.

Lemma usb_send_msg_round_trip_witness :
  decode_frame (tx_bytes (usb_send_msg "cf" (ch "b") [0; 0; 160; 64] serial_zero)) =
    Some (codes "cf", ch "b", [0; 0; 160; 64], []).
Proof.
  destruct (usb_send_msg_round_trip "cf" (ch "b") [0; 0; 160; 64] serial_zero []) as (_&E&_&_&D);
    [apply serial_zero_ok|repeat constructor; unfold is_u; simpl; lia
    |repeat constructor; done|simpl; lia|].
  rewrite E. rewrite app_nil_r in D. rewrite lastn_all; [exact D|]. vm_compute. lia.
Defined.

(** C39: the line encoding survives.  The host sets an encoding, its seven bytes
    split over packets in any way; the structure then holds it.  Whenever it asks
    for an encoding later, the device sends, as one packet, the bytes of the one
    it holds, and keeps it. *)
Theorem line_encoding_round_trip l pre post s pre' post' s2 :
  line_ok l ->
  class_request REQ_CLASS_OUT CDC_REQ_SetLineEncoding s -> Forall calm pre -> outs pre = line_bytes l ->
  class_request REQ_CLASS_IN CDC_REQ_GetLineEncoding s2 -> 7 <= wLength (USB_ControlRequest (dev (hw s2))) ->
  Forall only_in pre' -> (1 <= collects pre')%nat ->
  (exists ms' s', EVENT_USB_Device_ControlRequest (pre ++ CollectIN 0 :: post, s) = Some (tt, (ms', s')) /\
     LineEncoding1 s' = l) /\
  (LineEncoding1 s2 = l ->
   exists ms' s', EVENT_USB_Device_ControlRequest (pre' ++ SendOUT 0 [] :: post', s2) = Some (tt, (ms', s')) /\
     LineEncoding1 s' = l /\
     exists p, sent (ep (hw s') 0) = sent (ep (hw s2) 0) ++ [p] /\ line_of_bytes p = l).
Proof.
  intros Hl Hs Hp Ho Hg Hn Hp' Hc. split.
  - destruct (set_line_encoding pre post s Hs Hp) as (ms'&s'&E&El); [by rewrite Ho|].
    exists ms', s'. split; [done|]. by rewrite El, Ho, line_of_line_bytes.
  - intros E2. destruct (get_line_encoding pre' post' s2 Hg Hn Hp' Hc) as (ms'&s'&E&Es&El).
    exists ms', s'. rewrite El, E2 in *. split; [done|]. split; [done|].
    exists (line_bytes l). by rewrite line_of_line_bytes.
Qed.

(** 57600 bits per second, eight data bits. *)
Definition line_57600 : CDC_LineEncoding_t := {| BaudRateBPS := 57600; CharFormat := 0; ParityType := 0; DataBits := 8 |}.
Definition class_state (bm r : Z) : serial :=
  with_line line_57600 (with_hw (with_setup true (with_state Configured (with_dev (fun d => dev_vars
    {| bmRequestType := bm; bRequest := r; wValue := 0; wIndex := 0; wLength := 7 |} 1 false false true d) hw_zero)))
    serial_zero).

Lemma line_encoding_round_trip_witness : exists ms' s',
  EVENT_USB_Device_ControlRequest ([SendOUT 0 (line_bytes line_57600)] ++ CollectIN 0 :: [],
    class_state REQ_CLASS_OUT CDC_REQ_SetLineEncoding) = Some (tt, (ms', s')) /\ LineEncoding1 s' = line_57600.
Proof.
  apply (line_encoding_round_trip line_57600 [SendOUT 0 (line_bytes line_57600)] []
    (class_state REQ_CLASS_OUT CDC_REQ_SetLineEncoding) [CollectIN 0] []
    (class_state REQ_CLASS_IN CDC_REQ_GetLineEncoding)).
  - unfold line_ok, is_byte, is_u. cbn. lia.
  - by split_and!.
  - by repeat constructor.
  - by cbn [outs concat fmap list_fmap out Z.eqb]; rewrite app_nil_r.
  - by split_and!.
  - cbn. lia.
  - by repeat constructor.
  - cbn. lia.
Defined.
