(* ===== verification/UsbDevice.v ===== *)
(** * UsbDevice: the device side of lufa/LUFA/Drivers/USB/Core

    DeviceStandardReq.c (the standard requests of chapter 9), USBTask.c,
    AVR8/USBController_AVR8.c (start and stop), AVR8/USBInterrupt_AVR8.c (the two
    interrupt handlers) and the inline functions they use, as the firmware builds
    them: a full-speed device of series 4, clock and regulator managed by the
    library, descriptors in flash, the control endpoint served by an interrupt.
    The global interrupt flag is the processor's and not part of this state. *)
From S2P Require Import Prelude.
From S2P Require Import UsbEndpoint.
From S2P Require Import Descriptors.
From S2P Require Import UsbStream.
From S2P Require Import SerialIO.

(** ** Registers *)

Definition reg (r : usb_reg) (u : usb_hw) : Z := ureg (dev u) r.
Definition set_reg (r : usb_reg) (f : Z -> Z) (u : usb_hw) : usb_hw :=
  with_dev (fun d => dev_reg r (f (ureg d r)) d) u.
Definition bit_on (r : usb_reg) (n : Z) : usb_hw -> usb_hw := set_reg r (fun x => set_bits x (2 ^ n)).
Definition bit_off (r : usb_reg) (n : Z) : usb_hw -> usb_hw := set_reg r (fun x => clear_bits x (2 ^ n)).

(** Bit numbers of the ATmega32U4. *)
Definition USBE : Z := 7.
Definition FRZCLK : Z := 5.
Definition OTGPADE : Z := 4.
Definition VBUSTE : Z := 0.
Definition VBUSTI : Z := 0.
Definition VBUS : Z := 0.
Definition UVREGE : Z := 0.
Definition DETACH : Z := 0.
Definition LSM : Z := 2.
Definition ADDEN : Z := 7.
Definition SUSPE : Z := 0.
Definition SOFE : Z := 2.
Definition EORSTE : Z := 3.
Definition WAKEUPE : Z := 4.
Definition RXSTPE : Z := 3.
Definition PLLE : Z := 1.
Definition PINDIV : Z := 4.
Definition PDIV2 : Z := 2.

(** ** USBController_AVR8.h *)

(** [USE_STATIC_OPTIONS]: full speed, regulator enabled, automatic clock. *)
Definition USB_OPT_REG_DISABLED : Z := Z.shiftl 1 1.
Definition USB_OPT_REG_KEEP_ENABLED : Z := Z.shiftl 1 3.
Definition USB_OPT_MANUAL_PLL : Z := Z.shiftl 1 2.
Definition USB_DEVICE_OPT_LOWSPEED : Z := Z.shiftl 1 0.
Definition USB_DEVICE_OPT_FULLSPEED : Z := Z.shiftl 0 0.
Definition USB_OPT_REG_ENABLED : Z := Z.shiftl 0 1.
Definition USB_OPT_AUTO_PLL : Z := Z.shiftl 0 2.
Definition USB_Options : Z :=
  Z.lor (Z.lor USB_DEVICE_OPT_FULLSPEED USB_OPT_REG_ENABLED) USB_OPT_AUTO_PLL.
Definition option_set (o : Z) : bool := to_bool (Z.land USB_Options o).

Definition USB_PLL_PSC : Z := Z.shiftl 1 PINDIV.

Definition USB_VBUS_GetStatus (u : usb_hw) : bool := to_bool (Z.land (reg USBSTA u) (2 ^ VBUS)).
Definition USB_Detach : usb_hw -> usb_hw := bit_on UDCON DETACH.
Definition USB_Attach : usb_hw -> usb_hw := bit_off UDCON DETACH.
(** The lock bit is the hardware's: it reads zero until the clock has locked. *)
Definition USB_PLL_On (u : usb_hw) : usb_hw :=
  let u := set_reg PLLCSR (fun _ => USB_PLL_PSC) u in
  set_reg PLLCSR (fun _ => Z.lor USB_PLL_PSC (2 ^ PLLE)) u.
Definition USB_PLL_Off : usb_hw -> usb_hw := set_reg PLLCSR (fun _ => 0).
Definition USB_PLL_IsReady (u : usb_hw) : bool := to_bool (Z.land (reg PLLCSR u) (2 ^ PLOCK)).
Definition USB_REG_On : usb_hw -> usb_hw := bit_on UHWCON UVREGE.
Definition USB_REG_Off : usb_hw -> usb_hw := bit_off UHWCON UVREGE.
Definition USB_OTGPAD_On : usb_hw -> usb_hw := bit_on USBCON OTGPADE.
Definition USB_OTGPAD_Off : usb_hw -> usb_hw := bit_off USBCON OTGPADE.
Definition USB_CLK_Freeze : usb_hw -> usb_hw := bit_on USBCON FRZCLK.
Definition USB_CLK_Unfreeze : usb_hw -> usb_hw := bit_off USBCON FRZCLK.

(** Clearing [USBE] resets the controller: its endpoints lose their configuration
    and whatever they held, its device registers are zero. *)
Definition endpoint_off (e : endpoint) : endpoint :=
  {| UECFG0X := 0; UECFG1X := 0; event := false; bank := []; sent := sent e |}.
Definition controller_off (u : usb_hw) : usb_hw :=
  {| UENUM := 0; ep := fun n => endpoint_off (ep u n); RXSTPI := false;
     USB_DeviceState := USB_DeviceState u;
     dev := dev_control false false (let d := dev u in
       {| ureg := fun r => if decide (r ∈ [UDCON; UDIEN; UDINT; UDADDR; UDFNUM; UEINT]) then 0 else ureg d r;
          UECONX := fun _ => 0; UEIENX := fun _ => 0; TXINI0 := false; RXOUTI0 := false;
          USB_ControlRequest := USB_ControlRequest d;
          USB_Device_ConfigurationNumber := USB_Device_ConfigurationNumber d;
          USB_Device_CurrentlySelfPowered := USB_Device_CurrentlySelfPowered d;
          USB_Device_RemoteWakeupEnabled := USB_Device_RemoteWakeupEnabled d;
          USB_IsInitialized := USB_IsInitialized d |}) |}.
Definition USB_Controller_Enable : usb_hw -> usb_hw := bit_on USBCON USBE.
Definition USB_Controller_Disable (u : usb_hw) : usb_hw := controller_off (bit_off USBCON USBE u).
Definition USB_Controller_Reset (u : usb_hw) : usb_hw :=
  bit_on USBCON USBE (controller_off (bit_off USBCON USBE u)).

(** ** Device_AVR8.h *)

Definition USB_Device_SetLowSpeed : usb_hw -> usb_hw := bit_on UDCON LSM.
Definition USB_Device_SetFullSpeed : usb_hw -> usb_hw := bit_off UDCON LSM.
Definition USB_Device_SetDeviceAddress (Address : Z) : usb_hw -> usb_hw :=
  set_reg UDADDR (fun x => Z.lor (Z.land x (2 ^ ADDEN)) (Z.land Address 0x7F)).
Definition USB_Device_EnableDeviceAddress (Address : Z) : usb_hw -> usb_hw := bit_on UDADDR ADDEN.
Definition USB_Device_IsAddressSet (u : usb_hw) : bool := to_bool (Z.land (reg UDADDR u) (2 ^ ADDEN)).

(** ** USBInterrupt_AVR8.h *)

Inductive USB_Interrupts_t :=
  | USB_INT_VBUSTI | USB_INT_WAKEUPI | USB_INT_SUSPI | USB_INT_EORSTI | USB_INT_SOFI | USB_INT_RXSTPI.

Definition USB_INT_Enable (Interrupt : USB_Interrupts_t) : usb_hw -> usb_hw :=
  match Interrupt with
  | USB_INT_VBUSTI => bit_on USBCON VBUSTE
  | USB_INT_WAKEUPI => bit_on UDIEN WAKEUPE
  | USB_INT_SUSPI => bit_on UDIEN SUSPE
  | USB_INT_EORSTI => bit_on UDIEN EORSTE
  | USB_INT_SOFI => bit_on UDIEN SOFE
  | USB_INT_RXSTPI => set_ien (fun x => set_bits x (2 ^ RXSTPE))
  end.
Definition USB_INT_Disable (Interrupt : USB_Interrupts_t) : usb_hw -> usb_hw :=
  match Interrupt with
  | USB_INT_VBUSTI => bit_off USBCON VBUSTE
  | USB_INT_WAKEUPI => bit_off UDIEN WAKEUPE
  | USB_INT_SUSPI => bit_off UDIEN SUSPE
  | USB_INT_EORSTI => bit_off UDIEN EORSTE
  | USB_INT_SOFI => bit_off UDIEN SOFE
  | USB_INT_RXSTPI => set_ien (fun x => clear_bits x (2 ^ RXSTPE))
  end.
(** The flags of [UDINT] have the positions of their enable bits in [UDIEN]. *)
Definition USB_INT_Clear (Interrupt : USB_Interrupts_t) : usb_hw -> usb_hw :=
  match Interrupt with
  | USB_INT_VBUSTI => bit_off USBINT VBUSTI
  | USB_INT_WAKEUPI => bit_off UDINT WAKEUPE
  | USB_INT_SUSPI => bit_off UDINT SUSPE
  | USB_INT_EORSTI => bit_off UDINT EORSTE
  | USB_INT_SOFI => bit_off UDINT SOFE
  | USB_INT_RXSTPI => Endpoint_ClearSETUP
  end.
Definition USB_INT_IsEnabled (Interrupt : USB_Interrupts_t) (u : usb_hw) : bool :=
  match Interrupt with
  | USB_INT_VBUSTI => to_bool (Z.land (reg USBCON u) (2 ^ VBUSTE))
  | USB_INT_WAKEUPI => to_bool (Z.land (reg UDIEN u) (2 ^ WAKEUPE))
  | USB_INT_SUSPI => to_bool (Z.land (reg UDIEN u) (2 ^ SUSPE))
  | USB_INT_EORSTI => to_bool (Z.land (reg UDIEN u) (2 ^ EORSTE))
  | USB_INT_SOFI => to_bool (Z.land (reg UDIEN u) (2 ^ SOFE))
  | USB_INT_RXSTPI => to_bool (Z.land (UEIENX (dev u) (UENUM u)) (2 ^ RXSTPE))
  end.
Definition USB_INT_HasOccurred (Interrupt : USB_Interrupts_t) (u : usb_hw) : bool :=
  match Interrupt with
  | USB_INT_VBUSTI => to_bool (Z.land (reg USBINT u) (2 ^ VBUSTI))
  | USB_INT_WAKEUPI => to_bool (Z.land (reg UDINT u) (2 ^ WAKEUPE))
  | USB_INT_SUSPI => to_bool (Z.land (reg UDINT u) (2 ^ SUSPE))
  | USB_INT_EORSTI => to_bool (Z.land (reg UDINT u) (2 ^ EORSTE))
  | USB_INT_SOFI => to_bool (Z.land (reg UDINT u) (2 ^ SOFE))
  | USB_INT_RXSTPI => Endpoint_IsSETUPReceived u
  end.

(** Device_AVR8.h: the start-of-frame events. *)
Definition USB_Device_EnableSOFEvents : usb_hw -> usb_hw := USB_INT_Enable USB_INT_SOFI.
Definition USB_Device_DisableSOFEvents : usb_hw -> usb_hw := USB_INT_Disable USB_INT_SOFI.

(** ** USBInterrupt_AVR8.c *)

Definition USB_INT_DisableAllInterrupts (u : usb_hw) : usb_hw :=
  let u := bit_off USBCON VBUSTE u in
  set_reg UDIEN (fun _ => 0) u.
Definition USB_INT_ClearAllInterrupts (u : usb_hw) : usb_hw :=
  let u := set_reg USBINT (fun _ => 0) u in
  set_reg UDINT (fun _ => 0) u.

(** ** USBController_AVR8.c *)

Definition hw_vars (f : usb_dev -> usb_dev) : io unit := hw_do (with_dev f).
Definition set_configuration_number (n : Z) (d : usb_dev) : usb_dev :=
  dev_vars (USB_ControlRequest d) n (USB_Device_CurrentlySelfPowered d) (USB_Device_RemoteWakeupEnabled d)
    (USB_IsInitialized d) d.
Definition set_wakeup (b : bool) (d : usb_dev) : usb_dev :=
  dev_vars (USB_ControlRequest d) (USB_Device_ConfigurationNumber d) (USB_Device_CurrentlySelfPowered d) b
    (USB_IsInitialized d) d.
Definition set_selfpowered (b : bool) (d : usb_dev) : usb_dev :=
  dev_vars (USB_ControlRequest d) (USB_Device_ConfigurationNumber d) b (USB_Device_RemoteWakeupEnabled d)
    (USB_IsInitialized d) d.
Definition set_initialized (b : bool) (d : usb_dev) : usb_dev :=
  dev_vars (USB_ControlRequest d) (USB_Device_ConfigurationNumber d) (USB_Device_CurrentlySelfPowered d)
    (USB_Device_RemoteWakeupEnabled d) b d.
Definition set_request (req : USB_Request_Header_t) (d : usb_dev) : usb_dev :=
  dev_vars req (USB_Device_ConfigurationNumber d) (USB_Device_CurrentlySelfPowered d)
    (USB_Device_RemoteWakeupEnabled d) (USB_IsInitialized d) d.

(** The result of the configuration is not used. *)
Definition EP_TYPE_CONTROL : Z := 0x00.
Definition configure_control : io unit := fun '(ms, u) =>
  '(_, u) ← Endpoint_ConfigureEndpoint ENDPOINT_CONTROLEP EP_TYPE_CONTROL USB_Device_ControlEndpointSize 1 u;
  Some (tt, (ms, u)).

Definition USB_Init_Device : io unit :=
  hw_do (with_state Unattached);;
  hw_vars (set_configuration_number 0);;
  hw_vars (set_wakeup false);;
  hw_vars (set_selfpowered false);;
  (if option_set USB_DEVICE_OPT_LOWSPEED then hw_do USB_Device_SetLowSpeed else hw_do USB_Device_SetFullSpeed);;
  hw_do (USB_INT_Enable USB_INT_VBUSTI);;
  configure_control;;
  hw_do (USB_INT_Clear USB_INT_SUSPI);;
  hw_do (USB_INT_Enable USB_INT_SUSPI);;
  hw_do (USB_INT_Enable USB_INT_EORSTI);;
  hw_do USB_Attach.

Definition USB_ResetInterface : io unit :=
  hw_do USB_INT_DisableAllInterrupts;;
  hw_do USB_INT_ClearAllInterrupts;;
  hw_do USB_Controller_Reset;;
  hw_do USB_CLK_Unfreeze;;
  when (negb (option_set USB_OPT_MANUAL_PLL)) (hw_do USB_PLL_Off);;
  USB_Init_Device;;
  hw_do USB_OTGPAD_On.

Definition USB_Init : io unit :=
  hw_do USB_OTGPAD_Off;;
  (if negb (option_set USB_OPT_REG_DISABLED) then hw_do USB_REG_On else hw_do USB_REG_Off);;
  when (negb (option_set USB_OPT_MANUAL_PLL)) (hw_do (set_reg PLLFRQ (fun _ => 2 ^ PDIV2)));;
  hw_vars (set_initialized true);;
  USB_ResetInterface.

Definition USB_Disable : io unit :=
  hw_do USB_INT_DisableAllInterrupts;;
  hw_do USB_INT_ClearAllInterrupts;;
  hw_do USB_Detach;;
  hw_do USB_Controller_Disable;;
  when (negb (option_set USB_OPT_MANUAL_PLL)) (hw_do USB_PLL_Off);;
  when (negb (option_set USB_OPT_REG_KEEP_ENABLED)) (hw_do USB_REG_Off);;
  hw_do USB_OTGPAD_Off;;
  hw_vars (set_initialized false).

(** ** DeviceStandardReq.c *)

Definition REQ_GetStatus : Z := 0.
Definition REQ_ClearFeature : Z := 1.
Definition REQ_SetFeature : Z := 3.
Definition REQ_SetAddress : Z := 5.
Definition REQ_GetDescriptor : Z := 6.
Definition REQ_GetConfiguration : Z := 8.
Definition REQ_SetConfiguration : Z := 9.
Definition FEATURE_SEL_EndpointHalt : Z := 0x00.
Definition FEATURE_SEL_DeviceRemoteWakeup : Z := 0x01.
Definition FEATURE_SELFPOWERED_ENABLED : Z := Z.shiftl 1 0.
Definition FEATURE_REMOTE_WAKEUP_ENABLED : Z := Z.shiftl 1 1.
Definition CONTROL_REQTYPE_RECIPIENT : Z := 0x1F.
Definition REQTYPE_STANDARD : Z := Z.shiftl 0 5.
Definition REQREC_DEVICE : Z := Z.shiftl 0 0.
Definition REQREC_ENDPOINT : Z := Z.shiftl 2 0.
Definition STANDARD_IN (recipient : Z) : Z := Z.lor (Z.lor REQDIR_DEVICETOHOST REQTYPE_STANDARD) recipient.
Definition STANDARD_OUT (recipient : Z) : Z := Z.lor (Z.lor REQDIR_HOSTTODEVICE REQTYPE_STANDARD) recipient.

Definition get_request : sio USB_Request_Header_t := ser_get (fun s => USB_ControlRequest (dev (hw s))).
Definition hw_is {A} (f : usb_hw -> A) : sio A := ser_get (fun s => f (hw s)).

Definition ser_read_8 : sio Z := fun '(ms, s) =>
  let '(b, u) := Endpoint_Read_8 (hw s) in Some (b, (ms, with_hw u s)).
Definition call_configuration_changed : sio unit := fun '(ms, s) =>
  match EVENT_USB_Device_ConfigurationChanged s with
  | Some s' => Some (tt, (ms, s'))
  | None => None
  end.

Definition USB_Device_SetAddress : sio unit :=
  req ← get_request;
  let DeviceAddress := Z.land (wValue req) 0x7F in
  ser_hw (USB_Device_SetDeviceAddress DeviceAddress);;
  ser_hw Endpoint_ClearSETUP;;
  on_io Endpoint_ClearStatusStage;;
  on_io (wait (fun u => if Endpoint_IsINReady u then Some tt else None));;
  ser_hw (USB_Device_EnableDeviceAddress DeviceAddress);;
  ser_hw (with_state (if to_bool DeviceAddress then Addressed else Default_)).

Definition USB_Device_SetConfiguration : sio unit :=
  req ← get_request;
  if FIXED_NUM_CONFIGURATIONS <? u8 (wValue req) then mret tt else
  ser_hw Endpoint_ClearSETUP;;
  ser_hw (with_dev (set_configuration_number (u8 (wValue req))));;
  on_io Endpoint_ClearStatusStage;;
  n ← hw_is (fun u => USB_Device_ConfigurationNumber (dev u));
  address_set ← hw_is USB_Device_IsAddressSet;
  ser_hw (with_state (if to_bool n then Configured else if address_set : bool then Configured else Powered));;
  call_configuration_changed.

Definition USB_Device_GetConfiguration : sio unit :=
  ser_hw Endpoint_ClearSETUP;;
  n ← hw_is (fun u => USB_Device_ConfigurationNumber (dev u));
  ser_hw (Endpoint_Write_8 n);;
  ser_hw Endpoint_ClearIN;;
  on_io Endpoint_ClearStatusStage.

Definition INTERNAL_SERIAL_LENGTH_BITS : Z := 80.
Definition INTERNAL_SERIAL_START_ADDRESS : Z := 0x0E.
Definition sizeof_Header : Z := 2.
Definition USB_STRING_LEN (UnicodeChars : Z) : Z := sizeof_Header + Z.shiftl UnicodeChars 1.

Section signature.
(** The signature row of the chip, read with avr-libc's [boot_signature_byte_get]. *)
Context (boot_signature_byte_get : Z -> Z).

(** The hexadecimal digits of the row, low half first. *)
Fixpoint serial_loop (n : nat) (SerialCharNum SigReadAddress : Z) : list Z :=
  match n with
  | O => []
  | S n =>
      let SerialByte := u8 (boot_signature_byte_get SigReadAddress) in
      let '(SerialByte, SigReadAddress) :=
        if to_bool (Z.land SerialCharNum 0x01)
        then (Z.shiftr SerialByte 4, u8 (SigReadAddress + 1)) else (SerialByte, SigReadAddress) in
      let SerialByte := Z.land SerialByte 0x0F in
      (if 10 <=? SerialByte then (ch "A" - 10) + SerialByte else ch "0" + SerialByte)
        :: serial_loop n (u8 (SerialCharNum + 1)) SigReadAddress
  end.
Definition USB_Device_GetSerialString : list Z :=
  serial_loop (Z.to_nat (INTERNAL_SERIAL_LENGTH_BITS / 4)) 0 INTERNAL_SERIAL_START_ADDRESS.

(** The structure [SignatureDescriptor]. *)
Definition SignatureDescriptor : USB_Descriptor_String_t :=
  {| String_Header := {| Size := USB_STRING_LEN (INTERNAL_SERIAL_LENGTH_BITS / 4); Type_ := DTYPE_String |};
     UnicodeString := USB_Device_GetSerialString |}.

Definition USB_Device_GetInternalSerialDescriptor : sio unit :=
  ser_hw Endpoint_ClearSETUP;;
  on_io (Endpoint_Write_Control_Stream_LE (bytes SignatureDescriptor));;
  ser_hw Endpoint_ClearOUT.

(** Reading past the object at the address is undefined. *)
Definition USB_Device_GetDescriptor : sio unit :=
  req ← get_request;
  if wValue req =? Z.lor (Z.shiftl DTYPE_String 8) USE_INTERNAL_SERIAL
  then USB_Device_GetInternalSerialDescriptor
  else
    let '(DescriptorPointer, DescriptorSize) := CALLBACK_USB_GetDescriptor (wValue req) (wIndex req) in
    if DescriptorSize =? NO_DESCRIPTOR then mret tt else
    match DescriptorPointer with
    | None => undefined
    | Some memory =>
        if decide (Z.of_nat (length memory) < DescriptorSize) then undefined else
        ser_hw Endpoint_ClearSETUP;;
        on_io (Endpoint_Write_Control_PStream_LE (take (Z.to_nat DescriptorSize) memory));;
        ser_hw Endpoint_ClearOUT
    end.

(** The status word, or [None] when the function returns without an answer. *)
Definition current_status : sio (option Z) :=
  req ← get_request;
  if bmRequestType req =? STANDARD_IN REQREC_DEVICE then
    self ← hw_is (fun u => USB_Device_CurrentlySelfPowered (dev u));
    wake ← hw_is (fun u => USB_Device_RemoteWakeupEnabled (dev u));
    mret (Some (Z.lor (if self : bool then FEATURE_SELFPOWERED_ENABLED else 0)
                      (if wake : bool then FEATURE_REMOTE_WAKEUP_ENABLED else 0)))
  else if bmRequestType req =? STANDARD_IN REQREC_ENDPOINT then
    let EndpointIndex := Z.land (u8 (wIndex req)) ENDPOINT_EPNUM_MASK in
    if ENDPOINT_TOTAL_ENDPOINTS <=? EndpointIndex then mret None else
    ser_hw (Endpoint_SelectEndpoint EndpointIndex);;
    stalled ← hw_is Endpoint_IsStalled;
    ser_hw (Endpoint_SelectEndpoint ENDPOINT_CONTROLEP);;
    mret (Some (if stalled : bool then 1 else 0))
  else mret None.

Definition USB_Device_GetStatus : sio unit :=
  CurrentStatus ← current_status;
  match CurrentStatus with
  | None => mret tt
  | Some CurrentStatus =>
      ser_hw Endpoint_ClearSETUP;;
      ser_hw (Endpoint_Write_16_LE CurrentStatus);;
      ser_hw Endpoint_ClearIN;;
      on_io Endpoint_ClearStatusStage
  end.

(** The part of the switch that acts; [false] when the function returns. *)
Definition change_feature : sio bool :=
  req ← get_request;
  let recipient := Z.land (bmRequestType req) CONTROL_REQTYPE_RECIPIENT in
  if recipient =? REQREC_DEVICE then
    if u8 (wValue req) =? FEATURE_SEL_DeviceRemoteWakeup
    then ser_hw (with_dev (set_wakeup (bRequest req =? REQ_SetFeature)));; mret true
    else mret false
  else if recipient =? REQREC_ENDPOINT then
    if u8 (wValue req) =? FEATURE_SEL_EndpointHalt then
      let EndpointIndex := Z.land (u8 (wIndex req)) ENDPOINT_EPNUM_MASK in
      if (EndpointIndex =? ENDPOINT_CONTROLEP) || (ENDPOINT_TOTAL_ENDPOINTS <=? EndpointIndex) then mret false else
      ser_hw (Endpoint_SelectEndpoint EndpointIndex);;
      enabled ← hw_is Endpoint_IsEnabled;
      when enabled (
        if bRequest req =? REQ_SetFeature then ser_hw Endpoint_StallTransaction
        else
          ser_hw Endpoint_ClearStall;;
          ser_hw (Endpoint_ResetEndpoint EndpointIndex);;
          ser_hw Endpoint_ResetDataToggle);;
      mret true
    else mret true
  else mret false.

Definition USB_Device_ClearSetFeature : sio unit :=
  done ← change_feature;
  when done (
    ser_hw (Endpoint_SelectEndpoint ENDPOINT_CONTROLEP);;
    ser_hw Endpoint_ClearSETUP;;
    on_io Endpoint_ClearStatusStage).

(** The loop over the bytes of [USB_ControlRequest]. *)
Fixpoint read_header (n : nat) : sio (list Z) :=
  match n with
  | O => mret []
  | S n => b ← ser_read_8;
           l ← read_header n; mret (b :: l)
  end.
Definition header_of_bytes (l : list Z) : USB_Request_Header_t :=
  let byte i := default 0 (l !! i) in
  {| bmRequestType := byte 0%nat; bRequest := byte 1%nat; wValue := word (byte 2%nat) (byte 3%nat);
     wIndex := word (byte 4%nat) (byte 5%nat); wLength := word (byte 6%nat) (byte 7%nat) |}.

(** The switch of the standard requests. *)
Definition standard_request (req : USB_Request_Header_t) : sio unit :=
  let t := bmRequestType req in
  let r := bRequest req in
  if r =? REQ_GetStatus then
    when ((t =? STANDARD_IN REQREC_DEVICE) || (t =? STANDARD_IN REQREC_ENDPOINT)) USB_Device_GetStatus
  else if (r =? REQ_ClearFeature) || (r =? REQ_SetFeature) then
    when ((t =? STANDARD_OUT REQREC_DEVICE) || (t =? STANDARD_OUT REQREC_ENDPOINT)) USB_Device_ClearSetFeature
  else if r =? REQ_SetAddress then
    when (t =? STANDARD_OUT REQREC_DEVICE) USB_Device_SetAddress
  else if r =? REQ_GetDescriptor then
    when ((t =? STANDARD_IN REQREC_DEVICE) || (t =? STANDARD_IN REQREC_INTERFACE)) USB_Device_GetDescriptor
  else if r =? REQ_GetConfiguration then
    when (t =? STANDARD_IN REQREC_DEVICE) USB_Device_GetConfiguration
  else when ((r =? REQ_SetConfiguration) && (t =? STANDARD_OUT REQREC_DEVICE)) USB_Device_SetConfiguration.

Definition USB_Device_ProcessControlRequest : sio unit :=
  l ← read_header 8;
  ser_hw (with_dev (set_request (header_of_bytes l)));;
  EVENT_USB_Device_ControlRequest;;
  received ← hw_is Endpoint_IsSETUPReceived;
  when received (req ← get_request; standard_request req);;
  received ← hw_is Endpoint_IsSETUPReceived;
  when received (ser_hw Endpoint_ClearSETUP;; ser_hw Endpoint_StallTransaction).

(** ** USBTask.c *)

Definition USB_DeviceTask : sio unit :=
  st ← hw_is USB_DeviceState;
  if decide (st = Unattached) then mret tt else
  PrevEndpoint ← hw_is Endpoint_GetCurrentEndpoint;
  ser_hw (Endpoint_SelectEndpoint ENDPOINT_CONTROLEP);;
  received ← hw_is Endpoint_IsSETUPReceived;
  when received USB_Device_ProcessControlRequest;;
  ser_hw (Endpoint_SelectEndpoint PrevEndpoint).

Definition USB_USBTask : sio unit := USB_DeviceTask.

(** ** USBInterrupt_AVR8.c: the handlers *)

(** Events.c: the events the program does not handle. *)
Definition USB_Event_Stub : sio unit := mret tt.

Definition raised (i : USB_Interrupts_t) : sio bool :=
  hw_is (fun u => USB_INT_HasOccurred i u && USB_INT_IsEnabled i u).
Definition pll_on_and_wait : sio unit :=
  when (negb (option_set USB_OPT_MANUAL_PLL)) (
    ser_hw USB_PLL_On;;
    on_io (wait (fun u => if USB_PLL_IsReady u then Some tt else None))).
Definition pll_off : sio unit := when (negb (option_set USB_OPT_MANUAL_PLL)) (ser_hw USB_PLL_Off).

Definition on_start_of_frame : sio unit :=
  ser_hw (USB_INT_Clear USB_INT_SOFI);;
  USB_Event_Stub.

Definition on_vbus : sio unit :=
  ser_hw (USB_INT_Clear USB_INT_VBUSTI);;
  vbus ← hw_is USB_VBUS_GetStatus;
  if vbus : bool then
    pll_on_and_wait;;
    ser_hw (with_state Powered);;
    ser_do EVENT_USB_Device_Connect
  else
    pll_off;;
    ser_hw (with_state Unattached);;
    ser_do EVENT_USB_Device_Disconnect.

Definition on_suspend : sio unit :=
  ser_hw (USB_INT_Disable USB_INT_SUSPI);;
  ser_hw (USB_INT_Enable USB_INT_WAKEUPI);;
  ser_hw USB_CLK_Freeze;;
  pll_off;;
  ser_hw (with_state Suspended);;
  USB_Event_Stub.

Definition on_wakeup : sio unit :=
  pll_on_and_wait;;
  ser_hw USB_CLK_Unfreeze;;
  ser_hw (USB_INT_Clear USB_INT_WAKEUPI);;
  ser_hw (USB_INT_Disable USB_INT_WAKEUPI);;
  ser_hw (USB_INT_Enable USB_INT_SUSPI);;
  n ← hw_is (fun u => USB_Device_ConfigurationNumber (dev u));
  address_set ← hw_is USB_Device_IsAddressSet;
  ser_hw (with_state (if to_bool n then Configured else if address_set : bool then Addressed else Powered));;
  USB_Event_Stub.

Definition on_reset : sio unit :=
  ser_hw (USB_INT_Clear USB_INT_EORSTI);;
  ser_hw (with_state Default_);;
  ser_hw (with_dev (set_configuration_number 0));;
  ser_hw (USB_INT_Clear USB_INT_SUSPI);;
  ser_hw (USB_INT_Disable USB_INT_SUSPI);;
  ser_hw (USB_INT_Enable USB_INT_WAKEUPI);;
  on_io configure_control;;
  ser_hw (USB_INT_Enable USB_INT_RXSTPI);;
  USB_Event_Stub.

Definition on_interrupt (i : USB_Interrupts_t) (body : sio unit) : sio unit :=
  b ← raised i; when b body.

Definition USB_GEN_vect : sio unit :=
  on_interrupt USB_INT_SOFI on_start_of_frame;;
  on_interrupt USB_INT_VBUSTI on_vbus;;
  on_interrupt USB_INT_SUSPI on_suspend;;
  on_interrupt USB_INT_WAKEUPI on_wakeup;;
  on_interrupt USB_INT_EORSTI on_reset.

Definition USB_COM_vect : sio unit :=
  PrevSelectedEndpoint ← hw_is Endpoint_GetCurrentEndpoint;
  ser_hw (Endpoint_SelectEndpoint ENDPOINT_CONTROLEP);;
  ser_hw (USB_INT_Disable USB_INT_RXSTPI);;
  USB_Device_ProcessControlRequest;;
  ser_hw (Endpoint_SelectEndpoint ENDPOINT_CONTROLEP);;
  ser_hw (USB_INT_Enable USB_INT_RXSTPI);;
  ser_hw (Endpoint_SelectEndpoint PrevSelectedEndpoint).
End signature.

(** ** Specification *)

(** The kernel unfolds the handlers before the operations they consist of. *)
Strategy expand [USB_GEN_vect USB_COM_vect USB_Device_ProcessControlRequest USB_Device_SetConfiguration
  USB_Device_ClearSetFeature USB_Device_SetAddress USB_Device_GetDescriptor].

(** *** What a request may do

    [controlled]: the rings are as before, the control endpoint is still selected,
    and a request waits only if one waited or the host made one. *)
Definition controlled (st st' : list host_move * serial) : Prop :=
  same_rings st.2 st'.2 /\ UENUM (hw st'.2) = UENUM (hw st.2) /\
  exists used, st.1 = used ++ st'.1 /\ setup_from used (hw st.2) (hw st'.2).

#[export] Instance controlled_preorder : PreOrder controlled.
Proof.
  split.
  - intros st. split; [done|]. split; [done|]. exists []. split; [done|]. by left.
  - intros st1 st2 st3 (H1&E1&l1&F1&S1) (H2&E2&l2&F2&S2).
    split; [by etransitivity|]. split; [congruence|]. exists (l1 ++ l2).
    split; [by rewrite F1, F2, <- app_assoc|]. by eapply setup_from_trans.
Qed.

Lemma neutral_controlled st st' : neutral_step st st' -> controlled st st'.
Proof. intros [H (E&used&F&_&S)]. split; [done|]. split; [done|]. by exists used. Qed.

Class ControlStep (f : usb_hw -> usb_hw) : Prop := control_step_ok : forall u,
  UENUM u = 0 -> UENUM (f u) = 0 /\ (RXSTPI (f u) = true -> RXSTPI u = true).
Class Controlled {A} (m : sio A) : Prop := controlled_run : forall st a st',
  UENUM (hw st.2) = 0 -> m st = Some (a, st') -> controlled st st'.

#[export] Instance quiet_control_step f : QuietStep f -> ControlStep f.
Proof. intros Hf u E. destruct (Hf u E) as (E'&_&S). split; [congruence|done]. Qed.
#[export] Instance dev_control_step f : ControlStep (with_dev f).
Proof. done. Qed.
#[export] Instance state_control_step x : ControlStep (with_state x).
Proof. done. Qed.
#[export] Instance reg_control_step r f : ControlStep (set_reg r f).
Proof. done. Qed.
#[export] Instance bit_on_control_step r n : ControlStep (bit_on r n).
Proof. done. Qed.

#[export] Instance controlled_neutral {A} (m : sio A) : Neutral m -> Controlled m | 10.
Proof. intros Hm st a st' Hu E. by eapply neutral_controlled, Hm. Qed.
#[export] Instance controlled_bind {A B} (m : sio A) (k : A -> sio B) :
  Controlled m -> (forall a, Controlled (k a)) -> Controlled (mbind k m).
Proof.
  intros Hm Hk st b st'' Hu E. unfold mbind, M_bind in E. destruct (m st) as [[a st']|] eqn:E1; [|done].
  pose proof (Hm _ _ _ Hu E1) as H1. etransitivity; [exact H1|]. apply (Hk a st' b st''); [|exact E].
  destruct H1 as (_&E2&_). congruence.
Qed.
#[export] Instance controlled_hw f : ControlStep f -> Controlled (ser_hw f).
Proof.
  intros Hf [ms s] a st' Hu [= _ <-]. destruct (Hf (hw s) Hu) as [E S]. cbn [snd] in Hu.
  split; [done|]. split; [by cbn; rewrite E, Hu|]. exists []. split; [done|]. intros H. left. by apply S.
Qed.
#[export] Instance controlled_if {A} (b : bool) (m m' : sio A) :
  Controlled m -> Controlled m' -> Controlled (if b then m else m').
Proof. by destruct b. Qed.
#[export] Instance controlled_when b (m : sio unit) : Controlled m -> Controlled (when b m).
Proof. intros. unfold when. apply _. Qed.

Lemma neutral_state {A} (f : serial -> A * serial) (m : sio A) :
  (forall ms s, m (ms, s) = Some ((f s).1, (ms, (f s).2))) ->
  (forall s, UENUM (hw s) = 0 -> same_rings s (f s).2 /\ on_control_only (hw s) (hw (f s).2)) -> Neutral m.
Proof.
  intros Hm Hf [ms s] a st' Hu E. rewrite Hm in E. injection E as _ <-. cbn [snd] in Hu.
  destruct (Hf s Hu). split; [done|]. by apply host_only_device.
Qed.

#[export] Instance neutral_read_8 : Neutral ser_read_8.
Proof.
  apply (neutral_state (fun s => let '(b, u) := Endpoint_Read_8 (hw s) in (b, with_hw u s))).
  - intros ms s. unfold ser_read_8. by destruct (Endpoint_Read_8 (hw s)).
  - intros s Hu. pose proof (quiet_read_8 (hw s) Hu) as H. by destruct (Endpoint_Read_8 (hw s)).
Qed.

#[export] Instance neutral_header n : Neutral (read_header n).
Proof. induction n; cbn [read_header]; apply _. Qed.

#[export] Instance quiet_write_16 b : QuietStep (Endpoint_Write_16_LE b).
Proof.
  intros u E. unfold Endpoint_Write_16_LE. pose proof (quiet_write_8 (Z.land b 0xFF) u E) as H.
  etransitivity; [exact H|]. apply quiet_write_8. destruct H as [-> _]. done.
Qed.

#[export] Instance neutral_status : Neutral current_status.
Proof.
  intros [ms s] a st' Hu E. unfold current_status in E. cbn [snd] in Hu.
  unfold get_request in E. rewrite run_get in E. revert E.
  destruct (_ =? _); [by intros [= _ <-]|]. destruct (_ =? _); [|by intros [= _ <-]].
  cbv zeta. destruct (_ <=? _); [by intros [= _ <-]|].
  intros [= _ <-]. split; [done|]. apply host_only_device. by split_and!.
Qed.
#[export] Instance neutral_get_status : Neutral USB_Device_GetStatus.
Proof. unfold USB_Device_GetStatus. apply neutral_bind; [apply _|]. intros []; apply _. Qed.
#[export] Instance neutral_get_configuration : Neutral USB_Device_GetConfiguration.
Proof. unfold USB_Device_GetConfiguration. apply _. Qed.
#[export] Instance neutral_get_descriptor g : Neutral (USB_Device_GetDescriptor g).
Proof.
  unfold USB_Device_GetDescriptor. apply neutral_bind; [apply _|]. intros req.
  apply neutral_if; [unfold USB_Device_GetInternalSerialDescriptor; apply _|].
  destruct (CALLBACK_USB_GetDescriptor _ _) as [[memory|] size]; (apply neutral_if; [apply _|]).
  - case_decide; [by intros st a st' _|apply _].
  - by intros st a st' _.
Qed.
#[export] Instance controlled_set_address : Controlled USB_Device_SetAddress.
Proof. unfold USB_Device_SetAddress. apply controlled_bind; [apply _|]. intros req. cbv zeta. unfold USB_Device_SetDeviceAddress, USB_Device_EnableDeviceAddress. apply _. Qed.

(** The switch of the feature requests changes no flag of a request and, when it
    gives up, selects no other endpoint; for the device itself it touches one
    variable. *)
Lemma change_feature_spec ms s :
  exists b u, change_feature (ms, s) = Some (b, (ms, with_hw u s)) /\ RXSTPI u = RXSTPI (hw s) /\
    USB_DeviceState u = USB_DeviceState (hw s) /\
    same_vars (hw s) u /\
    (b = false -> UENUM u = UENUM (hw s)) /\
    (Z.land (bmRequestType (USB_ControlRequest (dev (hw s)))) CONTROL_REQTYPE_RECIPIENT = REQREC_DEVICE ->
     UENUM u = UENUM (hw s) /\ forall n, ep u n = ep (hw s) n).
Proof.
  unfold change_feature, get_request. rewrite run_get. cbv zeta.
  assert (Hid : with_hw (hw s) s = s) by by destruct s.
  set (req := USB_ControlRequest (dev (hw s))).
  destruct (Z.eqb_spec (Z.land (bmRequestType req) CONTROL_REQTYPE_RECIPIENT) REQREC_DEVICE) as [E|E].
  - destruct (_ =? _); eexists _, _; (split; [done || by rewrite Hid|by split_and!]).
  - destruct (_ =? REQREC_ENDPOINT); [|exists false, (hw s); rewrite Hid; by split_and!].
    destruct (_ =? FEATURE_SEL_EndpointHalt); [|exists true, (hw s); rewrite Hid; by split_and!].
    destruct (_ || _); [exists false, (hw s); rewrite Hid; by split_and!|].
    set (n := Z.land _ _). set (u1 := Endpoint_SelectEndpoint n (hw s)). exists true.
    destruct (Endpoint_IsEnabled u1) eqn:En; [destruct (bRequest req =? REQ_SetFeature) eqn:Es|].
    + exists (Endpoint_StallTransaction u1). split; [|by split_and!].
      unfold ser_hw. rewrite run_do. unfold hw_is. rewrite run_get. cbn [hw on_hw with_hw]. fold u1. rewrite En. done.
    + exists (Endpoint_ResetDataToggle (Endpoint_ResetEndpoint n (Endpoint_ClearStall u1))). split; [|by split_and!].
      unfold ser_hw. rewrite run_do. unfold hw_is. rewrite run_get. cbn [hw on_hw with_hw]. fold u1. rewrite En. done.
    + exists u1. split; [|by split_and!].
      unfold ser_hw. rewrite run_do. unfold hw_is. rewrite run_get. cbn [hw on_hw with_hw]. fold u1. rewrite En. done.
Qed.

(** Selecting the control endpoint from anywhere. *)
Lemma controlled_from_other {A} (m : sio A) ms s u a st' :
  UENUM (hw s) = 0 -> RXSTPI u = RXSTPI (hw s) -> Controlled m ->
  m (ms, with_hw (Endpoint_SelectEndpoint ENDPOINT_CONTROLEP u) s) = Some (a, st') -> controlled (ms, s) st'.
Proof.
  intros Hu Hr Hm E. apply Hm in E as (H1&H2&used&H3&H4); [|done].
  split; [exact H1|]. split; [rewrite H2; cbn [snd]; by rewrite Hu|]. exists used. split; [exact H3|].
  intros H. destruct (H4 H) as [H5|]; [left|by right]. cbn [snd hw with_hw] in *. by rewrite <- Hr.
Qed.

#[export] Instance controlled_clear_set_feature : Controlled USB_Device_ClearSetFeature.
Proof.
  intros [ms s] a st' Hu E. cbn [snd] in Hu. unfold USB_Device_ClearSetFeature in E.
  destruct (change_feature_spec ms s) as (b&u&Ec&Hr&_&_&Hb&_). erewrite run_bind in E by exact Ec.
  destruct b; cbn [when] in E.
  - unfold ser_hw in E. cbv beta iota in E. rewrite run_do in E. change (on_hw ?f (with_hw u s)) with (with_hw (f u) s) in E.
    apply (controlled_from_other (ser_hw Endpoint_ClearSETUP;; on_io Endpoint_ClearStatusStage) ms s u a st' Hu Hr _ E).
  - injection E as _ <-. split; [done|]. split; [by apply Hb|]. exists []. split; [done|].
    intros H. left. cbn [snd hw with_hw] in H. cbn [snd]; congruence.
Qed.

(** *** Every request is answered *)

(** After a request nothing waits, unless the host made another one. *)
Definition answered (st st' : list host_move * serial) : Prop :=
  same_rings st.2 st'.2 /\ exists used, st.1 = used ++ st'.1 /\
    (RXSTPI (hw st'.2) = true -> Exists is_setup used).

(** [SetConfiguration] leaves the last endpoint it configured selected. *)
Lemma set_configuration_run st st' :
  UENUM (hw st.2) = 0 -> USB_Device_SetConfiguration st = Some (tt, st') ->
  controlled st st' \/ answered st st'.
Proof.
  intros Hu E. destruct st as [ms s]. cbn [snd] in Hu. unfold USB_Device_SetConfiguration, get_request in E.
  rewrite run_get in E. destruct (_ <? _); [left; by injection E as <-|right].
  unfold ser_hw in E. rewrite run_do in E. set (s1 := on_hw Endpoint_ClearSETUP s) in E.
  assert (H1 : RXSTPI (hw s1) = false /\ UENUM (hw s1) = 0).
  { unfold s1. cbn [hw on_hw with_hw]. unfold Endpoint_ClearSETUP. by rewrite Hu. }
  rewrite run_do in E. set (s2 := on_hw _ s1) in E. destruct H1 as [Hr Hu1].
  apply bind_inv in E as ([]&[ms3 s3]&E3&E).
  assert (H3 : controlled (ms, s2) (ms3, s3)).
  { refine (controlled_run (Controlled := controlled_neutral _ _) _ _ _ _ E3). done. }
  unfold hw_is in E. rewrite !run_get, run_do in E. unfold call_configuration_changed in E.
  destruct (ConfigurationChanged_spec (on_hw (with_state (if to_bool (USB_Device_ConfigurationNumber (dev (hw s3)))
    then Configured else if USB_Device_IsAddressSet (hw s3) then Configured else Powered)) s3))
    as (s4&E4&Hk&_&Hr4&_). rewrite E4 in E. injection E as <-.
  destruct H3 as (K1&K2&used&K3&K4). split; [|exists used; split; [done|]].
  - cbn [snd] in *. etransitivity; [exact K1|]. exact Hk.
  - cbn [snd]. rewrite Hr4. intros H. destruct (K4 H) as [H5|]; [|done].
    change (RXSTPI (hw s1) = true) in H5. congruence.
Qed.

Section answers.
Context (signature : Z -> Z).

Lemma standard_request_run req st a st' :
  UENUM (hw st.2) = 0 -> standard_request signature req st = Some (a, st') ->
  controlled st st' \/ answered st st'.
Proof.
  intros Hu E. unfold standard_request in E. cbv zeta in E. destruct a.
  do 5 (match type of E with (if ?b then _ else _) _ = _ => destruct b end;
    [left; exact (controlled_run _ _ _ Hu E)|]).
  unfold when in E. destruct (_ && _); [by apply set_configuration_run|left; by injection E as <-].
Qed.

(** The end of the handling: what is still waiting is acknowledged and refused. *)
Definition refuse : sio unit :=
  received ← hw_is Endpoint_IsSETUPReceived;
  when received (ser_hw Endpoint_ClearSETUP;; ser_hw Endpoint_StallTransaction).

Lemma refuse_run ms s a st' :
  refuse (ms, s) = Some (a, st') ->
  same_rings s st'.2 /\ st'.1 = ms /\ UENUM (hw st'.2) = UENUM (hw s) /\
  RXSTPI (hw st'.2) = (if UENUM (hw s) =? 0 then false else RXSTPI (hw s)).
Proof.
  unfold refuse, hw_is. rewrite run_get. unfold Endpoint_IsSETUPReceived, when.
  destruct (Z.eqb_spec (UENUM (hw s)) 0) as [E|E]; cbn [andb]; [destruct (RXSTPI (hw s)) eqn:Er|];
    intros [= _ <-]; [|by split_and!..].
  split; [done|]. split; [done|].
  assert (Ec : forall u, UENUM (Endpoint_ClearSETUP u) = UENUM u) by (intros u; unfold Endpoint_ClearSETUP; by destruct (_ =? _)).
  cbn [snd hw on_hw with_hw]. split; [exact (Ec (hw s))|].
  change (RXSTPI (Endpoint_ClearSETUP (hw s)) = false). unfold Endpoint_ClearSETUP. by rewrite E.
Qed.

Lemma ProcessControlRequest_run st a st' :
  UENUM (hw st.2) = 0 -> USB_Device_ProcessControlRequest signature st = Some (a, st') -> answered st st'.
Proof.
  intros Hu E. unfold USB_Device_ProcessControlRequest in E.
  apply bind_inv in E as (l&st1&E1&E). pose proof (controlled_run _ _ _ Hu E1) as H1.
  apply bind_inv in E as ([]&st2&E2&E).
  assert (Hu1 : UENUM (hw st1.2) = 0) by (destruct H1 as (_&->&_); done).
  pose proof (controlled_run _ _ _ Hu1 E2) as H2.
  apply bind_inv in E as ([]&st3&E3&E).
  assert (Hu2 : UENUM (hw st2.2) = 0) by (destruct H2 as (_&->&_); done).
  pose proof (controlled_run _ _ _ Hu2 E3) as H3.
  assert (H03 : controlled st st3) by (do 2 (etransitivity; [eassumption|]); done). clear H1 H2 H3 E1 E2 E3.
  assert (Hu3 : UENUM (hw st3.2) = 0) by (destruct H03 as (_&->&_); done).
  apply bind_inv in E as (b&st4&[= <- <-]&E). apply bind_inv in E as ([]&[ms5 s5]&E5&E).
  change (refuse (ms5, s5) = Some (a, st')) in E.
  apply refuse_run in E as (R1&R2&_&R4).
  assert (H35 : controlled st3 (ms5, s5) \/ answered st3 (ms5, s5)).
  { unfold when in E5. destruct (Endpoint_IsSETUPReceived _); [|left; by injection E5 as <-].
    apply bind_inv in E5 as (req&st4&[= <- <-]&E5). by eapply standard_request_run. }
  destruct H03 as (A1&A2&used&A3&A4). destruct H35 as [(B1&B2&used'&B3&B4)|(B1&used'&B3&B4)].
  - split; [by do 2 (etransitivity; [eassumption|])|]. exists (used ++ used').
    split; [by rewrite A3, B3, R2, <- app_assoc|]. cbn [snd] in B2. by rewrite R4, B2, Hu3.
  - split; [by do 2 (etransitivity; [eassumption|])|]. exists (used ++ used').
    split; [by rewrite A3, B3, R2, <- app_assoc|]. rewrite R4, Exists_app. cbn [snd] in B4.
    destruct (_ =? 0); [done|]. auto.
Qed.

Lemma USB_COM_run ms s a st' :
  USB_COM_vect signature (ms, s) = Some (a, st') -> answered (ms, s) st'.
Proof.
  unfold USB_COM_vect, hw_is, ser_hw. intros E. rewrite run_get, !run_do in E.
  apply bind_inv in E as ([]&[ms1 s1]&E1&E). rewrite !run_do in E. injection E as _ <-.
  apply ProcessControlRequest_run in E1 as (H1&used&H2&H3); [|done].
  split; [exact H1|]. exists used. split; [exact H2|exact H3].
Qed.
End answers.

(** *** Requests that leave the data path alone *)

(** All but those that change the address, the configuration or an endpoint. *)
Definition neutral_request (req : USB_Request_Header_t) : bool :=
  let t := bmRequestType req in
  let r := bRequest req in
  if (r =? REQ_SetAddress) || (r =? REQ_SetConfiguration) then negb (t =? STANDARD_OUT REQREC_DEVICE)
  else if (r =? REQ_ClearFeature) || (r =? REQ_SetFeature) then negb (t =? STANDARD_OUT REQREC_ENDPOINT)
  else true.

(** The request in the bank of the control endpoint. *)
Definition request_of (u : usb_hw) : USB_Request_Header_t := header_of_bytes (bank (ep u 0)).

Lemma read_8_rest u :
  UENUM u = 0 ->
  let u' := (Endpoint_Read_8 u).2 in
  on_control_only u u' /\ dev u' = dev u /\ RXSTPI u' = RXSTPI u /\ sent (ep u' 0) = sent (ep u 0) /\
  bank (ep u' 0) = tail (bank (ep u 0)).
Proof.
  intros E. split; [by apply quiet_read_8|]. unfold Endpoint_Read_8. cbn [snd]. by rewrite on_selected_control.
Qed.

Lemma read_header_spec n s :
  UENUM (hw s) = 0 ->
  exists l u, (forall ms, read_header n (ms, s) = Some (l, (ms, with_hw u s))) /\
    (forall i, (i < n)%nat -> default 0 (l !! i) = default 0 (bank (ep (hw s) 0) !! i)) /\
    on_control_only (hw s) u /\ dev u = dev (hw s) /\ RXSTPI u = RXSTPI (hw s) /\
    sent (ep u 0) = sent (ep (hw s) 0).
Proof.
  revert s. induction n as [|n IH]; intros s Hu; cbn [read_header].
  - exists [], (hw s). split; [by destruct s|]. split; [lia|done].
  - destruct (read_8_rest (hw s) Hu) as (Q1&D1&R1&S1&B1). set (u1 := (Endpoint_Read_8 (hw s)).2) in *.
    assert (E1 : forall ms, ser_read_8 (ms, s) = Some (default 0 (head (bank (ep (hw s) 0))), (ms, with_hw u1 s))).
    { intros ms. unfold ser_read_8, u1, Endpoint_Read_8, selected. by rewrite Hu. }
    destruct (IH (with_hw u1 s)) as (l&u&E2&H&Q2&D2&R2&S2).
    { destruct Q1 as [E _]. cbn [hw with_hw]. congruence. }
    cbn [hw with_hw] in *. eexists _, u. split; [|split; [|split; [by etransitivity|split_and!; congruence]]].
    + intros ms. rewrite (run_bind _ _ _ _ _ (E1 ms)), (run_bind _ _ _ _ _ (E2 ms)). done.
    + intros [|i] Hi; [by destruct (bank (ep (hw s) 0))|].
      change (default 0 (l !! i) = default 0 (bank (ep (hw s) 0) !! S i)).
      rewrite H, B1 by lia. by destruct (bank (ep (hw s) 0)).
Qed.

Lemma header_of_bytes_eq l l' :
  (forall i, (i < 8)%nat -> default 0 (l !! i) = default 0 (l' !! i)) -> header_of_bytes l = header_of_bytes l'.
Proof. intros H. unfold header_of_bytes. by rewrite !H by lia. Qed.

#[export] Instance quiet_select_control : QuietStep (Endpoint_SelectEndpoint ENDPOINT_CONTROLEP).
Proof. intros u E. by split. Qed.

Lemma neutral_device_feature ms s a st' :
  UENUM (hw s) = 0 -> bmRequestType (USB_ControlRequest (dev (hw s))) = STANDARD_OUT REQREC_DEVICE ->
  USB_Device_ClearSetFeature (ms, s) = Some (a, st') -> neutral_step (ms, s) st'.
Proof.
  intros Hu Ht E. unfold USB_Device_ClearSetFeature in E.
  destruct (change_feature_spec ms s) as (b&u&Ec&Hr&Hst&Hq&_&Hd). erewrite run_bind in E by exact Ec.
  destruct Hd as [Hn He]; [by rewrite Ht|].
  assert (H1 : neutral_step (ms, s) (ms, with_hw u s)).
  { split; [done|]. apply host_only_device. split; [done|]. split; [split; [by split|done]|].
    cbn [hw with_hw snd]. congruence. }
  etransitivity; [exact H1|]. refine (neutral (Neutral := neutral_when b _ _) _ _ _ _ E).
  cbn [snd hw with_hw]. congruence.
Qed.

Section neutral.
Context (signature : Z -> Z).

Lemma standard_request_neutral ms s a st' :
  UENUM (hw s) = 0 -> let req := USB_ControlRequest (dev (hw s)) in neutral_request req = true ->
  standard_request signature req (ms, s) = Some (a, st') -> neutral_step (ms, s) st'.
Proof.
  cbv zeta. intros Hu. set (req := USB_ControlRequest (dev (hw s))). unfold neutral_request, standard_request. cbv zeta.
  destruct (Z.eqb_spec (bRequest req) REQ_GetStatus) as [->|_].
  { intros _ E. exact (neutral (ms, s) a st' Hu E). }
  destruct ((bRequest req =? REQ_ClearFeature) || (bRequest req =? REQ_SetFeature)) eqn:Ef.
  { assert ((bRequest req =? REQ_SetAddress) || (bRequest req =? REQ_SetConfiguration) = false) as ->.
    { apply orb_true_iff in Ef as [E|E]; apply Z.eqb_eq in E; by rewrite E. }
    intros Hn. unfold when. destruct (Z.eqb_spec (bmRequestType req) (STANDARD_OUT REQREC_ENDPOINT)); [done|].
    rewrite orb_false_r. destruct (Z.eqb_spec (bmRequestType req) (STANDARD_OUT REQREC_DEVICE)); [|by intros [= _ <-]].
    intros E. by eapply neutral_device_feature. }
  destruct (bRequest req =? REQ_SetAddress); cbn [orb].
  { intros Hn%negb_true_iff. rewrite Hn. by intros [= _ <-]. }
  destruct (bRequest req =? REQ_GetDescriptor).
  { intros _ E. exact (neutral (ms, s) a st' Hu E). }
  destruct (bRequest req =? REQ_GetConfiguration).
  { intros _ E. exact (neutral (ms, s) a st' Hu E). }
  destruct (bRequest req =? REQ_SetConfiguration); [|by intros _ [= _ <-]].
  intros Hn%negb_true_iff. rewrite Hn. by intros [= _ <-].
Qed.

(** From the header on, with the request in the variable. *)
Lemma serve_neutral ms s a st' :
  UENUM (hw s) = 0 -> neutral_request (USB_ControlRequest (dev (hw s))) = true ->
  (EVENT_USB_Device_ControlRequest;;
   received ← hw_is Endpoint_IsSETUPReceived;
   when received (req ← get_request; standard_request signature req);; refuse) (ms, s) = Some (a, st') ->
  neutral_step (ms, s) st'.
Proof.
  intros Hu Hn E. apply bind_inv in E as ([]&[ms1 s1]&E1&E).
  pose proof (neutral (ms, s) _ _ Hu E1) as H1. pose proof H1 as [_ [Hu1 (used1&_&[_ (Hq&_)]&_)]]. cbn [fst snd] in Hu1, Hq.
  assert (Hr1 : USB_ControlRequest (dev (hw s1)) = USB_ControlRequest (dev (hw s))) by (by rewrite Hq, request_host_acts).
  etransitivity; [exact H1|]. unfold hw_is at 1 in E. rewrite run_get in E.
  apply bind_inv in E as ([]&[ms2 s2]&E2&E).
  assert (H2 : neutral_step (ms1, s1) (ms2, s2)).
  { unfold when in E2. destruct (Endpoint_IsSETUPReceived (hw s1)); [|by injection E2 as <- <-].
    unfold get_request in E2. rewrite run_get in E2.
    apply (standard_request_neutral ms1 s1 tt (ms2, s2)); [congruence|by rewrite Hr1|exact E2]. }
  etransitivity; [exact H2|]. destruct H2 as [_ [Hu2 _]]. cbn [snd] in Hu2.
  assert (Neutral refuse) as Hf by (unfold refuse; apply _). apply (Hf (ms2, s2) a st'); [cbn; congruence|exact E].
Qed.

Lemma USB_COM_neutral ms s a st' :
  neutral_request (request_of (hw s)) = true -> USB_COM_vect signature (ms, s) = Some (a, st') ->
  same_rings s st'.2 /\ exists used, ms = used ++ st'.1 /\ off_data (host_acts used (hw s)) (hw st'.2).
Proof.
  intros Hn E. unfold USB_COM_vect, hw_is, ser_hw in E. rewrite run_get, !run_do in E.
  set (s1 := on_hw (USB_INT_Disable USB_INT_RXSTPI) _) in E.
  apply bind_inv in E as ([]&[ms9 s9]&E1&E). rewrite !run_do in E. injection E as _ <-.
  assert (H1 : off_data (hw s) (hw s1)) by done. assert (Hu1 : UENUM (hw s1) = 0) by done.
  assert (Hb1 : request_of (hw s1) = request_of (hw s)) by done.
  unfold USB_Device_ProcessControlRequest in E1.
  destruct (read_header_spec 8 s1 Hu1) as (l&u&E2&Hl&[Hu2 [[H2 _] _]]&_).
  rewrite (run_bind _ _ _ _ _ (E2 ms)) in E1. unfold ser_hw in E1. rewrite run_do in E1.
  set (s3 := on_hw _ (with_hw u s1)) in E1.
  apply serve_neutral in E1 as [K1 [K2 (used&K3&[K4 _]&_)]]; cbn [fst snd] in *.
  - split; [exact K1|]. exists used. split; [exact K3|]. etransitivity; [|exact K4].
    apply host_acts_data. etransitivity; [exact H1|]. exact H2.
  - unfold s3. cbn. congruence.
  - change (neutral_request (header_of_bytes l) = true).
    rewrite (header_of_bytes_eq l (bank (ep (hw s1) 0))) by exact Hl. exact Hn.
Qed.
End neutral.

(** *** The requests of an enumeration *)

(** The eight bytes of a request. *)
Definition packet (req : USB_Request_Header_t) : list Z :=
  [bmRequestType req; bRequest req; wValue req mod 256; wValue req / 256; wIndex req mod 256; wIndex req / 256;
   wLength req mod 256; wLength req / 256].
Definition request_ok (req : USB_Request_Header_t) : Prop :=
  is_byte (bmRequestType req) /\ is_byte (bRequest req) /\ is_u 16 (wValue req) /\ is_u 16 (wIndex req) /\
  is_u 16 (wLength req).

Lemma header_packet req : header_of_bytes (packet req) = req.
Proof.
  destruct req. unfold header_of_bytes, packet. cbn. unfold word. f_equal; by rewrite Z.add_comm, <- Z.div_mod.
Qed.

(** Between two requests. *)
Definition bus_idle (u : usb_hw) : Prop :=
  bus_lost u = None /\ RXOUTI0 (dev u) = false /\ RXSTPI u = false.

(** The host sends a request and the interrupt serves it. *)
Definition transfer (g : Z -> Z) (req : USB_Request_Header_t) : sio unit :=
  ser_hw (host_act (SendSETUP (packet req)));; USB_COM_vect g.

Definition leave (PrevSelectedEndpoint : Z) : sio unit :=
  ser_hw (Endpoint_SelectEndpoint ENDPOINT_CONTROLEP);;
  ser_hw (USB_INT_Enable USB_INT_RXSTPI);;
  ser_hw (Endpoint_SelectEndpoint PrevSelectedEndpoint).

(** What serving leaves alone until the request itself acts. *)
Definition untouched (s s' : serial) : Prop :=
  same_rings s s' /\ LineEncoding1 s' = LineEncoding1 s /\ off_data (hw s) (hw s') /\
  sent (ep (hw s') 0) = sent (ep (hw s) 0) /\ ureg (dev (hw s')) = ureg (dev (hw s)) /\
  USB_Device_ConfigurationNumber (dev (hw s')) = USB_Device_ConfigurationNumber (dev (hw s)).

#[export] Instance untouched_preorder : PreOrder untouched.
Proof.
  split; [by intros s|]. intros s1 s2 s3 (?&?&?&?&?&?) (?&?&?&?&?&?).
  unfold untouched. split; [by etransitivity|]. split; [congruence|]. split; [by etransitivity|].
  split; [congruence|]. split; congruence.
Qed.

Definition not_class (req : USB_Request_Header_t) : Prop :=
  bRequest req <> CDC_REQ_GetLineEncoding /\ bRequest req <> CDC_REQ_SetLineEncoding /\
  bRequest req <> CDC_REQ_SetControlLineState.

Lemma not_class_skips ms s :
  not_class (USB_ControlRequest (dev (hw s))) -> EVENT_USB_Device_ControlRequest (ms, s) = Some (tt, (ms, s)).
Proof.
  intros (H1&H2&H3). unfold EVENT_USB_Device_ControlRequest. rewrite run_get.
  by rewrite !(proj2 (Z.eqb_neq _ _)) by done.
Qed.

(** Up to the standard request. *)
Lemma transfer_start g req s :
  bus_idle (hw s) -> 0 <= wLength req -> not_class req ->
  exists prev s', requested (hw s') /\ USB_ControlRequest (dev (hw s')) = req /\ untouched s s' /\
    forall ms, transfer g req (ms, s) = (standard_request g req;; refuse;; leave prev) (ms, s').
Proof.
  intros (Hb&Ho&Hs) Hl Hn. set (s0 := on_hw (host_act (SendSETUP (packet req))) s).
  set (prev := Endpoint_GetCurrentEndpoint (hw s0)).
  set (s1 := on_hw (USB_INT_Disable USB_INT_RXSTPI) (on_hw (Endpoint_SelectEndpoint ENDPOINT_CONTROLEP) s0)).
  assert (Hu1 : UENUM (hw s1) = 0) by done.
  assert (U1 : untouched s s1).
  { split; [done|]. split; [done|]. split; [|done]. split; [done|].
    intros n Hn'. unfold s1, s0. cbn [hw on_hw with_hw]. apply (ep_host_act (SendSETUP (packet req)) n (hw s) Hn'). }
  destruct (read_header_spec 8 s1 Hu1) as (l&u&E2&Hl2&Q2&D2&R2&S2).
  assert (Eh : header_of_bytes l = req).
  { rewrite (header_of_bytes_eq l (bank (ep (hw s1) 0))) by exact Hl2. apply header_packet. }
  set (s3 := on_hw (with_dev (set_request req)) (with_hw u s1)). destruct Q2 as (N2&[O2 _]&_).
  assert (U3 : untouched s s3).
  { etransitivity; [exact U1|]. split; [done|]. split; [done|]. split; [exact O2|]. split; [exact S2|].
    unfold s3. cbn [hw on_hw with_hw dev with_dev]. by rewrite D2. }
  exists prev, s3. split; [|split; [done|split; [exact U3|]]].
  - split; [exact N2|]. split; [exact R2|]. split; [|split; [|exact Hl]].
    + change (RXOUTI0 (dev u) = false). by rewrite D2.
    + destruct U3 as (_&_&[Hst _]&_). unfold bus_lost in *. by rewrite Hst.
  - intros ms. unfold transfer, USB_COM_vect, hw_is, ser_hw. rewrite run_do, run_get, !run_do.
    fold s0 prev s1.
    assert (Ep : USB_Device_ProcessControlRequest g (ms, s1) = (standard_request g req;; refuse) (ms, s3)).
    { unfold USB_Device_ProcessControlRequest, ser_hw, hw_is.
      rewrite (run_bind _ _ _ _ _ (E2 ms)), run_do, Eh. fold s3.
      rewrite (run_bind _ _ _ _ _ (not_class_skips ms s3 Hn)), run_get.
      assert (Endpoint_IsSETUPReceived (hw s3) = true) as ->; [|done].
      unfold Endpoint_IsSETUPReceived. change (UENUM (hw s3)) with (UENUM u). change (RXSTPI (hw s3)) with (RXSTPI u).
      rewrite N2, R2. done. }
    unfold mbind at 1, M_bind at 1. rewrite Ep. unfold mbind, M_bind.
    by destruct (standard_request g req (ms, s3)) as [[[] st]|].
Qed.

(** The end of a request that left nothing waiting. *)
Lemma finish ms s prev :
  RXSTPI (hw s) = false ->
  exists s', (refuse;; leave prev) (ms, s) = Some (tt, (ms, s')) /\ untouched s s' /\
    RXSTPI (hw s') = false /\ (bus_idle (hw s) -> bus_idle (hw s')) /\ (forall n, ep (hw s') n = ep (hw s) n).
Proof.
  intros H. unfold refuse, leave, hw_is, ser_hw.
  assert (E : (received ← ser_get (fun s => Endpoint_IsSETUPReceived (hw s));
    when received (ser_do (on_hw Endpoint_ClearSETUP);; ser_do (on_hw Endpoint_StallTransaction))) (ms, s) =
    Some (tt, (ms, s))).
  { rewrite run_get. unfold Endpoint_IsSETUPReceived. by rewrite H, andb_false_r. }
  rewrite (run_bind _ _ _ _ _ E), !run_do. eexists. split; [done|]. by split_and!.
Qed.

(** A status stage towards the host with a free bank. *)
Lemma status_in ms s :
  on_bus (hw s) -> TXINI0 (dev (hw s)) = true ->
  to_bool (Z.land (bmRequestType (USB_ControlRequest (dev (hw s)))) REQDIR_DEVICETOHOST) = false ->
  on_io Endpoint_ClearStatusStage (ms, s) = Some (tt, (ms, on_hw Endpoint_ClearIN s)).
Proof.
  intros [Hu _] Ht Hd. unfold on_io, Endpoint_ClearStatusStage. unfold mbind at 1, M_bind at 1. cbn [hw_get gets].
  change ((ms, hw s).2) with (hw s). rewrite Hd. unfold mbind at 1, M_bind at 1.
  assert (Ef : flag_or_gone Endpoint_IsINReady (hw s) = Some true).
  { unfold flag_or_gone, Endpoint_IsINReady. by rewrite Hu, Ht. }
  assert (Ew : wait (flag_or_gone Endpoint_IsINReady) (ms, hw s) = Some (true, (ms, hw s))).
  { unfold wait. destruct ms; cbn [wait_for]; by rewrite Ef. }
  by rewrite Ew.
Qed.

(** The acknowledgement and the status stage of a request without data, with a
    change [f] of the library's variables in between. *)
Lemma no_data_stage f ms s :
  requested (hw s) -> to_bool (Z.land (bmRequestType (USB_ControlRequest (dev (hw s)))) REQDIR_DEVICETOHOST) = false ->
  (forall d, TXINI0 (f d) = TXINI0 d /\ RXOUTI0 (f d) = RXOUTI0 d /\ USB_ControlRequest (f d) = USB_ControlRequest d) ->
  let s2 := on_hw (with_dev f) (on_hw Endpoint_ClearSETUP s) in
  let s3 := on_hw Endpoint_ClearIN s2 in
  on_io Endpoint_ClearStatusStage (ms, s2) = Some (tt, (ms, s3)) /\
  off_data (hw s) (hw s3) /\ UENUM (hw s3) = 0 /\ bus_idle (hw s3) /\
  sent (ep (hw s3) 0) = sent (ep (hw s) 0) ++ [[]] /\
  ureg (dev (hw s3)) = ureg (f (dev (Endpoint_ClearSETUP (hw s)))) /\
  USB_Device_ConfigurationNumber (dev (hw s3)) = USB_Device_ConfigurationNumber (f (dev (Endpoint_ClearSETUP (hw s)))).
Proof.
  intros Hr Hd Hf s2 s3. destruct (acknowledged (hw s) Hr) as ((Hu&Hk&Ho&_)&Hb&Ht&Hs&Hq).
  destruct (Hf (dev (Endpoint_ClearSETUP (hw s)))) as (F1&F2&F3).
  assert (Es : on_io Endpoint_ClearStatusStage (ms, s2) = Some (tt, (ms, s3))).
  { apply status_in; [exact Hb|by rewrite <- F1 in Ht|]. change (USB_ControlRequest (dev (hw s2))) with
      (USB_ControlRequest (f (dev (Endpoint_ClearSETUP (hw s))))). by rewrite F3, Hq. }
  destruct (control_clear_in (hw s2) Hu) as ((Q3&R3&tx&rx&D3)&_&S3&_&O3).
  destruct (quiet_clear_setup (hw s) (proj1 Hr)) as (_&[O2 _]&_).
  change (hw s3) with (Endpoint_ClearIN (hw s2)). destruct Q3 as (N3&[O3' _]&_).
  assert (Hst : USB_DeviceState (Endpoint_ClearIN (hw s2)) = USB_DeviceState (hw s)).
  { destruct O3' as [E _], O2 as [E' _]. rewrite E. exact E'. }
  split; [exact Es|]. split; [etransitivity; [exact O2|exact O3']|]. split; [rewrite N3; exact Hu|].
  split; [split; [|split]|].
  - unfold bus_lost. rewrite Hst. apply Hr.
  - rewrite O3. by rewrite <- F2 in Ho.
  - rewrite R3. change (RXSTPI (Endpoint_ClearSETUP (hw s)) = false). unfold Endpoint_ClearSETUP. by rewrite (proj1 Hr).
  - split; [|by rewrite D3]. rewrite S3. change (ep (hw s2) 0) with (ep (Endpoint_ClearSETUP (hw s)) 0).
    by rewrite Hk, Hs.
Qed.

Definition set_configuration_request (v : Z) : USB_Request_Header_t :=
  {| bmRequestType := STANDARD_OUT REQREC_DEVICE; bRequest := REQ_SetConfiguration; wValue := v; wIndex := 0; wLength := 0 |}.
Definition set_address_request (a : Z) : USB_Request_Header_t :=
  {| bmRequestType := STANDARD_OUT REQREC_DEVICE; bRequest := REQ_SetAddress; wValue := a; wIndex := 0; wLength := 0 |}.
Definition get_descriptor_request (v i n : Z) : USB_Request_Header_t :=
  {| bmRequestType := STANDARD_IN REQREC_DEVICE; bRequest := REQ_GetDescriptor; wValue := v; wIndex := i; wLength := n |}.

(** The state the device is in after a configuration was chosen. *)
Definition configured_state (v : Z) (u : usb_hw) : device_state :=
  if to_bool v then Configured else if USB_Device_IsAddressSet u then Configured else Powered.

Lemma set_configuration_transfer g v ms s :
  bus_idle (hw s) -> 0 <= v <= 1 ->
  exists s', transfer g (set_configuration_request v) (ms, s) = Some (tt, (ms, s')) /\ same_rings s s' /\
    bus_idle (hw s') /\ USB_DeviceState (hw s') = configured_state v (hw s) /\
    USB_Device_ConfigurationNumber (dev (hw s')) = v /\ BaudRateBPS (LineEncoding1 s') = 0 /\
    sent (ep (hw s') 0) = sent (ep (hw s) 0) ++ [[]] /\
    ep (hw s') 1 = reconfigured 0x81 0x12 (ep (hw s) 1) /\
    ep (hw s') 2 = reconfigured 0x80 0x12 (ep (hw s) 2) /\
    ep (hw s') 3 = reconfigured 0xC1 0x02 (ep (hw s) 3) /\
    ureg (dev (hw s')) = ureg (dev (hw s)).
Proof.
  intros Hi Hv. set (req := set_configuration_request v).
  destruct (transfer_start g req s Hi) as (prev&s1&Hr1&Hq1&(K1&_&O1&S1&V1&_)&E1); [done|by split_and!|].
  rewrite E1. clear E1.
  destruct (no_data_stage (set_configuration_number (u8 v)) ms s1 Hr1) as (Es&O3&_&(_&B3&C3)&S3&V3&N3);
    [by rewrite Hq1|done|].
  set (s2 := on_hw (with_dev _) _) in *. set (s3 := on_hw Endpoint_ClearIN s2) in *.
  change (USB_Device_ConfigurationNumber (dev (hw s3)) = u8 v) in N3. rewrite u8_id in N3 by lia.
  assert (V03 : ureg (dev (hw s3)) = ureg (dev (hw s))).
  { rewrite V3, <- V1. by destruct (quiet_clear_setup (hw s1) (proj1 Hr1)) as (_&[_ (_&V&_)]&_). }
  assert (O03 : off_data (hw s) (hw s3)) by (etransitivity; [exact O1|exact O3]).
  set (s4 := on_hw (with_state (configured_state v (hw s))) s3).
  destruct (ConfigurationChanged_spec s4) as (s5&E5&K5&(_&St&_&H5d&V5&N5)&H5r&_&P0&P1&P2&P3&B5).
  assert (E2 : standard_request g req (ms, s1) = Some (tt, (ms, s5))).
  { change (standard_request g req (ms, s1)) with (USB_Device_SetConfiguration (ms, s1)).
    unfold USB_Device_SetConfiguration, get_request, ser_hw, hw_is. rewrite run_get, Hq1.
    change (wValue req) with v. assert ((FIXED_NUM_CONFIGURATIONS <? u8 v) = false) as ->.
    { apply Z.ltb_ge. rewrite u8_id by lia. exact (proj2 Hv). }
    rewrite !run_do. fold s2. rewrite (run_bind _ _ _ _ _ Es), !run_get, N3, run_do.
    assert (USB_Device_IsAddressSet (hw s3) = USB_Device_IsAddressSet (hw s)) as ->
      by (unfold USB_Device_IsAddressSet, reg; by rewrite V03).
    fold (configured_state v (hw s)) s4. unfold call_configuration_changed. by rewrite E5. }
  rewrite (run_bind _ _ _ _ _ E2).
  destruct (finish ms s5 prev) as (s6&E6&(K6&L6&[T6 _]&_&V6&N6)&R6&I6&P6); [by rewrite H5r|].
  exists s6. split; [exact E6|]. split; [do 2 (etransitivity; [eassumption|]); exact K6|].
  split; [|split; [by rewrite T6, St|split; [by rewrite N6, N5|split; [by rewrite L6|]]]].
  - apply I6. split; [|split; [|by rewrite H5r]].
    + unfold bus_lost. rewrite St. cbn [s4 hw on_hw with_hw with_state USB_DeviceState]. unfold configured_state.
      destruct (to_bool v); [done|]. by destruct (USB_Device_IsAddressSet _).
    + apply not_true_is_false. intros H. apply H5d in H. change (RXOUTI0 (dev (hw s3)) = true) in H. congruence.
  - rewrite !P6, P0, P1, P2, P3, V6, V5. destruct O03 as [_ O03]. split; [by rewrite <- S1, <- S3|].
    do 3 (split; [f_equal; by apply O03|]). exact V03.
Qed.

(** *** The address *)

Lemma address_bits x a :
  0 <= a < 128 ->
  let r := set_bits (Z.lor (Z.land x (2 ^ ADDEN)) (Z.land a 0x7F)) (2 ^ ADDEN) in
  Z.land r 0x7F = a /\ to_bool (Z.land r (2 ^ ADDEN)) = true.
Proof.
  intros Ha. cbv zeta. unfold set_bits, ADDEN. change (2 ^ 7) with 128.
  assert (Ea : Z.land a 127 = a).
  { etransitivity; [apply (land_ones_mod a 7); lia|]. apply Z.mod_small. lia. }
  rewrite !Z.land_lor_distr_l, <- !Z.land_assoc. change (Z.land 128 127) with 0.
  change (Z.land 127 127) with 127. change (Z.land 127 128) with 0. change (Z.land 128 128) with 128.
  rewrite !Z.land_0_r, !Z.lor_0_r, Z.lor_0_l. split; [exact Ea|].
  unfold to_bool. apply negb_true_iff, Z.eqb_neq. intros H.
  assert (Z.testbit (Z.lor (Z.land x 128) 128) 7 = false) as Hb by by rewrite H.
  rewrite Z.lor_spec in Hb. by rewrite orb_true_r in Hb.
Qed.

Lemma set_address_transfer g a ms s :
  bus_idle (hw s) -> 1 <= a < 128 ->
  exists s', transfer g (set_address_request a) (CollectIN 0 :: ms, s) = Some (tt, (ms, s')) /\ same_rings s s' /\
    bus_idle (hw s') /\ USB_DeviceState (hw s') = Addressed /\
    Z.land (reg UDADDR (hw s')) 0x7F = a /\ USB_Device_IsAddressSet (hw s') = true /\
    sent (ep (hw s') 0) = sent (ep (hw s) 0) ++ [[]] /\ (forall n, n <> 0 -> ep (hw s') n = ep (hw s) n).
Proof.
  intros Hi Ha. set (req := set_address_request a).
  destruct (transfer_start g req s Hi) as (prev&s1&Hr1&Hq1&(K1&_&[_ O1]&S1&V1&_)&E1); [done|by split_and!|].
  rewrite E1. clear E1.
  assert (El : Z.land a 0x7F = a).
  { etransitivity; [apply (land_ones_mod a 7); lia|]. apply Z.mod_small. lia. }
  set (f := dev_reg UDADDR (Z.lor (Z.land (reg UDADDR (hw s1)) (2 ^ ADDEN)) (Z.land a 0x7F))).
  destruct (no_data_stage f (CollectIN 0 :: ms) s1 Hr1) as (Es&[_ O3]&N3&(B3&C3&R3)&S3&V3&_);
    [by rewrite Hq1|done|].
  set (s2 := on_hw (with_dev f) _) in *. set (s3 := on_hw Endpoint_ClearIN s2) in *.
  assert (Ec : on_hw Endpoint_ClearSETUP (on_hw (USB_Device_SetDeviceAddress a) s1) = s2).
  { unfold s2, on_hw, with_hw. cbn [hw usb_receive_buffer usb_send_buffer clear_buffer reading sending LineEncoding1].
    f_equal. unfold Endpoint_ClearSETUP. change (UENUM (USB_Device_SetDeviceAddress a (hw s1))) with (UENUM (hw s1)).
    rewrite (proj1 Hr1). cbn [Z.eqb]. unfold on_selected, selected.
    change (UENUM (USB_Device_SetDeviceAddress a (hw s1))) with (UENUM (hw s1)). by rewrite (proj1 Hr1). }
  set (s4 := on_hw (host_act (CollectIN 0)) s3).
  set (s5 := on_hw (with_state Addressed) (on_hw (USB_Device_EnableDeviceAddress a) s4)).
  assert (E2 : standard_request g req (CollectIN 0 :: ms, s1) = Some (tt, (ms, s5))).
  { change (standard_request g req) with USB_Device_SetAddress.
    unfold USB_Device_SetAddress, get_request, ser_hw. rewrite run_get, Hq1.
    change (wValue req) with a. rewrite El, !run_do, Ec, (run_bind _ _ _ _ _ Es).
    assert (Ew : on_io (wait (fun u => if Endpoint_IsINReady u then Some tt else None)) (CollectIN 0 :: ms, s3) =
      Some (tt, (ms, s4))).
    { unfold on_io, wait. cbn [wait_for]. unfold Endpoint_IsINReady. rewrite N3. cbn [Z.eqb].
      destruct (acknowledged (hw s1) Hr1) as ((Hu2&_)&_).
      destruct (control_clear_in (hw s2) Hu2) as (_&_&_&T3&_).
      change (TXINI0 (dev (hw s3)) = false) in T3. rewrite T3.
      destruct ms; cbn [wait_for]; rewrite selected_host_act, N3; done. }
    rewrite (run_bind _ _ _ _ _ Ew), !run_do.
    assert (to_bool a = true) as -> by (apply to_bool_nonzero; lia). done. }
  rewrite (run_bind _ _ _ _ _ E2).
  destruct (finish ms s5 prev) as (s6&E6&(K6&_&[T6 _]&_&V6&_)&R6&I6&P6); [exact R3|].
  assert (V5 : reg UDADDR (hw s5) = set_bits (Z.lor (Z.land (reg UDADDR (hw s1)) (2 ^ ADDEN)) (Z.land a 0x7F)) (2 ^ ADDEN)).
  { change (reg UDADDR (hw s5)) with (set_bits (reg UDADDR (hw s3)) (2 ^ ADDEN)). unfold reg. rewrite V3. done. }
  destruct (address_bits (reg UDADDR (hw s1)) a) as [A1 A2]; [lia|].
  exists s6. split; [exact E6|]. split; [etransitivity; [exact K1|exact K6]|].
  split; [by apply I6|]. split; [by rewrite T6|]. unfold USB_Device_IsAddressSet, reg in *. rewrite V6, V5.
  split; [exact A1|]. split; [exact A2|]. split; [rewrite P6, <- S1; exact S3|].
  intros n Hn. rewrite P6. change (ep (hw s5) n) with (ep (hw s3) n). by rewrite O3, O1.
Qed.

(** *** The descriptors *)

(** A host that collects [k] packets and acknowledges. *)
Definition polite (k : nat) : list host_move := replicate k (CollectIN 0) ++ [SendOUT 0 []].

Lemma collects_replicate k : collects (replicate k (CollectIN 0)) = k.
Proof. induction k as [|k IH]; [done|]. cbn. by f_equal. Qed.

Lemma polite_handshakes k : Forall handshake (polite k).
Proof. apply Forall_app. split; [by apply Forall_replicate|by repeat constructor]. Qed.

Lemma no_setups ms : Forall handshake ms -> ~ Exists is_setup ms.
Proof.
  intros H He. apply Exists_exists in He as (m&Hin&Hm). rewrite Forall_forall in H. specialize (H _ Hin).
  by destruct m.
Qed.

Definition memory_of (v i : Z) (data : list Z) : Prop :=
  exists memory size, CALLBACK_USB_GetDescriptor v i = (Some memory, size) /\ 0 < size <= Z.of_nat (length memory) /\
    data = take (Z.to_nat size) memory.

Lemma get_descriptor_transfer g v i n k data s :
  bus_idle (hw s) -> 0 < n -> v <> Z.lor (Z.shiftl DTYPE_String 8) USE_INTERNAL_SERIAL ->
  memory_of v i data -> Forall is_byte data ->
  (length (packets (take (Z.to_nat n) data)) <= k)%nat ->
  exists ms' s', transfer g (get_descriptor_request v i n) (polite k, s) = Some (tt, (ms', s')) /\
    same_rings s s' /\ bus_idle (hw s') /\ off_data (hw s) (hw s') /\
    ureg (dev (hw s')) = ureg (dev (hw s)) /\
    sent (ep (hw s') 0) = sent (ep (hw s) 0) ++ packets (take (Z.to_nat n) data).
Proof.
  intros Hi Hn Hv (memory&size&Ec&Hsz&->) Hd Hk. set (req := get_descriptor_request v i n).
  set (data := take (Z.to_nat size) memory) in *.
  destruct (transfer_start g req s Hi) as (prev&s1&Hr1&Hq1&(K1&_&O1&S1&V1&_)&E1); [cbn; lia|by split_and!|].
  rewrite E1. clear E1. destruct (acknowledged (hw s1) Hr1) as (Ha&Hb&Ht&Hs&Hq).
  set (u2 := Endpoint_ClearSETUP (hw s1)) in *. pose proof Ha as (Hu2&_).
  assert (En : Z.to_nat (wLength (USB_ControlRequest (dev u2))) = Z.to_nat n) by (by rewrite Hq, Hq1).
  assert (Hne : take (Z.to_nat n) data <> []).
  { intros H. apply (f_equal length) in H. unfold data in H. rewrite !length_take in H. cbn in H. lia. }
  destruct (Control_W_completes data (replicate k (CollectIN 0)) [] u2 Ha Hb Hd) as (ms'&u3&E3&_&S3&B3);
    [by rewrite En|by apply Forall_replicate|by rewrite En, collects_replicate|]. rewrite En in S3.
  destruct (quiet_control_write data (polite k, u2) _ _ Hu2 E3) as (N3&used&Fu&O3&R3). cbn [fst snd] in *.
  assert (Hused : Forall handshake used).
  { pose proof (polite_handshakes k) as H. rewrite Fu in H. by apply Forall_app in H as [H _]. }
  rewrite <- (handshakes used u2 Hused) in O3.
  destruct (quiet_clear_setup (hw s1) (proj1 Hr1)) as (_&[O2 (_&V2&_)]&_). fold u2 in O2, V2.
  destruct O3 as [O3 (_&V3&_)].
  set (s4 := with_hw (Endpoint_ClearOUT u3) (on_hw Endpoint_ClearSETUP s1)).
  assert (E2 : standard_request g req (polite k, s1) = Some (tt, (ms', s4))).
  { change (standard_request g req) with (USB_Device_GetDescriptor g).
    unfold USB_Device_GetDescriptor, get_request, ser_hw. rewrite run_get, Hq1. change (wValue req) with v.
    rewrite (proj2 (Z.eqb_neq _ _)) by done. change (wIndex req) with i. rewrite Ec.
    rewrite (proj2 (Z.eqb_neq _ _)) by (unfold NO_DESCRIPTOR; lia). rewrite decide_False by lia.
    rewrite run_do. erewrite run_bind; [|apply on_io_run, E3]. done. }
  rewrite (run_bind _ _ _ _ _ E2). destruct B3 as [Hu3 B3].
  destruct (quiet_clear_out u3 Hu3) as (_&[O4 (_&V4&_)]&R4).
  assert (Hr4 : RXSTPI (hw s4) = false).
  { apply not_true_is_false. intros H. apply R4, R3 in H as [H|H]; [|by apply (no_setups used)].
    unfold u2, Endpoint_ClearSETUP in H. by rewrite (proj1 Hr1) in H. }
  destruct (finish ms' s4 prev Hr4) as (s6&E6&(K6&_&O6&_&V6&_)&R6&I6&P6).
  assert (O : off_data (hw s) (hw s6)).
  { etransitivity; [exact O1|]. etransitivity; [exact O2|]. etransitivity; [exact O3|].
    etransitivity; [exact O4|exact O6]. }
  exists ms', s6. split; [exact E6|]. split; [etransitivity; [exact K1|exact K6]|].
  split; [|split; [exact O|split]].
  - apply I6. split; [|split; [|exact Hr4]].
    + assert (Eb : bus_lost (Endpoint_ClearOUT u3) = bus_lost u3) by (unfold bus_lost; by destruct O4 as [-> _]).
      change (bus_lost (hw s4)) with (bus_lost (Endpoint_ClearOUT u3)). rewrite Eb. unfold aborted in B3. by destruct (bus_lost u3).
    + cbn [s4 hw with_hw]. unfold Endpoint_ClearOUT. by rewrite Hu3.
  - rewrite V6. cbn [s4 hw with_hw]. congruence.
  - rewrite P6. cbn [s4 hw with_hw]. rewrite sent_clear_out by done. by rewrite S3, Hs, S1.
Qed.

(** *** The start *)

Lemma testbit_set x n : 0 <= n -> to_bool (Z.land (set_bits x (2 ^ n)) (2 ^ n)) = true.
Proof.
  intros Hn. rewrite (to_bool_mask _ _ n eq_refl Hn), testbit_set_bits, Z.pow2_bits_true by done. apply orb_true_r.
Qed.

(** Setting other bits keeps a bit that is set. *)
Lemma testbit_keep x m n : 0 <= n -> to_bool (Z.land x (2 ^ n)) = true -> to_bool (Z.land (set_bits x m) (2 ^ n)) = true.
Proof.
  intros Hn. rewrite !(to_bool_mask _ _ n eq_refl Hn), testbit_set_bits. by intros ->.
Qed.

Lemma testbit_clear x n : 0 <= n -> to_bool (Z.land (clear_bits x (2 ^ n)) (2 ^ n)) = false.
Proof.
  intros Hn. rewrite (to_bool_mask _ _ n eq_refl Hn), testbit_clear_bits, Z.pow2_bits_true by done. apply andb_false_r.
Qed.

Lemma configure_control_run ms u :
  exists u', configure_control (ms, u) = Some (tt, (ms, u')) /\ same_history u u' /\ RXSTPI u' = false /\
    ep u' 0 = reconfigured 0 2 (ep u 0) /\ UENUM u' = 0.
Proof.
  destruct (Endpoint_ConfigureEndpoint_Prv_spec 0 0 2 u) as (u'&E&H1&_&H3&H4&H5); [lia|done|].
  exists u'. split; [|done]. unfold configure_control.
  assert (F : Endpoint_ConfigureEndpoint ENDPOINT_CONTROLEP EP_TYPE_CONTROL USB_Device_ControlEndpointSize 1 u =
    Some (true, u')) by (rewrite <- E; by apply (Endpoint_ConfigureEndpoint_run _ _ _ _ _ _ _ _ 0)).
  by rewrite F.
Qed.

Lemma run_hw {B} (f : usb_hw -> usb_hw) (k : unit -> io B) ms u : (hw_do f ≫= k) (ms, u) = k tt (ms, f u).
Proof. done. Qed.
Lemma run_io_bind {A B} (m : io A) (k : A -> io B) st a st' : m st = Some (a, st') -> (m ≫= k) st = k a st'.
Proof. intros E. unfold mbind, M_bind. by rewrite E. Qed.

Lemma USB_Init_Device_run ms u :
  exists u', USB_Init_Device (ms, u) = Some (tt, (ms, u')) /\ USB_DeviceState u' = Unattached /\
    RXSTPI u' = false /\ USB_Device_ConfigurationNumber (dev u') = 0 /\
    (RXOUTI0 (dev u) = false -> RXOUTI0 (dev u') = false) /\
    (forall n, sent (ep u' n) = sent (ep u n)) /\ ep u' 0 = reconfigured 0 2 (ep u 0) /\
    reg UDCON u' = clear_bits (clear_bits (reg UDCON u) (2 ^ LSM)) (2 ^ DETACH) /\
    reg UDIEN u' = set_bits (set_bits (reg UDIEN u) (2 ^ SUSPE)) (2 ^ EORSTE) /\
    reg USBCON u' = set_bits (reg USBCON u) (2 ^ VBUSTE).
Proof.
  unfold USB_Init_Device, hw_vars. rewrite !run_hw.
  assert (option_set USB_DEVICE_OPT_LOWSPEED = false) as -> by done. rewrite !run_hw.
  set (u1 := USB_INT_Enable USB_INT_VBUSTI _).
  destruct (configure_control_run ms u1) as (u2&E2&(S1&S2&_&S4&S5&S6)&R2&P2&_).
  rewrite (run_io_bind _ _ _ _ _ E2), !run_hw. eexists. split; [done|].
  split; [exact S2|]. split; [exact R2|]. split; [exact S6|].
  split; [intros H; apply not_true_is_false; intros H'; apply S4 in H'; change (RXOUTI0 (dev u) = true) in H'; congruence|].
  split; [exact S1|]. split; [exact P2|].
  unfold reg. cbn -[set_bits clear_bits Z.pow]. by rewrite S5.
Qed.

Lemma USB_Init_run ms u :
  exists u', USB_Init (ms, u) = Some (tt, (ms, u')) /\ USB_DeviceState u' = Unattached /\
    RXSTPI u' = false /\ RXOUTI0 (dev u') = false /\ USB_Device_ConfigurationNumber (dev u') = 0 /\
    (forall n, sent (ep u' n) = sent (ep u n)) /\
    ep u' 0 = reconfigured 0 2 (ep u 0) /\
    to_bool (Z.land (reg UDCON u') (2 ^ DETACH)) = false /\
    USB_INT_IsEnabled USB_INT_VBUSTI u' = true /\ USB_INT_IsEnabled USB_INT_SUSPI u' = true /\
    USB_INT_IsEnabled USB_INT_EORSTI u' = true /\ USB_INT_IsEnabled USB_INT_WAKEUPI u' = false.
Proof.
  unfold USB_Init, hw_vars, when.
  assert (option_set USB_OPT_REG_DISABLED = false) as -> by done.
  assert (option_set USB_OPT_MANUAL_PLL = false) as Ep by done. rewrite Ep. cbn [negb]. rewrite !run_hw.
  unfold USB_ResetInterface, when. rewrite Ep. cbn [negb]. rewrite !run_hw. set (u1 := USB_PLL_Off _).
  destruct (USB_Init_Device_run ms u1) as (u2&E2&H1&H2&H3&H4&H5&H6&H7&H8&H9).
  rewrite (run_io_bind _ _ _ _ _ E2). exists (USB_OTGPAD_On u2). split; [done|].
  split; [exact H1|]. split; [exact H2|]. split; [by apply H4|]. split; [exact H3|]. split; [exact H5|].
  split; [exact H6|]. unfold USB_INT_IsEnabled.
  change (reg UDCON (USB_OTGPAD_On u2)) with (reg UDCON u2). change (reg UDIEN (USB_OTGPAD_On u2)) with (reg UDIEN u2).
  change (reg USBCON (USB_OTGPAD_On u2)) with (set_bits (reg USBCON u2) (2 ^ OTGPADE)). rewrite H7, H8, H9.
  split; [by apply testbit_clear|]. split; [apply testbit_keep, testbit_set; done|].
  split; [apply testbit_keep, testbit_set; done|]. split; [by apply testbit_set|]. reflexivity.
Qed.

(** *** The bus events *)

(** Of the flags of the general interrupt only [i]'s is up, and it is enabled. *)
Definition only_flag (i : USB_Interrupts_t) (u : usb_hw) : Prop :=
  USB_INT_IsEnabled i u = true /\ forall j, j <> USB_INT_RXSTPI -> USB_INT_HasOccurred j u = true <-> j = i.

Lemma only_flag_up i u : i <> USB_INT_RXSTPI -> only_flag i u -> USB_INT_HasOccurred i u && USB_INT_IsEnabled i u = true.
Proof. intros Hi [-> H]. by rewrite (proj2 (H i Hi)). Qed.
Lemma only_flag_down i j u : i <> j -> j <> USB_INT_RXSTPI -> only_flag i u -> USB_INT_HasOccurred j u = false.
Proof.
  intros Hij Hj [_ H]. apply not_true_is_false. intros E. apply (H j Hj) in E. congruence.
Qed.

Lemma interrupt_down i body ms s :
  USB_INT_HasOccurred i (hw s) = false -> on_interrupt i body (ms, s) = Some (tt, (ms, s)).
Proof. intros E. unfold on_interrupt, raised, hw_is. rewrite run_get, E. done. Qed.
Lemma interrupt_up i body ms s :
  USB_INT_HasOccurred i (hw s) && USB_INT_IsEnabled i (hw s) = true -> on_interrupt i body (ms, s) = body (ms, s).
Proof. intros E. unfold on_interrupt, raised, hw_is. by rewrite run_get, E. Qed.

(** The handler of one event, the other flags staying down. *)
Definition handler (i : USB_Interrupts_t) : sio unit :=
  match i with
  | USB_INT_SOFI => on_start_of_frame
  | USB_INT_VBUSTI => on_vbus
  | USB_INT_SUSPI => on_suspend
  | USB_INT_WAKEUPI => on_wakeup
  | USB_INT_EORSTI => on_reset
  | USB_INT_RXSTPI => USB_Event_Stub
  end.

Strategy expand [handler].

Definition flags_down (i : USB_Interrupts_t) (u u' : usb_hw) : Prop :=
  forall j, j <> i -> j <> USB_INT_RXSTPI -> USB_INT_HasOccurred j u' = USB_INT_HasOccurred j u.

(** One interrupt of the general handler that does nothing. *)
Ltac pass D j b m := rewrite (run_bind _ _ _ _ _ (D j b m ltac:(discriminate) ltac:(discriminate))).

Lemma GEN_handler i ms s ms' s' :
  i <> USB_INT_RXSTPI -> only_flag i (hw s) -> handler i (ms, s) = Some (tt, (ms', s')) ->
  flags_down i (hw s) (hw s') -> USB_GEN_vect (ms, s) = Some (tt, (ms', s')).
Proof.
  intros Hi Hf E Hd. pose proof (only_flag_up i (hw s) Hi Hf) as Hup.
  assert (D1 : forall j body ms0, j <> i -> j <> USB_INT_RXSTPI -> on_interrupt j body (ms0, s) = Some (tt, (ms0, s))).
  { intros j body ms0 H1 H2. apply interrupt_down. by apply (only_flag_down i j). }
  assert (D2 : forall j body ms0, j <> i -> j <> USB_INT_RXSTPI -> on_interrupt j body (ms0, s') = Some (tt, (ms0, s'))).
  { intros j body ms0 H1 H2. apply interrupt_down. rewrite Hd by done. by apply (only_flag_down i j). }
  assert (U : on_interrupt i (handler i) (ms, s) = Some (tt, (ms', s'))) by (by rewrite interrupt_up).
  unfold USB_GEN_vect. destruct i; [| | | | |done]; cbn [handler] in U.
  - pass D1 USB_INT_SOFI on_start_of_frame ms. rewrite (run_bind _ _ _ _ _ U).
    pass D2 USB_INT_SUSPI on_suspend ms'. pass D2 USB_INT_WAKEUPI on_wakeup ms'. by apply D2.
  - pass D1 USB_INT_SOFI on_start_of_frame ms. pass D1 USB_INT_VBUSTI on_vbus ms.
    pass D1 USB_INT_SUSPI on_suspend ms. rewrite (run_bind _ _ _ _ _ U). by apply D2.
  - pass D1 USB_INT_SOFI on_start_of_frame ms. pass D1 USB_INT_VBUSTI on_vbus ms.
    rewrite (run_bind _ _ _ _ _ U). pass D2 USB_INT_WAKEUPI on_wakeup ms'. by apply D2.
  - pass D1 USB_INT_SOFI on_start_of_frame ms. pass D1 USB_INT_VBUSTI on_vbus ms.
    pass D1 USB_INT_SUSPI on_suspend ms. pass D1 USB_INT_WAKEUPI on_wakeup ms. exact U.
  - rewrite (run_bind _ _ _ _ _ U). pass D2 USB_INT_VBUSTI on_vbus ms'.
    pass D2 USB_INT_SUSPI on_suspend ms'. pass D2 USB_INT_WAKEUPI on_wakeup ms'. by apply D2.
Qed.

Lemma testbit_clear_other x n m :
  0 <= n -> 0 <= m -> m <> n ->
  to_bool (Z.land (clear_bits x (2 ^ n)) (2 ^ m)) = to_bool (Z.land x (2 ^ m)).
Proof.
  intros Hn Hm Hne. rewrite !(to_bool_mask _ _ m eq_refl Hm), testbit_clear_bits by done.
  by rewrite Z.pow2_bits_false, andb_true_r by done.
Qed.

(** A handler that changes the interrupt flags only by clearing its own. *)
Lemma flags_down_clear i u u' :
  i <> USB_INT_RXSTPI ->
  reg USBINT u' = reg USBINT (USB_INT_Clear i u) -> reg UDINT u' = reg UDINT (USB_INT_Clear i u) ->
  flags_down i u u' /\ USB_INT_HasOccurred i u' = false.
Proof.
  intros Hi H1 H2. split.
  - intros j Hj Hj'. unfold USB_INT_HasOccurred. rewrite H1, H2.
    destruct i, j; try done; cbn [USB_INT_Clear];
      first [reflexivity|apply testbit_clear_other; done].
  - unfold USB_INT_HasOccurred. rewrite H1, H2. destruct i; try done; apply testbit_clear; done.
Qed.

Lemma pll_wait_run ms s :
  exists s', pll_on_and_wait (PllLocked :: ms, s) = Some (tt, (ms, s')) /\
    hw s' = host_act PllLocked (USB_PLL_On (hw s)) /\ same_rings s s'.
Proof.
  unfold pll_on_and_wait, when. assert (option_set USB_OPT_MANUAL_PLL = false) as -> by done. cbn [negb].
  unfold ser_hw. rewrite run_do. set (s1 := on_hw USB_PLL_On s).
  exists (with_hw (host_act PllLocked (hw s1)) s1). split; [|done].
  unfold on_io, wait. cbn [wait_for].
  assert (USB_PLL_IsReady (hw s1) = false) as -> by done.
  assert (Er : USB_PLL_IsReady (host_act PllLocked (hw s1)) = true) by done.
  destruct ms; cbn [wait_for]; by rewrite Er.
Qed.

Lemma pll_off_run ms s : pll_off (ms, s) = Some (tt, (ms, on_hw USB_PLL_Off s)).
Proof. reflexivity. Qed.

(** The state after an event. *)
Definition event_state (i : USB_Interrupts_t) (u : usb_hw) : device_state :=
  match i with
  | USB_INT_VBUSTI => if USB_VBUS_GetStatus u then Powered else Unattached
  | USB_INT_SUSPI => Suspended
  | USB_INT_WAKEUPI =>
      if to_bool (USB_Device_ConfigurationNumber (dev u)) then Configured
      else if USB_Device_IsAddressSet u then Addressed else Powered
  | USB_INT_EORSTI => Default_
  | _ => USB_DeviceState u
  end.

(** Which interrupts are enabled afterwards ([u0] is the state before), and what a
    reset does besides. *)
Definition event_enables (i : USB_Interrupts_t) (u0 u : usb_hw) : Prop :=
  match i with
  | USB_INT_SUSPI => USB_INT_IsEnabled USB_INT_SUSPI u = false /\ USB_INT_IsEnabled USB_INT_WAKEUPI u = true
  | USB_INT_WAKEUPI => USB_INT_IsEnabled USB_INT_SUSPI u = true /\ USB_INT_IsEnabled USB_INT_WAKEUPI u = false
  | USB_INT_EORSTI => USB_INT_IsEnabled USB_INT_SUSPI u = false /\ USB_INT_IsEnabled USB_INT_WAKEUPI u = true /\
      UENUM u = 0 /\ USB_INT_IsEnabled USB_INT_RXSTPI u = true /\ RXSTPI u = false /\
      USB_Device_ConfigurationNumber (dev u) = 0 /\ UECFG0X (ep u 0) = 0 /\ UECFG1X (ep u 0) = 2
  | _ => reg UDIEN u = reg UDIEN u0
  end.

(** No byte reached the host or the program because of it. *)
Definition nothing_moved (u u' : usb_hw) : Prop :=
  (forall n, sent (ep u' n) = sent (ep u n)) /\ (RXOUTI0 (dev u') = true -> RXOUTI0 (dev u) = true).

Definition event_done (i : USB_Interrupts_t) (ms : list host_move) (s : serial) : Prop := exists ms' s',
  handler i (PllLocked :: ms, s) = Some (tt, (ms', s')) /\ same_rings s s' /\
  (RXSTPI (hw s) = false -> RXSTPI (hw s') = false) /\
  USB_DeviceState (hw s') = event_state i (hw s) /\ event_enables i (hw s) (hw s') /\
  nothing_moved (hw s) (hw s') /\
  flags_down i (hw s) (hw s') /\ (i <> USB_INT_SUSPI -> USB_INT_HasOccurred i (hw s') = false).

Lemma on_start_of_frame_done ms s : event_done USB_INT_SOFI ms s.
Proof.
  eexists _, _. split; [reflexivity|]. do 5 (split; [done|]).
  destruct (flags_down_clear USB_INT_SOFI (hw s) (USB_INT_Clear USB_INT_SOFI (hw s))) as [H1 H2]; done.
Qed.

Lemma on_vbus_done ms s : event_done USB_INT_VBUSTI ms s.
Proof.
  unfold event_done. cbn [handler]. unfold on_vbus, ser_hw, hw_is. rewrite run_do, run_get.
  set (s1 := on_hw _ s). change (USB_VBUS_GetStatus (hw s1)) with (USB_VBUS_GetStatus (hw s)).
  unfold event_state. destruct (USB_VBUS_GetStatus (hw s)).
  - destruct (pll_wait_run ms s1) as (s2&E2&H2&K2). rewrite (run_bind _ _ _ _ _ E2), run_do.
    exists ms, (on_hw (with_state Powered) s2). split; [reflexivity|]. split; [exact K2|].
    cbn [on_hw hw with_hw]. rewrite H2. do 4 (split; [done|]).
    destruct (flags_down_clear USB_INT_VBUSTI (hw s) (with_state Powered (host_act PllLocked (USB_PLL_On (hw s1)))))
      as [F1 F2]; done.
  - rewrite (run_bind _ _ _ _ _ (pll_off_run _ _)), run_do.
    exists (PllLocked :: ms), (on_hw (with_state Unattached) (on_hw USB_PLL_Off s1)).
    split; [reflexivity|]. do 5 (split; [done|]).
    destruct (flags_down_clear USB_INT_VBUSTI (hw s) (with_state Unattached (USB_PLL_Off (hw s1)))) as [F1 F2]; done.
Qed.

Lemma on_suspend_done ms s : event_done USB_INT_SUSPI ms s.
Proof.
  unfold event_done. cbn [handler]. unfold on_suspend, ser_hw. rewrite !run_do.
  rewrite (run_bind _ _ _ _ _ (pll_off_run _ _)), run_do.
  eexists _, _. split; [reflexivity|]. do 3 (split; [done|]).
  split; [|split; [done|by split]].
  cbn [event_enables USB_INT_IsEnabled].
  change (reg UDIEN (hw _)) with (set_bits (clear_bits (reg UDIEN (hw s)) (2 ^ SUSPE)) (2 ^ WAKEUPE)).
  split; [|by apply testbit_set].
  rewrite (to_bool_mask _ _ SUSPE eq_refl) by done.
  by rewrite testbit_set_bits, testbit_clear_bits, Z.pow2_bits_true, andb_false_r.
Qed.

Lemma on_wakeup_done ms s : event_done USB_INT_WAKEUPI ms s.
Proof.
  unfold event_done. cbn [handler]. unfold on_wakeup, ser_hw, hw_is.
  destruct (pll_wait_run ms s) as (s1&E1&H1&K1). rewrite (run_bind _ _ _ _ _ E1), !run_do, !run_get, run_do.
  set (s2 := on_hw (USB_INT_Enable USB_INT_SUSPI) _).
  assert (Hn : USB_Device_ConfigurationNumber (dev (hw s2)) = USB_Device_ConfigurationNumber (dev (hw s))).
  { change (USB_Device_ConfigurationNumber (dev (hw s1)) = USB_Device_ConfigurationNumber (dev (hw s))). by rewrite H1. }
  assert (Ha : USB_Device_IsAddressSet (hw s2) = USB_Device_IsAddressSet (hw s)).
  { change (USB_Device_IsAddressSet (hw s1) = USB_Device_IsAddressSet (hw s)). by rewrite H1. }
  rewrite Hn, Ha. fold (event_state USB_INT_WAKEUPI (hw s)).
  exists ms, (on_hw (with_state (event_state USB_INT_WAKEUPI (hw s))) s2).
  split; [reflexivity|]. split; [exact K1|].
  split; [intros H; change (RXSTPI (hw s1) = false); by rewrite H1|]. split; [done|].
  cbn [on_hw hw with_hw event_enables USB_INT_IsEnabled].
  split; [change (reg UDIEN (with_state _ _)) with (set_bits (clear_bits (reg UDIEN (hw s1)) (2 ^ WAKEUPE)) (2 ^ SUSPE))|].
  - split; [by apply testbit_set|]. rewrite (to_bool_mask _ _ WAKEUPE eq_refl) by done.
    by rewrite testbit_set_bits, testbit_clear_bits, Z.pow2_bits_true, andb_false_r.
  - split; [unfold nothing_moved; change (hw s2) with (hw (on_hw (USB_INT_Enable USB_INT_SUSPI) (on_hw (USB_INT_Disable USB_INT_WAKEUPI)
      (on_hw (USB_INT_Clear USB_INT_WAKEUPI) (on_hw USB_CLK_Unfreeze s1))))); cbn [hw with_hw on_hw]; by rewrite H1|].
    destruct (flags_down_clear USB_INT_WAKEUPI (hw s) (with_state (event_state USB_INT_WAKEUPI (hw s)) (hw s2)))
      as [F1 F2]; [done|..|by split].
    + change (reg USBINT (hw s1) = reg USBINT (hw s)). by rewrite H1.
    + change (clear_bits (reg UDINT (hw s1)) (2 ^ WAKEUPE) = clear_bits (reg UDINT (hw s)) (2 ^ WAKEUPE)). by rewrite H1.
Qed.

Lemma clear_bits_comm x a b : clear_bits (clear_bits x a) b = clear_bits (clear_bits x b) a.
Proof. unfold clear_bits. by rewrite <- !Z.land_assoc, (Z.land_comm (Z.lnot a)). Qed.

Lemma clear_bits_absent x n : 0 <= n -> to_bool (Z.land x (2 ^ n)) = false -> clear_bits x (2 ^ n) = x.
Proof.
  intros Hn H. rewrite (to_bool_mask _ _ n eq_refl Hn) in H. apply Z.bits_inj'. intros i Hi.
  rewrite testbit_clear_bits by done. destruct (decide (i = n)) as [->|Hne].
  - by rewrite H.
  - by rewrite Z.pow2_bits_false, andb_true_r by done.
Qed.

(** A reset also drops a suspend flag. *)
Lemma on_reset_done ms s : USB_INT_HasOccurred USB_INT_SUSPI (hw s) = false -> event_done USB_INT_EORSTI ms s.
Proof.
  intros Hs. unfold event_done. cbn [handler]. unfold on_reset, ser_hw. rewrite !run_do.
  set (s1 := on_hw (USB_INT_Enable USB_INT_WAKEUPI) _).
  destruct (configure_control_run (PllLocked :: ms) (hw s1)) as (u&E&(H1&H2&_&H4&H5&H6)&Hr&He&Hu).
  erewrite run_bind by (apply on_io_run, E). rewrite run_do.
  exists (PllLocked :: ms), (on_hw (USB_INT_Enable USB_INT_RXSTPI) (with_hw u s1)).
  split; [reflexivity|]. split; [done|]. split; [intros _; exact Hr|]. split; [exact H2|].
  cbn [on_hw hw with_hw event_enables USB_INT_IsEnabled].
  assert (Er : forall r, reg r (USB_INT_Enable USB_INT_RXSTPI u) = reg r (hw s1)).
  { intros r. change (reg r (USB_INT_Enable USB_INT_RXSTPI u)) with (reg r u). unfold reg. by rewrite H5. }
  split.
  - rewrite Er. change (reg UDIEN (hw s1)) with (set_bits (clear_bits (reg UDIEN (hw s)) (2 ^ SUSPE)) (2 ^ WAKEUPE)).
    split; [|split; [by apply testbit_set|]].
    + rewrite (to_bool_mask _ _ SUSPE eq_refl) by done.
      by rewrite testbit_set_bits, testbit_clear_bits, Z.pow2_bits_true, andb_false_r.
    + split; [exact Hu|]. change (ep (USB_INT_Enable USB_INT_RXSTPI u) 0) with (ep u 0). rewrite He.
      split; [|split; [exact Hr|split; [exact H6|done]]].
      change (UENUM (USB_INT_Enable USB_INT_RXSTPI u)) with (UENUM u).
      cbn [USB_INT_Enable set_ien with_dev dev dev_ep UEIENX]. rewrite Z.eqb_refl. by apply testbit_set.
  - split; [split; [exact H1|exact H4]|].
    destruct (flags_down_clear USB_INT_EORSTI (hw s) (USB_INT_Enable USB_INT_RXSTPI u)) as [F1 F2]; [done|..|by split].
    + by rewrite Er.
    + rewrite Er. change (reg UDINT (hw s1)) with (clear_bits (clear_bits (reg UDINT (hw s)) (2 ^ EORSTE)) (2 ^ SUSPE)).
      rewrite clear_bits_comm, (clear_bits_absent (reg UDINT (hw s))) by done. done.
Qed.

Lemma event_done_all i ms s : i <> USB_INT_RXSTPI -> only_flag i (hw s) -> event_done i ms s.
Proof.
  intros Hi Hf. destruct i; try done.
  - apply on_vbus_done.
  - apply on_wakeup_done.
  - apply on_suspend_done.
  - apply on_reset_done. by apply (only_flag_down USB_INT_EORSTI).
  - apply on_start_of_frame_done.
Qed.

(** ** Properties *)

(** C23: bus events.  When one event of the bus has raised its flag (power, suspend,
    wake-up, reset or start of frame) and the clock locks when it is asked to, the
    general interrupt handles it and ends: the device state is the one that
    belongs to the event, the interrupts for the next event are enabled, the flag
    is down again (that of a suspend is only masked), no other flag is touched,
    no byte is sent or received, and the rings are as before.  A reset forgets the configuration and leaves the
    control endpoint configured, empty and with its interrupt enabled. *)
Theorem bus_events_change_state i ms s :
  i <> USB_INT_RXSTPI -> only_flag i (hw s) ->
  exists ms' s', USB_GEN_vect (PllLocked :: ms, s) = Some (tt, (ms', s')) /\ same_rings s s' /\
    USB_DeviceState (hw s') = event_state i (hw s) /\ event_enables i (hw s) (hw s') /\
    nothing_moved (hw s) (hw s') /\ flags_down i (hw s) (hw s') /\
    (i <> USB_INT_SUSPI -> USB_INT_HasOccurred i (hw s') = false).
Proof.
  intros Hi Hf. destruct (event_done_all i ms s Hi Hf) as (ms'&s'&E&H1&_&H2&H3&H4&H5&H6).
  exists ms', s'. split; [by apply (GEN_handler i)|done].
Qed.

(** A reset of the bus on a configured device. *)
Definition reset_pending : serial :=
  on_hw (bit_on UDINT EORSTE) (on_hw (bit_on UDIEN EORSTE) (on_hw (with_state Configured) serial_zero)).

Lemma bus_events_change_state_witness : exists ms' s',
  USB_GEN_vect ([PllLocked], reset_pending) = Some (tt, (ms', s')) /\ USB_DeviceState (hw s') = Default_.
Proof.
  destruct (bus_events_change_state USB_INT_EORSTI [] reset_pending) as (ms'&s'&E&_&H&_).
  - discriminate.
  - split; [reflexivity|]. intros j Hj. destruct j; try done.
  - exists ms', s'. split; [exact E|exact H].
Defined.

(** C14: every request is answered.  The host starts any control transfer, known to
    the device or not, well formed or not, and does anything while it is served:
    if the interrupt handler ends, then no request is waiting, unless the host
    made another one meanwhile; and the rings and the flags of the data path are
    as before. *)
Theorem control_request_answered g p ms s a ms' s' :
  USB_COM_vect g (ms, on_hw (host_act (SendSETUP p)) s) = Some (a, (ms', s')) ->
  same_rings s s' /\
  exists used, ms = used ++ ms' /\ (RXSTPI (hw s') = true -> Exists is_setup used).
Proof. intros E. exact (USB_COM_run g _ _ _ _ E). Qed.

(** A vendor request nobody knows: it is refused with a stall. *)
Lemma control_request_answered_witness : exists s',
  USB_COM_vect (fun _ => 0) ([], on_hw (host_act (SendSETUP [0xC0; 99; 0; 0; 0; 0; 0; 0])) serial_zero) =
    Some (tt, ([], s')) /\ same_rings serial_zero s' /\ Endpoint_IsStalled (hw s') = true.
Proof.
  set (s' := default serial_zero (snd <$> (snd <$> USB_COM_vect (fun _ => 0)
    ([], on_hw (host_act (SendSETUP [0xC0; 99; 0; 0; 0; 0; 0; 0])) serial_zero)))).
  exists s'. assert (E : USB_COM_vect (fun _ => 0)
    ([], on_hw (host_act (SendSETUP [0xC0; 99; 0; 0; 0; 0; 0; 0])) serial_zero) = Some (tt, ([], s')))
    by (vm_compute; reflexivity).
  split; [exact E|].
  destruct (control_request_answered (fun _ => 0) [0xC0; 99; 0; 0; 0; 0; 0; 0] [] serial_zero tt [] s' E) as [H _].
  split; [exact H|]. vm_compute. reflexivity.
Defined.

(** C25: descriptors are served.  The host asks for [n] bytes of a descriptor the
    device knows, collects as often as there are packets and acknowledges: the
    handler ends having sent the descriptor's bytes up to [n], in packets of
    eight and a shorter last one; the bus is idle again, and neither the rings,
    the registers, the device state nor the other endpoints have changed. *)
Theorem descriptor_request_served g v i n k s :
  bus_idle (hw s) -> 0 < n -> is_u 16 v -> known_descriptor v = true ->
  v <> Z.lor (Z.shiftl DTYPE_String 8) USE_INTERNAL_SERIAL -> (32 <= k)%nat ->
  exists data ms' s', fst (CALLBACK_USB_GetDescriptor v i) = Some data /\
    transfer g (get_descriptor_request v i n) (polite k, s) = Some (tt, (ms', s')) /\
    sent (ep (hw s') 0) = sent (ep (hw s) 0) ++ packets (take (Z.to_nat n) data) /\
    concat (packets (take (Z.to_nat n) data)) = take (Z.to_nat n) data /\
    bus_idle (hw s') /\ same_rings s s' /\ off_data (hw s) (hw s') /\ ureg (dev (hw s')) = ureg (dev (hw s)).
Proof.
  intros Hi Hn Hv Hk Hne Hk32. destruct (callback_wf v i Hv) as [Hw Hd].
  destruct (CALLBACK_USB_GetDescriptor v i) as [[data|] size] eqn:Ec; [|by destruct (proj2 Hd Hk)].
  destruct Hw as (Es&Hs&Hb&_). exists data.
  destruct (get_descriptor_transfer g v i n k data s Hi Hn Hne) as (ms'&s'&E&H1&H2&H3&H4&H5).
  - exists data, size. split; [done|]. split; [lia|]. rewrite Es, Nat2Z.id. by rewrite take_ge.
  - exact Hb.
  - etransitivity; [apply length_packets|]. rewrite length_take.
    assert (Nat.min (Z.to_nat n) (length data) / 8 <= 31)%nat; [|lia].
    transitivity (255 / 8)%nat; [apply Nat.Div0.div_le_mono; lia|by vm_compute; lia].
  - exists ms', s'. split_and!; try done. apply concat_packets.
Qed.

Lemma descriptor_request_served_witness : exists ms' s',
  transfer (fun _ => 0) (get_descriptor_request 0x0100 0 18) (polite 32, on_hw (with_state Default_) serial_zero) =
    Some (tt, (ms', s')) /\ concat (sent (ep (hw s') 0)) = bytes DeviceDescriptor.
Proof.
  destruct (descriptor_request_served (fun _ => 0) 0x0100 0 18 32 (on_hw (with_state Default_) serial_zero))
    as (data&ms'&s'&Ed&E&Hs&Hc&_); [by split_and!|lia|split; [lia|reflexivity]|done|done|lia|].
  exists ms', s'. split; [exact E|]. injection Ed as <-. rewrite Hs. exact Hc.
Defined.

(** C26: most requests leave the data path alone.  Serving any request but those that
    set the address or the configuration or change an endpoint's halt, under any
    schedule, has no effect on the rings, the device state and the data endpoints
    but what the host itself does there meanwhile: nothing, if the host keeps to
    the control endpoint. *)
Theorem neutral_requests_keep_data_path g p ms s a ms' s' :
  neutral_request (header_of_bytes p) = true ->
  USB_COM_vect g (ms, on_hw (host_act (SendSETUP p)) s) = Some (a, (ms', s')) ->
  same_rings s s' /\ (exists used, ms = used ++ ms' /\ off_data (host_acts used (hw s)) (hw s')) /\
  (Forall control_move ms -> off_data (hw s) (hw s')).
Proof.
  intros Hn E. destruct (USB_COM_neutral g _ (on_hw (host_act (SendSETUP p)) s) _ _ Hn E) as (H1&used&H2&H3).
  assert (H0 : off_data (hw s) (host_act (SendSETUP p) (hw s))).
  { split; [done|]. intros n Hn'. by rewrite ep_host_act. }
  assert (H4 : off_data (host_acts used (hw s)) (hw s')).
  { etransitivity; [apply (host_acts_data used _ _ H0)|exact H3]. }
  split; [exact H1|]. split; [by exists used|]. intros Hc. cbn [fst] in H2. rewrite H2 in Hc.
  apply Forall_app in Hc as [Hc _]. etransitivity; [apply control_moves, Hc|exact H4].
Qed.

(** The host sets the control line state, with packets of other transfers around. *)
Lemma neutral_requests_keep_data_path_witness : exists s',
  USB_COM_vect (fun _ => 0) ([CollectIN 0], on_hw (host_act (SendSETUP [0x21; 0x22; 1; 0; 0; 0; 0; 0]))
    (on_hw (with_state Configured) serial_zero)) = Some (tt, ([CollectIN 0], s')) /\
  off_data (hw (on_hw (with_state Configured) serial_zero)) (hw s').
Proof.
  set (s0 := on_hw (with_state Configured) serial_zero).
  set (s' := default serial_zero (snd <$> (snd <$> USB_COM_vect (fun _ => 0)
    ([CollectIN 0], on_hw (host_act (SendSETUP [0x21; 0x22; 1; 0; 0; 0; 0; 0])) s0)))).
  exists s'. assert (E : USB_COM_vect (fun _ => 0) ([CollectIN 0],
    on_hw (host_act (SendSETUP [0x21; 0x22; 1; 0; 0; 0; 0; 0])) s0) = Some (tt, ([CollectIN 0], s')))
    by (vm_compute; reflexivity).
  split; [exact E|].
  apply (neutral_requests_keep_data_path (fun _ => 0) [0x21; 0x22; 1; 0; 0; 0; 0; 0] [CollectIN 0] s0 tt
    [CollectIN 0] s' eq_refl E). repeat constructor.
Defined.
