(* ===== verification/SerialLink.v ===== *)
(** * SerialLink: the two functions of Driver/SerialIO.c that call the library, and the link

    [USB_Upkeep_Task] and [USB_SetupHardware], and the serial link as a whole: two
    byte streams between the program and the host ([in_stream], [out_stream])
    that upkeep tasks, the host, the control interrupt and the program move
    along.  [link_ok] is the link's invariant; [link] is a history of it. *)
From S2P Require Import Prelude.
From S2P Require Import Float32.
From S2P Require Import RingBuffer.
From S2P Require Import UsbEndpoint.
From S2P Require Import Descriptors.
From S2P Require Import UsbStream.
From S2P Require Import SerialIO.
From S2P Require Import UsbDevice.

(** The watchdog and clock writes before [USB_Init] are outside the modelled
    registers. *)
Definition USB_SetupHardware : sio unit :=
  (* Hardware Initialization *)
  on_io USB_Init;;
  (* Init ring buffers *)
  ser_do usb_init_buffers;;
  (* Set buffer-clear flag *)
  ser_do (with_clear false).

Section link.
(** The chip's signature row, for the internal serial number. *)
Context (signature : Z -> Z).

Definition USB_Upkeep_Task : sio unit :=
  (* Device must be connected and configured for the task to run *)
  st ← hw_is USB_DeviceState;
  if decide (st <> Configured) then mret tt else
  USB_USBTask signature;;
  (* Get next byte from the USB hardware, send next byte to the USB hardware *)
  ser_do usb_read_next_byte;;
  ser_do usb_write_next_byte.

(** ** The link as two byte streams *)

Definition tx_ep (s : serial) : endpoint := ep (hw s) 1.
Definition rx_ep (s : serial) : endpoint := ep (hw s) 2.

(** Bytes the host got, followed by bytes still queued. *)
Definition delivered (s : serial) : list Z := concat (sent (tx_ep s)).
Definition out_stream (s : serial) : list Z := delivered s ++ tx_bytes s.
(** Bytes ready for the program, followed by bytes of the current packet. *)
Definition in_stream (s : serial) : list Z := rx_bytes s ++ bank (rx_ep s).

(** The endpoints as [EVENT_USB_Device_ConfigurationChanged] sets them up; a
    free OUT bank is empty, and until the first byte was read a packet has one. *)
Definition link_ok (s : serial) : Prop :=
  ser_ok s /\ USB_DeviceState (hw s) = Configured /\
  ep_is_in (tx_ep s) = true /\ bank (tx_ep s) = [] /\
  ep_is_in (rx_ep s) = false /\ Forall is_byte (bank (rx_ep s)) /\
  (event (rx_ep s) = false -> bank (rx_ep s) = []) /\
  (reading s = false -> event (rx_ep s) = true -> bank (rx_ep s) <> []).

(** The data path is what these fields say. *)
Definition same_path (s s' : serial) : Prop :=
  usb_receive_buffer s' = usb_receive_buffer s /\ usb_send_buffer s' = usb_send_buffer s /\
  clear_buffer s' = clear_buffer s /\ reading s' = reading s /\ sending s' = sending s /\
  USB_DeviceState (hw s') = USB_DeviceState (hw s) /\
  tx_ep s' = tx_ep s /\ rx_ep s' = rx_ep s /\ RXSTPI (hw s') = RXSTPI (hw s).

#[export] Instance same_path_preorder : PreOrder same_path.
Proof.
  split; [by intros s|]. intros s1 s2 s3 (?&?&?&?&?&?&?&?&?) (?&?&?&?&?&?&?&?&?).
  unfold same_path. split_and!; congruence.
Qed.

Lemma same_path_link_ok s s' : same_path s s' -> link_ok s -> link_ok s'.
Proof.
  intros (E1&E2&_&E4&_&E6&E7&E8&E9) ((W1&W2&Wr)&H). unfold link_ok, ser_ok.
  by rewrite E1, E2, E4, E6, E7, E8, E9.
Qed.

Lemma same_path_streams s s' :
  same_path s s' ->
  out_stream s' = out_stream s /\ in_stream s' = in_stream s /\ delivered s' = delivered s /\
  tx_bytes s' = tx_bytes s /\ rx_bytes s' = rx_bytes s.
Proof.
  intros (E1&E2&_&_&_&_&E7&E8&_).
  unfold out_stream, in_stream, delivered, rx_bytes, tx_bytes. by rewrite E1, E2, E7, E8.
Qed.

(** With no request waiting the library's task only selects endpoints. *)
Lemma USB_USBTask_path ms s :
  RXSTPI (hw s) = false ->
  exists s', USB_USBTask signature (ms, s) = Some (tt, (ms, s')) /\ same_path s s'.
Proof.
  intros Hr. unfold USB_USBTask, USB_DeviceTask, hw_is, ser_hw. rewrite run_get. case_decide; [by exists s|].
  rewrite run_get, run_do, run_get. set (s1 := on_hw _ s).
  assert (Endpoint_IsSETUPReceived (hw s1) = false) as ->.
  { unfold Endpoint_IsSETUPReceived. change (RXSTPI (hw s1)) with (RXSTPI (hw s)). by rewrite Hr, andb_false_r. }
  by eexists.
Qed.

Lemma select_RX u : Endpoint_SelectEndpoint CDC_RX_EPADDR u = with_uenum 2 u.
Proof. reflexivity. Qed.
Lemma select_TX u : Endpoint_SelectEndpoint CDC_TX_EPADDR u = with_uenum 1 u.
Proof. reflexivity. Qed.

Lemma setup_clear_in u : RXSTPI (Endpoint_ClearIN u) = RXSTPI u.
Proof. unfold Endpoint_ClearIN. by destruct (UENUM u =? 0). Qed.
Lemma setup_clear_out u : RXSTPI (Endpoint_ClearOUT u) = RXSTPI u.
Proof. unfold Endpoint_ClearOUT. by destruct (UENUM u =? 0). Qed.

(** What one [usb_read_next_byte] does, by the state of the packet. *)
Lemma usb_read_next_byte_byte s b l :
  link_ok s -> event (rx_ep s) = true -> bank (rx_ep s) = b :: l ->
  let s' := usb_read_next_byte s in
  link_ok s' /\ UENUM (hw s') = 2 /\ event (rx_ep s') = true /\ bank (rx_ep s') = l /\
  rx_bytes s' = (if clear_buffer s then rx_bytes s else lastn 63 (rx_bytes s ++ [b])) /\
  clear_buffer s' = clear_buffer s /\ tx_bytes s' = tx_bytes s /\ tx_ep s' = tx_ep s /\
  reading s' = true.
Proof.
  intros ((W1&W2&Wr)&Hd&Ht&Hb&Hr&Hbytes&Hfree&Hread) He Eb.
  assert (Es : usb_read_next_byte s =
    let s0 := with_hw (on_selected (fun e => with_bank (tail (bank e)) e)
                (with_uenum 2 (hw s))) (with_reading true s) in
    if clear_buffer s then s0
    else with_rx (rb_push_back_C (usb_receive_buffer s) (s8 b)) s0).
  { unfold usb_read_next_byte, on_hw, rx_ep in *. rewrite select_RX.
    unfold Endpoint_IsOUTReceived, Endpoint_BytesInEndpoint, Endpoint_Read_8, selected. simpl.
    rewrite Hr, He, Eb. cbn [negb andb length head default]. by destruct (clear_buffer s). }
  rewrite Es. clear Es. rewrite Eb in Hbytes. apply Forall_cons in Hbytes as [Hb1 Hb2].
  destruct (push_run (usb_receive_buffer s) [b] W1) as [W1' E1]. simpl in W1', E1.
  assert (Ep2 : forall s0, rx_ep (with_hw (on_selected (fun e => with_bank (tail (bank e)) e)
      (with_uenum 2 (hw s))) s0) = with_bank l (rx_ep s)).
  { intros s0. unfold rx_ep, on_selected, selected in *. simpl. by rewrite Eb. }
  destruct (clear_buffer s) eqn:Ec; cbn zeta; unfold link_ok, ser_ok.
  - change (rx_ep (with_hw ?u ?s0)) with (rx_ep (with_hw u s)). rewrite Ep2.
    split_and!; try done; cbn [with_bank event bank] in *; try congruence.
  - change (rx_ep (with_rx _ (with_hw ?u ?s0))) with (rx_ep (with_hw u s)). rewrite Ep2.
    split_and!; try done; cbn [with_bank event bank] in *; try congruence.
    unfold rx_bytes at 1. cbn [with_rx usb_receive_buffer].
    rewrite E1. unfold rx_bytes. by rewrite (u8_id b) by exact Hb1.
Qed.

Lemma usb_read_next_byte_end s :
  link_ok s -> event (rx_ep s) = true -> bank (rx_ep s) = [] ->
  let s' := usb_read_next_byte s in
  link_ok s' /\ UENUM (hw s') = 2 /\ event (rx_ep s') = false /\ bank (rx_ep s') = [] /\
  rx_bytes s' = rx_bytes s /\ clear_buffer s' = false /\ tx_bytes s' = tx_bytes s /\
  tx_ep s' = tx_ep s /\ reading s' = true.
Proof.
  intros ((W1&W2&Wr)&Hd&Ht&Hb&Hr&Hbytes&Hfree&Hread) He Eb.
  assert (Hrd : reading s = true) by (destruct (reading s); [done|]; exfalso; by apply Hread).
  assert (Es : usb_read_next_byte s = with_reading true (with_clear false
                 (with_hw (Endpoint_ClearOUT (with_uenum 2 (hw s))) s))).
  { unfold usb_read_next_byte, on_hw, rx_ep in *. rewrite select_RX.
    unfold Endpoint_IsOUTReceived, Endpoint_BytesInEndpoint, selected. simpl.
    rewrite Hr, He, Eb. cbn [negb andb length]. by rewrite Hrd. }
  rewrite Es. clear Es.
  assert (Ep : forall s0, rx_ep (with_reading true (with_clear false
             (with_hw (Endpoint_ClearOUT (with_uenum 2 (hw s))) s0))) =
           {| UECFG0X := UECFG0X (rx_ep s); UECFG1X := UECFG1X (rx_ep s); event := false;
              bank := []; sent := sent (rx_ep s) |}).
  { intros s0. unfold rx_ep, Endpoint_ClearOUT, on_selected, selected in *. simpl. by rewrite Hr. }
  unfold link_ok, ser_ok. rewrite !Ep. by split_and!.
Qed.

Lemma usb_read_next_byte_idle s :
  link_ok s -> event (rx_ep s) = false ->
  usb_read_next_byte s = with_hw (with_uenum 2 (hw s)) s.
Proof.
  intros (_&_&_&_&Hr&_) He. unfold usb_read_next_byte, on_hw, rx_ep in *. rewrite select_RX.
  unfold Endpoint_IsOUTReceived, selected. simpl. by rewrite Hr, He.
Qed.

(** Reading keeps the link and moves at most one byte along the input stream. *)
Lemma usb_read_next_byte_link s :
  link_ok s ->
  let s' := usb_read_next_byte s in
  link_ok s' /\ UENUM (hw s') = 2 /\ tx_bytes s' = tx_bytes s /\ tx_ep s' = tx_ep s /\
  (clear_buffer s = false -> (length (rx_bytes s) < 63)%nat ->
     in_stream s' = in_stream s /\ clear_buffer s' = false).
Proof.
  intros Hl s'. destruct (event (rx_ep s)) eqn:He; [destruct (bank (rx_ep s)) as [|b l] eqn:Eb|].
  - destruct (usb_read_next_byte_end s Hl He Eb) as (H1&H2&H3&H4&H5&H6&H7&H8&_).
    split_and!; try done. intros _ _. unfold in_stream, s'. by rewrite H4, H5, Eb.
  - destruct (usb_read_next_byte_byte s b l Hl He Eb) as (H1&H2&H3&H4&H5&H6&H7&H8&_).
    split_and!; try done. intros Hc Hlen. unfold in_stream, s'.
    rewrite H4, H5, H6, Hc, Eb. rewrite lastn_all by (rewrite length_app; simpl; lia).
    by rewrite <- app_assoc.
  - unfold s'. rewrite usb_read_next_byte_idle by done.
    assert (same_path s (with_hw (with_uenum 2 (hw s)) s)) as Hp by done.
    split_and!; try done.
Qed.

(** Writing moves the oldest byte of the ring into a packet of its own, or
    waits; the empty packet of the last branch is never sent, because the OUT
    endpoint is still selected there. *)
Lemma usb_write_next_byte_link s :
  link_ok s -> UENUM (hw s) = 2 ->
  let s' := usb_write_next_byte s in
  link_ok s' /\ out_stream s' = out_stream s /\ rx_bytes s' = rx_bytes s /\ rx_ep s' = rx_ep s /\
  clear_buffer s' = clear_buffer s /\
  (event (tx_ep s) = true -> tx_bytes s' = tail (tx_bytes s) /\
     (tx_bytes s <> [] -> event (tx_ep s') = false)) /\
  (event (tx_ep s) = false -> tx_bytes s' = tx_bytes s) /\
  (tx_bytes s = [] -> hw s' = hw s).
Proof.
  intros Hl Hsel s'. pose proof Hl as ((W1&W2&Wr)&Hd&Ht&Hb&Hr&Hbytes&Hfree&Hread).
  unfold s', usb_write_next_byte. clear s'.
  destruct (tx_bytes s) as [|b l] eqn:Et.
  - pose proof (tx_length s) as Hlen. rewrite Et in Hlen. cbn [length] in Hlen. rewrite <- Hlen.
    change (to_bool (Z.of_nat 0)) with false. cbv iota.
    assert (Endpoint_IsINReady (hw s) = false) as Hin.
    { unfold Endpoint_IsINReady, selected. rewrite Hsel. fold (rx_ep s). by rewrite Hr. }
    rewrite Hin. destruct (sending s); by split_and!.
  - assert (to_bool (rb_length_C (usb_send_buffer s)) = true) as ->.
    { apply to_bool_nonzero. rewrite <- tx_length, Et. cbn [length]. lia. }
    unfold on_hw. cbn [hw with_hw with_sending]. rewrite select_TX.
    unfold Endpoint_IsINReady, selected. cbn [with_uenum ep UENUM].
    change (1 =? 0) with false. cbv iota. fold (tx_ep s). rewrite Ht.
    destruct (event (tx_ep s)) eqn:He; cbn [andb]; [|by split_and!].
    unfold tx_bytes in Et.
    destruct (contents_C (usb_send_buffer s)) as [|c l'] eqn:Ec; [done|]. injection Et as Eb El.
    pose proof (q_pop_contents (Q := Ring_Buffer_C) (usb_send_buffer s) c l' W2 Ec) as H.
    pose proof (q_pop_ok (Q := Ring_Buffer_C) (usb_send_buffer s) W2) as Hok.
    change q_pop with rb_pop_front_C in *. cbn [usb_send_buffer with_hw with_sending].
    destruct (rb_pop_front_C (usb_send_buffer s)) as [c' q]. cbn [fst snd] in *.
    destruct H as [-> Hq]. change (contents_C q = l') in Hq. cbn [hw with_tx with_hw].
    set (u := Endpoint_ClearIN _).
    assert (E1 : ep u 1 = {| UECFG0X := UECFG0X (tx_ep s); UECFG1X := UECFG1X (tx_ep s);
                             event := false; bank := []; sent := sent (tx_ep s) ++ [[b]] |}).
    { unfold u, Endpoint_ClearIN, Endpoint_Write_8, on_selected, selected. simpl.
      unfold tx_ep in *. unfold ep_is_in in *. simpl. rewrite Ht. simpl.
      rewrite Hb. simpl. by rewrite u8_idemp, Eb. }
    assert (E2 : ep u 2 = rx_ep s) by done.
    assert (Ed : USB_DeviceState u = Configured) by exact Hd.
    unfold link_ok, ser_ok, out_stream, delivered, rx_bytes, tx_bytes, tx_ep, rx_ep in *.
    cbn [hw with_hw with_tx with_sending usb_receive_buffer usb_send_buffer clear_buffer reading].
    rewrite E1, E2, Ed, Hq, Ec. unfold ep_is_in in *. cbn [UECFG0X event bank sent].
    split_and!; try done.
    + rewrite concat_app. simpl. rewrite <- app_assoc. simpl. by rewrite <- Eb.
Qed.

(** The rings stay well-formed whatever the link does. *)
Lemma usb_read_next_byte_ok s : ser_ok s -> ser_ok (usb_read_next_byte s).
Proof.
  intros (Hr&Ht&Hs). unfold usb_read_next_byte. cbn zeta.
  destruct (Endpoint_IsOUTReceived _); [|by split_and!].
  destruct (to_bool _).
  - cbn [Endpoint_Read_8]. destruct (negb _); [|by split_and!].
    split_and!; [|done|done]. exact (q_push_ok (Q := Ring_Buffer_C) _ _ Hr).
  - destruct (reading _); by split_and!.
Qed.

Lemma usb_write_next_byte_ok s : ser_ok s -> ser_ok (usb_write_next_byte s).
Proof.
  intros (Hr&Ht&Hs). unfold usb_write_next_byte. cbn zeta.
  destruct (to_bool _).
  - destruct (Endpoint_IsINReady _); [|by split_and!].
    cbn [usb_send_buffer on_hw with_hw with_sending].
    pose proof (q_pop_ok (Q := Ring_Buffer_C) (usb_send_buffer s) Ht) as H.
    change q_pop with rb_pop_front_C in H.
    destruct (rb_pop_front_C (usb_send_buffer s)) as [c q]. split_and!; [done|exact H|etransitivity; [apply setup_clear_in|exact Hs]].
  - destruct (sending _); [|by split_and!]. destruct (Endpoint_IsINReady _); [|by split_and!].
    split_and!; [done|done|etransitivity; [apply setup_clear_in|exact Hs]].
Qed.

(** The task, when no request waits: nothing, or the library's task and one byte
    each way. *)
Lemma USB_Upkeep_Task_run ms s :
  RXSTPI (hw s) = false ->
  exists s1, same_path s s1 /\
  USB_Upkeep_Task (ms, s) = Some (tt, (ms,
      if decide (USB_DeviceState (hw s) = Configured) then usb_write_next_byte (usb_read_next_byte s1) else s)).
Proof.
  intros Hr. unfold USB_Upkeep_Task, hw_is. rewrite run_get.
  destruct (decide (USB_DeviceState (hw s) = Configured)) as [Hd|Hd].
  - rewrite decide_False by (intros H; by apply H). destruct (USB_USBTask_path ms s Hr) as (s1&E&Hp).
    rewrite (run_bind _ _ _ _ _ E), run_do. exists s1. split; [exact Hp|reflexivity].
  - rewrite decide_True by done. by exists s.
Qed.

Lemma USB_Upkeep_Task_ok ms s :
  ser_ok s -> exists s', USB_Upkeep_Task (ms, s) = Some (tt, (ms, s')) /\ ser_ok s'.
Proof.
  intros (Hr&Ht&Hs). destruct (USB_Upkeep_Task_run ms s Hs) as (s1&(E1&E2&_&_&_&_&_&_&E9)&E).
  rewrite E. eexists. split; [done|]. case_decide; [|by split_and!].
  apply usb_write_next_byte_ok, usb_read_next_byte_ok. unfold ser_ok. by rewrite E1, E2, E9.
Qed.

(** On a working link the task reads, then writes. *)
Lemma USB_Upkeep_Task_link ms s :
  link_ok s ->
  exists s', USB_Upkeep_Task (ms, s) = Some (tt, (ms, s')) /\
  link_ok s' /\ out_stream s' = out_stream s /\
  (event (tx_ep s) = true -> tx_bytes s' = tail (tx_bytes s)) /\
  (event (tx_ep s) = false -> tx_bytes s' = tx_bytes s) /\
  (clear_buffer s = false -> (length (rx_bytes s) < 63)%nat ->
     in_stream s' = in_stream s /\ clear_buffer s' = false).
Proof.
  intros Hl. destruct (USB_Upkeep_Task_run ms s) as (s1&Hp&E); [apply Hl|].
  rewrite decide_True in E by apply Hl. eexists. split; [exact E|]. clear E.
  pose proof (same_path_link_ok _ _ Hp Hl) as Hl1.
  destruct (same_path_streams _ _ Hp) as (Eo&Ei&_&Etx&Erx).
  destruct (usb_read_next_byte_link s1 Hl1) as (Hl2&Hs2&Ht2&Hte2&Hi2).
  set (s2 := usb_read_next_byte s1) in *.
  destruct (usb_write_next_byte_link s2 Hl2 Hs2) as (Hl3&Ho3&Hr3&Hre3&Hc3&Hev3&Hnev3&_).
  assert (Eev : tx_ep s2 = tx_ep s) by (rewrite Hte2; apply Hp).
  split_and!.
  - done.
  - rewrite Ho3, <- Eo. unfold out_stream, delivered. by rewrite Ht2, Hte2.
  - intros He. rewrite <- Eev in He. destruct (Hev3 He) as [-> _]. by rewrite Ht2, Etx.
  - intros He. rewrite <- Eev in He. by rewrite (Hnev3 He), Ht2, Etx.
  - intros Hc Hlen. rewrite <- Ei. destruct Hi2 as [Hi2 Hc2].
    + by destruct Hp as (_&_&->&_).
    + by rewrite Erx.
    + split; [|by rewrite Hc3]. rewrite <- Hi2. unfold in_stream. by rewrite Hr3, Hre3.
Qed.

(** One task during a packet, seen from the receiving side. *)
Lemma USB_Upkeep_Task_rx ms s :
  link_ok s -> event (rx_ep s) = true ->
  exists s', USB_Upkeep_Task (ms, s) = Some (tt, (ms, s')) /\ link_ok s' /\
  match bank (rx_ep s) with
  | b :: l =>
      event (rx_ep s') = true /\ bank (rx_ep s') = l /\ clear_buffer s' = clear_buffer s /\
  rx_bytes s' = (if clear_buffer s then rx_bytes s else lastn 63 (rx_bytes s ++ [b]))
  | [] => event (rx_ep s') = false /\ bank (rx_ep s') = [] /\ clear_buffer s' = false /\
  rx_bytes s' = rx_bytes s
  end.
Proof.
  intros Hl He. destruct (USB_Upkeep_Task_run ms s) as (s1&Hp&E); [apply Hl|].
  rewrite decide_True in E by apply Hl. eexists. split; [exact E|]. clear E.
  pose proof (same_path_link_ok _ _ Hp Hl) as Hl1.
  destruct (same_path_streams _ _ Hp) as (_&_&_&_&Erx).
  destruct Hp as (_&_&Ec&_&_&_&_&Erp&_). rewrite <- Erp in He |- *. rewrite <- Ec, <- Erx.
  destruct (bank (rx_ep s1)) as [|b l] eqn:Eb.
  - destruct (usb_read_next_byte_end s1 Hl1 He Eb) as (H1&H2&H3&H4&H5&H6&_).
    destruct (usb_write_next_byte_link _ H1 H2) as (K1&_&K3&K4&K5&_).
    rewrite K3, K4, K5. by split_and!.
  - destruct (usb_read_next_byte_byte s1 b l Hl1 He Eb) as (H1&H2&H3&H4&H5&H6&_).
    destruct (usb_write_next_byte_link _ H1 H2) as (K1&_&K3&K4&K5&_).
    rewrite K3, K4, K5. by split_and!.
Qed.

(** *** One pass of the loop, with a host that collects *)

(** The host's two actions on the serial state. *)
Definition host_packet (p : list Z) (s : serial) : serial := on_hw (host_act (SendOUT 2 p)) s.
Definition host_collect (s : serial) : serial := on_hw (host_act (CollectIN 1)) s.

Lemma host_collect_link s :
  link_ok s ->
  let s' := host_collect s in
  link_ok s' /\ in_stream s' = in_stream s /\ out_stream s' = out_stream s /\
  delivered s' = delivered s /\ clear_buffer s' = clear_buffer s /\ event (tx_ep s') = true /\
  tx_bytes s' = tx_bytes s /\ rx_bytes s' = rx_bytes s /\ rx_ep s' = rx_ep s.
Proof.
  intros (Hw&Hd&Ht&Hb&Hr&Hbytes&Hfree&Hread) s'.
  assert (Eu : hw s' = with_ep 1 {| UECFG0X := UECFG0X (tx_ep s); UECFG1X := UECFG1X (tx_ep s);
                             event := true; bank := bank (tx_ep s); sent := sent (tx_ep s) |} (hw s)).
  { unfold s', host_collect, on_hw, host_act, tx_ep in *. cbn [hw with_hw]. change (1 =? 0) with false. cbv iota.
    unfold host_take. by rewrite Ht. }
  assert (E1 : tx_ep s' = {| UECFG0X := UECFG0X (tx_ep s); UECFG1X := UECFG1X (tx_ep s);
                             event := true; bank := bank (tx_ep s); sent := sent (tx_ep s) |}).
  { unfold tx_ep at 1. by rewrite Eu. }
  assert (E2 : rx_ep s' = rx_ep s) by (unfold rx_ep at 1; by rewrite Eu).
  assert (Ed : USB_DeviceState (hw s') = USB_DeviceState (hw s)) by (by rewrite Eu).
  assert (Er : RXSTPI (hw s') = RXSTPI (hw s)) by (by rewrite Eu).
  unfold link_ok, ser_ok, in_stream, out_stream, delivered. rewrite E1, E2, Ed, Er.
  by split_and!; try apply Hw.
Qed.

(** What is left of the packet being received; [None] when the endpoint is free. *)
Definition incoming (s : serial) : option (list Z) :=
  if event (rx_ep s) then Some (bank (rx_ep s)) else None.

(** What the next upkeep task makes of it, and the byte it stores. *)
Definition next_incoming (o : option (list Z)) : option (list Z) :=
  match o with Some (_ :: l) => Some l | _ => None end.
Definition next_byte (o : option (list Z)) : list Z :=
  match o with Some (b :: _) => [b] | _ => [] end.

(** The receiving side of one upkeep task. *)
Lemma upkeep_incoming ms s :
  link_ok s ->
  exists s', USB_Upkeep_Task (ms, s) = Some (tt, (ms, s')) /\ link_ok s' /\
    incoming s' = next_incoming (incoming s) /\
    rx_bytes s' = (if clear_buffer s then rx_bytes s else lastn 63 (rx_bytes s ++ next_byte (incoming s))) /\
    clear_buffer s' = match incoming s with Some [] => false | _ => clear_buffer s end.
Proof.
  intros Hl. assert (Hrx : lastn 63 (rx_bytes s ++ []) = rx_bytes s).
  { rewrite app_nil_r. apply lastn_all, rx_bound, Hl. }
  destruct (event (rx_ep s)) eqn:He.
  - destruct (USB_Upkeep_Task_rx ms s Hl He) as (s1&E&H1&H). exists s1. split; [exact E|]. split; [exact H1|].
    unfold incoming. rewrite He. destruct (bank (rx_ep s)) as [|b l].
    + destruct H as (->&_&->&->). cbn [next_byte]. rewrite Hrx. by destruct (clear_buffer s).
    + by destruct H as (->&->&->&->).
  - destruct (USB_Upkeep_Task_run ms s (proj2 (proj2 (proj1 Hl)))) as (s1&Hp&E).
    rewrite decide_True in E by apply Hl. eexists. split; [exact E|].
    pose proof (same_path_link_ok _ _ Hp Hl) as Hl1. destruct (same_path_streams _ _ Hp) as (_&_&_&_&Erx).
    destruct Hp as (_&_&Ec&_&_&_&_&Erp&_). pose proof He as He1. rewrite <- Erp in He1.
    destruct (usb_read_next_byte_link s1 Hl1) as (Hl2&Hs2&_).
    destruct (usb_write_next_byte_link _ Hl2 Hs2) as (Hl3&_&K3&K4&K5&_). split; [exact Hl3|].
    unfold incoming. rewrite K3, K4, K5, (usb_read_next_byte_idle s1 Hl1 He1).
    change (rx_ep (with_hw _ s1)) with (rx_ep s1). change (rx_bytes (with_hw _ s1)) with (rx_bytes s1).
    change (clear_buffer (with_hw _ s1)) with (clear_buffer s1). rewrite He1, He, Erx, Ec. cbn [next_byte].
    rewrite Hrx. by destruct (clear_buffer s).
Qed.

(** The host collects, then the device runs its upkeep task: one byte each way. *)
Lemma collect_upkeep_run ms s :
  link_ok s -> clear_buffer s = false -> (length (rx_bytes s) < 63)%nat ->
  exists s', USB_Upkeep_Task (ms, host_collect s) = Some (tt, (ms, s')) /\ link_ok s' /\
    clear_buffer s' = false /\ out_stream s' = out_stream s /\ tx_bytes s' = tail (tx_bytes s) /\
    incoming s' = next_incoming (incoming s) /\ rx_bytes s' = rx_bytes s ++ next_byte (incoming s).
Proof.
  intros Hl Hc Hlen. destruct (host_collect_link s Hl) as (Hl0&_&Ho0&_&Hc0&Hev&Htx0&Hrx0&Hrp0).
  rewrite Hc in Hc0. destruct (USB_Upkeep_Task_link ms _ Hl0) as (s1&E&H1&H2&H3&_).
  destruct (upkeep_incoming ms _ Hl0) as (s2&E2&_&H4&H5&H6). rewrite E in E2. injection E2 as <-.
  assert (Ei : incoming (host_collect s) = incoming s) by (unfold incoming; by rewrite Hrp0).
  rewrite Ei in H4, H5, H6. rewrite Hc0 in H5, H6. exists s1. split; [exact E|]. split; [exact H1|].
  split; [by rewrite H6; destruct (incoming s) as [[]|]|]. split; [by rewrite H2|]. split; [by rewrite (H3 Hev), Htx0|].
  split; [exact H4|]. rewrite H5, Hrx0. apply lastn_all. rewrite length_app.
  assert (length (next_byte (incoming s)) <= 1)%nat by (destruct (incoming s) as [[]|]; cbn; lia). lia.
Qed.


(** *** The start *)

(** Initialized, the cable not yet plugged in. *)
Definition unplugged (s : serial) : Prop :=
  ser_ok s /\ rx_bytes s = [] /\ tx_bytes s = [] /\ clear_buffer s = false /\ RXOUTI0 (dev (hw s)) = false /\
  USB_DeviceState (hw s) = Unattached /\
  USB_INT_IsEnabled USB_INT_VBUSTI (hw s) = true /\ USB_INT_IsEnabled USB_INT_EORSTI (hw s) = true.

Lemma USB_SetupHardware_run ms s :
  ser_ok s ->
  exists s', USB_SetupHardware (ms, s) = Some (tt, (ms, s')) /\ unplugged s' /\ delivered s' = delivered s.
Proof.
  intros (W1&W2&_). destruct (USB_Init_run ms (hw s)) as (u&E&H1&H2&H3&_&H5&_&_&H8&_&H9&_).
  unfold USB_SetupHardware. rewrite (run_bind _ _ _ _ _ (on_io_run USB_Init ms s tt ms u E)), run_do.
  eexists. split; [done|]. destruct (usb_init_buffers_spec (with_hw u s)) as (K1&K2&K3&K4); [by split_and!|].
  split; [split_and!; [apply K1..|exact K2|exact K3|done|exact H3|exact H1|exact H8|exact H9]|].
  unfold delivered, tx_ep. by rewrite <- H5.
Qed.

(** *** Histories of the link *)


Lemma host_packet_link p s :
  link_ok s -> event (rx_ep s) = false -> p <> [] -> Forall is_byte p ->
  let s' := host_packet p s in
  link_ok s' /\ in_stream s' = in_stream s ++ p /\ out_stream s' = out_stream s /\
  clear_buffer s' = clear_buffer s /\ event (rx_ep s') = true /\ bank (rx_ep s') = p /\
  rx_bytes s' = rx_bytes s.
Proof.
  intros (Hw&Hd&Ht&Hb&Hr&Hbytes&Hfree&Hread) He Hp Hpb s'.
  assert (Eu : hw s' = with_ep 2 {| UECFG0X := UECFG0X (rx_ep s); UECFG1X := UECFG1X (rx_ep s);
                             event := true; bank := p; sent := sent (rx_ep s) |} (hw s)).
  { unfold s', host_packet, on_hw, host_act, rx_ep in *. cbn [hw with_hw]. change (2 =? 0) with false. cbv iota.
    unfold host_send. by rewrite Hr, He. }
  assert (E2 : rx_ep s' = {| UECFG0X := UECFG0X (rx_ep s); UECFG1X := UECFG1X (rx_ep s);
                             event := true; bank := p; sent := sent (rx_ep s) |}).
  { unfold rx_ep at 1. by rewrite Eu. }
  assert (E1 : tx_ep s' = tx_ep s) by (unfold tx_ep at 1; by rewrite Eu).
  assert (Ed : USB_DeviceState (hw s') = USB_DeviceState (hw s)) by (by rewrite Eu).
  assert (Er : RXSTPI (hw s') = RXSTPI (hw s)) by (by rewrite Eu).
  unfold link_ok, ser_ok, in_stream, out_stream, delivered. rewrite E1, E2, Ed, Er.
  split_and!; try done; try apply Hw. cbn [bank]. by rewrite (Hfree He), app_nil_r.
Qed.

Lemma host_packet_setup p s : ser_ok s -> RXSTPI (hw (host_packet p s)) = false.
Proof.
  intros (_&_&Hr). unfold host_packet, on_hw, host_act. cbn [hw with_hw]. change (2 =? 0) with false. cbv iota.
  unfold host_send. by destruct (ep_is_in _ || _).
Qed.


Lemma tx_adds_link l s s' :
  tx_adds l s s' -> link_ok s -> link_ok s' /\ in_stream s' = in_stream s.
Proof.
  intros (Hok&_&(E1&_&E3&_&_&E6)) (_&H). unfold link_ok, in_stream, rx_bytes, tx_ep, rx_ep in *.
  by rewrite E1, E3, E6.
Qed.



(** [n] rounds of the host collecting a packet and the device running upkeep. *)
Fixpoint drain (n : nat) : sio unit :=
  match n with
  | O => mret tt
  | S n => ser_do host_collect;; USB_Upkeep_Task;; drain n
  end.

Lemma drain_spec n ms s :
  link_ok s -> exists s', drain n (ms, s) = Some (tt, (ms, s')) /\
  link_ok s' /\ tx_bytes s' = drop n (tx_bytes s) /\ out_stream s' = out_stream s.
Proof.
  revert s. induction n as [|n IH]; intros s Hl; cbn [drain]; [by exists s|].
  destruct (host_collect_link s Hl) as (H1&_&H3&_&_&H6&H7&_).
  destruct (USB_Upkeep_Task_link ms _ H1) as (s1&E1&G1&G2&G3&_).
  destruct (IH _ G1) as (s'&E&K1&K2&K3). exists s'.
  rewrite run_do, (run_bind _ _ _ _ _ E1). split_and!; [done|done| |].
  - rewrite K2, (G3 H6), H7. destruct (tx_bytes s) as [|b l]; [by destruct n|done].
  - by rewrite K3, G2, H3.
Qed.

(** [n] upkeep tasks without the host. *)
Fixpoint upkeep_n (n : nat) : sio unit :=
  match n with
  | O => mret tt
  | S n => USB_Upkeep_Task;; upkeep_n n
  end.

(** A packet read to its end: its bytes are stored, or thrown away when the
    buffer was flushed. *)
Lemma upkeep_n_packet l ms s :
  link_ok s -> event (rx_ep s) = true -> bank (rx_ep s) = l ->
  (clear_buffer s = false -> (length (rx_bytes s) + length l <= 63)%nat) ->
  exists s', upkeep_n (length l + 1) (ms, s) = Some (tt, (ms, s')) /\
    link_ok s' /\ rx_bytes s' = rx_bytes s ++ (if clear_buffer s then [] else l) /\
    event (rx_ep s') = false /\ clear_buffer s' = false.
Proof.
  revert s. induction l as [|b l IH]; intros s Hl He Eb Hlen;
    destruct (USB_Upkeep_Task_rx ms s Hl He) as (s1&E1&H1&H2); rewrite Eb in H2.
  - destruct H2 as (H3&H4&H5&H6). exists s1. cbn [length Nat.add upkeep_n].
    rewrite (run_bind _ _ _ _ _ E1). split_and!; try done. by destruct (clear_buffer s); rewrite app_nil_r.
  - destruct H2 as (H3&H4&H5&H6). cbn [length Nat.add upkeep_n] in *.
    assert (H6' : rx_bytes s1 = rx_bytes s ++ (if clear_buffer s then [] else [b])).
    { rewrite H6. destruct (clear_buffer s); [by rewrite app_nil_r|].
      specialize (Hlen eq_refl). apply lastn_all. rewrite length_app. cbn [next_byte length]. lia. }
    destruct (IH s1 H1 H3 H4) as (s'&E'&?&E&?&?).
    { rewrite H5, H6', length_app. intros Hc. specialize (Hlen Hc). rewrite Hc. cbn [length]. lia. }
    exists s'. rewrite (run_bind _ _ _ _ _ E1). split_and!; try done.
    rewrite E, H5, H6', <- app_assoc. by destruct (clear_buffer s).
Qed.

End link.

(** ** Enumeration *)

(** One control transfer with the host's moves while it is served; the host makes
    no further move when the interrupt has ended. *)
Definition serve (signature : Z -> Z) (req : USB_Request_Header_t) (ms : list host_move) (s : serial) : option serial :=
  '(_, (_, s)) ← transfer signature req (ms, s); Some s.

(** What a host asks of a new device: the device descriptor, an address for it,
    the configuration with its interfaces, and to use it. *)
Definition enumerate (signature : Z -> Z) (address : Z) (k : nat) (s : serial) : option serial :=
  s ← serve signature (get_descriptor_request 0x0100 0 18) (polite k) s;
  s ← serve signature (set_address_request address) [CollectIN 0] s;
  s ← serve signature (get_descriptor_request 0x0200 0 62) (polite k) s;
  serve signature (set_configuration_request 1) [] s.

Lemma serve_run signature req ms s ms' s' :
  transfer signature req (ms, s) = Some (tt, (ms', s')) -> serve signature req ms s = Some s'.
Proof. unfold serve. by intros ->. Qed.

(** A descriptor of the firmware, asked for with its length. *)
Lemma serve_descriptor signature v n k data s :
  bus_idle (hw s) -> 0 < n -> v <> Z.lor (Z.shiftl DTYPE_String 8) USE_INTERNAL_SERIAL ->
  memory_of v 0 data -> Forall is_byte data -> length data = Z.to_nat n -> (length (packets data) <= k)%nat ->
  exists s', serve signature (get_descriptor_request v 0 n) (polite k) s = Some s' /\
    same_rings s s' /\ bus_idle (hw s') /\ off_data (hw s) (hw s') /\
    ureg (dev (hw s')) = ureg (dev (hw s)) /\ sent (ep (hw s') 0) = sent (ep (hw s) 0) ++ packets data.
Proof.
  intros Hi Hn Hv Hm Hd Hl Hk. assert (Ht : take (Z.to_nat n) data = data) by (apply take_ge; lia).
  destruct (get_descriptor_transfer signature v 0 n k data s Hi Hn Hv Hm Hd) as (ms'&s'&E&H); rewrite Ht in *; [done|].
  exists s'. split; [by eapply serve_run|exact H].
Qed.

Lemma device_memory : memory_of 0x0100 0 (bytes DeviceDescriptor).
Proof. exists (bytes DeviceDescriptor), 18. split_and!; [reflexivity|lia|cbn; lia|reflexivity]. Qed.
Lemma configuration_memory : memory_of 0x0200 0 (bytes ConfigurationDescriptor).
Proof. exists (bytes ConfigurationDescriptor), 62. split_and!; [reflexivity|lia|vm_compute; done|reflexivity]. Qed.
Lemma device_bytes : Forall is_byte (bytes DeviceDescriptor).
Proof. apply (bool_decide_unpack _). vm_compute. exact I. Qed.
Lemma configuration_bytes : Forall is_byte (bytes ConfigurationDescriptor).
Proof. apply (bool_decide_unpack _). vm_compute. exact I. Qed.

Lemma enumerate_run signature a k s :
  bus_idle (hw s) -> 1 <= a < 128 -> (8 <= k)%nat ->
  exists s', enumerate signature a k s = Some s' /\ same_rings s s' /\ bus_idle (hw s') /\
    USB_DeviceState (hw s') = Configured /\ USB_Device_ConfigurationNumber (dev (hw s')) = 1 /\
    Z.land (reg UDADDR (hw s')) 0x7F = a /\ USB_Device_IsAddressSet (hw s') = true /\
    sent (ep (hw s') 0) = sent (ep (hw s) 0) ++ packets (bytes DeviceDescriptor) ++ [[]] ++
      packets (bytes ConfigurationDescriptor) ++ [[]] /\
    BaudRateBPS (LineEncoding1 s') = 0 /\
    tx_ep s' = reconfigured 0x81 0x12 (tx_ep s) /\ rx_ep s' = reconfigured 0x80 0x12 (rx_ep s).
Proof.
  intros Hi Ha Hk. unfold enumerate.
  destruct (serve_descriptor signature 0x0100 18 k (bytes DeviceDescriptor) s Hi) as (s1&E1&K1&I1&[_ O1]&_&T1);
    [lia|done|apply device_memory|apply device_bytes|done|vm_compute (length _); lia|].
  rewrite (option_bind_run _ _ _ E1).
  destruct (set_address_transfer signature a [] s1 I1 Ha) as (s2&E2&K2&I2&_&A2&B2&T2&O2).
  rewrite (option_bind_run _ _ _ (serve_run _ _ _ _ _ _ E2)).
  destruct (serve_descriptor signature 0x0200 62 k (bytes ConfigurationDescriptor) s2 I2) as (s3&E3&K3&I3&[_ O3]&V3&T3);
    [lia|done|apply configuration_memory|apply configuration_bytes|done|vm_compute (length _); lia|].
  rewrite (option_bind_run _ _ _ E3).
  destruct (set_configuration_transfer signature 1 [] s3 I3) as (s4&E4&K4&I4&D4&N4&B4&T4&P1&P2&_&V4); [lia|].
  exists s4. split; [by eapply serve_run|]. unfold tx_ep, rx_ep, USB_Device_IsAddressSet, reg in *.
  rewrite V4, V3. split; [by rewrite K1, K2, K3|]. do 5 (split; [done|]).
  split; [by rewrite T4, T3, T2, T1, <- !app_assoc|]. split; [done|].
  by rewrite P1, P2, !O3, !O2, !O1.
Qed.

(** ** Properties *)


Lemma reconfigured_link s s' :
  ser_ok s -> same_rings s s' -> bus_idle (hw s') -> USB_DeviceState (hw s') = Configured ->
  tx_ep s' = reconfigured 0x81 0x12 (tx_ep s) -> rx_ep s' = reconfigured 0x80 0x12 (rx_ep s) ->
  link_ok s' /\ rx_bytes s' = rx_bytes s /\ tx_bytes s' = tx_bytes s /\ delivered s' = delivered s /\
  event (tx_ep s') = true /\ event (rx_ep s') = false.
Proof.
  intros (W1&W2&_) (E1&E2&_&_&_) (_&_&Er) Ed Et Ex.
  unfold link_ok, ser_ok, delivered, rx_bytes, tx_bytes. rewrite E1, E2, Er, Ed, Et, Ex. by split_and!.
Qed.

Definition signature_zero (a : Z) : Z := 0.

(** A device that was just enumerated under address 5. *)
Definition enumerated (s : serial) : Prop :=
  enumerate signature_zero 5 8 (on_hw (with_state Default_) serial_zero) = Some s.

Lemma enumerated_exists : exists s, enumerated s /\
  link_ok s /\ clear_buffer s = false /\ event (rx_ep s) = false /\
  rx_bytes s = [] /\ tx_bytes s = [] /\ delivered s = [].
Proof.
  destruct (enumerate_run signature_zero 5 8 (on_hw (with_state Default_) serial_zero))
    as (s'&E&K&I&D&_&_&_&_&_&Et&Ex); [by split_and!|lia|lia|].
  destruct (reconfigured_link (on_hw (with_state Default_) serial_zero) s' serial_zero_ok K I D Et Ex)
    as (H1&H2&H3&H4&_&H5).
  exists s'. split; [exact E|]. split; [exact H1|]. split; [by destruct K as (_&_&->&_)|]. by split_and!.
Qed.

Lemma small_bytes l : bool_decide (Forall (fun b => 0 <= b < 256) l) = true -> Forall is_byte l.
Proof. intros H%bool_decide_eq_true. eapply Forall_impl; [exact H|]. unfold is_byte, is_u. lia. Qed.



(** C22: the link makes progress.  If the host keeps collecting, everything queued
    is delivered after as many rounds as there are bytes, and the ring is empty;
    a packet of the host is read completely, and its endpoint freed for the next
    one, after one upkeep per byte and one more. *)
Theorem usb_link_progress signature ms s l :
  link_ok s ->
  (exists s', drain signature (length (tx_bytes s)) (ms, s) = Some (tt, (ms, s')) /\
   tx_bytes s' = [] /\ delivered s' = delivered s ++ tx_bytes s) /\
  (event (rx_ep s) = true -> bank (rx_ep s) = l -> clear_buffer s = false ->
   (length (rx_bytes s) + length l <= 63)%nat ->
   exists s', upkeep_n signature (length l + 1) (ms, s) = Some (tt, (ms, s')) /\
     rx_bytes s' = rx_bytes s ++ l /\ event (rx_ep s') = false).
Proof.
  intros Hl. split.
  - destruct (drain_spec signature (length (tx_bytes s)) ms s Hl) as (s'&E&_&H1&H2). exists s'.
    rewrite drop_all in H1. split; [done|]. split; [done|]. unfold out_stream in H2. by rewrite H1, app_nil_r in H2.
  - intros He Eb Hc Hlen. destruct (upkeep_n_packet signature l ms s Hl He Eb) as (s'&E&_&H&?&_); [done|].
    rewrite Hc in H. by exists s'.
Qed.

Lemma usb_link_progress_witness : exists s s', enumerated s /\
  drain signature_zero 6 ([], usb_send_msg "cc" (ch "/") [63] s) = Some (tt, ([], s')) /\
  delivered s' = frame "cc" (ch "/") [63].
Proof.
  destruct enumerated_exists as (s&Hs&Hl&_&_&_&Htx&Hdel).
  pose proof (usb_send_msg_spec "cc" (ch "/") [63] s (proj1 Hl)) as Ht.
  specialize (Ht ltac:(by apply small_bytes)). destruct (tx_adds_link _ _ _ Ht Hl) as [Hl0 _].
  destruct Ht as (_&Et&(_&_&_&_&_&Eh)). rewrite Htx in Et.
  assert (Ef : tx_bytes (usb_send_msg "cc" (ch "/") [63] s) = frame "cc" (ch "/") [63]).
  { rewrite Et. reflexivity. }
  destruct (usb_link_progress signature_zero [] _ [] Hl0) as [(s'&E&_&H) _].
  rewrite Ef in E, H. exists s, s'. split; [exact Hs|]. split; [exact E|].
  rewrite H. unfold delivered, tx_ep in *. by rewrite Eh, Hdel.
Defined.

(** flushing.  [usb_flush_input_buffer] empties the input ring, and the rest
    of the packet being received is thrown away as well: after the packet has
    been read to its end the ring is still empty, the endpoint is free and the
    flag is down, so the next packet is received whole. *)
Theorem usb_flush_discards_packet signature ms s l p :
  link_ok s -> event (rx_ep s) = true -> bank (rx_ep s) = l ->
  p <> [] -> Forall is_byte p -> (length p <= 63)%nat ->
  exists s1 s2, upkeep_n signature (length l + 1) (ms, usb_flush_input_buffer s) = Some (tt, (ms, s1)) /\
  rx_bytes s1 = [] /\ event (rx_ep s1) = false /\ clear_buffer s1 = false /\
  upkeep_n signature (length p + 1) (ms, host_packet p s1) = Some (tt, (ms, s2)) /\ rx_bytes s2 = p.
Proof.
  intros Hl He Eb Hp Hpb Hlen.
  destruct (usb_flush_input_buffer_spec s (proj1 Hl)) as (H1&H2&H3&H4&H5).
  set (s0 := usb_flush_input_buffer s) in *.
  assert (Hl0 : link_ok s0).
  { destruct Hl as (_&H). split; [done|]. unfold tx_ep, rx_ep in *. rewrite H5. exact H. }
  destruct (upkeep_n_packet signature l ms s0 Hl0) as (s1&E1&K1&K2&K3&K4); [done|done|by rewrite H4|].
  rewrite H2, H4 in K2. destruct (host_packet_link p s1 K1 K3 Hp Hpb) as (J1&_&_&J4&J5&J6&J7). rewrite K4 in J4.
  destruct (upkeep_n_packet signature p ms (host_packet p s1) J1 J5 J6) as (s2&E2&_&E&_).
  { rewrite J7, K2. cbn [length app]. lia. }
  rewrite J4, J7, K2 in E. by exists s1, s2.
Qed.

(** The rest of a packet of two bytes is thrown away, then another one arrives. *)
Lemma usb_flush_discards_packet_witness : exists s s1 s2, enumerated s /\
  upkeep_n signature_zero 3 ([], usb_flush_input_buffer (host_packet [88; 89] s)) = Some (tt, ([], s1)) /\
  upkeep_n signature_zero 2 ([], host_packet [101] s1) = Some (tt, ([], s2)) /\ rx_bytes s2 = [101].
Proof.
  destruct enumerated_exists as (s&Hs&Hl&_&He&_).
  destruct (host_packet_link [88; 89] _ Hl He) as (H1&_&_&_&H5&H6&_); [done|by apply small_bytes|].
  destruct (usb_flush_discards_packet signature_zero [] _ [88; 89] [101] H1 H5 H6) as (s1&s2&E1&_&_&_&E2&E);
    [done|by apply small_bytes|cbn; lia|].
  exists s, s1, s2. split; [exact Hs|]. split; [exact E1|]. split; [exact E2|exact E].
Defined.

(** C13: enumeration.  From any state of a device that is on the bus with nothing
    pending, a host that asks for the device descriptor, gives the device the
    address [a], asks for the configuration descriptor and chooses configuration 1
    gets exactly those descriptors, in packets of at most eight bytes, and the two
    empty acknowledgements; the device answers to [a] and is configured, its
    rings hold what they held, the line encoding asks the host for new values, and
    the serial link is set up: if the rings were well formed [link_ok] holds, with
    a free bank to send and none received. *)
Theorem enumeration_establishes_link signature a k s :
  bus_idle (hw s) -> ser_ok s -> 1 <= a < 128 -> (8 <= k)%nat ->
  exists s', enumerate signature a k s = Some s' /\
    sent (ep (hw s') 0) = sent (ep (hw s) 0) ++ packets (bytes DeviceDescriptor) ++ [[]] ++
      packets (bytes ConfigurationDescriptor) ++ [[]] /\
    Z.land (reg UDADDR (hw s')) 0x7F = a /\ USB_Device_IsAddressSet (hw s') = true /\
    USB_DeviceState (hw s') = Configured /\ link_ok s' /\
    rx_bytes s' = rx_bytes s /\ tx_bytes s' = tx_bytes s /\ delivered s' = delivered s /\
    event (tx_ep s') = true /\ event (rx_ep s') = false /\ BaudRateBPS (LineEncoding1 s') = 0.
Proof.
  intros Hi Hs Ha Hk. destruct (enumerate_run signature a k s Hi Ha Hk) as (s'&E&K&I&D&_&A&B&S&L&Et&Ex).
  destruct (reconfigured_link s s' Hs K I D Et Ex) as (?&?&?&?&?&?). exists s'. by split_and!.
Qed.

Lemma enumeration_establishes_link_witness : exists s',
  enumerate signature_zero 5 8 (on_hw (with_state Default_) serial_zero) = Some s' /\ link_ok s'.
Proof.
  destruct (enumeration_establishes_link signature_zero 5 8 (on_hw (with_state Default_) serial_zero))
    as (s'&E&_&_&_&_&H&_); [by split_and!|apply serial_zero_ok|lia|lia|].
  exists s'. split; [exact E|exact H].
Defined.
