(* ===== verification/Firmware.v ===== *)
(** * Firmware: Application/application_defines.h and the global state

    The whole state of the firmware as one record (the drivers' static
    variables, the registers, the message flags, the motor controllers, the
    obstacle-avoidance variables and the locals of [main]), the environment's
    future inputs, and the drivers' functions as calls on that state.  A call
    that the C standard gives no meaning is [undefined]. *)
From S2P Require Import Prelude.
From S2P Require Import Float32.
From S2P Require Import RingBuffer.
From S2P Require Import Filter.
From S2P Require Import Controller.
From S2P Require Import Avr.
From S2P Require Import Timing.
From S2P Require Import Encoder.
From S2P Require Import LedServo.
From S2P Require Import MotorPWM.
From S2P Require Import Proximity.
From S2P Require Import Battery.
From S2P Require Import UsbEndpoint.
From S2P Require Import UsbStream.
From S2P Require Import SerialIO.
From S2P Require Import SerialLink.

(** ** application_defines.h *)

Definition WHEEL_BASE : f32 := f32_lit 98 1000.
Definition HALF_WHEEL_BASE : f32 := f32_lit 49 1000.

Record MSG_FLAG_t := { active : bool; duration : f32; last_trigger_time : Time_t }.

(** The fifteen flags, by name. *)
Inductive mf :=
  | mf_restart | mf_loop_timer | mf_time_float_send | mf_send_time | mf_send_encoder
  | mf_send_battery | mf_low_battery | mf_battery_task | mf_timed_pwm | mf_sys_data
  | mf_motor_dist_control | mf_motor_vel_control | mf_motor_stop | mf_ir_proximity
  | mf_obj_avoidance.

Definition mf_index (f : mf) : Z :=
  match f with
  | mf_restart => 0 | mf_loop_timer => 1 | mf_time_float_send => 2 | mf_send_time => 3
  | mf_send_encoder => 4 | mf_send_battery => 5 | mf_low_battery => 6 | mf_battery_task => 7
  | mf_timed_pwm => 8 | mf_sys_data => 9 | mf_motor_dist_control => 10
  | mf_motor_vel_control => 11 | mf_motor_stop => 12 | mf_ir_proximity => 13
  | mf_obj_avoidance => 14
  end.
Definition mf_eqb (f g : mf) : bool := mf_index f =? mf_index g.

#[export] Instance mf_eq_dec : EqDecision mf.
Proof. solve_decision. Defined.

Lemma mf_eqb_spec f g : reflect (f = g) (mf_eqb f g).
Proof. destruct f, g; constructor; done. Qed.

(** ** Obstacle_Avoidance.h: the types of its static variables *)

Inductive eOAReadState := READ_L | READ_R | RUN_DSM.
Inductive eOADSM := INIT | DRIVE_STRAIGHT | TURN_LEFT | TURN_RIGHT | HOLDING.

#[export] Instance eOAReadState_eq_dec : EqDecision eOAReadState.
Proof. solve_decision. Defined.
#[export] Instance eOADSM_eq_dec : EqDecision eOADSM.
Proof. solve_decision. Defined.

Record oa_vars := { read_state : eOAReadState; OA_state : eOADSM; alpha : Z }.

(** ** Main.c: the locals of [main], with the statics of its blocks

    [ticksL_old], [ticksR_old] and [time_old] have no initializer: [None] until
    the first assignment. *)
Record main_vars := {
  bat_val : f32;
  ticksL_old : option f32;
  ticksR_old : option f32;
  time_old : option f32;
  first_time : bool;
  proxy_first : bool;
  float_trip : bool;
  float_start : Time_t;
  loop_trip : bool;
  loop_start : Time_t;
}.

(** ** The environment's inputs still to come

    The conversions of the analog converter, the port values of the infrared
    reads (per read, per sample), what the USB host does while the library waits
    for it, and the chip's signature row. *)
Record environment := {
  conversions : nat -> conversion;
  pinf_reads : nat -> nat -> Z;
  host_moves : list host_move;
  signature : Z -> Z;
}.

Record fw := {
  rg : regs;
  tm : timing;
  enc : encoders;
  bat : battery;
  prox : proximity;
  ser : serial;
  flags : mf -> MSG_FLAG_t;
  ctr_LeftMotor : Controller_t;
  ctr_RightMotor : Controller_t;
  oa : oa_vars;
  loc : main_vars;
  env : environment;
}.

(** One setter per field. *)
Definition set_rg (x : regs) (s : fw) : fw :=
  {| rg := x; tm := tm s; enc := enc s; bat := bat s; prox := prox s; ser := ser s; flags := flags s;
     ctr_LeftMotor := ctr_LeftMotor s; ctr_RightMotor := ctr_RightMotor s; oa := oa s; loc := loc s; env := env s |}.
Definition set_tm (x : timing) (s : fw) : fw :=
  {| rg := rg s; tm := x; enc := enc s; bat := bat s; prox := prox s; ser := ser s; flags := flags s;
     ctr_LeftMotor := ctr_LeftMotor s; ctr_RightMotor := ctr_RightMotor s; oa := oa s; loc := loc s; env := env s |}.
Definition set_enc (x : encoders) (s : fw) : fw :=
  {| rg := rg s; tm := tm s; enc := x; bat := bat s; prox := prox s; ser := ser s; flags := flags s;
     ctr_LeftMotor := ctr_LeftMotor s; ctr_RightMotor := ctr_RightMotor s; oa := oa s; loc := loc s; env := env s |}.
Definition set_bat (x : battery) (s : fw) : fw :=
  {| rg := rg s; tm := tm s; enc := enc s; bat := x; prox := prox s; ser := ser s; flags := flags s;
     ctr_LeftMotor := ctr_LeftMotor s; ctr_RightMotor := ctr_RightMotor s; oa := oa s; loc := loc s; env := env s |}.
Definition set_prox (x : proximity) (s : fw) : fw :=
  {| rg := rg s; tm := tm s; enc := enc s; bat := bat s; prox := x; ser := ser s; flags := flags s;
     ctr_LeftMotor := ctr_LeftMotor s; ctr_RightMotor := ctr_RightMotor s; oa := oa s; loc := loc s; env := env s |}.
Definition set_ser (x : serial) (s : fw) : fw :=
  {| rg := rg s; tm := tm s; enc := enc s; bat := bat s; prox := prox s; ser := x; flags := flags s;
     ctr_LeftMotor := ctr_LeftMotor s; ctr_RightMotor := ctr_RightMotor s; oa := oa s; loc := loc s; env := env s |}.
Definition set_flag (f : mf) (x : MSG_FLAG_t) (s : fw) : fw :=
  {| rg := rg s; tm := tm s; enc := enc s; bat := bat s; prox := prox s; ser := ser s;
     flags := fun g => if mf_eqb g f then x else flags s g;
     ctr_LeftMotor := ctr_LeftMotor s; ctr_RightMotor := ctr_RightMotor s; oa := oa s; loc := loc s; env := env s |}.
Definition upd_flag (f : mf) (g : MSG_FLAG_t -> MSG_FLAG_t) (s : fw) : fw := set_flag f (g (flags s f)) s.
Definition set_left (x : Controller_t) (s : fw) : fw :=
  {| rg := rg s; tm := tm s; enc := enc s; bat := bat s; prox := prox s; ser := ser s; flags := flags s;
     ctr_LeftMotor := x; ctr_RightMotor := ctr_RightMotor s; oa := oa s; loc := loc s; env := env s |}.
Definition set_right (x : Controller_t) (s : fw) : fw :=
  {| rg := rg s; tm := tm s; enc := enc s; bat := bat s; prox := prox s; ser := ser s; flags := flags s;
     ctr_LeftMotor := ctr_LeftMotor s; ctr_RightMotor := x; oa := oa s; loc := loc s; env := env s |}.
Definition upd_left (g : Controller_t -> Controller_t) (s : fw) : fw := set_left (g (ctr_LeftMotor s)) s.
Definition upd_right (g : Controller_t -> Controller_t) (s : fw) : fw := set_right (g (ctr_RightMotor s)) s.
Definition upd_rg (g : regs -> regs) (s : fw) : fw := set_rg (g (rg s)) s.
Definition set_oa (x : oa_vars) (s : fw) : fw :=
  {| rg := rg s; tm := tm s; enc := enc s; bat := bat s; prox := prox s; ser := ser s; flags := flags s;
     ctr_LeftMotor := ctr_LeftMotor s; ctr_RightMotor := ctr_RightMotor s; oa := x; loc := loc s; env := env s |}.
Definition set_loc (x : main_vars) (s : fw) : fw :=
  {| rg := rg s; tm := tm s; enc := enc s; bat := bat s; prox := prox s; ser := ser s; flags := flags s;
     ctr_LeftMotor := ctr_LeftMotor s; ctr_RightMotor := ctr_RightMotor s; oa := oa s; loc := x; env := env s |}.
Definition set_env (x : environment) (s : fw) : fw :=
  {| rg := rg s; tm := tm s; enc := enc s; bat := bat s; prox := prox s; ser := ser s; flags := flags s;
     ctr_LeftMotor := ctr_LeftMotor s; ctr_RightMotor := ctr_RightMotor s; oa := oa s; loc := loc s; env := x |}.

(** ** The drivers as calls on the state *)

Definition call_regs (f : regs -> regs) : M fw unit := modify (upd_rg f).
Definition call_regs_ub (f : regs -> option regs) : M fw unit := fun s =>
  match f (rg s) with Some r => Some (tt, set_rg r s) | None => None end.
Definition call_ser (f : serial -> serial) : M fw unit := modify (fun s => set_ser (f (ser s)) s).
(** A function that may wait for the host uses up some of its moves. *)
Definition next_moves (ms : list host_move) (e : environment) : environment :=
  {| conversions := conversions e; pinf_reads := pinf_reads e; host_moves := ms; signature := signature e |}.
Definition call_sio (m : sio unit) : M fw unit := fun s =>
  match m (host_moves (env s), ser s) with
  | Some (_, (ms, x)) => Some (tt, set_ser x (set_env (next_moves ms (env s)) s))
  | None => None
  end.

Module Call.
(** Timing *)
Definition GetTime : M fw Time_t := gets (fun s => Timing.GetTime (tm s) (rg s)).
Definition GetTimeSec : M fw f32 := gets (fun s => Timing.GetTimeSec (tm s) (rg s)).
Definition SecondsSince (t : Time_t) : M fw Time_t := gets (fun s => Timing.SecondsSince (tm s) (rg s) t).
Definition SetupTimer0 : M fw unit := modify (fun s =>
  let '(t, r) := Timing.SetupTimer0 (tm s) (rg s) in set_tm t (set_rg r s)).

(** Encoder *)
Definition Encoders_Init : M fw unit := modify (fun s =>
  let '(e, r) := Encoder.Encoders_Init (enc s) (rg s) in set_enc e (set_rg r s)).
Definition Counts_Left : M fw Z := state_fn (fun s =>
  let '(n, r) := Encoder.Counts_Left (enc s) (rg s) in (n, set_rg r s)).
Definition Counts_Right : M fw Z := state_fn (fun s =>
  let '(n, r) := Encoder.Counts_Right (enc s) (rg s) in (n, set_rg r s)).
Definition Zero_Encoders : M fw unit := modify (fun s =>
  let '(e, r) := Encoder.Zero_Encoders (enc s) (rg s) in set_enc e (set_rg r s)).

(** Battery_Monitor: the next conversion of the environment is used up; the wait
    gets as much fuel as its latency, which is enough. *)
Definition next_conversion : M fw conversion := fun s =>
  let e := env s in
  Some (conversions e 0,
        set_env {| conversions := fun n => conversions e (S n); pinf_reads := pinf_reads e;
                   host_moves := host_moves e; signature := signature e |} s).
Definition Battery_Monitor_Init_with (c : conversion) : M fw unit := fun s =>
  match Battery.Battery_Monitor_Init (latency c) c (bat s) (rg s) with
  | Some (b, r) => Some (tt, set_bat b (set_rg r s))
  | None => None
  end.
Definition Battery_Monitor_Init : M fw unit :=
  c ← next_conversion; Battery_Monitor_Init_with c.
Definition Battery_Voltage_Task_with (c : conversion) : M fw f32 := fun s =>
  match Battery.Battery_Voltage_Task (latency c) c (bat s) (rg s) with
  | Some (y, b, r) => Some (y, set_bat b (set_rg r s))
  | None => None
  end.
Definition Battery_Voltage_Task : M fw f32 :=
  c ← next_conversion; Battery_Voltage_Task_with c.
Definition Battery_Voltage : M fw f32 := gets (fun s => Battery.Battery_Voltage (bat s)).

(** LED_switch, ServoPWM, MotorPWM *)
Definition LED_Init : M fw unit := call_regs LedServo.LED_Init.
Definition Set_LED (led : eLEDLights) (on : bool) : M fw unit := call_regs (LedServo.Set_LED led on).
Definition Servo_PWM_Init (st : eGripperState) : M fw unit := call_regs (LedServo.Servo_PWM_Init st).
Definition Motor_PWM_Init (n : Z) : M fw unit := call_regs (MotorPWM.Motor_PWM_Init n).
Definition Motor_PWM_Enable (b : bool) : M fw unit := call_regs (MotorPWM.Motor_PWM_Enable b).
Definition Motor_PWM_Left (pwm : Z) : M fw unit := call_regs_ub (MotorPWM.Motor_PWM_Left pwm).
Definition Motor_PWM_Right (pwm : Z) : M fw unit := call_regs_ub (MotorPWM.Motor_PWM_Right pwm).
Definition Get_Motor_PWM_Left : M fw Z := fun s =>
  match MotorPWM.Get_Motor_PWM_Left (rg s) with Some p => Some (p, s) | None => None end.
Definition Get_Motor_PWM_Right : M fw Z := fun s =>
  match MotorPWM.Get_Motor_PWM_Right (rg s) with Some p => Some (p, s) | None => None end.

(** Proximity: a read uses up the environment's samples for it. *)
Definition Proxy_Init : M fw unit := modify (fun s => set_prox (Proximity.Proxy_Init (prox s)) s).
Definition next_reads (e : environment) : environment :=
  {| conversions := conversions e; pinf_reads := fun n => pinf_reads e (S n);
     host_moves := host_moves e; signature := signature e |}.
Definition IRRead (side : eProximitySize) : M fw unit := modify (fun s =>
  let '(p, r) := Proximity.IRRead side (pinf_reads (env s) 0) (prox s) (rg s) in
  set_prox p (set_rg r (set_env (next_reads (env s)) s))).
Definition IR_Counts : M fw t_ProximityReturn := gets (fun s => Proximity.IR_Counts (prox s)).

(** SerialIO *)
Definition usb_send_msg (format : string) (cmd : Z) (data : list Z) : M fw unit :=
  call_ser (SerialIO.usb_send_msg format cmd data).
Definition usb_msg_length : M fw Z := gets (fun s => SerialIO.usb_msg_length (ser s)).
Definition usb_out_msg_length : M fw Z := gets (fun s => SerialIO.usb_out_msg_length (ser s)).
Definition usb_msg_peek : M fw Z := gets (fun s => SerialIO.usb_msg_peek (ser s)).
Definition usb_msg_get : M fw Z := state_fn (fun s =>
  let '(c, x) := SerialIO.usb_msg_get (ser s) in (c, set_ser x s)).
(** The callers ignore the returned truth value and use the object: reading an
    object the call did not fill is undefined. *)
Definition usb_msg_read_into (n : Z) : M fw (list Z) := fun s =>
  match SerialIO.usb_msg_read_into n (ser s) with
  | (Some b, x) => Some (b, set_ser x s)
  | (None, _) => None
  end.
Definition usb_flush_input_buffer : M fw unit := call_ser SerialIO.usb_flush_input_buffer.
Definition USB_Upkeep_Task : M fw unit :=
  g ← gets (fun s => signature (env s)); call_sio (SerialLink.USB_Upkeep_Task g).
Definition USB_SetupHardware : M fw unit := call_sio SerialLink.USB_SetupHardware.

(** Controller *)
Definition Set_Target_Velocity_Left (v : f32) : M fw unit :=
  modify (upd_left (fun c => Controller_Set_Target_Velocity c v)).
Definition Set_Target_Velocity_Right (v : f32) : M fw unit :=
  modify (upd_right (fun c => Controller_Set_Target_Velocity c v)).
Definition Set_Target_Position_Left (p : f32) : M fw unit :=
  modify (upd_left (fun c => Controller_Set_Target_Position c p)).
Definition Set_Target_Position_Right (p : f32) : M fw unit :=
  modify (upd_right (fun c => Controller_Set_Target_Position c p)).
Definition get_left : M fw Controller_t := gets ctr_LeftMotor.
Definition get_right : M fw Controller_t := gets ctr_RightMotor.

(** Message flags: [mf.active = b], [mf.duration = d], [mf.last_trigger_time = t]. *)
Definition set_active (f : mf) (b : bool) : M fw unit := modify (upd_flag f (fun x =>
  {| active := b; duration := duration x; last_trigger_time := last_trigger_time x |})).
Definition set_duration (f : mf) (d : f32) : M fw unit := modify (upd_flag f (fun x =>
  {| active := active x; duration := d; last_trigger_time := last_trigger_time x |})).
Definition set_trigger (f : mf) (t : Time_t) : M fw unit := modify (upd_flag f (fun x =>
  {| active := active x; duration := duration x; last_trigger_time := t |})).
Definition get_flag (f : mf) : M fw MSG_FLAG_t := gets (fun s => flags s f).
End Call.

(** ** The invariant of the whole state *)

(** The registers: in range, the motor timer's TOP as initialized, and both
    compare registers within it. *)
Definition mregs_ok (r : regs) : Prop :=
  regs_ok r /\ r ICR1 = 400 /\ 0 <= r OCR1A <= 400 /\ 0 <= r OCR1B <= 400.

(** The locals of [main]: the old values are set once [first_time] is false. *)
Definition loc_ok (l : main_vars) : Prop :=
  first_time l = false ->
  is_Some (ticksL_old l) /\ is_Some (ticksR_old l) /\ is_Some (time_old l).

(** The environment keeps its promise: converter results of ten bits. *)
Definition env_ok (e : environment) : Prop := forall n, conversion_ok (conversions e n).

Definition fw_ok (s : fw) : Prop :=
  mregs_ok (rg s) /\ timing_ok (tm s) /\ battery_ok (bat s) /\ proximity_ok (prox s) /\
  ser_ok (ser s) /\ loc_ok (loc s) /\ env_ok (env s).

(** *** Registers *)

Lemma mregs_ok_only l r r' :
  only_changes l r r' -> ICR1 ∉ l -> OCR1A ∉ l -> OCR1B ∉ l -> regs_ok r' -> mregs_ok r -> mregs_ok r'.
Proof.
  intros Hl H1 H2 H3 Hr' (_&E1&E2&E3). unfold mregs_ok.
  by rewrite (Hl ICR1 H1), (Hl OCR1A H2), (Hl OCR1B H3).
Qed.

Lemma mregs_regs r : mregs_ok r -> regs_ok r.
Proof. by intros []. Qed.
Lemma mregs_top r : mregs_ok r -> r ICR1 = 400.
Proof. by intros (_&?&_). Qed.
#[export] Hint Resolve mregs_regs mregs_top : regs.

Lemma mregs_Set_LED led on r : mregs_ok r -> mregs_ok (LedServo.Set_LED led on r).
Proof.
  intros H. eapply mregs_ok_only; [apply Set_LED_only|reg_list..| |done]. auto with regs.
Qed.

Lemma Servo_PWM_Init_only st r :
  regs_ok r ->
  only_changes [TCCR4A; TCCR4B; TCCR4D; DDRC; OCR4A; PORTD; OCR4C; TCNT4; TC4H] r
    (LedServo.Servo_PWM_Init st r).
Proof.
  intros Hr x Hx.
  destruct x; try (exfalso; apply Hx; reg_list); try (destruct st; reflexivity).
  destruct st; apply uwrap_id, (Hr SREG).
Qed.

Lemma mregs_Servo_PWM_Init st r : mregs_ok r -> mregs_ok (LedServo.Servo_PWM_Init st r).
Proof.
  intros H. eapply mregs_ok_only; [apply Servo_PWM_Init_only|reg_list..| |done]; auto with regs.
Qed.

Lemma mregs_Motor_PWM_Enable b r : mregs_ok r -> mregs_ok (MotorPWM.Motor_PWM_Enable b r).
Proof.
  intros H. eapply mregs_ok_only; [apply Motor_PWM_Enable_only|reg_list..| |done]; auto with regs.
Qed.

Lemma mregs_adc c r : mregs_ok r -> mregs_ok (adc_regs c r).
Proof.
  intros H. eapply mregs_ok_only; [apply adc_regs_only|reg_list..| |done]; auto with regs.
Qed.

Lemma mregs_same r r' : (forall x, r' x = r x) -> mregs_ok r -> mregs_ok r'.
Proof.
  intros E (H&H1&H2&H3). unfold mregs_ok. rewrite !E. split_and!; try done; try lia.
  intros x. rewrite E. apply H.
Qed.

Lemma mregs_motor_left pwm r r' : mregs_ok r -> motor_state OCR1B 2 pwm r r' -> mregs_ok r'.
Proof.
  intros (_&E1&E2&_) (H1&_&H3&_&H5). split; [done|].
  rewrite (H3 ICR1), (H3 OCR1A), H1 by reg_list.
  split_and!; try done; try lia; apply compare_400_range; lia.
Qed.

Lemma mregs_motor_right pwm r r' : mregs_ok r -> motor_state OCR1A 1 pwm r r' -> mregs_ok r'.
Proof.
  intros (_&E1&_&E3) (H1&_&H3&_&H5). split; [done|].
  rewrite (H3 ICR1), (H3 OCR1B), H1 by reg_list.
  split_and!; try done; try lia; apply compare_400_range; lia.
Qed.

#[export] Hint Resolve mregs_Set_LED mregs_Servo_PWM_Init mregs_Motor_PWM_Enable mregs_adc : regs.

(** Reading a duty cycle back is defined for every compare value up to TOP. *)
Lemma compare_to_duty_defined v : 0 <= v <= 400 ->
  exists p, compare_to_duty v 400 = Some p /\ 0 <= p <= 100.
Proof.
  intros Hv.
  assert (H : forallb (fun v => match compare_to_duty v 400 with
                | Some p => (0 <=? p) && (p <=? 100) | None => false end) (range 0 401) = true)
    by (by vm_compute).
  apply forallb_range with (z := v) in H; [|lia].
  destruct (compare_to_duty v 400) as [p|]; [|done]. exists p. split; [done|].
  rewrite andb_true_iff, !Z.leb_le in H. lia.
Qed.

(** ** Rules for the calls

    Each rule says what a call needs and which state it leaves; the serial calls
    and the motor setters leave a state described by a relation. *)

Lemma fw_ok_mregs s : fw_ok s -> mregs_ok (rg s).
Proof. by intros []. Qed.
Lemma fw_ok_ser s : fw_ok s -> ser_ok (ser s).
Proof. by intros (_&_&_&_&?&_). Qed.
#[export] Hint Resolve fw_ok_mregs fw_ok_ser : regs.

Section rules.
Implicit Types (s : fw).

Lemma wp_send_msg format cmd data Q s :
  ser_ok (ser s) -> Forall is_byte data ->
  (forall x, tx_adds (frame format cmd data) (ser s) x -> Q tt (set_ser x s)) ->
  wp (Call.usb_send_msg format cmd data) Q s.
Proof. intros Hs Hd HQ. apply HQ. by apply usb_send_msg_spec. Qed.

Lemma wp_msg_get b l Q s :
  ser_ok (ser s) -> rx_bytes (ser s) = b :: l ->
  (forall x, rx_takes 1 (ser s) x -> Q b (set_ser x s)) ->
  wp Call.usb_msg_get Q s.
Proof.
  intros Hs E HQ. destruct (usb_msg_get_spec (ser s) b l Hs E) as (x&Ex&Hx).
  unfold Call.usb_msg_get. apply wp_state_fn. rewrite Ex. by apply HQ.
Qed.

Lemma wp_msg_read n Q s :
  ser_ok (ser s) -> (n <= length (rx_bytes (ser s)))%nat ->
  (forall x, rx_takes n (ser s) x -> Q (take n (rx_bytes (ser s))) (set_ser x s)) ->
  wp (Call.usb_msg_read_into (Z.of_nat n)) Q s.
Proof.
  intros Hs Hn HQ. destruct (usb_msg_read_into_spec n (ser s) Hs Hn) as (x&Ex&Hx).
  unfold wp, Call.usb_msg_read_into. rewrite Ex. by apply HQ.
Qed.

Lemma wp_msg_length Q s :
  Q (Z.of_nat (length (rx_bytes (ser s)))) s -> wp Call.usb_msg_length Q s.
Proof. intros HQ. unfold Call.usb_msg_length. apply wp_gets. by rewrite usb_msg_length_spec. Qed.

Lemma wp_out_msg_length Q s :
  Q (Z.of_nat (length (tx_bytes (ser s)))) s -> wp Call.usb_out_msg_length Q s.
Proof. intros HQ. unfold Call.usb_out_msg_length. apply wp_gets. by rewrite usb_out_msg_length_spec. Qed.

Lemma wp_Motor_PWM_Left pwm Q s :
  mregs_ok (rg s) -> -32768 < pwm <= 32767 ->
  (forall r, motor_state OCR1B 2 pwm (rg s) r -> mregs_ok r -> Q tt (set_rg r s)) ->
  wp (Call.Motor_PWM_Left pwm) Q s.
Proof.
  intros Hr Hp HQ.
  destruct (Motor_PWM_Left_spec pwm (rg s)) as (r&E&Hm); [auto with regs..|done|].
  unfold wp, Call.Motor_PWM_Left, call_regs_ub. rewrite E.
  apply HQ; [done|]. by eapply mregs_motor_left.
Qed.

Lemma wp_Motor_PWM_Right pwm Q s :
  mregs_ok (rg s) -> -32768 < pwm <= 32767 ->
  (forall r, motor_state OCR1A 1 pwm (rg s) r -> mregs_ok r -> Q tt (set_rg r s)) ->
  wp (Call.Motor_PWM_Right pwm) Q s.
Proof.
  intros Hr Hp HQ.
  destruct (Motor_PWM_Right_spec pwm (rg s)) as (r&E&Hm); [auto with regs..|done|].
  unfold wp, Call.Motor_PWM_Right, call_regs_ub. rewrite E.
  apply HQ; [done|]. by eapply mregs_motor_right.
Qed.

Lemma wp_Get_Motor_PWM_Left Q s :
  mregs_ok (rg s) -> (forall p, 0 <= p <= 100 -> Q p s) -> wp Call.Get_Motor_PWM_Left Q s.
Proof.
  intros (_&E&_&H) HQ. destruct (compare_to_duty_defined _ H) as (p&Ep&Hp).
  unfold wp, Call.Get_Motor_PWM_Left, MotorPWM.Get_Motor_PWM_Left, Get_MAX_Motor_PWM.
  rewrite E, Ep. by apply HQ.
Qed.

Lemma wp_Get_Motor_PWM_Right Q s :
  mregs_ok (rg s) -> (forall p, 0 <= p <= 100 -> Q p s) -> wp Call.Get_Motor_PWM_Right Q s.
Proof.
  intros (_&E&H&_) HQ. destruct (compare_to_duty_defined _ H) as (p&Ep&Hp).
  unfold wp, Call.Get_Motor_PWM_Right, MotorPWM.Get_Motor_PWM_Right, Get_MAX_Motor_PWM.
  rewrite E, Ep. by apply HQ.
Qed.

(** Counting reads leave the registers as they were. *)
Lemma wp_Counts_Left Q s :
  mregs_ok (rg s) ->
  (forall r, (forall x, r x = rg s x) -> mregs_ok r -> Q (counts (left (enc s))) (set_rg r s)) ->
  wp Call.Counts_Left Q s.
Proof.
  intros Hr HQ. unfold Call.Counts_Left. apply wp_state_fn.
  pose proof (Counts_Left_regs (enc s) (rg s) (mregs_regs _ Hr)) as H.
  destruct (Encoder.Counts_Left (enc s) (rg s)) as [n r] eqn:E. cbn [fst snd] in *.
  injection E as <- _.
  assert (Hx : forall x, r x = rg s x) by (intros x; apply H, not_elem_of_nil).
  apply HQ; [done|]. by eapply mregs_same.
Qed.

Lemma wp_Counts_Right Q s :
  mregs_ok (rg s) ->
  (forall r, (forall x, r x = rg s x) -> mregs_ok r -> Q (counts (right (enc s))) (set_rg r s)) ->
  wp Call.Counts_Right Q s.
Proof.
  intros Hr HQ. unfold Call.Counts_Right. apply wp_state_fn.
  pose proof (Counts_Right_regs (enc s) (rg s) (mregs_regs _ Hr)) as H.
  destruct (Encoder.Counts_Right (enc s) (rg s)) as [n r] eqn:E. cbn [fst snd] in *.
  injection E as <- _.
  assert (Hx : forall x, r x = rg s x) by (intros x; apply H, not_elem_of_nil).
  apply HQ; [done|]. by eapply mregs_same.
Qed.

Lemma wp_Zero_Encoders Q s :
  mregs_ok (rg s) ->
  (forall r, (forall x, r x = rg s x) -> mregs_ok r ->
     Q tt (set_enc (Encoder.Zero_Encoders (enc s) (rg s)).1 (set_rg r s))) ->
  wp Call.Zero_Encoders Q s.
Proof.
  intros Hr HQ. unfold Call.Zero_Encoders. apply wp_modify.
  pose proof (Counts_Left_regs (enc s) (rg s) (mregs_regs _ Hr)) as H.
  assert (Hx : forall x, (Encoder.Counts_Left (enc s) (rg s)).2 x = rg s x)
    by (intros x; apply H, not_elem_of_nil).
  apply (HQ _ Hx). by eapply mregs_same.
Qed.

Lemma next_reads_ok e : env_ok e -> env_ok (Call.next_reads e).
Proof. done. Qed.

Lemma wp_IRRead side Q s :
  mregs_ok (rg s) -> proximity_ok (prox s) ->
  (forall p r,
     count_of side p = Z.b2z (hit (pinf_reads (env s) 0 0%nat)) + Z.b2z (hit (pinf_reads (env s) 0 1%nat)) ->
     count_of (other side) p = count_of (other side) (prox s) ->
     proximity_ok p -> mregs_ok r -> only_changes ir_regs (rg s) r /\ motor_kept (rg s) r ->
     Q tt (set_prox p (set_rg r (set_env (Call.next_reads (env s)) s)))) ->
  wp (Call.IRRead side) Q s.
Proof.
  intros Hm Hp HQ. unfold Call.IRRead. apply wp_modify. cbn zeta.
  pose proof (IRRead_spec side (pinf_reads (env s) 0) (prox s) (rg s) (mregs_regs _ Hm)) as H.
  pose proof (IRRead_ok side (pinf_reads (env s) 0) (prox s) (rg s) (mregs_regs _ Hm) Hp) as [Hok Hr].
  destruct (Proximity.IRRead side (pinf_reads (env s) 0) (prox s) (rg s)) as [p r].
  destruct H as (H1&H2&_&H4&_&H6). cbn [fst snd] in *. apply HQ; try done.
  - eapply mregs_ok_only; [exact H4|unfold ir_regs; reg_list..|done|done].
  - split; [done|]. unfold motor_kept. rewrite !H4 by (unfold ir_regs; reg_list).
    rewrite !H6 by lia. by rewrite !andb_true_r.
Qed.

Lemma wp_Battery_Voltage_Task Q s :
  battery_ok (bat s) -> env_ok (env s) ->
  (forall y b r e, battery_ok b -> Battery.Battery_Voltage b = y ->
     r = adc_regs (conversions (env s) 0) (rg s) -> env_ok e ->
     (forall n, conversions e n = conversions (env s) (S n)) ->
     Q y (set_bat b (set_rg r (set_env e s)))) ->
  wp Call.Battery_Voltage_Task Q s.
Proof.
  intros Hb He HQ. unfold Call.Battery_Voltage_Task. apply wp_bind.
  unfold wp at 1, Call.next_conversion. cbn zeta.
  destruct (Battery_Voltage_Task_spec (latency (conversions (env s) 0)) (conversions (env s) 0)
    (bat s) (rg s) Hb (He 0%nat) ltac:(lia)) as (y&b&E&Hb'&Hy&_).
  unfold wp, Call.Battery_Voltage_Task_with. cbn [set_env bat rg env]. rewrite E.
  apply HQ; try done. intros n. apply He.
Qed.
End rules.

(** ** A running system with given input

    The state shown in the examples: clock and flags at zero, the motor timer
    initialized, the battery at the voltage of sample 1000, and the bytes [l]
    received. *)
Definition sample_conversion : conversion := {| latency := 1; sample := 1000 |}.

Definition fw_boot : fw := {|
  rg := regs_zero; tm := timing_zero;
  enc := encoders_zero; bat := battery_zero;
  prox := {| m_nLEDProxyCountLeft := 0; m_nLEDProxyCountRight := 0 |};
  ser := serial_zero;
  flags := fun _ => {| active := false; duration := f32_zero;
                       last_trigger_time := {| millisec := 0; microsec := 0 |} |};
  ctr_LeftMotor := controller_zero; ctr_RightMotor := controller_zero;
  oa := {| read_state := READ_L; OA_state := INIT; alpha := 0 |};
  loc := {| bat_val := f32_zero; ticksL_old := None; ticksR_old := None; time_old := None;
            first_time := true; proxy_first := true;
            float_trip := false; float_start := {| millisec := 0; microsec := 0 |};
            loop_trip := false; loop_start := {| millisec := 0; microsec := 0 |} |};
  env := {| conversions := fun _ => sample_conversion; pinf_reads := fun _ _ => 0;
            host_moves := []; signature := signature_zero |} |}.

Definition fw_sample (l : list Z) : fw :=
  set_rg (rset ICR1 400 regs_zero)
    (set_bat (from_option fst battery_zero
                (Battery.Battery_Monitor_Init 1 sample_conversion battery_zero regs_zero))
      (set_ser (with_rx (fold_left (fun b c => rb_push_back_C b (s8 c)) l ring_zero_C) serial_zero) fw_boot)).

Lemma fw_sample_ok l :
  Forall is_byte l -> (length l <= 63)%nat ->
  fw_ok (fw_sample l) /\ rx_bytes (ser (fw_sample l)) = l /\ tx_bytes (ser (fw_sample l)) = [] /\
  Battery.Battery_Voltage (bat (fw_sample l)) = volts sample_conversion.
Proof.
  intros Hl Hn.
  destruct (Battery_Monitor_Init_spec 1 sample_conversion battery_zero regs_zero)
    as (b&r&E&Hb&Hv&_); [apply battery_zero_wf|unfold conversion_ok; simpl; lia|simpl; lia|].
  destruct (push_run ring_zero_C l) as [W C]; [apply wf_ring_zero_C|].
  unfold fw_sample. rewrite E. unfold fw_ok.
  cbn [rg tm bat prox ser loc env set_rg set_bat set_ser fw_boot from_option fst].
  split_and!; try done.
  - split; [auto with regs|]. split_and!; vm_compute; done.
  - unfold rx_bytes. cbn [usb_receive_buffer with_rx]. rewrite C, (u8_bytes l) by done.
    change (u8 <$> contents_C ring_zero_C) with (@nil Z). by rewrite lastn_all.
Qed.
