(* ===== verification/MessageHandling.v ===== *)
(** * MessageHandling: Application/MEGN540_MessageHandeling.c

    The command interpreter: the message flags, the length of each command, one
    definition per [case] of the switch, and [Message_Handling_Task].  A case is
    entered when its command is the first byte of the input; it does nothing
    until the whole message is there. *)
From S2P Require Import Prelude.
From S2P Require Import Float32.
From S2P Require Import Controller.
From S2P Require Import Avr.
From S2P Require Import Timing.
From S2P Require Import LedServo.
From S2P Require Import MotorPWM.
From S2P Require Import Proximity.
From S2P Require Import SerialIO.
From S2P Require Import Firmware.
Import Call.

Definition TURN_VELOCITY : f32 := f32_lit 1 10.
Definition MIN_TURN_ARC : f32 := f32_lit 4 100.
Definition SPIN_DUTYCYLE : Z := 25.

(** ** The flags *)

Definition MSG_FLAG_Init (f : mf) : M fw unit :=
  modify (set_flag f {| active := false; duration := f32_of_Z (-1);
                        last_trigger_time := {| millisec := 0; microsec := 0 |} |}).

Definition MSG_FLAG_Execute (f : mf) : M fw bool :=
  p_flag ← get_flag f;
  if active p_flag then
    (* Determine time since flag was last set *)
    delta_time ← SecondsSince (last_trigger_time p_flag);
    if (f32_of_Z (millisec delta_time) >= duration p_flag)%f32 then mret true else mret false
  else mret false.

Definition Message_Handling_Init : M fw unit :=
  MSG_FLAG_Init mf_restart;;
  MSG_FLAG_Init mf_loop_timer;;
  MSG_FLAG_Init mf_time_float_send;;
  MSG_FLAG_Init mf_send_time;;
  MSG_FLAG_Init mf_send_encoder;;
  MSG_FLAG_Init mf_send_battery;;
  MSG_FLAG_Init mf_low_battery;;
  MSG_FLAG_Init mf_timed_pwm;;
  MSG_FLAG_Init mf_sys_data;;
  MSG_FLAG_Init mf_motor_dist_control;;
  MSG_FLAG_Init mf_motor_stop;;
  MSG_FLAG_Init mf_ir_proximity.

Definition Reset_Drive_Flags : M fw unit :=
  set_active mf_obj_avoidance false;;
  set_active mf_motor_dist_control false;;
  set_active mf_motor_vel_control false;;
  set_active mf_motor_stop false;;
  set_active mf_timed_pwm false;;
  (* Turn off red LED *)
  Set_LED RED false.

(** ** Messages *)

Definition MEGN540_Message_Len (cmd : Z) : Z :=
  if cmd =? ch "~" then 1 else
  if cmd =? ch "*" then 9 else
  if cmd =? ch "/" then 9 else
  if cmd =? ch "+" then 9 else
  if cmd =? ch "-" then 9 else
  if cmd =? ch "t" then 2 else
  if cmd =? ch "T" then 6 else
  if cmd =? ch "e" then 1 else
  if cmd =? ch "E" then 5 else
  if cmd =? ch "b" then 1 else
  if cmd =? ch "B" then 5 else
  if cmd =? ch "p" then 5 else
  if cmd =? ch "P" then 9 else
  if cmd =? ch "s" then 1 else
  if cmd =? ch "S" then 1 else
  if cmd =? ch "q" then 1 else
  if cmd =? ch "Q" then 5 else
  if cmd =? ch "d" then 9 else
  if cmd =? ch "D" then 13 else
  if cmd =? ch "v" then 9 else
  if cmd =? ch "V" then 13 else
  if cmd =? ch "i" then 1 else
  if cmd =? ch "I" then 5 else
  if cmd =? ch "G" then 2 else
  if cmd =? ch "O" then 5 else 0.

Definition Send_Time_Message (cmd arg : Z) (time : f32) : M fw unit :=
  usb_send_msg "ccf" cmd (u8 arg :: bytes_of_f32 time).

(** [if(usb_msg_length() >= MEGN540_Message_Len(cmd)) { ... }] *)
Definition if_complete (cmd : Z) (body : M fw unit) : M fw unit :=
  n ← usb_msg_length;
  when (MEGN540_Message_Len cmd <=? n) body.

(** The float and the 16-bit integer at an offset of a packed structure. *)
Definition float_at (off : nat) (data : list Z) : f32 := f32_of_bytes (take 4 (drop off data)).
Definition int_at (off : nat) (data : list Z) : Z := s16 (le_combine (take 2 (drop off data))).
Definition char_at (off : nat) (data : list Z) : Z := s8 (default 0 (data !! off)).

(** [char bad_input = '?'; usb_send_msg("cc", command, &bad_input, 1);] *)
Definition send_bad_input (command : Z) : M fw unit := usb_send_msg "cc" command [ch "?"].

(** The two battery warnings. *)
Definition send_bat_low (bat_val : f32) : M fw unit :=
  usb_send_msg "ccccccccf" (ch "!") (codes "BAT LOW" ++ bytes_of_f32 bat_val).
Definition send_power_off (bat_val : f32) : M fw unit :=
  usb_send_msg "ccccccccccf" (ch "!") (codes "POWER OFF" ++ bytes_of_f32 bat_val).

(** ** Arithmetic *)

Definition case_multiply (command : Z) : M fw unit := if_complete (ch "*") (
  usb_msg_get;;
  data ← usb_msg_read_into 8;
  let ret_val := (float_at 0 data * float_at 4 data)%f32 in
  usb_send_msg "cf" command (bytes_of_f32 ret_val)).

Definition case_divide (command : Z) : M fw unit := if_complete (ch "/") (
  usb_msg_get;;
  data ← usb_msg_read_into 8;
  if negb (f32_eq (float_at 4 data) f32_zero) then
    let ret_val := (float_at 0 data / float_at 4 data)%f32 in
    usb_send_msg "cf" command (bytes_of_f32 ret_val)
  else
    (* Divide by zero: send '?' back to user *)
    send_bad_input command).

Definition case_add (command : Z) : M fw unit := if_complete (ch "+") (
  usb_msg_get;;
  data ← usb_msg_read_into 8;
  let ret_val := (float_at 0 data + float_at 4 data)%f32 in
  usb_send_msg "cf" command (bytes_of_f32 ret_val)).

Definition case_subtract (command : Z) : M fw unit := if_complete (ch "-") (
  usb_msg_get;;
  data ← usb_msg_read_into 8;
  let ret_val := (float_at 0 data - float_at 4 data)%f32 in
  usb_send_msg "cf" command (bytes_of_f32 ret_val)).

(** ** Restart, timing and reports *)

Definition case_restart (command : Z) : M fw unit := if_complete (ch "~") (
  set_active mf_restart true).

Definition case_t (command : Z) : M fw unit := if_complete (ch "t") (
  usb_msg_get;;
  action ← usb_msg_get;
  let action := s8 action in
  if action =? 0x00 then
    set_active mf_send_time true;; set_duration mf_send_time (f32_of_Z (-1))
  else if action =? 0x01 then
    set_active mf_time_float_send true;; set_duration mf_time_float_send (f32_of_Z (-1))
  else if action =? 0x02 then
    set_active mf_loop_timer true;; set_duration mf_loop_timer (f32_of_Z (-1))
  else send_bad_input command).

Definition case_T (command : Z) : M fw unit := if_complete (ch "T") (
  usb_msg_get;;
  data ← usb_msg_read_into 5;
  let action := char_at 0 data in
  let dur := float_at 1 data in
  if (action =? 0x00) && (dur > f32_zero)%f32 then
    set_active mf_send_time true;;
    (* Convert duration from s to ms *)
    set_duration mf_send_time (dur * f32_of_Z 1000)%f32
  else if (action =? 0x01) && (dur > f32_zero)%f32 then
    set_active mf_time_float_send true;;
    set_duration mf_time_float_send (dur * f32_of_Z 1000)%f32
  else if (action =? 0x02) && (dur > f32_zero)%f32 then
    set_active mf_loop_timer true;;
    set_duration mf_loop_timer (dur * f32_of_Z 1000)%f32
  else send_bad_input command).

Definition case_e (command : Z) : M fw unit := if_complete (ch "e") (
  usb_msg_get;;
  set_active mf_send_encoder true;;
  set_duration mf_send_encoder (f32_of_Z (-1))).

Definition case_E (command : Z) : M fw unit := if_complete (ch "E") (
  usb_msg_get;;
  data ← usb_msg_read_into 4;
  let dur := float_at 0 data in
  if (dur > f32_zero)%f32 then
    set_active mf_send_encoder true;;
    set_duration mf_send_encoder (dur * f32_of_Z 1000)%f32
  else send_bad_input command).

Definition case_b (command : Z) : M fw unit := if_complete (ch "b") (
  usb_msg_get;;
  set_active mf_send_battery true;;
  set_duration mf_send_battery (f32_of_Z (-1))).

Definition case_B (command : Z) : M fw unit := if_complete (ch "B") (
  usb_msg_get;;
  data ← usb_msg_read_into 4;
  let dur := float_at 0 data in
  if (dur > f32_zero)%f32 then
    set_active mf_send_battery true;;
    set_duration mf_send_battery (dur * f32_of_Z 1000)%f32
  else send_bad_input command).

(** ** Direct motor commands *)

Definition case_p (command : Z) : M fw unit := if_complete (ch "p") (
  usb_msg_get;;
  data ← usb_msg_read_into 4;
  bat_val ← Battery_Voltage;
  if (bat_val >= f32_lit 475 100)%f32 then
    (* Set left and right duty cycle *)
    Motor_PWM_Left (int_at 0 data);;
    Motor_PWM_Right (int_at 2 data);;
    (* Enable PWM *)
    Motor_PWM_Enable true;;
    (* Deactivate other flags *)
    set_active mf_motor_dist_control false;;
    set_active mf_motor_vel_control false;;
    set_active mf_motor_stop false;;
    set_active mf_timed_pwm false
  else if (bat_val > f32_lit 35 10)%f32 then send_bat_low bat_val
  else send_power_off bat_val).

Definition case_P (command : Z) : M fw unit := if_complete (ch "P") (
  usb_msg_get;;
  data ← usb_msg_read_into 8;
  bat_val ← Battery_Voltage;
  if (bat_val >= f32_lit 475 100)%f32 then
    let dur := float_at 4 data in
    if (dur > f32_zero)%f32 then
      (* Set left and right duty cycle *)
      Motor_PWM_Left (int_at 0 data);;
      Motor_PWM_Right (int_at 2 data);;
      (* Enable PWM *)
      Motor_PWM_Enable true;;
      set_active mf_timed_pwm true;;
      now ← GetTime;
      set_trigger mf_timed_pwm now;;
      (* Convert duration from s to ms *)
      set_duration mf_timed_pwm (dur * f32_of_Z 1000)%f32;;
      (* Deactivate other flags *)
      set_active mf_motor_dist_control false;;
      set_active mf_motor_vel_control false;;
      set_active mf_motor_stop false
    else send_bad_input command
  else if (bat_val > f32_lit 35 10)%f32 then send_bat_low bat_val
  else send_power_off bat_val).

Definition case_s (command : Z) : M fw unit := if_complete (ch "s") (
  (* Reset all motor control related flags *)
  Reset_Drive_Flags;;
  (* Remove char byte *)
  usb_msg_get;;
  (* Disable PWM *)
  Motor_PWM_Enable false;;
  (* Stop PWM *)
  Motor_PWM_Left 0;;
  Motor_PWM_Right 0;;
  (* Stop controllers *)
  Set_Target_Position_Left f32_zero;;
  Set_Target_Position_Right f32_zero;;
  Set_Target_Velocity_Left f32_zero;;
  Set_Target_Velocity_Right f32_zero).

Definition case_q (command : Z) : M fw unit := if_complete (ch "q") (
  usb_msg_get;;
  set_active mf_sys_data true;;
  set_duration mf_sys_data (f32_of_Z (-1))).

Definition case_Q (command : Z) : M fw unit := if_complete (ch "Q") (
  usb_msg_get;;
  data ← usb_msg_read_into 4;
  let dur := float_at 0 data in
  if (dur > f32_zero)%f32 then
    set_active mf_sys_data true;;
    set_duration mf_sys_data (dur * f32_of_Z 1000)%f32
  else send_bad_input command).

(** ** Driving *)

(** What a drive command asks of the two wheels. *)
Record targets := {
  distance_left : f32;
  distance_right : f32;
  velocity_left : f32;
  velocity_right : f32;
}.

(** [(data.angular < 0.01) && (data.angular > -0.01)] *)
Definition goes_straight (angular : f32) : bool :=
  (angular < f32_lit 1 100)%f32 && (angular > f32_lit (-1) 100)%f32.

(** [usb_send_msg("ccccccc", command, "Go Str", 6)] and the other answer. *)
Definition say_straight (command : Z) : M fw unit := usb_send_msg "ccccccc" command (codes "Go Str").
Definition say_turn (command : Z) : M fw unit := usb_send_msg "ccccc" command (codes "Turn").

(** The turn of the 'd' and 'D' commands: a spin when the arc is short,
    otherwise an inner track of the given length and an outer one. *)
Definition turn_targets (linear angular : f32) : targets :=
  let linear := if (linear < f32_zero)%f32 then (linear * f32_of_Z (-1))%f32 else linear in
  if (linear < MIN_TURN_ARC)%f32 then
    (* Just spin *)
    let d := (HALF_WHEEL_BASE * angular / f32_of_Z 2)%f32 in
    let '(dl, dr) :=
      if (angular > f32_zero)%f32 then ((f32_of_Z (-1) * d)%f32, d)
      else (d, (f32_of_Z (-1) * d)%f32) in
    {| distance_left := dl; distance_right := dr;
       velocity_left := DutyCycle_to_Velocity_Left SPIN_DUTYCYLE;
       velocity_right := DutyCycle_to_Velocity_Right SPIN_DUTYCYLE |}
  else if (angular > f32_zero)%f32 then
    (* Turn left *)
    let dl := linear in
    let r := (linear / angular)%f32 in
    let dr := (angular * (r + WHEEL_BASE))%f32 in
    let dt := (dl / TURN_VELOCITY)%f32 in
    {| distance_left := dl; distance_right := dr;
       velocity_left := TURN_VELOCITY; velocity_right := (dr / dt)%f32 |}
  else
    (* Turn right *)
    let angular := (angular * f32_of_Z (-1))%f32 in
    let dr := linear in
    let r := (linear / angular)%f32 in
    let dl := (angular * (r + WHEEL_BASE))%f32 in
    let dt := (dr / TURN_VELOCITY)%f32 in
    {| distance_left := dl; distance_right := dr;
       velocity_left := (dl / dt)%f32; velocity_right := TURN_VELOCITY |}.

(** Straight on for a distance, at 75% duty cycle. *)
Definition straight_targets (linear : f32) : targets :=
  {| distance_left := linear; distance_right := linear;
     velocity_left := DutyCycle_to_Velocity_Left 75;
     velocity_right := DutyCycle_to_Velocity_Right 75 |}.

(** The velocities of the 'v' and 'V' commands. *)
Definition velocity_targets (velocity angular : f32) : targets :=
  let '(vl, vr) :=
    if goes_straight angular then (velocity, velocity)
    else if (angular > f32_zero)%f32 then (velocity, (velocity + WHEEL_BASE * angular)%f32)
    else ((velocity + WHEEL_BASE * angular)%f32, velocity) in
  {| distance_left := f32_zero; distance_right := f32_zero;
     velocity_left := vl; velocity_right := vr |}.

(** Assign the targets to the controllers and zero the encoders. *)
Definition set_targets (g : targets) : M fw unit :=
  Set_Target_Position_Left (distance_left g);;
  Set_Target_Position_Right (distance_right g);;
  Set_Target_Velocity_Left (velocity_left g);;
  Set_Target_Velocity_Right (velocity_right g);;
  Zero_Encoders.

(** Start the distance or the velocity control, with the controller's period. *)
Definition start_control (f : mf) : M fw unit :=
  set_active f true;;
  c ← get_left;
  set_duration f (update_period c).

(** [mf_motor_stop] in [duration] seconds. *)
Definition stop_after (dur : f32) : M fw unit :=
  set_active mf_motor_stop true;;
  set_duration mf_motor_stop (dur * f32_of_Z 1000)%f32;;
  now ← GetTime;
  set_trigger mf_motor_stop now.

(** The battery branches of the drive commands. *)
Definition battery_warning (bat_val : f32) : M fw unit :=
  if (bat_val < f32_of_Z 3)%f32 then send_bat_low bat_val else send_power_off bat_val.

Definition case_d (command : Z) : M fw unit := if_complete (ch "d") (
  usb_msg_get;;
  data ← usb_msg_read_into 8;
  let linear := float_at 0 data in
  let angular := float_at 4 data in
  bat_val ← Battery_Voltage;
  if (bat_val >= f32_lit 475 100)%f32 then
    Reset_Drive_Flags;;
    g ← (if goes_straight angular
         then say_straight command;; mret (straight_targets linear)
         else say_turn command;; mret (turn_targets linear angular));
    set_targets g;;
    start_control mf_motor_dist_control
  else battery_warning bat_val).

Definition case_D (command : Z) : M fw unit := if_complete (ch "D") (
  usb_msg_get;;
  data ← usb_msg_read_into 12;
  let linear := float_at 0 data in
  let angular := float_at 4 data in
  bat_val ← Battery_Voltage;
  if (bat_val >= f32_lit 475 100)%f32 then
    Reset_Drive_Flags;;
    g ← (if goes_straight angular
         then say_straight command;; mret (straight_targets linear)
         else say_turn command;; mret (turn_targets linear angular));
    set_targets g;;
    start_control mf_motor_dist_control;;
    stop_after (float_at 8 data)
  else battery_warning bat_val).

Definition case_v (command : Z) : M fw unit := if_complete (ch "v") (
  usb_msg_get;;
  data ← usb_msg_read_into 8;
  let velocity := float_at 0 data in
  let angular := float_at 4 data in
  bat_val ← Battery_Voltage;
  if (bat_val >= f32_lit 475 100)%f32 then
    Reset_Drive_Flags;;
    (if goes_straight angular then say_straight command else say_turn command);;
    set_targets (velocity_targets velocity angular);;
    start_control mf_motor_vel_control
  else battery_warning bat_val).

Definition case_V (command : Z) : M fw unit := if_complete (ch "V") (
  usb_msg_get;;
  data ← usb_msg_read_into 12;
  let velocity := float_at 0 data in
  let angular := float_at 4 data in
  bat_val ← Battery_Voltage;
  if (bat_val >= f32_lit 475 100)%f32 then
    Reset_Drive_Flags;;
    (if goes_straight angular then say_straight command else say_turn command);;
    set_targets (velocity_targets velocity angular);;
    start_control mf_motor_vel_control;;
    stop_after (float_at 8 data)
  else battery_warning bat_val).

(** ** Sensors, gripper, obstacle avoidance *)

Definition case_i (command : Z) : M fw unit := if_complete (ch "i") (
  usb_msg_get;;
  set_active mf_ir_proximity true;;
  set_duration mf_ir_proximity (f32_of_Z (-1))).

Definition case_I (command : Z) : M fw unit := if_complete (ch "I") (
  usb_msg_get;;
  data ← usb_msg_read_into 4;
  let dur := float_at 0 data in
  if (dur > f32_zero)%f32 then
    set_active mf_ir_proximity true;;
    set_duration mf_ir_proximity (dur * f32_of_Z 1000)%f32
  else send_bad_input command).

Definition case_G (command : Z) : M fw unit := if_complete (ch "G") (
  usb_msg_get;;
  (* Grab command from buffer (O: open, C: closed) *)
  data ← usb_msg_read_into 1;
  let command := char_at 0 data in
  if command =? ch "O" then Servo_PWM_Init OPEN
  else if command =? ch "C" then Servo_PWM_Init CLOSE
  else send_bad_input (ch "G")).

(** Obstacle_Avoidance.c *)
Definition Init_Obstacle_Avoidance : M fw unit :=
  modify (set_oa {| read_state := READ_L; OA_state := INIT; alpha := 0 |}).

Definition case_O (command : Z) : M fw unit := if_complete (ch "O") (
  usb_msg_get;;
  data ← usb_msg_read_into 4;
  let dur := float_at 0 data in
  bat_val ← Battery_Voltage;
  if (bat_val >= f32_lit 475 100)%f32 then
    if (dur > f32_zero)%f32 then
      (* Reset all motor control related flags *)
      Reset_Drive_Flags;;
      (* Initialize obstacle avoidance, set flag *)
      Init_Obstacle_Avoidance;;
      set_active mf_obj_avoidance true;;
      set_duration mf_obj_avoidance (dur * f32_of_Z 1000)%f32
    else send_bad_input command
  else battery_warning bat_val).

Definition case_default (command : Z) : M fw unit :=
  (* Clear input buffer *)
  usb_flush_input_buffer;;
  (* Send '?' back to user *)
  send_bad_input command.

(** ** The task *)

Definition dispatch (command : Z) : M fw unit :=
  if command =? ch "*" then case_multiply command else
  if command =? ch "/" then case_divide command else
  if command =? ch "+" then case_add command else
  if command =? ch "-" then case_subtract command else
  if command =? ch "~" then case_restart command else
  if command =? ch "t" then case_t command else
  if command =? ch "T" then case_T command else
  if command =? ch "e" then case_e command else
  if command =? ch "E" then case_E command else
  if command =? ch "b" then case_b command else
  if command =? ch "B" then case_B command else
  if command =? ch "p" then case_p command else
  if command =? ch "P" then case_P command else
  if (command =? ch "s") || (command =? ch "S") then case_s command else
  if command =? ch "q" then case_q command else
  if command =? ch "Q" then case_Q command else
  if command =? ch "d" then case_d command else
  if command =? ch "D" then case_D command else
  if command =? ch "v" then case_v command else
  if command =? ch "V" then case_V command else
  if command =? ch "i" then case_i command else
  if command =? ch "I" then case_I command else
  if command =? ch "G" then case_G command else
  if command =? ch "O" then case_O command else
  case_default command.

Definition Message_Handling_Task : M fw unit :=
  (* Check to see if there is data in waiting *)
  n ← usb_msg_length;
  if negb (to_bool n) then mret tt else
  (* Get the command designator without removal, so if there are not enough
     bytes yet, the command persists *)
  command ← usb_msg_peek;
  dispatch (s8 command).
