(* ===== verification/MessageSpec.v ===== *)
(** * MessageSpec: what the command interpreter does

    The protocol as seen from outside: every command that arrives completely is
    taken off the input whole and answered by at most one well-formed frame;
    what each group of commands does to the motors, targets and flags.  The
    proofs run the handlers symbolically with the rules of Firmware.v. *)
From S2P Require Import Prelude.
From S2P Require Import Float32.
From S2P Require Import RingBuffer.
From S2P Require Import Filter.
From S2P Require Import Controller.
From S2P Require Import Avr.
From S2P Require Import Timing.
From S2P Require Import Encoder.
From S2P Require Import LedServo.
From S2P Require Import MotorPWM.
From S2P Require Import Proximity.
From S2P Require Import Battery.
From S2P Require Import UsbEndpoint.
From S2P Require Import SerialIO.
From S2P Require Import Firmware.
From S2P Require Import MessageHandling.
Import Call.

(** ** Serial steps *)

(** From [x] to [y], [n] bytes were taken from the input and the bytes [out]
    were added to the output, and nothing else happened. *)
Definition ser_step (n : nat) (out : list Z) (x y : serial) : Prop :=
  ser_ok y /\ rx_bytes y = drop n (rx_bytes x) /\ tx_bytes y = lastn 63 (tx_bytes x ++ out) /\
  hw y = hw x /\ clear_buffer y = clear_buffer x /\ reading y = reading x /\
  sending y = sending x /\ LineEncoding1 y = LineEncoding1 x.

Lemma ser_step_refl x : ser_ok x -> ser_step 0 [] x x.
Proof.
  intros Hx. split_and!; try done. rewrite app_nil_r, lastn_all; [done|]. by apply tx_bound.
Qed.

Lemma ser_step_takes n m out x y z :
  ser_step n out x y -> rx_takes m y z -> ser_step (n + m) out x z.
Proof.
  intros (H1&H2&H3&H4&H5&H6&H7&H8) (G1&G2&G3&(_&G5&G6&G7&G8&G9)).
  split_and!; try congruence. rewrite G2, H2. by rewrite drop_drop.
Qed.

Lemma ser_step_adds n out l x y z :
  ser_step n out x y -> tx_adds l y z -> ser_step n (out ++ l) x z.
Proof.
  intros (H1&H2&H3&H4&H5&H6&H7&H8) (G1&G2&(G3&G4&G5&G6&G7&G8)).
  split_and!; try congruence.
  - rewrite <- H2. unfold rx_bytes. by rewrite G3.
  - by rewrite G2, H3, lastn_app_lastn, <- app_assoc.
Qed.

Lemma ser_step_ok n out x y : ser_step n out x y -> ser_ok y.
Proof. by intros []. Qed.
#[export] Hint Resolve ser_step_ok ser_step_refl : regs.

Section rules.
Context (x0 : serial).
Implicit Types (s : fw).

Lemma step_send n out format cmd data Q s :
  ser_step n out x0 (ser s) -> Forall is_byte data ->
  (forall x, ser_step n (out ++ frame format cmd data) x0 x -> Q tt (set_ser x s)) ->
  wp (usb_send_msg format cmd data) Q s.
Proof.
  intros H Hd HQ. apply wp_send_msg; [apply H|done|]. intros x Hx. apply HQ.
  by eapply ser_step_adds.
Qed.

Lemma step_get n out b Q s :
  ser_step n out x0 (ser s) -> rx_bytes x0 !! n = Some b ->
  (forall x, ser_step (n + 1) out x0 x -> Q b (set_ser x s)) ->
  wp usb_msg_get Q s.
Proof.
  intros H Hb HQ.
  assert (E : rx_bytes (ser s) = b :: drop (S n) (rx_bytes x0)).
  { destruct H as (_&->&_). by apply drop_S. }
  eapply wp_msg_get; [apply H|exact E|]. intros x Hx. apply HQ. by eapply ser_step_takes.
Qed.

Lemma step_read n out (m : nat) (mz : Z) Q s :
  ser_step n out x0 (ser s) -> mz = Z.of_nat m -> (n + m <= length (rx_bytes x0))%nat ->
  (forall x, ser_step (n + m) out x0 x -> Q (take m (drop n (rx_bytes x0))) (set_ser x s)) ->
  wp (usb_msg_read_into mz) Q s.
Proof.
  intros H -> Hl HQ. pose proof H as (Hok&E&_).
  apply wp_msg_read; [done|rewrite E, length_drop; lia|]. intros x Hx. rewrite E.
  apply HQ. by eapply ser_step_takes.
Qed.
End rules.

(** ** Well-formed replies *)

(** The number of bytes a format string describes, [None] for an unknown code. *)
Fixpoint format_size (format : list Z) : option nat :=
  match format with
  | [] => Some 0%nat
  | c :: format =>
      k ← (if c =? ch "c" then Some 1%nat
           else if c =? ch "h" then Some 2%nat
           else if c =? ch "f" then Some 4%nat else None);
      n ← format_size format;
      Some (k + n)%nat
  end.

(** The format describes the command byte and the data, and the whole frame fits
    the ring twice over. *)
Definition well_formed (format : string) (data : list Z) : Prop :=
  format_size (codes format) = Some (1 + length data)%nat /\ no_nul format /\
  Forall is_byte data /\ (String.length format + length data <= 28)%nat.

(** Nothing, one answer to the command, or one warning. *)
Inductive reply (cmd : Z) : list Z -> Prop :=
  | reply_none : reply cmd []
  | reply_answer format data : well_formed format data -> reply cmd (frame format cmd data)
  | reply_warning format data : well_formed format data -> reply cmd (frame format (ch "!") data).

(** At most one source of motor commands: while the distance control is active
    the velocity control and the obstacle avoidance are not. *)
Definition one_driver (s : fw) : Prop :=
  active (flags s mf_motor_dist_control) = true ->
  active (flags s mf_motor_vel_control) = false /\ active (flags s mf_obj_avoidance) = false.

(** If the obstacle avoidance is active afterwards, it was before and neither its
    variables nor the velocity targets changed, or it was just started; a pending
    stop is not added to it. *)
Definition avoidance_kept (s s' : fw) : Prop :=
  active (flags s' mf_obj_avoidance) = true ->
  (active (flags s mf_obj_avoidance) = true /\ oa s' = oa s /\
   target_vel (ctr_LeftMotor s') = target_vel (ctr_LeftMotor s) /\
   target_vel (ctr_RightMotor s') = target_vel (ctr_RightMotor s) /\
   (active (flags s' mf_motor_stop) = true -> active (flags s mf_motor_stop) = true)) \/
  (oa s' = {| read_state := READ_L; OA_state := INIT; alpha := 0 |} /\
   active (flags s' mf_motor_stop) = false).

(** The handler took [n] bytes, replied, kept the invariants, and left clock,
    battery, infrared counters, the locals of [main] and the environment alone. *)
Definition handled (n : nat) (cmd : Z) (s s' : fw) : Prop :=
  fw_ok s' /\ (exists out, reply cmd out /\ ser_step n out (ser s) (ser s')) /\
  (one_driver s -> one_driver s') /\ avoidance_kept s s' /\
  tm s' = tm s /\ bat s' = bat s /\ prox s' = prox s /\ loc s' = loc s /\ env s' = env s.

(** Registers, encoders, controllers, obstacle avoidance and the drive flags are
    as before: nothing was done to the robot's motion. *)
Definition still (s s' : fw) : Prop :=
  rg s' = rg s /\ enc s' = enc s /\ ctr_LeftMotor s' = ctr_LeftMotor s /\
  ctr_RightMotor s' = ctr_RightMotor s /\ oa s' = oa s /\
  flags s' mf_timed_pwm = flags s mf_timed_pwm /\
  flags s' mf_motor_dist_control = flags s mf_motor_dist_control /\
  flags s' mf_motor_vel_control = flags s mf_motor_vel_control /\
  flags s' mf_motor_stop = flags s mf_motor_stop /\
  flags s' mf_obj_avoidance = flags s mf_obj_avoidance.

Definition answered (n : nat) (cmd : Z) (s s' : fw) : Prop :=
  handled n cmd s s' /\ still s s'.

Lemma bytes_of_f32_ok x : Forall is_byte (bytes_of_f32 x).
Proof. apply le_split_bytes. Qed.

Lemma text_float_ok t x : Forall is_byte (codes t ++ bytes_of_f32 x).
Proof. apply Forall_app. split; [apply codes_bytes|apply bytes_of_f32_ok]. Qed.

Lemma one_byte_ok c : is_byte c -> Forall is_byte [c].
Proof. intros. by apply Forall_singleton. Qed.

Lemma wf_float x : well_formed "cf" (bytes_of_f32 x).
Proof. split_and!; [done|repeat constructor; done|apply bytes_of_f32_ok|simpl; lia]. Qed.
Lemma wf_bad : well_formed "cc" [ch "?"].
Proof. split_and!; [done|repeat constructor; done|apply one_byte_ok, ch_byte|simpl; lia]. Qed.
Lemma wf_straight : well_formed "ccccccc" (codes "Go Str").
Proof. split_and!; [done|repeat constructor; done|apply codes_bytes|simpl; lia]. Qed.
Lemma wf_turn : well_formed "ccccc" (codes "Turn").
Proof. split_and!; [done|repeat constructor; done|apply codes_bytes|simpl; lia]. Qed.
Lemma wf_bat_low x : well_formed "ccccccccf" (codes "BAT LOW" ++ bytes_of_f32 x).
Proof. split_and!; [done|repeat constructor; done|apply text_float_ok|simpl; lia]. Qed.
Lemma wf_power_off x : well_formed "ccccccccccf" (codes "POWER OFF" ++ bytes_of_f32 x).
Proof. split_and!; [done|repeat constructor; done|apply text_float_ok|simpl; lia]. Qed.

Create HintDb msg discriminated.
#[export] Hint Resolve bytes_of_f32_ok text_float_ok one_byte_ok ch_byte codes_bytes
  wf_float wf_bad wf_straight wf_turn wf_bat_low wf_power_off reply_none reply_answer
  reply_warning fw_ok_mregs fw_ok_ser mregs_regs mregs_Set_LED mregs_Servo_PWM_Init mregs_Motor_PWM_Enable : msg.

(** ** Symbolic execution *)

Ltac fw_simpl :=
  cbn [rg tm enc bat prox ser flags ctr_LeftMotor ctr_RightMotor oa loc env
       set_rg set_tm set_enc set_bat set_prox set_ser set_flag set_left set_right set_oa set_loc set_env
       upd_flag upd_left upd_right upd_rg
       app Nat.add].

(** The register invariant after the modelled writes. *)
Ltac mregs := solve [ eauto 10 with msg ].

Ltac wp_step :=
  lazymatch goal with
  | |- wp (mbind _ _) _ _ => apply wp_bind
  | |- wp (mret _) _ _ => apply wp_ret
  | |- wp (usb_send_msg _ _ _) _ _ =>
      eapply step_send; [eassumption|solve [auto with msg]|]; let x := fresh "x" in
      let H := fresh "Hx" in intros x H; cbv beta
  | |- wp usb_msg_get _ _ =>
      eapply step_get; [eassumption|eassumption|]; let x := fresh "x" in
      let H := fresh "Hx" in intros x H; cbv beta
  | |- wp (usb_msg_read_into ?z) _ _ =>
      let m := eval vm_compute in (Z.to_nat z) in
      eapply (step_read _ _ _ m); [eassumption|reflexivity|try lia|];
      let x := fresh "x" in let H := fresh "Hx" in intros x H; cbv beta
  | |- wp (Motor_PWM_Left _) _ _ =>
      apply wp_Motor_PWM_Left; [fw_simpl; mregs|try done; try lia|];
      let r := fresh "r" in let H := fresh "Hl" in let H' := fresh "Hmr" in
      fw_simpl; intros r H H'; cbv beta
  | |- wp (Motor_PWM_Right _) _ _ =>
      apply wp_Motor_PWM_Right; [fw_simpl; mregs|try done; try lia|];
      let r := fresh "r" in let H := fresh "Hr" in let H' := fresh "Hmr" in
      fw_simpl; intros r H H'; cbv beta
  | |- wp Zero_Encoders _ _ =>
      apply wp_Zero_Encoders; [fw_simpl; mregs|];
      let r := fresh "r" in let H := fresh "Hz" in let H' := fresh "Hmr" in
      fw_simpl; intros r H H'; cbv beta
  | |- wp (gets _) _ _ => apply wp_gets
  | |- wp (modify _) _ _ => apply wp_modify
  | |- wp (when _ _) _ _ => unfold when
  | |- wp (let _ := _ in _) _ _ => cbv zeta
  | |- wp (match ?b with true => _ | false => _ end) _ _ => destruct b eqn:?
  | |- wp (Set_LED _ _) _ _ => unfold Set_LED
  | |- wp (Servo_PWM_Init _) _ _ => unfold Servo_PWM_Init
  | |- wp (Motor_PWM_Enable _) _ _ => unfold Motor_PWM_Enable
  | |- wp (call_regs _) _ _ => unfold call_regs
  | |- wp GetTime _ _ => unfold GetTime
  | |- wp Battery_Voltage _ _ => unfold Battery_Voltage
  | |- wp (set_active _ _) _ _ => unfold set_active
  | |- wp (set_duration _ _) _ _ => unfold set_duration
  | |- wp (set_trigger _ _) _ _ => unfold set_trigger
  | |- wp get_left _ _ => unfold get_left
  | |- wp (Set_Target_Velocity_Left _) _ _ => unfold Set_Target_Velocity_Left
  | |- wp (Set_Target_Velocity_Right _) _ _ => unfold Set_Target_Velocity_Right
  | |- wp (Set_Target_Position_Left _) _ _ => unfold Set_Target_Position_Left
  | |- wp (Set_Target_Position_Right _) _ _ => unfold Set_Target_Position_Right
  | |- wp Reset_Drive_Flags _ _ => unfold Reset_Drive_Flags
  | |- wp (send_bad_input _) _ _ => unfold send_bad_input
  | |- wp (send_bat_low _) _ _ => unfold send_bat_low
  | |- wp (send_power_off _) _ _ => unfold send_power_off
  | |- wp (battery_warning _) _ _ => unfold battery_warning
  | |- wp (say_straight _) _ _ => unfold say_straight
  | |- wp (say_turn _) _ _ => unfold say_turn
  | |- wp (set_targets _) _ _ => unfold set_targets
  | |- wp (start_control _) _ _ => unfold start_control
  | |- wp (stop_after _) _ _ => unfold stop_after
  | |- wp Init_Obstacle_Avoidance _ _ => unfold Init_Obstacle_Avoidance
  end; cbv beta; fw_simpl.

Ltac wp_go := repeat wp_step.

Lemma wp_if_complete c body Q s :
  (MEGN540_Message_Len c <= Z.of_nat (length (rx_bytes (ser s))) -> wp body Q s) ->
  (Z.of_nat (length (rx_bytes (ser s))) < MEGN540_Message_Len c -> Q tt s) ->
  wp (if_complete c body) Q s.
Proof.
  intros H1 H2. unfold if_complete. apply wp_bind. apply wp_msg_length.
  unfold when. destruct (Z.leb_spec (MEGN540_Message_Len c) (Z.of_nat (length (rx_bytes (ser s)))));
    [by apply H1|by apply H2].
Qed.

(** The whole message is there: the case body runs with the bytes counted. *)
Lemma run_case c body n Q s :
  fw_ok s -> Z.of_nat n = MEGN540_Message_Len c -> (n <= length (rx_bytes (ser s)))%nat ->
  (ser_step 0 [] (ser s) (ser s) -> wp body Q s) ->
  wp (if_complete c body) Q s.
Proof.
  intros Hok Hn Hl H. apply wp_if_complete; [intros _; apply H|lia].
  apply ser_step_refl, Hok.
Qed.

(** The flags after a chain of updates. *)
Ltac flag_simpl :=
  cbn [rg tm enc bat prox ser flags ctr_LeftMotor ctr_RightMotor oa loc env
       set_rg set_tm set_enc set_bat set_prox set_ser set_flag set_left set_right set_oa set_loc set_env
       upd_flag upd_left upd_right upd_rg mf_eqb mf_index Z.eqb Pos.eqb
       active duration last_trigger_time].

(** The end of a case: the state is a chain of setters over the start. *)
Ltac finish :=
  match goal with
  | |- answered _ _ _ _ => split; [finish | unfold still; flag_simpl; by split_and!]
  | Hok : fw_ok ?s |- handled _ _ ?s _ =>
      let H1 := fresh in let H2 := fresh in let H3 := fresh in let H4 := fresh in
      let H5 := fresh in let H6 := fresh in let H7 := fresh in
      pose proof Hok as (H1&H2&H3&H4&H5&H6&H7);
      unfold handled; split;
      [ unfold fw_ok; fw_simpl; split_and!; [mregs|done|done|done|eapply ser_step_ok; eassumption|done|done]
      | split; [fw_simpl; eexists; split; [|eassumption]; eauto 10 with msg |
      split; [unfold one_driver; flag_simpl; intros Hdrv; first [exact Hdrv | intros Hdist; first [discriminate Hdist | split; reflexivity | destruct (Hdrv Hdist); split; first [reflexivity | assumption]]] |
      split; [unfold avoidance_kept; flag_simpl; intros Hobj;
        first [discriminate Hobj | right; split; reflexivity
              | left; split_and!; first [assumption | reflexivity | let H := fresh in intros H; first [exact H | discriminate H]]]
        | done] ] ] ]
  end.

(** Run a case from a complete message of [n] bytes. *)
Ltac run def n :=
  intros Hok Hc Hlen; unfold def; apply (run_case _ _ n); [done|reflexivity|lia|];
  intros Hstep; wp_go; [> finish ..].

Section cases.
Context (cmd : Z) (s : fw).

Lemma case_multiply_answered :
  fw_ok s -> rx_bytes (ser s) !! 0%nat = Some cmd -> (9 <= length (rx_bytes (ser s)))%nat ->
  wp (case_multiply cmd) (fun _ s' => answered 9 cmd s s') s.
Proof. run case_multiply 9%nat. Qed.

Lemma case_divide_answered :
  fw_ok s -> rx_bytes (ser s) !! 0%nat = Some cmd -> (9 <= length (rx_bytes (ser s)))%nat ->
  wp (case_divide cmd) (fun _ s' => answered 9 cmd s s') s.
Proof. run case_divide 9%nat. Qed.

Lemma case_add_answered :
  fw_ok s -> rx_bytes (ser s) !! 0%nat = Some cmd -> (9 <= length (rx_bytes (ser s)))%nat ->
  wp (case_add cmd) (fun _ s' => answered 9 cmd s s') s.
Proof. run case_add 9%nat. Qed.

Lemma case_subtract_answered :
  fw_ok s -> rx_bytes (ser s) !! 0%nat = Some cmd -> (9 <= length (rx_bytes (ser s)))%nat ->
  wp (case_subtract cmd) (fun _ s' => answered 9 cmd s s') s.
Proof. run case_subtract 9%nat. Qed.

Lemma case_T_answered :
  fw_ok s -> rx_bytes (ser s) !! 0%nat = Some cmd -> (6 <= length (rx_bytes (ser s)))%nat ->
  wp (case_T cmd) (fun _ s' => answered 6 cmd s s') s.
Proof. run case_T 6%nat. Qed.

Lemma case_e_answered :
  fw_ok s -> rx_bytes (ser s) !! 0%nat = Some cmd -> (1 <= length (rx_bytes (ser s)))%nat ->
  wp (case_e cmd) (fun _ s' => answered 1 cmd s s') s.
Proof. run case_e 1%nat. Qed.

Lemma case_E_answered :
  fw_ok s -> rx_bytes (ser s) !! 0%nat = Some cmd -> (5 <= length (rx_bytes (ser s)))%nat ->
  wp (case_E cmd) (fun _ s' => answered 5 cmd s s') s.
Proof. run case_E 5%nat. Qed.

Lemma case_b_answered :
  fw_ok s -> rx_bytes (ser s) !! 0%nat = Some cmd -> (1 <= length (rx_bytes (ser s)))%nat ->
  wp (case_b cmd) (fun _ s' => answered 1 cmd s s') s.
Proof. run case_b 1%nat. Qed.

Lemma case_B_answered :
  fw_ok s -> rx_bytes (ser s) !! 0%nat = Some cmd -> (5 <= length (rx_bytes (ser s)))%nat ->
  wp (case_B cmd) (fun _ s' => answered 5 cmd s s') s.
Proof. run case_B 5%nat. Qed.

Lemma case_s_handled :
  fw_ok s -> rx_bytes (ser s) !! 0%nat = Some cmd -> (1 <= length (rx_bytes (ser s)))%nat ->
  wp (case_s cmd) (fun _ s' => handled 1 cmd s s') s.
Proof. run case_s 1%nat. Qed.

Lemma case_q_answered :
  fw_ok s -> rx_bytes (ser s) !! 0%nat = Some cmd -> (1 <= length (rx_bytes (ser s)))%nat ->
  wp (case_q cmd) (fun _ s' => answered 1 cmd s s') s.
Proof. run case_q 1%nat. Qed.

Lemma case_Q_answered :
  fw_ok s -> rx_bytes (ser s) !! 0%nat = Some cmd -> (5 <= length (rx_bytes (ser s)))%nat ->
  wp (case_Q cmd) (fun _ s' => answered 5 cmd s s') s.
Proof. run case_Q 5%nat. Qed.

Lemma case_d_handled :
  fw_ok s -> rx_bytes (ser s) !! 0%nat = Some cmd -> (9 <= length (rx_bytes (ser s)))%nat ->
  wp (case_d cmd) (fun _ s' => handled 9 cmd s s') s.
Proof. run case_d 9%nat. Qed.

Lemma case_D_handled :
  fw_ok s -> rx_bytes (ser s) !! 0%nat = Some cmd -> (13 <= length (rx_bytes (ser s)))%nat ->
  wp (case_D cmd) (fun _ s' => handled 13 cmd s s') s.
Proof. run case_D 13%nat. Qed.

Lemma case_v_handled :
  fw_ok s -> rx_bytes (ser s) !! 0%nat = Some cmd -> (9 <= length (rx_bytes (ser s)))%nat ->
  wp (case_v cmd) (fun _ s' => handled 9 cmd s s') s.
Proof. run case_v 9%nat. Qed.

Lemma case_V_handled :
  fw_ok s -> rx_bytes (ser s) !! 0%nat = Some cmd -> (13 <= length (rx_bytes (ser s)))%nat ->
  wp (case_V cmd) (fun _ s' => handled 13 cmd s s') s.
Proof. run case_V 13%nat. Qed.

Lemma case_i_answered :
  fw_ok s -> rx_bytes (ser s) !! 0%nat = Some cmd -> (1 <= length (rx_bytes (ser s)))%nat ->
  wp (case_i cmd) (fun _ s' => answered 1 cmd s s') s.
Proof. run case_i 1%nat. Qed.

Lemma case_I_answered :
  fw_ok s -> rx_bytes (ser s) !! 0%nat = Some cmd -> (5 <= length (rx_bytes (ser s)))%nat ->
  wp (case_I cmd) (fun _ s' => answered 5 cmd s s') s.
Proof. run case_I 5%nat. Qed.

Lemma case_G_handled :
  cmd = ch "G" -> fw_ok s -> rx_bytes (ser s) !! 0%nat = Some cmd -> (2 <= length (rx_bytes (ser s)))%nat ->
  wp (case_G cmd) (fun _ s' => handled 2 cmd s s') s.
Proof. intros ->. run case_G 2%nat. Qed.

Lemma case_O_handled :
  fw_ok s -> rx_bytes (ser s) !! 0%nat = Some cmd -> (5 <= length (rx_bytes (ser s)))%nat ->
  wp (case_O cmd) (fun _ s' => handled 5 cmd s s') s.
Proof. run case_O 5%nat. Qed.

Lemma case_t_answered :
  fw_ok s -> rx_bytes (ser s) !! 0%nat = Some cmd -> (2 <= length (rx_bytes (ser s)))%nat ->
  wp (case_t cmd) (fun _ s' => answered 2 cmd s s') s.
Proof.
  intros Hok Hc Hlen.
  destruct (lookup_lt_is_Some_2 (rx_bytes (ser s)) 1) as [b Hb]; [lia|].
  revert Hok Hc Hlen. run case_t 2%nat.
Qed.

(** The two duty cycles of a 'p' or 'P' message; negating -32768 is undefined. *)
Definition pwm_args_ok : Prop :=
  int_at 0 (take 4 (drop 1 (rx_bytes (ser s)))) <> -32768 /\
  int_at 2 (take 4 (drop 1 (rx_bytes (ser s)))) <> -32768.

Lemma int_at_range off l : -32768 <= int_at off l <= 32767.
Proof. unfold int_at. pose proof (s16_range (le_combine (take 2 (drop off l)))). lia. Qed.

Lemma int_at_defined off l : int_at off l <> -32768 -> -32768 < int_at off l <= 32767.
Proof. pose proof (int_at_range off l). lia. Qed.

Lemma case_p_handled :
  pwm_args_ok -> fw_ok s -> rx_bytes (ser s) !! 0%nat = Some cmd ->
  (5 <= length (rx_bytes (ser s)))%nat ->
  wp (case_p cmd) (fun _ s' => handled 5 cmd s s') s.
Proof. intros [A1 A2]. apply int_at_defined in A1, A2. run case_p 5%nat. Qed.

Lemma int_at_take off n m l :
  (off + 2 <= n)%nat -> (off + 2 <= m)%nat -> int_at off (take n l) = int_at off (take m l).
Proof.
  intros Hn Hm. unfold int_at. do 2 f_equal.
  rewrite !skipn_firstn_comm, !take_take. f_equal. lia.
Qed.

Lemma case_P_handled :
  pwm_args_ok -> fw_ok s -> rx_bytes (ser s) !! 0%nat = Some cmd ->
  (9 <= length (rx_bytes (ser s)))%nat ->
  wp (case_P cmd) (fun _ s' => handled 9 cmd s s') s.
Proof.
  intros [A1 A2]. apply int_at_defined in A1, A2.
  rewrite (int_at_take 0 4 8) in A1 by lia. rewrite (int_at_take 2 4 8) in A2 by lia.
  run case_P 9%nat.
Qed.
End cases.

(** ** The switch *)

Lemma task_dispatches c Q s :
  fw_ok s -> rx_bytes (ser s) !! 0%nat = Some c -> wp (dispatch (s8 c)) Q s ->
  wp Message_Handling_Task Q s.
Proof.
  intros Hok Hc HQ. destruct (rx_bytes (ser s)) as [|b l] eqn:E; [done|]. injection Hc as ->.
  unfold Message_Handling_Task. apply wp_bind, wp_msg_length.
  rewrite (proj2 (to_bool_nonzero _)) by (rewrite E; cbn [length]; lia). cbn [negb].
  apply wp_bind. unfold usb_msg_peek. apply wp_gets.
  by rewrite (usb_msg_peek_spec (ser s) c l (fw_ok_ser s Hok) E).
Qed.

(** The codes of the commands, in the order of the switch. *)
Definition commands : list Z :=
  ch <$> ["*"; "/"; "+"; "-"; "~"; "t"; "T"; "e"; "E"; "b"; "B"; "p"; "P"; "s"; "S"; "q"; "Q";
          "d"; "D"; "v"; "V"; "i"; "I"; "G"; "O"]%char.

Lemma commands_spec c : c ∈ commands <-> 0 < MEGN540_Message_Len c.
Proof.
  unfold MEGN540_Message_Len. split.
  - unfold commands. cbn [fmap list_fmap]. rewrite !elem_of_cons, elem_of_nil.
    intros Hc. repeat (destruct Hc as [->|Hc]; [done|]). done.
  - intros Hc.
    repeat match type of Hc with
    | context [?y =? ?x] => destruct (Z.eqb_spec y x) as [E|_];
        [rewrite E; by apply (bool_decide_unpack _); vm_compute|]
    end. lia.
Qed.

(** Case analysis on a known command. *)
Ltac by_command H :=
  unfold commands in H; cbn [fmap list_fmap] in H;
  rewrite !elem_of_cons, elem_of_nil in H; repeat (destruct H as [->|H]; [|]); [..|done].

Lemma if_complete_short c body s :
  Z.of_nat (length (rx_bytes (ser s))) < MEGN540_Message_Len c ->
  if_complete c body s = Some (tt, s).
Proof.
  intros H. assert (Hw : wp (if_complete c body) (fun _ s' => s' = s) s).
  { apply wp_if_complete; [lia|done]. }
  apply wp_run in Hw as (?&?&?&->). by destruct x.
Qed.

Lemma dispatch_short c s :
  c ∈ commands -> Z.of_nat (length (rx_bytes (ser s))) < MEGN540_Message_Len c ->
  dispatch (s8 c) s = Some (tt, s).
Proof.
  intros Hc Hl. by_command Hc; by apply if_complete_short.
Qed.

(** The commands that only ask. *)
Definition queries : list Z :=
  ch <$> ["*"; "/"; "+"; "-"; "t"; "T"; "e"; "E"; "b"; "B"; "q"; "Q"; "i"; "I"]%char.

Lemma dispatch_answered c n s :
  c ∈ queries -> MEGN540_Message_Len c = Z.of_nat n ->
  fw_ok s -> rx_bytes (ser s) !! 0%nat = Some c -> (n <= length (rx_bytes (ser s)))%nat ->
  wp (dispatch (s8 c)) (fun _ s' => answered n c s s') s.
Proof.
  intros Hc Hn Hok Hb Hlen.
  assert (En : n = Z.to_nat (MEGN540_Message_Len c)) by lia. clear Hn.
  unfold queries in Hc. by_command Hc; vm_compute in En; subst n;
    [ apply (case_multiply_answered (ch "*")) | apply (case_divide_answered (ch "/"))
    | apply (case_add_answered (ch "+")) | apply (case_subtract_answered (ch "-"))
    | apply (case_t_answered (ch "t")) | apply (case_T_answered (ch "T"))
    | apply (case_e_answered (ch "e")) | apply (case_E_answered (ch "E"))
    | apply (case_b_answered (ch "b")) | apply (case_B_answered (ch "B"))
    | apply (case_q_answered (ch "q")) | apply (case_Q_answered (ch "Q"))
    | apply (case_i_answered (ch "i")) | apply (case_I_answered (ch "I")) ]; done.
Qed.

(** The commands that move the robot or its gripper. *)
Definition actions : list Z :=
  ch <$> ["p"; "P"; "s"; "S"; "d"; "D"; "v"; "V"; "G"; "O"]%char.

Lemma dispatch_handled c n s :
  c ∈ actions -> MEGN540_Message_Len c = Z.of_nat n ->
  fw_ok s -> rx_bytes (ser s) !! 0%nat = Some c -> (n <= length (rx_bytes (ser s)))%nat ->
  (c ∈ [ch "p"; ch "P"] -> pwm_args_ok s) ->
  wp (dispatch (s8 c)) (fun _ s' => handled n c s s') s.
Proof.
  intros Hc Hn Hok Hb Hlen Hp.
  assert (En : n = Z.to_nat (MEGN540_Message_Len c)) by lia. clear Hn.
  unfold actions in Hc. by_command Hc; vm_compute in En; subst n;
    [ apply (case_p_handled (ch "p")); [apply Hp; set_solver|..]
    | apply (case_P_handled (ch "P")); [apply Hp; set_solver|..]
    | apply (case_s_handled (ch "s")) | apply (case_s_handled (ch "S"))
    | apply (case_d_handled (ch "d")) | apply (case_D_handled (ch "D"))
    | apply (case_v_handled (ch "v")) | apply (case_V_handled (ch "V"))
    | apply (case_G_handled (ch "G")) | apply (case_O_handled (ch "O")) ]; done.
Qed.

(** Membership of a concrete code, by computation. *)
Lemma in_codes (c : Z) (l : list Z) : bool_decide (c ∈ l) = true -> c ∈ l.
Proof. apply bool_decide_eq_true_1. Qed.
Lemma not_in_codes (c : Z) (l : list Z) : bool_decide (c ∈ l) = false -> c ∉ l.
Proof. apply bool_decide_eq_false_1. Qed.

Lemma commands_split c : c ∈ commands -> c = ch "~" \/ c ∈ queries \/ c ∈ actions.
Proof.
  intros Hc. assert (H : Forall (fun c => bool_decide (c = ch "~" \/ c ∈ queries \/ c ∈ actions) = true) commands)
    by (apply Forall_forall; intros x Hx; by_command Hx; by vm_compute).
  rewrite Forall_forall in H. apply H in Hc. by apply bool_decide_eq_true_1 in Hc.
Qed.

(** *** Restart and unknown commands *)

Lemma case_restart_spec s :
  rx_bytes (ser s) !! 0%nat = Some (ch "~") ->
  dispatch (s8 (ch "~")) s = Some (tt, upd_flag mf_restart (fun x =>
    {| active := true; duration := duration x; last_trigger_time := last_trigger_time x |}) s).
Proof.
  intros Hc. change (dispatch (s8 (ch "~"))) with (case_restart (ch "~")).
  apply lookup_lt_Some in Hc. unfold case_restart, if_complete.
  unfold mbind, M_bind, usb_msg_length, gets. rewrite usb_msg_length_spec.
  unfold when. destruct (Z.leb_spec (MEGN540_Message_Len (ch "~")) (Z.of_nat (length (rx_bytes (ser s)))));
    [done|]. change (MEGN540_Message_Len (ch "~")) with 1 in *. lia.
Qed.

Lemma s8_command c x : is_byte c -> s8 c = ch x -> ch x < 128 -> c = ch x.
Proof.
  intros Hc E Hx. assert (0 <= ch x) by apply ch_byte. rewrite <- (u8_id c) by done. rewrite <- u8_s8, E.
  apply u8_id. lia.
Qed.

Lemma dispatch_default c : s8 c ∉ commands -> dispatch (s8 c) = case_default (s8 c).
Proof.
  intros Hc. unfold dispatch.
  repeat match goal with
  | |- context [?y =? ?x] => destruct (Z.eqb_spec y x) as [E|_];
      [exfalso; apply Hc; rewrite E; by apply in_codes; vm_compute|]
  end. done.
Qed.

Lemma dispatch_unknown s c :
  fw_ok s -> s8 c ∉ commands ->
  wp (dispatch (s8 c)) (fun _ s' =>
    fw_ok s' /\ rx_bytes (ser s') = [] /\ clear_buffer (ser s') = true /\
    tx_bytes (ser s') = lastn 63 (tx_bytes (ser s) ++ frame "cc" (s8 c) [ch "?"]) /\
    s' = set_ser (ser s') s) s.
Proof.
  intros Hok Hc. rewrite dispatch_default by done.
  unfold case_default, send_bad_input. apply wp_bind. unfold usb_flush_input_buffer, call_ser.
  apply wp_modify. cbv beta.
  destruct (usb_flush_input_buffer_spec (ser s) (fw_ok_ser s Hok)) as (F1&F2&F3&F4&F5).
  apply wp_send_msg; [exact F1|auto with msg|].
  intros x (X1&X2&(X3&X4&_)). cbn [ser set_ser] in *.
  pose proof Hok as (H1&H2&H3&H4&H5&H6&H7).
  split_and!; try done.
  unfold rx_bytes. rewrite X3. exact F2.
Qed.

(** With no input, or an incomplete message in front, the task changes nothing. *)
Lemma task_waits s :
  fw_ok s ->
  (rx_bytes (ser s) = [] \/
   exists c, rx_bytes (ser s) !! 0%nat = Some c /\ c ∈ commands /\
     Z.of_nat (length (rx_bytes (ser s))) < MEGN540_Message_Len c) ->
  Message_Handling_Task s = Some (tt, s).
Proof.
  intros Hok Hs. assert (Hw : wp Message_Handling_Task (fun _ s' => s' = s) s).
  { destruct Hs as [E|(c&Hc&Hk&Hl)].
    - unfold Message_Handling_Task. apply wp_bind, wp_msg_length. by rewrite E.
    - apply (task_dispatches c); [done..|]. unfold wp. by rewrite dispatch_short. }
  apply wp_run in Hw as ([]&?&?&->). done.
Qed.

(** A complete message is handled whole. *)
Lemma task_handled s c n :
  fw_ok s -> c ∈ commands -> c <> ch "~" ->
  rx_bytes (ser s) !! 0%nat = Some c -> MEGN540_Message_Len c = Z.of_nat n ->
  (n <= length (rx_bytes (ser s)))%nat -> (c ∈ [ch "p"; ch "P"] -> pwm_args_ok s) ->
  wp Message_Handling_Task (fun _ s' => handled n c s s') s.
Proof.
  intros Hok Hc Hr Hb Hn Hlen Hp. apply (task_dispatches c); [done..|].
  destruct (commands_split c Hc) as [->|[Hq|Ha]]; [done| |by apply dispatch_handled].
  eapply wp_mono; [by apply dispatch_answered|]. by intros _ s' [].
Qed.
