(* ===== verification/Protocol.v ===== *)
(** * Protocol: properties of the command interpreter

    What a host sees of [Message_Handling_Task]: complete and incomplete
    messages, unknown bytes, the restart command, arithmetic, and the requests
    for reports. *)
From S2P Require Import Prelude.
From S2P Require Import Float32.
From S2P Require Import Controller.
From S2P Require Import Avr.
From S2P Require Import Timing.
From S2P Require Import LedServo.
From S2P Require Import MotorPWM.
From S2P Require Import Battery.
From S2P Require Import SerialIO.
From S2P Require Import Firmware.
From S2P Require Import MessageHandling.
From S2P Require Import MessageSpec.
Import Call.

(** ** Messages *)

(** C18: a complete message is handled whole.  When the input starts with a known
    command other than '~' and all bytes of its message are there, one run of
    the task is defined, takes exactly that many bytes, adds at most one
    well-formed frame to the output (an answer with the command's code, or a
    warning), keeps the invariant of the whole state and the exclusion of the
    motor controls, and touches neither clock, battery, infrared counters nor
    the main loop's variables.  The duty cycles of 'p' and 'P' must not be
    -32768, whose negation overflows. *)
Theorem command_complete s c n :
  fw_ok s -> c ∈ commands -> c <> ch "~" ->
  rx_bytes (ser s) !! 0%nat = Some c -> MEGN540_Message_Len c = Z.of_nat n ->
  (n <= length (rx_bytes (ser s)))%nat -> (c ∈ [ch "p"; ch "P"] -> pwm_args_ok s) ->
  wp Message_Handling_Task (fun _ s' => handled n c s s') s.
Proof. apply task_handled. Qed.

Lemma command_complete_witness :
  wp Message_Handling_Task (fun _ s' => handled 5 (ch "p") (fw_sample [112; 50; 0; 206; 255]) s')
    (fw_sample [112; 50; 0; 206; 255]).
Proof.
  destruct (fw_sample_ok [112; 50; 0; 206; 255]) as (H1&H2&_);
    [repeat constructor; done|simpl; lia|].
  apply (command_complete _ (ch "p") 5 H1);
    [by apply in_codes; vm_compute|done|by rewrite H2|done|rewrite H2; simpl; lia|].
  intros _. unfold pwm_args_ok. rewrite H2. by vm_compute.
Defined.

(** an incomplete message waits.  With no input at all, or with a known
    command whose message is not complete yet, the task changes nothing: the
    bytes stay until the rest arrives. *)
Theorem command_incomplete s :
  fw_ok s ->
  (rx_bytes (ser s) = [] \/
   exists c, rx_bytes (ser s) !! 0%nat = Some c /\ c ∈ commands /\
     Z.of_nat (length (rx_bytes (ser s))) < MEGN540_Message_Len c) ->
  Message_Handling_Task s = Some (tt, s).
Proof. apply task_waits. Qed.

Lemma command_incomplete_witness :
  Message_Handling_Task (fw_sample [100; 0; 0; 128; 63]) = Some (tt, fw_sample [100; 0; 0; 128; 63]).
Proof.
  destruct (fw_sample_ok [100; 0; 0; 128; 63]) as (H1&H2&_); [repeat constructor; done|simpl; lia|].
  apply (command_incomplete _ H1). right. exists 100. rewrite H2.
  split_and!; [done|by apply in_codes; vm_compute|by vm_compute].
Defined.

(** C32: an unknown byte empties the input.  The task discards everything
    received, asks for the rest of the current packet to be discarded too, and
    answers '?' with the offending byte; nothing else changes. *)
Theorem command_unknown s c :
  fw_ok s -> rx_bytes (ser s) !! 0%nat = Some c -> s8 c ∉ commands ->
  wp Message_Handling_Task (fun _ s' =>
    fw_ok s' /\ rx_bytes (ser s') = [] /\ clear_buffer (ser s') = true /\
    tx_bytes (ser s') = lastn 63 (tx_bytes (ser s) ++ frame "cc" (s8 c) [ch "?"]) /\
    s' = set_ser (ser s') s) s.
Proof. intros Hok Hb Hc. apply (task_dispatches c); [done..|]. by apply dispatch_unknown. Qed.

Lemma command_unknown_witness :
  wp Message_Handling_Task (fun _ s' =>
    rx_bytes (ser s') = [] /\ tx_bytes (ser s') = [5; 99; 99; 0; 33; 63]) (fw_sample [33; 1; 2]).
Proof.
  destruct (fw_sample_ok [33; 1; 2]) as (H1&H2&H3&_); [repeat constructor; done|simpl; lia|].
  eapply wp_mono; [apply (command_unknown _ 33 H1)|].
  - by rewrite H2.
  - apply not_in_codes. by vm_compute.
  - cbv beta. rewrite H3. intros _ s' (_&Hr&_&Ht&_). split; [exact Hr|]. rewrite Ht. by vm_compute.
Defined.

(** [n] runs of the task, with nothing in between. *)
Fixpoint tasks (n : nat) : M fw unit :=
  match n with O => mret tt | S n => Message_Handling_Task;; tasks n end.

(** the restart command is never taken off the input: however often the
    task runs, '~' stays at the head, everything behind it is stuck, and the
    restart flag is set again each time. *)
Theorem restart_blocks_input s n :
  fw_ok s -> rx_bytes (ser s) !! 0%nat = Some (ch "~") ->
  wp (tasks (S n)) (fun _ s' => ser s' = ser s /\ active (flags s' mf_restart) = true) s.
Proof.
  revert s. induction n as [|n IH]; intros s Hok Hb.
  - cbn [tasks]. apply wp_bind. apply (task_dispatches (ch "~")); [done..|].
    unfold wp at 1. rewrite case_restart_spec by done. apply wp_ret. by split.
  - cbn [tasks]. apply wp_bind. apply (task_dispatches (ch "~")); [done..|].
    unfold wp at 1. rewrite case_restart_spec by done.
    exact (IH (upd_flag mf_restart _ s) Hok Hb).
Qed.

Lemma restart_blocks_input_witness :
  wp (tasks 3) (fun _ s' => ser s' = ser (fw_sample [126; 115]) /\ active (flags s' mf_restart) = true)
    (fw_sample [126; 115]).
Proof.
  destruct (fw_sample_ok [126; 115]) as (H1&H2&_); [repeat constructor; done|simpl; lia|].
  apply (restart_blocks_input (fw_sample [126; 115]) 2 H1). by rewrite H2.
Defined.

(** questions do not move the robot.  The arithmetic, timing, encoder,
    battery, system and infrared commands leave every register, the encoder
    counts, both motor controllers, the obstacle avoidance and all five drive
    flags as they were. *)
Theorem queries_do_not_move s c n :
  fw_ok s -> c ∈ queries -> rx_bytes (ser s) !! 0%nat = Some c ->
  MEGN540_Message_Len c = Z.of_nat n -> (n <= length (rx_bytes (ser s)))%nat ->
  wp Message_Handling_Task (fun _ s' => still s s') s.
Proof.
  intros Hok Hc Hb Hn Hl. apply (task_dispatches c); [done..|].
  eapply wp_mono; [by apply (dispatch_answered c n)|]. by intros _ s' [].
Qed.

Lemma queries_do_not_move_witness :
  wp Message_Handling_Task (fun _ s' => still (fw_sample [69; 0; 0; 128; 63]) s')
    (fw_sample [69; 0; 0; 128; 63]).
Proof.
  destruct (fw_sample_ok [69; 0; 0; 128; 63]) as (H1&H2&_); [repeat constructor; done|simpl; lia|].
  apply (queries_do_not_move _ 69 5 H1);
    [apply in_codes; by vm_compute|by rewrite H2|done|rewrite H2; simpl; lia].
Defined.

(** ** Arithmetic *)

(** The calculator of the protocol: [None] where it refuses. *)
Definition calculator (op : Z) (x y : f32) : option f32 :=
  if op =? ch "*" then Some (x * y)%f32
  else if op =? ch "+" then Some (x + y)%f32
  else if op =? ch "-" then Some (x - y)%f32
  else if f32_eq y f32_zero then None else Some (x / y)%f32.

Definition calculator_answer (op : Z) (r : option f32) : list Z :=
  match r with
  | Some r => frame "cf" op (bytes_of_f32 r)
  | None => frame "cc" op [ch "?"]
  end.

(** Fields of a packed structure. *)
Lemma float_at_0 x l : f32_valid x -> float_at 0 (bytes_of_f32 x ++ l) = x.
Proof.
  intros Hx. unfold float_at. rewrite drop_0, <- (length_bytes_of_f32 x), take_app_length.
  by apply f32_of_bytes_of_f32.
Qed.

Lemma float_at_app x l m off :
  length l = off -> f32_valid x -> float_at off (l ++ bytes_of_f32 x ++ m) = x.
Proof.
  intros <- Hx. unfold float_at. rewrite drop_app_length, <- (length_bytes_of_f32 x), take_app_length.
  by apply f32_of_bytes_of_f32.
Qed.

Lemma take_float x l : take 4 (bytes_of_f32 x ++ l) = bytes_of_f32 x.
Proof. rewrite <- (length_bytes_of_f32 x). apply take_app_length. Qed.

Lemma float_at_alone x : f32_valid x -> float_at 0 (bytes_of_f32 x) = x.
Proof. intros. rewrite <- (app_nil_r (bytes_of_f32 x)). by apply float_at_0. Qed.

Lemma take_2_floats x y l : take 8 (bytes_of_f32 x ++ bytes_of_f32 y ++ l) = bytes_of_f32 x ++ bytes_of_f32 y.
Proof.
  rewrite app_assoc. replace 8%nat with (length (bytes_of_f32 x ++ bytes_of_f32 y));
    [apply take_app_length|by rewrite length_app, !length_bytes_of_f32].
Qed.

(** The state changed in the serial part only. *)
Definition replies (n : nat) (out : list Z) (s s' : fw) : Prop :=
  ser_step n out (ser s) (ser s') /\ s' = set_ser (ser s') s.

Lemma set_ser_set_ser x y s : set_ser x (set_ser y s) = set_ser x s.
Proof. done. Qed.

Ltac finish_reply := split; [assumption|done].

Lemma arithmetic_cases s op x y rest :
  fw_ok s -> f32_valid x -> f32_valid y -> op ∈ [ch "*"; ch "/"; ch "+"; ch "-"] ->
  rx_bytes (ser s) = op :: bytes_of_f32 x ++ bytes_of_f32 y ++ rest ->
  wp (dispatch (s8 op)) (fun _ s' => replies 9 (calculator_answer op (calculator op x y)) s s') s.
Proof.
  intros Hok Vx Vy Hop E.
  assert (Hlen : (9 <= length (rx_bytes (ser s)))%nat)
    by (rewrite E; cbn [length]; rewrite !length_app, !length_bytes_of_f32; lia).
  assert (Hc : rx_bytes (ser s) !! 0%nat = Some op) by by rewrite E.
  assert (Ed : take 8 (drop 1 (rx_bytes (ser s))) = bytes_of_f32 x ++ bytes_of_f32 y)
    by (rewrite E; apply take_2_floats).
  assert (E0 : float_at 0 (bytes_of_f32 x ++ bytes_of_f32 y) = x) by by apply float_at_0.
  assert (E4 : float_at 4 (bytes_of_f32 x ++ bytes_of_f32 y) = y).
  { rewrite <- (app_nil_r (bytes_of_f32 y)). by apply float_at_app. }
  rewrite !elem_of_cons, elem_of_nil in Hop. destruct Hop as [->|[->|[->|[->|[]]]]];
    [ change (dispatch (s8 (ch "*"))) with (case_multiply (ch "*")); unfold case_multiply
    | change (dispatch (s8 (ch "/"))) with (case_divide (ch "/")); unfold case_divide
    | change (dispatch (s8 (ch "+"))) with (case_add (ch "+")); unfold case_add
    | change (dispatch (s8 (ch "-"))) with (case_subtract (ch "-")); unfold case_subtract ];
    apply (run_case _ _ 9); try done; intros Hstep; wp_go; rewrite ?Ed, ?E0, ?E4 in *;
    unfold calculator_answer, calculator; cbn [Z.eqb]; repeat case_match; simplify_eq/=;
    try finish_reply.
Qed.

(** the calculator.  For '*', '/', '+' and '-' with two floats, in the byte
    order they were sent, the answer is the frame that carries the IEEE single
    precision result rounded to nearest, or '?' for a division by zero of either
    sign; the nine bytes are consumed and nothing but the serial state
    changes. *)
Theorem arithmetic_reply s op x y rest :
  fw_ok s -> f32_valid x -> f32_valid y -> op ∈ [ch "*"; ch "/"; ch "+"; ch "-"] ->
  rx_bytes (ser s) = op :: bytes_of_f32 x ++ bytes_of_f32 y ++ rest ->
  wp Message_Handling_Task (fun _ s' => replies 9 (calculator_answer op (calculator op x y)) s s') s.
Proof.
  intros Hok Vx Vy Hop E. apply (task_dispatches op); [done|by rewrite E|].
  by eapply arithmetic_cases.
Qed.

Lemma arithmetic_reply_witness :
  let l := ch "/" :: bytes_of_f32 (f32_of_Z 3) ++ bytes_of_f32 (f32_of_Z 2) ++ [] in
  wp Message_Handling_Task (fun _ s' =>
    replies 9 (frame "cf" (ch "/") (bytes_of_f32 (f32_lit 3 2))) (fw_sample l) s') (fw_sample l).
Proof.
  intros l. destruct (fw_sample_ok l) as (H1&H2&_);
    [repeat (constructor; [by vm_compute|]); constructor|vm_compute; lia|].
  assert (E : calculator_answer (ch "/") (calculator (ch "/") (f32_of_Z 3) (f32_of_Z 2)) =
    frame "cf" (ch "/") (bytes_of_f32 (f32_lit 3 2))) by by vm_compute.
  rewrite <- E. apply (arithmetic_reply _ (ch "/") (f32_of_Z 3) (f32_of_Z 2) []);
    [exact H1|by vm_compute|by vm_compute|apply in_codes; by vm_compute|by rewrite H2].
Defined.

(** ** Requests for reports *)

(** The commands for one report and for periodic reports, and their flag. *)
Definition reports : list (Z * Z * mf) :=
  [(ch "e", ch "E", mf_send_encoder); (ch "b", ch "B", mf_send_battery);
   (ch "q", ch "Q", mf_sys_data); (ch "i", ch "I", mf_ir_proximity)].

(** The flag [f] is active with duration [d]; everything else but the input is
    as before. *)
Definition scheduled (n : nat) (f : mf) (d : f32) (s s' : fw) : Prop :=
  ser_step n [] (ser s) (ser s') /\
  flags s' f = {| active := true; duration := d; last_trigger_time := last_trigger_time (flags s f) |} /\
  (forall g, g <> f -> flags s' g = flags s g) /\
  rg s' = rg s /\ tm s' = tm s /\ enc s' = enc s /\ bat s' = bat s /\ prox s' = prox s /\
  ctr_LeftMotor s' = ctr_LeftMotor s /\ ctr_RightMotor s' = ctr_RightMotor s /\
  oa s' = oa s /\ loc s' = loc s /\ env s' = env s.

Ltac finish_scheduled :=
  unfold scheduled; flag_simpl;
  split_and!; try done; intros g Hg; destruct g; try done; by destruct Hg.

Lemma once_cases s once many f :
  fw_ok s -> (once, many, f) ∈ reports -> rx_bytes (ser s) !! 0%nat = Some once ->
  wp (dispatch (s8 once)) (fun _ s' => scheduled 1 f (f32_of_Z (-1)) s s') s.
Proof.
  intros Hok Hr Hc. pose proof (lookup_lt_Some _ _ _ Hc) as Hlen.
  unfold reports in Hr. rewrite !elem_of_cons, elem_of_nil in Hr.
  destruct Hr as [[= -> -> ->]|[[= -> -> ->]|[[= -> -> ->]|[[= -> -> ->]|[]]]]];
    [ change (dispatch (s8 (ch "e"))) with (case_e (ch "e")); unfold case_e
    | change (dispatch (s8 (ch "b"))) with (case_b (ch "b")); unfold case_b
    | change (dispatch (s8 (ch "q"))) with (case_q (ch "q")); unfold case_q
    | change (dispatch (s8 (ch "i"))) with (case_i (ch "i")); unfold case_i ];
    (apply (run_case _ _ 1); [done|done|lia|]; intros Hstep; wp_go; finish_scheduled).
Qed.

Lemma many_cases s once many f d rest :
  fw_ok s -> f32_valid d -> (once, many, f) ∈ reports ->
  rx_bytes (ser s) = many :: bytes_of_f32 d ++ rest ->
  wp (dispatch (s8 many)) (fun _ s' =>
    if (d > f32_zero)%f32 then scheduled 5 f (d * f32_of_Z 1000)%f32 s s'
    else replies 5 (frame "cc" many [ch "?"]) s s') s.
Proof.
  intros Hok Vd Hr E.
  assert (Hlen : (5 <= length (rx_bytes (ser s)))%nat)
    by (rewrite E; cbn [length]; rewrite length_app, length_bytes_of_f32; lia).
  assert (Hc : rx_bytes (ser s) !! 0%nat = Some many) by by rewrite E.
  assert (Ed : float_at 0 (take 4 (drop 1 (rx_bytes (ser s)))) = d).
  { rewrite E, skipn_cons, drop_0. by rewrite take_float, float_at_alone. }
  unfold reports in Hr. rewrite !elem_of_cons, elem_of_nil in Hr.
  destruct Hr as [[= -> -> ->]|[[= -> -> ->]|[[= -> -> ->]|[[= -> -> ->]|[]]]]];
    [ change (dispatch (s8 (ch "E"))) with (case_E (ch "E")); unfold case_E
    | change (dispatch (s8 (ch "B"))) with (case_B (ch "B")); unfold case_B
    | change (dispatch (s8 (ch "Q"))) with (case_Q (ch "Q")); unfold case_Q
    | change (dispatch (s8 (ch "I"))) with (case_I (ch "I")); unfold case_I ];
    (apply (run_case _ _ 5); [done|done|lia|]; intros Hstep; wp_go; rewrite Ed in *;
     match goal with H : (f32_lt _ _) = _ |- _ => rewrite H end;
     [finish_scheduled|finish_reply]).
Qed.

(** C33: asking for reports.  'e', 'b', 'q' and 'i' activate their flag for one
    report (duration -1); 'E', 'B', 'Q' and 'I' with a positive number of
    seconds activate it with that period in milliseconds, and with zero, a
    negative number or NaN they only answer '?'.  No other flag and nothing
    else of the state changes; in particular the time of the last report is
    kept. *)
Theorem report_requests s once many f :
  fw_ok s -> (once, many, f) ∈ reports ->
  (rx_bytes (ser s) !! 0%nat = Some once ->
   wp Message_Handling_Task (fun _ s' => scheduled 1 f (f32_of_Z (-1)) s s') s) /\
  (forall d rest, f32_valid d -> rx_bytes (ser s) = many :: bytes_of_f32 d ++ rest ->
   wp Message_Handling_Task (fun _ s' =>
     if (d > f32_zero)%f32 then scheduled 5 f (d * f32_of_Z 1000)%f32 s s'
     else replies 5 (frame "cc" many [ch "?"]) s s') s).
Proof.
  intros Hok Hr. split.
  - intros Hc. apply (task_dispatches once); [done..|]. by eapply once_cases.
  - intros d rest Hd E. apply (task_dispatches many); [done|by rewrite E|]. by eapply many_cases.
Qed.

Lemma report_requests_witness :
  let l := ch "B" :: bytes_of_f32 (f32_lit 1 2) ++ [] in
  wp Message_Handling_Task (fun _ s' =>
    scheduled 5 mf_send_battery (f32_lit 1 2 * f32_of_Z 1000)%f32 (fw_sample l) s') (fw_sample l).
Proof.
  intros l. destruct (fw_sample_ok l) as (H1&H2&_);
    [repeat (constructor; [by vm_compute|]); constructor|vm_compute; lia|].
  destruct (report_requests (fw_sample l) (ch "b") (ch "B") mf_send_battery H1) as [_ H].
  - unfold reports. rewrite !elem_of_cons. by right; left.
  - apply (H (f32_lit 1 2) []); [by vm_compute|by rewrite H2].
Defined.

(** ** Flags *)

(** The clock [n] timer interrupts after the trigger. *)
Lemma elapsed_ticks t0 r0 t r n :
  timing_ok t0 -> count_ms t = count_ms (timer_ticks n (t0, r0)).1 -> Z.of_nat n < 2 ^ 32 ->
  millisec (Timing.SecondsSince t r (Timing.GetTime t0 r0)) = Z.of_nat n.
Proof.
  intros Ht E Hn. unfold Timing.SecondsSince. cbn [millisec Timing.GetTime]. rewrite E, timer_ticks_count by done.
  unfold u32, uwrap. rewrite Zminus_mod_idemp_l.
  replace (count_ms t0 + Z.of_nat n - count_ms t0) with (Z.of_nat n) by lia. apply Z.mod_small. lia.
Qed.

(** C34: when a flag fires.  Let the flag have been triggered with the time of some
    state of the clock, and let [n] timer interrupts have come since, fewer than
    2^32; the 32-bit millisecond count may have wrapped around in between.
    [MSG_FLAG_Execute] changes nothing; an inactive flag does not fire; an active
    one fires exactly when its duration is at most [n] milliseconds, compared as
    floats.  Below 2^24 ms (about 4.6 hours) the comparison is exact for every
    finite duration, whole or not: a negative one, of the one-shot reports, fires
    at once. *)
Theorem flag_fires f s t0 r0 n :
  timing_ok t0 -> last_trigger_time (flags s f) = Timing.GetTime t0 r0 ->
  count_ms (tm s) = count_ms (timer_ticks n (t0, r0)).1 -> Z.of_nat n < 2 ^ 32 ->
  let x := flags s f in
  exists b, MSG_FLAG_Execute f s = Some (b, s) /\
    (active x = false -> b = false) /\
    (active x = true -> b = (duration x <= f32_of_Z (Z.of_nat n))%f32) /\
    (active x = true -> Z.of_nat n < 2 ^ 24 ->
      (f32_valid (duration x) -> f32_finite (duration x) = true ->
         b = true <-> f32_scaled (duration x) <= Z.of_nat n * 2 ^ 149) /\
      (forall d, Z.abs d < 2 ^ 24 -> duration x = f32_of_Z d -> b = true <-> d <= Z.of_nat n)).
Proof.
  intros Ht Etr Ec Hn x. pose proof (elapsed_ticks t0 r0 (tm s) (rg s) n Ht Ec Hn) as En.
  unfold MSG_FLAG_Execute, get_flag, SecondsSince. unfold mbind, M_bind, gets. fold x in Etr |- *. cbn beta iota.
  destruct (active x) eqn:Ea; [|by exists false]. rewrite Etr, En.
  exists (f32_le (duration x) (f32_of_Z (Z.of_nat n))).
  split; [by destruct (f32_le _ _)|]. split; [done|]. split; [done|]. intros _ Hn'.
  destruct (f32_of_Z_exact (Z.of_nat n)) as (V&F&S); [lia|].
  assert (Hx : f32_valid (duration x) -> f32_finite (duration x) = true ->
    f32_le (duration x) (f32_of_Z (Z.of_nat n)) = true <-> f32_scaled (duration x) <= Z.of_nat n * 2 ^ 149).
  { intros Vd Fd. by rewrite f32_le_scaled, S, Z.leb_le. }
  split; [exact Hx|]. intros d Hd E. destruct (f32_of_Z_exact d Hd) as (V'&F'&S'). rewrite E in *.
  rewrite Hx, S' by done. symmetry. apply Z.mul_le_mono_pos_r. lia.
Qed.

(** Triggered 3 ms before the count wraps around, ten milliseconds after: the count
    stands at 7, and the flag fires. *)
Lemma flag_fires_witness :
  let t0 := {| count_ms := 2 ^ 32 - 3; ms_counter_1 := 0; ms_counter_2 := 0; ms_counter_3 := 0; ms_counter_4 := 0 |} in
  let s := upd_flag mf_send_battery (fun _ =>
    {| active := true; duration := f32_of_Z 10; last_trigger_time := Timing.GetTime t0 regs_zero |})
    (set_tm (timer_ticks 10 (t0, regs_zero)).1 (fw_sample [])) in
  count_ms (tm s) = 7 /\ MSG_FLAG_Execute mf_send_battery s = Some (true, s).
Proof.
  intros t0 s.
  assert (Ht : timing_ok t0) by (repeat split; by vm_compute).
  assert (Ec : count_ms (tm s) = 7).
  { change (count_ms (timer_ticks 10 (t0, regs_zero)).1 = 7). rewrite timer_ticks_count by exact Ht. by vm_compute. }
  split; [exact Ec|].
  destruct (flag_fires mf_send_battery s t0 regs_zero 10 Ht eq_refl eq_refl ltac:(lia)) as (b&E&_&_&H).
  destruct (H eq_refl) as [_ Hd]; [lia|]. rewrite E. do 2 f_equal. apply (Hd 10); [lia|reflexivity|lia].
Defined.
