(* ===== verification/Drive.v ===== *)
(** * Drive: properties of the commands that move the robot

    What 's', 'd', 'D', 'v', 'V', 'p', 'P' and 'O' do to motors, targets and
    flags, and that a weak battery refuses them. *)
From S2P Require Import Prelude.
From S2P Require Import Float32.
From S2P Require Import FloatSymmetry.
From S2P Require Import Controller.
From S2P Require Import Avr.
From S2P Require Import Timing.
From S2P Require Import Encoder.
From S2P Require Import LedServo.
From S2P Require Import MotorPWM.
From S2P Require Import Battery.
From S2P Require Import SerialIO.
From S2P Require Import Firmware.
From S2P Require Import MessageHandling.
From S2P Require Import MessageSpec.
From S2P Require Import Protocol.
Import Call.

(** ** Standing still *)

(** Both motors at duty cycle zero, forward, outputs disconnected. *)
Definition motors_off (r : regs) : Prop :=
  Is_Motor_PWM_Enabled r = false /\
  MotorPWM.Get_Motor_PWM_Left r = Some 0 /\ MotorPWM.Get_Motor_PWM_Right r = Some 0 /\
  Z.testbit (r PORTB) 1 = false /\ Z.testbit (r PORTB) 2 = false.

(** Nothing drives the robot, and nothing is about to. *)
Definition parked (s : fw) : Prop :=
  motors_off (rg s) /\
  active (flags s mf_motor_dist_control) = false /\ active (flags s mf_motor_vel_control) = false /\
  active (flags s mf_motor_stop) = false /\ active (flags s mf_timed_pwm) = false /\
  target_pos (ctr_LeftMotor s) = f32_zero /\ target_pos (ctr_RightMotor s) = f32_zero /\
  target_vel (ctr_LeftMotor s) = f32_zero /\ target_vel (ctr_RightMotor s) = f32_zero.

(** Setting both duty cycles to zero; the enable bits stay. *)
Lemma zero_duty r0 r1 r2 :
  r0 ICR1 = 400 -> motor_state OCR1B 2 0 r0 r1 -> motor_state OCR1A 1 0 r1 r2 ->
  r2 TCCR1A = r0 TCCR1A /\ MotorPWM.Get_Motor_PWM_Left r2 = Some 0 /\ MotorPWM.Get_Motor_PWM_Right r2 = Some 0 /\
  Z.testbit (r2 PORTB) 1 = false /\ Z.testbit (r2 PORTB) 2 = false.
Proof.
  intros Htop (A1&A2&A3&_) (B1&B2&B3&_).
  unfold MotorPWM.Get_Motor_PWM_Left, MotorPWM.Get_Motor_PWM_Right, Get_MAX_Motor_PWM.
  rewrite (B3 ICR1), (A3 ICR1), Htop by reg_list. rewrite (B3 OCR1B), A1, B1 by reg_list.
  rewrite (B3 TCCR1A), (A3 TCCR1A) by reg_list. rewrite !B2 by lia. cbn [Z.eqb Pos.eqb].
  rewrite A2 by lia. split_and!; by vm_compute.
Qed.

(** Disable first, or disable last: the motors end up off. *)
Lemma motors_off_first r0 r1 r2 :
  r0 ICR1 = 400 -> motor_state OCR1B 2 0 (MotorPWM.Motor_PWM_Enable false r0) r1 ->
  motor_state OCR1A 1 0 r1 r2 -> motors_off r2.
Proof.
  intros Htop H1 H2. destruct (zero_duty _ _ _ Htop H1 H2) as (E&?&?&?&?).
  split_and!; try done. by rewrite (Is_Enabled_same _ _ E), Is_Enabled_Enable.
Qed.

Lemma motors_off_last r0 r1 r2 :
  r0 ICR1 = 400 -> motor_state OCR1B 2 0 r0 r1 -> motor_state OCR1A 1 0 r1 r2 ->
  motors_off (MotorPWM.Motor_PWM_Enable false r2).
Proof.
  intros Htop H1 H2. destruct (zero_duty _ _ _ Htop H1 H2) as (E&?&?&?&?).
  split_and!; try done. by rewrite Is_Enabled_Enable.
Qed.

(** ** Stop *)

Lemma case_s_parks c s :
  fw_ok s -> rx_bytes (ser s) !! 0%nat = Some c ->
  wp (case_s c) (fun _ s' => parked s' /\ active (flags s' mf_obj_avoidance) = false /\
    ser_step 1 [] (ser s) (ser s')) s.
Proof.
  intros Hok Hc. pose proof (lookup_lt_Some _ _ _ Hc) as Hlen.
  unfold case_s. apply (run_case _ _ 1); [done|done|lia|]. intros Hstep. wp_go.
  unfold parked. flag_simpl. split_and!; try done.
  eapply motors_off_first; [|exact Hl|exact Hr]. rewrite Set_LED_only by reg_list.
  apply mregs_top, fw_ok_mregs, Hok.
Qed.

(** C8: stop means stop.  After 's' or 'S', whatever the robot was doing, both
    motors are at duty cycle zero with their outputs disabled, none of the five
    drive flags is active, and both controllers' targets are zero; the one byte
    is consumed and there is no answer. *)
Theorem stop_command s c :
  fw_ok s -> c ∈ [ch "s"; ch "S"] -> rx_bytes (ser s) !! 0%nat = Some c ->
  wp Message_Handling_Task (fun _ s' =>
    parked s' /\ active (flags s' mf_obj_avoidance) = false /\ ser_step 1 [] (ser s) (ser s')) s.
Proof.
  intros Hok Hc Hb. apply (task_dispatches c); [done..|].
  rewrite !elem_of_cons, elem_of_nil in Hc. destruct Hc as [->|[->|[]]].
  - by apply (case_s_parks (ch "s")).
  - by apply (case_s_parks (ch "S")).
Qed.

Lemma stop_command_witness :
  let s := upd_rg (MotorPWM.Motor_PWM_Enable true) (fw_sample [115]) in
  wp Message_Handling_Task (fun _ s' => parked s' /\ active (flags s' mf_obj_avoidance) = false /\
    ser_step 1 [] (ser s) (ser s')) s.
Proof.
  intros s. destruct (fw_sample_ok [115]) as (H1&H2&_); [repeat constructor; done|simpl; lia|].
  assert (Hs : fw_ok s).
  { destruct H1 as (K1&K). split; [by apply mregs_Motor_PWM_Enable|exact K]. }
  apply (stop_command s 115 Hs); [by apply in_codes; vm_compute|].
  change (rx_bytes (ser s)) with (rx_bytes (ser (fw_sample [115]))). by rewrite H2.
Defined.

(** ** Drive commands *)

Definition drives : list Z := [ch "d"; ch "D"; ch "v"; ch "V"].

(** Distance or velocity control, and whether a stop time comes along. *)
Definition drive_flag (c : Z) : mf :=
  if (c =? ch "d") || (c =? ch "D") then mf_motor_dist_control else mf_motor_vel_control.
Definition drive_timed (c : Z) : bool := (c =? ch "D") || (c =? ch "V").

(** What the command asks of the wheels. *)
Definition drive_targets (c : Z) (linear angular : f32) : targets :=
  if (c =? ch "d") || (c =? ch "D") then
    if goes_straight angular then straight_targets linear else turn_targets linear angular
  else velocity_targets linear angular.

(** *** The targets by absolute values

    What the commands ask of the wheels, without the branches of the code: the
    sign of the angle picks the wheel on the inside of the turn, and the
    figures depend on absolute values only. *)

Definition no_turn (y : f32) : bool := (f32_abs y < f32_lit 1 100)%f32.
Definition to_left (y : f32) : bool := (y > f32_zero)%f32.

(** Distance and velocity of the wheel on the named side and of the other one. *)
Definition wheels (left : bool) (inner outer : f32 * f32) : targets :=
  let '(l, r) := if left then (inner, outer) else (outer, inner) in
  {| distance_left := l.1; distance_right := r.1; velocity_left := l.2; velocity_right := r.2 |}.

Inductive asked (c : Z) (x y : f32) : targets -> Prop :=
  (* Straight on for the distance [x], at 75%. *)
  | asked_straight :
      c ∈ [ch "d"; ch "D"] -> no_turn y = true ->
      asked c x y {| distance_left := x; distance_right := x;
        velocity_left := DutyCycle_to_Velocity_Left 75; velocity_right := DutyCycle_to_Velocity_Right 75 |}
  (* A short arc: a spin, the left wheel backward, whatever the sign of the angle. *)
  | asked_spin :
      c ∈ [ch "d"; ch "D"] -> no_turn y = false -> (f32_abs x < MIN_TURN_ARC)%f32 = true ->
      let arc := (HALF_WHEEL_BASE * f32_abs y / f32_of_Z 2)%f32 in
      asked c x y {| distance_left := f32_opp arc; distance_right := arc;
        velocity_left := DutyCycle_to_Velocity_Left SPIN_DUTYCYLE;
        velocity_right := DutyCycle_to_Velocity_Right SPIN_DUTYCYLE |}
  (* A turn: the inner track has the length given, the outer one that of the circle
     with a wheel base more of radius, in the same time. *)
  | asked_turn :
      c ∈ [ch "d"; ch "D"] -> no_turn y = false -> (f32_abs x < MIN_TURN_ARC)%f32 = false ->
      let outer := (f32_abs y * (f32_abs x / f32_abs y + WHEEL_BASE))%f32 in
      asked c x y (wheels (to_left y) (f32_abs x, TURN_VELOCITY)
        (outer, (outer / (f32_abs x / TURN_VELOCITY))%f32))
  | asked_speed :
      c ∈ [ch "v"; ch "V"] -> no_turn y = true -> asked c x y (wheels true (f32_zero, x) (f32_zero, x))
  (* To the left the outer wheel is faster; to the right it is slower. *)
  | asked_speed_left :
      c ∈ [ch "v"; ch "V"] -> no_turn y = false -> to_left y = true ->
      asked c x y (wheels true (f32_zero, x) (f32_zero, (x + WHEEL_BASE * f32_abs y)%f32))
  | asked_speed_right :
      c ∈ [ch "v"; ch "V"] -> no_turn y = false -> to_left y = false ->
      asked c x y (wheels false (f32_zero, x) (f32_zero, (x + f32_opp (WHEEL_BASE * f32_abs y))%f32)).

Lemma goes_straight_abs y : goes_straight y = no_turn y.
Proof.
  unfold goes_straight, no_turn. change (f32_lit (-1) 100) with (f32_opp (f32_lit 1 100)).
  destruct (f32_abs_cases y) as [[Hs ->]|[Hs E]].
  - destruct y as [[]|[]| |[] m e]; try done. by rewrite andb_true_r.
  - assert (Ey : y = f32_opp (f32_abs y)) by (by rewrite E, f32_opp_opp).
    rewrite Ey at 2. rewrite f32_lt_opp. destruct y as [[]|[]| |[] m e]; done.
Qed.

Lemma left_abs y : to_left y = true -> y = f32_abs y.
Proof. by destruct y as [[]|[]| |[] m e]. Qed.

Lemma right_abs y : no_turn y = false -> to_left y = false -> y = f32_opp (f32_abs y).
Proof. by destruct y as [[]|[]| |[] m e]. Qed.

(** The distance made positive; negative zero stays, and is short. *)
Lemma made_positive x :
  f32_valid x ->
  let l := if (x < f32_zero)%f32 then (x * f32_of_Z (-1))%f32 else x in
  (l < MIN_TURN_ARC)%f32 = (f32_abs x < MIN_TURN_ARC)%f32 /\
  ((l < MIN_TURN_ARC)%f32 = false -> l = f32_abs x).
Proof.
  intros Hv l. subst l. destruct (x < f32_zero)%f32 eqn:E.
  - rewrite f32_mul_minus_one by done. by destruct x as [[]|[]| |[] m e].
  - by destruct x as [[]|[]| |[] m e].
Qed.

Lemma turn_asked c x y :
  c ∈ [ch "d"; ch "D"] -> f32_valid x -> f32_valid y -> no_turn y = false -> asked c x y (turn_targets x y).
Proof.
  intros Hc Vx Vy Hy. destruct (made_positive x Vx) as [M1 M2]. cbv zeta in M1, M2.
  unfold turn_targets. set (l := if (x < f32_zero)%f32 then _ else x) in *.
  destruct (l < MIN_TURN_ARC)%f32 eqn:El.
  - pose proof (asked_spin c x y Hc Hy (eq_sym M1)) as G. cbv zeta in G.
    rewrite f32_minus_one_mul by apply f32_div_valid.
    fold (to_left y). destruct (to_left y) eqn:Ht.
    + by rewrite <- (left_abs y Ht) in G.
    + assert (E : (HALF_WHEEL_BASE * y)%f32 = f32_opp (HALF_WHEEL_BASE * f32_abs y)%f32)
        by (by rewrite <- f32_mul_opp_r, <- (right_abs y Hy Ht)).
      rewrite E. by rewrite f32_div_opp_l, f32_opp_opp.
  - rewrite (M2 eq_refl). pose proof (asked_turn c x y Hc Hy (eq_sym M1)) as G. cbv zeta in G.
    fold (to_left y). destruct (to_left y) eqn:Ht.
    + by rewrite <- (left_abs y Ht) in G.
    + assert (E : (y * f32_of_Z (-1))%f32 = f32_abs y).
      { rewrite f32_mul_minus_one by done. rewrite (right_abs y Hy Ht) at 1. by rewrite f32_opp_opp. }
      by rewrite E.
Qed.

Lemma velocity_asked c x y : c ∈ [ch "v"; ch "V"] -> asked c x y (velocity_targets x y).
Proof.
  intros Hc. unfold velocity_targets. rewrite goes_straight_abs. fold (to_left y).
  destruct (no_turn y) eqn:Hy; [by apply asked_speed|]. destruct (to_left y) eqn:Ht.
  - pose proof (asked_speed_left c x y Hc Hy Ht) as G. by rewrite <- (left_abs y Ht) in G.
  - pose proof (asked_speed_right c x y Hc Hy Ht) as G. by rewrite <- f32_mul_opp_r, <- (right_abs y Hy Ht) in G.
Qed.

Lemma drive_targets_asked c x y :
  c ∈ drives -> f32_valid x -> f32_valid y -> asked c x y (drive_targets c x y).
Proof.
  intros Hd Vx Vy. assert (Hc : (c ∈ [ch "d"; ch "D"] /\ (c =? ch "d") || (c =? ch "D") = true) \/
    (c ∈ [ch "v"; ch "V"] /\ (c =? ch "d") || (c =? ch "D") = false)).
  { unfold drives in Hd. rewrite !elem_of_cons, elem_of_nil in *.
    destruct Hd as [->|[->|[->|[->|[]]]]]; [left|left|right|right]; (split; [|by vm_compute]); auto. }
  unfold drive_targets. destruct Hc as [[Hc ->]|[Hc ->]]; [|by apply velocity_asked].
  rewrite goes_straight_abs. destruct (no_turn y) eqn:Hy; [by apply asked_straight|by apply turn_asked].
Qed.

(** The controllers have the targets [g], the encoders count from zero, and of
    the four controls only [f] is active, at the controller's period. *)
Definition driving (f : mf) (g : targets) (s s' : fw) : Prop :=
  (target_pos (ctr_LeftMotor s') = distance_left g /\
   target_pos (ctr_RightMotor s') = distance_right g /\
   target_vel (ctr_LeftMotor s') = velocity_left g /\
   target_vel (ctr_RightMotor s') = velocity_right g) /\
  (counts (left (enc s')) = 0 /\ counts (right (enc s')) = 0) /\
  active (flags s' f) = true /\ duration (flags s' f) = update_period (ctr_LeftMotor s) /\
  (forall h, h ∈ [mf_motor_dist_control; mf_motor_vel_control; mf_timed_pwm; mf_obj_avoidance] ->
     h <> f -> active (flags s' h) = false).

(** The stop flag afterwards: set to fire [dur] seconds from now, or cleared. *)
Definition stop_set (timed : bool) (dur : f32) (s' : fw) : Prop :=
  if timed then
    flags s' mf_motor_stop = {| active := true; duration := (dur * f32_of_Z 1000)%f32;
      last_trigger_time := Timing.GetTime (tm s') (rg s') |}
  else active (flags s' mf_motor_stop) = false.

Lemma take_3_floats x y z l :
  take 12 (bytes_of_f32 x ++ bytes_of_f32 y ++ bytes_of_f32 z ++ l) =
    bytes_of_f32 x ++ bytes_of_f32 y ++ bytes_of_f32 z.
Proof.
  rewrite !app_assoc.
  replace 12%nat with (length ((bytes_of_f32 x ++ bytes_of_f32 y) ++ bytes_of_f32 z));
    [apply take_app_length|by rewrite !length_app, !length_bytes_of_f32].
Qed.

Section two_floats.
Context (x y : f32) (Vx : f32_valid x) (Vy : f32_valid y).

Lemma pair_0 : float_at 0 (bytes_of_f32 x ++ bytes_of_f32 y) = x.
Proof. by apply float_at_0. Qed.
Lemma pair_4 : float_at 4 (bytes_of_f32 x ++ bytes_of_f32 y) = y.
Proof. rewrite <- (app_nil_r (bytes_of_f32 y)). by apply float_at_app. Qed.

Context (z : f32) (Vz : f32_valid z).
Lemma triple_0 : float_at 0 (bytes_of_f32 x ++ bytes_of_f32 y ++ bytes_of_f32 z) = x.
Proof. by apply float_at_0. Qed.
Lemma triple_4 : float_at 4 (bytes_of_f32 x ++ bytes_of_f32 y ++ bytes_of_f32 z) = y.
Proof. by apply float_at_app. Qed.
Lemma triple_8 : float_at 8 (bytes_of_f32 x ++ bytes_of_f32 y ++ bytes_of_f32 z) = z.
Proof.
  rewrite app_assoc, <- (app_nil_r (bytes_of_f32 z)). apply float_at_app; [|done].
  by rewrite length_app, !length_bytes_of_f32.
Qed.
End two_floats.

Section drive_cases.
Context (s : fw) (x y : f32) (rest : list Z).
Context (Hok : fw_ok s) (Vx : f32_valid x) (Vy : f32_valid y).
Context (Hbat : (Battery.Battery_Voltage (bat s) >= f32_lit 475 100)%f32 = true).

(** Run a drive command of [n] bytes whose message is [E]. *)
Ltac run_drive n E :=
  assert (Hc := f_equal (fun l => l !! 0%nat) E); cbn [lookup list_lookup] in Hc;
  assert (Hlen := f_equal length E); cbn [length] in Hlen;
  rewrite !length_app, !length_bytes_of_f32 in Hlen;
  apply (run_case _ _ n); [done|done|lia|];
  intros Hstep; wp_go; try congruence; rewrite ?E, ?skipn_cons, ?drop_0 in *.

(** The end of a drive command: the flags are computed, the rest is the state. *)
Ltac finish_drive :=
  rewrite ?take_2_floats, ?take_3_floats, ?pair_0, ?pair_4, ?triple_0, ?triple_4, ?triple_8 in * by done;
  unfold driving, stop_set, drive_targets; cbn [Z.eqb orb];
  repeat match goal with H : goes_straight _ = _ |- _ => rewrite H; clear H end;
  flag_simpl; split_and!; try done;
  intros h Hh Hne; rewrite !elem_of_cons, elem_of_nil in Hh;
  destruct Hh as [->|[->|[->|[->|[]]]]]; try done; by destruct Hne.

Lemma case_d_drives c :
  rx_bytes (ser s) = c :: bytes_of_f32 x ++ bytes_of_f32 y ++ rest ->
  wp (case_d c) (fun _ s' =>
    driving mf_motor_dist_control (drive_targets (ch "d") x y) s s' /\ stop_set false x s') s.
Proof. intros E. unfold case_d. run_drive 9%nat E; finish_drive. Qed.

Lemma case_v_drives c :
  rx_bytes (ser s) = c :: bytes_of_f32 x ++ bytes_of_f32 y ++ rest ->
  wp (case_v c) (fun _ s' =>
    driving mf_motor_vel_control (drive_targets (ch "v") x y) s s' /\ stop_set false x s') s.
Proof. intros E. unfold case_v. run_drive 9%nat E; finish_drive. Qed.

Context (dur : f32) (Vd : f32_valid dur).

Lemma case_D_drives c :
  rx_bytes (ser s) = c :: bytes_of_f32 x ++ bytes_of_f32 y ++ bytes_of_f32 dur ++ rest ->
  wp (case_D c) (fun _ s' =>
    driving mf_motor_dist_control (drive_targets (ch "D") x y) s s' /\ stop_set true dur s') s.
Proof. intros E. unfold case_D. run_drive 13%nat E; finish_drive. Qed.

Lemma case_V_drives c :
  rx_bytes (ser s) = c :: bytes_of_f32 x ++ bytes_of_f32 y ++ bytes_of_f32 dur ++ rest ->
  wp (case_V c) (fun _ s' =>
    driving mf_motor_vel_control (drive_targets (ch "V") x y) s s' /\ stop_set true dur s') s.
Proof. intros E. unfold case_V. run_drive 13%nat E; finish_drive. Qed.
End drive_cases.

(** C19: driving.  A complete 'd', 'D', 'v' or 'V' with enough battery sets the
    controllers' targets by the table [asked]: straight on if the angle is below
    0.01 either way, else a turn whose inner wheel is picked by the sign of the
    angle and whose figures depend on absolute values.  Two entries differ from
    the comments of the source: a short arc spins to the left whatever the sign
    of the angle, and in a right turn of 'v' and 'V' the outer wheel is the
    slower one.  The encoders are zeroed and exactly one control is left active
    - the distance control for 'd' and 'D', the velocity control for 'v' and 'V'
    - with the controller's update period: the other control, the timed duty
    cycle and the obstacle avoidance are off.  'D' and 'V' set the stop flag to
    fire after their duration from now, 'd' and 'v' clear it. *)
Theorem drive_command s c x y dur rest :
  fw_ok s -> c ∈ drives -> f32_valid x -> f32_valid y -> f32_valid dur ->
  rx_bytes (ser s) = c :: bytes_of_f32 x ++ bytes_of_f32 y ++
    (if drive_timed c then bytes_of_f32 dur else []) ++ rest ->
  (Battery.Battery_Voltage (bat s) >= f32_lit 475 100)%f32 = true ->
  wp Message_Handling_Task (fun _ s' =>
    exists g, asked c x y g /\ driving (drive_flag c) g s s' /\ stop_set (drive_timed c) dur s') s.
Proof.
  intros Hok Hd Vx Vy Vd E Hbat. pose proof (drive_targets_asked c x y Hd Vx Vy) as Hg.
  apply (task_dispatches c); [done|by rewrite E|].
  apply (wp_mono _ (fun _ s' => driving (drive_flag c) (drive_targets c x y) s s' /\ stop_set (drive_timed c) dur s'));
    [|intros [] s' H; by exists (drive_targets c x y)].
  unfold drives in Hd. rewrite !elem_of_cons, elem_of_nil in Hd. destruct Hd as [->|[->|[->|[->|[]]]]].
  - eapply wp_mono; [by eapply (case_d_drives s x y rest Hok Vx Vy Hbat (ch "d"))|done].
  - by eapply (case_D_drives s x y rest Hok Vx Vy Hbat dur Vd (ch "D")).
  - eapply wp_mono; [by eapply (case_v_drives s x y rest Hok Vx Vy Hbat (ch "v"))|done].
  - by eapply (case_V_drives s x y rest Hok Vx Vy Hbat dur Vd (ch "V")).
Qed.

(** A quarter of a metre per second, turning right, for two seconds: the stop flag is
    set, and the velocity control drives the left wheel, the outer one, slower. *)
Lemma drive_command_witness :
  let y := f32_of_Z (-1) in
  let l := ch "V" :: bytes_of_f32 (f32_lit 1 4) ++ bytes_of_f32 y ++ bytes_of_f32 (f32_of_Z 2) ++ [] in
  wp Message_Handling_Task (fun _ s' =>
    exists g, asked (ch "V") (f32_lit 1 4) y g /\ driving mf_motor_vel_control g (fw_sample l) s' /\
    stop_set true (f32_of_Z 2) s') (fw_sample l).
Proof.
  intros y l. destruct (fw_sample_ok l) as (H1&H2&_&Hv);
    [repeat (constructor; [by vm_compute|]); constructor|vm_compute; lia|].
  apply (drive_command (fw_sample l) (ch "V") (f32_lit 1 4) y (f32_of_Z 2) []);
    [exact H1|by apply in_codes; vm_compute|by vm_compute..|by rewrite H2|].
  rewrite Hv. by vm_compute.
Defined.

(** ** Weak battery *)

(** The commands that need 4.75 V, and the warning each gives below it. *)
Definition powered : list Z := drives ++ [ch "p"; ch "P"; ch "O"].

Definition low_frame (v : f32) : list Z := frame "ccccccccf" (ch "!") (codes "BAT LOW" ++ bytes_of_f32 v).
Definition off_frame (v : f32) : list Z := frame "ccccccccccf" (ch "!") (codes "POWER OFF" ++ bytes_of_f32 v).

Definition refusal (c : Z) (v : f32) : list Z :=
  if (c =? ch "p") || (c =? ch "P") then
    if (v > f32_lit 35 10)%f32 then low_frame v else off_frame v
  else if (v < f32_of_Z 3)%f32 then low_frame v else off_frame v.

Ltac finish_refusal :=
  unfold refusal; cbn [Z.eqb orb];
  repeat match goal with H : f32_lt _ _ = _ |- _ => rewrite H; clear H end; finish_reply.

Lemma refusal_cases s c n :
  fw_ok s -> c ∈ powered -> rx_bytes (ser s) !! 0%nat = Some c ->
  MEGN540_Message_Len c = Z.of_nat n -> (n <= length (rx_bytes (ser s)))%nat ->
  (Battery.Battery_Voltage (bat s) >= f32_lit 475 100)%f32 = false ->
  wp (dispatch (s8 c)) (fun _ s' => replies n (refusal c (Battery.Battery_Voltage (bat s))) s s') s.
Proof.
  intros Hok Hd Hc Hn Hlen Hbat.
  assert (En : n = Z.to_nat (MEGN540_Message_Len c)) by lia. clear Hn.
  unfold powered, drives in Hd. cbn [app] in Hd. by_command Hd; vm_compute in En; subst n;
    [ change (dispatch (s8 (ch "d"))) with (case_d (ch "d")); unfold case_d; apply (run_case _ _ 9)
    | change (dispatch (s8 (ch "D"))) with (case_D (ch "D")); unfold case_D; apply (run_case _ _ 13)
    | change (dispatch (s8 (ch "v"))) with (case_v (ch "v")); unfold case_v; apply (run_case _ _ 9)
    | change (dispatch (s8 (ch "V"))) with (case_V (ch "V")); unfold case_V; apply (run_case _ _ 13)
    | change (dispatch (s8 (ch "p"))) with (case_p (ch "p")); unfold case_p; apply (run_case _ _ 5)
    | change (dispatch (s8 (ch "P"))) with (case_P (ch "P")); unfold case_P; apply (run_case _ _ 9)
    | change (dispatch (s8 (ch "O"))) with (case_O (ch "O")); unfold case_O; apply (run_case _ _ 5) ];
    try done; intros Hstep; repeat (wp_step; try congruence); finish_refusal.
Qed.

(** C21: no driving on a weak battery.  Below 4.75 V each of 'd', 'D', 'v', 'V',
    'p', 'P' and 'O' is consumed and answered by one warning frame with the
    voltage, and nothing else changes: motors, targets and flags keep their
    values.  The text differs: 'p' and 'P' say BAT LOW above 3.5 V and POWER OFF
    below; the others say BAT LOW below 3.0 V and POWER OFF from there to
    4.75 V. *)
Theorem low_battery_refuses s c n :
  fw_ok s -> c ∈ powered -> rx_bytes (ser s) !! 0%nat = Some c ->
  MEGN540_Message_Len c = Z.of_nat n -> (n <= length (rx_bytes (ser s)))%nat ->
  (Battery.Battery_Voltage (bat s) >= f32_lit 475 100)%f32 = false ->
  wp Message_Handling_Task (fun _ s' =>
    replies n (refusal c (Battery.Battery_Voltage (bat s))) s s') s.
Proof.
  intros Hok Hd Hc Hn Hlen Hbat. apply (task_dispatches c); [done..|]. by apply refusal_cases.
Qed.

(** A running system with a weak battery: sample 800, 3.9 V. *)
Definition weak_battery : battery :=
  from_option fst battery_zero
    (Battery.Battery_Monitor_Init 1 {| latency := 1; sample := 800 |} battery_zero regs_zero).

Lemma weak_battery_ok l :
  fw_ok (fw_sample l) -> fw_ok (set_bat weak_battery (fw_sample l)) /\
  Battery.Battery_Voltage weak_battery = volts {| latency := 1; sample := 800 |}.
Proof.
  intros (H1&H2&H3&H4&H5&H6&H7).
  destruct (Battery_Monitor_Init_spec 1 {| latency := 1; sample := 800 |} battery_zero regs_zero)
    as (b&r&E&Hb&Hv&_); [apply battery_zero_wf|unfold conversion_ok; simpl; lia|simpl; lia|].
  unfold weak_battery. rewrite E. split; [|exact Hv]. by split_and!.
Qed.

Lemma low_battery_refuses_witness :
  let s := set_bat weak_battery (fw_sample [79; 0; 0; 128; 63]) in
  wp Message_Handling_Task (fun _ s' => replies 5 (off_frame (f32_of_bits 1081753232)) s s') s.
Proof.
  intros s. destruct (fw_sample_ok [79; 0; 0; 128; 63]) as (H1&H2&_);
    [repeat constructor; done|simpl; lia|].
  destruct (weak_battery_ok _ H1) as [Hs Hv].
  assert (Er : refusal (ch "O") (Battery.Battery_Voltage (bat s)) = off_frame (f32_of_bits 1081753232)).
  { change (bat s) with weak_battery. rewrite Hv. vm_compute. done. }
  rewrite <- Er. apply (low_battery_refuses s (ch "O") 5 Hs);
    [by apply in_codes; vm_compute|..|change (bat s) with weak_battery; rewrite Hv; by vm_compute];
    change (ser s) with (ser (fw_sample [79; 0; 0; 128; 63])); rewrite ?H2; simpl; done || lia.
Defined.

(** ** Direct duty cycles, obstacle avoidance, gripper *)

Lemma s16_of_bytes z l : -32768 <= z < 32768 -> s16 (le_combine (take 2 (bytes_of_s16 z ++ l))) = z.
Proof.
  intros Hz. unfold bytes_of_s16. rewrite <- (length_le_split 2 (u16 z)) at 1. rewrite take_app_length.
  rewrite le_combine_split. change (2 ^ (8 * Z.of_nat 2)) with 65536.
  rewrite Z.mod_small by apply u16_range. unfold s16, swrap, u16, uwrap.
  change (2 ^ 16) with 65536. change (2 ^ (16 - 1)) with 32768.
  rewrite Zplus_mod_idemp_l, Z.mod_small; lia.
Qed.

(** The motors at the duty cycles [l] and [r], enabled. *)
Definition motors_at (l r : Z) (x : regs) : Prop :=
  Is_Motor_PWM_Enabled x = true /\
  x OCR1B = compare_400 (Z.min (Z.abs l) 100) /\ x OCR1A = compare_400 (Z.min (Z.abs r) 100) /\
  Z.testbit (x PORTB) 2 = (l <? 0) /\ Z.testbit (x PORTB) 1 = (r <? 0).

Lemma motors_at_enabled l r x0 x1 x2 :
  motor_state OCR1B 2 l x0 x1 -> motor_state OCR1A 1 r x1 x2 ->
  motors_at l r (MotorPWM.Motor_PWM_Enable true x2).
Proof.
  intros (A1&A2&A3&_) (B1&B2&B3&_). unfold motors_at. rewrite Is_Enabled_Enable.
  rewrite !(Motor_PWM_Enable_only true x2) by reg_list.
  split_and!; [done|by rewrite (B3 OCR1B) by reg_list|done|..].
  - rewrite B2 by lia. cbn [Z.eqb Pos.eqb]. by rewrite A2 by lia.
  - by rewrite B2 by lia.
Qed.

(** The other motor controls after 'p' or 'P'. *)
Definition direct_flags (s s' : fw) : Prop :=
  active (flags s' mf_motor_dist_control) = false /\ active (flags s' mf_motor_vel_control) = false /\
  active (flags s' mf_motor_stop) = false /\
  flags s' mf_obj_avoidance = flags s mf_obj_avoidance.

Section direct.
Context (s : fw) (l r : Z) (rest : list Z).
Context (Hok : fw_ok s) (Hl : -32768 < l < 32768) (Hr : -32768 < r < 32768).
Context (Hbat : (Battery.Battery_Voltage (bat s) >= f32_lit 475 100)%f32 = true).

Lemma pwm_left n m : (4 <= n)%nat -> int_at 0 (take n (bytes_of_s16 l ++ m)) = l.
Proof.
  intros Hn. unfold int_at. rewrite drop_0, take_take, Nat.min_l by lia. apply s16_of_bytes. lia.
Qed.

Lemma pwm_right n m : (4 <= n)%nat -> int_at 2 (take n (bytes_of_s16 l ++ bytes_of_s16 r ++ m)) = r.
Proof.
  intros Hn. unfold int_at. rewrite skipn_firstn_comm, take_take, Nat.min_l by lia.
  change (drop 2 (bytes_of_s16 l ++ bytes_of_s16 r ++ m)) with (bytes_of_s16 r ++ m).
  apply s16_of_bytes. lia.
Qed.

Lemma pwm_duration d n m : (8 <= n)%nat -> f32_valid d ->
  float_at 4 (take n (bytes_of_s16 l ++ bytes_of_s16 r ++ bytes_of_f32 d ++ m)) = d.
Proof.
  intros Hn Hd. unfold float_at. rewrite skipn_firstn_comm, take_take, Nat.min_l by lia.
  change (drop 4 (bytes_of_s16 l ++ bytes_of_s16 r ++ bytes_of_f32 d ++ m)) with (bytes_of_f32 d ++ m).
  rewrite take_float. by apply f32_of_bytes_of_f32.
Qed.

Ltac run_direct n E Hdata :=
  assert (Hc := f_equal (fun l => l !! 0%nat) E); cbn [lookup list_lookup] in Hc;
  assert (Hlen := f_equal length E); cbn [length] in Hlen;
  rewrite !length_app in Hlen; unfold bytes_of_s16 at 1 2 in Hlen; rewrite !length_le_split in Hlen;
  apply (run_case _ _ n); [done|done|lia|];
  intros Hstep;
  repeat (wp_step; rewrite ?Hdata, ?pwm_left, ?pwm_right by lia; try congruence).

Lemma case_p_direct c :
  rx_bytes (ser s) = c :: bytes_of_s16 l ++ bytes_of_s16 r ++ rest ->
  wp (case_p c) (fun _ s' => motors_at l r (rg s') /\ direct_flags s s' /\
    active (flags s' mf_timed_pwm) = false) s.
Proof.
  intros E. assert (Hd : drop 1 (rx_bytes (ser s)) = bytes_of_s16 l ++ bytes_of_s16 r ++ rest)
    by by rewrite E.
  unfold case_p. run_direct 5%nat E Hd.
  split; [by eapply motors_at_enabled|]. unfold direct_flags. flag_simpl. by split_and!.
Qed.

Lemma case_P_direct c d m :
  f32_valid d -> rest = bytes_of_f32 d ++ m -> (d > f32_zero)%f32 = true ->
  rx_bytes (ser s) = c :: bytes_of_s16 l ++ bytes_of_s16 r ++ rest ->
  wp (case_P c) (fun _ s' => motors_at l r (rg s') /\ direct_flags s s' /\
    flags s' mf_timed_pwm = {| active := true; duration := (d * f32_of_Z 1000)%f32;
      last_trigger_time := Timing.GetTime (tm s') (rg s') |}) s.
Proof.
  intros Vd Er Hd0 E. assert (Hd : drop 1 (rx_bytes (ser s)) = bytes_of_s16 l ++ bytes_of_s16 r ++ rest)
    by by rewrite E.
  pose proof (pwm_duration d 8 m ltac:(lia) Vd) as Ed. rewrite <- Er in Ed.
  assert (length rest = 4 + length m)%nat by (rewrite Er, length_app, length_bytes_of_f32; done).
  unfold case_P. run_direct 9%nat E Hd.
  split; [by eapply motors_at_enabled|]. unfold direct_flags. flag_simpl. rewrite Ed. by split_and!.
Qed.
End direct.

(** direct duty cycles.  With enough battery 'p' and 'P' set both motors to
    the two signed duty cycles (clamped to 100 %, the sign in the direction
    pins) and enable the outputs; distance control, velocity control and the
    stop flag are switched off; 'p' cancels a running timed command and 'P'
    starts one that ends its positive duration from now.  An active obstacle
    avoidance stays active. *)
Theorem pwm_command s l r :
  fw_ok s -> -32768 < l < 32768 -> -32768 < r < 32768 ->
  (Battery.Battery_Voltage (bat s) >= f32_lit 475 100)%f32 = true ->
  (forall rest, rx_bytes (ser s) = ch "p" :: bytes_of_s16 l ++ bytes_of_s16 r ++ rest ->
   wp Message_Handling_Task (fun _ s' => motors_at l r (rg s') /\ direct_flags s s' /\
     active (flags s' mf_timed_pwm) = false) s) /\
  (forall d rest, f32_valid d -> (d > f32_zero)%f32 = true ->
   rx_bytes (ser s) = ch "P" :: bytes_of_s16 l ++ bytes_of_s16 r ++ bytes_of_f32 d ++ rest ->
   wp Message_Handling_Task (fun _ s' => motors_at l r (rg s') /\ direct_flags s s' /\
     flags s' mf_timed_pwm = {| active := true; duration := (d * f32_of_Z 1000)%f32;
       last_trigger_time := Timing.GetTime (tm s') (rg s') |}) s).
Proof.
  intros Hok Hl Hr Hbat. split.
  - intros rest E. apply (task_dispatches (ch "p")); [done|by rewrite E|].
    by apply (case_p_direct s l r rest Hok Hl Hr Hbat (ch "p")).
  - intros d rest Vd Hd E. apply (task_dispatches (ch "P")); [done|by rewrite E|].
    by eapply (case_P_direct s l r _ Hok Hl Hr Hbat (ch "P") d rest).
Qed.

Lemma pwm_command_witness :
  let l := ch "p" :: bytes_of_s16 50 ++ bytes_of_s16 (-30) ++ [] in
  wp Message_Handling_Task (fun _ s' => motors_at 50 (-30) (rg s') /\ direct_flags (fw_sample l) s' /\
     active (flags s' mf_timed_pwm) = false) (fw_sample l).
Proof.
  intros l. destruct (fw_sample_ok l) as (H1&H2&_&Hv);
    [repeat (constructor; [by vm_compute|]); constructor|vm_compute; lia|].
  destruct (pwm_command (fw_sample l) 50 (-30) H1) as [H _];
    [lia|lia|rewrite Hv; by vm_compute|]. by apply (H []); rewrite H2.
Defined.

(** the gripper and the obstacle avoidance.  'G' followed by 'O' or 'C' moves
    the servo to open or closed and any other letter is answered by '?'; 'O'
    with a positive period and enough battery switches all drive flags off and
    the obstacle avoidance on, in its initial state. *)
Theorem gripper_and_avoidance_commands s :
  fw_ok s ->
  (forall b, rx_bytes (ser s) !! 0%nat = Some (ch "G") -> rx_bytes (ser s) !! 1%nat = Some b ->
   wp Message_Handling_Task (fun _ s' =>
     if s8 b =? ch "O" then rg s' = LedServo.Servo_PWM_Init OPEN (rg s)
     else if s8 b =? ch "C" then rg s' = LedServo.Servo_PWM_Init CLOSE (rg s)
     else replies 2 (frame "cc" (ch "G") [ch "?"]) s s') s) /\
  (forall d rest, f32_valid d -> (d > f32_zero)%f32 = true ->
   rx_bytes (ser s) = ch "O" :: bytes_of_f32 d ++ rest ->
   (Battery.Battery_Voltage (bat s) >= f32_lit 475 100)%f32 = true ->
   wp Message_Handling_Task (fun _ s' =>
     oa s' = {| read_state := READ_L; OA_state := INIT; alpha := 0 |} /\
     active (flags s' mf_obj_avoidance) = true /\
     duration (flags s' mf_obj_avoidance) = (d * f32_of_Z 1000)%f32 /\
     (forall f, f ∈ [mf_motor_dist_control; mf_motor_vel_control; mf_timed_pwm; mf_motor_stop] ->
        active (flags s' f) = false)) s).
Proof.
  intros Hok. split.
  - intros b H0 H1. apply (task_dispatches (ch "G")); [done..|].
    pose proof (lookup_lt_Some _ _ _ H1) as Hlen.
    assert (Hd : char_at 0 (take 1 (drop 1 (rx_bytes (ser s)))) = s8 b).
    { unfold char_at. rewrite lookup_take by lia. rewrite lookup_drop. cbn [Nat.add]. rewrite H1. done. }
    change (dispatch (s8 (ch "G"))) with (case_G (ch "G")). unfold case_G.
    apply (run_case _ _ 2); [done|done|lia|]. intros Hstep. wp_go; rewrite Hd in *;
      repeat case_match; try congruence; try done; finish_reply.
  - intros d rest Vd Hd E Hbat. apply (task_dispatches (ch "O")); [done|by rewrite E|].
    change (dispatch (s8 (ch "O"))) with (case_O (ch "O")). unfold case_O.
    assert (Hc : rx_bytes (ser s) !! 0%nat = Some (ch "O")) by by rewrite E.
    assert (Hlen := f_equal length E). cbn [length] in Hlen. rewrite length_app, length_bytes_of_f32 in Hlen.
    assert (Ed : float_at 0 (take 4 (drop 1 (rx_bytes (ser s)))) = d)
      by (rewrite E, skipn_cons, drop_0; by rewrite take_float, float_at_alone).
    apply (run_case _ _ 5); [done|done|lia|]. intros Hstep. repeat (wp_step; try congruence).
    flag_simpl. rewrite Ed. split_and!; try done.
    intros f Hf. rewrite !elem_of_cons, elem_of_nil in Hf. by destruct Hf as [->|[->|[->|[->|[]]]]].
Qed.

Lemma gripper_and_avoidance_commands_witness :
  wp Message_Handling_Task (fun _ s' =>
    rg s' = LedServo.Servo_PWM_Init CLOSE (rg (fw_sample [71; 67]))) (fw_sample [71; 67]).
Proof.
  destruct (fw_sample_ok [71; 67]) as (H1&H2&_); [repeat constructor; done|simpl; lia|].
  destruct (gripper_and_avoidance_commands (fw_sample [71; 67]) H1) as [H _].
  apply (H 67); by rewrite H2.
Defined.
