(* ===== verification/ObstacleAvoidance.v ===== *)
(** * ObstacleAvoidance: Application/Obstacle_Avoidance.c

    The obstacle avoidance runs in cycles of three task calls: read the left
    sensor, read the right sensor, decide.  The decision is a state machine over
    the stronger of the two readings.  [Decision] is its abstract form; the
    theorems show that the code refines it, what the robot does in each state,
    and how soon it drives straight again once the way is free. *)
From S2P Require Import Prelude.
From S2P Require Import Float32.
From S2P Require Import Controller.
From S2P Require Import Avr.
From S2P Require Import LedServo.
From S2P Require Import MotorPWM.
From S2P Require Import Proximity.
From S2P Require Import Firmware.
From S2P Require Import MessageHandling.
From S2P Require Import MessageSpec.
Import Call.

Definition OA_TURN_VELOCITY : f32 := f32_lit 7 100.
Definition OA_ANGLR_VELOCITY : f32 := f32_lit 15 10.
Definition OA_DRIVE_DC : Z := 30.
Definition OA_HOLD_TIMEOUT : Z := 4.

(** [read_state = ...], [OA_state = ...] and [alpha = ...]. *)
Definition set_read_state (x : eOAReadState) : M fw unit := modify (fun s =>
  set_oa {| read_state := x; OA_state := OA_state (oa s); alpha := alpha (oa s) |} s).
Definition set_OA_state (x : eOADSM) : M fw unit := modify (fun s =>
  set_oa {| read_state := read_state (oa s); OA_state := x; alpha := alpha (oa s) |} s).
Definition set_alpha (x : Z) : M fw unit := modify (fun s =>
  set_oa {| read_state := read_state (oa s); OA_state := OA_state (oa s); alpha := x |} s).
Definition get_oa : M fw oa_vars := gets oa.

Definition turn_fast : f32 := (OA_TURN_VELOCITY + WHEEL_BASE * OA_ANGLR_VELOCITY)%f32.

Definition Run_State_Machine (ir_Return : t_ProximityReturn) : M fw unit :=
  v ← get_oa;
  match OA_state v with
  | INIT =>
      (* Initialize the movement based on IR reading *)
      '(velocity_left, velocity_right) ←
        (if m_nCount ir_Return =? 0 then
           (* Drive straight *)
           set_OA_state DRIVE_STRAIGHT;;
           mret (DutyCycle_to_Velocity_Left OA_DRIVE_DC, DutyCycle_to_Velocity_Right OA_DRIVE_DC)
         else if decide (m_eSide ir_Return = RIGHT) then
           (* Turn left *)
           set_OA_state TURN_LEFT;; mret (OA_TURN_VELOCITY, turn_fast)
         else
           (* Turn right *)
           set_OA_state TURN_RIGHT;; mret (turn_fast, OA_TURN_VELOCITY));
      (* Assign target velocity *)
      Set_Target_Velocity_Left velocity_left;;
      Set_Target_Velocity_Right velocity_right;;
      (* Set motor control flags *)
      set_active mf_motor_vel_control true;;
      c ← get_left;
      set_duration mf_motor_vel_control (update_period c);;
      (* Turn on red LED *)
      Set_LED RED true
  | DRIVE_STRAIGHT =>
      if 0 <? m_nCount ir_Return then
        (* Make a turn *)
        '(velocity_left, velocity_right) ←
          (if decide (m_eSide ir_Return = RIGHT) then
             (* Turn left *)
             set_OA_state TURN_LEFT;; mret (OA_TURN_VELOCITY, turn_fast)
           else
             (* Turn right *)
             set_OA_state TURN_RIGHT;; mret (turn_fast, OA_TURN_VELOCITY));
        Set_Target_Velocity_Left velocity_left;;
        Set_Target_Velocity_Right velocity_right
      else set_OA_state DRIVE_STRAIGHT
  | TURN_RIGHT =>
      (* Stop turning? *)
      if m_nCount ir_Return =? 0 then set_OA_state HOLDING else set_OA_state TURN_RIGHT
  | TURN_LEFT =>
      (* Stop turning? *)
      if m_nCount ir_Return =? 0 then set_OA_state HOLDING else set_OA_state TURN_LEFT
  | HOLDING =>
      set_alpha (u16 (alpha v + 1));;
      v ← get_oa;
      (* Stop turning? *)
      if OA_HOLD_TIMEOUT <=? alpha v then
        set_alpha 0;;
        (* Drive straight, assign target velocity *)
        Set_Target_Velocity_Left (DutyCycle_to_Velocity_Left OA_DRIVE_DC);;
        Set_Target_Velocity_Right (DutyCycle_to_Velocity_Right OA_DRIVE_DC);;
        set_OA_state DRIVE_STRAIGHT
      else set_OA_state HOLDING
  end.

(** The value is [run_again]. *)
Definition Run_OA_Task : M fw bool :=
  v ← get_oa;
  match read_state v with
  | READ_L => IRRead LEFT;; set_read_state READ_R;; mret true
  | READ_R => IRRead RIGHT;; set_read_state RUN_DSM;; mret true
  | RUN_DSM => ir ← IR_Counts; Run_State_Machine ir;; set_read_state READ_L;; mret false
  end.

(** ** The abstract decision machine *)

(** What a decision sees: nothing, or something nearer to one side. *)
Inductive sight := Clear | On (side : eProximitySize).

Definition sees (l r : Z) : sight :=
  if Z.max l r =? 0 then Clear else if l <? r then On RIGHT else On LEFT.

(** The courses of the robot; [Hold k] keeps the last turn for [k] more
    decisions. *)
Inductive course := Start | Straight | Turning (to : eProximitySize) | Hold (k : nat).

(** Away from the obstacle; keep turning while anything is seen; hold the turn;
    then straight, whatever is seen while holding. *)
Inductive decision : course -> sight -> course -> Prop :=
  | d_start_clear : decision Start Clear Straight
  | d_start_on side : decision Start (On side) (Turning (other side))
  | d_straight_clear : decision Straight Clear Straight
  | d_straight_on side : decision Straight (On side) (Turning (other side))
  | d_turn_on to side : decision (Turning to) (On side) (Turning to)
  | d_turn_clear to : decision (Turning to) Clear (Hold 4)
  | d_hold k x : decision (Hold (S (S k))) x (Hold (S k))
  | d_hold_end x : decision (Hold 1) x Straight.

(** The course the static variables stand for. *)
Definition course_of (v : oa_vars) : course :=
  match OA_state v with
  | INIT => Start
  | DRIVE_STRAIGHT => Straight
  | TURN_LEFT => Turning LEFT
  | TURN_RIGHT => Turning RIGHT
  | HOLDING => Hold (Z.to_nat (OA_HOLD_TIMEOUT - alpha v))
  end.

(** The counter is zero except while holding, where it is below the timeout. *)
Definition oa_ok (v : oa_vars) : Prop :=
  match OA_state v with HOLDING => 0 <= alpha v < OA_HOLD_TIMEOUT | _ => alpha v = 0 end.

(** The wheels' targets on a course; while holding those of either turn. *)
Definition turning_targets (to : eProximitySize) (vl vr : f32) : Prop :=
  match to with
  | LEFT => vl = OA_TURN_VELOCITY /\ vr = turn_fast
  | RIGHT => vl = turn_fast /\ vr = OA_TURN_VELOCITY
  end.
Definition course_targets (c : course) (vl vr : f32) : Prop :=
  match c with
  | Start => True
  | Straight => vl = DutyCycle_to_Velocity_Left OA_DRIVE_DC /\ vr = DutyCycle_to_Velocity_Right OA_DRIVE_DC
  | Turning to => turning_targets to vl vr
  | Hold _ => turning_targets LEFT vl vr \/ turning_targets RIGHT vl vr
  end.

Definition on_course (s : fw) : Prop :=
  oa_ok (oa s) /\
  course_targets (course_of (oa s)) (target_vel (ctr_LeftMotor s)) (target_vel (ctr_RightMotor s)).

Definition sight_of (ir : t_ProximityReturn) : sight :=
  if m_nCount ir =? 0 then Clear else On (m_eSide ir).

Lemma sight_of_counts p :
  sight_of (Proximity.IR_Counts p) = sees (m_nLEDProxyCountLeft p) (m_nLEDProxyCountRight p).
Proof.
  unfold sight_of, sees, Proximity.IR_Counts.
  destruct (Z.leb_spec (m_nLEDProxyCountRight p) (m_nLEDProxyCountLeft p)); cbn [m_nCount m_eSide].
  - rewrite Z.max_l by lia. destruct (_ =? 0); [done|]. by destruct (Z.ltb_spec (m_nLEDProxyCountLeft p) (m_nLEDProxyCountRight p)); [lia|].
  - rewrite Z.max_r by lia. destruct (_ =? 0); [done|]. by destruct (Z.ltb_spec (m_nLEDProxyCountLeft p) (m_nLEDProxyCountRight p)); [|lia].
Qed.

(** What the obstacle avoidance leaves alone. *)
Definition oa_frame (s s' : fw) : Prop :=
  ser s' = ser s /\ tm s' = tm s /\ enc s' = enc s /\ bat s' = bat s /\ loc s' = loc s /\
  (forall f, f <> mf_motor_vel_control -> flags s' f = flags s f) /\
  target_pos (ctr_LeftMotor s') = target_pos (ctr_LeftMotor s) /\
  target_pos (ctr_RightMotor s') = target_pos (ctr_RightMotor s) /\
  update_period (ctr_LeftMotor s') = update_period (ctr_LeftMotor s) /\
  motor_kept (rg s) (rg s').

(** Run the decision symbolically, then compare with the abstract machine. *)
Ltac oa_step :=
  lazymatch goal with
  | |- wp (set_OA_state _) _ _ => unfold set_OA_state
  | |- wp (set_read_state _) _ _ => unfold set_read_state
  | |- wp (set_alpha _) _ _ => unfold set_alpha
  | |- wp get_oa _ _ => unfold get_oa
  | |- wp Call.IR_Counts _ _ => unfold Call.IR_Counts
  | |- wp (match decide ?P with left _ => _ | right _ => _ end) _ _ => destruct (decide P)
  | |- _ => wp_step
  end; cbv beta; fw_simpl; cbn [read_state OA_state alpha].

Definition decided (ir : t_ProximityReturn) (s s' : fw) : Prop :=
  decision (course_of (oa s)) (sight_of ir) (course_of (oa s')) /\ on_course s' /\
  read_state (oa s') = read_state (oa s) /\ prox s' = prox s /\ env s' = env s /\
  mregs_ok (rg s') /\ oa_frame s s' /\
  (course_of (oa s) = Start -> active (flags s' mf_motor_vel_control) = true /\
     duration (flags s' mf_motor_vel_control) = update_period (ctr_LeftMotor s)) /\
  (course_of (oa s) <> Start -> flags s' mf_motor_vel_control = flags s mf_motor_vel_control).

Lemma other_side side : side <> RIGHT -> side = LEFT.
Proof. by destruct side. Qed.

(** Holding for [a] decisions already. *)
Lemma hold_next a x :
  0 <= a < OA_HOLD_TIMEOUT ->
  if OA_HOLD_TIMEOUT <=? a + 1
  then decision (Hold (Z.to_nat (OA_HOLD_TIMEOUT - a))) x Straight
  else decision (Hold (Z.to_nat (OA_HOLD_TIMEOUT - a))) x (Hold (Z.to_nat (OA_HOLD_TIMEOUT - (a + 1)))).
Proof.
  unfold OA_HOLD_TIMEOUT. intros Ha.
  assert (a = 0 \/ a = 1 \/ a = 2 \/ a = 3) as [->|[->|[->| ->]]] by lia; constructor.
Qed.

(** [n > 0] and [n == 0] are the two cases of a counter. *)
Lemma positive_count n b : 0 <= n -> (0 <? n) = b -> (n =? 0) = negb b.
Proof.
  intros Hn <-. destruct (Z.ltb_spec 0 n), (Z.eqb_spec n 0); try done; lia.
Qed.

Ltac finish_decision :=
  match goal with Eo : oa _ = _ |- _ =>
    unfold decided, on_course, oa_frame; flag_simpl; rewrite ?Eo;
    unfold oa_ok, course_of, sight_of; cbn [read_state OA_state alpha];
    repeat match goal with
    | H : (m_nCount _ =? 0) = _ |- _ => rewrite H
    | H : m_eSide _ = _ |- _ => rewrite H
    end
  end;
  split_and!; try done;
  try solve [apply mregs_Set_LED; done];
  try solve [eapply motor_kept_only; [apply Set_LED_only|reg_list..]];
  try solve [let f := fresh "f" in let Hf := fresh "Hf" in
             intros f Hf; destruct (mf_eqb_spec f mf_motor_vel_control); done];
  try solve [constructor | apply (d_start_on RIGHT) | apply (d_start_on LEFT)
            | apply (d_straight_on RIGHT) | apply (d_straight_on LEFT)].

Lemma Run_State_Machine_spec ir s :
  mregs_ok (rg s) -> on_course s -> 0 <= m_nCount ir ->
  wp (Run_State_Machine ir) (fun _ s' => decided ir s s') s.
Proof.
  intros Hr [Hok Hct] Hn. unfold Run_State_Machine. destruct (oa s) as [rs st a] eqn:Eo.
  repeat oa_step. rewrite Eo. cbn [OA_state].
  unfold oa_ok in Hok. cbn [OA_state alpha] in Hok.
  destruct st; cbn [OA_state]; repeat oa_step; try subst a;
    repeat match goal with
    | H : m_eSide _ <> RIGHT |- _ => apply other_side in H
    | H : (0 <? _) = _ |- _ => apply positive_count in H; [cbn [negb] in H|done]
    end.
  all: try solve [finish_decision; try solve [by left|by right|unfold OA_HOLD_TIMEOUT; lia|apply (d_turn_clear _)]].
  all: pose proof (hold_next a (sight_of ir) Hok) as Hh; unfold OA_HOLD_TIMEOUT in Hok;
    rewrite u16_id in * by lia; rewrite Heqb in Hh; rewrite Z.leb_gt in Heqb || clear Heqb;
    finish_decision; unfold OA_HOLD_TIMEOUT in *; try lia; exact Hh.
Qed.

(** ** One task call, one cycle *)

(** How many brightness levels reflect in the [n]-th infrared read to come. *)
Definition reflections (e : environment) (n : nat) : Z :=
  Z.b2z (hit (pinf_reads e n 0%nat)) + Z.b2z (hit (pinf_reads e n 1%nat)).

Lemma reflections_next e n : reflections (next_reads e) n = reflections e (S n).
Proof. done. Qed.

(** The state the obstacle avoidance needs. *)
Definition oa_pre (s : fw) : Prop := mregs_ok (rg s) /\ proximity_ok (prox s) /\ on_course s.

Lemma oa_frame_refl s : oa_frame s s.
Proof. by split_and!. Qed.

Lemma oa_frame_trans s1 s2 s3 : oa_frame s1 s2 -> oa_frame s2 s3 -> oa_frame s1 s3.
Proof.
  intros (A1&A2&A3&A4&A5&A6&A7&A8&A9&A10) (B1&B2&B3&B4&B5&B6&B7&B8&B9&B10).
  split_and!; try congruence; [intros f Hf; by rewrite B6, A6|by etransitivity].
Qed.

(** A call that reads one side and goes on. *)
Definition read_done (side : eProximitySize) (next : eOAReadState) (s s' : fw) : Prop :=
  oa_pre s' /\ oa_frame s s' /\ env s' = next_reads (env s) /\
  oa s' = {| read_state := next; OA_state := OA_state (oa s); alpha := alpha (oa s) |} /\
  count_of side (prox s') = reflections (env s) 0 /\
  count_of (other side) (prox s') = count_of (other side) (prox s) /\
  ctr_LeftMotor s' = ctr_LeftMotor s /\ ctr_RightMotor s' = ctr_RightMotor s /\
  flags s' = flags s.

Lemma on_course_eq s s' :
  OA_state (oa s') = OA_state (oa s) -> alpha (oa s') = alpha (oa s) ->
  target_vel (ctr_LeftMotor s') = target_vel (ctr_LeftMotor s) ->
  target_vel (ctr_RightMotor s') = target_vel (ctr_RightMotor s) ->
  on_course s -> on_course s'.
Proof.
  unfold on_course, oa_ok, course_of. intros -> -> -> ->. done.
Qed.

Lemma Run_OA_Task_read side next s Q :
  oa_pre s -> (read_state (oa s), side, next) ∈ [(READ_L, LEFT, READ_R); (READ_R, RIGHT, RUN_DSM)] ->
  (forall s', read_done side next s s' -> Q true s') ->
  wp Run_OA_Task Q s.
Proof.
  intros (Hm&Hp&Hc) Hs HQ. unfold Run_OA_Task. repeat oa_step.
  rewrite !elem_of_cons, elem_of_nil in Hs.
  destruct Hs as [[= E -> ->]|[[= E -> ->]|[]]]; rewrite E; oa_step;
    (apply wp_IRRead; [done..|]; intros p r Hp1 Hp2 Hpo Hr [_ Hmk]; cbv beta; repeat oa_step;
     apply HQ; split_and!; try done; by apply on_course_eq with s).
Qed.

Lemma Run_OA_Task_decide s Q :
  oa_pre s -> read_state (oa s) = RUN_DSM ->
  (forall s', oa_pre s' -> oa_frame s s' -> env s' = env s -> read_state (oa s') = READ_L ->
     decision (course_of (oa s)) (sees (count_of LEFT (prox s)) (count_of RIGHT (prox s)))
       (course_of (oa s')) ->
     (course_of (oa s) = Start -> active (flags s' mf_motor_vel_control) = true) ->
     (course_of (oa s) <> Start -> flags s' mf_motor_vel_control = flags s mf_motor_vel_control) ->
     Q false s') ->
  wp Run_OA_Task Q s.
Proof.
  intros (Hm&Hp&Hc) E HQ. unfold Run_OA_Task. repeat oa_step. rewrite E. repeat oa_step.
  eapply wp_mono.
  { apply Run_State_Machine_spec; [done..|].
    unfold Proximity.IR_Counts. destruct Hp. case_match; simpl; lia. }
  intros [] s1 (D1&D2&D3&D4&D5&D6&D7&D8&D9). cbv beta. repeat oa_step.
  rewrite sight_of_counts in D1. apply HQ; try done.
  - split; [done|split; [|by apply on_course_eq with s1]].
    change (proximity_ok (prox s1)). by rewrite D4.
  - intros Hs. by destruct (D8 Hs).
Qed.

(** Three calls, with [n] repetitions. *)
Definition oa_cycle : M fw bool := Run_OA_Task;; Run_OA_Task;; Run_OA_Task.
Fixpoint oa_cycles (n : nat) : M fw unit :=
  match n with O => mret tt | S n => oa_cycle;; oa_cycles n end.

Definition cycled (s s' : fw) : Prop :=
  oa_pre s' /\ oa_frame s s' /\ read_state (oa s') = READ_L /\
  env s' = next_reads (next_reads (env s)) /\
  decision (course_of (oa s)) (sees (reflections (env s) 0) (reflections (env s) 1)) (course_of (oa s')) /\
  (course_of (oa s) = Start -> active (flags s' mf_motor_vel_control) = true) /\
  (course_of (oa s) <> Start -> flags s' mf_motor_vel_control = flags s mf_motor_vel_control).

Lemma oa_cycle_spec s :
  oa_pre s -> read_state (oa s) = READ_L -> wp oa_cycle (fun again s' => again = false /\ cycled s s') s.
Proof.
  intros Hpre E. unfold oa_cycle. apply wp_bind.
  apply (Run_OA_Task_read LEFT READ_R s _ Hpre); [rewrite E; by left|].
  intros s1 (P1&F1&E1&O1&C1&_&L1&R1&G1). apply wp_bind.
  apply (Run_OA_Task_read RIGHT RUN_DSM s1 _ P1); [rewrite O1; by right; left|].
  intros s2 (P2&F2&E2&O2&C2&K2&L2&R2&G2).
  apply (Run_OA_Task_decide s2 _ P2); [by rewrite O2|].
  intros s3 P3 F3 E3 O3 D St Ns.
  assert (Ec : course_of (oa s2) = course_of (oa s)) by (unfold course_of; by rewrite O2, O1).
  rewrite Ec in *. cbn [other] in K2. rewrite K2, C1, C2, E1, reflections_next in D.
  split; [done|]. split_and!; try done.
  - eapply oa_frame_trans; [|exact F3]. by eapply oa_frame_trans.
  - by rewrite E3, E2, E1.
  - intros Hs. by rewrite Ns, G2, G1.
Qed.

(** ** Progress *)

(** How many free decisions until the robot drives straight. *)
Definition clear_rank (c : course) : nat :=
  match c with Start => 1 | Straight => 0 | Turning _ => 5 | Hold k => k end.

Lemma clear_progress c c' : decision c Clear c' -> clear_rank c' = Nat.pred (clear_rank c).
Proof. inversion 1; done. Qed.

Lemma on_course_straight s : on_course s -> clear_rank (course_of (oa s)) = 0%nat -> course_of (oa s) = Straight.
Proof.
  intros [Hok _]. unfold oa_ok, course_of, OA_HOLD_TIMEOUT in *.
  destruct (OA_state (oa s)); simpl; try done. lia.
Qed.

Lemma oa_cycles_clear n s :
  oa_pre s -> read_state (oa s) = READ_L ->
  (forall i, (i < 2 * n)%nat -> reflections (env s) i = 0) ->
  wp (oa_cycles n) (fun _ s' => oa_pre s' /\ read_state (oa s') = READ_L /\
    clear_rank (course_of (oa s')) = (clear_rank (course_of (oa s)) - n)%nat) s.
Proof.
  revert s. induction n as [|n IH]; intros s Hpre E Hr.
  - apply wp_ret. split_and!; try apply Hpre; try done. lia.
  - cbn [oa_cycles]. apply wp_bind. eapply wp_mono; [by apply oa_cycle_spec|].
    intros again s1 (_&P1&_&O1&E1&D&_). cbv beta.
    rewrite !Hr in D by lia. apply clear_progress in D.
    eapply wp_mono; [apply IH; [done|done|]|].
    + intros i Hi. rewrite E1, !reflections_next. apply Hr. lia.
    + intros _ s' (P'&O'&C'). split_and!; try apply P'; try done. rewrite C', D. lia.
Qed.

(** ** Properties *)

(** C9: one obstacle-avoidance cycle refines the decision machine.  From any
    state the machine can be in, three task calls (left read, right read,
    decision) are defined, end with [run_again] false and ready for the next
    cycle, use exactly the next two infrared reads, and the course changes by one
    step of [decision] on what those two reads saw: turn away from the nearer
    side, keep turning while anything is seen, then hold the turn and go
    straight.  The wheel targets always are those of the course; serial link,
    clock, encoders, battery and the other flags are untouched; the velocity
    control is switched on by the first decision and not touched by later
    ones. *)
Theorem oa_cycle_refines s :
  oa_pre s -> read_state (oa s) = READ_L ->
  wp oa_cycle (fun again s' => again = false /\ cycled s s') s.
Proof. intros Hpre E. by apply oa_cycle_spec. Qed.

(** The sample system with the reads [f] to come. *)
Definition sees_env (f : nat -> nat -> Z) (e : environment) : environment :=
  {| conversions := conversions e; pinf_reads := f; host_moves := host_moves e; signature := signature e |}.

Lemma fw_sample_oa_pre f : oa_pre (set_env (sees_env f (env (fw_sample []))) (fw_sample [])).
Proof.
  destruct (fw_sample_ok []) as (H&_); [done|simpl; lia|].
  split; [by apply fw_ok_mregs|]. split; [|done]. by destruct H as (_&_&_&?&_).
Qed.

(** An obstacle at the left only: pin F1 low in the left read. *)
Lemma oa_cycle_refines_witness :
  let s := set_env (sees_env (fun n _ => if (n =? 0)%nat then 0 else 2) (env (fw_sample []))) (fw_sample []) in
  wp oa_cycle (fun _ s' => course_of (oa s') = Turning RIGHT /\
    target_vel (ctr_LeftMotor s') = turn_fast) s.
Proof.
  intros s. eapply wp_mono; [apply (oa_cycle_refines s); [apply fw_sample_oa_pre|done]|].
  intros again s' (_&P&_&_&_&D&_). cbv beta.
  change (decision Start (On LEFT) (course_of (oa s'))) in D.
  assert (E : course_of (oa s') = Turning RIGHT) by by inversion D.
  destruct P as (_&_&_&T). rewrite E in T. split; [done|apply T].
Defined.

(** C31: the way free again.  From any state of the machine, if nothing is seen for
    five cycles, the robot is driving straight with both wheels at the 30 %
    targets: a turn is given up at the first free decision and held for four
    more. *)
Theorem oa_recovers s :
  oa_pre s -> read_state (oa s) = READ_L ->
  (forall i, (i < 10)%nat -> reflections (env s) i = 0) ->
  wp (oa_cycles 5) (fun _ s' => course_of (oa s') = Straight /\
    target_vel (ctr_LeftMotor s') = DutyCycle_to_Velocity_Left OA_DRIVE_DC /\
    target_vel (ctr_RightMotor s') = DutyCycle_to_Velocity_Right OA_DRIVE_DC) s.
Proof.
  intros Hpre E Hr. eapply wp_mono; [by apply (oa_cycles_clear 5)|].
  intros _ s' ((_&_&Hc)&_&C'). cbv beta.
  assert (Hs : course_of (oa s') = Straight).
  { apply on_course_straight; [done|]. rewrite C'.
    destruct Hpre as (_&_&Hok&_). unfold oa_ok, course_of, OA_HOLD_TIMEOUT in *.
    destruct (OA_state (oa s)); simpl; lia. }
  split; [done|]. destruct Hc as [_ T]. rewrite Hs in T. exact T.
Qed.

Lemma oa_recovers_witness :
  let s := set_env (sees_env (fun _ _ => 2) (env (fw_sample []))) (fw_sample []) in
  wp (oa_cycles 5) (fun _ s' => course_of (oa s') = Straight /\
    target_vel (ctr_LeftMotor s') = DutyCycle_to_Velocity_Left OA_DRIVE_DC /\
    target_vel (ctr_RightMotor s') = DutyCycle_to_Velocity_Right OA_DRIVE_DC) s.
Proof. intros s. apply (oa_recovers s); [apply fw_sample_oa_pre|done|done]. Defined.

(** the hold ends.  Whatever the sensors show, a hold of [k] decisions is
    over after [k] of them and the robot drives straight: while holding it does
    not react to obstacles at all. *)
Theorem oa_hold_ignores_obstacles s k :
  oa_pre s -> read_state (oa s) = READ_L -> course_of (oa s) = Hold k ->
  wp (oa_cycles k) (fun _ s' => course_of (oa s') = Straight /\ (k <= 4)%nat) s.
Proof.
  revert s. induction k as [|k IH]; intros s Hpre E Hc.
  { exfalso. destruct Hpre as (_&_&Hok&_). unfold oa_ok, course_of, OA_HOLD_TIMEOUT in *.
    destruct (OA_state (oa s)); try done. injection Hc. lia. }
  assert (Hk : (S k <= 4)%nat).
  { destruct Hpre as (_&_&Hok&_). unfold oa_ok, course_of, OA_HOLD_TIMEOUT in *.
    destruct (OA_state (oa s)); try done. injection Hc. lia. }
  cbn [oa_cycles]. apply wp_bind. eapply wp_mono; [by apply oa_cycle_spec|].
  intros again s1 (_&P1&_&O1&_&D&_). cbv beta. rewrite Hc in D. destruct k as [|k].
  - apply wp_ret. split; [by inversion D|done].
  - eapply wp_mono; [apply IH; [done|done|by inversion D]|]. by intros _ s' [].
Qed.

Lemma oa_hold_ignores_obstacles_witness :
  let s := set_oa {| read_state := READ_L; OA_state := HOLDING; alpha := 1 |}
    (upd_left (fun c => Controller_Set_Target_Velocity c OA_TURN_VELOCITY)
      (upd_right (fun c => Controller_Set_Target_Velocity c turn_fast)
        (set_env (sees_env (fun _ _ => 0) (env (fw_sample []))) (fw_sample [])))) in
  wp (oa_cycles 3) (fun _ s' => course_of (oa s') = Straight /\ (3 <= 4)%nat) s.
Proof.
  intros s. apply (oa_hold_ignores_obstacles s 3); [|done|done].
  destruct (fw_sample_oa_pre (fun _ _ => 0)) as (H1&H2&_). split; [exact H1|split; [exact H2|]].
  split; [split; unfold OA_HOLD_TIMEOUT; simpl; lia|]. left. by split.
Defined.
