(* ===== verification/MainLoop.v ===== *)
(** * MainLoop: Application/Main.c

    [InitializeSystem] and the body of the main loop, one definition per block.
    [CNTRL_SYS] (closed-loop control) and [DEBUG] are compile-time switches, both
    zero in the source; their branches are kept. *)
From S2P Require Import Prelude.
From S2P Require Import Float32.
From S2P Require Import Controller.
From S2P Require Import Avr.
From S2P Require Import Timing.
From S2P Require Import LedServo.
From S2P Require Import MotorPWM.
From S2P Require Import Proximity.
From S2P Require Import UsbEndpoint.
From S2P Require Import SerialIO.
From S2P Require Import Firmware.
From S2P Require Import MessageHandling.
From S2P Require Import ObstacleAvoidance.
Import Call.

Definition DEBUG : bool := false.
Definition CNTRL_SYS : bool := false.
Definition KP_L : f32 := f32_lit 1875335 10000000.
Definition KP_R : f32 := f32_lit 1728258 10000000.

Definition num_left : list f32 := [f32_lit 187533508705 1000000000000; f32_lit 124897316798 1000000000000].
Definition num_right : list f32 := [f32_lit 172825818795 1000000000000; f32_lit 130440286735 1000000000000].
Definition den_left : list f32 := [f32_of_Z 1; f32_of_Z (-1)].
Definition den_right : list f32 := [f32_of_Z 1; f32_of_Z (-1)].

(** Calls of the remaining driver functions. *)
Definition Controller_Init_Left (kp : f32) (num den : list f32) (order : Z) (period : f32) : M fw unit :=
  fun s => match Controller_Init (ctr_LeftMotor s) kp num den order period with
           | Some c => Some (tt, set_left c s) | None => None end.
Definition Controller_Init_Right (kp : f32) (num den : list f32) (order : Z) (period : f32) : M fw unit :=
  fun s => match Controller_Init (ctr_RightMotor s) kp num den order period with
           | Some c => Some (tt, set_right c s) | None => None end.
Definition Controller_Update_Left (measurement dt : f32) : M fw f32 := state_fn (fun s =>
  let '(y, c) := Controller_Update (ctr_LeftMotor s) measurement dt in (y, set_left c s)).
Definition Controller_Update_Right (measurement dt : f32) : M fw f32 := state_fn (fun s =>
  let '(y, c) := Controller_Update (ctr_RightMotor s) measurement dt in (y, set_right c s)).
Definition GlobalInterruptEnable : M fw unit := call_regs sei.

Definition InitializeSystem : M fw unit :=
  (* Initialize hardware *)
  SetupTimer0;;
  Encoders_Init;;
  Battery_Monitor_Init;;
  LED_Init;;
  Motor_PWM_Init 0x190;;
  Proxy_Init;;
  Servo_PWM_Init OPEN;;
  USB_SetupHardware;;
  (* Initialize application features *)
  Controller_Init_Left KP_L num_left den_left 1 (f32_of_Z 10);;
  Controller_Init_Right KP_R num_right den_right 1 (f32_of_Z 10);;
  Message_Handling_Init;;
  Init_Obstacle_Avoidance;;
  (* Enable global interrupts *)
  GlobalInterruptEnable.

(** ** The locals of [main] *)

Definition get_loc : M fw main_vars := gets loc.
Definition upd_loc (f : main_vars -> main_vars) : M fw unit := modify (fun s => set_loc (f (loc s)) s).

Definition with_bat_val (x : f32) (l : main_vars) : main_vars :=
  {| bat_val := x; ticksL_old := ticksL_old l; ticksR_old := ticksR_old l; time_old := time_old l;
     first_time := first_time l; proxy_first := proxy_first l; float_trip := float_trip l;
     float_start := float_start l; loop_trip := loop_trip l; loop_start := loop_start l |}.
Definition with_old (tl tr t : f32) (l : main_vars) : main_vars :=
  {| bat_val := bat_val l; ticksL_old := Some tl; ticksR_old := Some tr; time_old := Some t;
     first_time := first_time l; proxy_first := proxy_first l; float_trip := float_trip l;
     float_start := float_start l; loop_trip := loop_trip l; loop_start := loop_start l |}.
Definition with_first_time (b : bool) (l : main_vars) : main_vars :=
  {| bat_val := bat_val l; ticksL_old := ticksL_old l; ticksR_old := ticksR_old l; time_old := time_old l;
     first_time := b; proxy_first := proxy_first l; float_trip := float_trip l;
     float_start := float_start l; loop_trip := loop_trip l; loop_start := loop_start l |}.
Definition with_proxy_first (b : bool) (l : main_vars) : main_vars :=
  {| bat_val := bat_val l; ticksL_old := ticksL_old l; ticksR_old := ticksR_old l; time_old := time_old l;
     first_time := first_time l; proxy_first := b; float_trip := float_trip l;
     float_start := float_start l; loop_trip := loop_trip l; loop_start := loop_start l |}.
Definition with_float (b : bool) (t : Time_t) (l : main_vars) : main_vars :=
  {| bat_val := bat_val l; ticksL_old := ticksL_old l; ticksR_old := ticksR_old l; time_old := time_old l;
     first_time := first_time l; proxy_first := proxy_first l; float_trip := b;
     float_start := t; loop_trip := loop_trip l; loop_start := loop_start l |}.
Definition with_loop (b : bool) (t : Time_t) (l : main_vars) : main_vars :=
  {| bat_val := bat_val l; ticksL_old := ticksL_old l; ticksR_old := ticksR_old l; time_old := time_old l;
     first_time := first_time l; proxy_first := proxy_first l; float_trip := float_trip l;
     float_start := float_start l; loop_trip := b; loop_start := t |}.

(** [((float)t.millisec + t.microsec/1000.0)/1000.0] *)
Definition seconds_of (t : Time_t) : f32 :=
  ((f32_of_Z (millisec t) + f32_of_Z (microsec t) / f32_of_Z 1000) / f32_of_Z 1000)%f32.

(** [if(MSG_FLAG_Execute(&f)) { ... }] *)
Definition on_flag (f : mf) (body : M fw unit) : M fw unit :=
  b ← MSG_FLAG_Execute f; when b body.

(** [f.last_trigger_time = GetTime();] *)
Definition retrigger (f : mf) : M fw unit := now ← GetTime; set_trigger f now.

(** ** The blocks of the loop *)

(** Reset message handling. *)
Definition task_restart : M fw unit := on_flag mf_restart Message_Handling_Init.

(** Process battery low. *)
Definition task_battery : M fw unit := on_flag mf_battery_task (
  v ← Battery_Voltage_Task;
  upd_loc (with_bat_val v);;
  (if (v < f32_lit 475 100)%f32 && (v > f32_of_Z 3)%f32 then
     set_active mf_low_battery true;;
     set_duration mf_low_battery (f32_of_Z 1000)
   else set_active mf_low_battery false);;
  retrigger mf_battery_task).

(** The one-shot or the periodic branch of a report. *)
Definition task_send_time : M fw unit := on_flag mf_send_time (
  now ← GetTime;
  let ret_val := seconds_of now in
  p ← get_flag mf_send_time;
  if (duration p < f32_zero)%f32 then
    set_active mf_send_time false;;
    Send_Time_Message (ch "t") 0x00 ret_val
  else
    Send_Time_Message (ch "T") 0x00 ret_val;;
    retrigger mf_send_time).

Definition task_time_float_send : M fw unit := on_flag mf_time_float_send (
  l ← get_loc;
  if negb (float_trip l) then
    let data := f32_lit 12345 1000 in
    start_time ← GetTime;
    usb_send_msg "cf" (ch "f") (bytes_of_f32 data);;
    upd_loc (with_float true start_time)
  else
    n ← usb_out_msg_length;
    when (n =? 0) (
      ret_time ← SecondsSince (float_start l);
      let ret_val := seconds_of ret_time in
      p ← get_flag mf_time_float_send;
      (if (duration p < f32_zero)%f32 then
         set_active mf_time_float_send false;;
         Send_Time_Message (ch "t") 0x01 ret_val
       else
         retrigger mf_time_float_send;;
         Send_Time_Message (ch "T") 0x01 ret_val);;
      upd_loc (fun l => with_float false (float_start l) l))).

Definition task_loop_timer : M fw unit := on_flag mf_loop_timer (
  l ← get_loc;
  if negb (loop_trip l) then
    start_time ← GetTime;
    upd_loc (with_loop true start_time)
  else
    ret_time ← SecondsSince (loop_start l);
    let ret_val := seconds_of ret_time in
    p ← get_flag mf_loop_timer;
    (if (duration p < f32_zero)%f32 then
       set_active mf_loop_timer false;;
       Send_Time_Message (ch "t") 0x02 ret_val
     else
       retrigger mf_loop_timer;;
       Send_Time_Message (ch "T") 0x02 ret_val);;
    upd_loc (fun l => with_loop false (loop_start l) l)).

Definition task_send_encoder : M fw unit := on_flag mf_send_encoder (
  left_enc ← Counts_Left;
  right_enc ← Counts_Right;
  let ret_val := bytes_of_f32 (f32_of_Z left_enc) ++ bytes_of_f32 (f32_of_Z right_enc) in
  p ← get_flag mf_send_encoder;
  if (duration p <= f32_zero)%f32 then
    set_active mf_send_encoder false;;
    usb_send_msg "cff" (ch "e") ret_val
  else
    retrigger mf_send_encoder;;
    usb_send_msg "cff" (ch "E") ret_val).

Definition task_send_battery : M fw unit := on_flag mf_send_battery (
  ret_val ← Battery_Voltage;
  p ← get_flag mf_send_battery;
  if (duration p <= f32_zero)%f32 then
    set_active mf_send_battery false;;
    usb_send_msg "cf" (ch "b") (bytes_of_f32 ret_val)
  else
    retrigger mf_send_battery;;
    usb_send_msg "cf" (ch "B") (bytes_of_f32 ret_val)).

Definition task_low_battery : M fw unit := on_flag mf_low_battery (
  l ← get_loc;
  send_bat_low (bat_val l);;
  retrigger mf_low_battery).

(** Timed PWM flag. *)
Definition task_timed_pwm : M fw unit := on_flag mf_timed_pwm (
  Motor_PWM_Left 0;;
  Motor_PWM_Right 0;;
  Motor_PWM_Enable false;;
  set_active mf_timed_pwm false).

(** Handle system stats flag. *)
Definition task_sys_data : M fw unit := on_flag mf_sys_data (
  now ← GetTime;
  let time := seconds_of now in
  PWM_L ← Get_Motor_PWM_Left;
  PWM_R ← Get_Motor_PWM_Right;
  Encoder_L ← Counts_Left;
  Encoder_R ← Counts_Right;
  let data := bytes_of_f32 time ++ bytes_of_s16 PWM_L ++ bytes_of_s16 PWM_R
                ++ bytes_of_s16 Encoder_L ++ bytes_of_s16 Encoder_R in
  p ← get_flag mf_sys_data;
  if (duration p <= f32_zero)%f32 then
    set_active mf_sys_data false;;
    usb_send_msg "cfhhhh" (ch "q") data
  else
    retrigger mf_sys_data;;
    usb_send_msg "cfhhhh" (ch "Q") data).

(** ** The motor controls *)

(** A float that has been assigned; reading it earlier is undefined. *)
Definition assigned (o : option f32) : M fw f32 := of_option o.
(** [ECount_to_Distance(x)]: the float is converted to the [int] parameter. *)
Definition Distance (x : f32) : M fw f32 :=
  n ← of_option (f32_to_s16 x); mret (ECount_to_Distance n).
Definition Duty_Left (v : f32) : M fw Z := of_option (Velocity_to_DutyCycle_Left v).
Definition Duty_Right (v : f32) : M fw Z := of_option (Velocity_to_DutyCycle_Right v).
(** [-1 * pwm] in a 16-bit [int]. *)
Definition negated (pwm : Z) : M fw Z := of_option (negate_int pwm).
(** [(x < 0) ? (-1*x) : x] *)
Definition positive (x : f32) : f32 := if (x < f32_zero)%f32 then (f32_of_Z (-1) * x)%f32 else x.

(** The first activation: take the baseline. *)
Definition first_reading : M fw unit :=
  tl ← Counts_Left;
  tr ← Counts_Right;
  t ← GetTimeSec;
  upd_loc (with_old (f32_of_Z tl) (f32_of_Z tr) t);;
  upd_loc (with_first_time false).

(** [(target > 0) ? (measured >= target) : (measured <= target)] *)
Definition arrived (target measured : f32) : bool :=
  if (target > f32_zero)%f32 then (measured >= target)%f32 else (measured <= target)%f32.

(** Motors off and all targets zero. *)
Definition zero_targets : M fw unit :=
  Set_Target_Position_Left f32_zero;;
  Set_Target_Position_Right f32_zero;;
  Set_Target_Velocity_Left f32_zero;;
  Set_Target_Velocity_Right f32_zero.
Definition stop_motors : M fw unit :=
  Motor_PWM_Left 0;;
  Motor_PWM_Right 0;;
  Motor_PWM_Enable false.

(** Update for next loops. *)
Definition next_reading (f : mf) (tl tr t : f32) : M fw unit :=
  upd_loc (with_old tl tr t);;
  retrigger f.

Definition given_duty : M fw (Z * Z) :=
  (* Just use given velocity *)
  c ← get_left;
  pwmL ← Duty_Left (target_vel c);
  c ← get_right;
  pwmR ← Duty_Right (target_vel c);
  mret (pwmL, pwmR).

Definition task_dist_control : M fw unit := on_flag mf_motor_dist_control (
  l ← get_loc;
  if first_time l then first_reading
  else
    cl ← Counts_Left;
    cr ← Counts_Right;
    let ticksL_new := f32_of_Z cl in
    let ticksR_new := f32_of_Z cr in
    tl ← assigned (ticksL_old l);
    measured_left ← Distance (ticksL_new - tl)%f32;
    tr ← assigned (ticksR_old l);
    measured_right ← Distance (ticksR_new - tr)%f32;
    (* Determine if we are done moving *)
    c ← get_left;
    let doneL := arrived (target_pos c) measured_left in
    c ← get_right;
    let doneR := arrived (target_pos c) measured_right in
    if doneL || doneR then
      stop_motors;;
      zero_targets;;
      set_active mf_motor_dist_control false;;
      upd_loc (with_first_time true)
    else
      time_new ← GetTimeSec;
      t ← assigned (time_old l);
      let dt := (time_new - t)%f32 in
      (* Update target position *)
      c ← get_left;
      Set_Target_Position_Left (target_pos c - measured_left)%f32;;
      c ← get_right;
      Set_Target_Position_Right (target_pos c - measured_right)%f32;;
      '(pwmL, pwmR) ←
        (if CNTRL_SYS then
           new_speedL ← Controller_Update_Left (positive measured_left) dt;
           new_speedR ← Controller_Update_Right (positive measured_right) dt;
           pwmL ← Duty_Left new_speedL;
           pwmR ← Duty_Right new_speedR;
           mret (pwmL, pwmR)
         else given_duty);
      c ← get_left;
      pwmL ← (if (target_pos c > f32_zero)%f32 then mret pwmL else negated pwmL);
      c ← get_right;
      pwmR ← (if (target_pos c > f32_zero)%f32 then mret pwmR else negated pwmR);
      (* Set PWM *)
      Motor_PWM_Left pwmL;;
      Motor_PWM_Right pwmR;;
      (* Enable PWM *)
      Motor_PWM_Enable true;;
      when DEBUG (
        usb_send_msg "cffhh" (ch "!") (bytes_of_f32 measured_left ++ bytes_of_f32 measured_right
          ++ bytes_of_s16 pwmL ++ bytes_of_s16 pwmR));;
      next_reading mf_motor_dist_control ticksL_new ticksR_new time_new).

(** [target_vel = -1*target_vel] for both controllers, right first. *)
Definition flip_targets : M fw unit :=
  c ← get_right;
  Set_Target_Velocity_Right (f32_of_Z (-1) * target_vel c)%f32;;
  c ← get_left;
  Set_Target_Velocity_Left (f32_of_Z (-1) * target_vel c)%f32.

Definition task_vel_control : M fw unit := on_flag mf_motor_vel_control (
  l ← get_loc;
  if first_time l then first_reading
  else
    (* Update controller *)
    time_new ← GetTimeSec;
    (* Determine distance traveled *)
    cl ← Counts_Left;
    cr ← Counts_Right;
    let ticksL_new := f32_of_Z cl in
    let ticksR_new := f32_of_Z cr in
    tl ← assigned (ticksL_old l);
    measured_left ← Distance (ticksL_new - tl)%f32;
    tr ← assigned (ticksR_old l);
    measured_right ← Distance (ticksR_new - tr)%f32;
    c ← get_left;
    '(pwmL, pwmR) ←
      (if (target_vel c < f32_zero)%f32 then
         (* Go backwards *)
         if CNTRL_SYS then
           t ← assigned (time_old l);
           flip_targets;;
           new_speedL ← Controller_Update_Left (positive measured_left) (time_new - t)%f32;
           new_speedR ← Controller_Update_Right (positive measured_right) (time_new - t)%f32;
           pwmL ← Duty_Left new_speedL;
           pwmL ← negated pwmL;
           pwmR ← Duty_Right new_speedR;
           pwmR ← negated pwmR;
           flip_targets;;
           mret (pwmL, pwmR)
         else given_duty
       else
         (* Go forwards *)
         if CNTRL_SYS then
           t ← assigned (time_old l);
           new_speedL ← Controller_Update_Left (positive measured_left) (time_new - t)%f32;
           new_speedR ← Controller_Update_Right (positive measured_right) (time_new - t)%f32;
           pwmL ← Duty_Left new_speedL;
           pwmR ← Duty_Right new_speedR;
           mret (pwmL, pwmR)
         else given_duty);
    (* Set PWM *)
    Motor_PWM_Left pwmL;;
    Motor_PWM_Right pwmR;;
    (* Enable PWM *)
    Motor_PWM_Enable true;;
    when DEBUG (
      usb_send_msg "chh" (ch "!") (bytes_of_s16 pwmL ++ bytes_of_s16 pwmR));;
    next_reading mf_motor_vel_control ticksL_new ticksR_new time_new).

(** Handle motor stop flag. *)
Definition task_motor_stop : M fw unit := on_flag mf_motor_stop (
  stop_motors;;
  (* Reset controllers *)
  zero_targets;;
  (* Reset flags *)
  set_active mf_motor_stop false;;
  set_active mf_motor_dist_control false;;
  set_active mf_motor_vel_control false;;
  set_active mf_timed_pwm false).

(** Handle IR proximity flag. *)
Definition task_ir_proximity : M fw unit := on_flag mf_ir_proximity (
  l ← get_loc;
  if proxy_first l then
    (* Run just one side of the sensor *)
    IRRead LEFT;;
    upd_loc (with_proxy_first false)
  else
    IRRead RIGHT;;
    (* Read distance data and return *)
    prox_out ← IR_Counts;
    let data := bytes_of_s16 (m_nCount prox_out) ++
      [if decide (m_eSide prox_out = LEFT) then ch "L" else ch "R"] in
    p ← get_flag mf_ir_proximity;
    (if (duration p <= f32_zero)%f32 then
       set_active mf_ir_proximity false;;
       usb_send_msg "chc" (ch "i") data
     else
       retrigger mf_ir_proximity;;
       usb_send_msg "chc" (ch "I") data);;
    upd_loc (with_proxy_first true)).

(** Handle object avoidance flag. *)
Definition task_obj_avoidance : M fw unit := on_flag mf_obj_avoidance (
  again ← Run_OA_Task;
  when (negb again) (retrigger mf_obj_avoidance)).

(** The assignments before the loop. *)
Definition before_loop : M fw unit :=
  set_duration mf_battery_task (f32_of_Z 2);;
  set_active mf_battery_task true.

(** The body of [while(true)], in order. *)
Definition main_tasks : list (M fw unit) :=
  [USB_Upkeep_Task; Message_Handling_Task; task_restart; task_battery; task_send_time;
   task_time_float_send; task_loop_timer; task_send_encoder; task_send_battery; task_low_battery;
   task_timed_pwm; task_sys_data; task_dist_control; task_vel_control; task_motor_stop;
   task_ir_proximity; task_obj_avoidance].

Definition loop_body : M fw unit := fold_right (fun t rest => t;; rest) (mret tt) main_tasks.
