(* ===== verification/MainSpec.v ===== *)
(** * MainSpec: the invariant of the running system

    [sys_ok] is what holds between any two blocks of the main loop; every block
    is defined from it and keeps it.  The two motor controls need that the
    floats they convert are in the range of [int] ([control_defined]). *)
From S2P Require Import Prelude.
From S2P Require Import Float32.
From S2P Require Import Controller.
From S2P Require Import Avr.
From S2P Require Import Timing.
From S2P Require Import Encoder.
From S2P Require Import LedServo.
From S2P Require Import MotorPWM.
From S2P Require Import Proximity.
From S2P Require Import Battery.
From S2P Require Import SerialIO.
From S2P Require Import Firmware.
From S2P Require Import MessageHandling.
From S2P Require Import MessageSpec.
From S2P Require Import ObstacleAvoidance.
From S2P Require Import MainLoop.
Import Call.

(** While the obstacle avoidance is active no stop is pending and the wheel
    targets are those of its course. *)
Definition avoid_ok (s : fw) : Prop :=
  active (flags s mf_obj_avoidance) = true ->
  active (flags s mf_motor_stop) = false /\ on_course s.

Definition sys_ok (s : fw) : Prop := fw_ok s /\ one_driver s /\ avoid_ok s.

Lemma on_course_init s :
  oa s = {| read_state := READ_L; OA_state := INIT; alpha := 0 |} -> on_course s.
Proof. intros E. unfold on_course, oa_ok, course_of. by rewrite E. Qed.

Lemma avoid_ok_kept s s' : avoidance_kept s s' -> avoid_ok s -> avoid_ok s'.
Proof.
  intros Hk Ha H. destruct (Hk H) as [(H1&E1&E2&E3&Hs)|[E Hs]].
  - destruct (Ha H1) as [Hst Hc]. split.
    + destruct (active (flags s' mf_motor_stop)); [|done]. by rewrite Hs in Hst.
    + apply on_course_eq with s; by rewrite ?E1.
  - split; [done|by apply on_course_init].
Qed.

Lemma handled_sys n c s s' : handled n c s s' -> sys_ok s -> sys_ok s'.
Proof.
  intros (H1&_&H2&H3&_) (_&G2&G3). split_and!; [done|by apply H2|by eapply avoid_ok_kept].
Qed.

(** ** The locals *)

Lemma loc_ok_bat_val x l : loc_ok l -> loc_ok (with_bat_val x l).
Proof. done. Qed.
Lemma loc_ok_old a b c l : loc_ok (with_old a b c l).
Proof. intros _. split_and!; by eexists. Qed.
Lemma loc_ok_first_true l : loc_ok (with_first_time true l).
Proof. done. Qed.
Lemma loc_ok_first_old a b c l : loc_ok (with_first_time false (with_old a b c l)).
Proof. intros _. split_and!; by eexists. Qed.
Lemma loc_ok_proxy b l : loc_ok l -> loc_ok (with_proxy_first b l).
Proof. done. Qed.
Lemma loc_ok_float b t l : loc_ok l -> loc_ok (with_float b t l).
Proof. done. Qed.
Lemma loc_ok_loop b t l : loc_ok l -> loc_ok (with_loop b t l).
Proof. done. Qed.

Lemma app_bytes_ok l l' : Forall is_byte l -> Forall is_byte l' -> Forall is_byte (l ++ l').
Proof. intros. by apply Forall_app. Qed.
Lemma s16_bytes_ok z : Forall is_byte (bytes_of_s16 z).
Proof. apply le_split_bytes. Qed.
Lemma cons_byte_ok b l : is_byte b -> Forall is_byte l -> Forall is_byte (b :: l).
Proof. by constructor. Qed.
Lemma u8_byte z : is_byte (u8 z).
Proof. apply uwrap_range. lia. Qed.
Lemma letter_ok (P : Prop) `{!Decision P} a b : is_byte (if decide P then ch a else ch b).
Proof. destruct (decide P); apply ch_byte. Qed.
Lemma tx_adds_ok l x y : tx_adds l x y -> ser_ok y.
Proof. by intros []. Qed.

#[export] Hint Resolve loc_ok_bat_val loc_ok_old loc_ok_first_true loc_ok_first_old loc_ok_proxy
  loc_ok_float loc_ok_loop app_bytes_ok s16_bytes_ok cons_byte_ok u8_byte letter_ok tx_adds_ok
  mregs_adc : msg.

(** ** Rules *)

Lemma wp_on_flag f body Q s :
  (active (flags s f) = true -> wp body Q s) -> Q tt s -> wp (on_flag f body) Q s.
Proof.
  intros H1 H2. unfold on_flag, MSG_FLAG_Execute, get_flag, SecondsSince.
  unfold wp, mbind, M_bind, gets, when. cbn beta iota.
  destruct (active (flags s f)) eqn:E; [|done]. cbn beta iota zeta.
  destruct (f32_le _ _); cbn beta iota; [by apply H1|done].
Qed.

Lemma wp_some {A} (o : option A) a Q s : o = Some a -> Q a s -> wp (of_option o : M fw A) Q s.
Proof. by intros ->. Qed.

Lemma f32_to_s16_range x z : f32_to_s16 x = Some z -> -32768 <= z <= 32767.
Proof.
  unfold f32_to_s16. destruct (f32_trunc x); [|done]. destruct (_ && _) eqn:E; [|done].
  intros [= <-]. rewrite andb_true_iff, !Z.leb_le in E. lia.
Qed.

(** ** What the motor controls need

    The distance since the last reading and the two duty cycles are floats that
    are converted to [int]. *)
Definition duties (s : fw) (l r : Z) : Prop :=
  Velocity_to_DutyCycle_Left (target_vel (ctr_LeftMotor s)) = Some l /\ l <> -32768 /\
  Velocity_to_DutyCycle_Right (target_vel (ctr_RightMotor s)) = Some r /\ r <> -32768.

Definition measured (s : fw) (ml mr : Z) : Prop :=
  exists tl tr, ticksL_old (loc s) = Some tl /\ ticksR_old (loc s) = Some tr /\
    f32_to_s16 (f32_of_Z (counts (left (enc s))) - tl)%f32 = Some ml /\
    f32_to_s16 (f32_of_Z (counts (right (enc s))) - tr)%f32 = Some mr.

Definition control_defined (s : fw) : Prop :=
  first_time (loc s) = false -> (exists ml mr, measured s ml mr) /\ (exists l r, duties s l r).

Lemma wp_negated p Q s : -32768 < p <= 32767 -> Q (- p) s -> wp (negated p) Q s.
Proof.
  intros Hp HQ. unfold negated, negate_int. destruct (Z.eqb_spec p (-32768)); [lia|].
  replace (- p) with (p * -1) in HQ by lia. exact HQ.
Qed.

Lemma duties_range s l r : duties s l r -> -32768 < l <= 32767 /\ -32768 < r <= 32767.
Proof. intros (E1&H1&E2&H2). apply f32_to_s16_range in E1, E2. lia. Qed.

Lemma fw_ok_parts s :
  mregs_ok (rg s) -> timing_ok (tm s) -> battery_ok (bat s) -> proximity_ok (prox s) ->
  ser_ok (ser s) -> loc_ok (loc s) -> env_ok (env s) -> fw_ok s.
Proof. by intros; split_and!. Qed.

Ltac loop_step :=
  lazymatch goal with
  | |- wp (usb_send_msg _ _ _) _ _ =>
      apply wp_send_msg; [fw_simpl; solve [eauto with msg]|solve [auto 10 with msg]|];
      let x := fresh "x" in let H := fresh "Hx" in fw_simpl; intros x H; cbv beta
  | |- wp usb_out_msg_length _ _ => apply wp_out_msg_length
  | |- wp Counts_Left _ _ =>
      apply wp_Counts_Left; [fw_simpl; mregs|];
      let r := fresh "r" in let H := fresh "Hcr" in let H' := fresh "Hmr" in
      fw_simpl; intros r H H'; cbv beta
  | |- wp Counts_Right _ _ =>
      apply wp_Counts_Right; [fw_simpl; mregs|];
      let r := fresh "r" in let H := fresh "Hcr" in let H' := fresh "Hmr" in
      fw_simpl; intros r H H'; cbv beta
  | |- wp Call.Get_Motor_PWM_Left _ _ =>
      apply wp_Get_Motor_PWM_Left; [fw_simpl; mregs|]; let p := fresh "p" in
      let H := fresh "Hp" in intros p H; cbv beta
  | |- wp Call.Get_Motor_PWM_Right _ _ =>
      apply wp_Get_Motor_PWM_Right; [fw_simpl; mregs|]; let p := fresh "p" in
      let H := fresh "Hp" in intros p H; cbv beta
  | |- wp GetTimeSec _ _ => unfold GetTimeSec
  | |- wp (assigned _) _ _ => unfold assigned
  | |- wp (Distance _) _ _ => unfold Distance
  | |- wp (Duty_Left _) _ _ => unfold Duty_Left
  | |- wp (Duty_Right _) _ _ => unfold Duty_Right
  | |- wp given_duty _ _ => unfold given_duty
  | |- wp (of_option _) _ _ => eapply wp_some; [eassumption|]
  | |- wp (negated _) _ _ => apply wp_negated; [lia|]
  | |- wp (SecondsSince _) _ _ => unfold SecondsSince
  | |- wp get_loc _ _ => unfold get_loc
  | |- wp (upd_loc _) _ _ => unfold upd_loc
  | |- wp (get_flag _) _ _ => unfold get_flag
  | |- wp (retrigger _) _ _ => unfold retrigger
  | |- wp get_right _ _ => unfold get_right
  | |- wp Call.IR_Counts _ _ => unfold Call.IR_Counts
  | |- wp (Send_Time_Message _ _ _) _ _ => unfold Send_Time_Message
  | |- wp stop_motors _ _ => unfold stop_motors
  | |- wp zero_targets _ _ => unfold zero_targets
  | |- wp first_reading _ _ => unfold first_reading
  | |- wp (next_reading _ _ _ _) _ _ => unfold next_reading
  | |- _ => wp_step
  end; cbv beta; fw_simpl.

Ltac loop_go := repeat loop_step.

(** From [sys_ok] of the start to [sys_ok] of a chain of updates. *)
Ltac finish_sys :=
  match goal with
  | Hs : sys_ok ?s |- sys_ok _ =>
      let K1 := fresh in let K2 := fresh in let K3 := fresh in let K4 := fresh in
      let K5 := fresh in let K6 := fresh in let K7 := fresh in
      let Hone := fresh "Hone" in let Hav := fresh "Hav" in
      pose proof Hs as ((K1&K2&K3&K4&K5&K6&K7)&Hone&Hav);
      split; [apply fw_ok_parts; fw_simpl; solve [mregs | assumption | eauto with msg]|split];
      [ unfold one_driver; flag_simpl; intros Hdrv;
        first [exact (Hone Hdrv) | discriminate Hdrv | split; reflexivity
              | destruct (Hone Hdrv); split; first [reflexivity | assumption]]
      | apply (avoid_ok_kept s); [|exact Hav]; unfold avoidance_kept; flag_simpl; intros Hobj;
        first [discriminate Hobj | right; split; reflexivity
              | left; split_and!; first [assumption | reflexivity
                                        | let H := fresh in intros H; first [exact H | discriminate H]]
              | exfalso; destruct (Hav Hobj); congruence
              | exfalso; match goal with H : active _ = true |- _ => destruct (Hone H); congruence end] ]
  end.

Ltac on_flag_go :=
  apply wp_on_flag; [let H := fresh "Hact" in intros H; loop_go; try finish_sys|done].

Section tasks.
Context (s : fw) (Hs : sys_ok s).

Lemma sys_mregs : mregs_ok (rg s).
Proof. apply fw_ok_mregs, Hs. Qed.
Lemma sys_ser : ser_ok (ser s).
Proof. apply fw_ok_ser, Hs. Qed.
Hint Resolve sys_mregs sys_ser : msg.

Lemma task_send_time_ok : wp task_send_time (fun _ s' => sys_ok s') s.
Proof. unfold task_send_time. on_flag_go. Qed.

Lemma task_restart_ok : wp task_restart (fun _ s' => sys_ok s') s.
Proof. unfold task_restart, Message_Handling_Init, MSG_FLAG_Init. on_flag_go. Qed.

Lemma task_time_float_send_ok : wp task_time_float_send (fun _ s' => sys_ok s') s.
Proof. unfold task_time_float_send. on_flag_go. Qed.

Lemma task_loop_timer_ok : wp task_loop_timer (fun _ s' => sys_ok s') s.
Proof. unfold task_loop_timer. on_flag_go. Qed.

Lemma task_send_encoder_ok : wp task_send_encoder (fun _ s' => sys_ok s') s.
Proof. unfold task_send_encoder. on_flag_go. Qed.

Lemma task_send_battery_ok : wp task_send_battery (fun _ s' => sys_ok s') s.
Proof. unfold task_send_battery. on_flag_go. Qed.

Lemma task_low_battery_ok : wp task_low_battery (fun _ s' => sys_ok s') s.
Proof. unfold task_low_battery. on_flag_go. Qed.

Lemma task_timed_pwm_ok : wp task_timed_pwm (fun _ s' => sys_ok s') s.
Proof. unfold task_timed_pwm. on_flag_go. Qed.

Lemma task_sys_data_ok : wp task_sys_data (fun _ s' => sys_ok s') s.
Proof. unfold task_sys_data. on_flag_go. Qed.

Lemma task_battery_ok : wp task_battery (fun _ s' => sys_ok s') s.
Proof.
  unfold task_battery. apply wp_on_flag; [intros Hact|done].
  apply wp_bind. pose proof Hs as ((K1&K2&K3&K4&K5&K6&K7)&_).
  apply wp_Battery_Voltage_Task; [done..|]. intros y b r e Hb _ -> He _. loop_go; finish_sys.
Qed.

Lemma task_ir_proximity_ok : wp task_ir_proximity (fun _ s' => sys_ok s') s.
Proof.
  unfold task_ir_proximity. apply wp_on_flag; [intros Hact|done]. loop_step. loop_step. loop_step.
  pose proof Hs as ((K1&K2&K3&K4&K5&K6&K7)&_).
  assert (He : env_ok (next_reads (env s))) by by apply next_reads_ok.
  destruct (proxy_first (loc s)); loop_step;
    (apply wp_IRRead; [done..|]; intros p r _ _ Hp Hr _; fw_simpl; loop_go; finish_sys).
Qed.

Lemma task_dist_control_ok :
  (active (flags s mf_motor_dist_control) = true -> control_defined s) ->
  wp task_dist_control (fun _ s' => sys_ok s') s.
Proof.
  intros Hd. unfold task_dist_control, CNTRL_SYS, DEBUG. apply wp_on_flag; [intros Hact|done].
  loop_step. loop_step. loop_step. pose proof Hs as ((_&_&_&_&_&Hloc&_)&_).
  destruct (first_time (loc s)) eqn:Ef; [loop_go; finish_sys|].
  destruct (Hd Hact Ef) as [(ml&mr&tl&tr&El&Er&Dl&Dr) (l&r&Hlr)].
  destruct (Hloc Ef) as (_&_&[t Et]).
  pose proof (duties_range _ _ _ Hlr) as [Rl Rr]. destruct Hlr as (Vl&_&Vr&_).
  loop_go; finish_sys.
Qed.

Lemma task_vel_control_ok :
  (active (flags s mf_motor_vel_control) = true -> control_defined s) ->
  wp task_vel_control (fun _ s' => sys_ok s') s.
Proof.
  intros Hd. unfold task_vel_control, CNTRL_SYS, DEBUG. apply wp_on_flag; [intros Hact|done].
  loop_step. loop_step. loop_step. pose proof Hs as ((_&_&_&_&_&Hloc&_)&_).
  destruct (first_time (loc s)) eqn:Ef; [loop_go; finish_sys|].
  destruct (Hd Hact Ef) as [(ml&mr&tl&tr&El&Er&Dl&Dr) (l&r&Hlr)].
  destruct (Hloc Ef) as (_&_&[t Et]).
  pose proof (duties_range _ _ _ Hlr) as [Rl Rr]. destruct Hlr as (Vl&_&Vr&_).
  loop_go; finish_sys.
Qed.

Lemma task_motor_stop_ok : wp task_motor_stop (fun _ s' => sys_ok s') s.
Proof. unfold task_motor_stop. on_flag_go. Qed.
(** *** Obstacle avoidance *)

Lemma sys_oa_pre : active (flags s mf_obj_avoidance) = true -> oa_pre s.
Proof.
  intros H. destruct Hs as ((K1&_&_&K4&_)&_&Ha). split; [done|]. split; [done|]. by apply Ha.
Qed.

(** After a call of the obstacle avoidance: only its own part changed. *)
Lemma oa_frame_sys s' :
  active (flags s mf_obj_avoidance) = true ->
  oa_pre s' -> oa_frame s s' -> env_ok (env s') -> sys_ok s'.
Proof.
  intros Hact (P1&P2&P3) (F1&F2&F3&F4&F5&F6&_) He.
  destruct Hs as ((K1&K2&K3&K4&K5&K6&K7)&Hone&Hav).
  split; [apply fw_ok_parts; by rewrite ?F1, ?F2, ?F4, ?F5|]. split.
  - unfold one_driver. rewrite F6 by done. intros Hd. destruct (Hone Hd). congruence.
  - intros _. rewrite F6 by done. split; [by apply Hav|done].
Qed.

Lemma task_obj_avoidance_ok : wp task_obj_avoidance (fun _ s' => sys_ok s') s.
Proof.
  unfold task_obj_avoidance. apply wp_on_flag; [intros Hact|done]. apply wp_bind.
  pose proof (sys_oa_pre Hact) as Hpre. pose proof Hs as ((_&_&_&_&_&_&He)&_).
  destruct (read_state (oa s)) eqn:E.
  - apply (Run_OA_Task_read LEFT READ_R s _ Hpre); [rewrite E; by left|].
    intros s' (P&F&En&_). apply oa_frame_sys; [done..|]. rewrite En. by apply next_reads_ok.
  - apply (Run_OA_Task_read RIGHT RUN_DSM s _ Hpre); [rewrite E; by right; left|].
    intros s' (P&F&En&_). apply oa_frame_sys; [done..|]. rewrite En. by apply next_reads_ok.
  - apply Run_OA_Task_decide; [done..|]. intros s' P F En _ _ _ _.
    assert (Hs' : sys_ok s') by (apply oa_frame_sys; [done..|by rewrite En]).
    clear Hs. loop_go; [finish_sys|done].
Qed.

(** *** Serial link and messages *)

Lemma USB_Upkeep_ok : wp USB_Upkeep_Task (fun _ s' => sys_ok s') s.
Proof.
  destruct Hs as ((K1&K2&K3&K4&K5&K6&K7)&Hone&Hav).
  destruct (SerialLink.USB_Upkeep_Task_ok (signature (env s)) (host_moves (env s)) (ser s) K5) as (x&E&Hx).
  unfold USB_Upkeep_Task. apply wp_bind, wp_gets. unfold wp, call_sio. rewrite E.
  split; [|by split]. by apply fw_ok_parts.
Qed.

(** The arguments of a complete 'p' or 'P' in front are not -32768. *)
Definition message_defined : Prop := forall c,
  rx_bytes (ser s) !! 0%nat = Some c -> c ∈ [ch "p"; ch "P"] ->
  MEGN540_Message_Len c <= Z.of_nat (length (rx_bytes (ser s))) -> pwm_args_ok s.

Lemma rx_byte c n : rx_bytes (ser s) !! n = Some c -> is_byte c.
Proof.
  unfold rx_bytes. rewrite list_lookup_fmap_Some. intros (x&->&_). apply u8_byte.
Qed.

Lemma known_byte c : is_byte c -> s8 c ∈ commands -> c ∈ commands.
Proof.
  intros Hb Hc. assert (s8 c = c) as Hs8; [|by rewrite <- Hs8].
  assert (0 <= s8 c) by (by_command Hc; rewrite Hc || idtac; vm_compute; done).
  rewrite <- (u8_id c) at 2 by done. rewrite <- u8_s8. symmetry. apply u8_id.
  pose proof (s8_range c). lia.
Qed.

Lemma Message_Handling_ok : message_defined -> wp Message_Handling_Task (fun _ s' => sys_ok s') s.
Proof.
  intros Hm. pose proof Hs as (Hok&_).
  destruct (rx_bytes (ser s)) as [|c l] eqn:E.
  { unfold Message_Handling_Task. apply wp_bind, wp_msg_length. by rewrite E. }
  assert (Hc : rx_bytes (ser s) !! 0%nat = Some c) by by rewrite E.
  apply (task_dispatches c); [done..|].
  destruct (decide (s8 c ∈ commands)) as [Hk|Hk].
  2: { eapply wp_mono; [by apply dispatch_unknown|]. intros _ s' (H1&_&_&_&E'). cbv beta.
       destruct Hs as (_&Hone&Hav). rewrite E' in H1 |- *. split; [done|by split]. }
  apply known_byte in Hk; [|by eapply rx_byte].
  destruct (Z.ltb_spec (Z.of_nat (length (rx_bytes (ser s)))) (MEGN540_Message_Len c)).
  { unfold wp. by rewrite dispatch_short. }
  assert (0 < MEGN540_Message_Len c) by by apply commands_spec.
  destruct (commands_split c Hk) as [->|[Hq|Ha]].
  - unfold wp. rewrite case_restart_spec by done. finish_sys.
  - eapply wp_mono; [apply (dispatch_answered c (Z.to_nat (MEGN540_Message_Len c))); try done; lia|].
    intros _ s' [H' _]. by eapply handled_sys.
  - eapply wp_mono; [apply (dispatch_handled c (Z.to_nat (MEGN540_Message_Len c))); try done; try lia|].
    + intros Hp. by apply (Hm c).
    + intros [] s' H'. by eapply handled_sys.
Qed.
End tasks.
