(* ===== verification/System.v ===== *)
(** * System: start, interrupts and the running machine

    [InitializeSystem] brings any power-on state into the invariant.  The
    machine runs the blocks of the main loop in order, forever; between two
    blocks the environment takes steps: timer and encoder interrupts, changing
    pins, the USB bus and host with the library's two interrupts.  (An interrupt that
    falls inside a block acts as if it came right after or before it.  The encoder
    counts are read with interrupts off, see Encoder.v; the clock is not, and what a
    tick inside its read does is in Timing.v.)  A block
    may only run where its conversions are in range; elsewhere C gives the
    execution no meaning. *)
From stdpp Require Import relations.
From S2P Require Import Prelude.
From S2P Require Import Float32.
From S2P Require Import RingBuffer.
From S2P Require Import Filter.
From S2P Require Import Controller.
From S2P Require Import Avr.
From S2P Require Import Timing.
From S2P Require Import Encoder.
From S2P Require Import LedServo.
From S2P Require Import MotorPWM.
From S2P Require Import Proximity.
From S2P Require Import Battery.
From S2P Require Import UsbEndpoint.
From S2P Require Import UsbStream.
From S2P Require Import SerialIO.
From S2P Require Import UsbDevice.
From S2P Require Import SerialLink.
From S2P Require Import Firmware.
From S2P Require Import MessageHandling.
From S2P Require Import MessageSpec.
From S2P Require Import ObstacleAvoidance.
From S2P Require Import MainLoop.
From S2P Require Import MainSpec.

(** ** Power on *)

(** The static variables are zero; the registers hold anything but the two
    compare registers, which reset to zero. *)
Definition fresh_regs (r : regs) : Prop := regs_ok r /\ r OCR1A = 0 /\ r OCR1B = 0.
Definition power_on (r : regs) (e : environment) : fw := set_rg r (set_env e fw_boot).

Lemma fresh_only l r r' :
  only_changes l r r' -> OCR1A ∉ l -> OCR1B ∉ l -> regs_ok r' -> fresh_regs r -> fresh_regs r'.
Proof. intros Hl H1 H2 Hr' (_&E1&E2). split; [done|]. by rewrite (Hl OCR1A H1), (Hl OCR1B H2). Qed.

Lemma SetupTimer0_only t r : only_changes [TCCR0B; TIMSK0; OCR0B; SREG; TCNT0] r (SetupTimer0 t r).2.
Proof. solve_only_changes. Qed.
Lemma Encoders_Init_only e r : only_changes [PCICR; PCMSK0; EIMSK; EICRB] r (Encoders_Init e r).2.
Proof. solve_only_changes. Qed.
Lemma LED_Init_only r : only_changes [DDRD; PORTD] r (LedServo.LED_Init r).
Proof. solve_only_changes. Qed.
Lemma Encoders_Init_regs e r : regs_ok r -> regs_ok (Encoders_Init e r).2.
Proof. intros. unfold Encoders_Init. cbn [snd]. auto 10 with regs. Qed.

Lemma fresh_SetupTimer0 t r : fresh_regs r -> fresh_regs (SetupTimer0 t r).2.
Proof.
  intros H. eapply fresh_only; [apply SetupTimer0_only|reg_list..| |done]. apply SetupTimer0_ok, H.
Qed.
Lemma fresh_Encoders e r : fresh_regs r -> fresh_regs (Encoders_Init e r).2.
Proof.
  intros H. eapply fresh_only; [apply Encoders_Init_only|reg_list..| |done].
  apply Encoders_Init_regs, H.
Qed.
Lemma fresh_LED r : fresh_regs r -> fresh_regs (LedServo.LED_Init r).
Proof.
  intros H. eapply fresh_only; [apply LED_Init_only|reg_list..| |done]. apply LED_Init_ok, H.
Qed.

Lemma mregs_Motor_PWM_Init r : fresh_regs r -> mregs_ok (MotorPWM.Motor_PWM_Init 400 r).
Proof.
  intros (H&E1&E2). destruct (Motor_PWM_Init_spec 400 r) as (Ei&_&_&Ho); [lia|].
  split; [by apply Motor_PWM_Init_ok|]. rewrite Ei, (Ho OCR1A), (Ho OCR1B), E1, E2 by reg_list. lia.
Qed.

Lemma mregs_sei r : mregs_ok r -> mregs_ok (sei r).
Proof.
  intros H. eapply mregs_ok_only; [apply (only_changes_rset [SREG]); by left|reg_list..| |done].
  apply sei_ok, H.
Qed.

(** ** Initialization *)

Lemma wp_Battery_Monitor_Init Q s :
  battery_wf (bat s) -> env_ok (env s) ->
  (forall b r e, battery_ok b -> Battery_Voltage b = volts (conversions (env s) 0) ->
     only_changes [ADMUX; ADCSRA; ADC] (rg s) r -> (regs_ok (rg s) -> regs_ok r) -> env_ok e ->
     Q tt (set_bat b (set_rg r (set_env e s)))) ->
  wp Call.Battery_Monitor_Init Q s.
Proof.
  intros Hb He HQ. unfold Call.Battery_Monitor_Init. apply wp_bind.
  unfold wp at 1, Call.next_conversion. cbn zeta.
  destruct (Battery_Monitor_Init_spec (latency (conversions (env s) 0)) (conversions (env s) 0)
    (bat s) (rg s) Hb (He 0%nat) ltac:(lia)) as (b&r&E&Hok&Hv&_&_&Ho&Hr).
  unfold wp, Call.Battery_Monitor_Init_with. cbn [set_env bat rg env]. rewrite E.
  apply HQ; try done. intros n. apply He.
Qed.

(** A controller of the first order after its initialization. *)
Definition controller_fresh (kp0 : f32) (c : Controller_t) : Prop :=
  filter_ok 2 (controller c) /\ kp c = kp0 /\ target_pos c = f32_zero /\ target_vel c = f32_zero /\
  update_period c = f32_of_Z 10.

Lemma Controller_Init_fresh kp0 num den :
  length num = 2%nat -> length den = 2%nat ->
  exists c, Controller_Init controller_zero kp0 num den 1 (f32_of_Z 10) = Some c /\ controller_fresh kp0 c.
Proof.
  intros Hn Hd. destruct (Filter_Init_spec filter_zero num den 1) as (f&E&Hok&_);
    [apply wf_ring_zero_F..|lia|rewrite Hn; lia|rewrite Hd; lia|].
  unfold Controller_Init. cbn [controller controller_zero]. rewrite E. eexists. by split.
Qed.

Lemma wp_SetupTimer0 Q s :
  fresh_regs (rg s) ->
  (forall r, fresh_regs r -> Q tt (set_tm timing_zero (set_rg r s))) -> wp Call.SetupTimer0 Q s.
Proof.
  intros Hr HQ. unfold Call.SetupTimer0. apply wp_modify.
  pose proof (fresh_SetupTimer0 (tm s) (rg s) Hr) as H. unfold SetupTimer0 in *. cbn [snd] in H.
  by apply HQ.
Qed.

Lemma wp_Encoders_Init Q s :
  fresh_regs (rg s) ->
  (forall e r, counts (left e) = 0 -> counts (right e) = 0 -> fresh_regs r ->
     Q tt (set_enc e (set_rg r s))) ->
  wp Call.Encoders_Init Q s.
Proof.
  intros Hr HQ. unfold Call.Encoders_Init. apply wp_modify.
  pose proof (fresh_Encoders (enc s) (rg s) Hr) as H. unfold Encoders_Init in *. cbn [snd] in H.
  by apply HQ.
Qed.

Lemma wp_Controller_Init_Left kp0 num den Q s :
  ctr_LeftMotor s = controller_zero -> length num = 2%nat -> length den = 2%nat ->
  (forall c, controller_fresh kp0 c -> Q tt (set_left c s)) ->
  wp (Controller_Init_Left kp0 num den 1 (f32_of_Z 10)) Q s.
Proof.
  intros E Hn Hd HQ. destruct (Controller_Init_fresh kp0 num den Hn Hd) as (c&Ec&Hc).
  unfold wp, Controller_Init_Left. rewrite E, Ec. by apply HQ.
Qed.

Lemma wp_Controller_Init_Right kp0 num den Q s :
  ctr_RightMotor s = controller_zero -> length num = 2%nat -> length den = 2%nat ->
  (forall c, controller_fresh kp0 c -> Q tt (set_right c s)) ->
  wp (Controller_Init_Right kp0 num den 1 (f32_of_Z 10)) Q s.
Proof.
  intros E Hn Hd HQ. destruct (Controller_Init_fresh kp0 num den Hn Hd) as (c&Ec&Hc).
  unfold wp, Controller_Init_Right. rewrite E, Ec. by apply HQ.
Qed.

Lemma wp_USB_SetupHardware Q s :
  ser_ok (ser s) ->
  (forall x, unplugged x -> delivered x = delivered (ser s) ->
     Q tt (set_ser x (set_env (next_moves (host_moves (env s)) (env s)) s))) ->
  wp Call.USB_SetupHardware Q s.
Proof.
  intros Hs HQ. destruct (USB_SetupHardware_run (host_moves (env s)) (ser s) Hs) as (x&E&H1&H2).
  unfold wp, Call.USB_SetupHardware, call_sio. rewrite E. by apply HQ.
Qed.

(** What the initialization leaves. *)
Definition initialized (v0 : f32) (s : fw) : Prop :=
  sys_ok s /\ interrupts_on (rg s) = true /\ Is_Motor_PWM_Enabled (rg s) = false /\
  Battery_Voltage (bat s) = v0 /\ unplugged (ser s) /\ delivered (ser s) = [] /\ tm s = timing_zero /\
  counts (left (enc s)) = 0 /\ counts (right (enc s)) = 0 /\
  controller_fresh KP_L (ctr_LeftMotor s) /\ controller_fresh KP_R (ctr_RightMotor s) /\
  course_of (oa s) = Start /\
  flags s mf_battery_task = {| active := true; duration := f32_of_Z 2;
                               last_trigger_time := {| millisec := 0; microsec := 0 |} |} /\
  (forall f, active (flags s f) = bool_decide (f = mf_battery_task)).

Ltac init_step :=
  lazymatch goal with
  | |- wp (mbind _ _) _ _ => apply wp_bind
  | |- wp (gets _) _ _ => apply wp_gets
  | |- wp (modify _) _ _ => apply wp_modify
  | |- wp (call_regs _) _ _ => unfold call_regs
  | |- wp (call_ser _) _ _ => unfold call_ser
  | |- wp Call.LED_Init _ _ => unfold Call.LED_Init
  | |- wp (Call.Motor_PWM_Init _) _ _ => unfold Call.Motor_PWM_Init
  | |- wp Call.Proxy_Init _ _ => unfold Call.Proxy_Init
  | |- wp (Call.Servo_PWM_Init _) _ _ => unfold Call.Servo_PWM_Init
  | |- wp Init_Obstacle_Avoidance _ _ => unfold Init_Obstacle_Avoidance
  | |- wp GlobalInterruptEnable _ _ => unfold GlobalInterruptEnable
  | |- wp Message_Handling_Init _ _ => unfold Message_Handling_Init
  | |- wp (MSG_FLAG_Init _) _ _ => unfold MSG_FLAG_Init
  | |- wp before_loop _ _ => unfold before_loop
  | |- wp (Call.set_active _ _) _ _ => unfold Call.set_active
  | |- wp (Call.set_duration _ _) _ _ => unfold Call.set_duration
  end; cbv beta; fw_simpl.

Lemma InitializeSystem_spec r e :
  fresh_regs r -> env_ok e ->
  wp (InitializeSystem;; before_loop)
    (fun _ s' => initialized (volts (conversions e 0)) s') (power_on r e).
Proof.
  intros Hr He. unfold InitializeSystem.
  repeat init_step. apply wp_SetupTimer0; [done|]. intros r1 H1.
  repeat init_step. apply wp_Encoders_Init; [done|]. intros en r2 Cl Cr H2.
  repeat init_step. apply wp_Battery_Monitor_Init; [apply battery_zero_wf|done|].
  intros b r3 e3 Hb Hv Ho Hr3 He3. fw_simpl.
  repeat init_step. apply wp_USB_SetupHardware; [apply serial_zero_ok|]. fw_simpl. intros x S1 S2.
  repeat init_step. apply wp_Controller_Init_Left; [done..|]. intros c1 Hc1.
  repeat init_step. apply wp_Controller_Init_Right; [done..|]. intros c2 Hc2.
  repeat init_step. fw_simpl.
  change (only_changes [ADMUX; ADCSRA; ADC] r2 r3) in Ho. change (regs_ok r2 -> regs_ok r3) in Hr3.
  assert (H3 : fresh_regs r3) by (eapply fresh_only; [exact Ho|reg_list..|apply Hr3, H2|done]).
  set (r4 := LedServo.LED_Init r3). assert (H4 : fresh_regs r4) by by apply fresh_LED.
  pose proof (mregs_Motor_PWM_Init r4 H4) as H5.
  destruct (Motor_PWM_Init_spec 400 r4) as (_&Hen&_&_); [lia|].
  set (r5 := MotorPWM.Motor_PWM_Init 400 r4) in *.
  pose proof (Servo_PWM_Init_only OPEN r5 (mregs_regs _ H5)) as Ho6.
  pose proof (mregs_Servo_PWM_Init OPEN r5 H5) as H6.
  set (r6 := LedServo.Servo_PWM_Init OPEN r5) in *.
  pose proof (mregs_sei r6 H6) as H7.
  unfold initialized. split.
  { split; [|split; [by intros ?|by intros ?]].
    apply fw_ok_parts; fw_simpl;
      [exact H7|by split_and!|exact Hb|by split_and!|apply S1|by intros ?|exact He3]. }
  flag_simpl.
  split; [apply interrupts_on_sei|]. split; [|split; [exact Hv|split; [exact S1|split; [exact S2|]]]].
  2: { split; [done|]. split; [exact Cl|]. split; [exact Cr|]. split; [exact Hc1|]. split; [exact Hc2|].
       split; [done|]. split; [done|]. intros f. by destruct f. }
  rewrite <- Hen. apply Is_Enabled_same. by rewrite <- (Ho6 TCCR1A) by reg_list.
Qed.

(** ** The machine *)

(** What can happen to the serial state while the program does not touch it: the
    bus and the controller change flags and status bits, the host acts, and the
    two interrupts of the library run, with what the host does meanwhile. *)
Inductive usb_step (g : Z -> Z) : serial -> serial -> Prop :=
  | usb_register r n s : r ∈ [UDINT; USBINT; USBSTA] -> usb_step g s (on_hw (set_reg r (fun _ => n)) s)
  | usb_host m s : usb_step g s (on_hw (host_act m) s)
  | usb_general ms ms' s s' : USB_GEN_vect (ms, s) = Some (tt, (ms', s')) -> usb_step g s s'
  | usb_control ms ms' s s' : USB_COM_vect g (ms, s) = Some (tt, (ms', s')) -> usb_step g s s'.

(** One step of the environment between two blocks.  Its USB part ends when no
    request waits: a waiting request interrupts the program at once. *)
Inductive event : fw -> fw -> Prop :=
  | ev_timer s : event s
      (set_tm (TIMER0_COMPB (tm s) (rg s)).1 (set_rg (TIMER0_COMPB (tm s) (rg s)).2 s))
  | ev_count s n : event s (upd_rg (rset TCNT0 n) s)
  | ev_pin s x n : x ∈ [PINB; PINE; PINF] -> event s (upd_rg (rset x n) s)
  | ev_left_wheel s : event s (set_enc (PCINT0 (enc s) (rg s)) s)
  | ev_right_wheel s : event s (set_enc (INT6 (enc s) (rg s)) s)
  | ev_usb s x :
      rtc (usb_step (signature (env s))) (ser s) x -> RXSTPI (hw x) = false -> event s (set_ser x s).

(** Where block [pc] may run: what C requires of its conversions. *)
Definition within_range (pc : nat) (s : fw) : Prop :=
  match pc with
  | 1 => message_defined s
  | 12 => active (flags s mf_motor_dist_control) = true -> control_defined s
  | 13 => active (flags s mf_motor_vel_control) = true -> control_defined s
  | _ => True
  end%nat.

(** The next block of the loop. *)
Definition next_pc (pc : nat) : nat := (S pc) mod 17.

Inductive step : nat * fw -> nat * fw -> Prop :=
  | step_event pc s s' : event s s' -> step (pc, s) (pc, s')
  | step_task pc t s s' :
      main_tasks !! pc = Some t -> within_range pc s -> t s = Some (tt, s') ->
      step (pc, s) (next_pc pc, s').

(** *** Invariance *)

Lemma sys_ok_ser x s : ser_ok x -> sys_ok s -> sys_ok (set_ser x s).
Proof.
  intros Hx ((K1&K2&K3&K4&K5&K6&K7)&Hone&Hav). split; [|by split]. by apply fw_ok_parts.
Qed.

Lemma sys_ok_enc x s : sys_ok s -> sys_ok (set_enc x s).
Proof. by intros ((K1&K2&K3&K4&K5&K6&K7)&Hone&Hav). Qed.

Lemma mregs_other x n r :
  x <> ICR1 -> x <> OCR1A -> x <> OCR1B -> mregs_ok r -> mregs_ok (rset x n r).
Proof.
  intros H1 H2 H3 H. eapply (mregs_ok_only [x]); [apply only_changes_rset; by left|..].
  1-3: rewrite not_elem_of_cons; split; [congruence|apply not_elem_of_nil].
  - apply rset_ok, H.
  - done.
Qed.

Lemma sys_ok_rg r s : mregs_ok r -> sys_ok s -> sys_ok (set_rg r s).
Proof.
  intros Hx ((K1&K2&K3&K4&K5&K6&K7)&Hone&Hav). split; [|by split]. by apply fw_ok_parts.
Qed.

Lemma sys_ok_tm t s : timing_ok t -> sys_ok s -> sys_ok (set_tm t s).
Proof.
  intros Hx ((K1&K2&K3&K4&K5&K6&K7)&Hone&Hav). split; [|by split]. by apply fw_ok_parts.
Qed.

#[local] Instance keeps_general : KeepsRings USB_GEN_vect.
Proof.
  unfold USB_GEN_vect, on_interrupt, raised, on_start_of_frame, on_vbus, on_suspend, on_wakeup, on_reset, pll_on_and_wait,
    pll_off, hw_is, USB_Event_Stub. apply _.
Qed.

Lemma usb_step_rings g s s' : usb_step g s s' -> same_rings s s'.
Proof.
  intros [r n s1 _|m s1|ms ms' s1 s2 E|ms ms' s1 s2 E]; [done|done|by apply keeps_rings in E|].
  by apply USB_COM_run in E as [H _].
Qed.

Lemma usb_steps_rings g s s' : rtc (usb_step g) s s' -> same_rings s s'.
Proof. induction 1 as [|s1 s2 s3 H _ IH]; [done|]. etransitivity; [by eapply usb_step_rings|exact IH]. Qed.

Lemma event_ok s s' : event s s' -> sys_ok s -> sys_ok s'.
Proof.
  intros He Hs. pose proof Hs as ((K1&K2&K3&K4&K5&K6&K7)&_). destruct He as [s|s n|s x n Hx|s|s|s x Hx Hr].
  - apply sys_ok_tm; [by apply TIMER0_COMPB_ok, K1|]. apply sys_ok_rg; [|done].
    by apply mregs_other.
  - apply sys_ok_rg; [by apply mregs_other|done].
  - apply sys_ok_rg; [|done]. rewrite !elem_of_cons, elem_of_nil in Hx.
    destruct Hx as [->|[->|[->|[]]]]; by apply mregs_other.
  - by apply sys_ok_enc.
  - by apply sys_ok_enc.
  - apply sys_ok_ser; [|done]. apply usb_steps_rings in Hx as (E1&E2&_).
    destruct K5 as (W1&W2&_). unfold ser_ok. by rewrite E1, E2.
Qed.

Lemma task_sys pc t s :
  main_tasks !! pc = Some t -> sys_ok s -> within_range pc s -> wp t (fun _ s' => sys_ok s') s.
Proof.
  intros Ht Hs Hw.
  destruct pc as [|[|[|[|[|[|[|[|[|[|[|[|[|[|[|[|[|pc]]]]]]]]]]]]]]]]];
    [injection Ht as <-..|done].
  - by apply USB_Upkeep_ok.
  - by apply Message_Handling_ok.
  - by apply task_restart_ok.
  - by apply task_battery_ok.
  - by apply task_send_time_ok.
  - by apply task_time_float_send_ok.
  - by apply task_loop_timer_ok.
  - by apply task_send_encoder_ok.
  - by apply task_send_battery_ok.
  - by apply task_low_battery_ok.
  - by apply task_timed_pwm_ok.
  - by apply task_sys_data_ok.
  - by apply task_dist_control_ok.
  - by apply task_vel_control_ok.
  - by apply task_motor_stop_ok.
  - by apply task_ir_proximity_ok.
  - by apply task_obj_avoidance_ok.
Qed.

Lemma step_ok x y : step x y -> sys_ok x.2 -> sys_ok y.2.
Proof.
  intros [pc s s' He|pc t s s' Ht Hw E]; cbn [snd]; intros Hs; [by eapply event_ok|].
  exact (wp_result _ _ _ _ _ (task_sys pc t s Ht Hs Hw) E).
Qed.

Lemma reachable_ok x y : rtc step x y -> sys_ok x.2 -> sys_ok y.2.
Proof. induction 1 as [|x y z Hxy _ IH]; [done|]. intros H. by apply IH, (step_ok x y). Qed.

Lemma reachable_pc x y : rtc step x y -> (x.1 < 17)%nat -> (y.1 < 17)%nat.
Proof.
  induction 1 as [|x y z Hxy _ IH]; [done|]. intros H. apply IH.
  destruct Hxy; cbn [fst] in *; [done|]. unfold next_pc. apply Nat.mod_upper_bound. lia.
Qed.

(** The state before the loop satisfies the invariant. *)
Lemma started r e s0 :
  fresh_regs r -> env_ok e ->
  (InitializeSystem;; before_loop) (power_on r e) = Some (tt, s0) -> sys_ok s0.
Proof.
  intros Hr He E. pose proof (wp_result _ _ _ _ _ (InitializeSystem_spec r e Hr He) E) as H.
  apply H.
Qed.

Lemma starts r e :
  fresh_regs r -> env_ok e ->
  exists s0, (InitializeSystem;; before_loop) (power_on r e) = Some (tt, s0).
Proof.
  intros Hr He. pose proof (InitializeSystem_spec r e Hr He) as Hi.
  destruct (proj1 (wp_run _ _ _) Hi) as ([]&s0&E&_). by exists s0.
Qed.

Lemma fresh_zero : fresh_regs regs_zero.
Proof. split; [auto with regs|done]. Qed.
Lemma boot_env_ok : env_ok (env fw_boot).
Proof. intros n. unfold conversion_ok. simpl. lia. Qed.

(** ** Properties *)

(** C30: the start.  Whatever the registers (with the two compare registers at
    their reset value), the converter, the sensors and the host
    do, [InitializeSystem] and the assignments before the loop are defined and
    leave the invariant of the running system: interrupts on, motors disabled
    with TOP 400, both rings empty and nothing sent, the bus unattached with the
    interrupts of power and reset enabled, the clock and the counts at zero, the
    monitored voltage that of the first sample, both controllers with a filter of
    order 1, period 10 and zero targets, the obstacle avoidance at its start,
    and only the battery task's flag active, every 2 ms. *)
Theorem initialization r e :
  fresh_regs r -> env_ok e ->
  wp (InitializeSystem;; before_loop)
    (fun _ s' => initialized (volts (conversions e 0)) s') (power_on r e).
Proof. apply InitializeSystem_spec. Qed.

Lemma initialization_witness :
  wp (InitializeSystem;; before_loop)
    (fun _ s' => initialized (volts sample_conversion) s') (power_on regs_zero (env fw_boot)).
Proof.
  exact (initialization regs_zero (env fw_boot) fresh_zero boot_env_ok).
Defined.

(** C1: what is always true.  In every state the machine reaches from power-on, by
    any interleaving of blocks and environment steps: the distance control is
    never active together with the velocity control or the obstacle avoidance;
    while the obstacle avoidance is active no stop is pending and the wheels'
    targets are those of its course; the motor timer's TOP is 400 and both
    compare values are between 0 and 400; and each ring holds at most 63
    bytes. *)
Theorem machine_invariant r e s0 pc s :
  fresh_regs r -> env_ok e ->
  (InitializeSystem;; before_loop) (power_on r e) = Some (tt, s0) ->
  rtc step (0%nat, s0) (pc, s) ->
  one_driver s /\ avoid_ok s /\
  (rg s ICR1 = 400 /\ 0 <= rg s OCR1A <= 400 /\ 0 <= rg s OCR1B <= 400) /\
  (length (rx_bytes (ser s)) <= 63)%nat /\ (length (tx_bytes (ser s)) <= 63)%nat.
Proof.
  intros Hr He E Hreach. pose proof (started r e s0 Hr He E) as Hs0.
  destruct (reachable_ok _ _ Hreach Hs0) as ((K1&_&_&_&K5&_)&Hone&Hav). cbn [snd] in *.
  split; [exact Hone|]. split; [exact Hav|]. split; [apply K1|].
  split; [by apply rx_bound|by apply tx_bound].
Qed.

Lemma machine_invariant_witness : exists s0,
  (InitializeSystem;; before_loop) (power_on regs_zero (env fw_boot)) = Some (tt, s0) /\
  one_driver (set_ser (host_packet [115] (ser s0)) s0).
Proof.
  destruct (starts regs_zero (env fw_boot) fresh_zero boot_env_ok) as [s0 E]. exists s0. split; [exact E|].
  destruct (machine_invariant regs_zero (env fw_boot) s0 0
    (set_ser (host_packet [115] (ser s0)) s0) fresh_zero boot_env_ok E) as [H _]; [|exact H].
  apply rtc_once, step_event, ev_usb; [|apply (host_packet_setup [115]), (started _ _ _ fresh_zero boot_env_ok E)]. apply rtc_once, (usb_host _ (SendOUT 2 [115])).
Defined.

(** C15: the loop never gets stuck.  In every reachable state the next block, if its
    conversions are in range, is defined and ends; the machine goes on with the
    following block, and after the last with the first. *)
Theorem machine_progress r e s0 pc s :
  fresh_regs r -> env_ok e ->
  (InitializeSystem;; before_loop) (power_on r e) = Some (tt, s0) ->
  rtc step (0%nat, s0) (pc, s) -> within_range pc s ->
  exists t s', main_tasks !! pc = Some t /\ t s = Some (tt, s') /\ step (pc, s) (next_pc pc, s').
Proof.
  intros Hr He E Hreach Hw. pose proof (started r e s0 Hr He E) as Hs0.
  pose proof (reachable_ok _ _ Hreach Hs0) as Hs. pose proof (reachable_pc _ _ Hreach) as Hpc.
  cbn [fst snd] in *.
  destruct (lookup_lt_is_Some_2 main_tasks pc) as [t Ht]; [simpl; lia|].
  pose proof (task_sys pc t s Ht Hs Hw) as H. apply wp_run in H as ([]&s'&E'&_).
  exists t, s'. split_and!; [done..|]. by eapply step_task.
Qed.

Lemma machine_progress_witness : exists s0 s1,
  (InitializeSystem;; before_loop) (power_on regs_zero (env fw_boot)) = Some (tt, s0) /\
  step (0%nat, s0) (1%nat, s1).
Proof.
  destruct (starts regs_zero (env fw_boot) fresh_zero boot_env_ok) as [s0 E].
  destruct (machine_progress regs_zero (env fw_boot) s0 0 s0 fresh_zero boot_env_ok E) as (t&s1&_&_&H);
    [apply rtc_refl|exact I|].
  exists s0, s1. split; [exact E|exact H].
Defined.
