(* ===== verification/Blocks.v ===== *)
(** * Blocks: properties of the main loop's blocks

    What the stop flag, the timed duty cycle, the distance and velocity
    controls, the reports and the battery block do when their flags fire. *)
From S2P Require Import Prelude.
From S2P Require Import Float32.
From S2P Require Import Controller.
From S2P Require Import Avr.
From S2P Require Import Timing.
From S2P Require Import Encoder.
From S2P Require Import LedServo.
From S2P Require Import MotorPWM.
From S2P Require Import Proximity.
From S2P Require Import Battery.
From S2P Require Import SerialIO.
From S2P Require Import Firmware.
From S2P Require Import MessageHandling.
From S2P Require Import MessageSpec.
From S2P Require Import Drive.
From S2P Require Import ObstacleAvoidance.
From S2P Require Import MainLoop.
From S2P Require Import MainSpec.
Import Call.

(** The flag's test answers [b]. *)
Definition fires (f : mf) (s : fw) (b : bool) : Prop := MSG_FLAG_Execute f s = Some (b, s).

Lemma wp_on_flag_fires f body b Q s :
  fires f s b -> wp (when b body) Q s -> wp (on_flag f body) Q s.
Proof. intros E H. unfold on_flag. apply wp_bind. unfold wp at 1. by rewrite E. Qed.

Lemma fires_active f s : fires f s true -> active (flags s f) = true.
Proof.
  unfold fires, MSG_FLAG_Execute, get_flag, mbind, M_bind, gets. cbn beta iota.
  by destruct (active (flags s f)).
Qed.

(** Flag [g] is as before, for all [g] not in the list. *)
Definition flags_kept (l : list mf) (s s' : fw) : Prop := forall g, g ∉ l -> flags s' g = flags s g.

Ltac kept :=
  let g := fresh "g" in let Hg := fresh "Hg" in
  intros g Hg; destruct g; try reflexivity; exfalso; apply Hg; reg_list.

(** The sample state with flag [f] due. *)
Definition due : MSG_FLAG_t :=
  {| active := true; duration := f32_zero; last_trigger_time := {| millisec := 0; microsec := 0 |} |}.
Definition fw_due (f : mf) : fw := set_flag f due (fw_sample []).

Lemma fw_due_ok f : f <> mf_obj_avoidance -> sys_ok (fw_due f).
Proof.
  intros H2. destruct (fw_sample_ok []) as ((K1&K2&K3&K4&K5&K6&K7)&_); [done|simpl; lia|].
  split; [by apply fw_ok_parts|]. split.
  - unfold one_driver, fw_due. cbn [flags set_flag].
    destruct f; intros Hd; try discriminate Hd; by split.
  - unfold avoid_ok, fw_due. cbn [flags set_flag]. by destruct f.
Qed.

Lemma fw_due_fires f : fires f (fw_due f) true.
Proof.
  unfold fires, MSG_FLAG_Execute, get_flag, SecondsSince, mbind, M_bind, gets. cbn beta iota.
  assert (E : flags (fw_due f) f = due) by (unfold fw_due; cbn [flags set_flag]; by destruct f).
  rewrite E. cbn [active due]. by destruct f.
Qed.

(** ** Stopping *)

Lemma task_motor_stop_parks s :
  sys_ok s -> fires mf_motor_stop s true ->
  wp task_motor_stop (fun _ s' => parked s' /\ ser s' = ser s /\ loc s' = loc s /\
    flags_kept [mf_motor_stop; mf_motor_dist_control; mf_motor_vel_control; mf_timed_pwm] s s') s.
Proof.
  intros Hs Hf. unfold task_motor_stop. apply (wp_on_flag_fires _ _ true); [done|].
  pose proof (sys_mregs s Hs) as Hm. loop_go. unfold parked, flags_kept. flag_simpl.
  split_and!; try done; [|kept]. eapply motors_off_last; [|exact Hl|exact Hr]. by apply mregs_top.
Qed.

Lemma task_timed_pwm_stops s :
  sys_ok s -> fires mf_timed_pwm s true ->
  wp task_timed_pwm (fun _ s' => motors_off (rg s') /\ active (flags s' mf_timed_pwm) = false /\
    ser s' = ser s /\ loc s' = loc s /\ ctr_LeftMotor s' = ctr_LeftMotor s /\
    ctr_RightMotor s' = ctr_RightMotor s /\ flags_kept [mf_timed_pwm] s s') s.
Proof.
  intros Hs Hf. unfold task_timed_pwm. apply (wp_on_flag_fires _ _ true); [done|].
  pose proof (sys_mregs s Hs) as Hm. loop_go. unfold flags_kept. flag_simpl.
  split_and!; try done; [|kept]. eapply motors_off_last; [|exact Hl|exact Hr]. by apply mregs_top.
Qed.

(** the timed stops.  When the stop flag fires, both motors are off (duty cycle
    zero, outputs disabled), all targets zero and all drive flags but the
    obstacle avoidance's cleared; when the timed duty cycle ends, both motors are
    off and its flag is cleared.  Before they fire nothing happens. *)
Theorem timed_stops s :
  sys_ok s ->
  (fires mf_motor_stop s true -> wp task_motor_stop (fun _ s' => parked s') s) /\
  (fires mf_motor_stop s false -> task_motor_stop s = Some (tt, s)) /\
  (fires mf_timed_pwm s true -> wp task_timed_pwm (fun _ s' =>
     motors_off (rg s') /\ active (flags s' mf_timed_pwm) = false) s) /\
  (fires mf_timed_pwm s false -> task_timed_pwm s = Some (tt, s)).
Proof.
  intros Hs. split_and!.
  - intros Hf. eapply wp_mono; [by apply task_motor_stop_parks|]. by intros ? ? (?&_).
  - intros Hf. unfold task_motor_stop, on_flag, mbind, M_bind. by rewrite Hf.
  - intros Hf. eapply wp_mono; [by apply task_timed_pwm_stops|]. by intros ? ? (?&?&_).
  - intros Hf. unfold task_timed_pwm, on_flag, mbind, M_bind. by rewrite Hf.
Qed.

Lemma timed_stops_witness :
  wp task_motor_stop (fun _ s' => parked s') (fw_due mf_motor_stop).
Proof.
  destruct (timed_stops (fw_due mf_motor_stop)) as [H _]; [by apply fw_due_ok|].
  apply H, fw_due_fires.
Defined.

(** ** Distance and velocity control *)

(** The baseline for the next activation: counts and time of now. *)
Definition baseline_now (s s' : fw) : Prop :=
  ticksL_old (loc s') = Some (f32_of_Z (counts (left (enc s)))) /\
  ticksR_old (loc s') = Some (f32_of_Z (counts (right (enc s)))) /\
  (exists t, time_old (loc s') = Some t) /\ first_time (loc s') = false.

(** The first activation takes the baseline and nothing else. *)
Definition baseline_only (s s' : fw) : Prop :=
  baseline_now s s' /\ (forall x, rg s' x = rg s x) /\ ser s' = ser s /\ flags s' = flags s /\
  ctr_LeftMotor s' = ctr_LeftMotor s /\ ctr_RightMotor s' = ctr_RightMotor s.

(** The duty cycle toward a remaining distance. *)
Definition toward (target : f32) (duty : Z) : Z := if (target > f32_zero)%f32 then duty else - duty.

Definition arrived_state (s s' : fw) : Prop :=
  motors_off (rg s') /\ active (flags s' mf_motor_dist_control) = false /\
  first_time (loc s') = true /\
  target_pos (ctr_LeftMotor s') = f32_zero /\ target_pos (ctr_RightMotor s') = f32_zero /\
  target_vel (ctr_LeftMotor s') = f32_zero /\ target_vel (ctr_RightMotor s') = f32_zero /\
  flags_kept [mf_motor_dist_control] s s'.

(** On the way: the remaining distances shrink by what was measured, the motors
    run toward them, and the baseline moves on. *)
Definition under_way (s : fw) (dl dr : f32) (l r : Z) (s' : fw) : Prop :=
  let pl := (target_pos (ctr_LeftMotor s) - dl)%f32 in
  let pr := (target_pos (ctr_RightMotor s) - dr)%f32 in
  target_pos (ctr_LeftMotor s') = pl /\ target_pos (ctr_RightMotor s') = pr /\
  target_vel (ctr_LeftMotor s') = target_vel (ctr_LeftMotor s) /\
  target_vel (ctr_RightMotor s') = target_vel (ctr_RightMotor s) /\
  motors_at (toward pl l) (toward pr r) (rg s') /\ baseline_now s s' /\
  active (flags s' mf_motor_dist_control) = true /\ flags_kept [mf_motor_dist_control] s s'.

Definition dist_outcome (s : fw) (ml mr l r : Z) (s' : fw) : Prop :=
  let dl := ECount_to_Distance ml in
  let dr := ECount_to_Distance mr in
  if arrived (target_pos (ctr_LeftMotor s)) dl || arrived (target_pos (ctr_RightMotor s)) dr
  then arrived_state s s' else under_way s dl dr l r s'.

Lemma task_dist_first s :
  sys_ok s -> fires mf_motor_dist_control s true -> first_time (loc s) = true ->
  wp task_dist_control (fun _ s' => baseline_only s s') s.
Proof.
  intros Hs Hf Ef. unfold task_dist_control. apply (wp_on_flag_fires _ _ true); [done|].
  pose proof (sys_mregs s Hs) as Hm. cbn [when]. loop_step. loop_step. loop_step. rewrite Ef.
  loop_go. unfold baseline_only, baseline_now. flag_simpl. split_and!; try done; [by eexists|].
  intros x. congruence.
Qed.

Ltac finish_arrived :=
  unfold arrived_state, flags_kept; flag_simpl; split_and!; try done; [|kept];
  match goal with Hl : motor_state OCR1B _ _ _ _, Hr : motor_state OCR1A _ _ _ _ |- _ =>
    eapply motors_off_last; [|exact Hl|exact Hr]; by apply mregs_top end.

Ltac finish_way :=
  unfold under_way, baseline_now, flags_kept, toward; flag_simpl;
  cbn [target_pos Controller_Set_Target_Position] in *;
  repeat match goal with H : f32_lt f32_zero _ = _ |- _ => rewrite H; clear H end;
  split_and!; try done; [by eapply motors_at_enabled|by eexists|kept].

Lemma task_dist_next s ml mr l r :
  sys_ok s -> fires mf_motor_dist_control s true -> first_time (loc s) = false ->
  measured s ml mr -> duties s l r ->
  wp task_dist_control (fun _ s' => dist_outcome s ml mr l r s') s.
Proof.
  intros Hs Hf Ef (tl&tr&El&Er&Dl&Dr) Hlr.
  unfold task_dist_control, CNTRL_SYS, DEBUG. apply (wp_on_flag_fires _ _ true); [done|].
  pose proof (sys_mregs s Hs) as Hm. pose proof (fires_active _ _ Hf) as Hact.
  assert (Hloc : loc_ok (loc s)) by apply Hs. destruct (Hloc Ef) as (_&_&[t Et]).
  pose proof (duties_range _ _ _ Hlr) as [Rl Rr]. destruct Hlr as (Vl&_&Vr&_).
  cbn [when]. loop_step. loop_step. loop_step. rewrite Ef.
  repeat loop_step.
  all: unfold dist_outcome; match goal with H : arrived _ _ || _ = _ |- _ => rewrite H end;
    first [finish_arrived | finish_way].
Qed.

(** C28: the distance control.  On its first activation it only takes the baseline:
    motors, targets, flags and serial link are as before.  Afterwards, with [ml]
    and [mr] the counts since the baseline and [l] and [r] the duty cycles of the
    target velocities: if either wheel has arrived, both motors are off, all
    targets zero, the control inactive and the next activation a first one
    again; otherwise both motors are enabled at those duty cycles, signed toward
    the remaining distances, which shrink by the measured ones, and the baseline
    becomes now. *)
Theorem distance_control s :
  sys_ok s -> fires mf_motor_dist_control s true ->
  (first_time (loc s) = true -> wp task_dist_control (fun _ s' => baseline_only s s') s) /\
  (forall ml mr l r, first_time (loc s) = false -> measured s ml mr -> duties s l r ->
     wp task_dist_control (fun _ s' => dist_outcome s ml mr l r s') s).
Proof.
  intros Hs Hf. split.
  - by apply task_dist_first.
  - intros. by apply task_dist_next.
Qed.

(** A started control: baseline at zero, 100 counts since, one metre to go at
    50 % duty cycle. *)
Definition driven (f : mf) : fw :=
  let c := Controller_Set_Target_Velocity
    (Controller_Set_Target_Position controller_zero (f32_of_Z 1)) (DutyCycle_to_Velocity_Left 50) in
  set_left c (set_right c
    (set_loc (with_first_time false (with_old f32_zero f32_zero f32_zero (loc fw_boot)))
      (set_enc {| left := {| last_A := false; last_B := false; last_XOR := false; counts := 100 |};
                  right := {| last_A := false; last_B := false; last_XOR := false; counts := 100 |} |}
        (fw_due f)))).

Lemma driven_ok f : f <> mf_obj_avoidance -> sys_ok (driven f) /\ fires f (driven f) true.
Proof.
  intros Hf. destruct (fw_due_ok f Hf) as ((K1&K2&K3&K4&K5&K6&K7)&Hone&Hav). split.
  - split; [apply fw_ok_parts; try done; apply loc_ok_first_old|]. split; [done|].
    unfold avoid_ok, driven, fw_due. cbn [flags set_flag set_left set_right set_loc set_enc].
    by destruct f.
  - pose proof (fw_due_fires f) as H. unfold fires, MSG_FLAG_Execute, get_flag, SecondsSince,
      mbind, M_bind, gets in *. cbn beta iota in *.
    change (flags (driven f)) with (flags (fw_due f)). change (tm (driven f)) with (tm (fw_due f)).
    change (rg (driven f)) with (rg (fw_due f)).
    destruct (active (flags (fw_due f) f)); [|done]. cbn beta iota zeta in *.
    by destruct (f32_le _ _).
Qed.

Lemma driven_measured f : measured (driven f) 100 100 /\ duties (driven f) 49 48.
Proof. split; [exists f32_zero, f32_zero; by vm_compute|by vm_compute]. Qed.

Lemma distance_control_witness :
  wp task_dist_control (fun _ s' => dist_outcome (driven mf_motor_dist_control) 100 100 49 48 s')
    (driven mf_motor_dist_control).
Proof.
  destruct (driven_ok mf_motor_dist_control) as [H1 H2]; [done|].
  destruct (driven_measured mf_motor_dist_control) as [H3 H4].
  destruct (distance_control (driven mf_motor_dist_control) H1 H2) as [_ H].
  by apply (H 100 100 49 48).
Defined.

(** The velocity control under way: the motors run at the duty cycles of the
    target velocities, forward or backward; the targets stay. *)
Definition cruising (s : fw) (l r : Z) (s' : fw) : Prop :=
  motors_at l r (rg s') /\ baseline_now s s' /\
  ctr_LeftMotor s' = ctr_LeftMotor s /\ ctr_RightMotor s' = ctr_RightMotor s /\
  active (flags s' mf_motor_vel_control) = true /\ flags_kept [mf_motor_vel_control] s s'.

Lemma task_vel_first s :
  sys_ok s -> fires mf_motor_vel_control s true -> first_time (loc s) = true ->
  wp task_vel_control (fun _ s' => baseline_only s s') s.
Proof.
  intros Hs Hf Ef. unfold task_vel_control. apply (wp_on_flag_fires _ _ true); [done|].
  pose proof (sys_mregs s Hs) as Hm. cbn [when]. loop_step. loop_step. loop_step. rewrite Ef.
  loop_go. unfold baseline_only, baseline_now. flag_simpl. split_and!; try done; [by eexists|].
  intros x. congruence.
Qed.

Lemma task_vel_next s ml mr l r :
  sys_ok s -> fires mf_motor_vel_control s true -> first_time (loc s) = false ->
  measured s ml mr -> duties s l r ->
  wp task_vel_control (fun _ s' => cruising s l r s') s.
Proof.
  intros Hs Hf Ef (tl&tr&El&Er&Dl&Dr) Hlr.
  unfold task_vel_control, CNTRL_SYS, DEBUG. apply (wp_on_flag_fires _ _ true); [done|].
  pose proof (sys_mregs s Hs) as Hm. pose proof (fires_active _ _ Hf) as Hact.
  pose proof (duties_range _ _ _ Hlr) as [Rl Rr]. destruct Hlr as (Vl&_&Vr&_).
  cbn [when]. loop_step. loop_step. loop_step. rewrite Ef.
  repeat loop_step.
  all: unfold cruising, baseline_now, flags_kept; flag_simpl;
    split_and!; try done; [by eapply motors_at_enabled|by eexists|kept].
Qed.

(** the velocity control.  Its first activation only takes the baseline; each
    later one enables both motors at the duty cycles of the two target
    velocities (the loop is open: the measured speed is not used), moves the
    baseline on and keeps targets and flags. *)
Theorem velocity_control s :
  sys_ok s -> fires mf_motor_vel_control s true ->
  (first_time (loc s) = true -> wp task_vel_control (fun _ s' => baseline_only s s') s) /\
  (forall ml mr l r, first_time (loc s) = false -> measured s ml mr -> duties s l r ->
     wp task_vel_control (fun _ s' => cruising s l r s') s).
Proof.
  intros Hs Hf. split.
  - by apply task_vel_first.
  - intros. by eapply task_vel_next.
Qed.

Lemma velocity_control_witness :
  wp task_vel_control (fun _ s' => cruising (driven mf_motor_vel_control) 49 48 s')
    (driven mf_motor_vel_control).
Proof.
  destruct (driven_ok mf_motor_vel_control) as [H1 H2]; [done|].
  destruct (driven_measured mf_motor_vel_control) as [H3 H4].
  destruct (velocity_control (driven mf_motor_vel_control) H1 H2) as [_ H].
  by apply (H 100 100 49 48).
Defined.

(** ** Reports *)

(** One report: a frame with the one-shot or the periodic code; a one-shot flag
    goes out, a periodic one starts its period now; nothing else changes. *)
Definition reported (f : mf) (format : string) (once many : Z) (one_shot : bool) (data : list Z)
    (s s' : fw) : Prop :=
  tx_adds (frame format (if one_shot then once else many) data) (ser s) (ser s') /\
  flags s' f = {| active := negb one_shot; duration := duration (flags s f);
    last_trigger_time := if one_shot then last_trigger_time (flags s f) else Timing.GetTime (tm s) (rg s) |} /\
  flags_kept [f] s s' /\ (forall x, rg s' x = rg s x) /\ tm s' = tm s /\ enc s' = enc s /\
  bat s' = bat s /\ prox s' = prox s /\ ctr_LeftMotor s' = ctr_LeftMotor s /\
  ctr_RightMotor s' = ctr_RightMotor s /\ oa s' = oa s /\ loc s' = loc s /\ env s' = env s.

(** [duration <= 0], or [duration < 0] for the time. *)
Definition one_shot (f : mf) (s : fw) : bool := (duration (flags s f) <= f32_zero)%f32.
Definition one_shot_time (s : fw) : bool := (duration (flags s mf_send_time) < f32_zero)%f32.

Lemma GetTime_same t r r' : (forall x, r' x = r x) -> Timing.GetTime t r' = Timing.GetTime t r.
Proof. intros E. unfold Timing.GetTime. by rewrite E. Qed.

Ltac finish_report Hact :=
  unfold reported, one_shot, one_shot_time, flags_kept;
  match goal with H : (_ (duration _) f32_zero) = _ |- _ => rewrite ?H end;
  flag_simpl; rewrite ?Hact; cbn [negb];
  split_and!; try done; try kept; try (intros ?; congruence);
  try (f_equal; apply GetTime_same; intros ?; congruence).

Ltac run_report Hs Hact :=
  pose proof (sys_mregs _ Hs); pose proof (sys_ser _ Hs);
  cbn [when]; loop_go; finish_report Hact.

Section reports.
Context (s : fw) (Hs : sys_ok s).

Lemma task_send_time_reports :
  fires mf_send_time s true ->
  wp task_send_time (fun _ s' => reported mf_send_time "ccf" (ch "t") (ch "T") (one_shot_time s)
    (u8 0 :: bytes_of_f32 (seconds_of (Timing.GetTime (tm s) (rg s)))) s s') s.
Proof.
  intros Hf. pose proof (fires_active _ _ Hf) as Hact.
  unfold task_send_time. apply (wp_on_flag_fires _ _ true); [done|]. run_report Hs Hact.
Qed.

Lemma task_send_battery_reports :
  fires mf_send_battery s true ->
  wp task_send_battery (fun _ s' => reported mf_send_battery "cf" (ch "b") (ch "B")
    (one_shot mf_send_battery s) (bytes_of_f32 (Battery.Battery_Voltage (bat s))) s s') s.
Proof.
  intros Hf. pose proof (fires_active _ _ Hf) as Hact.
  unfold task_send_battery. apply (wp_on_flag_fires _ _ true); [done|]. run_report Hs Hact.
Qed.

Lemma task_send_encoder_reports :
  fires mf_send_encoder s true ->
  wp task_send_encoder (fun _ s' => reported mf_send_encoder "cff" (ch "e") (ch "E")
    (one_shot mf_send_encoder s)
    (bytes_of_f32 (f32_of_Z (counts (left (enc s)))) ++ bytes_of_f32 (f32_of_Z (counts (right (enc s))))) s s') s.
Proof.
  intros Hf. pose proof (fires_active _ _ Hf) as Hact.
  unfold task_send_encoder. apply (wp_on_flag_fires _ _ true); [done|]. run_report Hs Hact.
Qed.
End reports.

(** reports.  When their flag fires, the time, battery and encoder blocks send
    exactly one frame - the current time in seconds, the monitored voltage, the
    two counts as floats - with the lower-case code if the flag asks for one
    report and the upper-case code if it is periodic; a one-shot flag is
    cleared, a periodic one restarts its period; nothing else of the state
    changes. *)
Theorem report_blocks s :
  sys_ok s ->
  (fires mf_send_time s true ->
   wp task_send_time (fun _ s' => reported mf_send_time "ccf" (ch "t") (ch "T") (one_shot_time s)
     (u8 0 :: bytes_of_f32 (seconds_of (Timing.GetTime (tm s) (rg s)))) s s') s) /\
  (fires mf_send_battery s true ->
   wp task_send_battery (fun _ s' => reported mf_send_battery "cf" (ch "b") (ch "B")
     (one_shot mf_send_battery s) (bytes_of_f32 (Battery.Battery_Voltage (bat s))) s s') s) /\
  (fires mf_send_encoder s true ->
   wp task_send_encoder (fun _ s' => reported mf_send_encoder "cff" (ch "e") (ch "E")
     (one_shot mf_send_encoder s)
     (bytes_of_f32 (f32_of_Z (counts (left (enc s)))) ++ bytes_of_f32 (f32_of_Z (counts (right (enc s)))))
     s s') s).
Proof.
  intros Hs. split_and!.
  - by apply task_send_time_reports.
  - by apply task_send_battery_reports.
  - by apply task_send_encoder_reports.
Qed.

Lemma report_blocks_witness :
  wp task_send_battery (fun _ s' => active (flags s' mf_send_battery) = false) (fw_due mf_send_battery).
Proof.
  destruct (report_blocks (fw_due mf_send_battery)) as (_&H&_); [by apply fw_due_ok|].
  eapply wp_mono; [apply H, fw_due_fires|]. intros _ s' (_&E&_). cbv beta. by rewrite E.
Defined.

(** ** Battery supervision *)

(** the battery block.  When it fires it takes one conversion, remembers the
    filtered voltage, and switches the low-battery warnings on, with a period of
    one second, exactly when that voltage is between 3.0 and 4.75 V; motors and
    drive flags are not touched, whatever the voltage. *)
Theorem battery_supervision s :
  sys_ok s -> fires mf_battery_task s true ->
  wp task_battery (fun _ s' =>
    let v := Battery.Battery_Voltage (bat s') in
    let low := ((v < f32_lit 475 100) && (v > f32_of_Z 3))%f32 in
    bat_val (loc s') = v /\ active (flags s' mf_low_battery) = low /\
    (low = true -> duration (flags s' mf_low_battery) = f32_of_Z 1000) /\
    (forall n, conversions (env s') n = conversions (env s) (S n)) /\
    rg s' = adc_regs (conversions (env s) 0) (rg s) /\
    flags_kept [mf_battery_task; mf_low_battery] s s' /\ ser s' = ser s) s.
Proof.
  intros Hs Hf. unfold task_battery. apply (wp_on_flag_fires _ _ true); [done|].
  cbn [when]. apply wp_bind. pose proof Hs as ((K1&K2&K3&K4&K5&K6&K7)&_).
  apply wp_Battery_Voltage_Task; [done..|]. intros y b r e Hb Hy -> He Hc.
  loop_go; flag_simpl; rewrite Hy;
    match goal with H : _ && _ = _ |- _ => rewrite H end; split_and!; try done; kept.
Qed.

Lemma battery_supervision_witness :
  wp task_battery (fun _ s' => bat_val (loc s') = Battery.Battery_Voltage (bat s'))
    (fw_due mf_battery_task).
Proof.
  eapply wp_mono; [apply (battery_supervision (fw_due mf_battery_task));
    [by apply fw_due_ok|apply fw_due_fires]|].
  by intros _ s' (E&_).
Defined.
