(* ===== verification/Passes.v ===== *)
(** * Passes: the main loop with a host

    A host that collects one packet per pass of the main loop, as computation and as a run
    of the machine at once.  A quiet robot is one on which no flag is due: of its loop
    only the link and the command interpreter act, and bytes travel at one per
    pass in each direction. *)
From stdpp Require Import relations.
From S2P Require Import Prelude.
From S2P Require Import Float32.
From S2P Require Import Avr.
From S2P Require Import Timing.
From S2P Require Import UsbEndpoint.
From S2P Require Import UsbStream.
From S2P Require Import SerialIO.
From S2P Require Import UsbDevice.
From S2P Require Import SerialLink.
From S2P Require Import Firmware.
From S2P Require Import MessageHandling.
From S2P Require Import MessageSpec.
From S2P Require Import Protocol.
From S2P Require Import ObstacleAvoidance.
From S2P Require Import MainLoop.
From S2P Require Import MainSpec.
From S2P Require Import System.
From S2P Require Import Blocks.
Import Call.

(** ** The host and the loop *)

(** The host acts between two passes of the loop. *)
Definition host_does (m : host_move) : M fw unit := call_ser (on_hw (host_act m)).

(** The host collects a packet, and the loop runs once. *)
Definition pass : M fw unit := host_does (CollectIN 1);; loop_body.

Fixpoint passes (n : nat) : M fw unit :=
  match n with
  | O => mret tt
  | S n => pass;; passes n
  end.

(** ** A quiet robot *)

(** No flag is due, no motor control is running, and neither the counts nor the
    battery are being reported. *)
Definition quiet (s : fw) : Prop :=
  (forall f, fires f s false) /\
  active (flags s mf_motor_dist_control) = false /\ active (flags s mf_motor_vel_control) = false /\
  active (flags s mf_send_encoder) = false /\ active (flags s mf_send_battery) = false.

(** A running system with a working link. *)
Definition linked (s : fw) : Prop :=
  sys_ok s /\ link_ok (ser s) /\ clear_buffer (ser s) = false /\ quiet s.

(** The same robot: everything is equal but the serial state, and the period and
    time of flags that are not active. *)
Definition alike (s s' : fw) : Prop :=
  (forall x, rg s' x = rg s x) /\ tm s' = tm s /\ enc s' = enc s /\ bat s' = bat s /\ prox s' = prox s /\
  ctr_LeftMotor s' = ctr_LeftMotor s /\ ctr_RightMotor s' = ctr_RightMotor s /\ oa s' = oa s /\
  loc s' = loc s /\ env s' = env s /\
  forall f, active (flags s' f) = active (flags s f) /\ (active (flags s f) = true -> flags s' f = flags s f).

#[export] Instance alike_preorder : PreOrder alike.
Proof.
  split.
  { intros s. by split_and!. }
  intros s1 s2 s3 (A1&A2&A3&A4&A5&A6&A7&A8&A9&A10&A11) (B1&B2&B3&B4&B5&B6&B7&B8&B9&B10&B11).
  split_and!; try congruence. intros f. destruct (A11 f) as [F1 F2], (B11 f) as [G1 G2].
  split; [congruence|]. intros H. rewrite <- F2 by done. apply G2. congruence.
Qed.

Lemma alike_set_ser x s : alike s (set_ser x s).
Proof. by split_and!. Qed.

Lemma fires_inactive f s : active (flags s f) = false -> fires f s false.
Proof. intros E. unfold fires, MSG_FLAG_Execute, get_flag, mbind, M_bind, gets. cbn beta iota. by rewrite E. Qed.

Lemma fires_same f b s s' :
  flags s' f = flags s f -> tm s' = tm s -> (forall x, rg s' x = rg s x) -> fires f s b -> fires f s' b.
Proof.
  intros Ef Et Er. unfold fires, MSG_FLAG_Execute, get_flag, SecondsSince, mbind, M_bind, gets. cbn beta iota.
  rewrite Ef. destruct (active (flags s f)); [|by intros [= <-]]. rewrite Et.
  unfold Timing.SecondsSince. rewrite (GetTime_same (tm s) (rg s) (rg s') Er).
  destruct (f32_le _ _); by intros [= <-].
Qed.

Lemma quiet_alike s s' : alike s s' -> quiet s -> quiet s'.
Proof.
  intros (Hr&Ht&_&_&_&_&_&_&_&_&Hf) (H1&H2). split; [|by rewrite !(proj1 (Hf _))].
  intros f. destruct (Hf f) as [Ha Hs]. destruct (active (flags s f)) eqn:E; [|by apply fires_inactive].
  apply (fires_same f false s); [by apply Hs|done|done|apply H1].
Qed.

Lemma sys_ok_alike s s' : alike s s' -> ser_ok (ser s') -> sys_ok s -> sys_ok s'.
Proof.
  intros (Hr&Ht&He&Hb&Hp&Hl&Hr'&Ho&Hloc&Henv&Hf) Hs ((K1&K2&K3&K4&_&K6&K7)&Hone&Hav). split; [|split].
  - apply fw_ok_parts; [by apply (mregs_same (rg s))|by rewrite Ht|by rewrite Hb|by rewrite Hp|done|by rewrite Hloc|by rewrite Henv].
  - unfold one_driver in *. by rewrite !(proj1 (Hf _)).
  - unfold avoid_ok, on_course in *. rewrite !(proj1 (Hf _)), Ho, Hl, Hr'. exact Hav.
Qed.

Lemma linked_alike s s' :
  alike s s' -> linked s -> link_ok (ser s') -> clear_buffer (ser s') = false -> linked s'.
Proof.
  intros Ha (H1&_&_&H4) Hl Hc. split; [apply (sys_ok_alike s); [done|apply Hl|done]|].
  split; [done|]. split; [done|]. by apply (quiet_alike s).
Qed.

(** ** One pass *)

(** A computation of the model that is also a run of the machine, from the top of
    the loop to the top of the loop. *)
Definition turn (m : M fw unit) (s s' : fw) : Prop :=
  m s = Some (tt, s') /\ rtc step (0%nat, s) (0%nat, s').

Lemma turn_bind m k s s1 s2 : turn m s s1 -> turn k s1 s2 -> turn (m;; k) s s2.
Proof. intros [E1 R1] [E2 R2]. split; [|by etransitivity]. unfold mbind, M_bind. by rewrite E1. Qed.

Lemma turn_ret s : turn (mret tt) s s.
Proof. by split. Qed.

Lemma host_turn m s :
  RXSTPI (hw (on_hw (host_act m) (ser s))) = false ->
  turn (host_does m) s (set_ser (on_hw (host_act m) (ser s)) s).
Proof. intros Hr. split; [done|]. apply rtc_once, step_event, ev_usb; [|exact Hr]. apply rtc_once, usb_host. Qed.

(** ** The rest of a pass *)

(** The loop from block [j] on, to the top of the loop. *)
Definition from_block (j : nat) : M fw unit := fold_right (fun t rest => t;; rest) (mret tt) (drop j main_tasks).

Definition goes (j : nat) (s s' : fw) : Prop :=
  from_block j s = Some (tt, s') /\ rtc step ((j mod 17)%nat, s) (0%nat, s').

Lemma goes_end s : goes 17 s s.
Proof. by split. Qed.

Lemma goes_cons j t s s1 s' :
  main_tasks !! j = Some t -> within_range j s -> t s = Some (tt, s1) -> goes (S j) s1 s' -> goes j s s'.
Proof.
  intros Ht Hw E [E' R]. assert (Hj : (j < 17)%nat) by (by apply lookup_lt_Some in Ht). split.
  - assert (Ed : drop j main_tasks = t :: drop (S j) main_tasks) by (by apply drop_S).
    unfold from_block in *. rewrite Ed. cbn [fold_right]. unfold mbind at 1, M_bind at 1. by rewrite E.
  - rewrite Nat.mod_small by done. eapply rtc_l; [by apply (step_task j t)|exact R].
Qed.

(** Blocks of flags that do not fire do nothing; [g] is a flag that may. *)
Definition silent (g : mf) (s : fw) : Prop :=
  (forall f, f <> g -> fires f s false) /\
  active (flags s mf_motor_dist_control) = false /\ active (flags s mf_motor_vel_control) = false.

(** The block of each report flag of the dialogue. *)
Definition block_of (g : mf) : nat := match g with mf_send_encoder => 7 | mf_send_battery => 8 | _ => 17 end.

Lemma silent_task g k t s :
  silent g s -> g ∈ [mf_send_encoder; mf_send_battery] -> (2 <= k)%nat -> k <> block_of g ->
  main_tasks !! k = Some t -> t s = Some (tt, s) /\ within_range k s.
Proof.
  intros (Hf&Hd&Hv) Hg Hk Hne Ht.
  assert (H : forall f body, f <> g -> on_flag f body s = Some (tt, s)).
  { intros f body Hfg. unfold on_flag, mbind, M_bind. by rewrite (Hf f Hfg). }
  rewrite !elem_of_cons, elem_of_nil in Hg. destruct k as [|[|k]]; [lia..|].
  destruct Hg as [->|[->|[]]]; cbn in Hne; do 15 (destruct k as [|k];
    [injection Ht as <-; split; [first [by apply H|lia]|cbn [within_range]; try done; congruence]|]); done.
Qed.

Lemma goes_skip g n j s s' :
  silent g s -> g ∈ [mf_send_encoder; mf_send_battery] -> (2 <= j)%nat -> (j + n <= 17)%nat ->
  (block_of g < j \/ j + n <= block_of g)%nat -> goes (j + n) s s' -> goes j s s'.
Proof.
  intros Hs Hg. revert j. induction n as [|n IH]; intros j Hj Hn Hb H; [by rewrite Nat.add_0_r in H|].
  destruct (lookup_lt_is_Some_2 main_tasks j) as [t Ht]; [cbn; lia|].
  destruct (silent_task g j t s Hs Hg Hj) as [E Hw]; [lia|done|].
  eapply goes_cons; [done|done|exact E|]. apply IH; [lia|lia|lia|]. by rewrite Nat.add_succ_comm.
Qed.

Lemma quiet_silent g s : quiet s -> silent g s.
Proof. by intros (H1&H2&H3&_). Qed.

(** A quiet robot does nothing in the blocks after the interpreter. *)
Lemma quiet_goes s : quiet s -> goes 2 s s.
Proof.
  intros Hq. apply (goes_skip mf_send_encoder 5 2); [by apply quiet_silent|by left|lia|lia|cbn; lia|].
  destruct (lookup_lt_is_Some_2 main_tasks 7) as [t Ht]; [cbn; lia|].
  destruct (silent_task mf_send_battery 7 t s) as [E Hw]; [by apply quiet_silent|by right; left|lia|cbn; lia|done|].
  eapply goes_cons; [done|done|exact E|].
  apply (goes_skip mf_send_encoder 9 8); [by apply quiet_silent|by left|lia|lia|cbn; lia|apply goes_end].
Qed.

(** One report between blocks that do nothing. *)
Lemma report_goes g t s s1 :
  silent g s -> g ∈ [mf_send_encoder; mf_send_battery] -> main_tasks !! block_of g = Some t ->
  t s = Some (tt, s1) -> quiet s1 -> goes 2 s s1.
Proof.
  intros Hs Hg Ht E Hq. assert (Hb : (7 <= block_of g <= 8)%nat).
  { rewrite !elem_of_cons, elem_of_nil in Hg. destruct Hg as [->|[->|[]]]; cbn; lia. }
  apply (goes_skip g (block_of g - 2) 2); [done|done|lia|lia|lia|].
  replace (2 + (block_of g - 2))%nat with (block_of g) by lia.
  eapply goes_cons; [done| |exact E|].
  - assert (block_of g = 7 \/ block_of g = 8)%nat as [->| ->] by lia; exact I.
  - apply (goes_skip g (17 - S (block_of g)) (S (block_of g))); [by apply quiet_silent|done|lia|lia|lia|].
    replace (S (block_of g) + (17 - S (block_of g)))%nat with 17%nat by lia. apply goes_end.
Qed.

Lemma upkeep_on_fw s x y :
  SerialLink.USB_Upkeep_Task (signature (env s)) (host_moves (env s), y) = Some (tt, (host_moves (env s), x)) ->
  USB_Upkeep_Task (set_ser y s) = Some (tt, set_ser x s).
Proof.
  intros E. unfold USB_Upkeep_Task, mbind, M_bind, gets, call_sio. cbn [env ser set_ser]. rewrite E.
  unfold next_moves. by destruct s as [? ? ? ? ? ? ? ? ? ? ? []].
Qed.

(** The host collects, one byte moves each way, and the loop goes on with the
    interpreter. *)
Lemma pass_turn s x s2 :
  link_ok (ser s) ->
  SerialLink.USB_Upkeep_Task (signature (env s)) (host_moves (env s), host_collect (ser s)) =
    Some (tt, (host_moves (env s), x)) ->
  goes 1 (set_ser x s) s2 -> turn pass s s2.
Proof.
  intros Hl Hu [E R]. destruct (host_collect_link (ser s) Hl) as (Hl0&_).
  eapply turn_bind; [apply host_turn, (proj2 (proj2 (proj1 Hl0)))|].
  pose proof (upkeep_on_fw s x _ Hu) as Eu. split.
  - change loop_body with (USB_Upkeep_Task;; from_block 1).
    unfold mbind, M_bind. change (on_hw (host_act (CollectIN 1)) (ser s)) with (host_collect (ser s)).
    by rewrite Eu.
  - eapply rtc_l; [by apply (step_task 0 USB_Upkeep_Task)|exact R].
Qed.

Lemma passes_run a b s s1 : passes a s = Some (tt, s1) -> passes (a + b) s = passes b s1.
Proof.
  revert s. induction a as [|a IH]; intros s E1; cbn [passes Nat.add] in *; [by injection E1 as ->|].
  unfold mbind, M_bind in *. destruct (pass s) as [[[] s']|]; [|done]. by apply IH.
Qed.

(** The host sends a message as one packet and collects during [n] passes. *)
Definition ask (p : list Z) (n : nat) : M fw unit := host_does (SendOUT 2 p);; passes n.

Lemma ask_more p a b s s1 s2 : turn (ask p a) s s1 -> turn (passes b) s1 s2 -> turn (ask p (a + b)) s s2.
Proof.
  intros [E1 R1] [E2 R2]. split; [|by etransitivity]. unfold ask, mbind, M_bind in *.
  destruct (host_does (SendOUT 2 p) s) as [[[] s']|]; [|done]. by rewrite (passes_run _ _ _ _ E1).
Qed.

(** ** Transit *)

(** The robot [s0] with the bytes [q] in the input ring, [o] in the output ring, [i] left of
    the packet being received, and [d] the whole output so far. *)
Definition transit (q o : list Z) (i : option (list Z)) (d : list Z) (s0 s : fw) : Prop :=
  linked s /\ alike s0 s /\ rx_bytes (ser s) = q /\ tx_bytes (ser s) = o /\
  incoming (ser s) = i /\ out_stream (ser s) = d.

(** The interpreter waits with [q] in the ring. *)
Definition waiting (q : list Z) : Prop :=
  q = [] \/ exists c, q !! 0%nat = Some c /\ c ∈ commands /\ Z.of_nat (length q) < MEGN540_Message_Len c.

Lemma waiting_task s : fw_ok s -> waiting (rx_bytes (ser s)) -> Message_Handling_Task s = Some (tt, s).
Proof. intros Hok Hw. by apply task_waits. Qed.

Lemma waiting_defined s : waiting (rx_bytes (ser s)) -> message_defined s.
Proof.
  intros [E|(c&Ec&_&Hl)] c' Ec' _ Hc; [by rewrite E in Ec'|].
  rewrite Ec in Ec'. injection Ec' as <-. lia.
Qed.

(** The part of a pass before the interpreter. *)
Lemma transit_upkeep q o i d s0 s :
  transit q o i d s0 s -> (length q < 63)%nat ->
  exists x, SerialLink.USB_Upkeep_Task (signature (env s)) (host_moves (env s), host_collect (ser s)) =
      Some (tt, (host_moves (env s), x)) /\
    transit (q ++ next_byte i) (tail o) (next_incoming i) d s0 (set_ser x s).
Proof.
  intros (Hk&E0&Hq&Ho&Hi&Hd) Hlen. pose proof Hk as (_&Hl&Hc&_).
  destruct (collect_upkeep_run (signature (env s)) (host_moves (env s)) (ser s) Hl Hc) as (x&E&H1&H2&H3&H4&H5&H6);
    [by rewrite Hq|].
  exists x. split; [exact E|]. split; [apply (linked_alike s); [apply alike_set_ser|done..]|]. cbn [ser set_ser].
  split; [etransitivity; [exact E0|apply alike_set_ser]|]. by rewrite H6, H4, H5, H3, Hq, Ho, Hi, Hd.
Qed.

(** A pass in which the interpreter waits. *)
Lemma pass_transit q o i d s0 s :
  transit q o i d s0 s -> (length q < 63)%nat -> waiting (q ++ next_byte i) ->
  exists s', turn pass s s' /\ transit (q ++ next_byte i) (tail o) (next_incoming i) d s0 s'.
Proof.
  intros Ht Hlen Hw. destruct (transit_upkeep _ _ _ _ _ _ Ht Hlen) as (x&E&Ht').
  exists (set_ser x s). split; [|exact Ht'].
  pose proof Ht' as (((Hok&_)&_&_&Hq)&_&Er&_). rewrite <- Er in Hw.
  apply (pass_turn s x); [apply Ht|exact E|].
  by eapply goes_cons; [reflexivity|apply waiting_defined|apply waiting_task|apply quiet_goes].
Qed.

Lemma drop_S_tail {A} n (l : list A) : drop (S n) l = drop n (tail l).
Proof. destruct l; cbn [tail]; [by rewrite !drop_nil|done]. Qed.

(** The passes in which a message arrives, up to its last byte. *)
Lemma passes_receive c l b q o d s0 s :
  transit q o (Some (l ++ [b])) d s0 s -> (q ++ l) !! 0%nat = Some c -> c ∈ commands ->
  Z.of_nat (length (q ++ l)) < MEGN540_Message_Len c -> (length (q ++ l) < 63)%nat ->
  exists s', turn (passes (length l)) s s' /\ transit (q ++ l) (drop (length l) o) (Some [b]) d s0 s'.
Proof.
  revert q o s. induction l as [|a l IH]; intros q o s Ht Hc Hk Hlen Hl.
  - rewrite app_nil_r, drop_0. exists s. by split; [apply turn_ret|].
  - assert (Hh : (q ++ [a]) !! 0%nat = Some c) by (by destruct q).
    rewrite !length_app in Hlen, Hl. cbn [length app] in *.
    destruct (pass_transit _ _ _ _ _ _ Ht) as (s1&T1&H1); [lia|..].
    { right. exists c. cbn [next_byte]. rewrite length_app. cbn [length]. split_and!; [done..|lia]. }
    cbn [next_byte next_incoming] in H1. destruct (IH _ _ s1 H1) as (s'&T2&H2).
    1-4: rewrite <- ?app_assoc; cbn [app]; rewrite ?length_app; cbn [length]; try done; lia.
    rewrite <- app_assoc in H2. exists s'. split; [by eapply turn_bind|].
    by rewrite drop_S_tail.
Qed.

(** The passes in which the output leaves. *)
Lemma passes_send n o i d s0 s :
  transit [] o i d s0 s -> default [] i = [] -> (0 < n)%nat ->
  exists s', turn (passes n) s s' /\ transit [] (drop n o) None d s0 s'.
Proof.
  intros Ht Hi Hn. destruct n as [|n]; [lia|]. clear Hn. revert o i s Ht Hi.
  induction n as [|n IH]; intros o i s Ht Hi.
  all: destruct (pass_transit _ _ _ _ _ _ Ht) as (s1&T1&H1); [cbn; lia|destruct i as [[]|]; (by left) || done|].
  all: assert (next_incoming i = None /\ next_byte i = []) as [Ei Eb] by (by destruct i as [[]|]).
  all: rewrite Ei, Eb in H1; cbn [app] in H1.
  - exists s1. split; [eapply turn_bind; [exact T1|apply turn_ret]|]. by destruct o.
  - destruct (IH _ None s1 H1 eq_refl) as (s'&T2&H2). exists s'. split; [by eapply turn_bind|].
    by rewrite drop_S_tail.
Qed.

