(* ===== verification/Dialogue.v ===== *)
(** * Dialogue: host and robot, end to end

    The layers put together: a host that sends a message as one packet and then
    collects what comes, against the whole main loop with the serial link under
    it.  A question travels through the endpoint, the upkeep task, the input ring
    and the command interpreter, and its answer through the output ring, the
    upkeep task and the endpoint; [dialogue] refines a table of answers. *)
From stdpp Require Import relations.
From S2P Require Import Prelude.
From S2P Require Import Float32.
From S2P Require Import Avr.
From S2P Require Import Timing.
From S2P Require Import UsbEndpoint.
From S2P Require Import UsbStream.
From S2P Require Import SerialIO.
From S2P Require Import UsbDevice.
From S2P Require Import SerialLink.
From S2P Require Import Firmware.
From S2P Require Import MessageHandling.
From S2P Require Import MessageSpec.
From S2P Require Import Encoder.
From S2P Require Import Battery.
From S2P Require Import Protocol.
From S2P Require Import MainLoop.
From S2P Require Import MainSpec.
From S2P Require Import System.
From S2P Require Import Blocks.
From S2P Require Import Passes.
Import Call.

(** ** A robot at rest *)

(** Nothing is on its way in either direction. *)
Definition at_rest (s : fw) : Prop :=
  linked s /\ rx_bytes (ser s) = [] /\ tx_bytes (ser s) = [] /\ incoming (ser s) = None.

(** ** Questions *)

(** [p] is a complete message that a quiet robot answers by [out] within the pass
    in which its last byte arrives, staying the same robot. *)
Record question (p : list Z) (out : fw -> list Z) : Prop := {
  question_bytes : Forall is_byte p;
  question_head : exists c, p !! 0%nat = Some c /\ c ∈ queries /\ MEGN540_Message_Len c = Z.of_nat (length p);
  question_room s : (length p < 63)%nat /\ (0 < length (out s) <= 63)%nat;
  question_alike s s' : alike s s' -> out s = out s';
  question_answer s :
    sys_ok s -> quiet s -> rx_bytes (ser s) = p ->
    exists s', goes 1 s s' /\ alike s s' /\ ser_step (length p) (out s) (ser s) (ser s');
}.

Lemma queries_commands c : c ∈ queries -> c ∈ commands.
Proof.
  intros Hc. assert (H : Forall (fun c => bool_decide (c ∈ commands) = true) queries) by (apply (bool_decide_unpack _); by vm_compute).
  rewrite Forall_forall in H. by apply in_codes, H.
Qed.

Lemma queries_defined c : c ∈ queries -> c ∉ [ch "p"; ch "P"].
Proof.
  intros Hc. assert (H : Forall (fun c => bool_decide (c ∈ [ch "p"; ch "P"]) = false) queries) by (apply (bool_decide_unpack _); by vm_compute).
  rewrite Forall_forall in H. by apply not_in_codes, H.
Qed.

Lemma query_defined c p s : rx_bytes (ser s) = p -> p !! 0%nat = Some c -> c ∈ queries -> message_defined s.
Proof.
  intros <- Ec Hc c' Ec' Hp _. rewrite Ec in Ec'. injection Ec' as <-. exfalso. by eapply queries_defined.
Qed.

(** The pass in which the interpreter answers. *)
Lemma pass_answer p out q b o d s0 s :
  question p out -> p = q ++ [b] -> transit q o (Some [b]) d s0 s -> tail o = [] ->
  exists s', turn pass s s' /\ transit [] (out s0) (Some []) (d ++ out s0) s0 s'.
Proof.
  intros Hq Ep Ht Eo. destruct (question_room _ _ Hq s0) as [Hr1 Hr2].
  destruct (transit_upkeep _ _ _ _ _ _ Ht) as (x&E&Ht'); [rewrite Ep, length_app in Hr1; cbn in Hr1; lia|].
  cbn [next_byte next_incoming] in Ht'. rewrite Eo, <- Ep in Ht'.
  destruct Ht' as (Hk&E0&Hrx&Htx&Hi&Ho). set (s1 := set_ser x s) in *.
  pose proof Hk as (Hok&Hl&Hc&Hqt).
  destruct (question_answer _ _ Hq s1 Hok Hqt Hrx) as (s2&Hg&Ha&(S1&S2&S3&S4&S5&S6&S7&S8)).
  rewrite <- (question_alike _ _ Hq s0 s1 E0) in S3.
  rewrite Hrx, drop_all in S2. rewrite Htx, lastn_all in S3 by (cbn [app]; lia).
  assert (Hl2 : link_ok (ser s2)).
  { destruct Hl as (_&Hl). unfold link_ok, tx_ep, rx_ep in *. by rewrite S4, S6. }
  assert (Hk2 : linked s2) by (apply (linked_alike s1); [done|done|done|congruence]).
  exists s2. split; [by apply (pass_turn s x); [apply Ht|..]|].
  split; [exact Hk2|]. split; [by etransitivity|]. split; [exact S2|]. split; [exact S3|].
  unfold incoming, out_stream, delivered, tx_ep, rx_ep in *. rewrite S4, S3, Htx, app_nil_r in *. cbn [app].
  by rewrite Hi, Ho.
Qed.

Lemma at_rest_transit s : at_rest s -> transit [] [] None (delivered (ser s)) s s.
Proof.
  intros (Hk&Hq&Ho&Hi). split; [done|]. split; [reflexivity|]. unfold out_stream. by rewrite Ho, app_nil_r.
Qed.

(** The packet is in the endpoint. *)
Lemma transit_packet p d s0 s :
  transit [] [] None d s0 s -> p <> [] -> Forall is_byte p ->
  exists s', turn (host_does (SendOUT 2 p)) s s' /\ transit [] [] (Some p) d s0 s'.
Proof.
  intros (Hk&E0&Hq&Ho&Hi&Hd) Hp Hb. pose proof Hk as (Hok&Hl&Hc&_).
  assert (He : UsbEndpoint.event (rx_ep (ser s)) = false) by (unfold incoming in Hi; by destruct (UsbEndpoint.event _)).
  destruct (host_packet_link p (ser s) Hl He Hp Hb) as (H1&_&H3&H4&H5&H6&H7). rewrite Hc in H4.
  exists (set_ser (host_packet p (ser s)) s). split; [apply host_turn, (proj2 (proj2 (proj1 H1)))|].
  split; [apply (linked_alike s); [apply alike_set_ser|done..]|]. cbn [ser set_ser].
  split; [etransitivity; [exact E0|apply alike_set_ser]|]. split; [by rewrite H7|].
  split; [exact Ho|]. split; [|by rewrite H3]. unfold incoming. by rewrite H5, H6.
Qed.

(** From the packet in the endpoint to the pass before its last byte. *)
Lemma packet_receive p c d s0 s :
  transit [] [] None d s0 s -> Forall is_byte p -> p !! 0%nat = Some c -> c ∈ commands ->
  MEGN540_Message_Len c = Z.of_nat (length p) -> (length p < 63)%nat ->
  exists q b s', p = q ++ [b] /\ turn (ask p (length q)) s s' /\ transit q [] (Some [b]) d s0 s'.
Proof.
  intros Ht Hb Hh Hc Hm Hl. destruct (exists_last (l := p)) as (q&b&E); [by intros ->|].
  destruct (transit_packet p d s0 s Ht) as (s1&T1&H1); [by intros ->|done|]. exists q, b.
  destruct q as [|a q].
  - exists s1. subst p. split; [done|]. split; [|exact H1]. eapply turn_bind; [exact T1|apply turn_ret].
  - rewrite E in H1. destruct (passes_receive c (a :: q) b [] [] d s0 s1 H1) as (s'&T2&H2); [by rewrite E in Hh|done|..].
    1,2: rewrite E, length_app in *; cbn [length app] in *; lia.
    rewrite drop_nil in H2. exists s'. split; [done|]. split; [by eapply turn_bind|exact H2].
Qed.

(** One question and its answer. *)
Lemma ask_turn p out n s :
  question p out -> at_rest s -> (length p + length (out s) <= n)%nat ->
  exists s', turn (ask p n) s s' /\ at_rest s' /\ alike s s' /\
    delivered (ser s') = delivered (ser s) ++ out s.
Proof.
  intros Hq Hs Hn. destruct (question_head _ _ Hq) as (c&Ec&Hc&Em). destruct (question_room _ _ Hq s) as [Hr1 Hr2].
  destruct (packet_receive p c _ s s (at_rest_transit s Hs)) as (q&b&s1&E&T1&H1);
    [apply Hq|done|by apply queries_commands|done|done|].
  destruct (pass_answer p out q b [] _ s s1 Hq E H1) as (s2&T2&H2); [done|].
  assert (El : length p = S (length q)) by (rewrite E, length_app; cbn [length]; lia).
  destruct (passes_send (n - length p) (out s) _ _ s s2 H2) as (s3&T3&H3); [done|lia|].
  rewrite drop_ge in H3 by lia. destruct H3 as (Hk&E0&Hrx&Htx&Hi&Ho). exists s3. split; [|split; [done|split; [done|]]].
  - replace n with (length q + (1 + (n - length p)))%nat by lia. eapply ask_more; [exact T1|].
    by eapply turn_bind.
  - rewrite <- Ho. unfold out_stream. by rewrite Htx, app_nil_r.
Qed.

(** *** Answers by the interpreter alone *)

Lemma replies_goes (p out : list Z) s :
  sys_ok s -> quiet s -> message_defined s ->
  wp Message_Handling_Task (fun _ s' => replies (length p) out s s') s ->
  exists s', goes 1 s s' /\ alike s s' /\ ser_step (length p) out (ser s) (ser s').
Proof.
  intros Hs Hq Hm Hw. apply wp_run in Hw as ([]&s2&E&Hstep&E2). exists s2.
  assert (Ha : alike s s2) by (rewrite E2; apply alike_set_ser).
  split; [|by split]. eapply goes_cons; [reflexivity|exact Hm|exact E|]. by apply quiet_goes, (quiet_alike s).
Qed.

(** *** Answers by a report block of the same pass *)

(** A one-shot flag fires at once. *)
Lemma one_shot_fires f s t :
  flags s f = {| active := true; duration := f32_of_Z (-1); last_trigger_time := t |} -> fires f s true.
Proof.
  intros Ef. unfold fires, MSG_FLAG_Execute, get_flag, SecondsSince, mbind, M_bind, gets. cbn beta iota.
  rewrite Ef. cbn [active duration last_trigger_time]. by rewrite minus_one_le_count by apply u32_range.
Qed.

(** The interpreter schedules a report, and its block sends it further on in the
    same pass. *)
Lemma report_answer g once many format data t s :
  g ∈ [mf_send_encoder; mf_send_battery] -> (once, many, g) ∈ reports -> main_tasks !! block_of g = Some t ->
  sys_ok s -> quiet s -> rx_bytes (ser s) = [once] -> message_defined s ->
  (forall s', sys_ok s' -> enc s' = enc s -> bat s' = bat s -> fires g s' true ->
     wp t (fun _ s2 => reported g format once many (one_shot g s') data s' s2) s') ->
  exists s', goes 1 s s' /\ alike s s' /\ ser_step 1 (frame format once data) (ser s) (ser s').
Proof.
  intros Hg Hr Ht Hs Hq Hrx Hm Hrep. pose proof Hs as (Hok&_).
  assert (Hc : rx_bytes (ser s) !! 0%nat = Some once) by by rewrite Hrx.
  assert (Hw : wp Message_Handling_Task (fun _ s' => scheduled 1 g (f32_of_Z (-1)) s s') s).
  { apply (task_dispatches once); [done..|]. by eapply once_cases. }
  apply wp_run in Hw as ([]&s1&E1&(Hstep&Hf&Hkeep&A1&A2&A3&A4&A5&A6&A7&A8&A9&A10)).
  pose proof (wp_result _ _ _ _ _ (Message_Handling_ok s Hs Hm) E1) as Hs1.
  pose proof (one_shot_fires _ _ _ Hf) as Hfire.
  pose proof (Hrep s1 Hs1 A3 A4 Hfire) as Hw. apply wp_run in Hw as ([]&s2&E2&(Htx&Hf2&Hkeep2&B1&B2&B3&B4&B5&B6&B7&B8&B9&B10)).
  assert (Hone : one_shot g s1 = true) by (unfold one_shot; rewrite Hf; reflexivity).
  rewrite Hone in Htx, Hf2. cbn [negb] in Hf2.
  assert (Hgi : active (flags s g) = false).
  { destruct Hq as (_&_&_&I1&I2). rewrite !elem_of_cons, elem_of_nil in Hg. by destruct Hg as [->|[->|[]]]. }
  assert (Ha : alike s s2).
  { split_and!; try congruence. intros f. destruct (decide (f = g)) as [->|Hne].
    - rewrite Hf2, Hgi. by split.
    - rewrite (Hkeep2 f), (Hkeep f) by (done || by rewrite list_elem_of_singleton). by split. }
  exists s2. split; [|split; [exact Ha|exact (ser_step_adds 1 [] _ _ _ _ Hstep Htx)]].
  eapply goes_cons; [reflexivity|exact Hm|exact E1|].
  eapply (report_goes g t); [|exact Hg|exact Ht|exact E2|by apply (quiet_alike s)].
  destruct Hq as (Hq&I1&I2&_). assert (mf_motor_dist_control <> g /\ mf_motor_vel_control <> g) as [N1 N2].
  { rewrite !elem_of_cons, elem_of_nil in Hg. by destruct Hg as [->|[->|[]]]. }
  split; [|by rewrite !Hkeep]. intros f Hne. apply (fires_same f false s); [by apply Hkeep|done|by rewrite A1|apply Hq].
Qed.
(** ** The protocol's table of answers *)

(** A calculation, a request for periodic reports with a period that is not
    positive, the encoder counts, or the battery voltage. *)
Inductive inquiry :=
  | Calculate (op : Z) (x y : f32)
  | Period (many : Z) (d : f32)
  | Counts
  | Voltage.

Definition message (q : inquiry) : list Z :=
  match q with
  | Calculate op x y => op :: bytes_of_f32 x ++ bytes_of_f32 y
  | Period many d => many :: bytes_of_f32 d
  | Counts => [ch "e"]
  | Voltage => [ch "b"]
  end.

Definition proper (q : inquiry) : Prop :=
  match q with
  | Calculate op x y => op ∈ [ch "*"; ch "/"; ch "+"; ch "-"] /\ f32_valid x /\ f32_valid y
  | Period many d => many ∈ [ch "E"; ch "B"; ch "Q"; ch "I"] /\ f32_valid d /\ (d > f32_zero)%f32 = false
  | Counts | Voltage => True
  end.

(** What the host is to decode: format, command and data.  The two reports show
    the robot as it is. *)
Definition answer (s : fw) (q : inquiry) : string * Z * list Z :=
  match q with
  | Calculate op x y =>
      match calculator op x y with
      | Some r => ("cf"%string, op, bytes_of_f32 r)
      | None => ("cc"%string, op, [ch "?"])
      end
  | Period many _ => ("cc"%string, many, [ch "?"])
  | Counts => ("cff"%string, ch "e", bytes_of_f32 (f32_of_Z (counts (left (enc s)))) ++
                 bytes_of_f32 (f32_of_Z (counts (right (enc s)))))
  | Voltage => ("cf"%string, ch "b", bytes_of_f32 (Battery.Battery_Voltage (bat s)))
  end.

Definition framed (a : string * Z * list Z) : list Z := let '(format, cmd, data) := a in frame format cmd data.

Lemma length_calculator_answer op r : (0 < length (calculator_answer op r) <= 9)%nat.
Proof.
  unfold calculator_answer. destruct r as [r|];
    [pose proof (length_frame "cf" op (bytes_of_f32 r)) as H; rewrite length_bytes_of_f32 in H
    |pose proof (length_frame "cc" op [ch "?"]) as H]; cbn [String.length length] in H; lia.
Qed.

Lemma calculate_question op x y :
  proper (Calculate op x y) -> question (message (Calculate op x y)) (fun s => framed (answer s (Calculate op x y))).
Proof.
  intros (Hop&Hx&Hy).
  assert (El : length (message (Calculate op x y)) = 9%nat)
    by (cbn [message length]; by rewrite length_app, !length_bytes_of_f32).
  assert (Ea : forall s, framed (answer s (Calculate op x y)) = calculator_answer op (calculator op x y))
    by (intros s; cbn [answer]; unfold calculator_answer; by destruct (calculator op x y)).
  assert (op ∈ queries /\ MEGN540_Message_Len op = 9 /\ is_byte op) as (H1&H2&H3).
  { rewrite !elem_of_cons, elem_of_nil in Hop. destruct Hop as [->|[->|[->|[->|[]]]]];
      (split; [apply in_codes; by vm_compute|]; split; [done|apply ch_byte]). }
  split.
  - cbn [message]. apply Forall_cons. split; [done|]. apply Forall_app. split; apply bytes_of_f32_ok.
  - exists op. rewrite El. by split_and!.
  - intros s. rewrite El, Ea. pose proof (length_calculator_answer op (calculator op x y)). lia.
  - intros s s' _. by rewrite !Ea.
  - intros s Hs Hq E. rewrite Ea. apply replies_goes; [done|done|by eapply query_defined|].
    rewrite El. apply (task_dispatches op); [apply Hs|by rewrite E|].
    apply (arithmetic_cases s op x y []); [apply Hs|done..|]. by rewrite E, app_nil_r.
Qed.

Lemma period_question many d :
  proper (Period many d) -> question (message (Period many d)) (fun s => framed (answer s (Period many d))).
Proof.
  intros (Hm&Hd&Hpos). assert (El : length (message (Period many d)) = 5%nat)
    by (cbn [message length]; by rewrite length_bytes_of_f32).
  assert (many ∈ queries /\ MEGN540_Message_Len many = 5 /\ is_byte many /\
    exists once f, (once, many, f) ∈ reports) as (H1&H2&H3&once&f&H4).
  { unfold reports. rewrite !elem_of_cons, elem_of_nil in Hm. destruct Hm as [->|[->|[->|[->|[]]]]];
      (split; [apply in_codes; by vm_compute|]; split; [done|]; split; [apply ch_byte|]).
    - exists (ch "e"), mf_send_encoder. by left.
    - exists (ch "b"), mf_send_battery. by right; left.
    - exists (ch "q"), mf_sys_data. by do 2 right; left.
    - exists (ch "i"), mf_ir_proximity. by do 3 right; left. }
  split.
  - cbn [message]. apply Forall_cons. split; [done|]. apply bytes_of_f32_ok.
  - exists many. rewrite El. by split_and!.
  - intros s. rewrite El. cbn. lia.
  - done.
  - intros s Hs Hq E. apply replies_goes; [done|done|by eapply query_defined|].
    rewrite El. apply (task_dispatches many); [apply Hs|by rewrite E|].
    pose proof (many_cases s once many f d [] (proj1 Hs) Hd H4) as H. rewrite Hpos in H. apply H.
    by rewrite E, app_nil_r.
Qed.

(** The two one-shot reports. *)
Lemma report_question g once many format t (data : fw -> list Z) :
  g ∈ [mf_send_encoder; mf_send_battery] -> (once, many, g) ∈ reports -> main_tasks !! block_of g = Some t ->
  once ∈ queries -> MEGN540_Message_Len once = 1 -> is_byte once ->
  (forall s, (length (data s) <= 28)%nat) -> (String.length format <= 28)%nat ->
  (forall s s', enc s' = enc s -> bat s' = bat s -> data s' = data s) ->
  (forall s, sys_ok s -> fires g s true ->
     wp t (fun _ s2 => reported g format once many (one_shot g s) (data s) s s2) s) ->
  question [once] (fun s => frame format once (data s)).
Proof.
  intros Hg Hr Ht Hq Hl Hb Hlen Hf Hdata Hrep. split.
  - by apply Forall_singleton.
  - by exists once.
  - intros s. split; [cbn; lia|]. pose proof (length_frame format once (data s)) as H. specialize (Hlen s). lia.
  - intros s s' Ha. destruct Ha as (_&_&He&Hbat&_). by rewrite (Hdata s s').
  - intros s Hs Hqt E. eapply report_answer; [exact Hg|exact Hr|exact Ht|exact Hs|exact Hqt|exact E|by eapply query_defined|].
    intros s' Hs' He Hbat Hfire. rewrite <- (Hdata s s' He Hbat). by apply Hrep.
Qed.

Lemma proper_question q : proper q -> question (message q) (fun s => framed (answer s q)).
Proof.
  destruct q; [apply calculate_question|apply period_question|intros _..]; cbn [message answer framed].
  - apply (report_question mf_send_encoder (ch "e") (ch "E") "cff" task_send_encoder
      (fun s => bytes_of_f32 (f32_of_Z (counts (left (enc s)))) ++ bytes_of_f32 (f32_of_Z (counts (right (enc s)))))).
    + by left.
    + by left.
    + done.
    + apply in_codes; by vm_compute.
    + done.
    + apply ch_byte.
    + intros s. rewrite length_app, !length_bytes_of_f32. lia.
    + cbn; lia.
    + by intros s s' -> _.
    + apply task_send_encoder_reports.
  - apply (report_question mf_send_battery (ch "b") (ch "B") "cf" task_send_battery
      (fun s => bytes_of_f32 (Battery.Battery_Voltage (bat s)))).
    + by right; left.
    + by right; left.
    + done.
    + apply in_codes; by vm_compute.
    + done.
    + apply ch_byte.
    + intros s. rewrite length_bytes_of_f32. lia.
    + cbn; lia.
    + by intros s s' _ ->.
    + apply task_send_battery_reports.
Qed.

Lemma answer_alike q s s' : alike s s' -> answer s' q = answer s q.
Proof. intros (_&_&He&Hb&_). destruct q; cbn [answer]; by rewrite ?He, ?Hb. Qed.

(** ** The dialogue *)

(** The host asks one question after the other and waits for a number of passes
    each time. *)
Fixpoint dialogue (qs : list (inquiry * nat)) : M fw unit :=
  match qs with
  | [] => mret tt
  | (q, n) :: qs => ask (message q) n;; dialogue qs
  end.

(** Enough passes: one per byte of the question, one per byte of the answer. *)
Definition patient (s : fw) (q : inquiry * nat) : Prop :=
  (length (message q.1) + length (framed (answer s q.1)) <= q.2)%nat.

(** The host's reader: [n] messages and nothing left over. *)
Fixpoint decode_frames (n : nat) (l : list Z) : option (list (list Z * Z * list Z)) :=
  match n with
  | O => if decide (l = []) then Some [] else None
  | S n =>
      '(format, cmd, data, rest) ← decode_frame l;
      more ← decode_frames n rest;
      Some ((format, cmd, data) :: more)
  end.

Definition as_decoded (a : string * Z * list Z) : list Z * Z * list Z :=
  let '(format, cmd, data) := a in (codes format, cmd, data).

(** The answers of the robot [s]. *)
Definition stream (s : fw) (qs : list inquiry) : list Z := concat ((fun q => framed (answer s q)) <$> qs).
Definition table (s : fw) (qs : list inquiry) : list (list Z * Z * list Z) := (fun q => as_decoded (answer s q)) <$> qs.

Lemma decode_answer s q l :
  proper q -> let '(format, cmd, data) := answer s q in
  decode_frame (framed (answer s q) ++ l) = Some (codes format, cmd, data, l).
Proof.
  intros Hq. assert (Hc : forall op, op ∈ queries -> u8 op = op).
  { intros op Ho. assert (H : Forall (fun c => u8 c = c) queries) by (apply (bool_decide_unpack _); by vm_compute).
    rewrite Forall_forall in H. by apply H. }
  destruct (question_head _ _ (proper_question q Hq)) as (c&Ec&Hin&_). apply Hc in Hin.
  destruct q as [op x y|many d| |]; cbn [message] in Ec; injection Ec as <-; cbn [answer framed].
  - destruct (calculator op x y) as [r|]; cbn [framed];
      rewrite decode_frame_app by (by repeat constructor || (rewrite ?length_bytes_of_f32; cbn; lia)); by rewrite Hin.
  - rewrite decode_frame_app by (by repeat constructor || (cbn; lia)). by rewrite Hin.
  - rewrite decode_frame_app by (by repeat constructor || (rewrite length_app, !length_bytes_of_f32; cbn; lia)). by rewrite Hin.
  - rewrite decode_frame_app by (by repeat constructor || (rewrite length_bytes_of_f32; cbn; lia)). by rewrite Hin.
Qed.

Lemma decode_answers s qs : Forall proper qs -> decode_frames (length qs) (stream s qs) = Some (table s qs).
Proof.
  induction 1 as [|q qs Hq _ IH]; [done|]. unfold stream, table in *. cbn [fmap list_fmap concat length decode_frames].
  pose proof (decode_answer s q (concat ((fun q => framed (answer s q)) <$> qs)) Hq) as E.
  destruct (answer s q) as [[format cmd] data]. rewrite (option_bind_run _ _ _ E). cbn beta iota.
  by rewrite (option_bind_run _ _ _ IH).
Qed.

Lemma stream_alike s s' qs : alike s s' -> stream s' qs = stream s qs.
Proof.
  intros Ha. unfold stream. f_equal. induction qs as [|q qs IH]; [done|]. cbn [fmap list_fmap]. by rewrite (answer_alike q s s' Ha), IH.
Qed.

Lemma dialogue_turn qs s :
  at_rest s -> Forall proper qs.*1 -> Forall (patient s) qs ->
  exists s', turn (dialogue qs) s s' /\ at_rest s' /\ alike s s' /\
    delivered (ser s') = delivered (ser s) ++ stream s qs.*1.
Proof.
  revert s. induction qs as [|[q n] qs IH]; intros s Hs Hp Hw; cbn [dialogue fmap list_fmap fst] in *.
  - exists s. split; [apply turn_ret|]. split; [done|]. split; [reflexivity|]. by rewrite app_nil_r.
  - apply Forall_cons in Hp as [Hp1 Hp2]. apply Forall_cons in Hw as [Hw1 Hw2].
    destruct (ask_turn _ _ n s (proper_question q Hp1) Hs Hw1) as (s1&T1&R1&E1&D1).
    destruct (IH s1 R1 Hp2) as (s2&T2&R2&E2&D2).
    { eapply Forall_impl; [exact Hw2|]. intros [q' n']. unfold patient. by rewrite (answer_alike _ s s1 E1). }
    exists s2. split; [by eapply turn_bind|]. split; [done|]. split; [by etransitivity|].
    rewrite D2, D1, (stream_alike s s1 _ E1). unfold stream. cbn [fmap list_fmap concat]. by rewrite <- app_assoc.
Qed.

(** ** From power on *)

(** The cable is plugged in and the host resets the bus. *)
Definition bus_registers (sta usbint udint : Z) (s : serial) : serial :=
  on_hw (set_reg UDINT (fun _ => udint)) (on_hw (set_reg USBINT (fun _ => usbint)) (on_hw (set_reg USBSTA (fun _ => sta)) s)).

Lemma bus_registers_steps g a b c s : rtc (usb_step g) s (bus_registers a b c s).
Proof.
  eapply rtc_l; [apply (usb_register g USBSTA a); reg_list|].
  eapply rtc_l; [apply (usb_register g USBINT b); reg_list|].
  apply rtc_once, (usb_register g UDINT c). reg_list.
Qed.

Lemma event_step g i s :
  i <> USB_INT_RXSTPI -> only_flag i (hw s) -> RXSTPI (hw s) = false ->
  exists s', usb_step g s s' /\ same_rings s s' /\ RXSTPI (hw s') = false /\
    USB_DeviceState (hw s') = event_state i (hw s) /\ event_enables i (hw s) (hw s') /\ nothing_moved (hw s) (hw s').
Proof.
  intros Hi Hf Hr. destruct (event_done_all i [] s Hi Hf) as (ms'&s'&E&H1&H2&H3&H4&H5&H6&_).
  exists s'. split; [|by split_and!; [..|apply H2| | |]]. eapply usb_general. by apply (GEN_handler i).
Qed.

Lemma plug_in g s :
  unplugged s ->
  exists s', rtc (usb_step g) s s' /\ bus_idle (hw s') /\ same_rings s s' /\
    (forall n, sent (ep (hw s') n) = sent (ep (hw s) n)).
Proof.
  intros ((_&_&Hr)&_&_&_&Ho&_&Ev&Ee).
  set (s1 := bus_registers 1 1 0 s).
  destruct (event_step g USB_INT_VBUSTI s1) as (s2&R2&K2&Hr2&_&U2&N2&O2); [done| |exact Hr|].
  { split; [exact Ev|]. intros j Hj. by destruct j. }
  set (s3 := bus_registers 1 0 (2 ^ EORSTE) s2).
  destruct (event_step g USB_INT_EORSTI s3) as (s4&R4&K4&Hr4&D4&_&N4&O4); [done| |exact Hr2|].
  { split; [|intros j Hj; by destruct j]. cbn [event_enables] in U2. unfold USB_INT_IsEnabled in *.
    change (reg UDIEN (hw s3)) with (reg UDIEN (hw s2)). rewrite U2. exact Ee. }
  exists s4. split.
  { etransitivity; [apply bus_registers_steps|]. eapply rtc_l; [exact R2|].
    etransitivity; [apply bus_registers_steps|]. apply rtc_once, R4. }
  split; [|split].
  - split; [unfold bus_lost; by rewrite D4|]. split; [|exact Hr4].
    apply not_true_is_false. intros H. apply O4, O2 in H. change (RXOUTI0 (dev (hw s)) = true) in H. congruence.
  - etransitivity; [|exact K4]. change (same_rings s s2). exact K2.
  - intros n. rewrite N4. change (sent (ep (hw s2) n) = sent (ep (hw s) n)). by rewrite N2.
Qed.

(** A control transfer, as steps of the bus. *)
Strategy expand [transfer serve].

Lemma serve_steps g req ms s s' : serve g req ms s = Some s' -> rtc (usb_step g) s s'.
Proof.
  unfold serve. intros H. apply bind_Some in H as ([[] [ms' s1]]&E&[= <-]).
  apply bind_inv in E as ([]&st1&E1&E). unfold ser_hw, ser_do, modify in E1. cbn [fst snd] in E1.
  injection E1 as <-.
  eapply rtc_l; [apply (usb_host g (SendSETUP (packet req)))|].
  apply rtc_once. exact (usb_control g ms ms' _ _ E).
Qed.

Lemma enumerate_steps g a k s s' : enumerate g a k s = Some s' -> rtc (usb_step g) s s'.
Proof.
  unfold enumerate. intros H.
  apply bind_Some in H as (s1&H1&H). apply bind_Some in H as (s2&H2&H). apply bind_Some in H as (s3&H3&H).
  apply serve_steps in H1, H2, H3, H. by do 3 (etransitivity; [eassumption|]).
Qed.

(** Plugged in and enumerated under address [a]. *)
Lemma connect g a s :
  unplugged s -> 1 <= a < 128 ->
  exists s', rtc (usb_step g) s s' /\ link_ok s' /\ clear_buffer s' = false /\ rx_bytes s' = [] /\ tx_bytes s' = [] /\
    incoming s' = None /\ delivered s' = delivered s.
Proof.
  intros Hs Ha. destruct (plug_in g s Hs) as (s1&R1&I1&K1&N1).
  destruct (enumerate_run g a 8 s1 I1 Ha) as (s2&E2&K2&I2&D2&_&_&_&_&_&Et&Ex); [lia|].
  pose proof Hs as (Hok&Hrx&Htx&Hc&_). pose proof K1 as (E1&E1'&_). pose proof K2 as (E2a&E2b&_).
  assert (Hok1 : ser_ok s1). { destruct Hok as (W1&W2&_). destruct I1 as (_&_&I1). unfold ser_ok. by rewrite E1, E1', I1. }
  destruct (reconfigured_link s1 s2 Hok1 K2 I2 D2 Et Ex) as (L&H1&H2&H3&_&H5).
  exists s2. split; [etransitivity; [exact R1|by eapply enumerate_steps]|]. split; [exact L|].
  split. { destruct K1 as (_&_&C1&_), K2 as (_&_&C2&_). congruence. }
  split. { rewrite H1. unfold rx_bytes in *. by rewrite E1. }
  split. { rewrite H2. unfold tx_bytes in *. by rewrite E1'. }
  split. { unfold incoming. by rewrite H5. }
  rewrite H3. unfold delivered, tx_ep. by rewrite N1.
Qed.

(** After the start no flag is due. *)
Lemma initialized_quiet v s : initialized v s -> quiet s.
Proof.
  intros (_&_&_&_&_&_&Ht&_&_&_&_&_&Hb&Ha). split; [|by rewrite !Ha].
  intros f. unfold fires, MSG_FLAG_Execute, get_flag, SecondsSince, mbind, M_bind, gets. cbn beta iota.
  destruct (active (flags s f)) eqn:Ef; [|reflexivity].
  rewrite Ha in Ef. apply bool_decide_eq_true_1 in Ef as ->. rewrite Hb, Ht.
  change (millisec _) with (u32 (0 - 0)). cbn [duration].
  assert (f32_le (f32_of_Z 2) (f32_of_Z (u32 (0 - 0))) = false) as E by (vm_compute; reflexivity).
  rewrite E. reflexivity.
Qed.

Lemma power_on_at_rest v a s :
  initialized v s -> 1 <= a < 128 ->
  exists s', rtc step (0%nat, s) (0%nat, s') /\ at_rest s' /\ delivered (ser s') = [] /\ alike s s'.
Proof.
  intros Hi Ha. pose proof (initialized_quiet v s Hi) as Hq. pose proof Hi as (Hs&_&_&_&Hu&Hd&_).
  destruct (connect (signature (env s)) a (ser s) Hu Ha) as (x&R&L&C&Rx&Tx&I&D).
  exists (set_ser x s). split; [apply rtc_once, step_event, ev_usb; [exact R|apply L]|].
  split; [|split; [cbn [ser set_ser]; congruence|apply alike_set_ser]]. split; [|done]. pose proof (alike_set_ser x s) as Hal.
  split; [apply (sys_ok_alike s); [done|apply L|done]|]. split; [exact L|]. split; [exact C|]. by apply (quiet_alike s).
Qed.

(** ** Properties *)

(** A robot at rest exists: power, initialization, cable, enumeration. *)
Lemma at_rest_exists : exists s, at_rest s /\ delivered (ser s) = [] /\
  Battery.Battery_Voltage (bat s) = volts sample_conversion /\ counts (left (enc s)) = 0 /\ counts (right (enc s)) = 0.
Proof.
  destruct (starts regs_zero (env fw_boot) fresh_zero boot_env_ok) as [s0 E].
  pose proof (wp_result _ _ _ _ _ (InitializeSystem_spec _ _ fresh_zero boot_env_ok) E) as Hi.
  destruct (power_on_at_rest _ 5 s0 Hi) as (s&_&H&D&Hal); [lia|]. exists s. split; [exact H|]. split; [exact D|].
  destruct Hi as (_&_&_&Hv&_&_&_&H1&H2&_), Hal as (_&_&He&Hb&_). rewrite He, Hb.
  split; [exact Hv|]. split; [exact H1|exact H2].
Qed.

(** C4: the dialogue refines the table of answers.  Take a robot at rest with a
    working link, and a host that asks any number of questions (calculations,
    requests for reports with a period that is not positive, the encoder counts,
    the battery voltage), each in one packet, and waits after each for at least
    as many passes of the main loop as question and answer have bytes,
    collecting once per pass.  Then the whole computation (endpoint, upkeep,
    rings, interpreter, report blocks and all other blocks of the loop) is
    defined and is a run of the machine; the bytes the host receives decode, one
    frame after the other with nothing left over, into exactly the answers of the
    table in the order of the questions; and the robot is at rest again and is
    the same robot, but for its serial state and the period of the two report
    flags. *)
Theorem dialogue_refines_table qs s :
  at_rest s -> Forall proper qs.*1 -> Forall (patient s) qs ->
  exists s' out, dialogue qs s = Some (tt, s') /\ rtc step (0%nat, s) (0%nat, s') /\
    at_rest s' /\ alike s s' /\ delivered (ser s') = delivered (ser s) ++ out /\
    decode_frames (length qs) out = Some (table s qs.*1).
Proof.
  intros Hs Hp Hw. destruct (dialogue_turn qs s Hs Hp Hw) as (s'&[E R]&H1&H2&H3).
  exists s', (stream s qs.*1). do 5 (split; [done|]).
  rewrite <- (decode_answers s _ Hp). by rewrite length_fmap.
Qed.

(** 3 / 2, then 1 / 0, a period of zero seconds, the counts, and the voltage. *)
Definition some_questions : list (inquiry * nat) :=
  [(Calculate (ch "/") (f32_of_Z 3) (f32_of_Z 2), 18%nat);
   (Calculate (ch "/") (f32_of_Z 1) f32_zero, 20%nat); (Period (ch "B") f32_zero, 11%nat);
   (Counts, 15%nat); (Voltage, 10%nat)].
Definition some_answers : list (list Z * Z * list Z) :=
  [(codes "cf", 47, [0; 0; 192; 63]); (codes "cc", 47, [63]); (codes "cc", 66, [63]);
   (codes "cff", 101, [0; 0; 0; 0; 0; 0; 0; 0]); (codes "cf", 98, bytes_of_f32 (volts sample_conversion))].

Lemma some_proper : Forall proper some_questions.*1.
Proof.
  repeat (apply Forall_cons; split; [first [exact I|split; [apply in_codes; by vm_compute|split; by vm_compute]]|]).
  by apply Forall_nil.
Qed.

Lemma some_patient s : Forall (patient s) some_questions.
Proof.
  repeat (apply Forall_cons; split; [first [apply Nat.leb_le; by vm_compute|unfold patient; cbn [answer framed fst snd message];
    apply Nat2Z.inj_le; rewrite Nat2Z.inj_add, length_frame, ?length_app, !length_bytes_of_f32; cbn; lia]|]).
  by apply Forall_nil.
Qed.

Lemma some_table s :
  Battery.Battery_Voltage (bat s) = volts sample_conversion -> counts (left (enc s)) = 0 -> counts (right (enc s)) = 0 ->
  table s some_questions.*1 = some_answers.
Proof.
  intros Hv Hl Hr. unfold table, some_questions, some_answers. cbn [fmap list_fmap fst answer as_decoded].
  rewrite Hv, Hl, Hr. repeat (f_equal; [by vm_compute|]). done.
Qed.

Lemma dialogue_refines_table_witness : exists s s', at_rest s /\
  dialogue some_questions s = Some (tt, s') /\ decode_frames 5 (delivered (ser s')) = Some some_answers.
Proof.
  destruct at_rest_exists as (s&Hs&Hd&Hv&Hl&Hr). exists s.
  destruct (dialogue_refines_table some_questions s Hs some_proper (some_patient s)) as (s'&out&E&_&_&_&Ho&Ha).
  exists s'. split; [exact Hs|]. split; [exact E|]. rewrite Ho, Hd. etransitivity; [exact Ha|].
  f_equal. by apply some_table.
Defined.

(** C10: from power-on to an answer.  Whatever the registers, the converter and the
    sensors do: after [InitializeSystem] there is a run of the machine in which
    the cable is plugged in, the bus reset and the device enumerated under any
    address, and the robot then answers any list of questions; what the host has
    received altogether decodes into exactly the answers of the table, with the
    counts and the voltage the initialization left. *)
Theorem power_on_answers r e a qs s0 :
  fresh_regs r -> env_ok e -> 1 <= a < 128 ->
  (InitializeSystem;; before_loop) (power_on r e) = Some (tt, s0) ->
  Forall proper qs.*1 -> Forall (patient s0) qs ->
  exists s, rtc step (0%nat, s0) (0%nat, s) /\ at_rest s /\ alike s0 s /\
    decode_frames (length qs) (delivered (ser s)) = Some (table s0 qs.*1).
Proof.
  intros Hr He Ha E Hp Hw. pose proof (wp_result _ _ _ _ _ (InitializeSystem_spec r e Hr He) E) as Hi.
  destruct (power_on_at_rest _ a s0 Hi Ha) as (s1&R1&H1&D1&A1).
  destruct (dialogue_turn qs s1 H1 Hp) as (s2&[_ R2]&H2&A2&D2).
  { eapply Forall_impl; [exact Hw|]. intros [q n]. unfold patient. by rewrite (answer_alike _ s0 s1 A1). }
  exists s2. split; [by etransitivity|]. split; [done|]. split; [by etransitivity|].
  rewrite D2, D1, (stream_alike s0 s1 _ A1), <- (decode_answers s0 _ Hp). by rewrite length_fmap.
Qed.

Lemma power_on_answers_witness : exists s0 s,
  (InitializeSystem;; before_loop) (power_on regs_zero (env fw_boot)) = Some (tt, s0) /\
  rtc step (0%nat, s0) (0%nat, s) /\ decode_frames 5 (delivered (ser s)) = Some some_answers.
Proof.
  destruct (starts regs_zero (env fw_boot) fresh_zero boot_env_ok) as [s0 E]. exists s0.
  destruct (power_on_answers regs_zero (env fw_boot) 5 some_questions s0 fresh_zero boot_env_ok) as (s&R&_&_&Ha);
    [lia|exact E|exact some_proper|exact (some_patient s0)|].
  exists s. split; [exact E|]. split; [exact R|]. etransitivity; [exact Ha|]. f_equal.
  destruct (wp_result _ _ _ _ _ (InitializeSystem_spec _ _ fresh_zero boot_env_ok) E) as (_&_&_&Hv&_&_&_&H1&H2&_).
  by apply some_table.
Defined.

Lemma Message_Len_bound c : MEGN540_Message_Len c <= 13.
Proof. unfold MEGN540_Message_Len. repeat case_match; lia. Qed.

(** The two duty cycles in a message are not -32768. *)
Definition duties_defined (p : list Z) : Prop :=
  int_at 0 (take 4 (drop 1 p)) <> -32768 /\ int_at 2 (take 4 (drop 1 p)) <> -32768.

(** C17: every command arrives whole.  The host sends a complete message of any known
    command but '~' in one packet to a robot at rest.  During the passes of the main loop
    in which all but its last byte arrive nothing happens; in the pass in which the last
    byte arrives the interpreter sees exactly the message, and handles it whole:
    it takes all of it, replies with at most one well-formed frame, and keeps the
    invariant and the exclusion of the motor controls. *)
Theorem command_arrives p c s :
  at_rest s -> Forall is_byte p -> p !! 0%nat = Some c -> c ∈ commands -> c <> ch "~" ->
  MEGN540_Message_Len c = Z.of_nat (length p) -> (c ∈ [ch "p"; ch "P"] -> duties_defined p) ->
  exists s1, turn (ask p (length p - 1)) s s1 /\ alike s s1 /\
  wp (host_does (CollectIN 1);; USB_Upkeep_Task;; Message_Handling_Task) (fun _ s' =>
    exists s2, alike s s2 /\ rx_bytes (ser s2) = p /\ tx_bytes (ser s2) = [] /\
      delivered (ser s2) = delivered (ser s) /\ handled (length p) c s2 s') s1.
Proof.
  intros Hs Hb Hh Hc Hr Hm Hd. pose proof (Message_Len_bound c) as Hmax.
  destruct (packet_receive p c _ s s (at_rest_transit s Hs) Hb Hh Hc Hm) as (q&b&s1&E&T1&H1); [lia|].
  assert (El : length q = (length p - 1)%nat) by (rewrite E, length_app; cbn [length]; lia).
  rewrite El in T1. exists s1. split; [exact T1|]. split; [apply H1|].
  destruct (transit_upkeep _ _ _ _ _ _ H1) as (x&Eu&H2); [lia|].
  cbn [next_byte next_incoming tail] in H2. rewrite <- E in H2. destruct H2 as (((Hok&_)&_)&E0&Hrx&Htx&_&Ho).
  apply wp_bind. unfold host_does, call_ser. apply wp_modify.
  apply wp_bind. unfold wp at 1.
  change (on_hw (host_act (CollectIN 1)) (ser s1)) with (host_collect (ser s1)). rewrite (upkeep_on_fw _ _ _ Eu).
  eapply wp_mono; [apply (task_handled _ c (length p) Hok Hc Hr)|].
  - by rewrite Hrx.
  - exact Hm.
  - by rewrite Hrx.
  - intros Hp. unfold pwm_args_ok. rewrite Hrx. by apply Hd.
  - intros [] s3 Hh3. exists (set_ser x s1). split; [exact E0|]. split; [exact Hrx|]. split; [exact Htx|].
    split; [|exact Hh3]. unfold out_stream in Ho. by rewrite Htx, app_nil_r in Ho.
Qed.

(** Half a metre forward. *)
Lemma command_arrives_witness : exists s s1, at_rest s /\ turn (ask [100; 0; 0; 0; 63; 0; 0; 0; 63] 8) s s1 /\
  wp (host_does (CollectIN 1);; USB_Upkeep_Task;; Message_Handling_Task) (fun _ s' => fw_ok s') s1.
Proof.
  destruct at_rest_exists as (s&Hs&_). exists s.
  destruct (command_arrives [100; 0; 0; 0; 63; 0; 0; 0; 63] 100 s Hs) as (s1&H1&_&H2);
    [by apply small_bytes|done|apply in_codes; by vm_compute|done|done|intros H; exfalso; revert H; apply not_in_codes; by vm_compute|].
  exists s1. split; [exact Hs|]. split; [exact H1|]. eapply wp_mono; [exact H2|].
  by intros [] s2 (s3&_&_&_&_&H3&_).
Defined.
