(* ===== verification/DriveMachine.v ===== *)
(** * DriveMachine: the whole machine as a driving machine

    Of the running system an observer of the wheels sees the outputs of the motor
    timer, the goals of the two controllers and which controls are active.  The
    driving machine has only these, and a dozen motions; the theorems show that
    every step of the whole machine - any block of the main loop and any step of
    the environment - is one of its motions or no motion at all, which orders of
    the host start one, and that without an order a robot at a stop stays so. *)
From stdpp Require Import relations.
From S2P Require Import Prelude.
From S2P Require Import Float32.
From S2P Require Import Controller.
From S2P Require Import Avr.
From S2P Require Import Timing.
From S2P Require Import Encoder.
From S2P Require Import LedServo.
From S2P Require Import MotorPWM.
From S2P Require Import Proximity.
From S2P Require Import Battery.
From S2P Require Import UsbEndpoint.
From S2P Require Import UsbStream.
From S2P Require Import SerialIO.
From S2P Require Import UsbDevice.
From S2P Require Import SerialLink.
From S2P Require Import Firmware.
From S2P Require Import MessageHandling.
From S2P Require Import MessageSpec.
From S2P Require Import Drive.
From S2P Require Import ObstacleAvoidance.
From S2P Require Import MainLoop.
From S2P Require Import MainSpec.
From S2P Require Import System.
From S2P Require Import Blocks.
From S2P Require Import Passes.
From S2P Require Import Dialogue.
Import Call.

(** ** The driving machine *)

(** What the motor timer puts on the pins of one motor: the compare value, and
    the direction pin. *)
Record drive_signal := { compare : Z; backward : bool }.
Definition signal_at (duty : Z) : drive_signal :=
  {| compare := compare_400 (Z.min (Z.abs duty) 100); backward := duty <? 0 |}.

Record drive := {
  outputs : option (drive_signal * drive_signal);  (* left and right; [None] while disabled *)
  goal : targets;
  distance_on : bool;
  velocity_on : bool;
  stop_on : bool;
  timed_on : bool;
  avoid_on : bool;
  baseline_due : bool;
}.

(** The robot's motions.  The first four are orders of the host. *)
Inductive motion :=
  | Direct (l r : Z) (timed : bool)
  | Go (by_distance : bool) (g : targets) (timed : bool)
  | Halt
  | Avoid
  | Forget
  | TimeUp
  | StopNow
  | Baseline
  | Arrive (ml mr : Z)
  | Advance (ml mr l r : Z)
  | Cruise (l r : Z)
  | Steer (start : bool) (vl vr : f32).

Definition no_targets : targets :=
  {| distance_left := f32_zero; distance_right := f32_zero;
     velocity_left := f32_zero; velocity_right := f32_zero |}.

Definition both (l r : Z) : option (drive_signal * drive_signal) := Some (signal_at l, signal_at r).

(** The remaining way after [ml] and [mr] counts. *)
Definition remaining (ml mr : Z) (g : targets) : targets :=
  {| distance_left := (distance_left g - ECount_to_Distance ml)%f32;
     distance_right := (distance_right g - ECount_to_Distance mr)%f32;
     velocity_left := velocity_left g; velocity_right := velocity_right g |}.

Definition at_velocities (vl vr : f32) (g : targets) : targets :=
  {| distance_left := distance_left g; distance_right := distance_right g;
     velocity_left := vl; velocity_right := vr |}.

(** What each motion does.  A new order, a stop and a restart keep whether the
    next control takes a baseline; only an arrival asks for a new one. *)
Definition move (m : motion) (d : drive) : drive :=
  match m with
  | Direct l r timed =>
      {| outputs := both l r; goal := goal d; distance_on := false; velocity_on := false; stop_on := false;
         timed_on := timed; avoid_on := avoid_on d; baseline_due := baseline_due d |}
  | Go by_distance g timed =>
      {| outputs := outputs d; goal := g; distance_on := by_distance; velocity_on := negb by_distance;
         stop_on := timed; timed_on := false; avoid_on := false; baseline_due := baseline_due d |}
  | Halt =>
      {| outputs := None; goal := no_targets; distance_on := false; velocity_on := false; stop_on := false;
         timed_on := false; avoid_on := false; baseline_due := baseline_due d |}
  | Avoid =>
      {| outputs := outputs d; goal := goal d; distance_on := false; velocity_on := false; stop_on := false;
         timed_on := false; avoid_on := true; baseline_due := baseline_due d |}
  | Forget =>
      {| outputs := outputs d; goal := goal d; distance_on := false; velocity_on := velocity_on d; stop_on := false;
         timed_on := false; avoid_on := avoid_on d; baseline_due := baseline_due d |}
  | TimeUp =>
      {| outputs := None; goal := goal d; distance_on := distance_on d; velocity_on := velocity_on d;
         stop_on := stop_on d; timed_on := false; avoid_on := avoid_on d; baseline_due := baseline_due d |}
  | StopNow =>
      {| outputs := None; goal := no_targets; distance_on := false; velocity_on := false; stop_on := false;
         timed_on := false; avoid_on := avoid_on d; baseline_due := baseline_due d |}
  | Baseline =>
      {| outputs := outputs d; goal := goal d; distance_on := distance_on d; velocity_on := velocity_on d;
         stop_on := stop_on d; timed_on := timed_on d; avoid_on := avoid_on d; baseline_due := false |}
  | Arrive _ _ =>
      {| outputs := None; goal := no_targets; distance_on := false; velocity_on := velocity_on d;
         stop_on := stop_on d; timed_on := timed_on d; avoid_on := avoid_on d; baseline_due := true |}
  | Advance ml mr l r =>
      let g := remaining ml mr (goal d) in
      {| outputs := both (toward (distance_left g) l) (toward (distance_right g) r); goal := g;
         distance_on := distance_on d; velocity_on := velocity_on d;
         stop_on := stop_on d; timed_on := timed_on d; avoid_on := avoid_on d; baseline_due := false |}
  | Cruise l r =>
      {| outputs := both l r; goal := goal d; distance_on := distance_on d; velocity_on := velocity_on d;
         stop_on := stop_on d; timed_on := timed_on d; avoid_on := avoid_on d; baseline_due := false |}
  | Steer start vl vr =>
      {| outputs := outputs d; goal := at_velocities vl vr (goal d); distance_on := distance_on d;
         velocity_on := start || velocity_on d; stop_on := stop_on d; timed_on := timed_on d; avoid_on := avoid_on d;
         baseline_due := baseline_due d |}
  end.

Definition after (l : option motion) (d : drive) : drive := from_option (fun m => move m d) d l.

(** The duty cycles of the goal's velocities. *)
Definition at_duties (g : targets) (l r : Z) : Prop :=
  Velocity_to_DutyCycle_Left (velocity_left g) = Some l /\
  Velocity_to_DutyCycle_Right (velocity_right g) = Some r.

Definition there (ml mr : Z) (g : targets) : bool :=
  arrived (distance_left g) (ECount_to_Distance ml) || arrived (distance_right g) (ECount_to_Distance mr).

(** When a motion is possible. *)
Definition possible (m : motion) (d : drive) : Prop :=
  match m with
  | TimeUp => timed_on d = true
  | StopNow => stop_on d = true
  | Baseline => (distance_on d || velocity_on d) = true /\ baseline_due d = true
  | Arrive ml mr => distance_on d = true /\ baseline_due d = false /\ there ml mr (goal d) = true
  | Advance ml mr l r => distance_on d = true /\ baseline_due d = false /\ there ml mr (goal d) = false /\
      at_duties (goal d) l r
  | Cruise l r => velocity_on d = true /\ baseline_due d = false /\ at_duties (goal d) l r
  | Steer start vl vr => avoid_on d = true /\ exists c, c <> Start /\ course_targets c vl vr
  | _ => True
  end.

(** The block of the main loop that makes the motion. *)
Definition made_by (m : motion) (pc : nat) : Prop :=
  match m with
  | Direct _ _ _ | Go _ _ _ | Halt | Avoid => pc = 1
  | Forget => pc = 2
  | TimeUp => pc = 10
  | Arrive _ _ | Advance _ _ _ _ => pc = 12
  | Cruise _ _ => pc = 13
  | Baseline => pc = 12 \/ pc = 13
  | StopNow => pc = 14
  | Steer _ _ _ => pc = 16
  end%nat.

(** ** The orders of the host *)

(** What a message asks of the wheels, [data] being the bytes after its command. *)
Definition motion_of (c : Z) (data : list Z) : option motion :=
  if c =? ch "p" then Some (Direct (int_at 0 data) (int_at 2 data) false)
  else if c =? ch "P" then
    if (float_at 4 data > f32_zero)%f32 then Some (Direct (int_at 0 data) (int_at 2 data) true) else None
  else if (c =? ch "s") || (c =? ch "S") then Some Halt
  else if (c =? ch "d") || (c =? ch "D") || (c =? ch "v") || (c =? ch "V") then
    Some (Go ((c =? ch "d") || (c =? ch "D")) (drive_targets c (float_at 0 data) (float_at 4 data)) (drive_timed c))
  else if c =? ch "O" then
    if (float_at 0 data > f32_zero)%f32 then Some Avoid else None
  else None.

(** The battery carries the command. *)
Definition carried (c : Z) (v : f32) : bool := negb (bool_decide (c ∈ powered)) || (v >= f32_lit 475 100)%f32.

(** The order the interpreter finds in the input. *)
Definition ordered (s : fw) : option motion :=
  match rx_bytes (ser s) with
  | [] => None
  | c :: data =>
      let n := MEGN540_Message_Len c in
      if (0 <? n) && (n <=? Z.of_nat (length (rx_bytes (ser s)))) && carried c (Battery.Battery_Voltage (bat s))
      then motion_of c (take (Z.to_nat n - 1) data) else None
  end.

(** ** The state as a state of the driving machine *)

Definition outputs_of (r : regs) : option (drive_signal * drive_signal) :=
  if Is_Motor_PWM_Enabled r then
    Some ({| compare := r OCR1B; backward := Z.testbit (r PORTB) 2 |},
          {| compare := r OCR1A; backward := Z.testbit (r PORTB) 1 |})
  else None.

Definition goal_of (s : fw) : targets :=
  {| distance_left := target_pos (ctr_LeftMotor s); distance_right := target_pos (ctr_RightMotor s);
     velocity_left := target_vel (ctr_LeftMotor s); velocity_right := target_vel (ctr_RightMotor s) |}.

Definition drive_of (s : fw) : drive :=
  {| outputs := outputs_of (rg s); goal := goal_of s;
     distance_on := active (flags s mf_motor_dist_control); velocity_on := active (flags s mf_motor_vel_control);
     stop_on := active (flags s mf_motor_stop); timed_on := active (flags s mf_timed_pwm);
     avoid_on := active (flags s mf_obj_avoidance); baseline_due := first_time (loc s) |}.

(** ** Reading the projection *)

Lemma outputs_kept r r' : motor_kept r r' -> outputs_of r' = outputs_of r.
Proof.
  intros (E1&E2&E3&E4&E5). unfold outputs_of. by rewrite (Is_Enabled_same _ _ E1), E2, E3, E4, E5.
Qed.

Lemma outputs_same r r' : (forall x, r' x = r x) -> outputs_of r' = outputs_of r.
Proof. intros E. by apply outputs_kept, motor_kept_same. Qed.

Lemma outputs_only l r r' :
  only_changes l r r' -> TCCR1A ∉ l -> OCR1A ∉ l -> OCR1B ∉ l -> PORTB ∉ l -> outputs_of r' = outputs_of r.
Proof. intros. eapply outputs_kept, motor_kept_only; eassumption. Qed.

Lemma outputs_at l r x : motors_at l r x -> outputs_of x = both l r.
Proof. intros (E1&E2&E3&E4&E5). unfold outputs_of. by rewrite E1, E2, E3, E4, E5. Qed.

Lemma outputs_off x : motors_off x -> outputs_of x = None.
Proof. intros (E&_). unfold outputs_of. by rewrite E. Qed.

Lemma drive_of_equal s d :
  outputs_of (rg s) = outputs d -> goal_of s = goal d ->
  active (flags s mf_motor_dist_control) = distance_on d -> active (flags s mf_motor_vel_control) = velocity_on d ->
  active (flags s mf_motor_stop) = stop_on d -> active (flags s mf_timed_pwm) = timed_on d ->
  active (flags s mf_obj_avoidance) = avoid_on d -> first_time (loc s) = baseline_due d -> drive_of s = d.
Proof. destruct d. cbn. intros. unfold drive_of. congruence. Qed.

Lemma goal_equal s g :
  target_pos (ctr_LeftMotor s) = distance_left g -> target_pos (ctr_RightMotor s) = distance_right g ->
  target_vel (ctr_LeftMotor s) = velocity_left g -> target_vel (ctr_RightMotor s) = velocity_right g ->
  goal_of s = g.
Proof. destruct g. cbn. intros. unfold goal_of. congruence. Qed.

(** ** The interpreter *)

(** The outputs after a chain of register writes. *)
Ltac outputs_go :=
  first [ reflexivity
        | eapply outputs_at, motors_at_enabled; eassumption
        | apply outputs_off; eapply motors_off_first; [|eassumption..]; apply mregs_top; mregs
        | apply outputs_off; eapply motors_off_last; [|eassumption..]; apply mregs_top; mregs
        | eapply outputs_only; [apply Set_LED_only|reg_list..]
        | etransitivity; [apply outputs_same; eassumption|eapply outputs_only; [apply Set_LED_only|reg_list..]]
        | apply outputs_same; let x := fresh in intros x; congruence ].

(** The end of a case: compare the state with the motion. *)
Ltac finish_motion :=
  apply drive_of_equal; flag_simpl; try reflexivity; try (apply goal_equal; reflexivity); try outputs_go.

Section orders.
Context (s : fw) (Hok : fw_ok s).

(** The state after a case is that of the motion its message asks for, if the
    battery carries it. *)
Definition moved (c : Z) (n : nat) (s' : fw) : Prop :=
  drive_of s' = after (if carried c (Battery.Battery_Voltage (bat s))
                       then motion_of c (take (n - 1) (drop 1 (rx_bytes (ser s)))) else None) (drive_of s).

(** Closed tests of the command code. *)
Ltac codes_go :=
  repeat match goal with |- context [?a =? ?b] =>
    let v := eval vm_compute in (a =? b) in
    lazymatch v with true => change (a =? b) with true | false => change (a =? b) with false end
  end; cbn [orb].

Ltac run_motion def n :=
  intros [Hc Hlen]; unfold def; apply (run_case _ _ n); [done|reflexivity|lia|];
  intros Hstep; wp_go; unfold moved, carried; cbn [Nat.sub Nat.add] in *;
  lazymatch goal with |- context [bool_decide ?P] =>
    let b := eval vm_compute in (bool_decide P) in change (bool_decide P) with b end;
  cbn [negb orb];
  repeat match goal with H : f32_le _ (Battery.Battery_Voltage _) = _ |- _ => rewrite H; clear H end;
  cbv iota; unfold motion_of, drive_targets, drive_timed; codes_go; cbv iota;
  repeat match goal with
  | H : goes_straight _ = _ |- _ => rewrite H; clear H
  | H : f32_lt _ _ = _ |- _ => rewrite H; clear H
  end; cbn [after from_option move]; finish_motion.

Definition complete (c : Z) (n : nat) : Prop :=
  rx_bytes (ser s) !! 0%nat = Some c /\ (n <= length (rx_bytes (ser s)))%nat.

Lemma case_s_moves : complete (ch "s") 1 -> wp (case_s (ch "s")) (fun _ s' => moved (ch "s") 1 s') s.
Proof. run_motion case_s 1%nat. Qed.
Lemma case_S_moves : complete (ch "S") 1 -> wp (case_s (ch "S")) (fun _ s' => moved (ch "S") 1 s') s.
Proof. run_motion case_s 1%nat. Qed.
Lemma case_d_moves : complete (ch "d") 9 -> wp (case_d (ch "d")) (fun _ s' => moved (ch "d") 9 s') s.
Proof. run_motion case_d 9%nat. Qed.
Lemma case_D_moves : complete (ch "D") 13 -> wp (case_D (ch "D")) (fun _ s' => moved (ch "D") 13 s') s.
Proof. run_motion case_D 13%nat. Qed.
Lemma case_v_moves : complete (ch "v") 9 -> wp (case_v (ch "v")) (fun _ s' => moved (ch "v") 9 s') s.
Proof. run_motion case_v 9%nat. Qed.
Lemma case_V_moves : complete (ch "V") 13 -> wp (case_V (ch "V")) (fun _ s' => moved (ch "V") 13 s') s.
Proof. run_motion case_V 13%nat. Qed.
Lemma case_G_moves : complete (ch "G") 2 -> wp (case_G (ch "G")) (fun _ s' => moved (ch "G") 2 s') s.
Proof. run_motion case_G 2%nat. Qed.
Lemma case_O_moves : complete (ch "O") 5 -> wp (case_O (ch "O")) (fun _ s' => moved (ch "O") 5 s') s.
Proof. run_motion case_O 5%nat. Qed.
Lemma case_p_moves : pwm_args_ok s -> complete (ch "p") 5 -> wp (case_p (ch "p")) (fun _ s' => moved (ch "p") 5 s') s.
Proof. intros [A1 A2]. apply int_at_defined in A1, A2. run_motion case_p 5%nat. Qed.
Lemma case_P_moves : pwm_args_ok s -> complete (ch "P") 9 -> wp (case_P (ch "P")) (fun _ s' => moved (ch "P") 9 s') s.
Proof.
  intros [A1 A2]. apply int_at_defined in A1, A2.
  rewrite (int_at_take 0 4 8) in A1 by lia. rewrite (int_at_take 2 4 8) in A2 by lia.
  run_motion case_P 9%nat.
Qed.
End orders.

Lemma still_drive s s' : still s s' -> loc s' = loc s -> drive_of s' = drive_of s.
Proof.
  intros (E1&_&E2&E3&_&E4&E5&E6&E7&E8) E9. unfold drive_of, goal_of. by rewrite E1, E2, E3, E4, E5, E6, E7, E8, E9.
Qed.

(** A message with nothing but a question orders no motion. *)
Lemma motion_of_query c data : c ∈ queries -> motion_of c data = None.
Proof. intros Hc. unfold queries in Hc. by_command Hc; reflexivity. Qed.

Lemma ordered_complete s c n :
  rx_bytes (ser s) !! 0%nat = Some c -> MEGN540_Message_Len c = Z.of_nat n -> (0 < n <= length (rx_bytes (ser s)))%nat ->
  ordered s = if carried c (Battery.Battery_Voltage (bat s))
              then motion_of c (take (n - 1) (drop 1 (rx_bytes (ser s)))) else None.
Proof.
  intros Hc Hn Hl. unfold ordered. destruct (rx_bytes (ser s)) as [|b l]; [done|]. injection Hc as ->.
  rewrite Hn, Nat2Z.id. rewrite (proj2 (Z.ltb_lt _ _)), (proj2 (Z.leb_le _ _)) by lia. cbn [andb].
  by rewrite skipn_cons, drop_0.
Qed.

Lemma ordered_nothing s c :
  rx_bytes (ser s) !! 0%nat = Some c ->
  MEGN540_Message_Len c <= 0 \/ Z.of_nat (length (rx_bytes (ser s))) < MEGN540_Message_Len c -> ordered s = None.
Proof.
  intros Hc Hn. unfold ordered. destruct (rx_bytes (ser s)) as [|b l]; [done|]. injection Hc as ->.
  destruct (Z.ltb_spec 0 (MEGN540_Message_Len c)), (Z.leb_spec (MEGN540_Message_Len c) (Z.of_nat (length (c :: l))));
    cbn [andb]; try done. lia.
Qed.

(** The commands that move the robot or its gripper. *)
Lemma actions_move s c n :
  fw_ok s -> c ∈ actions -> MEGN540_Message_Len c = Z.of_nat n -> complete s c n ->
  (c ∈ [ch "p"; ch "P"] -> pwm_args_ok s) ->
  wp (dispatch (s8 c)) (fun _ s' => moved s c n s') s.
Proof.
  intros Hok Hc Hn Hd Hp. assert (En : n = Z.to_nat (MEGN540_Message_Len c)) by lia. clear Hn.
  unfold actions in Hc. by_command Hc; vm_compute in En; subst n;
    [ apply case_p_moves | apply case_P_moves | apply case_s_moves | apply case_S_moves | apply case_d_moves
    | apply case_D_moves | apply case_v_moves | apply case_V_moves | apply case_G_moves | apply case_O_moves ];
    try done; apply Hp; set_solver.
Qed.

(** The interpreter makes the motion it finds ordered, and no other. *)
Lemma interpreter_moves s :
  fw_ok s -> message_defined s ->
  wp Message_Handling_Task (fun _ s' => drive_of s' = after (ordered s) (drive_of s)) s.
Proof.
  intros Hok Hm. destruct (rx_bytes (ser s)) as [|c l] eqn:E.
  { unfold Message_Handling_Task. apply wp_bind, wp_msg_length. unfold ordered. by rewrite E. }
  assert (Hc : rx_bytes (ser s) !! 0%nat = Some c) by (by rewrite E).
  apply (task_dispatches c); [done..|].
  destruct (decide (s8 c ∈ commands)) as [Hk|Hk].
  2: { eapply wp_mono; [by apply dispatch_unknown|]. intros _ s' (_&_&_&_&E'). cbv beta.
       rewrite (ordered_nothing s c Hc), E'; [done|]. left. apply Z.nlt_ge. intros Hl. apply Hk.
       apply commands_spec in Hl. by_command Hl; apply in_codes; by vm_compute. }
  apply known_byte in Hk; [|by eapply rx_byte].
  destruct (Z.ltb_spec (Z.of_nat (length (rx_bytes (ser s)))) (MEGN540_Message_Len c)) as [Hl|Hl].
  { unfold wp. rewrite dispatch_short by done. by rewrite (ordered_nothing s c Hc) by (by right). }
  assert (0 < MEGN540_Message_Len c) by (by apply commands_spec).
  set (n := Z.to_nat (MEGN540_Message_Len c)).
  assert (Hn : MEGN540_Message_Len c = Z.of_nat n) by (unfold n; lia).
  rewrite (ordered_complete s c n Hc Hn) by lia.
  destruct (commands_split c Hk) as [->|[Hq|Ha]].
  - unfold wp. rewrite case_restart_spec by done. reflexivity.
  - eapply wp_mono; [apply (dispatch_answered c n); try done; lia|].
    intros _ s' [(_&_&_&_&_&_&_&El&_) Hs]. rewrite motion_of_query by done.
    destruct (carried _ _); by apply still_drive.
  - apply actions_move; [done..|split; [done|lia]|]. intros Hp. by apply (Hm c).
Qed.

(** ** The blocks of the main loop *)

(** The message flag a block of the drive waits for. *)
Definition flag_at (pc : nat) : option mf :=
  match pc with
  | 2 => Some mf_restart
  | 10 => Some mf_timed_pwm
  | 12 => Some mf_motor_dist_control
  | 13 => Some mf_motor_vel_control
  | 14 => Some mf_motor_stop
  | 16 => Some mf_obj_avoidance
  | _ => None
  end%nat.

(** Block [pc] makes a motion: the interpreter has an order, another block's flag
    fires, the obstacle avoidance having both its reads. *)
Definition acts (pc : nat) (s : fw) : Prop :=
  if decide (pc = 1%nat) then is_Some (ordered s)
  else exists f, flag_at pc = Some f /\ fires f s true /\ (pc = 16%nat -> read_state (oa s) = RUN_DSM).

(** The figures of a motion: the distances the wheels have made, and the course
    the decision machine takes on what the infrared reads saw. *)
Definition figures (m : motion) (s : fw) : Prop :=
  match m with
  | Arrive ml mr | Advance ml mr _ _ => measured s ml mr
  | Steer start vl vr =>
      start = bool_decide (OA_state (oa s) = INIT) /\
      exists c, decision (course_of (oa s)) (sees (count_of LEFT (prox s)) (count_of RIGHT (prox s))) c /\
        course_targets c vl vr
  | _ => True
  end.

(** What the machine does in block [pc]: a possible motion of that block with the
    right figures, the one that is ordered in the interpreter, if it acts, and
    nothing otherwise. *)
Definition allowed (pc : nat) (s : fw) (l : option motion) : Prop :=
  match l with
  | None => ~ acts pc s
  | Some m => acts pc s /\ made_by m pc /\ possible m (drive_of s) /\ figures m s /\ (pc = 1%nat -> ordered s = Some m)
  end.

Definition moves (pc : nat) (s s' : fw) : Prop :=
  exists l, allowed pc s l /\ drive_of s' = after l (drive_of s).

Lemma acts_when pc f s :
  flag_at pc = Some f -> fires f s true -> (pc = 16%nat -> read_state (oa s) = RUN_DSM) -> acts pc s.
Proof. intros Hf H1 H2. unfold acts. case_decide as Hpc; [by rewrite Hpc in Hf|]. by exists f. Qed.

Lemma moves_none pc s s' : flag_at pc = None -> pc <> 1%nat -> drive_of s' = drive_of s -> moves pc s s'.
Proof.
  intros Hf Hpc E. exists None. split; [|done]. cbn [allowed]. unfold acts. rewrite decide_False by done.
  by intros (f&?&_); congruence.
Qed.

Lemma moves_by pc f m s s' :
  flag_at pc = Some f -> fires f s true -> (pc = 16%nat -> read_state (oa s) = RUN_DSM) ->
  made_by m pc -> possible m (drive_of s) -> figures m s -> drive_of s' = move m (drive_of s) -> moves pc s s'.
Proof.
  intros Hf H1 H2 H3 H4 H5 E. exists (Some m). split; [|done]. cbn [allowed].
  split; [by apply (acts_when pc f)|]. split_and!; try done. intros ->. done.
Qed.

(** A block that waits for the rest of what it needs. *)
Lemma moves_waits s s' : read_state (oa s) <> RUN_DSM -> drive_of s' = drive_of s -> moves 16 s s'.
Proof. intros Hr E. exists None. split; [|done]. intros (f&_&_&H). by apply Hr, H. Qed.

Lemma fires_either f s : exists b, fires f s b.
Proof.
  unfold fires, MSG_FLAG_Execute, get_flag, SecondsSince, mbind, M_bind, gets. cbn beta iota.
  destruct (active (flags s f)); [|by eexists]. cbn beta iota zeta. destruct (f32_le _ _); by eexists.
Qed.

(** A block whose flag does not fire makes no motion. *)
Lemma moves_on_flag pc f body s :
  flag_at pc = Some f ->
  (fires f s true -> wp (on_flag f body) (fun _ s' => moves pc s s') s) ->
  wp (on_flag f body) (fun _ s' => moves pc s s') s.
Proof.
  intros Hpc H. destruct (fires_either f s) as [[|] Hf]; [by apply H|].
  apply (wp_on_flag_fires _ _ false); [done|]. exists None. split; [|done]. cbn [allowed]. unfold acts.
  rewrite decide_False by (by intros ->). intros (g&Hg&Hfg&_). unfold fires in *. congruence.
Qed.

Lemma moves_on_fire pc f body s :
  flag_at pc = Some f -> (fires f s true -> wp body (fun _ s' => moves pc s s') s) ->
  wp (on_flag f body) (fun _ s' => moves pc s s') s.
Proof. intros Hpc H. apply moves_on_flag; [done|]. intros Hf. apply (wp_on_flag_fires _ _ true); [done|by apply H]. Qed.

Lemma drive_of_kept s s' :
  motor_kept (rg s) (rg s') -> ctr_LeftMotor s' = ctr_LeftMotor s -> ctr_RightMotor s' = ctr_RightMotor s ->
  (forall f, f ∈ [mf_motor_dist_control; mf_motor_vel_control; mf_motor_stop; mf_timed_pwm; mf_obj_avoidance] ->
     active (flags s' f) = active (flags s f)) ->
  first_time (loc s') = first_time (loc s) -> drive_of s' = drive_of s.
Proof.
  intros H1 H2 H3 H4 H5. unfold drive_of, goal_of.
  rewrite (outputs_kept _ _ H1), H2, H3, H5, !H4 by reg_list. done.
Qed.

(** The end of a block without a motion. *)
Ltac motor_kept_go :=
  first [ reflexivity | assumption
        | apply motor_kept_same; let x := fresh in intros x; congruence
        | eapply motor_kept_only; [apply adc_regs_only|reg_list..] ].
Ltac finish_unmoved :=
  apply moves_none; [reflexivity|discriminate|]; apply drive_of_kept; fw_simpl; [motor_kept_go|reflexivity|reflexivity| |reflexivity];
  let f := fresh "f" in let Hf := fresh "Hf" in intros f Hf;
  rewrite !elem_of_cons, elem_of_nil in Hf; destruct Hf as [->|[->|[->|[->|[->|[]]]]]]; reflexivity.

Ltac unmoved def :=
  unfold def; apply wp_on_flag; [let H := fresh "Hact" in intros H; loop_go; finish_unmoved|by apply moves_none].

Ltac drive_simpl :=
  cbn [move drive_of outputs goal distance_on velocity_on stop_on timed_on avoid_on baseline_due].

Section blocks.
Context (s : fw) (Hs : sys_ok s).

#[local] Hint Resolve sys_mregs sys_ser : msg.

Lemma USB_Upkeep_moves : wp USB_Upkeep_Task (fun _ s' => moves 0 s s') s.
Proof.
  unfold USB_Upkeep_Task. apply wp_bind, wp_gets. unfold wp, call_sio.
  destruct (SerialLink.USB_Upkeep_Task_ok (signature (env s)) (host_moves (env s)) (ser s)) as (x&E&_); [by apply sys_ser|].
  rewrite E. by apply moves_none.
Qed.

Lemma task_send_time_moves : wp task_send_time (fun _ s' => moves 4 s s') s.
Proof. unmoved task_send_time. Qed.
Lemma task_time_float_send_moves : wp task_time_float_send (fun _ s' => moves 5 s s') s.
Proof. unmoved task_time_float_send. Qed.
Lemma task_loop_timer_moves : wp task_loop_timer (fun _ s' => moves 6 s s') s.
Proof. unmoved task_loop_timer. Qed.
Lemma task_send_encoder_moves : wp task_send_encoder (fun _ s' => moves 7 s s') s.
Proof. unmoved task_send_encoder. Qed.
Lemma task_send_battery_moves : wp task_send_battery (fun _ s' => moves 8 s s') s.
Proof. unmoved task_send_battery. Qed.
Lemma task_low_battery_moves : wp task_low_battery (fun _ s' => moves 9 s s') s.
Proof. unmoved task_low_battery. Qed.
Lemma task_sys_data_moves : wp task_sys_data (fun _ s' => moves 11 s s') s.
Proof. unmoved task_sys_data. Qed.

Lemma task_battery_moves : wp task_battery (fun _ s' => moves 3 s s') s.
Proof.
  unfold task_battery. apply wp_on_flag; [intros Hact|by apply moves_none].
  apply wp_bind. pose proof Hs as ((K1&K2&K3&K4&K5&K6&K7)&_).
  apply wp_Battery_Voltage_Task; [done..|]. intros y b r e Hb _ -> He _. loop_go; finish_unmoved.
Qed.

Lemma task_ir_proximity_moves : wp task_ir_proximity (fun _ s' => moves 15 s s') s.
Proof.
  unfold task_ir_proximity. apply wp_on_flag; [intros Hact|by apply moves_none]. loop_step. loop_step. loop_step.
  pose proof Hs as ((K1&K2&K3&K4&K5&K6&K7)&_).
  assert (He : env_ok (next_reads (env s))) by by apply next_reads_ok.
  destruct (proxy_first (loc s)); loop_step;
    (apply wp_IRRead; [done..|]; intros p r _ _ Hp Hr [_ Hmk]; fw_simpl; loop_go;
     finish_unmoved).
Qed.

Lemma task_restart_moves : wp task_restart (fun _ s' => moves 2 s s') s.
Proof.
  unfold task_restart, Message_Handling_Init, MSG_FLAG_Init. apply moves_on_fire; [done|]. intros Hf. loop_go. by apply (moves_by 2 mf_restart Forget).
Qed.

Lemma task_timed_pwm_moves : wp task_timed_pwm (fun _ s' => moves 10 s s') s.
Proof.
  unfold task_timed_pwm. apply moves_on_fire; [done|]. intros Hf. pose proof (fires_active _ _ Hf) as Hact. loop_go.
  apply (moves_by 10 mf_timed_pwm TimeUp); [done..|]. cbn [move]. finish_motion.
Qed.

Lemma task_motor_stop_moves : wp task_motor_stop (fun _ s' => moves 14 s s') s.
Proof.
  unfold task_motor_stop. apply moves_on_fire; [done|]. intros Hf. pose proof (fires_active _ _ Hf) as Hact. loop_go.
  apply (moves_by 14 mf_motor_stop StopNow); [done..|]. cbn [move]. finish_motion.
Qed.
End blocks.

(** ** The motor controls and the obstacle avoidance *)

Lemma flags_kept_drive l s s' :
  flags_kept l s s' -> forall f, f ∉ l -> active (flags s' f) = active (flags s f).
Proof. intros H f Hf. by rewrite H. Qed.

Lemma baseline_moves pc f s s' :
  pc = 12%nat \/ pc = 13%nat -> flag_at pc = Some f -> fires f s true -> (distance_on (drive_of s) || velocity_on (drive_of s)) = true ->
  first_time (loc s) = true -> baseline_only s s' -> moves pc s s'.
Proof.
  intros Hpc Hat Hfire Ha Hf ((_&_&_&Hb)&Hr&_&Hfl&Hl&Hrt).
  apply (moves_by pc f Baseline); [done|done|lia|done..|]. apply drive_of_equal; drive_simpl; rewrite ?Hfl; try done.
  - by apply outputs_same.
  - unfold goal_of. by rewrite Hl, Hrt.
Qed.

Section controls.
Context (s : fw) (Hs : sys_ok s).

Lemma task_dist_control_moves :
  (active (flags s mf_motor_dist_control) = true -> control_defined s) ->
  wp task_dist_control (fun _ s' => moves 12 s s') s.
Proof.
  intros Hd. unfold task_dist_control. apply moves_on_flag; [done|]. intros Hf. fold task_dist_control.
  pose proof (fires_active _ _ Hf) as Ha. destruct (first_time (loc s)) eqn:Ef.
  { eapply wp_mono; [by apply task_dist_first|]. intros [] s'. apply (baseline_moves 12 mf_motor_dist_control); [by left|done..| |done].
    cbn [distance_on drive_of]. by rewrite Ha. }
  destruct (Hd Ha Ef) as [(ml&mr&Hm) (l&r&Hlr)].
  eapply wp_mono; [by apply (task_dist_next s ml mr l r)|]. intros [] s'. unfold dist_outcome.
  destruct (arrived _ _ || _) eqn:Ed.
  - intros (O&F1&F2&G1&G2&G3&G4&K). apply (moves_by 12 mf_motor_dist_control (Arrive ml mr)); [done..|].
    apply drive_of_equal; drive_simpl; try done;
      [by apply outputs_off|by apply goal_equal|by rewrite K by reg_list..].
  - intros (G1&G2&G3&G4&O&(_&_&_&B)&A&K). destruct Hlr as (V1&_&V2&_).
    apply (moves_by 12 mf_motor_dist_control (Advance ml mr l r)); [done..|].
    apply drive_of_equal; drive_simpl; try done;
      [by apply outputs_at|by apply goal_equal|congruence|by rewrite K by reg_list..].
Qed.

Lemma task_vel_control_moves :
  (active (flags s mf_motor_vel_control) = true -> control_defined s) ->
  wp task_vel_control (fun _ s' => moves 13 s s') s.
Proof.
  intros Hd. unfold task_vel_control. apply moves_on_flag; [done|]. intros Hf. fold task_vel_control.
  pose proof (fires_active _ _ Hf) as Ha. destruct (first_time (loc s)) eqn:Ef.
  { eapply wp_mono; [by apply task_vel_first|]. intros [] s'. apply (baseline_moves 13 mf_motor_vel_control); [by right|done..| |done].
    cbn [velocity_on drive_of]. by rewrite Ha, orb_true_r. }
  destruct (Hd Ha Ef) as [(ml&mr&Hm) (l&r&Hlr)].
  eapply wp_mono; [by apply (task_vel_next s ml mr l r)|].
  intros [] s' (O&(_&_&_&B)&G1&G2&A&K). destruct Hlr as (V1&_&V2&_).
  apply (moves_by 13 mf_motor_vel_control (Cruise l r)); [done..|].
  apply drive_of_equal; drive_simpl; try done;
    [by apply outputs_at|unfold goal_of; by rewrite G1, G2|by rewrite K by reg_list|congruence|by rewrite K by reg_list..].
Qed.

(** A decision leaves the start, and steers by its course. *)
Lemma decision_not_start c x c' : decision c x c' -> c' <> Start.
Proof. by intros []. Qed.

(** The retrigger after a decision. *)
Lemma drive_of_retrigger s1 t :
  drive_of (upd_flag mf_obj_avoidance (fun x =>
    {| active := active x; duration := duration x; last_trigger_time := t |}) s1) = drive_of s1.
Proof. reflexivity. Qed.

Lemma task_obj_avoidance_moves : wp task_obj_avoidance (fun _ s' => moves 16 s s') s.
Proof.
  unfold task_obj_avoidance. apply moves_on_fire; [done|]. intros Hf. pose proof (fires_active _ _ Hf) as Hact. apply wp_bind.
  pose proof (sys_oa_pre s Hs Hact) as Hpre.
  assert (Hread : forall side next s', read_state (oa s) <> RUN_DSM -> read_done side next s s' -> moves 16 s s').
  { intros side next s' Hn (_&F&_&_&_&_&E1&E2&E3). destruct F as (_&_&_&_&El&_&_&_&_&Fm).
    apply moves_waits, drive_of_kept; [done..|by rewrite E3|by rewrite El]. }
  destruct (read_state (oa s)) eqn:E.
  - apply (Run_OA_Task_read LEFT READ_R s _ Hpre); [rewrite E; by left|]. intros s' H. eapply Hread; [by rewrite ?E|done].
  - apply (Run_OA_Task_read RIGHT RUN_DSM s _ Hpre); [rewrite E; by right; left|]. intros s' H. eapply Hread; [by rewrite ?E|done].
  - apply Run_OA_Task_decide; [done..|]. intros s' (_&_&_&Hc) F _ _ Hd Hst Hns. loop_go; [|done].
    destruct F as (_&_&_&_&El&Ef&G1&G2&_&Fm).
    apply (moves_by 16 mf_obj_avoidance (Steer (bool_decide (OA_state (oa s) = INIT))
                         (target_vel (ctr_LeftMotor s')) (target_vel (ctr_RightMotor s')))); [done..| | |].
    + split; [done|]. exists (course_of (oa s')). split; [by eapply decision_not_start|done].
    + split; [done|]. by exists (course_of (oa s')).
    + apply drive_of_equal; flag_simpl; drive_simpl; rewrite ?El, ?Ef by done; try done;
        [by apply outputs_kept|by apply goal_equal|].
      cbn [velocity_on]. unfold course_of in Hst, Hns.
      destruct (OA_state (oa s)); rewrite ?bool_decide_true, ?bool_decide_false by done;
        [by rewrite Hst|by rewrite Hns..].
Qed.
End controls.

Lemma motion_of_order c data m d : motion_of c data = Some m -> made_by m 1 /\ possible m d.
Proof. unfold motion_of. intros H. repeat case_match; by simplify_eq. Qed.

(** The interpreter does what it is ordered, and nothing else. *)
Lemma ordered_allowed s : allowed 1 s (ordered s).
Proof.
  destruct (ordered s) as [m|] eqn:E; [|by intros [m H]; congruence]. cbn [allowed].
  assert (Hm : made_by m 1 /\ possible m (drive_of s) /\ figures m s).
  { unfold ordered in E. destruct (rx_bytes (ser s)) as [|c l]; [done|]. destruct (_ && _); [|done].
    destruct (motion_of_order c _ m (drive_of s) E) as [H1 H2]. by destruct m. }
  destruct Hm as (H1&H2&H3). split; [by exists m|by split_and!].
Qed.

(** Every block of the loop. *)
Lemma task_moves pc t s :
  main_tasks !! pc = Some t -> sys_ok s -> within_range pc s -> wp t (fun _ s' => moves pc s s') s.
Proof.
  intros Ht Hs Hw.
  destruct pc as [|[|[|[|[|[|[|[|[|[|[|[|[|[|[|[|[|pc]]]]]]]]]]]]]]]]];
    [injection Ht as <-..|done].
  - by apply USB_Upkeep_moves.
  - eapply wp_mono; [apply interpreter_moves; [apply Hs|done]|]. intros [] s' E. exists (ordered s).
    split; [apply ordered_allowed|exact E].
  - by apply task_restart_moves.
  - by apply task_battery_moves.
  - by apply task_send_time_moves.
  - by apply task_time_float_send_moves.
  - by apply task_loop_timer_moves.
  - by apply task_send_encoder_moves.
  - by apply task_send_battery_moves.
  - by apply task_low_battery_moves.
  - by apply task_timed_pwm_moves.
  - by apply task_sys_data_moves.
  - by apply task_dist_control_moves.
  - by apply task_vel_control_moves.
  - by apply task_motor_stop_moves.
  - by apply task_ir_proximity_moves.
  - by apply task_obj_avoidance_moves.
Qed.

(** The environment moves the wheels' counters, the clock, the pins and the link,
    but gives the motors no signal. *)
Lemma event_drive s s' : event s s' -> drive_of s' = drive_of s.
Proof.
  intros [s1|s1 n|s1 x n Hx|s1|s1|s1 x Hx _]; apply drive_of_kept; try done.
  rewrite !elem_of_cons, elem_of_nil in Hx. destruct Hx as [->|[->|[->|[]]]]; by split_and!.
Qed.

(** ** The refinement *)

(** One step of the machine and what it does to the wheels: a step of the
    environment, which leaves the machine at its block, nothing. *)
Definition drives (x y : nat * fw) (l : option motion) : Prop :=
  (if decide (y.1 = x.1) then l = None else allowed x.1 x.2 l) /\ drive_of y.2 = after l (drive_of x.2).

Lemma next_pc_moves pc t : main_tasks !! pc = Some t -> next_pc pc <> pc.
Proof.
  intros Ht%lookup_lt_Some. change (length main_tasks) with 17%nat in Ht. unfold next_pc.
  destruct (decide (pc = 16%nat)) as [->|]; [done|]. rewrite Nat.mod_small; lia.
Qed.

Lemma step_drives x y : step x y -> sys_ok x.2 -> exists l, drives x y l.
Proof.
  intros [pc s s' He|pc t s s' Ht Hw E]; cbn [snd]; intros Hs.
  - exists None. split; [by rewrite decide_True|]. by apply event_drive.
  - destruct (wp_result _ _ _ _ _ (task_moves pc t s Ht Hs Hw) E) as (l&H1&H2). exists l. split; [|done].
    rewrite decide_False; [done|]. by apply (next_pc_moves pc t).
Qed.

(** The robot does not move, is not about to, and has no goal. *)
Definition idle (d : drive) : Prop :=
  outputs d = None /\ goal d = no_targets /\ distance_on d = false /\ velocity_on d = false /\ stop_on d = false /\
  timed_on d = false /\ avoid_on d = false.

(** The orders that set a robot going. *)
Definition sets_going (m : motion) : bool :=
  match m with Direct _ _ _ | Go _ _ _ | Avoid => true | _ => false end.

Lemma idle_move m d : idle d -> possible m d -> sets_going m = false -> idle (move m d).
Proof.
  intros (E1&E0&E2&E3&E4&E5&E6). destruct m; cbn [possible sets_going move]; intros Hp Hg; try done;
    rewrite ?E2, ?E3, ?E4, ?E5, ?E6 in Hp; by destruct Hp.
Qed.

(** A step in which no motion is ordered. *)
Definition unordered (s : fw) : Prop := forall m, ordered s = Some m -> sets_going m = false.
Definition calm_step (x y : nat * fw) : Prop := step x y /\ (x.1 = 1%nat -> unordered x.2).

Lemma calm_idle x y : calm_step x y -> sys_ok x.2 -> idle (drive_of x.2) -> idle (drive_of y.2).
Proof.
  intros [Hst Hc] Hs Hi. destruct (step_drives x y Hst Hs) as ([m|]&Ha&->); [|done].
  destruct (decide _); [done|]. destruct Ha as (_&Hm&Hp&_&Ho). apply idle_move; [done..|].
  destruct (decide (x.1 = 1%nat)) as [E|E]; [by apply Hc, Ho|]. by destruct m; cbn in Hm.
Qed.

Lemma calm_run x y : rtc calm_step x y -> sys_ok x.2 -> idle (drive_of x.2) -> idle (drive_of y.2).
Proof.
  induction 1 as [|x y z Hxy _ IH]; [done|]. intros Hs Hi.
  apply IH; [by apply (step_ok x y); [apply Hxy|]|by apply (calm_idle x y)].
Qed.

(** Below 4.75 V nothing is ordered that sets the robot going. *)
Lemma weak_unordered s :
  (Battery.Battery_Voltage (bat s) >= f32_lit 475 100)%f32 = false -> unordered s.
Proof.
  intros Hw m. unfold ordered. destruct (rx_bytes (ser s)) as [|c l]; [done|].
  destruct (_ && _) eqn:E; [|done]. apply andb_true_iff in E as [_ E].
  unfold carried in E. rewrite Hw, orb_false_r in E. apply negb_true_iff, bool_decide_eq_false_1 in E.
  unfold motion_of. intros H. repeat case_match; simplify_eq; try done; exfalso; apply E;
    repeat match goal with
    | H : _ || _ = true |- _ => apply orb_true_iff in H as [H|H]
    end; match goal with H : (c =? _) = true |- _ => apply Z.eqb_eq in H as -> end; apply in_codes; by vm_compute.
Qed.

(** The machine before the loop is idle. *)
Lemma initialized_idle v s : initialized v s -> idle (drive_of s).
Proof.
  intros (_&_&He&_&_&_&_&_&_&(_&_&L1&L2&_)&(_&_&R1&R2&_)&_&_&Ha).
  unfold idle, drive_of. drive_simpl. rewrite !Ha. unfold outputs_of. rewrite He.
  split; [done|]. split; [by apply goal_equal|by split_and!].
Qed.

(** ** A new drive in place of another *)

(** 'd' and 'D' as orders. *)
Definition drive_message (c : Z) (x y dur : f32) (s : fw) : Prop :=
  c ∈ [ch "d"; ch "D"] /\ f32_valid x /\ f32_valid y /\ f32_valid dur /\
  (exists rest, rx_bytes (ser s) = c :: bytes_of_f32 x ++ bytes_of_f32 y ++
    (if drive_timed c then bytes_of_f32 dur else []) ++ rest) /\
  (Battery.Battery_Voltage (bat s) >= f32_lit 475 100)%f32 = true.

Lemma drive_message_run c x y dur s :
  fw_ok s -> drive_message c x y dur s ->
  wp Message_Handling_Task (fun _ s' =>
    driving mf_motor_dist_control (drive_targets c x y) s s' /\ loc s' = loc s) s.
Proof.
  intros Hok (Hc&Vx&Vy&Vd&(rest&E)&Hb).
  assert (Hl : rx_bytes (ser s) !! 0%nat = Some c) by (by rewrite E).
  assert (Hlen := f_equal length E). cbn [length] in Hlen. rewrite !length_app, !length_bytes_of_f32 in Hlen.
  rewrite !elem_of_cons, elem_of_nil in Hc. apply (task_dispatches c); [done..|].
  destruct Hc as [->|[->|[]]].
  - change (length (if drive_timed (ch "d") then _ else [])) with 0%nat in Hlen.
    apply wp_and; [eapply wp_mono; [by eapply (case_d_drives s x y _ Hok Vx Vy Hb (ch "d"))|]; by intros [] s' []|].
    eapply wp_mono; [apply (case_d_handled (ch "d")); [done..|lia]|]. intros [] s' H. apply H.
  - change (drive_timed (ch "D")) with true in *. cbv iota in *. rewrite length_bytes_of_f32 in Hlen.
    apply wp_and; [eapply wp_mono; [by eapply (case_D_drives s x y _ Hok Vx Vy Hb dur Vd (ch "D"))|]; by intros [] s' []|].
    eapply wp_mono; [apply (case_D_handled (ch "D")); [done..|lia]|]. intros [] s' H. apply H.
Qed.

(** The counts since the baseline, when the counters start at zero again. *)
Definition since_old_baseline (s : fw) (ml mr : Z) : Prop :=
  exists tl tr, ticksL_old (loc s) = Some tl /\ ticksR_old (loc s) = Some tr /\
    f32_to_s16 (f32_of_Z 0 - tl)%f32 = Some ml /\ f32_to_s16 (f32_of_Z 0 - tr)%f32 = Some mr.

Definition duties_of (g : targets) (l r : Z) : Prop := at_duties g l r /\ l <> -32768 /\ r <> -32768.

(** A message the host sends to a robot at rest comes to stand in front of the
    interpreter. *)
Lemma message_arrives p c s :
  at_rest s -> Forall is_byte p -> p !! 0%nat = Some c -> c ∈ commands ->
  MEGN540_Message_Len c = Z.of_nat (length p) ->
  exists s1, rtc step (0%nat, s) (1%nat, s1) /\ rx_bytes (ser s1) = p /\ sys_ok s1 /\ alike s s1.
Proof.
  intros Hs Hb Hh Hc Hm. pose proof (Message_Len_bound c) as Hmax.
  destruct (packet_receive p c _ s s (at_rest_transit s Hs) Hb Hh Hc Hm) as (q&b&s1&E&[_ R1]&H1); [lia|].
  assert (El : (length q < 63)%nat) by (rewrite E, length_app in Hm; cbn [length] in Hm; lia).
  destruct (transit_upkeep _ _ _ _ _ _ H1 El) as (x&Eu&H2). cbn [next_byte] in H2. rewrite <- E in H2.
  destruct H2 as ((Hok&_)&E0&Hrx&_). exists (set_ser x s1). split; [|by split_and!].
  etransitivity; [exact R1|].
  etransitivity; [apply (host_turn (CollectIN 1) s1), (host_collect_link (ser s1)), H1|].
  apply rtc_once. by apply (step_task 0 USB_Upkeep_Task); [|exact I|exact (upkeep_on_fw _ _ _ Eu)].
Qed.

(** ** Properties *)

(** C2: the driving machine.  From power-on, with any interleaving of blocks and
    environment steps: the machine starts idle; the environment changes neither
    outputs, goals nor controls; a block makes a motion exactly when it acts -
    the interpreter has an order, another block's flag fires - and then a
    possible one of that block, with the distances the wheels have made and
    the course of the decision machine; no other block touches the drive; and
    the interpreter makes exactly the motion that the message in front of the
    input orders. *)
Theorem drive_refinement r e s0 pc s :
  fresh_regs r -> env_ok e ->
  (InitializeSystem;; before_loop) (power_on r e) = Some (tt, s0) ->
  rtc step (0%nat, s0) (pc, s) ->
  idle (drive_of s0) /\
  (forall y, step (pc, s) y -> exists l, drives (pc, s) y l) /\
  (message_defined s ->
   wp Message_Handling_Task (fun _ s' => drive_of s' = after (ordered s) (drive_of s)) s).
Proof.
  intros Hr He E Hreach. pose proof (wp_result _ _ _ _ _ (InitializeSystem_spec r e Hr He) E) as Hi.
  pose proof (reachable_ok _ _ Hreach (proj1 Hi)) as Hs. cbn [snd] in Hs.
  split; [exact (initialized_idle _ _ Hi)|]. split.
  - intros y Hy. by apply step_drives.
  - apply interpreter_moves, Hs.
Qed.

Lemma drive_refinement_witness : exists s0 y l,
  (InitializeSystem;; before_loop) (power_on regs_zero (env fw_boot)) = Some (tt, s0) /\
  step (0%nat, s0) y /\ drives (0%nat, s0) y l.
Proof.
  destruct (starts regs_zero (env fw_boot) fresh_zero boot_env_ok) as [s0 E].
  assert (Hy : step (0%nat, s0) (0%nat, set_enc (PCINT0 (enc s0) (rg s0)) s0)) by apply step_event, ev_left_wheel.
  destruct (drive_refinement regs_zero (env fw_boot) s0 0 s0 fresh_zero boot_env_ok E) as (_&H&_); [apply rtc_refl|].
  destruct (H _ Hy) as [l Hl]. exists s0, (0%nat, set_enc (PCINT0 (enc s0) (rg s0)) s0), l.
  split; [exact E|]. split; [exact Hy|exact Hl].
Defined.

(** C7: no motion without an order.  From power-on, as long as the interpreter
    finds no 'p', 'P', 'd', 'D', 'v', 'V' or 'O' it accepts - whatever else the
    host sends and however wheels, clock, sensors and bus behave - the motor
    outputs stay disabled, the goals zero and every control off; and the same
    holds, whatever the host sends, if the monitored voltage is below 4.75 V at
    each call of the interpreter. *)
Theorem no_order_no_motion r e s0 y :
  fresh_regs r -> env_ok e ->
  (InitializeSystem;; before_loop) (power_on r e) = Some (tt, s0) ->
  rtc calm_step (0%nat, s0) y \/
  rtc (fun x z => step x z /\
    (x.1 = 1%nat -> (Battery.Battery_Voltage (bat x.2) >= f32_lit 475 100)%f32 = false)) (0%nat, s0) y ->
  idle (drive_of y.2) /\ Is_Motor_PWM_Enabled (rg y.2) = false.
Proof.
  intros Hr He E Hy. pose proof (wp_result _ _ _ _ _ (InitializeSystem_spec r e Hr He) E) as Hi.
  assert (Hc : rtc calm_step (0%nat, s0) y).
  { destruct Hy as [Hy|Hy]; [done|]. eapply rtc_subrel; [|exact Hy].
    intros x z [Hst Hw]. split; [done|]. intros H. by apply weak_unordered, Hw. }
  assert (Hd : idle (drive_of y.2)).
  { exact (calm_run _ _ Hc (proj1 Hi) (initialized_idle _ _ Hi)). }
  split; [exact Hd|]. destruct Hd as [Ho _]. cbn [drive_of outputs] in Ho. unfold outputs_of in Ho.
  by destruct (Is_Motor_PWM_Enabled (rg y.2)).
Qed.

Lemma no_order_no_motion_witness : exists s0,
  (InitializeSystem;; before_loop) (power_on regs_zero (env fw_boot)) = Some (tt, s0) /\
  Is_Motor_PWM_Enabled (rg (set_ser (host_packet [118] (ser s0)) s0)) = false.
Proof.
  destruct (starts regs_zero (env fw_boot) fresh_zero boot_env_ok) as [s0 E]. exists s0. split; [exact E|].
  destruct (no_order_no_motion regs_zero (env fw_boot) s0 (0%nat, set_ser (host_packet [118] (ser s0)) s0)
    fresh_zero boot_env_ok E) as [_ H]; [|exact H].
  left. apply rtc_once. split; [|done]. apply step_event, ev_usb.
  - apply rtc_once, (usb_host _ (SendOUT 2 [118])).
  - apply (host_packet_setup [118]), (started _ _ _ fresh_zero boot_env_ok E).
Defined.

(** C6: a stop holds.  In any reachable state in which an 's' or 'S' stands in
    front of the input, after the interpreter has run and for as long as no new
    motion is ordered, the outputs stay disabled, the goals zero and every
    control off: nothing that was under way before - a distance, a velocity, a
    timed duty cycle, a timed stop, the obstacle avoidance - comes back. *)
Theorem stop_holds r e s0 s s1 y :
  fresh_regs r -> env_ok e ->
  (InitializeSystem;; before_loop) (power_on r e) = Some (tt, s0) ->
  rtc step (0%nat, s0) (1%nat, s) -> ordered s = Some Halt -> message_defined s ->
  Message_Handling_Task s = Some (tt, s1) -> rtc calm_step (2%nat, s1) y ->
  idle (drive_of y.2).
Proof.
  intros Hr He E Hreach Ho Hm Es Hy. pose proof (started r e s0 Hr He E) as Hs0.
  pose proof (reachable_ok _ _ Hreach Hs0) as Hs. cbn [snd] in Hs.
  apply (calm_run _ _ Hy); cbn [snd].
  - exact (wp_result _ _ _ _ _ (Message_Handling_ok s Hs Hm) Es).
  - rewrite (wp_result _ _ _ _ _ (interpreter_moves s (proj1 Hs) Hm) Es), Ho. by split_and!.
Qed.

Lemma stop_holds_witness : exists s0 s s1,
  (InitializeSystem;; before_loop) (power_on regs_zero (env fw_boot)) = Some (tt, s0) /\
  rtc step (0%nat, s0) (1%nat, s) /\ Message_Handling_Task s = Some (tt, s1) /\ idle (drive_of s1).
Proof.
  destruct (starts regs_zero (env fw_boot) fresh_zero boot_env_ok) as [s0 E].
  pose proof (wp_result _ _ _ _ _ (InitializeSystem_spec _ _ fresh_zero boot_env_ok) E) as Hi.
  destruct (power_on_at_rest _ 5 s0 Hi) as (sr&R1&Hr&_); [lia|].
  destruct (message_arrives [115] 115 sr Hr) as (s&R2&Hrx&Hs&_);
    [by apply small_bytes|done|apply in_codes; by vm_compute|done|].
  assert (Hm : message_defined s).
  { intros c Hc Hp. rewrite Hrx in Hc. injection Hc as <-. exfalso. revert Hp. apply not_in_codes. by vm_compute. }
  assert (Ho : ordered s = Some Halt) by (unfold ordered; rewrite Hrx; reflexivity).
  destruct (proj1 (wp_run _ _ _) (interpreter_moves s (proj1 Hs) Hm)) as ([]&s1&Es&_).
  exists s0, s, s1. split; [exact E|].
  assert (R : rtc step (0%nat, s0) (1%nat, s)) by (by etransitivity). split; [exact R|]. split; [exact Es|].
  exact (stop_holds regs_zero (env fw_boot) s0 s s1 (2%nat, s1) fresh_zero boot_env_ok E R Ho Hm Es (rtc_refl _ _)).
Defined.

(** C20: a new distance does not start from a new baseline.  If the distance or
    the velocity control was under way when 'd' or 'D' arrives - or was ended by
    's', 'p', 'O' or the stop flag, none of which asks for a new baseline - the
    encoders are zeroed but the counts of the old baseline are kept: when the
    control fires it takes for the way driven what lies between the old counts
    and zero, and on the strength of that arrives at once or drives too far. *)
Theorem new_drive_old_baseline s c x y dur ml mr l r :
  sys_ok s -> drive_message c x y dur s -> first_time (loc s) = false -> since_old_baseline s ml mr ->
  duties_of (drive_targets c x y) l r ->
  wp Message_Handling_Task (fun _ s1 =>
    goal (drive_of s1) = drive_targets c x y /\ counts (left (enc s1)) = 0 /\ counts (right (enc s1)) = 0 /\
    (fires mf_motor_dist_control s1 true ->
     wp task_dist_control (fun _ s2 =>
       dist_outcome s1 ml mr l r s2 /\
       (there ml mr (drive_targets c x y) = true -> motors_off (rg s2) /\ distance_on (drive_of s2) = false)) s1)) s.
Proof.
  intros Hs Hd Hf (tl&tr&El&Er&Dl&Dr) ((V1&V2)&N1&N2).
  assert (Hm : message_defined s).
  { destruct Hd as (Hc&_&_&_&(rest&E)&_). intros c' Hc' Hp. rewrite E in Hc'. injection Hc' as <-.
    exfalso. rewrite !elem_of_cons, elem_of_nil in Hc, Hp. destruct Hc as [->|[->|[]]]; by destruct Hp as [|[|[]]]. }
  eapply wp_mono; [apply wp_and; [exact (Message_Handling_ok s Hs Hm)|exact (drive_message_run c x y dur s (proj1 Hs) Hd)]|].
  intros [] s1 (Hs1&((G1&G2&G3&G4)&(C1&C2)&_)&Eloc). split; [by apply goal_equal|]. do 2 (split; [done|]).
  intros Hfire. eapply wp_mono; [apply (task_dist_next s1 ml mr l r Hs1 Hfire)|].
  - by rewrite Eloc.
  - exists tl, tr. rewrite Eloc, C1, C2. by split_and!.
  - unfold duties. rewrite G3, G4. by split_and!.
  - intros [] s2 H. split; [exact H|]. unfold there. rewrite <- G1, <- G2. intros Ht.
    unfold dist_outcome in H. rewrite Ht in H. by destruct H as (H1&H2&_).
Qed.

(** The robot had driven 6000 counts backward and was stopped; half a metre
    forward is then over before it began. *)
Definition backed_up (l : list Z) : fw :=
  set_loc (with_first_time false (with_old (f32_of_Z (-6000)) (f32_of_Z (-6000)) f32_zero (loc fw_boot))) (fw_sample l).
Definition half_metre : list Z := ch "d" :: bytes_of_f32 (f32_lit 1 2) ++ bytes_of_f32 f32_zero ++ [].

Lemma new_drive_old_baseline_witness :
  wp Message_Handling_Task (fun _ s1 => fires mf_motor_dist_control s1 true ->
    wp task_dist_control (fun _ s2 => motors_off (rg s2) /\ distance_on (drive_of s2) = false) s1)
    (backed_up half_metre).
Proof.
  destruct (fw_sample_ok half_metre) as ((K1&K2&K3&K4&K5&K6&K7)&H2&_&Hv);
    [repeat (constructor; [by vm_compute|]); constructor|vm_compute; lia|].
  eapply wp_mono.
  { apply (new_drive_old_baseline (backed_up half_metre) (ch "d") (f32_lit 1 2) f32_zero f32_zero 6000 6000 75 75).
    - split; [apply fw_ok_parts; [exact K1|exact K2|exact K3|exact K4|exact K5|apply loc_ok_first_old|exact K7]|].
      split; intros H; discriminate H.
    - split; [by left|]. do 3 (split; [by vm_compute|]). split.
      { exists []. change (ser (backed_up half_metre)) with (ser (fw_sample half_metre)). rewrite H2. reflexivity. }
      change (bat (backed_up half_metre)) with (bat (fw_sample half_metre)). rewrite Hv. by vm_compute.
    - reflexivity.
    - exists (f32_of_Z (-6000)), (f32_of_Z (-6000)).
      split; [reflexivity|]. split; [reflexivity|]. split; vm_compute; reflexivity.
    - split; [split; vm_compute; reflexivity|split; discriminate]. }
  intros [] s1 (_&_&_&H) Hf. eapply wp_mono; [exact (H Hf)|]. intros [] s2 [_ H3]. apply H3. vm_compute. reflexivity.
Defined.
