(* ===== verification/CommandStream.v ===== *)
(** * CommandStream: the commands the machine understands

    A reader of the host's packets is what a host may expect of the robot: it
    splits the bytes into messages, and after a byte that starts no message it
    skips the rest of the packet.  The theorems show that the running machine -
    bytes moved one per pass, the interpreter between two other blocks,
    interrupts and reports in between - handles exactly the inputs this reader
    finds, in order, each once, and that the input ring never runs over. *)
From stdpp Require Import relations.
From S2P Require Import Prelude.
From S2P Require Import Float32.
From S2P Require Import RingBuffer.
From S2P Require Import Controller.
From S2P Require Import Avr.
From S2P Require Import Timing.
From S2P Require Import MotorPWM.
From S2P Require Import Proximity.
From S2P Require Import Battery.
From S2P Require Import UsbEndpoint.
From S2P Require Import UsbStream.
From S2P Require Import SerialIO.
From S2P Require Import UsbDevice.
From S2P Require Import SerialLink.
From S2P Require Import Firmware.
From S2P Require Import MessageHandling.
From S2P Require Import MessageSpec.
From S2P Require Import ObstacleAvoidance.
From S2P Require Import MainLoop.
From S2P Require Import MainSpec.
From S2P Require Import System.
From S2P Require Import Blocks.
From S2P Require Import Passes.
From S2P Require Import Dialogue.
From S2P Require Import DriveMachine.
Import Call.

(** ** The reader *)

(** A whole message, or a byte that starts none. *)
Inductive input := Message (m : list Z) | Unknown (c : Z).

(** The bytes of an incomplete message, and whether the rest of the packet is
    skipped. *)
Record reader := { held : list Z; skipping : bool }.
Definition reader_start : reader := {| held := []; skipping := false |}.

(** What stands in front of [q]. *)
Definition front (q : list Z) : option input :=
  match q with
  | [] => None
  | c :: _ =>
      if decide (c ∈ commands) then
        let n := Z.to_nat (MEGN540_Message_Len c) in
        if (n <=? length q)%nat then Some (Message (take n q)) else None
      else Some (Unknown c)
  end.

(** Results of the reader: the inputs found, and the reader afterwards. *)
Definition reading_result : Type := list input * reader.
Definition and_then (o : reading_result) (f : reader -> reading_result) : reading_result :=
  (o.1 ++ (f o.2).1, (f o.2).2).

(** Take what stands in front. *)
Definition settle (r : reader) : reading_result :=
  match front (held r) with
  | None => ([], r)
  | Some (Message m) => ([Message m], {| held := drop (length m) (held r); skipping := skipping r |})
  | Some (Unknown c) => ([Unknown c], {| held := []; skipping := true |})
  end.

(** One byte, the bytes of a packet, its end, a packet, several packets. *)
Definition hear (b : Z) (r : reader) : reading_result :=
  if skipping r then ([], r) else settle {| held := held r ++ [b]; skipping := false |}.
Fixpoint hear_bytes (l : list Z) (r : reader) : reading_result :=
  match l with
  | [] => ([], r)
  | b :: l => and_then (hear b r) (hear_bytes l)
  end.
Definition end_packet (r : reader) : reading_result := ([], {| held := held r; skipping := false |}).
Definition hear_packet (l : list Z) (r : reader) : reading_result := and_then (hear_bytes l r) end_packet.
Fixpoint hear_packets (ps : list (list Z)) (r : reader) : reading_result :=
  match ps with
  | [] => ([], r)
  | p :: ps => and_then (hear_packet p r) (hear_packets ps)
  end.

(** What the host's packets mean, from the start. *)
Definition understand (ps : list (list Z)) : reading_result := hear_packets ps reader_start.

(** A calculation split over two packets, an unknown byte that takes the rest of
    its packet along, and a request. *)
Example understand_three :
  understand [ch "b" :: ch "*" :: [0; 0]; [0; 64; 0; 0; 0; 63]; [33; ch "e"; ch "s"]; [ch "e"; ch "O"]] =
    ([Message [ch "b"]; Message (ch "*" :: [0; 0; 0; 64; 0; 0; 0; 63]); Unknown 33; Message [ch "e"]],
     {| held := [ch "O"]; skipping := false |}).
Proof. vm_compute. reflexivity. Qed.

(** *** Its laws *)

Lemma and_then_nil r f : and_then ([], r) f = f r.
Proof. unfold and_then. cbn [fst snd app]. by destruct (f r). Qed.

Lemma and_then_assoc o f g : and_then (and_then o f) g = and_then o (fun r => and_then (f r) g).
Proof. unfold and_then. cbn [fst snd]. by rewrite app_assoc. Qed.

Lemma and_then_ext o f g : (forall r, f r = g r) -> and_then o f = and_then o g.
Proof. intros E. unfold and_then. by rewrite E. Qed.

Lemma and_then_ret o : and_then o (fun r => ([], r)) = o.
Proof. destruct o. unfold and_then. cbn [fst snd]. by rewrite app_nil_r. Qed.

Lemma and_then_log l o f : and_then (l ++ o.1, o.2) f = (l ++ (and_then o f).1, (and_then o f).2).
Proof. unfold and_then. cbn [fst snd]. by rewrite app_assoc. Qed.

Lemma hear_packets_app ps ps' r : hear_packets (ps ++ ps') r = and_then (hear_packets ps r) (hear_packets ps').
Proof.
  revert r. induction ps as [|p ps IH]; intros r; cbn [app hear_packets]; [by rewrite and_then_nil|].
  rewrite and_then_assoc. by apply and_then_ext.
Qed.

Lemma hear_packets_snoc o ps p :
  and_then o (hear_packets (ps ++ [p])) = and_then (and_then o (hear_packets ps)) (hear_packet p).
Proof.
  rewrite and_then_assoc. apply and_then_ext. intros r. rewrite hear_packets_app.
  apply and_then_ext. intros r'. apply and_then_ret.
Qed.

Lemma hear_packet_cons b l r : hear_packet (b :: l) r = and_then (hear b r) (hear_packet l).
Proof. unfold hear_packet. cbn [hear_bytes]. by rewrite and_then_assoc. Qed.

(** ** Fronts *)

Lemma front_message q m :
  front q = Some (Message m) ->
  exists c, q !! 0%nat = Some c /\ c ∈ commands /\ MEGN540_Message_Len c = Z.of_nat (length m) /\
    m = take (length m) q /\ (0 < length m <= length q)%nat /\ m !! 0%nat = Some c.
Proof.
  unfold front. destruct q as [|c q]; [done|]. case_decide as Hc; [|done].
  destruct (Nat.leb_spec (Z.to_nat (MEGN540_Message_Len c)) (length (c :: q))) as [Hl|]; [|done].
  intros [= <-]. pose proof (proj1 (commands_spec c) Hc).
  rewrite length_take_le by done. exists c. split_and!; try done; try lia.
  rewrite lookup_take_lt by lia. done.
Qed.

Lemma front_unknown q c : front q = Some (Unknown c) -> q !! 0%nat = Some c /\ c ∉ commands.
Proof. unfold front. destruct q as [|c' q]; [done|]. case_decide; [by case_match|]. by intros [= ->]. Qed.

(** Nothing whole in front: no bytes, or an incomplete message. *)
Lemma front_none q : front q = None <-> waiting q.
Proof.
  unfold front, waiting. destruct q as [|c q].
  - split; [by left|done].
  - split.
    + case_decide as Hc; [|done]. case_match eqn:E; [done|]. intros _. right. exists c.
      apply Nat.leb_gt in E. split_and!; [done..|]. lia.
    + intros [|(c'&[= <-]&Hc&Hl)]; [done|]. rewrite decide_True by done.
      pose proof (proj1 (commands_spec c) Hc). rewrite (proj2 (Nat.leb_gt _ _)); [done|lia].
Qed.

Lemma waiting_short q : waiting q -> (length q < 13)%nat.
Proof. intros [->|(c&_&_&Hl)]; [cbn; lia|]. pose proof (Message_Len_bound c). lia. Qed.

(** One byte after an incomplete message: a whole message is all there is. *)
Lemma front_snoc q b m : waiting q -> front (q ++ [b]) = Some (Message m) -> m = q ++ [b].
Proof.
  intros Hq E. destruct (front_message _ _ E) as (c&Hc&Hk&Hn&Em&Hl&_). rewrite Em.
  apply take_ge. rewrite length_app in *. cbn [length] in *. destruct Hq as [->|(c'&Hc'&_&Hl')]; [cbn [length app] in *; lia|].
  rewrite lookup_app_l in Hc by (by apply lookup_lt_Some in Hc'). rewrite Hc in Hc'. injection Hc' as <-. lia.
Qed.

Lemma restart_alone m :
  MEGN540_Message_Len (ch "~") = Z.of_nat (length m) -> m !! 0%nat = Some (ch "~") -> m = [ch "~"].
Proof.
  change (MEGN540_Message_Len (ch "~")) with 1. intros Hn Hc.
  destruct m as [|x [|? ?]]; cbn [length] in Hn; try lia. by injection Hc as ->.
Qed.

Lemma settle_waiting r : waiting (held r) -> settle r = ([], r).
Proof. intros H. unfold settle. by rewrite (proj2 (front_none _) H). Qed.

(** ** The machine as a reader *)

(** The bytes the program holds; those it will be given. *)
Definition reader_of (s : serial) : reader := {| held := rx_bytes s; skipping := clear_buffer s |}.
Definition finish_packet (o : option (list Z)) (r : reader) : reading_result :=
  match o with Some l => hear_packet l r | None => ([], r) end.

(** What is still to be understood: what stands in front, then the rest of the
    packet. *)
Definition outlook (s : serial) : reading_result := and_then (settle (reader_of s)) (finish_packet (incoming s)).

(** A working link whose reader is between two blocks: only right before the
    interpreter may a whole message or an unknown byte stand in front, and it
    came with the packet at the endpoint. *)
Definition reader_ok (pc : nat) (s : fw) : Prop :=
  link_ok (ser s) /\
  (clear_buffer (ser s) = true -> rx_bytes (ser s) = [] /\ incoming (ser s) <> None) /\
  (waiting (rx_bytes (ser s)) \/
   pc = 1%nat /\ incoming (ser s) <> None /\ exists q b, waiting q /\ rx_bytes (ser s) = q ++ [b]).

Lemma reader_ok_bound pc s : reader_ok pc s -> (length (rx_bytes (ser s)) <= 13)%nat.
Proof.
  intros (_&_&[H|(_&_&q&b&H&E)]); apply waiting_short in H; [lia|].
  rewrite E, length_app. cbn [length]. lia.
Qed.

(** The state of the link but for what goes out. *)
Definition same_input (x y : serial) : Prop :=
  ser_ok y /\ usb_receive_buffer y = usb_receive_buffer x /\ clear_buffer y = clear_buffer x /\
  reading y = reading x /\ hw y = hw x.

Lemma same_input_refl x : ser_ok x -> same_input x x.
Proof. by intros []. Qed.

Lemma same_input_adds l x y z : same_input x y -> tx_adds l y z -> same_input x z.
Proof. intros (_&?&?&?&?) (?&_&(?&?&?&_&_&?)). split_and!; congruence. Qed.

Lemma same_input_rx x y :
  same_input x y -> rx_bytes y = rx_bytes x /\ clear_buffer y = clear_buffer x /\ incoming y = incoming x.
Proof. intros (_&E1&E2&_&E4). unfold rx_bytes, incoming, rx_ep. by rewrite E1, E2, E4. Qed.

(** The link depends on the rings' form, the first-byte flag and the hardware. *)
Lemma link_ok_hw x y : ser_ok y -> hw y = hw x -> reading y = reading x -> link_ok x -> link_ok y.
Proof. intros Hy E1 E2 (_&H). unfold link_ok, tx_ep, rx_ep in *. rewrite E1, E2. by split. Qed.

Lemma same_input_link x y : same_input x y -> link_ok x -> link_ok y.
Proof. intros (H&_&_&E1&E2). by apply link_ok_hw. Qed.

#[export] Hint Resolve same_input_refl same_input_adds : msg.

(** *** Blocks that only send *)

Ltac only_sends def :=
  unfold def; apply wp_on_flag; [let H := fresh "Hact" in intros H; loop_go; eauto 10 with msg|eauto with msg].

Section blocks.
Context (s : fw) (Hs : sys_ok s).
#[local] Hint Resolve sys_mregs sys_ser : msg.

Lemma task_send_time_input : wp task_send_time (fun _ s' => same_input (ser s) (ser s')) s.
Proof. only_sends task_send_time. Qed.
Lemma task_time_float_send_input : wp task_time_float_send (fun _ s' => same_input (ser s) (ser s')) s.
Proof. only_sends task_time_float_send. Qed.
Lemma task_loop_timer_input : wp task_loop_timer (fun _ s' => same_input (ser s) (ser s')) s.
Proof. only_sends task_loop_timer. Qed.
Lemma task_send_encoder_input : wp task_send_encoder (fun _ s' => same_input (ser s) (ser s')) s.
Proof. only_sends task_send_encoder. Qed.
Lemma task_send_battery_input : wp task_send_battery (fun _ s' => same_input (ser s) (ser s')) s.
Proof. only_sends task_send_battery. Qed.
Lemma task_low_battery_input : wp task_low_battery (fun _ s' => same_input (ser s) (ser s')) s.
Proof. only_sends task_low_battery. Qed.
Lemma task_timed_pwm_input : wp task_timed_pwm (fun _ s' => same_input (ser s) (ser s')) s.
Proof. only_sends task_timed_pwm. Qed.
Lemma task_sys_data_input : wp task_sys_data (fun _ s' => same_input (ser s) (ser s')) s.
Proof. only_sends task_sys_data. Qed.
Lemma task_motor_stop_input : wp task_motor_stop (fun _ s' => same_input (ser s) (ser s')) s.
Proof. only_sends task_motor_stop. Qed.
Lemma task_restart_input : wp task_restart (fun _ s' => same_input (ser s) (ser s')) s.
Proof.
  unfold task_restart, Message_Handling_Init, MSG_FLAG_Init.
  apply wp_on_flag; [intros Hact; loop_go; eauto with msg|eauto with msg].
Qed.

Lemma task_battery_input : wp task_battery (fun _ s' => same_input (ser s) (ser s')) s.
Proof.
  unfold task_battery. apply wp_on_flag; [intros Hact|eauto with msg]. apply wp_bind.
  pose proof Hs as ((K1&K2&K3&K4&K5&K6&K7)&_).
  apply wp_Battery_Voltage_Task; [done..|]. intros y b r e Hb _ -> He _. loop_go; eauto with msg.
Qed.

Lemma task_ir_proximity_input : wp task_ir_proximity (fun _ s' => same_input (ser s) (ser s')) s.
Proof.
  unfold task_ir_proximity. apply wp_on_flag; [intros Hact|eauto with msg]. loop_step. loop_step. loop_step.
  pose proof Hs as ((K1&K2&K3&K4&K5&K6&K7)&_).
  destruct (proxy_first (loc s)); loop_step;
    (apply wp_IRRead; [done..|]; intros p r _ _ Hp Hr _; fw_simpl; loop_go; eauto with msg).
Qed.

Lemma task_dist_control_input :
  (active (flags s mf_motor_dist_control) = true -> control_defined s) ->
  wp task_dist_control (fun _ s' => same_input (ser s) (ser s')) s.
Proof.
  intros Hd. unfold task_dist_control, CNTRL_SYS, DEBUG. apply wp_on_flag; [intros Hact|eauto with msg].
  loop_step. loop_step. loop_step. pose proof Hs as ((_&_&_&_&_&Hloc&_)&_).
  destruct (first_time (loc s)) eqn:Ef; [loop_go; eauto with msg|].
  destruct (Hd Hact Ef) as [(ml&mr&tl&tr&El&Er&Dl&Dr) (l&r&Hlr)].
  destruct (Hloc Ef) as (_&_&[t Et]).
  pose proof (duties_range _ _ _ Hlr) as [Rl Rr]. destruct Hlr as (Vl&_&Vr&_).
  loop_go; eauto with msg.
Qed.

Lemma task_vel_control_input :
  (active (flags s mf_motor_vel_control) = true -> control_defined s) ->
  wp task_vel_control (fun _ s' => same_input (ser s) (ser s')) s.
Proof.
  intros Hd. unfold task_vel_control, CNTRL_SYS, DEBUG. apply wp_on_flag; [intros Hact|eauto with msg].
  loop_step. loop_step. loop_step. pose proof Hs as ((_&_&_&_&_&Hloc&_)&_).
  destruct (first_time (loc s)) eqn:Ef; [loop_go; eauto with msg|].
  destruct (Hd Hact Ef) as [(ml&mr&tl&tr&El&Er&Dl&Dr) (l&r&Hlr)].
  destruct (Hloc Ef) as (_&_&[t Et]).
  pose proof (duties_range _ _ _ Hlr) as [Rl Rr]. destruct Hlr as (Vl&_&Vr&_).
  loop_go; eauto with msg.
Qed.

Lemma task_obj_avoidance_input : wp task_obj_avoidance (fun _ s' => same_input (ser s) (ser s')) s.
Proof.
  unfold task_obj_avoidance. apply wp_on_flag; [intros Hact|eauto with msg]. apply wp_bind.
  pose proof (sys_oa_pre s Hs Hact) as Hpre.
  assert (H : forall s', oa_frame s s' -> same_input (ser s) (ser s')).
  { intros s' (->&_). eauto with msg. }
  destruct (read_state (oa s)) eqn:E.
  - apply (Run_OA_Task_read LEFT READ_R s _ Hpre); [rewrite E; by left|]. intros s' (_&F&_). by apply H.
  - apply (Run_OA_Task_read RIGHT RUN_DSM s _ Hpre); [rewrite E; by right; left|]. intros s' (_&F&_). by apply H.
  - apply Run_OA_Task_decide; [done..|]. intros s' _ F _ _ _ _ _. loop_go; by apply H.
Qed.
End blocks.

(** Every block behind the interpreter. *)
Lemma task_input pc t s :
  main_tasks !! pc = Some t -> (2 <= pc)%nat -> sys_ok s -> within_range pc s ->
  wp t (fun _ s' => same_input (ser s) (ser s')) s.
Proof.
  intros Ht Hpc Hs Hw.
  destruct pc as [|[|[|[|[|[|[|[|[|[|[|[|[|[|[|[|[|pc]]]]]]]]]]]]]]]]]; try lia;
    [injection Ht as <-..|done].
  - by apply task_restart_input.
  - by apply task_battery_input.
  - by apply task_send_time_input.
  - by apply task_time_float_send_input.
  - by apply task_loop_timer_input.
  - by apply task_send_encoder_input.
  - by apply task_send_battery_input.
  - by apply task_low_battery_input.
  - by apply task_timed_pwm_input.
  - by apply task_sys_data_input.
  - by apply task_dist_control_input.
  - by apply task_vel_control_input.
  - by apply task_motor_stop_input.
  - by apply task_ir_proximity_input.
  - by apply task_obj_avoidance_input.
Qed.

(** *** The interpreter and the upkeep task *)

(** An unknown byte: the hardware is not touched. *)
Lemma unknown_keeps_hw s c :
  fw_ok s -> s8 c ∉ commands ->
  wp (dispatch (s8 c)) (fun _ s' => hw (ser s') = hw (ser s) /\ reading (ser s') = reading (ser s)) s.
Proof.
  intros Hok Hc. rewrite dispatch_default by done. unfold case_default, send_bad_input. apply wp_bind.
  unfold usb_flush_input_buffer, call_ser. apply wp_modify. cbv beta.
  destruct (usb_flush_input_buffer_spec (ser s) (fw_ok_ser s Hok)) as (F1&_&_&_&F5).
  apply wp_send_msg; [exact F1|auto with msg|]. intros x (_&_&(_&_&X3&_&_&X6)). cbn [ser set_ser] in *. by rewrite X6, X3.
Qed.

(** What the interpreter takes off the input is what stands in front. *)
Lemma interpreter_reads s s' :
  sys_ok s -> message_defined s -> reader_ok 1 s -> front (rx_bytes (ser s)) <> Some (Message [ch "~"]) ->
  Message_Handling_Task s = Some (tt, s') ->
  reader_ok 2 s' /\ incoming (ser s') = incoming (ser s) /\
  settle (reader_of (ser s)) = (option_list (front (rx_bytes (ser s))), reader_of (ser s')).
Proof.
  intros Hs Hm Hr Hno E. pose proof Hs as (Hok&_). pose proof Hr as (Hl&Hc&Hq).
  destruct (front (rx_bytes (ser s))) as [[m|c]|] eqn:Ef; unfold settle, reader_of; cbn [held skipping]; rewrite Ef.
  - destruct Hq as [Hq|(_&Hin&q&b&Hq&Eq)]; [by apply front_none in Hq; rewrite Ef in Hq|].
    destruct (front_message _ _ Ef) as (c&Hh&Hk&Hn&_&Hlen&Hmc).
    assert (Em : m = q ++ [b]) by (apply front_snoc; [done|by rewrite <- Eq]).
    assert (c <> ch "~").
    { intros ->. apply Hno. by rewrite (restart_alone m). }
    assert (Hw : wp Message_Handling_Task (fun _ s' => handled (length m) c s s') s).
    { apply task_handled; try done; [lia|]. intros Hp. apply (Hm c); [done..|lia]. }
    destruct (wp_result _ _ _ _ _ Hw E) as (_&(out&_&(K1&K2&_&K4&K5&K6&_))&_).
    assert (Erx : rx_bytes (ser s') = []) by (rewrite K2, Eq, <- Em; apply drop_all).
    assert (Ei : incoming (ser s') = incoming (ser s)) by (unfold incoming, rx_ep; by rewrite K4).
    split; [|split; [done|by rewrite K2, K5]].
    split; [by apply (link_ok_hw (ser s))|]. rewrite Erx, Ei. split; [by intros _|]. by left; left.
  - destruct Hq as [Hq|(_&Hin&_)]; [by apply front_none in Hq; rewrite Ef in Hq|].
    destruct (front_unknown _ _ Ef) as [Hh Hk].
    assert (Hk8 : s8 c ∉ commands) by (intros H; apply Hk, known_byte; [by eapply rx_byte|done]).
    assert (Hw : wp Message_Handling_Task (fun _ s' =>
      (fw_ok s' /\ rx_bytes (ser s') = [] /\ clear_buffer (ser s') = true /\
       tx_bytes (ser s') = lastn 63 (tx_bytes (ser s) ++ frame "cc" (s8 c) [ch "?"]) /\ s' = set_ser (ser s') s) /\
      hw (ser s') = hw (ser s) /\ reading (ser s') = reading (ser s)) s).
    { apply (task_dispatches c); [done..|]. apply wp_and; [by apply dispatch_unknown|by apply unknown_keeps_hw]. }
    destruct (wp_result _ _ _ _ _ Hw E) as ((K1&K2&K3&_)&K4&K5).
    assert (Ei : incoming (ser s') = incoming (ser s)) by (unfold incoming, rx_ep; by rewrite K4).
    split; [|split; [done|by rewrite K2, K3]].
    split; [apply (link_ok_hw (ser s)); [apply fw_ok_ser, K1|done..]|]. rewrite K2, K3, Ei.
    split; [by intros _|]. by left; left.
  - apply front_none in Ef. rewrite (task_waits s Hok Ef) in E. injection E as <-.
    split; [|done]. split; [done|]. split; [done|by left].
Qed.

(** The upkeep task hears one byte, or the end of the packet. *)
Lemma upkeep_reads s s' :
  reader_ok 0 s -> USB_Upkeep_Task s = Some (tt, s') ->
  reader_ok 1 s' /\ outlook (ser s') = outlook (ser s) /\ incoming (ser s') = next_incoming (incoming (ser s)) /\
  rx_bytes (ser s') = rx_bytes (ser s) ++ (if clear_buffer (ser s) then [] else next_byte (incoming (ser s))).
Proof.
  intros (Hl&Hc&[Hq|(?&_)]) E; [|done].
  destruct (upkeep_incoming (signature (env s)) (host_moves (env s)) (ser s) Hl) as (x&Ex&K1&K2&K3&K4).
  unfold USB_Upkeep_Task, mbind, M_bind, gets, call_sio in E. cbn beta iota in E. rewrite Ex in E. injection E as <-.
  cbn [ser set_ser set_env]. unfold reader_ok, outlook. cbn [ser set_ser].
  assert (Hlen : (length (rx_bytes (ser s)) < 13)%nat) by (by apply waiting_short).
  rewrite (settle_waiting (reader_of (ser s))) by done. rewrite and_then_nil, K2.
  destruct (incoming (ser s)) as [[|b l]|]; cbn [next_incoming next_byte finish_packet] in *.
  - assert (E3 : rx_bytes x = rx_bytes (ser s)).
    { rewrite K3, app_nil_r. case_match; [done|]. apply lastn_all. lia. }
    rewrite E3, K4. split; [split; [done|split; [done|by left]]|].
    split; [|split; [done|by destruct (clear_buffer _); rewrite app_nil_r]].
    rewrite settle_waiting by (cbn [reader_of held]; by rewrite E3). rewrite and_then_nil.
    unfold hear_packet. cbn [hear_bytes]. rewrite and_then_nil. unfold end_packet, reader_of. cbn [held]. by rewrite E3, K4.
  - destruct (clear_buffer (ser s)) eqn:Ec.
    + destruct (Hc eq_refl) as [Er _]. rewrite K3, K4, Er. split; [split; [done|split; [done|by left; left]]|].
      split; [|by split]. rewrite settle_waiting by (cbn [reader_of held]; rewrite K3, Er; by left).
      rewrite and_then_nil, hear_packet_cons. unfold hear, reader_of. cbn [skipping]. rewrite Ec, and_then_nil.
      by rewrite K3, K4.
    + rewrite lastn_all in K3 by (rewrite length_app; cbn [length]; lia). rewrite K3, K4.
      split; [split; [done|split; [done|right; split_and!; [done..|by exists (rx_bytes (ser s)), b]]]|].
      split; [|by split]. rewrite hear_packet_cons. unfold hear, reader_of. cbn [skipping held]. by rewrite Ec, K3, K4.
  - assert (Ec : clear_buffer (ser s) = false) by (destruct (clear_buffer (ser s)); [by destruct (Hc eq_refl)|done]).
    rewrite Ec in K3, K4. rewrite app_nil_r, lastn_all in K3 by lia. rewrite K3, K4.
    split; [split; [done|split; [done|by left]]|]. split; [|split; [done|by destruct (clear_buffer (ser s)); rewrite app_nil_r]].
    rewrite settle_waiting by (cbn [reader_of held]; by rewrite K3). unfold reader_of. by rewrite K3, K4, Ec.
Qed.

(** ** Histories *)

(** [history x k ps l y]: from [x] the machine runs to [y] with [k] upkeep tasks;
    the host sends the packets [ps], each when the endpoint is free, and
    collects what it likes; the interpreter sees the inputs [l] in front.
    Between the blocks the environment does anything that leaves the
    data path of the link alone: the clock, the pins, the wheels, start of
    frame, and every neutral control request ([control_transfer_path]). *)
Inductive history (x : nat * fw) : nat -> list (list Z) -> list input -> nat * fw -> Prop :=
  | hist_start : history x 0 [] [] x
  | hist_task k ps l pc t s s' :
      history x k ps l (pc, s) ->
      main_tasks !! pc = Some t -> within_range pc s -> t s = Some (tt, s') ->
      history x (if pc =? 0 then S k else k)%nat ps
        (l ++ (if pc =? 1 then option_list (front (rx_bytes (ser s))) else [])%nat) (next_pc pc, s')
  | hist_event k ps l pc s s' :
      history x k ps l (pc, s) -> event s s' -> same_path (ser s) (ser s') -> history x k ps l (pc, s')
  | hist_packet k ps l pc s p :
      history x k ps l (pc, s) -> incoming (ser s) = None -> p <> [] -> Forall is_byte p ->
      history x k (ps ++ [p]) l (pc, set_ser (host_packet p (ser s)) s)
  | hist_collect k ps l pc s :
      history x k ps l (pc, s) -> history x k ps l (pc, set_ser (host_collect (ser s)) s).

Lemma history_trans x k ps l y k' ps' l' z :
  history x k ps l y -> history y k' ps' l' z -> history x (k + k') (ps ++ ps') (l ++ l') z.
Proof.
  intros H1 H2. induction H2 as [|k' ps' l' pc t s s' _ IH Ht Hw E|k' ps' l' pc s s' _ IH He Hp|k' ps' l' pc s p _ IH Hi Hp Hb|k' ps' l' pc s _ IH].
  - by rewrite Nat.add_0_r, !app_nil_r.
  - rewrite app_assoc. replace (k + (if pc =? 0 then S k' else k'))%nat with (if pc =? 0 then S (k + k') else k + k')%nat
      by (destruct (pc =? 0)%nat; lia).
    by apply (hist_task x (k + k') (ps ++ ps') (l ++ l') pc t s).
  - by apply (hist_event x _ _ _ pc s).
  - rewrite app_assoc. by apply hist_packet.
  - by apply hist_collect.
Qed.

(** A point of the loop whose reader is well-formed. *)
Definition readable (y : nat * fw) : Prop := sys_ok y.2 /\ (y.1 < 17)%nat /\ reader_ok y.1 y.2.

(** The bytes the current packet still has. *)
Definition pending (o : option (list Z)) : nat := length (default [] o).

Lemma pending_next o : pending (next_incoming o) = (pending o - 1)%nat.
Proof. destruct o as [[|b l]|]; cbn; lia. Qed.

Lemma outlook_over pc s :
  reader_ok pc s -> pc <> 1%nat -> pending (incoming (ser s)) = 0%nat ->
  outlook (ser s) = ([], {| held := rx_bytes (ser s); skipping := false |}).
Proof.
  intros (_&Hc&[Hq|[? _]]) Hpc Hp; [|done]. unfold outlook. rewrite settle_waiting, and_then_nil by done.
  unfold reader_of. destruct (incoming (ser s)) as [[|b l]|] eqn:Ei; [|done|]; cbn [finish_packet].
  - unfold hear_packet. cbn [hear_bytes]. by rewrite and_then_nil.
  - destruct (clear_buffer (ser s)); [|done]. by destruct Hc.
Qed.

Lemma reader_ok_same pc pc' s s' :
  link_ok (ser s') -> rx_bytes (ser s') = rx_bytes (ser s) -> clear_buffer (ser s') = clear_buffer (ser s) ->
  incoming (ser s') = incoming (ser s) -> pc' = pc \/ pc <> 1%nat -> reader_ok pc s -> reader_ok pc' s'.
Proof.
  intros Hl E1 E2 E3 Hpc (_&H1&H2). unfold reader_ok. rewrite E1, E2, E3. split; [done|]. split; [done|].
  destruct H2 as [H2|[H2 H3]]; [by left|]. destruct Hpc as [->|?]; [by right|done].
Qed.

Lemma outlook_same s s' :
  rx_bytes s' = rx_bytes s -> clear_buffer s' = clear_buffer s -> incoming s' = incoming s -> outlook s' = outlook s.
Proof. intros E1 E2 E3. unfold outlook, reader_of. by rewrite E1, E2, E3. Qed.

Lemma outlook_front s i : front (rx_bytes s) = Some i -> i ∈ (outlook s).1.
Proof.
  intros E. unfold outlook, settle, and_then. cbn [fst reader_of held]. rewrite E. apply elem_of_app. left.
  destruct i; by left.
Qed.

(** Between two steps: [o] is what was expected, [l] what has been seen. *)
Definition on_track (o : reading_result) (l : list input) (y : nat * fw) : Prop :=
  o = (l ++ (outlook (ser y.2)).1, (outlook (ser y.2)).2).

Definition no_restart (o : reading_result) : Prop := Message [ch "~"] ∉ o.1.

Lemma block_reads o l pc t s s' :
  readable (pc, s) -> on_track o l (pc, s) -> no_restart o ->
  main_tasks !! pc = Some t -> within_range pc s -> t s = Some (tt, s') ->
  let l' := l ++ (if pc =? 1 then option_list (front (rx_bytes (ser s))) else [])%nat in
  readable (next_pc pc, s') /\ on_track o l' (next_pc pc, s') /\
  pending (incoming (ser s')) = (pending (incoming (ser s)) - (if pc =? 0 then 1 else 0))%nat.
Proof.
  intros (Hs&Hpc&Hr) Ho Hno Ht Hw E. cbn [fst snd] in *. unfold readable, on_track in *. cbn [fst snd] in *.
  assert (Hs' : sys_ok s') by exact (wp_result _ _ _ _ _ (task_sys pc t s Ht Hs Hw) E).
  assert (Hpc' : (next_pc pc < 17)%nat) by (apply Nat.mod_upper_bound; lia).
  destruct pc as [|[|pc]].
  - injection Ht as <-. destruct (upkeep_reads s s' Hr E) as (H1&H2&H3&_). rewrite H3, pending_next, app_nil_r, H2.
    by split_and!.
  - injection Ht as <-. destruct (interpreter_reads s s' Hs Hw Hr) as (H1&H2&H3); [|done|].
    { intros Ef. apply Hno. rewrite Ho. cbn [fst]. apply elem_of_app. right. by apply outlook_front. }
    cbn [Nat.eqb]. split; [done|]. split; [|rewrite H2; lia]. rewrite Ho. unfold outlook. rewrite H3, H2.
    rewrite (settle_waiting (reader_of (ser s'))), and_then_nil by (destruct H1 as (_&_&[H1|(?&_)]); done).
    unfold and_then. cbn [fst snd]. by rewrite app_assoc.
  - pose proof (wp_result _ _ _ _ _ (task_input (S (S pc)) t s Ht ltac:(lia) Hs Hw) E) as Hi. cbv beta in Hi.
    destruct (same_input_rx _ _ Hi) as (E1&E2&E3). cbn [Nat.eqb]. rewrite app_nil_r, E3.
    split; [split; [done|split; [done|]]|split; [by rewrite (outlook_same (ser s))|lia]].
    apply (reader_ok_same (S (S pc)) _ s); [by apply (same_input_link (ser s)), Hr|done..|by right|done].
Qed.

Lemma packet_reads o l pc s p :
  readable (pc, s) -> on_track o l (pc, s) -> incoming (ser s) = None -> p <> [] -> Forall is_byte p ->
  let s' := set_ser (host_packet p (ser s)) s in
  readable (pc, s') /\ on_track (and_then o (hear_packet p)) l (pc, s').
Proof.
  intros (Hs&Hpc&(Hl&Hc&Hq)) Ho Hi Hp Hb s'. unfold readable, on_track in *. cbn [fst snd] in *.
  assert (Hq' : waiting (rx_bytes (ser s))) by (by destruct Hq as [Hq|(_&?&_)]).
  assert (He : UsbEndpoint.event (rx_ep (ser s)) = false) by (unfold incoming in Hi; by destruct (UsbEndpoint.event _)).
  destruct (host_packet_link p (ser s) Hl He Hp Hb) as (H1&_&_&H4&H5&H6&H7).
  assert (Ei : incoming (host_packet p (ser s)) = Some p) by (unfold incoming; by rewrite H5, H6).
  split.
  - split; [by apply sys_ok_ser; [apply H1|]|]. split; [done|]. unfold reader_ok. cbn [s' ser set_ser].
    rewrite H4, H7, Ei. split; [done|]. split; [|by left]. intros H. split; [by apply Hc|done].
  - rewrite Ho, and_then_log. cbn [s' ser set_ser]. unfold outlook, reader_of. rewrite H4, H7, Ei, Hi.
    rewrite settle_waiting by done. rewrite !and_then_nil. cbn [finish_packet]. by rewrite and_then_nil.
Qed.

(** What a history has seen and what is still to come make what was to be
    understood. *)
Lemma history_reads x k ps l y :
  history x k ps l y -> readable x -> no_restart (and_then (outlook (ser x.2)) (hear_packets ps)) ->
  readable y /\ on_track (and_then (outlook (ser x.2)) (hear_packets ps)) l y /\ rtc step x y /\
  (ps = [] -> pending (incoming (ser y.2)) = (pending (incoming (ser x.2)) - k)%nat).
Proof.
  intros H Hx. induction H as [|k ps l pc t s s' H IH Ht Hw E|k ps l pc s s' H IH He Hp|k ps l pc s p H IH Hi Hp Hb|k ps l pc s H IH];
    intros Hno.
  - split; [done|]. unfold on_track. cbn [hear_packets]. rewrite and_then_ret.
    split; [by destruct (outlook _)|]. split; [apply rtc_refl|]. lia.
  - destruct (IH Hno) as (H1&H2&H3&H4). destruct (block_reads _ l pc t s s' H1 H2 Hno Ht Hw E) as (G1&G2&G3).
    split; [exact G1|]. split; [exact G2|]. split; [eapply rtc_r; [exact H3|by apply (step_task pc t)]|].
    intros ->. cbn [snd] in *. rewrite G3, H4 by done. destruct (pc =? 0)%nat; lia.
  - destruct (IH Hno) as ((S1&S2&S3)&H2&H3&H4). cbn [fst snd] in *.
    destruct (same_path_streams _ _ Hp) as (_&_&_&_&Er). pose proof Hp as (_&_&Ec&_&_&_&_&Ep&_).
    assert (Ei : incoming (ser s') = incoming (ser s)) by (unfold incoming; by rewrite Ep).
    split; [|split; [unfold on_track in *; cbn [snd] in *; by rewrite (outlook_same (ser s) (ser s'))|
             split; [eapply rtc_r; [exact H3|by apply step_event]|by rewrite Ei]]].
    split; [by eapply event_ok|]. split; [done|].
    apply (reader_ok_same pc _ s); [by apply (same_path_link_ok (ser s)), S3|done..|by left|done].
  - rewrite hear_packets_snoc in Hno |- *.
    assert (Hno' : no_restart (and_then (outlook (ser x.2)) (hear_packets ps))).
    { intros Hin. apply Hno. unfold and_then at 1. cbn [fst]. apply elem_of_app. by left. }
    destruct (IH Hno') as (H1&H2&H3&_). destruct (packet_reads _ l pc s p H1 H2 Hi Hp Hb) as [G1 G2].
    split; [exact G1|]. split; [exact G2|]. split; [|intros Hn; by destruct ps].
    eapply rtc_r; [exact H3|]. apply step_event, ev_usb; [apply rtc_once, (usb_host _ (SendOUT 2 p))|].
    apply host_packet_setup, H1.
  - destruct (IH Hno) as ((S1&S2&S3)&H2&H3&H4). cbn [fst snd] in *.
    destruct (host_collect_link (ser s)) as (K1&_&_&_&K4&_&_&K7&K8); [apply S3|].
    assert (Ei : incoming (host_collect (ser s)) = incoming (ser s)) by (unfold incoming; by rewrite K8).
    split; [|split; [unfold on_track in *; cbn [snd ser set_ser] in *; by rewrite (outlook_same (ser s) (host_collect (ser s)))|
             split; [|cbn [ser set_ser]; by rewrite Ei]]].
    + split; [by apply sys_ok_ser; [apply K1|]|]. split; [done|]. by apply (reader_ok_same pc _ s); [..|left|].
    + eapply rtc_r; [exact H3|]. apply step_event, ev_usb; [apply rtc_once, (usb_host _ (CollectIN 1))|apply K1].
Qed.

(** ** Properties *)

(** A running system whose link works and is empty on the way in. *)
Definition input_empty (s : fw) : Prop :=
  sys_ok s /\ link_ok (ser s) /\ clear_buffer (ser s) = false /\ rx_bytes (ser s) = [] /\ incoming (ser s) = None.

Lemma at_rest_input_empty s : at_rest s -> input_empty s.
Proof. intros ((H1&H2&H3&_)&H4&_&H5). by split_and!. Qed.

Lemma input_empty_start s : input_empty s -> readable (0%nat, s) /\ outlook (ser s) = ([], reader_start).
Proof.
  intros (H1&H2&H3&H4&H5). split.
  - split; [done|]. split; [cbn; lia|]. unfold reader_ok. cbn [fst snd]. rewrite H3, H4. split; [done|]. split; [done|]. by left; left.
  - unfold outlook, reader_of. rewrite H3, H4, H5. reflexivity.
Qed.

Lemma history_understands s k ps l y :
  input_empty s -> history (0%nat, s) k ps l y -> no_restart (understand ps) ->
  readable y /\ on_track (understand ps) l y /\ rtc step (0%nat, s) y.
Proof.
  intros Hs H Hno. destruct (input_empty_start s Hs) as [H1 H2].
  destruct (history_reads _ _ _ _ _ H H1) as (G1&G2&G3&_); cbn [snd] in *; rewrite ?H2, ?and_then_nil in *; [done|].
  by split_and!.
Qed.

(** Once the last packet has been read, everything has been seen. *)
Lemma history_all_seen s k ps l y k' l' pc s' :
  input_empty s -> history (0%nat, s) k ps l y -> no_restart (understand ps) ->
  history y k' [] l' (pc, s') -> (pending (incoming (ser y.2)) <= k')%nat -> pc <> 1%nat ->
  understand ps = (l ++ l', {| held := rx_bytes (ser s'); skipping := false |}).
Proof.
  intros Hs H Hno H' Hk Hpc. destruct (history_understands s k ps l y Hs H Hno) as (Hy&Ht&_).
  unfold on_track in Ht.
  destruct (history_reads _ _ _ _ _ H' Hy) as ((_&_&H3)&H4&_&H5); cbn [hear_packets]; rewrite ?and_then_ret in *.
  { intros Hin. apply Hno. rewrite Ht. cbn [fst]. apply elem_of_app. by right. }
  unfold on_track in H4. cbn [fst snd] in *. rewrite Ht. cbn [fst snd]. rewrite H4. cbn [fst snd].
  rewrite (outlook_over pc s' H3 Hpc) by (rewrite H5 by done; lia). cbn [fst snd]. by rewrite app_nil_r.
Qed.

(** The host sends 's' to a robot at rest. *)
Lemma stop_history : exists s s1 s3,
  input_empty s /\ history (0%nat, s) 0 [[115]] [] (0%nat, s1) /\ pending (incoming (ser s1)) = 1%nat /\
  history (0%nat, s1) 1 [] [Message [115]] (2%nat, s3).
Proof.
  destruct at_rest_exists as (s&Hr&_). apply at_rest_input_empty in Hr.
  destruct (input_empty_start s Hr) as [Hrd _]. pose proof Hr as (_&Hl&Hc&Hrx&Hi).
  assert (Hb : Forall is_byte [115]) by (by apply small_bytes).
  assert (H1 : history (0%nat, s) 0 [[115]] [] (0%nat, set_ser (host_packet [115] (ser s)) s)).
  { apply (hist_packet _ 0 [] []); [apply hist_start|done..]. }
  assert (He : UsbEndpoint.event (rx_ep (ser s)) = false) by (unfold incoming in Hi; by destruct (UsbEndpoint.event _)).
  destruct (host_packet_link [115] (ser s) Hl He) as (_&_&_&K4&K5&K6&K7); [done..|].
  set (s1 := set_ser _ s) in *.
  destruct (packet_reads (outlook (ser s)) [] 0 s [115] Hrd) as [(S1&_&R1) _]; [by unfold on_track; destruct (outlook _)|done..|].
  fold s1 in S1, R1. cbn [fst snd] in S1, R1.
  destruct (proj1 (wp_run _ _ _) (task_sys 0 USB_Upkeep_Task s1 eq_refl S1 I)) as ([]&s2&E2&S2).
  destruct (upkeep_reads s1 s2 R1 E2) as (R2&_&_&Erx). cbn [s1 ser set_ser] in Erx.
  rewrite K4, K7, Hc, Hrx in Erx. unfold incoming in Erx. rewrite K5, K6 in Erx. cbn [app next_byte] in Erx.
  assert (Hm : message_defined s2).
  { intros c Hc' Hp. rewrite Erx in Hc'. injection Hc' as <-. exfalso. revert Hp. apply not_in_codes. by vm_compute. }
  destruct (proj1 (wp_run _ _ _) (Message_Handling_ok s2 S2 Hm)) as ([]&s3&E3&_).
  exists s, s1, s3. split; [done|]. split; [exact H1|]. split.
  { unfold pending, incoming. cbn [s1 ser set_ser]. by rewrite K5, K6. }
  pose proof (hist_task _ _ _ _ 0 USB_Upkeep_Task s1 s2 (hist_start (0%nat, s1)) eq_refl I E2) as G1.
  pose proof (hist_task _ _ _ _ 1 Message_Handling_Task s2 s3 G1 eq_refl Hm E3) as G2.
  cbn [Nat.eqb app] in G2. rewrite Erx in G2. exact G2.
Qed.

(** C3: the machine understands what the host says.  Start from a running
    system with an empty input and let it run in any way that leaves the link up
    ([history]) while the host sends packets of any bytes, in which no '~' comes to stand as a command: the
    inputs the interpreter sees in front - whole messages, and bytes that start
    none - are a prefix of those the reference reader finds in the packets, in
    the same order, each once; they are all of them, and the input ring holds
    what the reader holds, whenever no byte of a packet is left and the
    interpreter has had its turn; every whole message is handled as its command
    asks; and the ring never holds more than 13 of its 63 bytes, so none is
    lost. *)
Theorem commands_in_order s k ps l pc s' :
  input_empty s -> history (0%nat, s) k ps l (pc, s') -> no_restart (understand ps) ->
  rtc step (0%nat, s) (pc, s') /\
  (exists l', (understand ps).1 = l ++ l') /\
  (pending (incoming (ser s')) = 0%nat -> pc <> 1%nat ->
     (understand ps).1 = l /\ held (understand ps).2 = rx_bytes (ser s')) /\
  (forall m, pc = 1%nat -> front (rx_bytes (ser s')) = Some (Message m) -> message_defined s' ->
     wp Message_Handling_Task (fun _ s2 => exists c, m !! 0%nat = Some c /\ handled (length m) c s' s2) s') /\
  (length (rx_bytes (ser s')) <= 13)%nat.
Proof.
  intros Hs H Hno. destruct (history_understands s k ps l _ Hs H Hno) as ((H1&H2&H3)&H4&H5).
  unfold on_track in H4. cbn [fst snd] in *. split; [done|]. split; [by rewrite H4; eexists|]. split; [|split].
  - intros Hp Hpc. rewrite H4, (outlook_over pc s' H3 Hpc Hp). cbn [fst snd]. by rewrite app_nil_r.
  - intros m -> Hm Hd. destruct (front_message _ _ Hm) as (c&Hc&Hk&Hn&_&Hl&Hmc).
    eapply wp_mono; [apply (task_handled s' c (length m)); try done; [apply H1| |lia|]|].
    + intros ->. apply Hno. rewrite H4. cbn [fst]. apply elem_of_app. right. apply outlook_front.
      by rewrite <- (restart_alone m).
    + intros Hp. apply (Hd c); [done..|lia].
    + intros [] s2 Hh. by exists c.
  - by apply (reader_ok_bound pc).
Qed.

Lemma commands_in_order_witness : exists s s',
  history (0%nat, s) 1 [[115]] [Message [115]] (2%nat, s') /\ (understand [[115]]).1 = [Message [115]] /\
  (length (rx_bytes (ser s')) <= 13)%nat.
Proof.
  destruct stop_history as (s&s1&s3&H0&H1&_&H2). exists s, s3. pose proof (history_trans _ _ _ _ _ _ _ _ _ H1 H2) as H.
  split; [exact H|]. split; [vm_compute; reflexivity|].
  apply (commands_in_order s 1 [[115]] [Message [115]] 2 s3 H0 H). apply not_elem_of_cons.
  split; [discriminate|apply not_elem_of_nil].
Defined.

(** C16: every packet gets through, unless a '~' stands in the way.  After any
    [history] (the link stays up) in whose packets no '~' comes to stand as a command (it would stay in front
    of the input for ever, and nothing behind it would be seen), if the host sends
    nothing more and the machine has run as many upkeep tasks as bytes of the last packet
    were left, and the interpreter has had its turn, the interpreter has seen all
    inputs of all packets. *)
Theorem packets_get_through s k ps l y k' l' pc s' :
  input_empty s -> history (0%nat, s) k ps l y -> no_restart (understand ps) ->
  history y k' [] l' (pc, s') -> (pending (incoming (ser y.2)) <= k')%nat -> pc <> 1%nat ->
  (understand ps).1 = l ++ l' /\ held (understand ps).2 = rx_bytes (ser s').
Proof. intros. by rewrite (history_all_seen s k ps l y k' l' pc s'). Qed.

Lemma packets_get_through_witness : exists s s',
  history (0%nat, s) 1 [[115]] [Message [115]] (2%nat, s') /\ [] = rx_bytes (ser s').
Proof.
  destruct stop_history as (s&s1&s3&H0&H1&Hp&H2). exists s, s3.
  split; [exact (history_trans _ _ _ _ _ _ _ _ _ H1 H2)|].
  destruct (packets_get_through s 0 [[115]] [] (0%nat, s1) 1 [Message [115]] 2 s3 H0 H1) as [_ H];
    [apply not_elem_of_cons; split; [discriminate|apply not_elem_of_nil]|exact H2| |discriminate|exact H].
  cbn [snd]. rewrite Hp. lia.
Defined.
