(* ===== verification/HostOrders.v ===== *)
(** * HostOrders: what the host's packets make of the robot

    CommandStream says which inputs the interpreter sees, DriveMachine what
    each does to the wheels.  Together: from the packets alone the host knows
    whether the robot stands still, and how soon. *)
From stdpp Require Import relations.
From S2P Require Import Prelude.
From S2P Require Import Float32.
From S2P Require Import RingBuffer.
From S2P Require Import Controller.
From S2P Require Import Avr.
From S2P Require Import Timing.
From S2P Require Import MotorPWM.
From S2P Require Import Proximity.
From S2P Require Import Battery.
From S2P Require Import UsbEndpoint.
From S2P Require Import UsbStream.
From S2P Require Import SerialIO.
From S2P Require Import UsbDevice.
From S2P Require Import SerialLink.
From S2P Require Import Firmware.
From S2P Require Import MessageHandling.
From S2P Require Import MessageSpec.
From S2P Require Import ObstacleAvoidance.
From S2P Require Import MainLoop.
From S2P Require Import MainSpec.
From S2P Require Import System.
From S2P Require Import Blocks.
From S2P Require Import Passes.
From S2P Require Import Dialogue.
From S2P Require Import DriveMachine.
From S2P Require Import CommandStream.
Import Call.

(** ** Orders in the inputs *)

(** What an input asks of the wheels. *)
Definition asks (i : input) : option motion :=
  match i with
  | Message (c :: data) => motion_of c data
  | _ => None
  end.

(** Whether the robot stands still after the inputs, [b] saying whether it did
    before: a stop makes it stand, an order may set it going. *)
Definition stands_after (m : option motion) (b : bool) : bool :=
  match m with
  | Some Halt => true
  | Some m => b && negb (sets_going m)
  | None => b
  end.
Fixpoint stands (l : list input) (b : bool) : bool :=
  match l with
  | [] => b
  | i :: l => stands l (stands_after (asks i) b)
  end.

(** A distance, a calculation, a stop, an encoder request: the robot stands. *)
Example stands_after_stop :
  stands (understand [ch "d" :: [0; 0; 0; 63; 0; 0; 0; 63]; [ch "s"; ch "e"]]).1 true = true /\
  stands (understand [[ch "s"]; ch "d" :: [0; 0; 0; 63; 0; 0; 0; 63]]).1 true = false.
Proof. by vm_compute. Qed.

Lemma stands_app l1 l2 b : stands (l1 ++ l2) b = stands l2 (stands l1 b).
Proof. revert b. induction l1 as [|i l1 IH]; intros b; [done|apply IH]. Qed.

(** The order of the interpreter is what the input in front asks, if the battery
    carries it; a stop is always carried. *)
Lemma ordered_front s :
  ordered s =
    match front (rx_bytes (ser s)) with
    | Some (Message (c :: data)) => if carried c (Battery.Battery_Voltage (bat s)) then motion_of c data else None
    | _ => None
    end.
Proof.
  unfold ordered, front. destruct (rx_bytes (ser s)) as [|c q]; [done|].
  pose proof (commands_spec c) as Hc. set (n := MEGN540_Message_Len c) in *. case_decide as Hk.
  - rewrite (proj2 (Z.ltb_lt 0 n)) by (by apply Hc). rewrite andb_true_l.
    destruct (Nat.leb_spec (Z.to_nat n) (length (c :: q))) as [Hl|Hl].
    + rewrite (proj2 (Z.leb_le n _)) by lia. rewrite andb_true_l.
      assert (Hn : 0 < n) by (by apply Hc). destruct (Z.to_nat n) as [|k] eqn:Ek; [lia|].
      by rewrite Nat.sub_1_r.
    + by rewrite (proj2 (Z.leb_gt n _)) by lia.
  - rewrite (proj2 (Z.ltb_ge 0 n)); [done|]. apply Z.nlt_ge. by intros Hn; apply Hk, Hc.
Qed.

Lemma stop_carried c data v : motion_of c data = Some Halt -> carried c v = true.
Proof.
  intros H. assert (Hc : c = ch "s" \/ c = ch "S").
  { unfold motion_of in H. repeat case_match; simplify_eq.
    by match goal with H : _ || _ = true |- _ => apply orb_true_iff in H as [->%Z.eqb_eq| ->%Z.eqb_eq]; [left|right] end. }
  by destruct Hc as [->| ->].
Qed.

(** One turn of the interpreter. *)
Lemma order_stands s b d :
  (b = true -> idle d) -> stands (option_list (front (rx_bytes (ser s)))) b = true -> idle (after (ordered s) d).
Proof.
  intros Hb. rewrite ordered_front. destruct (front _) as [[[|c data]|c]|]; cbn [option_list option_rect stands asks]; [done| |done..].
  destruct (motion_of c data) as [m|] eqn:Em; [|cbn [stands_after]; intros ->; case_match; by apply Hb].
  assert (E : m = Halt \/ stands_after (Some m) b = b && negb (sets_going m)) by (destruct m; first [by right|by left]).
  destruct E as [->| ->]; [rewrite (stop_carried _ _ _ Em); by intros; split_and!|].
  intros [H1 H2]%andb_true_iff. case_match; [|by apply Hb].
  apply negb_true_iff in H2. apply idle_move; [by apply Hb|by apply (motion_of_order c data m)|done].
Qed.

(** As long as the robot stands after the inputs seen, it is idle. *)
Lemma history_stands x k ps l y b :
  history x k ps l y -> readable x -> no_restart (and_then (outlook (ser x.2)) (hear_packets ps)) ->
  (b = true -> idle (drive_of x.2)) -> stands l b = true -> idle (drive_of y.2).
Proof.
  intros H Hx Hno Hb. revert Hno.
  induction H as [|k ps l pc t s s' H IH Ht Hw E|k ps l pc s s' H IH He Hp|k ps l pc s p H IH Hi Hp Hb'|k ps l pc s H IH]; intros Hno.
  - done.
  - destruct (history_reads _ _ _ _ _ H Hx Hno) as ((Hs&_)&_). cbn [snd] in *. rewrite stands_app.
    destruct (decide (pc = 1%nat)) as [->|Hpc]; cbn [Nat.eqb].
    + cbn [main_tasks list_lookup] in Ht. injection Ht as <-.
      rewrite (wp_result _ _ _ _ _ (interpreter_moves s (proj1 Hs) Hw) E). by apply order_stands, IH.
    + rewrite (proj2 (Nat.eqb_neq pc 1)) by done. intros Hst. apply (calm_idle (pc, s) (next_pc pc, s')).
      * split; [by apply (step_task pc t)|done].
      * done.
      * by apply IH.
  - destruct (history_reads _ _ _ _ _ H Hx Hno) as ((Hs&_)&_). cbn [snd] in *. rewrite (event_drive s s') by done. by apply IH.
  - rewrite hear_packets_snoc in Hno. cbn [snd] in *. rewrite (drive_of_kept s) by done. apply IH.
    intros Hin. apply Hno. unfold and_then at 1. cbn [fst]. apply elem_of_app. by left.
  - cbn [snd] in *. rewrite (drive_of_kept s) by done. by apply IH.
Qed.

(** ** Property *)

(** C5: the host has the last word.  Start from a running system with an empty
    input, standing still or ([b] is false) in any motion, and let it run in
    any way that leaves the link up ([history]: no bus reset or new address
    between the blocks) while the host sends packets of any bytes in which no '~' comes to
    stand as a command (the restart command stays in front of the input for
    ever, and a stop behind it is never read).  If by these packets the robot
    stands - the last input that concerns the wheels is a stop, or it stood
    still and none sets it going - then it is idle as soon as the machine has run as
    many upkeep tasks as bytes of the last packet were left and the interpreter has
    had its turn, and it stays so until the host sends again: outputs disabled,
    goals zero, every control, timed stop and obstacle avoidance off. *)
Theorem last_word_stop s b k ps l y k' l' pc s' :
  input_empty s -> (b = true -> idle (drive_of s)) ->
  history (0%nat, s) k ps l y -> no_restart (understand ps) -> stands (understand ps).1 b = true ->
  history y k' [] l' (pc, s') -> (pending (incoming (ser y.2)) <= k')%nat -> pc <> 1%nat ->
  idle (drive_of s').
Proof.
  intros Hs Hb H Hno Hst H' Hk Hpc. pose proof (history_trans _ _ _ _ _ _ _ _ _ H H') as G. rewrite app_nil_r in G.
  destruct (input_empty_start s Hs) as [Hr Eo].
  apply (history_stands _ _ _ _ _ b G Hr); cbn [snd]; rewrite ?Eo, ?and_then_nil; [done..|].
  by rewrite (history_all_seen s k ps l y k' l' pc s') in Hst.
Qed.

(** Whatever the robot does, an 's' in a packet of its own stops it in one pass. *)
Lemma last_word_stop_witness : exists s s1 s3,
  history (0%nat, s) 0 [[ch "s"]] [] (0%nat, s1) /\ history (0%nat, s1) 1 [] [Message [ch "s"]] (2%nat, s3) /\
  idle (drive_of s3).
Proof.
  destruct stop_history as (s&s1&s3&H0&H1&Hp&H2). exists s, s1, s3. split; [exact H1|]. split; [exact H2|].
  apply (last_word_stop s false 0 [[115]] [] (0%nat, s1) 1 [Message [115]] 2 s3 H0);
    [discriminate|exact H1| |vm_compute; reflexivity|exact H2| |discriminate].
  - apply not_elem_of_cons. split; [discriminate|apply not_elem_of_nil].
  - cbn [snd]. rewrite Hp. lia.
Defined.
